(* ===== verification/_CoqProject ===== *)
-Q . S2P
Prelude.v
Domain.v
Schema.v
Frame.v
Text.v
Encoding.v
Json.v
RoundTrip.v
Floats.v
Sha256.v
Blob.v
R2.v
Validator.v
Store.v
Pipeline.v
Redaction.v
Media.v
Probe.v
Review.v
Erasure.v
Retention.v
Steps.v
Worker.v
Turns.v
Release.v
Multipart.v
Identity.v
Campaign.v
System.v
Trail.v
Constraints.v
Invariants.v
Tracing.v
Http.v
AccessLog.v
Catalog.v
Files.v
Uploads.v
Governance.v
Exporter.v
Handoff.v
Contributors.v
Router.v
Config.v
Migrate.v
Commands.v
Drain.v
