(* ===== verification/Prelude.v ===== *)
(** * DataTrains control plane: a verification library

    ** The program

    DataTrains collects recordings of computer work.  The control plane under
    [src/services/api] is a Go server over PostgreSQL: contributors accept a consent
    document, record an assigned task and upload the artifacts of the session; a
    worker validates the trajectory; a reviewer claims and decides the session;
    accepted sessions may be redacted, are put into dataset releases, expire under a
    retention policy, may be put under legal hold and may be erased.  All durable
    state is in the database, and every change of it is one serializable transaction
    of a method of [database.Store].

    ** The development

    The library is a shallow embedding of the server and its worker.  [Prelude] (this
    file) holds what the components share: the [result] type and the state-and-error
    monad of a transaction with its notation and tactics, 64-bit integers, Go's string
    functions, tables as [gmap] with their queries.  Then, from the bottom up:

    Data and text.
    - [Domain]: [internal/domain] (records, [SessionState], the transition table,
      [Session.Transition]) and [internal/id] ([New]).
    - [Schema]: the rows of the migrations, the database [db] as a record of tables,
      inserts with the keys, foreign keys, unique indexes and checks they can
      violate, [insertAudit], and the queue queries that the workers share.
    - [Frame]: [respects R m], what a transaction may change, with its hint
      database, and the inversion lemmas of the statements.
    - [Text]: [strings], [strconv], [path] and [path/filepath].  [Encoding], [Json],
      [Sha256]: [encoding/json] in both directions, [time], [crypto/sha256]; all
      executable.  [RoundTrip]: the decoder inverts the encoder.  [Floats]: a positive
      binary64 is read back from its shortest text.

    Object storage ([internal/blobstore]).
    - [Blob]: the interface [BlobStore] as a type class, its laws [BlobLaws], what a store
      in service answers [BlobServing], and the local store over a file system of
      absolute paths.  [R2]: the remote store over
      an S3 client, an instance of the laws whenever the client keeps its contract.

    The database ([internal/database]).
    - [Store]: [store.go], [access.go].  [Pipeline]: [pipeline.go] (artifacts,
      submission, validation jobs).  [Redaction]: [redaction.go].  [Review]:
      [review.go].  [Erasure]: [erasure.go], [retention.go].  [Retention]:
      [retention_expiry.go].  [Release]: [release.go].  [Multipart]:
      [multipart_uploads.go] and the part plan of [httpapi/multipart_uploads.go].
      [Identity]: [identity.go], [invitation.go], [bootstrap.go].  [Campaign]:
      [admin.go], [operations.go].  [Migrate]: [migrate.go].
    - [System]: every writing operation as a [request], [exec] and [step], the
      states [reachable] from the migrated database, and the session lifecycle
      as an abstract specification that [exec] refines.
    - [Trail]: the audit log.  [Constraints]: the CHECK constraints of the migrations
      as predicates on rows, kept by every request, and what they say of the queues.
      [Invariants]: what else holds in every reachable state.

    The worker ([internal/worker]).
    - [Validator]: [validator.go].  [Media]: the runs of [media.go] and [redactor.go].
      [Probe]: what [media.go] reads of ffprobe, with [strconv.ParseFloat] in full.
    - [Steps]: a program that talks to the database and to an object store, as a
      function of a [world] and an [environment].  Each database call is a
      transaction of its own; before it the environment may change the database in
      any way ([env_meanwhile]), which is how other processes interleave.
    - [Worker]: [processor.go], the job loop and its four queues.  [Turns]: what a
      turn of the loop does, and sequences of turns.

    The API ([internal/httpapi], [internal/releases], [internal/authn],
    [internal/appconfig]).
    - [Tracing], [Http]: trace correlation, request and response, the middleware,
      authentication, the authorization wrappers, decoding of bodies.
    - [Catalog] ([api.go], [admin.go], [invitations.go]), [Contributors] (assignment
      lists and consent documents of [api.go]), [Files] ([artifacts.go], the downloads
      of [releases.go]), [Uploads] ([multipart_uploads.go]), [Governance]
      ([reviews.go], [redaction.go], [erasure.go], [retention.go]), [Exporter]
      ([releases/exporter.go] and [createRelease]): the handlers, each a function of
      the context and the request in the monad of [Steps].
    - [Handoff]: the worker's redactions as the exporter finds them.
    - [Router]: the patterns of [net/http], the route table as data, [Handler].
    - [AccessLog]: the response writer of the middleware and the record it logs.
    - [Config]: [appconfig/config.go] and the choice of the authenticator.

    The programs ([cmd/]).
    - [Commands]: opening the pool and the object store, building the worker and the
      API in the order of their [run], the loop of the worker with its drain mode
      over [ProcessNext], the shutdown of the API, the two one-shot commands.
    - [Drain]: the work a queue holds, and that every turn uses some of it up.

    A Go method [func (store *Store) Op(args) (T, error)] is a definition [Op] with
    the same arguments and result type [tx T], that is [db -> result error (T * db)].
    The statements of the body come in the order of the code, [return ..., Err] is
    [throw] or [fail_if], and a run that ends in an error leaves the database as it was, as
    the deferred [Rollback] does.  Reads are functions of the database.  Random
    bytes are an argument ([random], [None] when the generator fails), the clock is
    an argument, and [SKIP LOCKED] takes the set of keys other transactions hold.
    Operations of an object store are functions [blob_op] of the store that return a
    result and the store after them; a reader is the bytes it yields and the error it
    ends in, if any.

    ** What the theorems show

    - The whole store ([System], [Trail], [Invariants]): sessions move only as the
      lifecycle allows; nothing is recorded without the contributor's consent to a
      document in effect; the evidence of consent is permanent; erasure is final;
      an active legal hold excludes a leased erasure; no session changes without an
      event in the audit log, which only grows; every row satisfies the constraints
      of its table, and unfinished work always comes due again.
    - Each component of it: the branches of its operations, errors included
      ([..._cases], [..._gate]); idempotence of registration, redaction plans and
      releases; who may finish leased work; what an erasure, a purge or a release
      leaves behind.
    - Object storage: raw objects are immutable, keys stay below the root, what is put
      is got, both stores keep the laws of the interface.
    - The worker, whatever other processes do between its calls: it deletes only
      objects an erasure or purge lists; a session becomes ready only on validated
      evidence; the manifest of a redaction is true.  On a database nobody else
      changes the queue of erasures drains and a due erasure is carried out.
    - The API: every route is guarded as the policy table says; an unidentified
      caller reaches the probes only; what was answered 201 is stored and registered;
      ranges are exact; a release is sealed (manifest, checksums and bundle agree with
      the stored objects) and a redaction enters it only if it is sound; conversely
      what the worker completed is accepted, byte for byte, by the exporter.
    - Start-up: a loaded configuration keeps its bounds, production never runs on the
      local blob store or the local authenticator, migrations are applied once and
      their history is immutable; a worker that says it drained its queues did, or
      logged the failure of its last turn just before; in drain mode the worker
      returns.
    - Pure functions against a specification: cross references, canonical redaction
      documents, object inventories, part plans, part numbers, trace headers.

    ** Choices and bounds

    Transactions are serial: the isolation level is serializable and a conflict is an
    error of the whole call.  The database fails only by violating a constraint of
    the schema ([ErrConstraint]); lost connections are not modelled.  Times are
    nanoseconds since year 1 as integers, a lease or a backoff is a 64-bit
    duration; the microsecond rounding of [timestamptz] is not modelled.  Integers of
    Go are wrapped where a product or sum may overflow ([backoff], the part plan,
    durations of a request), columns of 32 bits are not bounded.  [float64] is
    [spec_float] of 53 bits; the conversion of a float out of range to an integer is
    that of amd64.  [ToLower] and [EqualFold] are those of ASCII, text is ordered by
    bytes (the C collation).  Sorting is stable, as [sort.Slice] need not be; keys
    that may be equal are equal in every field that is read after.  A [jsonb] column
    keeps the value without the sign of a zero ([stored_document]).

    Fuel appears only where a text shrinks ([trim_left], [parameters_ok],
    [duration_terms]: its length), where digits are produced ([decimal_digits]), in
    the float formatter (what it prints is proved to read back) and in the JSON reader, where twice
    the length of the text is proved enough.

    Parameters, with what is assumed of them named where it is used: the S3 client
    ([r2_contract]), the runs of FFprobe and FFmpeg, the JSON schema, the bytes of a
    zip archive, [url.Parse], [mail.ParseAddress], the text PostgreSQL gives a [jsonb]
    value, the execution of an SQL script, the verification of an OpenID token, the
    redirect [net/http] answers for an unclean path, the texts of errors.

    The programs take their platform as a parameter: environment variables, signals,
    the connection pool, the credentials of the S3 client, the executables, the files
    they read, the listener.  [worker_rounds] has fuel, and [None] for a worker that is
    still running when it ends: a worker without drain mode runs until a signal, for one
    in drain mode [Drain.drain_bound] is enough.

    Not modelled: goroutines and the HTTP server itself, temporary
    files (their operations do not fail), timeouts of child processes beyond the error
    they end in, row level security, grants and plain indexes, the microseconds of
    columns. *)

From stdpp Require Export base option list strings gmap sorting fin_maps relations.
From Stdlib Require Export ZArith Lia Ascii Strings.Byte.

#[export] Set Default Proof Using "Type".
#[export] Set Default Goal Selector "!".

Open Scope Z_scope.

(** ** Results

    A Go function that returns [(T, error)] is a function into [result E T];
    the zero value returned next to a non-nil error is not kept. *)

Inductive result (E A : Type) : Type :=
| Ok (a : A)
| Err (e : E).
Arguments Ok {E A} a.
Arguments Err {E A} e.

Definition result_bind {E A B} (f : A → result E B) (m : result E A) : result E B :=
  match m with
  | Ok a => f a
  | Err e => Err e
  end.

Definition is_ok {E A} (r : result E A) : bool :=
  match r with Ok _ => true | Err _ => false end.

Lemma result_bind_ok {E A B} (f : A → result E B) m b :
  result_bind f m = Ok b ↔ ∃ a, m = Ok a ∧ f a = Ok b.
Proof.
  destruct m as [a|e]; simpl; split.
  - eauto.
  - intros (a' & [= ->] & H). done.
  - done.
  - intros (a' & [=] & _).
Qed.

(** ** A state-and-error monad

    [ST S E A] is the type of an operation that runs inside a transaction: it
    either returns a value and the new state, or an error. *)

Definition ST (S E A : Type) : Type := S → result E (A * S).

Section monad.
Context {S E : Type}.

Definition ret {A} (a : A) : ST S E A := λ s, Ok (a, s).
Definition throw {A} (e : E) : ST S E A := λ _, Err e.
Definition bind {A B} (m : ST S E A) (k : A → ST S E B) : ST S E B := λ s,
  match m s with
  | Ok (a, s') => k a s'
  | Err e => Err e
  end.
Definition get : ST S E S := λ s, Ok (s, s).
Definition modify (f : S → S) : ST S E () := λ s, Ok ((), f s).
(** [if cond { return err }] *)
Definition fail_if (c : bool) (e : E) : ST S E () :=
  if c then throw e else ret ().
Definition lift {A} (r : result E A) : ST S E A :=
  match r with Ok a => ret a | Err e => throw e end.
(** A value that is absent is an error: [errors.Is(err, pgx.ErrNoRows)]. *)
Definition some_or {A} (o : option A) (e : E) : ST S E A :=
  match o with Some a => ret a | None => throw e end.
(** A loop over a slice whose body may return early with an error. *)
Fixpoint for_each {A} (l : list A) (body : A → ST S E ()) : ST S E () :=
  match l with
  | [] => ret ()
  | x :: l' => bind (body x) (λ _, for_each l' body)
  end.

(** The caller's view of a transaction: [defer tx.Rollback] discards every
    write of a transaction that returns an error. *)
Definition run_tx {A} (m : ST S E A) (s : S) : result E A * S :=
  match m s with
  | Ok (a, s') => (Ok a, s')
  | Err e => (Err e, s)
  end.

Lemma bind_ok {A B} (m : ST S E A) (k : A → ST S E B) s b s' :
  bind m k s = Ok (b, s') ↔ ∃ a s1, m s = Ok (a, s1) ∧ k a s1 = Ok (b, s').
Proof.
  unfold bind. destruct (m s) as [[a s1]|e]; split.
  - eauto.
  - intros (a' & s1' & [= -> ->] & H). done.
  - done.
  - intros (a' & s1' & [=] & _).
Qed.

Lemma fail_if_ok c e s (u : ()) s' :
  fail_if c e s = Ok (u, s') ↔ c = false ∧ s' = s.
Proof.
  destruct u. unfold fail_if, throw, ret. destruct c; split.
  - intros [=].
  - intros [[=] _].
  - intros [= ->]. done.
  - intros [_ ->]. done.
Qed.

Lemma some_or_ok {A} (o : option A) e s a s' :
  some_or o e s = Ok (a, s') ↔ o = Some a ∧ s' = s.
Proof.
  destruct o; unfold some_or, throw, ret; split.
  - intros [= -> ->]. done.
  - intros [[= ->] ->]. done.
  - intros [=].
  - intros [[=] _].
Qed.

Lemma lift_ok {A} (r : result E A) s a s' :
  lift r s = Ok (a, s') ↔ r = Ok a ∧ s' = s.
Proof.
  destruct r; unfold lift, throw, ret; split.
  - intros [= -> ->]. done.
  - intros [[= ->] ->]. done.
  - intros [=].
  - intros [[=] _].
Qed.

(** Running a transaction forward, one statement at a time. *)
Lemma bind_run {A B} (m : ST S E A) (k : A → ST S E B) s a s' :
  m s = Ok (a, s') → bind m k s = k a s'.
Proof. unfold bind. by intros ->. Qed.
Lemma bind_fails {A B} (m : ST S E A) (k : A → ST S E B) s e :
  m s = Err e → bind m k s = Err e.
Proof. unfold bind. by intros ->. Qed.
Lemma bind_get {B} (k : S → ST S E B) s : bind get k s = k s s.
Proof. done. Qed.
Lemma bind_modify {B} f (k : () → ST S E B) s : bind (modify f) k s = k () (f s).
Proof. done. Qed.
Lemma bind_ret {A B} (a : A) (k : A → ST S E B) s : bind (ret a) k s = k a s.
Proof. done. Qed.
Lemma bind_fail_if {B} c e (k : () → ST S E B) s :
  bind (fail_if c e) k s = if c then Err e else k () s.
Proof. by destruct c. Qed.
Lemma bind_some_or {A B} (o : option A) e (k : A → ST S E B) s :
  bind (some_or o e) k s = match o with Some a => k a s | None => Err e end.
Proof. by destruct o. Qed.
Lemma bind_lift {A B} (r : result E A) (k : A → ST S E B) s :
  bind (lift r) k s = match r with Ok a => k a s | Err e => Err e end.
Proof. by destruct r. Qed.
Lemma bind_assoc {A B C} (m : ST S E A) (k : A → ST S E B) (l : B → ST S E C) s :
  bind (bind m k) l s = bind m (λ a, bind (k a) l) s.
Proof. unfold bind. destruct (m s) as [[a s1]|]; done. Qed.

(** A failed transaction leaves the state as it was. *)
Lemma run_tx_rollback {A} (m : ST S E A) s e s' :
  run_tx m s = (Err e, s') → s' = s.
Proof. unfold run_tx. destruct (m s) as [[? ?]|]; intros [=]; done. Qed.
End monad.
Arguments ST : clear implicits.

Declare Scope tx_scope.
Delimit Scope tx_scope with tx.
Notation "x <- m ;; k" := (bind m (λ x, k))
  (at level 100, m at next level, right associativity) : tx_scope.
Notation "' p <- m ;; k" := (bind m (λ x, match x with p => k end))
  (at level 20, p pattern, m at level 99, k at level 200) : tx_scope.
Notation "m ;; k" := (bind m (λ _, k))
  (at level 100, right associativity) : tx_scope.
Open Scope tx_scope.

(** ** Machine integers *)

Definition wrap_int64 (x : Z) : Z := (x + 2 ^ 63) mod 2 ^ 64 - 2 ^ 63.
Definition wrap_uint64 (x : Z) : Z := x mod 2 ^ 64.
Definition in_int64 (x : Z) : Prop := - 2 ^ 63 ≤ x < 2 ^ 63.

Lemma wrap_int64_id x : in_int64 x → wrap_int64 x = x.
Proof. unfold wrap_int64, in_int64. intros. rewrite Z.mod_small; lia. Qed.

Lemma wrap_int64_range x : in_int64 (wrap_int64 x).
Proof.
  unfold wrap_int64, in_int64.
  pose proof (Z.mod_pos_bound (x + 2 ^ 63) (2 ^ 64) ltac:(lia)). lia.
Qed.

Lemma wrap_uint64_id x : 0 ≤ x < 2 ^ 64 → wrap_uint64 x = x.
Proof. apply Z.mod_small. Qed.

(** ** Instants

    [time.Time] is the instant in nanoseconds since the zero time of Go
    (0001-01-01T00:00:00Z); [time.UTC] changes the location of a value and not
    its instant, so it is the identity here.  [time.Duration] is a signed 64-bit
    count of nanoseconds. *)

Definition time : Type := Z.
Definition IsZero (t : time) : bool := t =? 0.
Definition After (t u : time) : bool := u <? t.
Definition second : Z := 1000000000.
Definition minute : Z := 60 * second.
Definition hour : Z := 60 * minute.
Definition day : Z := 24 * hour.
(** ['epoch'::timestamptz], 1970-01-01T00:00:00Z. *)
Definition epoch : time := 62135596800 * second.

(** ** Strings as byte sequences *)

Definition HasPrefix (s p : string) : bool := String.prefix p s.

Definition slen (s : string) : Z := Z.of_nat (String.length s).

Fixpoint sdrop (n : nat) (s : string) : string :=
  match n, s with
  | O, _ => s
  | S n', String _ s' => sdrop n' s'
  | S _, EmptyString => EmptyString
  end.

(** [strings.Contains] *)
Fixpoint Contains (s sub : string) : bool :=
  String.prefix sub s ||
  match s with
  | EmptyString => false
  | String _ s' => Contains s' sub
  end.

Definition byte_of (n : N) : ascii := ascii_of_N n.
Definition bytes_string (l : list N) : string :=
  foldr (λ n s, String (byte_of n) s) EmptyString l.

(** The UTF-8 encodings of the code points [unicode.IsSpace] accepts. *)
Definition space_encodings : list string :=
  map bytes_string
    ([[9]; [10]; [11]; [12]; [13]; [32]; [194; 133]; [194; 160]; [225; 154; 128];
      [226; 128; 168]; [226; 128; 169]; [226; 128; 175]; [226; 129; 159]; [227; 128; 128]]
     ++ map (λ k, [226; 128; (128 + k)]) [0; 1; 2; 3; 4; 5; 6; 7; 8; 9; 10])%N.

Fixpoint rev_string_onto (s acc : string) : string :=
  match s with
  | EmptyString => acc
  | String c s' => rev_string_onto s' (String c acc)
  end.
Definition rev_string (s : string) : string := rev_string_onto s EmptyString.

(** Strips from the left every encoding of the list, [fuel] times at most; a
    string has at most as many encodings as bytes. *)
Fixpoint trim_left (fuel : nat) (encs : list string) (s : string) : string :=
  match fuel with
  | O => s
  | S fuel' =>
    match list_find (λ e, String.prefix e s = true) encs with
    | Some (_, e) => trim_left fuel' encs (sdrop (String.length e) s)
    | None => s
    end
  end.

(** [strings.TrimSpace] *)
Definition TrimSpace (s : string) : string :=
  let l := trim_left (String.length s) space_encodings s in
  rev_string (trim_left (String.length l) (map rev_string space_encodings) (rev_string l)).

(** [strings.ToLower] on the ASCII range. *)
Definition lower_ascii (c : ascii) : ascii :=
  let n := N_of_ascii c in
  if (65 <=? n)%N && (n <=? 90)%N then ascii_of_N (n + 32) else c.
Fixpoint ToLower (s : string) : string :=
  match s with
  | EmptyString => EmptyString
  | String c s' => String (lower_ascii c) (ToLower s')
  end.

(** Number of characters of a UTF-8 string: the bytes that are not continuation
    bytes; this is what SQL's [length] counts. *)
Fixpoint char_length (s : string) : Z :=
  match s with
  | EmptyString => 0
  | String c s' =>
    (if (128 <=? N_of_ascii c)%N && (N_of_ascii c <? 192)%N then 0 else 1) + char_length s'
  end.

(** Decimal text of an integer: [fmt.Sprint]. *)
Definition digit (n : Z) : ascii := ascii_of_N (48 + Z.to_N n).
Fixpoint decimal_digits (fuel : nat) (n : Z) (acc : string) : string :=
  match fuel with
  | O => acc
  | S fuel' =>
    let acc' := String (digit (n mod 10)) acc in
    if n <? 10 then acc' else decimal_digits fuel' (n / 10) acc'
  end.
Definition Sprint (n : Z) : string :=
  if n <? 0 then String "-"%char (decimal_digits 20 (- n) "")
  else decimal_digits 20 n "".
Definition Sprint_bool (b : bool) : string := if b then "true" else "false".

(** *** [encoding/hex] *)
Definition hex_digit (n : N) : ascii :=
  if (n <? 10)%N then ascii_of_N (48 + n) else ascii_of_N (87 + n).
Definition hex_value (c : ascii) : option N :=
  let n := N_of_ascii c in
  if (48 <=? n)%N && (n <=? 57)%N then Some (n - 48)%N
  else if (97 <=? n)%N && (n <=? 102)%N then Some (n - 87)%N
  else if (65 <=? n)%N && (n <=? 70)%N then Some (n - 55)%N
  else None.
Fixpoint EncodeToString (bs : list byte) : string :=
  match bs with
  | [] => EmptyString
  | b :: bs' =>
    let n := Byte.to_N b in
    String (hex_digit (n / 16)) (String (hex_digit (n mod 16)) (EncodeToString bs'))
  end.
Fixpoint DecodeString (s : string) : option (list byte) :=
  match s with
  | EmptyString => Some []
  | String _ EmptyString => None
  | String a (String b s') =>
    match hex_value a, hex_value b, DecodeString s' with
    | Some h, Some l, Some bs =>
      match Byte.of_N (16 * h + l) with
      | Some x => Some (x :: bs)
      | None => None
      end
    | _, _, _ => None
    end
  end.

(** ** JSON values, as [encoding/json] decodes them with [UseNumber] *)
Inductive json : Type :=
| JNull
| JBool (b : bool)
| JNumber (text : string)
| JString (s : string)
| JArray (l : list json)
| JObject (fields : list (string * json)).

(** ** Queries over a table

    A table is a [gmap] from the primary key to the row. *)
Section tables.
Context `{Countable K} {R : Type}.
Implicit Types (m : gmap K R) (p : K → R → bool).

(** [EXISTS (SELECT 1 FROM m WHERE p)] *)
Definition exists_row p m : bool := existsb (λ kr, p kr.1 kr.2) (map_to_list m).

(** [SELECT ... FROM m WHERE p], in an unspecified order. *)
Definition select p m : list (K * R) :=
  List.filter (λ kr, p kr.1 kr.2) (map_to_list m).

(** [UPDATE m SET f WHERE p] *)
Definition update_where p (f : R → R) m : gmap K R :=
  map_imap (λ k r, Some (if p k r then f r else r)) m.

(** [DELETE FROM m WHERE p] *)
Definition delete_where p m : gmap K R :=
  map_imap (λ k r, if p k r then None else Some r) m.

Lemma exists_row_spec p m :
  exists_row p m = true ↔ ∃ k r, m !! k = Some r ∧ p k r = true.
Proof.
  unfold exists_row. rewrite existsb_exists. split.
  - intros ([k r] & Hin & Hp). exists k, r. split; [|done].
    by apply elem_of_map_to_list, list_elem_of_In.
  - intros (k & r & Hk & Hp). exists (k, r). split; [|done].
    by apply list_elem_of_In, elem_of_map_to_list.
Qed.

Lemma exists_row_false p m :
  exists_row p m = false ↔ ∀ k r, m !! k = Some r → p k r = false.
Proof.
  rewrite <-not_true_iff_false, exists_row_spec. split.
  - intros Hn k r Hk. apply not_true_is_false. naive_solver.
  - intros Hf (k & r & Hk & Hp). rewrite (Hf k r Hk) in Hp. done.
Qed.

Lemma select_spec p m k r :
  (k, r) ∈ select p m ↔ m !! k = Some r ∧ p k r = true.
Proof.
  unfold select. rewrite list_elem_of_In, filter_In, <-list_elem_of_In.
  by rewrite elem_of_map_to_list.
Qed.

Lemma lookup_update_where p f m k :
  update_where p f m !! k = (λ r, if p k r then f r else r) <$> m !! k.
Proof. unfold update_where. rewrite map_lookup_imap. by destruct (m !! k). Qed.

Lemma lookup_delete_where p m k :
  delete_where p m !! k =
    match m !! k with
    | Some r => if p k r then None else Some r
    | None => None
    end.
Proof. unfold delete_where. rewrite map_lookup_imap. by destruct (m !! k). Qed.
End tables.

Lemma alter_as_insert `{Countable K} {R} (f : R → R) (m : gmap K R) k r :
  m !! k = Some r → alter f k m = <[k := f r]> m.
Proof.
  intros Hk. apply map_eq. intros j. destruct (decide (j = k)) as [->|Hj].
  - by rewrite lookup_alter_eq, lookup_insert_eq, Hk.
  - by rewrite lookup_alter_ne, lookup_insert_ne.
Qed.

(** ** [ORDER BY ... LIMIT 1] *)
Section first_by.
Context {A : Type} (le : A → A → bool).

Fixpoint first_by (l : list A) : option A :=
  match l with
  | [] => None
  | x :: l' =>
    match first_by l' with
    | None => Some x
    | Some y => if le x y then Some x else Some y
    end
  end.

Lemma first_by_elem l x : first_by l = Some x → x ∈ l.
Proof.
  revert x. induction l as [|y l IH]; intros x; [done|]. cbn.
  destruct (first_by l) as [z|].
  - destruct (le y z); intros [= ->]; [left|right]. by apply IH.
  - intros [= ->]. left.
Qed.

Lemma first_by_none l : first_by l = None ↔ l = [].
Proof.
  destruct l as [|x l]; [done|]. cbn.
  destruct (first_by l) as [y|]; [destruct (le x y)|]; done.
Qed.

Context (le_trans : ∀ x y z, le x y = true → le y z = true → le x z = true).
Context (le_total : ∀ x y, le x y = true ∨ le y x = true).

Lemma first_by_least l x y : first_by l = Some x → y ∈ l → le x y = true.
Proof using le_trans le_total.
  revert x y. induction l as [|z l IH]; intros x y; [done|]. cbn.
  destruct (first_by l) as [w|] eqn:Hw.
  - intros Hx [->|Hy]%elem_of_cons.
    + destruct (le z w) eqn:Hzw; injection Hx as <-.
      * by destruct (le_total z z).
      * destruct (le_total z w); [congruence|done].
    + specialize (IH w y eq_refl Hy).
      destruct (le z w) eqn:Hzw; injection Hx as <-; eauto.
  - apply first_by_none in Hw as ->. intros [= ->] [->|Hy]%elem_of_cons.
    + by destruct (le_total x x).
    + by apply elem_of_nil in Hy.
Qed.
End first_by.

(** ** Order of strings: byte-wise, as Go's [<] and the C collation *)
Definition string_leb (a b : string) : bool := bool_decide (String.le a b).

Lemma string_leb_trans a b c :
  string_leb a b = true → string_leb b c = true → string_leb a c = true.
Proof. unfold string_leb. rewrite !bool_decide_eq_true. by intros; etrans. Qed.

Lemma string_leb_total a b : string_leb a b = true ∨ string_leb b a = true.
Proof. unfold string_leb. rewrite !bool_decide_eq_true. apply (total String.le). Qed.

Lemma string_leb_antisym a b : string_leb a b = true → string_leb b a = true → a = b.
Proof. unfold string_leb. rewrite !bool_decide_eq_true. by intros; apply (anti_symm String.le). Qed.

(** [ORDER BY t, id] *)
Definition time_id_leb (x y : time * string) : bool :=
  if x.1 <? y.1 then true else if y.1 <? x.1 then false else string_leb x.2 y.2.

Lemma time_id_leb_trans x y z :
  time_id_leb x y = true → time_id_leb y z = true → time_id_leb x z = true.
Proof.
  unfold time_id_leb.
  destruct (Z.ltb_spec x.1 y.1), (Z.ltb_spec y.1 z.1), (Z.ltb_spec y.1 x.1),
    (Z.ltb_spec z.1 y.1), (Z.ltb_spec x.1 z.1), (Z.ltb_spec z.1 x.1);
    try done; try lia.
  apply string_leb_trans.
Qed.

Lemma time_id_leb_total x y : time_id_leb x y = true ∨ time_id_leb y x = true.
Proof.
  unfold time_id_leb.
  destruct (Z.ltb_spec x.1 y.1), (Z.ltb_spec y.1 x.1); eauto.
  apply string_leb_total.
Qed.

(** ** Sorting *)
Definition sort_strings (l : list string) : list string := merge_sort String.le l.

Lemma sort_strings_Permutation l : sort_strings l ≡ₚ l.
Proof. apply merge_sort_Permutation. Qed.

Lemma sort_strings_sorted l : StronglySorted String.le (sort_strings l).
Proof. apply StronglySorted_merge_sort; apply _. Qed.

(** ** Tactics *)

(** Destructs what a successful run of a transaction says about its steps. *)
Ltac tx_inv_step :=
  match goal with
  | H : bind _ _ _ = Ok (_, _) |- _ =>
    let a := fresh "a" in let s := fresh "s" in
    let H1 := fresh "H" in
    apply bind_ok in H as (a & s & H1 & H); cbn beta in H
  | H : fail_if _ _ _ = Ok (_, _) |- _ => apply fail_if_ok in H as [H ->]
  | H : some_or _ _ _ = Ok (_, _) |- _ => apply some_or_ok in H as [H ->]
  | H : lift _ _ = Ok (_, _) |- _ => apply lift_ok in H as [H ->]
  | H : get _ = Ok (_, _) |- _ => first [injection H as <- <- | injection H as <-]
  | H : ret _ _ = Ok (_, _) |- _ => first [injection H as <- <- | injection H as <-]
  | H : modify _ _ = Ok (_, _) |- _ => first [injection H as <- <- | injection H as <-]
  | H : throw _ _ = Ok (_, _) |- _ => discriminate H
  | H : Ok _ = Ok _ |- _ => first [injection H as <- <- | injection H as <-]
  | H : (match ?p with (_, _) => _ end) _ = Ok (_, _) |- _ => destruct p; cbn beta iota in H
  | H : (let _ := _ in _) _ = Ok (_, _) |- _ => cbv zeta in H
  | H : Err _ = Ok _ |- _ => discriminate H
  end.
Ltac tx_inv := repeat tx_inv_step.

(** Runs a transaction forward as far as its statements compute. *)
Ltac tx_run :=
  repeat first
    [ rewrite bind_get | rewrite bind_modify | rewrite bind_ret | rewrite bind_fail_if
    | rewrite bind_some_or | rewrite bind_lift | rewrite bind_assoc ]; cbv beta iota zeta.

(** ** Facts on strings *)
Lemma string_app_cons x a b : String x a +:+ b = String x (a +:+ b).
Proof. reflexivity. Qed.
Lemma string_app_nil_l b : "" +:+ b = b.
Proof. reflexivity. Qed.

Lemma string_app_assoc a b c : (a +:+ b) +:+ c = a +:+ b +:+ c.
Proof. induction a as [|x a IH]; [done|]. by rewrite !string_app_cons, IH. Qed.

Lemma string_app_nil_r a : a +:+ "" = a.
Proof. induction a as [|x a IH]; [done|]. by rewrite !string_app_cons, IH. Qed.

Lemma string_length_app a b :
  String.length (a +:+ b) = (String.length a + String.length b)%nat.
Proof.
  induction a as [|x a IH]; [done|].
  rewrite string_app_cons. cbn [String.length]. by rewrite IH.
Qed.

Lemma string_app_inj_r a b c d :
  String.length b = String.length d → a +:+ b = c +:+ d → a = c ∧ b = d.
Proof.
  intros Hl. revert c.
  induction a as [|x a IH]; intros [|y c] H;
    rewrite ?string_app_cons, ?string_app_nil_l in H.
  - done.
  - subst b. cbn [String.length] in Hl. rewrite string_length_app in Hl. lia.
  - subst d. cbn [String.length] in Hl. rewrite string_length_app in Hl. lia.
  - injection H as -> H. apply IH in H as [-> ->]. done.
Qed.

Lemma string_app_inj_l a b c : a +:+ b = a +:+ c → b = c.
Proof.
  induction a as [|x a IH]; [done|]. rewrite !string_app_cons. intros [= H]. by apply IH.
Qed.

Lemma prefix_app a b : HasPrefix (a +:+ b) a = true.
Proof.
  unfold HasPrefix. induction a as [|x a IH]; [by destruct b|].
  rewrite string_app_cons. cbn [String.prefix]. by destruct (ascii_dec x x).
Qed.

Lemma prefix_exists s p : HasPrefix s p = true ↔ ∃ r, s = p +:+ r.
Proof.
  split; [|by intros [r ->]; apply prefix_app].
  unfold HasPrefix. revert s. induction p as [|x p IH]; intros s Hp; [by exists s|].
  destruct s as [|y s]; cbn in Hp; [done|].
  destruct (ascii_dec x y) as [->|]; [|done].
  apply IH in Hp as [r ->]. by exists r.
Qed.

Lemma Contains_spec s sub : Contains s sub = true ↔ ∃ a b, s = a +:+ sub +:+ b.
Proof.
  induction s as [|c s IH]; cbn [Contains]; rewrite orb_true_iff; change String.prefix with
    (λ a b, HasPrefix b a); cbn beta; rewrite prefix_exists.
  - split.
    + intros [[r Hr]|[=]]. exists "", r. by rewrite string_app_nil_l.
    + intros (a & b & H). left. exists b. destruct a; [done|discriminate H].
  - rewrite IH. split.
    + intros [[r Hr]|(a & b & ->)].
      * exists "", r. by rewrite string_app_nil_l.
      * exists (String c a), b. by rewrite !string_app_cons.
    + intros (a & b & H). destruct a as [|c' a].
      * left. exists b. by rewrite string_app_nil_l in H.
      * right. rewrite string_app_cons in H. injection H as -> H. by exists a, b.
Qed.

(** A property of small numbers, by evaluation. *)
Lemma all_below (P : N → Prop) `{decide_P : !∀ n, Decision (P n)} (k : nat) :
  forallb (λ n, bool_decide (P n)) (map N.of_nat (seq 0 k)) = true → ∀ n, (n < N.of_nat k)%N → P n.
Proof.
  intros H n Hn. rewrite forallb_forall in H. apply (bool_decide_eq_true_1 (P n)), H, in_map_iff.
  exists (N.to_nat n). split; [lia|]. apply in_seq. lia.
Qed.

Lemma hex_digit_value n : (n < 16)%N → hex_value (hex_digit n) = Some n.
Proof. apply (all_below (λ k, hex_value (hex_digit k) = Some k) 16). vm_compute. reflexivity. Qed.

(** Decoding inverts encoding, for all byte strings. *)
Lemma DecodeString_EncodeToString bs : DecodeString (EncodeToString bs) = Some bs.
Proof.
  induction bs as [|b bs IH]; [done|]. cbn [EncodeToString DecodeString].
  pose proof (Byte.to_N_bounded b) as Hb.
  rewrite !hex_digit_value, IH;
    [|apply N.mod_lt; lia|apply N.Div0.div_lt_upper_bound; lia].
  rewrite <-N.Div0.div_mod. by rewrite Byte.of_to_N.
Qed.

Lemma EncodeToString_length bs :
  String.length (EncodeToString bs) = (2 * length bs)%nat.
Proof. induction bs as [|b bs IH]; [done|]. cbn [EncodeToString String.length length]. lia. Qed.

Lemma EncodeToString_inj bs bs' : EncodeToString bs = EncodeToString bs' → bs = bs'.
Proof.
  intros H. apply (f_equal DecodeString) in H.
  rewrite !DecodeString_EncodeToString in H. by injection H.
Qed.
