(* ===== verification/Domain.v ===== *)
(** * Domain model ([internal/domain], [internal/id])

    The data types of [model.go], the session state machine of [session.go] with
    its transition function, and identifier generation ([id.New]).  Every
    component stores or returns these types. *)

From S2P Require Import Prelude.
From Stdlib Require Export SpecFloat.

(** ** Errors

    The sentinel errors of [internal/domain] and [internal/database], one
    constructor each.  [fmt.Errorf("%w: ...", Err)] keeps the sentinel for
    [errors.Is] and adds a text, carried where the code adds one.
    [ErrText] is an error made with [errors.New] in place, [ErrConstraint] a
    violated constraint of the schema, by name. *)
Inductive error : Type :=
| ErrInvalidTransition (detail : string)
| ErrNotFound
| ErrConsentMissing
| ErrInvitationInvalid
| ErrArtifactConflict
| ErrArtifactsMissing
| ErrNoJobAvailable
| ErrJobLease
| ErrJobNotDeadLetter
| ErrReviewClaimed
| ErrReviewLease
| ErrPIIGate
| ErrRedactionEligibility
| ErrRedactionPlanMissing
| ErrRedactionConflict
| ErrInvalidRedactionPlan (detail : string)
| ErrNoRedactionJob
| ErrRedactionJobLease
| ErrRedactionNotDead
| ErrDeletionNotAllowed
| ErrLegalHoldActive
| ErrLegalHoldExists
| ErrDeletionPending
| ErrNoDeletionRequest
| ErrDeletionLease
| ErrDeletionNotDead
| ErrRedactionInProgress
| ErrInvalidRetentionPolicy
| ErrNoRetentionPurge
| ErrRetentionLease
| ErrRetentionPurgeInProgress
| ErrRetentionNotDead
| ErrReleaseEligibility (detail : string)
| ErrReleaseConflict
| ErrText (text : string)
| ErrConstraint (name : string).

Notation res := (result error).

(** ** Session states ([session.go])

    [SessionState] is a Go string: the sixteen constants and, for a value that
    is none of them (a request may carry any text), the raw text. *)
Inductive SessionState : Type :=
| SessionCreated | SessionAssigned | SessionReady | SessionRecording
| SessionFinalizing | SessionUploading | SessionSubmitted | SessionProcessing
| SessionReadyForReview | SessionAccepted | SessionReleased | SessionFailed
| SessionRejected | SessionReworkRequired | SessionCancelled | SessionDeleted
| SessionOther (raw : string).

#[export] Instance SessionState_eq_dec : EqDecision SessionState.
Proof. solve_decision. Defined.

Definition state_string (s : SessionState) : string :=
  match s with
  | SessionCreated => "CREATED"
  | SessionAssigned => "ASSIGNED"
  | SessionReady => "READY"
  | SessionRecording => "RECORDING"
  | SessionFinalizing => "FINALIZING"
  | SessionUploading => "UPLOADING"
  | SessionSubmitted => "SUBMITTED"
  | SessionProcessing => "PROCESSING"
  | SessionReadyForReview => "READY_FOR_REVIEW"
  | SessionAccepted => "ACCEPTED"
  | SessionReleased => "RELEASED"
  | SessionFailed => "FAILED"
  | SessionRejected => "REJECTED"
  | SessionReworkRequired => "REWORK_REQUIRED"
  | SessionCancelled => "CANCELLED"
  | SessionDeleted => "DELETED"
  | SessionOther raw => raw
  end.

Definition session_states : list SessionState :=
  [SessionCreated; SessionAssigned; SessionReady; SessionRecording;
   SessionFinalizing; SessionUploading; SessionSubmitted; SessionProcessing;
   SessionReadyForReview; SessionAccepted; SessionReleased; SessionFailed;
   SessionRejected; SessionReworkRequired; SessionCancelled; SessionDeleted].

(** The Go conversion [SessionState(text)] of a decoded request field. *)
Definition parse_state (text : string) : SessionState :=
  match list_find (λ s, state_string s = text) session_states with
  | Some (_, s) => s
  | None => SessionOther text
  end.

(** A missing key of the Go map reads as the empty set. *)
Definition allowedTransitions (from : SessionState) : list SessionState :=
  match from with
  | SessionCreated => [SessionAssigned; SessionCancelled]
  | SessionAssigned => [SessionReady; SessionCancelled]
  | SessionReady => [SessionRecording; SessionCancelled]
  | SessionRecording => [SessionFinalizing; SessionFailed; SessionCancelled]
  | SessionFinalizing => [SessionUploading; SessionFailed]
  | SessionUploading => [SessionSubmitted; SessionFailed]
  | SessionSubmitted => [SessionProcessing; SessionFailed]
  | SessionProcessing => [SessionReadyForReview; SessionFailed]
  | SessionReadyForReview => [SessionAccepted; SessionRejected; SessionReworkRequired]
  | SessionReworkRequired => [SessionReady; SessionCancelled]
  | SessionAccepted => [SessionReleased]
  | _ => []
  end.

Definition allowed (from to : SessionState) : bool :=
  bool_decide (to ∈ allowedTransitions from).

(** ** Audit events and sessions *)
Record AuditEvent := {
  ae_Actor : string;
  ae_Action : string;
  ae_Resource : string;
  ae_Timestamp : time;
  ae_RequestID : string;
  ae_Metadata : gmap string string
}.

Record Session := {
  s_ID : string;
  s_AssignmentID : string;
  s_State : SessionState;
  s_UpdatedAt : time;
  s_AuditEvents : list AuditEvent
}.

Record TransitionCommand := {
  tc_To : SessionState;
  tc_Actor : string;
  tc_RequestID : string;
  tc_Timestamp : time
}.

Definition is_empty (s : string) : bool := bool_decide (s = "").

Definition transition_event (session : Session) (command : TransitionCommand) : AuditEvent :=
  {| ae_Actor := tc_Actor command;
     ae_Action := "session.transitioned";
     ae_Resource := "session/" +:+ s_ID session;
     ae_Timestamp := tc_Timestamp command;
     ae_RequestID := tc_RequestID command;
     ae_Metadata := {["from" := state_string (s_State session);
                      "to" := state_string (tc_To command)]} |}.

(** [Session.Transition] mutates its receiver only on the success path. *)
Definition Transition (session : Session) (command : TransitionCommand) : res Session :=
  if is_empty (s_ID session) then Err (ErrText "session ID is required")
  else if is_empty (tc_Actor command) || is_empty (tc_RequestID command)
          || IsZero (tc_Timestamp command)
  then Err (ErrText "transition actor, request ID, and timestamp are required")
  else if negb (allowed (s_State session) (tc_To command))
  then Err (ErrInvalidTransition
              (state_string (s_State session) +:+ " -> " +:+ state_string (tc_To command)))
  else Ok {| s_ID := s_ID session;
             s_AssignmentID := s_AssignmentID session;
             s_State := tc_To command;
             s_UpdatedAt := tc_Timestamp command;
             s_AuditEvents := (s_AuditEvents session ++ [transition_event session command])%list |}.

(** ** Records of [model.go]

    A field of type [time.Time] that the code leaves unset holds the zero time. *)
Record Organization := { o_ID : string; o_Name : string }.
Record Project := {
  p_ID : string; p_OrganizationID : string; p_Name : string; p_TargetTrajectories : Z
}.
Record TaskTemplate := {
  tt_ID : string; tt_ProjectID : string; tt_Name : string; tt_Goal : string;
  tt_Category : string; tt_Difficulty : string
}.
Record Task := { t_ID : string; t_TemplateID : string; t_Goal : string }.
Record Contributor := { c_ID : string; c_DisplayName : string }.
Record Assignment := {
  a_ID : string; a_TaskID : string; a_ContributorID : string; a_CreatedAt : time
}.
Record ConsentDocument := {
  cd_ID : string; cd_Version : string; cd_TextHash : string; cd_EffectiveDate : time
}.
Record ConsentAcceptance := {
  ca_ID : string; ca_ContributorID : string; ca_DocumentID : string;
  ca_ClientVersion : string; ca_AcceptedAt : time
}.
Record Artifact := {
  art_ID : string; art_SessionID : string; art_Key : string; art_SHA256 : string;
  art_MediaType : string; art_Size : Z
}.

(** [float64] values are the IEEE 754 binary64 data of the Standard Library. *)
Notation float64 := spec_float.

Record RedactionRegion := {
  rg_StartNS : Z; rg_EndNS : Z;
  rg_X : float64; rg_Y : float64; rg_Width : float64; rg_Height : float64;
  rg_Kind : string
}.
Record RedactionSegment := {
  sg_SegmentID : string; sg_SourceKey : string; sg_Decision : string;
  sg_Regions : list RedactionRegion
}.
Record RedactionDocument := {
  rd_SchemaVersion : string; rd_Segments : list RedactionSegment
}.

(** [Scores] is a [json.RawMessage]: [None] is a text that [json.Unmarshal] refuses. *)
Record Review := {
  rv_ID : string; rv_SessionID : string; rv_ReviewerID : string;
  rv_RubricVersion : string; rv_Decision : string; rv_Comments : string;
  rv_PIIReview : string; rv_Scores : option json;
  rv_RedactionDocument : option RedactionDocument; rv_CreatedAt : time
}.
Record ProcessingJob := {
  pj_ID : string; pj_SessionID : string; pj_JobType : string; pj_State : string;
  pj_LastError : string; pj_Attempt : Z; pj_ManualRequeues : Z;
  pj_AvailableAt : time; pj_LeasedAt : time; pj_FinishedAt : time;
  pj_LeasedBy : string; pj_LeaseExpiresAt : time; pj_DeadLetteredAt : time
}.
Record ValidationResult := {
  vr_ID : string; vr_JobID : string; vr_SessionID : string;
  vr_NormalizedKey : string; vr_SchemaVersion : string; vr_ValidatorVersion : string;
  vr_Valid : bool; vr_Errors : list string; vr_CreatedAt : time
}.
Record LegalHold := {
  lh_ID : string; lh_OrganizationID : string; lh_SessionID : string;
  lh_Reason : string; lh_PlacedBy : string; lh_PlacedAt : time;
  lh_ReleasedBy : string; lh_ReleasedAt : time
}.
Record RetentionPolicy := {
  rp_OrganizationID : string; rp_RawDays : Z; rp_DerivedDays : Z; rp_ReleaseDays : Z;
  rp_UpdatedBy : string; rp_CreatedAt : time; rp_UpdatedAt : time
}.
Record DeletionRequest := {
  dr_ID : string; dr_OrganizationID : string; dr_SessionID : string;
  dr_Reason : string; dr_State : string; dr_ObjectKeys : list string;
  dr_Attempt : Z; dr_ManualRequeues : Z; dr_AvailableAt : time;
  dr_RequestedAt : time; dr_LeaseExpiresAt : time; dr_LeasedBy : string;
  dr_RequestedBy : string; dr_LastError : string
}.
Record RetentionPurgeRequest := {
  rq_ID : string; rq_OrganizationID : string; rq_ResourceType : string;
  rq_ResourceID : string; rq_State : string; rq_ObjectKeys : list string;
  rq_Attempt : Z; rq_PolicyUpdatedAt : time; rq_AvailableAt : time;
  rq_RequestedAt : time; rq_LeaseExpiresAt : time; rq_CompletedAt : time;
  rq_LeasedBy : string; rq_LastError : string
}.
Record RedactionPlan := {
  pl_ID : string; pl_SessionID : string; pl_ReviewerID : string;
  pl_SchemaVersion : string; pl_DocumentHash : string; pl_Version : Z;
  pl_Document : RedactionDocument; pl_CreatedAt : time
}.
Record RedactionJob := {
  rj_ID : string; rj_PlanID : string; rj_SessionID : string; rj_State : string;
  rj_LeasedBy : string; rj_OutputManifestKey : string; rj_LastError : string;
  rj_Attempt : Z; rj_ManualRequeues : Z; rj_AvailableAt : time;
  rj_LeaseExpiresAt : time; rj_CreatedAt : time; rj_UpdatedAt : time;
  rj_FinishedAt : time; rj_DeadLetteredAt : time; rj_PurgedAt : time
}.
Record DatasetRelease := {
  rl_ID : string; rl_ProjectID : string; rl_Name : string; rl_Profile : string;
  rl_SchemaVersion : string; rl_ExporterVersion : string; rl_PipelineVersion : string;
  rl_ConfigurationHash : string; rl_ManifestHash : string; rl_BundleHash : string;
  rl_BundleSize : Z; rl_SourceSessionIDs : list string; rl_ObjectKeys : list string;
  rl_CreatedAt : time; rl_PurgedAt : time
}.

(** ** Identifiers ([id.New])

    [random] is what [rand.Read] put into the sixteen-byte buffer, [None] when
    it failed. *)
Definition random : Type := option (list byte).

Definition New (prefix : string) (r : random) : res string :=
  if is_empty prefix then Err (ErrText "ID prefix is required")
  else match r with
       | None => Err (ErrText "generate ID")
       | Some bytes => Ok (prefix +:+ "_" +:+ EncodeToString bytes)
       end.

(** ** Lemmas *)

Lemma is_empty_true s : is_empty s = true ↔ s = "".
Proof. apply bool_decide_eq_true. Qed.
Lemma is_empty_false s : is_empty s = false ↔ s ≠ "".
Proof. apply bool_decide_eq_false. Qed.

Lemma allowed_spec from to : allowed from to = true ↔ to ∈ allowedTransitions from.
Proof. apply bool_decide_eq_true. Qed.

(** Case analysis on the edges of the transition table. *)
Lemma allowed_cases from to (P : SessionState → SessionState → Prop) :
  Forall (λ f, Forall (P f) (allowedTransitions f)) session_states →
  allowed from to = true → P from to.
Proof.
  intros HP Ht%allowed_spec. rewrite Forall_forall in HP.
  assert (Hin : from ∈ session_states).
  { destruct from; try (by repeat (left || right)). by apply elem_of_nil in Ht. }
  specialize (HP from Hin). rewrite Forall_forall in HP. by apply HP.
Qed.

Lemma Transition_ok session command session' :
  Transition session command = Ok session' ↔
  s_ID session ≠ "" ∧ tc_Actor command ≠ "" ∧ tc_RequestID command ≠ "" ∧
  tc_Timestamp command ≠ 0 ∧ allowed (s_State session) (tc_To command) = true ∧
  session' =
    {| s_ID := s_ID session; s_AssignmentID := s_AssignmentID session;
       s_State := tc_To command; s_UpdatedAt := tc_Timestamp command;
       s_AuditEvents := s_AuditEvents session ++ [transition_event session command] |}.
Proof.
  unfold Transition.
  destruct (is_empty (s_ID session)) eqn:H1.
  { apply is_empty_true in H1. naive_solver. }
  apply is_empty_false in H1.
  destruct (_ || _ || _) eqn:H2.
  { rewrite !orb_true_iff, !is_empty_true in H2. unfold IsZero in H2.
    rewrite Z.eqb_eq in H2. naive_solver. }
  rewrite !orb_false_iff, !is_empty_false in H2. unfold IsZero in H2.
  rewrite Z.eqb_neq in H2. destruct H2 as [[Ha Hr] Ht].
  destruct (allowed _ _) eqn:Hal; cbn; naive_solver.
Qed.

Lemma Transition_result s command s' :
  Transition s command = Ok s' →
  s_ID s' = s_ID s ∧ s_AssignmentID s' = s_AssignmentID s ∧ s_State s' = tc_To command ∧
  s_UpdatedAt s' = tc_Timestamp command ∧ allowed (s_State s) (tc_To command) = true.
Proof. by intros (_ & _ & _ & _ & Ha & ->)%Transition_ok. Qed.

Lemma TrimSpace_not_empty s : TrimSpace s ≠ "" → s ≠ "".
Proof. by intros H ->. Qed.

Lemma New_ok prefix r i :
  New prefix r = Ok i ↔
  prefix ≠ "" ∧ ∃ bytes, r = Some bytes ∧ i = prefix +:+ "_" +:+ EncodeToString bytes.
Proof.
  unfold New. destruct (is_empty prefix) eqn:Hp.
  { apply is_empty_true in Hp. naive_solver. }
  apply is_empty_false in Hp. destruct r; naive_solver.
Qed.

Lemma New_bytes prefix bytes :
  prefix ≠ "" → New prefix (Some bytes) = Ok (prefix +:+ "_" +:+ EncodeToString bytes).
Proof. intros Hp. unfold New. by rewrite (proj2 (is_empty_false _)). Qed.

(** ** The lifecycle as paths of the transition table *)
Inductive lifecycle : SessionState → list SessionState → SessionState → Prop :=
| lifecycle_here s : lifecycle s [s] s
| lifecycle_step s m l t :
    allowed s m = true → lifecycle m l t → lifecycle s (s :: l) t.

(** A set that contains the start and every allowed successor except [x] holds
    the end of every path that avoids [x]. *)
Definition closed_avoiding (x : SessionState) (set : list SessionState) : bool :=
  forallb (λ s, forallb (λ t, bool_decide (t = x) || bool_decide (t ∈ set))
                        (allowedTransitions s)) set.

Lemma lifecycle_avoid x set s l t :
  closed_avoiding x set = true → lifecycle s l t → s ∈ set →
  x ∈ l ∨ t ∈ set.
Proof.
  intros Hcl Hlc. induction Hlc as [s|s m l t Ha Hlc IH]; intros Hs; [by right|].
  unfold closed_avoiding in Hcl. pose proof Hcl as Hcl'.
  rewrite forallb_forall in Hcl. apply list_elem_of_In in Hs.
  specialize (Hcl s Hs). rewrite forallb_forall in Hcl.
  apply allowed_spec, list_elem_of_In in Ha. specialize (Hcl m Ha).
  apply orb_true_iff in Hcl as [Hm|Hm]; apply bool_decide_eq_true in Hm.
  - subst m. left. apply elem_of_cons. right. inversion Hlc; subst; left.
  - destruct (IH Hm) as [?|?]; [left; by right|by right].
Qed.

(** The states reachable from [todo] without entering [x]. *)
Fixpoint explore (fuel : nat) (x : SessionState) (seen todo : list SessionState)
    : list SessionState :=
  match fuel, todo with
  | S fuel', s :: todo' =>
    if bool_decide (s = x) || bool_decide (s ∈ seen) then explore fuel' x seen todo'
    else explore fuel' x (s :: seen) (todo' ++ allowedTransitions s)
  | _, _ => seen
  end.

Ltac walk_lifecycle :=
  first [apply lifecycle_here | eapply lifecycle_step; [|walk_lifecycle]; reflexivity].

(** ** Properties *)

(** Every call of [Session.Transition] takes exactly one of four branches, in
    the order of the code's checks: a session without ID, a command without
    actor, request ID or timestamp, and a target that the table does not list
    for the current state are refused; every other command moves the session to
    the target at the command's time and appends one audit event that names the
    session, the actor, the request and the two states, and nothing else
    changes. *)
Theorem transition_branches session command :
  (s_ID session = "" →
     Transition session command = Err (ErrText "session ID is required")) ∧
  (s_ID session ≠ "" →
   tc_Actor command = "" ∨ tc_RequestID command = "" ∨ tc_Timestamp command = 0 →
     Transition session command =
       Err (ErrText "transition actor, request ID, and timestamp are required")) ∧
  (s_ID session ≠ "" → tc_Actor command ≠ "" → tc_RequestID command ≠ "" →
   tc_Timestamp command ≠ 0 →
   tc_To command ∉ allowedTransitions (s_State session) →
     Transition session command =
       Err (ErrInvalidTransition (state_string (s_State session) +:+ " -> "
                                  +:+ state_string (tc_To command)))) ∧
  (s_ID session ≠ "" → tc_Actor command ≠ "" → tc_RequestID command ≠ "" →
   tc_Timestamp command ≠ 0 →
   tc_To command ∈ allowedTransitions (s_State session) →
   ∃ session' event,
     Transition session command = Ok session' ∧
     s_ID session' = s_ID session ∧ s_AssignmentID session' = s_AssignmentID session ∧
     s_State session' = tc_To command ∧ s_UpdatedAt session' = tc_Timestamp command ∧
     s_AuditEvents session' = s_AuditEvents session ++ [event] ∧
     ae_Actor event = tc_Actor command ∧ ae_RequestID event = tc_RequestID command ∧
     ae_Timestamp event = tc_Timestamp command ∧
     ae_Resource event = "session/" +:+ s_ID session ∧
     ae_Metadata event !! "from" = Some (state_string (s_State session)) ∧
     ae_Metadata event !! "to" = Some (state_string (tc_To command))).
Proof.
  unfold Transition, allowed, is_empty, IsZero.
  repeat split; intros; repeat case_bool_decide; cbn [orb negb]; try done.
  - destruct (tc_Timestamp command =? 0) eqn:Ht; [done|]. apply Z.eqb_neq in Ht. naive_solver.
  - destruct (Z.eqb_spec (tc_Timestamp command) 0); [done|]. naive_solver.
  - destruct (Z.eqb_spec (tc_Timestamp command) 0); [done|]. done.
  - destruct (Z.eqb_spec (tc_Timestamp command) 0); [done|].
    eexists _, _. by repeat split.
Qed.

Lemma transition_branches_witness :
  ∃ session', Transition
    {| s_ID := "sess_001"; s_AssignmentID := "a"; s_State := SessionReady;
       s_UpdatedAt := 0; s_AuditEvents := [] |}
    {| tc_To := SessionRecording; tc_Actor := "contrib_001"; tc_RequestID := "req_001";
       tc_Timestamp := 7 |} = Ok session' ∧ s_State session' = SessionRecording.
Proof.
  destruct (transition_branches
    {| s_ID := "sess_001"; s_AssignmentID := "a"; s_State := SessionReady;
       s_UpdatedAt := 0; s_AuditEvents := [] |}
    {| tc_To := SessionRecording; tc_Actor := "contrib_001"; tc_RequestID := "req_001";
       tc_Timestamp := 7 |}) as (_ & _ & _ & H).
  destruct H as (s' & e & H1 & _ & _ & H2 & _); cbn; try done; [left|]. eauto.
Defined.

(** In the transition table no path from CREATED to RELEASED skips a stage:
    it goes through assignment, consent ([READY]), recording, upload,
    submission, processing, review and acceptance. *)
Theorem release_path_stages l :
  lifecycle SessionCreated l SessionReleased →
  ∀ stage, stage ∈ [SessionAssigned; SessionReady; SessionRecording; SessionFinalizing;
                    SessionUploading; SessionSubmitted; SessionProcessing;
                    SessionReadyForReview; SessionAccepted] → stage ∈ l.
Proof.
  intros Hl stage Hstage.
  set (set := explore 100 stage [] [SessionCreated]).
  assert (H : closed_avoiding stage set = true ∧ SessionCreated ∈ set ∧ SessionReleased ∉ set).
  { subst set.
    repeat (apply elem_of_cons in Hstage as [->|Hstage];
      [vm_compute; split; [done|]; split;
       [repeat (left || right)|by intros H; repeat (apply elem_of_cons in H as [[=]|H]);
                               apply elem_of_nil in H]|]).
    by apply elem_of_nil in Hstage. }
  destruct H as (Hc & Hin & Hout).
  by destruct (lifecycle_avoid _ _ _ _ _ Hc Hl Hin).
Qed.

Lemma release_path_stages_witness :
  let l := [SessionCreated; SessionAssigned; SessionReady; SessionRecording;
            SessionFinalizing; SessionUploading; SessionSubmitted; SessionProcessing;
            SessionReadyForReview; SessionAccepted; SessionReleased] in
  lifecycle SessionCreated l SessionReleased ∧ SessionReadyForReview ∈ l.
Proof.
  assert (H : lifecycle SessionCreated
    [SessionCreated; SessionAssigned; SessionReady; SessionRecording;
     SessionFinalizing; SessionUploading; SessionSubmitted; SessionProcessing;
     SessionReadyForReview; SessionAccepted; SessionReleased] SessionReleased).
  { walk_lifecycle. }
  split; [exact H|]. apply (release_path_stages _ H). repeat (left || right).
Defined.

(** A generated identifier is its prefix, an underscore and the lower-case
    hexadecimal text of the random bytes; the bytes can be read back from it,
    and two identifiers with buffers of the same size agree only when prefix and
    bytes agree. *)
Theorem New_injective prefix bytes prefix' bytes' i :
  length bytes = length bytes' →
  New prefix (Some bytes) = Ok i → New prefix' (Some bytes') = Ok i →
  prefix = prefix' ∧ bytes = bytes' ∧
  DecodeString (sdrop (String.length prefix + 1) i) = Some bytes.
Proof.
  intros Hl (_ & b & [= <-] & ->)%New_ok (_ & b' & [= <-] & Hi)%New_ok.
  rewrite <-!string_app_assoc in Hi.
  apply string_app_inj_r in Hi as [Hp Hb]; [|rewrite !EncodeToString_length; lia].
  apply string_app_inj_r in Hp as [-> _]; [|done].
  apply EncodeToString_inj in Hb as ->.
  split; [done|]. split; [done|].
  replace (sdrop _ _) with (EncodeToString bytes'); [apply DecodeString_EncodeToString|].
  clear. induction prefix' as [|x p IH]; [done|]. apply IH.
Qed.

Lemma New_injective_witness :
  New "job" (Some [x01; xff]) = Ok "job_01ff" ∧
  DecodeString (sdrop (String.length "job" + 1) "job_01ff") = Some [x01; xff].
Proof.
  split; [reflexivity|].
  apply (New_injective "job" [x01; xff] "job" [x01; xff] "job_01ff"); reflexivity.
Defined.
