(* ===== verification/Schema.v ===== *)
(** * The store's tables ([services/api/migrations], [database/store.go])

    One record per row type with the columns of the migrations, one [gmap] per
    table keyed by its primary key, the whole database as a record of tables, the
    transaction type, the [INSERT]s with the constraints of the schema, and
    [insertAudit].

    A nullable column is an [option].  Columns of type [jsonb] hold the decoded
    value, or the raw text where no code under [src/] looks inside it. *)

From S2P Require Import Prelude Domain.

(** ** Rows *)
Record organization_row := {
  org_name : string;
  org_created_at : time
}.

Record project_row := {
  prj_organization_id : string;
  prj_name : string;
  prj_target_trajectories : Z;
  prj_created_at : time
}.

Record task_template_row := {
  tpl_project_id : string;
  tpl_name : string;
  tpl_goal : string;
  tpl_category : string;
  tpl_difficulty : string;
  tpl_specification : string;
  tpl_created_at : time
}.

Record task_row := {
  tsk_template_id : string;
  tsk_goal : string;
  tsk_input_assets : string;
  tsk_expected_outputs : string;
  tsk_created_at : time
}.

Record contributor_row := {
  ctb_display_name : string;
  ctb_status : string;
  ctb_account_id : option string;
  ctb_created_at : time
}.

Record assignment_row := {
  asg_task_id : string;
  asg_contributor_id : string;
  asg_created_at : time
}.

Record consent_document_row := {
  cdo_version : string;
  cdo_text_hash : string;
  cdo_body : string;
  cdo_effective_date : time
}.

Record consent_acceptance_row := {
  cac_contributor_id : string;
  cac_document_id : string;
  cac_accepted_at : time;
  cac_client_version : string
}.

Record session_row := {
  ses_assignment_id : string;
  ses_consent_acceptance_id : option string;
  ses_state : SessionState;
  ses_rework_of_session_id : option string;
  ses_created_at : time;
  ses_updated_at : time
}.

Record artifact_row := {
  arf_session_id : string;
  arf_logical_key : string;
  arf_sha256 : string;
  arf_size_bytes : Z;
  arf_media_type : string;
  arf_created_at : time;
  arf_purged_at : option time
}.

Record processing_job_row := {
  job_session_id : string;
  job_type : string;
  job_state : string;
  job_attempt : Z;
  job_available_at : time;
  job_started_at : option time;
  job_finished_at : option time;
  job_error : option string;
  job_leased_by : option string;
  job_lease_expires_at : option time;
  job_updated_at : time;
  job_dead_lettered_at : option time;
  job_manual_requeues : Z
}.

Record validation_result_row := {
  val_job_id : string;
  val_session_id : string;
  val_valid : bool;
  val_errors : list string;
  val_normalized_key : option string;
  val_schema_version : string;
  val_validator_version : string;
  val_created_at : time;
  val_purged_at : option time
}.

Record review_row := {
  rev_session_id : string;
  rev_reviewer_id : string;
  rev_rubric_version : string;
  rev_scores : json;
  rev_comments : string;
  rev_decision : string;
  rev_pii_review : string;
  rev_created_at : time
}.

Record review_claim_row := {
  clm_reviewer_id : string;
  clm_claimed_at : time;
  clm_expires_at : time
}.

Record redaction_plan_row := {
  rpl_session_id : string;
  rpl_reviewer_id : string;
  rpl_version : Z;
  rpl_schema_version : string;
  rpl_document : RedactionDocument;
  rpl_document_hash : string;
  rpl_request_id : string;
  rpl_created_at : time
}.

Record redaction_job_row := {
  rjb_plan_id : string;
  rjb_session_id : string;
  rjb_state : string;
  rjb_attempt : Z;
  rjb_manual_requeues : Z;
  rjb_available_at : time;
  rjb_leased_by : option string;
  rjb_lease_expires_at : option time;
  rjb_output_manifest_key : option string;
  rjb_error : option string;
  rjb_created_at : time;
  rjb_updated_at : time;
  rjb_finished_at : option time;
  rjb_dead_lettered_at : option time;
  rjb_purged_at : option time
}.

Record deletion_request_row := {
  del_organization_id : string;
  del_session_id : string;
  del_reason : string;
  del_object_keys : list string;
  del_state : string;
  del_attempt : Z;
  del_manual_requeues : Z;
  del_available_at : time;
  del_leased_by : option string;
  del_lease_expires_at : option time;
  del_requested_by : string;
  del_requested_at : time;
  del_completed_at : option time;
  del_last_error : option string;
  del_updated_at : time
}.

Record legal_hold_row := {
  hld_organization_id : string;
  hld_session_id : string;
  hld_reason : string;
  hld_placed_by : string;
  hld_placed_at : time;
  hld_released_by : option string;
  hld_released_at : option time
}.

Record retention_policy_row := {
  pol_raw_days : Z;
  pol_derived_days : Z;
  pol_release_days : Z;
  pol_updated_by : string;
  pol_created_at : time;
  pol_updated_at : time
}.

Record retention_purge_row := {
  prg_organization_id : string;
  prg_resource_type : string;
  prg_resource_id : string;
  prg_policy_updated_at : time;
  prg_object_keys : list string;
  prg_state : string;
  prg_attempt : Z;
  prg_available_at : time;
  prg_leased_by : option string;
  prg_lease_expires_at : option time;
  prg_requested_at : time;
  prg_completed_at : option time;
  prg_last_error : option string;
  prg_updated_at : time
}.

Record dataset_release_row := {
  drl_project_id : string;
  drl_name : string;
  drl_release_profile : string;
  drl_schema_version : string;
  drl_exporter_version : string;
  drl_pipeline_version : string;
  drl_source_session_ids : list string;
  drl_configuration_hash : string;
  drl_manifest_hash : string;
  drl_bundle_hash : option string;
  drl_bundle_size : option Z;
  drl_created_at : time;
  drl_purged_at : option time;
  drl_object_keys : list string
}.

Record release_session_row := {
  rls_release_id : string;
  rls_ordinal : Z
}.

Record multipart_upload_row := {
  mpu_session_id : string;
  mpu_logical_key : string;
  mpu_storage_key : string;
  mpu_storage_upload_id : string;
  mpu_sha256 : string;
  mpu_size_bytes : Z;
  mpu_media_type : string;
  mpu_part_size_bytes : Z;
  mpu_state : string;
  mpu_expires_at : time;
  mpu_created_at : time;
  mpu_updated_at : time
}.

Record multipart_part_row := {
  mpp_etag : string;
  mpp_size_bytes : Z;
  mpp_created_at : time
}.

Record account_row := {
  acc_display_name : string;
  acc_email : option string;
  acc_status : string;
  acc_created_at : time
}.

Record oidc_identity_row := {
  idn_account_id : string;
  idn_issuer : string;
  idn_subject : string;
  idn_email_at_link_time : option string;
  idn_email_verified_at_link_time : bool;
  idn_created_at : time;
  idn_last_authenticated_at : option time
}.

Record membership_row := {
  mem_status : string;
  mem_created_at : time
}.

Record invitation_row := {
  inv_organization_id : string;
  inv_role : string;
  inv_email : string;
  inv_token_hash : string;
  inv_status : string;
  inv_invited_by : string;
  inv_expires_at : time;
  inv_accepted_by : option string;
  inv_accepted_at : option time;
  inv_created_at : time
}.

(** ** The database *)
Record db := mk_db {
  organizations : gmap string organization_row;
  projects : gmap string project_row;
  task_templates : gmap string task_template_row;
  tasks : gmap string task_row;
  contributors : gmap string contributor_row;
  assignments : gmap string assignment_row;
  consent_documents : gmap string consent_document_row;
  consent_acceptances : gmap string consent_acceptance_row;
  sessions : gmap string session_row;
  artifacts : gmap string artifact_row;
  processing_jobs : gmap string processing_job_row;
  validation_results : gmap string validation_result_row;
  reviews : gmap string review_row;
  review_claims : gmap string review_claim_row;
  redaction_plans : gmap string redaction_plan_row;
  redaction_jobs : gmap string redaction_job_row;
  deletion_requests : gmap string deletion_request_row;
  legal_holds : gmap string legal_hold_row;
  retention_policies : gmap string retention_policy_row;
  retention_purge_requests : gmap string retention_purge_row;
  dataset_releases : gmap string dataset_release_row;
  release_sessions : gmap string release_session_row;
  artifact_multipart_uploads : gmap string multipart_upload_row;
  artifact_multipart_parts : gmap (string * Z) multipart_part_row;
  accounts : gmap string account_row;
  oidc_identities : gmap string oidc_identity_row;
  organization_memberships : gmap (string * string * string) membership_row;
  invitations : gmap string invitation_row;
  audit_events : list AuditEvent
}.

(** Writing one table leaves every other table as it is. *)
Definition set_organizations (f : gmap string organization_row → gmap string organization_row) (d : db) : db :=
  mk_db (f (organizations d)) (projects d) (task_templates d) (tasks d) (contributors d)
    (assignments d) (consent_documents d) (consent_acceptances d) (sessions d) (artifacts d)
    (processing_jobs d) (validation_results d) (reviews d) (review_claims d)
    (redaction_plans d) (redaction_jobs d) (deletion_requests d) (legal_holds d)
    (retention_policies d) (retention_purge_requests d) (dataset_releases d)
    (release_sessions d) (artifact_multipart_uploads d) (artifact_multipart_parts d)
    (accounts d) (oidc_identities d) (organization_memberships d) (invitations d)
    (audit_events d).
Definition set_projects (f : gmap string project_row → gmap string project_row) (d : db) : db :=
  mk_db (organizations d) (f (projects d)) (task_templates d) (tasks d) (contributors d)
    (assignments d) (consent_documents d) (consent_acceptances d) (sessions d) (artifacts d)
    (processing_jobs d) (validation_results d) (reviews d) (review_claims d)
    (redaction_plans d) (redaction_jobs d) (deletion_requests d) (legal_holds d)
    (retention_policies d) (retention_purge_requests d) (dataset_releases d)
    (release_sessions d) (artifact_multipart_uploads d) (artifact_multipart_parts d)
    (accounts d) (oidc_identities d) (organization_memberships d) (invitations d)
    (audit_events d).
Definition set_task_templates (f : gmap string task_template_row → gmap string task_template_row) (d : db) : db :=
  mk_db (organizations d) (projects d) (f (task_templates d)) (tasks d) (contributors d)
    (assignments d) (consent_documents d) (consent_acceptances d) (sessions d) (artifacts d)
    (processing_jobs d) (validation_results d) (reviews d) (review_claims d)
    (redaction_plans d) (redaction_jobs d) (deletion_requests d) (legal_holds d)
    (retention_policies d) (retention_purge_requests d) (dataset_releases d)
    (release_sessions d) (artifact_multipart_uploads d) (artifact_multipart_parts d)
    (accounts d) (oidc_identities d) (organization_memberships d) (invitations d)
    (audit_events d).
Definition set_tasks (f : gmap string task_row → gmap string task_row) (d : db) : db :=
  mk_db (organizations d) (projects d) (task_templates d) (f (tasks d)) (contributors d)
    (assignments d) (consent_documents d) (consent_acceptances d) (sessions d) (artifacts d)
    (processing_jobs d) (validation_results d) (reviews d) (review_claims d)
    (redaction_plans d) (redaction_jobs d) (deletion_requests d) (legal_holds d)
    (retention_policies d) (retention_purge_requests d) (dataset_releases d)
    (release_sessions d) (artifact_multipart_uploads d) (artifact_multipart_parts d)
    (accounts d) (oidc_identities d) (organization_memberships d) (invitations d)
    (audit_events d).
Definition set_contributors (f : gmap string contributor_row → gmap string contributor_row) (d : db) : db :=
  mk_db (organizations d) (projects d) (task_templates d) (tasks d) (f (contributors d))
    (assignments d) (consent_documents d) (consent_acceptances d) (sessions d) (artifacts d)
    (processing_jobs d) (validation_results d) (reviews d) (review_claims d)
    (redaction_plans d) (redaction_jobs d) (deletion_requests d) (legal_holds d)
    (retention_policies d) (retention_purge_requests d) (dataset_releases d)
    (release_sessions d) (artifact_multipart_uploads d) (artifact_multipart_parts d)
    (accounts d) (oidc_identities d) (organization_memberships d) (invitations d)
    (audit_events d).
Definition set_assignments (f : gmap string assignment_row → gmap string assignment_row) (d : db) : db :=
  mk_db (organizations d) (projects d) (task_templates d) (tasks d) (contributors d)
    (f (assignments d)) (consent_documents d) (consent_acceptances d) (sessions d)
    (artifacts d) (processing_jobs d) (validation_results d) (reviews d) (review_claims d)
    (redaction_plans d) (redaction_jobs d) (deletion_requests d) (legal_holds d)
    (retention_policies d) (retention_purge_requests d) (dataset_releases d)
    (release_sessions d) (artifact_multipart_uploads d) (artifact_multipart_parts d)
    (accounts d) (oidc_identities d) (organization_memberships d) (invitations d)
    (audit_events d).
Definition set_consent_documents (f : gmap string consent_document_row → gmap string consent_document_row) (d : db) : db :=
  mk_db (organizations d) (projects d) (task_templates d) (tasks d) (contributors d)
    (assignments d) (f (consent_documents d)) (consent_acceptances d) (sessions d)
    (artifacts d) (processing_jobs d) (validation_results d) (reviews d) (review_claims d)
    (redaction_plans d) (redaction_jobs d) (deletion_requests d) (legal_holds d)
    (retention_policies d) (retention_purge_requests d) (dataset_releases d)
    (release_sessions d) (artifact_multipart_uploads d) (artifact_multipart_parts d)
    (accounts d) (oidc_identities d) (organization_memberships d) (invitations d)
    (audit_events d).
Definition set_consent_acceptances (f : gmap string consent_acceptance_row → gmap string consent_acceptance_row) (d : db) : db :=
  mk_db (organizations d) (projects d) (task_templates d) (tasks d) (contributors d)
    (assignments d) (consent_documents d) (f (consent_acceptances d)) (sessions d)
    (artifacts d) (processing_jobs d) (validation_results d) (reviews d) (review_claims d)
    (redaction_plans d) (redaction_jobs d) (deletion_requests d) (legal_holds d)
    (retention_policies d) (retention_purge_requests d) (dataset_releases d)
    (release_sessions d) (artifact_multipart_uploads d) (artifact_multipart_parts d)
    (accounts d) (oidc_identities d) (organization_memberships d) (invitations d)
    (audit_events d).
Definition set_sessions (f : gmap string session_row → gmap string session_row) (d : db) : db :=
  mk_db (organizations d) (projects d) (task_templates d) (tasks d) (contributors d)
    (assignments d) (consent_documents d) (consent_acceptances d) (f (sessions d))
    (artifacts d) (processing_jobs d) (validation_results d) (reviews d) (review_claims d)
    (redaction_plans d) (redaction_jobs d) (deletion_requests d) (legal_holds d)
    (retention_policies d) (retention_purge_requests d) (dataset_releases d)
    (release_sessions d) (artifact_multipart_uploads d) (artifact_multipart_parts d)
    (accounts d) (oidc_identities d) (organization_memberships d) (invitations d)
    (audit_events d).
Definition set_artifacts (f : gmap string artifact_row → gmap string artifact_row) (d : db) : db :=
  mk_db (organizations d) (projects d) (task_templates d) (tasks d) (contributors d)
    (assignments d) (consent_documents d) (consent_acceptances d) (sessions d)
    (f (artifacts d)) (processing_jobs d) (validation_results d) (reviews d)
    (review_claims d) (redaction_plans d) (redaction_jobs d) (deletion_requests d)
    (legal_holds d) (retention_policies d) (retention_purge_requests d) (dataset_releases d)
    (release_sessions d) (artifact_multipart_uploads d) (artifact_multipart_parts d)
    (accounts d) (oidc_identities d) (organization_memberships d) (invitations d)
    (audit_events d).
Definition set_processing_jobs (f : gmap string processing_job_row → gmap string processing_job_row) (d : db) : db :=
  mk_db (organizations d) (projects d) (task_templates d) (tasks d) (contributors d)
    (assignments d) (consent_documents d) (consent_acceptances d) (sessions d) (artifacts d)
    (f (processing_jobs d)) (validation_results d) (reviews d) (review_claims d)
    (redaction_plans d) (redaction_jobs d) (deletion_requests d) (legal_holds d)
    (retention_policies d) (retention_purge_requests d) (dataset_releases d)
    (release_sessions d) (artifact_multipart_uploads d) (artifact_multipart_parts d)
    (accounts d) (oidc_identities d) (organization_memberships d) (invitations d)
    (audit_events d).
Definition set_validation_results (f : gmap string validation_result_row → gmap string validation_result_row) (d : db) : db :=
  mk_db (organizations d) (projects d) (task_templates d) (tasks d) (contributors d)
    (assignments d) (consent_documents d) (consent_acceptances d) (sessions d) (artifacts d)
    (processing_jobs d) (f (validation_results d)) (reviews d) (review_claims d)
    (redaction_plans d) (redaction_jobs d) (deletion_requests d) (legal_holds d)
    (retention_policies d) (retention_purge_requests d) (dataset_releases d)
    (release_sessions d) (artifact_multipart_uploads d) (artifact_multipart_parts d)
    (accounts d) (oidc_identities d) (organization_memberships d) (invitations d)
    (audit_events d).
Definition set_reviews (f : gmap string review_row → gmap string review_row) (d : db) : db :=
  mk_db (organizations d) (projects d) (task_templates d) (tasks d) (contributors d)
    (assignments d) (consent_documents d) (consent_acceptances d) (sessions d) (artifacts d)
    (processing_jobs d) (validation_results d) (f (reviews d)) (review_claims d)
    (redaction_plans d) (redaction_jobs d) (deletion_requests d) (legal_holds d)
    (retention_policies d) (retention_purge_requests d) (dataset_releases d)
    (release_sessions d) (artifact_multipart_uploads d) (artifact_multipart_parts d)
    (accounts d) (oidc_identities d) (organization_memberships d) (invitations d)
    (audit_events d).
Definition set_review_claims (f : gmap string review_claim_row → gmap string review_claim_row) (d : db) : db :=
  mk_db (organizations d) (projects d) (task_templates d) (tasks d) (contributors d)
    (assignments d) (consent_documents d) (consent_acceptances d) (sessions d) (artifacts d)
    (processing_jobs d) (validation_results d) (reviews d) (f (review_claims d))
    (redaction_plans d) (redaction_jobs d) (deletion_requests d) (legal_holds d)
    (retention_policies d) (retention_purge_requests d) (dataset_releases d)
    (release_sessions d) (artifact_multipart_uploads d) (artifact_multipart_parts d)
    (accounts d) (oidc_identities d) (organization_memberships d) (invitations d)
    (audit_events d).
Definition set_redaction_plans (f : gmap string redaction_plan_row → gmap string redaction_plan_row) (d : db) : db :=
  mk_db (organizations d) (projects d) (task_templates d) (tasks d) (contributors d)
    (assignments d) (consent_documents d) (consent_acceptances d) (sessions d) (artifacts d)
    (processing_jobs d) (validation_results d) (reviews d) (review_claims d)
    (f (redaction_plans d)) (redaction_jobs d) (deletion_requests d) (legal_holds d)
    (retention_policies d) (retention_purge_requests d) (dataset_releases d)
    (release_sessions d) (artifact_multipart_uploads d) (artifact_multipart_parts d)
    (accounts d) (oidc_identities d) (organization_memberships d) (invitations d)
    (audit_events d).
Definition set_redaction_jobs (f : gmap string redaction_job_row → gmap string redaction_job_row) (d : db) : db :=
  mk_db (organizations d) (projects d) (task_templates d) (tasks d) (contributors d)
    (assignments d) (consent_documents d) (consent_acceptances d) (sessions d) (artifacts d)
    (processing_jobs d) (validation_results d) (reviews d) (review_claims d)
    (redaction_plans d) (f (redaction_jobs d)) (deletion_requests d) (legal_holds d)
    (retention_policies d) (retention_purge_requests d) (dataset_releases d)
    (release_sessions d) (artifact_multipart_uploads d) (artifact_multipart_parts d)
    (accounts d) (oidc_identities d) (organization_memberships d) (invitations d)
    (audit_events d).
Definition set_deletion_requests (f : gmap string deletion_request_row → gmap string deletion_request_row) (d : db) : db :=
  mk_db (organizations d) (projects d) (task_templates d) (tasks d) (contributors d)
    (assignments d) (consent_documents d) (consent_acceptances d) (sessions d) (artifacts d)
    (processing_jobs d) (validation_results d) (reviews d) (review_claims d)
    (redaction_plans d) (redaction_jobs d) (f (deletion_requests d)) (legal_holds d)
    (retention_policies d) (retention_purge_requests d) (dataset_releases d)
    (release_sessions d) (artifact_multipart_uploads d) (artifact_multipart_parts d)
    (accounts d) (oidc_identities d) (organization_memberships d) (invitations d)
    (audit_events d).
Definition set_legal_holds (f : gmap string legal_hold_row → gmap string legal_hold_row) (d : db) : db :=
  mk_db (organizations d) (projects d) (task_templates d) (tasks d) (contributors d)
    (assignments d) (consent_documents d) (consent_acceptances d) (sessions d) (artifacts d)
    (processing_jobs d) (validation_results d) (reviews d) (review_claims d)
    (redaction_plans d) (redaction_jobs d) (deletion_requests d) (f (legal_holds d))
    (retention_policies d) (retention_purge_requests d) (dataset_releases d)
    (release_sessions d) (artifact_multipart_uploads d) (artifact_multipart_parts d)
    (accounts d) (oidc_identities d) (organization_memberships d) (invitations d)
    (audit_events d).
Definition set_retention_policies (f : gmap string retention_policy_row → gmap string retention_policy_row) (d : db) : db :=
  mk_db (organizations d) (projects d) (task_templates d) (tasks d) (contributors d)
    (assignments d) (consent_documents d) (consent_acceptances d) (sessions d) (artifacts d)
    (processing_jobs d) (validation_results d) (reviews d) (review_claims d)
    (redaction_plans d) (redaction_jobs d) (deletion_requests d) (legal_holds d)
    (f (retention_policies d)) (retention_purge_requests d) (dataset_releases d)
    (release_sessions d) (artifact_multipart_uploads d) (artifact_multipart_parts d)
    (accounts d) (oidc_identities d) (organization_memberships d) (invitations d)
    (audit_events d).
Definition set_retention_purge_requests (f : gmap string retention_purge_row → gmap string retention_purge_row) (d : db) : db :=
  mk_db (organizations d) (projects d) (task_templates d) (tasks d) (contributors d)
    (assignments d) (consent_documents d) (consent_acceptances d) (sessions d) (artifacts d)
    (processing_jobs d) (validation_results d) (reviews d) (review_claims d)
    (redaction_plans d) (redaction_jobs d) (deletion_requests d) (legal_holds d)
    (retention_policies d) (f (retention_purge_requests d)) (dataset_releases d)
    (release_sessions d) (artifact_multipart_uploads d) (artifact_multipart_parts d)
    (accounts d) (oidc_identities d) (organization_memberships d) (invitations d)
    (audit_events d).
Definition set_dataset_releases (f : gmap string dataset_release_row → gmap string dataset_release_row) (d : db) : db :=
  mk_db (organizations d) (projects d) (task_templates d) (tasks d) (contributors d)
    (assignments d) (consent_documents d) (consent_acceptances d) (sessions d) (artifacts d)
    (processing_jobs d) (validation_results d) (reviews d) (review_claims d)
    (redaction_plans d) (redaction_jobs d) (deletion_requests d) (legal_holds d)
    (retention_policies d) (retention_purge_requests d) (f (dataset_releases d))
    (release_sessions d) (artifact_multipart_uploads d) (artifact_multipart_parts d)
    (accounts d) (oidc_identities d) (organization_memberships d) (invitations d)
    (audit_events d).
Definition set_release_sessions (f : gmap string release_session_row → gmap string release_session_row) (d : db) : db :=
  mk_db (organizations d) (projects d) (task_templates d) (tasks d) (contributors d)
    (assignments d) (consent_documents d) (consent_acceptances d) (sessions d) (artifacts d)
    (processing_jobs d) (validation_results d) (reviews d) (review_claims d)
    (redaction_plans d) (redaction_jobs d) (deletion_requests d) (legal_holds d)
    (retention_policies d) (retention_purge_requests d) (dataset_releases d)
    (f (release_sessions d)) (artifact_multipart_uploads d) (artifact_multipart_parts d)
    (accounts d) (oidc_identities d) (organization_memberships d) (invitations d)
    (audit_events d).
Definition set_artifact_multipart_uploads (f : gmap string multipart_upload_row → gmap string multipart_upload_row) (d : db) : db :=
  mk_db (organizations d) (projects d) (task_templates d) (tasks d) (contributors d)
    (assignments d) (consent_documents d) (consent_acceptances d) (sessions d) (artifacts d)
    (processing_jobs d) (validation_results d) (reviews d) (review_claims d)
    (redaction_plans d) (redaction_jobs d) (deletion_requests d) (legal_holds d)
    (retention_policies d) (retention_purge_requests d) (dataset_releases d)
    (release_sessions d) (f (artifact_multipart_uploads d)) (artifact_multipart_parts d)
    (accounts d) (oidc_identities d) (organization_memberships d) (invitations d)
    (audit_events d).
Definition set_artifact_multipart_parts (f : gmap (string * Z) multipart_part_row → gmap (string * Z) multipart_part_row) (d : db) : db :=
  mk_db (organizations d) (projects d) (task_templates d) (tasks d) (contributors d)
    (assignments d) (consent_documents d) (consent_acceptances d) (sessions d) (artifacts d)
    (processing_jobs d) (validation_results d) (reviews d) (review_claims d)
    (redaction_plans d) (redaction_jobs d) (deletion_requests d) (legal_holds d)
    (retention_policies d) (retention_purge_requests d) (dataset_releases d)
    (release_sessions d) (artifact_multipart_uploads d) (f (artifact_multipart_parts d))
    (accounts d) (oidc_identities d) (organization_memberships d) (invitations d)
    (audit_events d).
Definition set_accounts (f : gmap string account_row → gmap string account_row) (d : db) : db :=
  mk_db (organizations d) (projects d) (task_templates d) (tasks d) (contributors d)
    (assignments d) (consent_documents d) (consent_acceptances d) (sessions d) (artifacts d)
    (processing_jobs d) (validation_results d) (reviews d) (review_claims d)
    (redaction_plans d) (redaction_jobs d) (deletion_requests d) (legal_holds d)
    (retention_policies d) (retention_purge_requests d) (dataset_releases d)
    (release_sessions d) (artifact_multipart_uploads d) (artifact_multipart_parts d)
    (f (accounts d)) (oidc_identities d) (organization_memberships d) (invitations d)
    (audit_events d).
Definition set_oidc_identities (f : gmap string oidc_identity_row → gmap string oidc_identity_row) (d : db) : db :=
  mk_db (organizations d) (projects d) (task_templates d) (tasks d) (contributors d)
    (assignments d) (consent_documents d) (consent_acceptances d) (sessions d) (artifacts d)
    (processing_jobs d) (validation_results d) (reviews d) (review_claims d)
    (redaction_plans d) (redaction_jobs d) (deletion_requests d) (legal_holds d)
    (retention_policies d) (retention_purge_requests d) (dataset_releases d)
    (release_sessions d) (artifact_multipart_uploads d) (artifact_multipart_parts d)
    (accounts d) (f (oidc_identities d)) (organization_memberships d) (invitations d)
    (audit_events d).
Definition set_organization_memberships (f : gmap (string * string * string) membership_row → gmap (string * string * string) membership_row) (d : db) : db :=
  mk_db (organizations d) (projects d) (task_templates d) (tasks d) (contributors d)
    (assignments d) (consent_documents d) (consent_acceptances d) (sessions d) (artifacts d)
    (processing_jobs d) (validation_results d) (reviews d) (review_claims d)
    (redaction_plans d) (redaction_jobs d) (deletion_requests d) (legal_holds d)
    (retention_policies d) (retention_purge_requests d) (dataset_releases d)
    (release_sessions d) (artifact_multipart_uploads d) (artifact_multipart_parts d)
    (accounts d) (oidc_identities d) (f (organization_memberships d)) (invitations d)
    (audit_events d).
Definition set_invitations (f : gmap string invitation_row → gmap string invitation_row) (d : db) : db :=
  mk_db (organizations d) (projects d) (task_templates d) (tasks d) (contributors d)
    (assignments d) (consent_documents d) (consent_acceptances d) (sessions d) (artifacts d)
    (processing_jobs d) (validation_results d) (reviews d) (review_claims d)
    (redaction_plans d) (redaction_jobs d) (deletion_requests d) (legal_holds d)
    (retention_policies d) (retention_purge_requests d) (dataset_releases d)
    (release_sessions d) (artifact_multipart_uploads d) (artifact_multipart_parts d)
    (accounts d) (oidc_identities d) (organization_memberships d) (f (invitations d))
    (audit_events d).
Definition set_audit_events (f : list AuditEvent → list AuditEvent) (d : db) : db :=
  mk_db (organizations d) (projects d) (task_templates d) (tasks d) (contributors d)
    (assignments d) (consent_documents d) (consent_acceptances d) (sessions d) (artifacts d)
    (processing_jobs d) (validation_results d) (reviews d) (review_claims d)
    (redaction_plans d) (redaction_jobs d) (deletion_requests d) (legal_holds d)
    (retention_policies d) (retention_purge_requests d) (dataset_releases d)
    (release_sessions d) (artifact_multipart_uploads d) (artifact_multipart_parts d)
    (accounts d) (oidc_identities d) (organization_memberships d) (invitations d)
    (f (audit_events d)).

Definition empty_db : db :=
  mk_db ∅ ∅ ∅ ∅ ∅ ∅ ∅ ∅ ∅ ∅ ∅ ∅ ∅ ∅ ∅ ∅ ∅ ∅ ∅ ∅ ∅ ∅ ∅ ∅ ∅ ∅ ∅ ∅ [].

(** ** Transactions

    [tx A] is the body of a transaction.  The methods of the store run one each
    and return its result through [run_tx]: an error rolls every write back.
    Statements of the database fail here exactly when they violate a constraint
    of the schema; a lost connection or a serialization failure aborts the
    transaction like any other error and is not a separate case. *)
Notation tx := (ST db error).

(** The error of a [QueryRow] whose caller does not test for [pgx.ErrNoRows]. *)
Definition ErrNoRows : error := ErrText "no rows in result set".

Definition row_of {R} (table : db → gmap string R) (id : string) (e : error) : tx R :=
  d <- get ;; some_or (table d !! id) e.

Definition exists_in {R} (table : db → gmap string R) (p : string → R → bool) : tx bool :=
  d <- get ;; ret (exists_row p (table d)).

Definition has_row {R} (m : gmap string R) (id : string) : bool := bool_decide (is_Some (m !! id)).

(** [REFERENCES table(id)] *)
Definition references {R} (table : db → gmap string R) (id name : string) : tx () :=
  d <- get ;; fail_if (negb (has_row (table d) id)) (ErrConstraint name).
Definition references_opt {R} (table : db → gmap string R) (id : option string) (name : string)
    : tx () :=
  match id with Some i => references table i name | None => ret () end.
(** [PRIMARY KEY], [UNIQUE] and unique indexes: no row satisfies [p]. *)
Definition no_row {R} (table : db → gmap string R) (p : string → R → bool) (name : string)
    : tx () :=
  d <- get ;; fail_if (exists_row p (table d)) (ErrConstraint name).
Definition fresh_key {R} (table : db → gmap string R) (id name : string) : tx () :=
  d <- get ;; fail_if (has_row (table d) id) (ErrConstraint name).
Definition check (b : bool) (name : string) : tx () := fail_if (negb b) (ErrConstraint name).

Definition seqb (a b : string) : bool := bool_decide (a = b).
Definition oneof (a : string) (l : list string) : bool := bool_decide (a ∈ l).

(** ** [INSERT]s *)
Definition insert_organization (id : string) (r : organization_row) : tx () :=
  fresh_key organizations id "organizations_pkey" ;;
  modify (set_organizations <[id:=r]>).

Definition insert_project (id : string) (r : project_row) : tx () :=
  fresh_key projects id "projects_pkey" ;;
  references organizations (prj_organization_id r) "projects_organization_id_fkey" ;;
  check (0 <? prj_target_trajectories r) "projects_target_trajectories_check" ;;
  modify (set_projects <[id:=r]>).

Definition insert_task_template (id : string) (r : task_template_row) : tx () :=
  fresh_key task_templates id "task_templates_pkey" ;;
  references projects (tpl_project_id r) "task_templates_project_id_fkey" ;;
  check (oneof (tpl_difficulty r) ["beginner"; "intermediate"; "advanced"])
    "task_templates_difficulty_check" ;;
  modify (set_task_templates <[id:=r]>).

Definition insert_task (id : string) (r : task_row) : tx () :=
  fresh_key tasks id "tasks_pkey" ;;
  references task_templates (tsk_template_id r) "tasks_template_id_fkey" ;;
  modify (set_tasks <[id:=r]>).

Definition insert_contributor (id : string) (r : contributor_row) : tx () :=
  fresh_key contributors id "contributors_pkey" ;;
  references_opt accounts (ctb_account_id r) "contributors_account_id_fkey" ;;
  no_row contributors
    (λ _ c, match ctb_account_id r, ctb_account_id c with
            | Some a, Some b => seqb a b
            | _, _ => false
            end) "contributors_account_id_key" ;;
  modify (set_contributors <[id:=r]>).

Definition insert_assignment (id : string) (r : assignment_row) : tx () :=
  fresh_key assignments id "assignments_pkey" ;;
  references tasks (asg_task_id r) "assignments_task_id_fkey" ;;
  references contributors (asg_contributor_id r) "assignments_contributor_id_fkey" ;;
  no_row assignments
    (λ _ a, seqb (asg_task_id a) (asg_task_id r)
            && seqb (asg_contributor_id a) (asg_contributor_id r))
    "assignments_task_id_contributor_id_key" ;;
  modify (set_assignments <[id:=r]>).

Definition insert_consent_document (id : string) (r : consent_document_row) : tx () :=
  fresh_key consent_documents id "consent_documents_pkey" ;;
  no_row consent_documents (λ _ c, seqb (cdo_version c) (cdo_version r))
    "consent_documents_version_key" ;;
  modify (set_consent_documents <[id:=r]>).

Definition insert_consent_acceptance (id : string) (r : consent_acceptance_row) : tx () :=
  fresh_key consent_acceptances id "consent_acceptances_pkey" ;;
  references contributors (cac_contributor_id r) "consent_acceptances_contributor_id_fkey" ;;
  references consent_documents (cac_document_id r) "consent_acceptances_document_id_fkey" ;;
  modify (set_consent_acceptances <[id:=r]>).

Definition insert_session (id : string) (r : session_row) : tx () :=
  fresh_key sessions id "sessions_pkey" ;;
  references assignments (ses_assignment_id r) "sessions_assignment_id_fkey" ;;
  references_opt sessions (ses_rework_of_session_id r) "sessions_rework_of_session_id_fkey" ;;
  no_row sessions
    (λ _ s, match ses_rework_of_session_id s, ses_rework_of_session_id r with
            | Some a, Some b => seqb a b
            | _, _ => false
            end) "sessions_one_rework_successor" ;;
  modify (set_sessions <[id:=r]>).

Definition insert_artifact (id : string) (r : artifact_row) : tx () :=
  fresh_key artifacts id "artifacts_pkey" ;;
  references sessions (arf_session_id r) "artifacts_session_id_fkey" ;;
  check (0 <? arf_size_bytes r) "artifacts_size_bytes_check" ;;
  modify (set_artifacts <[id:=r]>).

Definition active_job (r : processing_job_row) : bool := oneof (job_state r) ["queued"; "leased"].

Definition insert_processing_job (id : string) (r : processing_job_row) : tx () :=
  fresh_key processing_jobs id "processing_jobs_pkey" ;;
  references sessions (job_session_id r) "processing_jobs_session_id_fkey" ;;
  no_row processing_jobs
    (λ _ j, active_job r && active_job j && seqb (job_session_id j) (job_session_id r)
            && seqb (job_type j) (job_type r))
    "processing_jobs_one_active_type_per_session" ;;
  modify (set_processing_jobs <[id:=r]>).

Definition insert_validation_result (id : string) (r : validation_result_row) : tx () :=
  fresh_key validation_results id "validation_results_pkey" ;;
  references processing_jobs (val_job_id r) "validation_results_job_id_fkey" ;;
  references sessions (val_session_id r) "validation_results_session_id_fkey" ;;
  no_row validation_results (λ _ v, seqb (val_job_id v) (val_job_id r))
    "validation_results_job_id_key" ;;
  check (Bool.eqb (val_valid r) (bool_decide (is_Some (val_normalized_key r))))
    "validation_results_check" ;;
  modify (set_validation_results <[id:=r]>).

Definition insert_review (id : string) (r : review_row) : tx () :=
  fresh_key reviews id "reviews_pkey" ;;
  references sessions (rev_session_id r) "reviews_session_id_fkey" ;;
  check (oneof (rev_decision r) ["accepted"; "rejected"; "rework_required"])
    "reviews_decision_check" ;;
  check (oneof (rev_pii_review r) ["pending"; "passed"; "failed"]) "reviews_pii_review_check" ;;
  modify (set_reviews <[id:=r]>).

Definition insert_redaction_plan (id : string) (r : redaction_plan_row) : tx () :=
  fresh_key redaction_plans id "redaction_plans_pkey" ;;
  references sessions (rpl_session_id r) "redaction_plans_session_id_fkey" ;;
  check (0 <? rpl_version r) "redaction_plans_version_check" ;;
  check (seqb (rpl_schema_version r) "redaction/v1") "redaction_plans_schema_version_check" ;;
  no_row redaction_plans
    (λ _ p, seqb (rpl_session_id p) (rpl_session_id r) && (rpl_version p =? rpl_version r))
    "redaction_plans_session_id_version_key" ;;
  no_row redaction_plans
    (λ _ p, seqb (rpl_session_id p) (rpl_session_id r)
            && seqb (rpl_request_id p) (rpl_request_id r))
    "redaction_plans_session_id_request_id_key" ;;
  modify (set_redaction_plans <[id:=r]>).

Definition insert_redaction_job (id : string) (r : redaction_job_row) : tx () :=
  fresh_key redaction_jobs id "redaction_jobs_pkey" ;;
  references redaction_plans (rjb_plan_id r) "redaction_jobs_plan_id_fkey" ;;
  references sessions (rjb_session_id r) "redaction_jobs_session_id_fkey" ;;
  no_row redaction_jobs (λ _ j, seqb (rjb_plan_id j) (rjb_plan_id r))
    "redaction_jobs_plan_id_key" ;;
  modify (set_redaction_jobs <[id:=r]>).

Definition active_deletion (r : deletion_request_row) : bool :=
  oneof (del_state r) ["queued"; "leased"; "blocked"].

Definition insert_deletion_request (id : string) (r : deletion_request_row) : tx () :=
  fresh_key deletion_requests id "deletion_requests_pkey" ;;
  references organizations (del_organization_id r) "deletion_requests_organization_id_fkey" ;;
  references sessions (del_session_id r) "deletion_requests_session_id_fkey" ;;
  check ((3 <=? char_length (del_reason r)) && (char_length (del_reason r) <=? 2000))
    "deletion_requests_reason_check" ;;
  no_row deletion_requests
    (λ _ q, active_deletion r && active_deletion q && seqb (del_session_id q) (del_session_id r))
    "deletion_requests_one_active_per_session" ;;
  modify (set_deletion_requests <[id:=r]>).

Definition active_hold (r : legal_hold_row) : bool := bool_decide (hld_released_at r = None).

Definition insert_legal_hold (id : string) (r : legal_hold_row) : tx () :=
  fresh_key legal_holds id "legal_holds_pkey" ;;
  references organizations (hld_organization_id r) "legal_holds_organization_id_fkey" ;;
  references sessions (hld_session_id r) "legal_holds_session_id_fkey" ;;
  check ((3 <=? char_length (hld_reason r)) && (char_length (hld_reason r) <=? 2000))
    "legal_holds_reason_check" ;;
  no_row legal_holds
    (λ _ h, active_hold r && active_hold h && seqb (hld_session_id h) (hld_session_id r))
    "legal_holds_one_active_per_session" ;;
  modify (set_legal_holds <[id:=r]>).

Definition insert_dataset_release (id : string) (r : dataset_release_row) : tx () :=
  fresh_key dataset_releases id "dataset_releases_pkey" ;;
  references projects (drl_project_id r) "dataset_releases_project_id_fkey" ;;
  no_row dataset_releases
    (λ _ q, seqb (drl_project_id q) (drl_project_id r) && seqb (drl_name q) (drl_name r))
    "dataset_releases_project_id_name_key" ;;
  check (oneof (drl_release_profile r) ["trajectory_only"; "redacted_video"])
    "dataset_releases_release_profile_check" ;;
  check (7 <=? Z.of_nat (length (drl_object_keys r))) "dataset_releases_object_keys_check" ;;
  modify (set_dataset_releases <[id:=r]>).

(** [release_sessions] has [session_id UNIQUE]: the table is keyed by it. *)
Definition insert_release_session (session_id : string) (r : release_session_row) : tx () :=
  fresh_key release_sessions session_id "release_sessions_session_id_key" ;;
  references dataset_releases (rls_release_id r) "release_sessions_release_id_fkey" ;;
  references sessions session_id "release_sessions_session_id_fkey" ;;
  no_row release_sessions
    (λ _ q, seqb (rls_release_id q) (rls_release_id r) && (rls_ordinal q =? rls_ordinal r))
    "release_sessions_release_id_ordinal_key" ;;
  modify (set_release_sessions <[session_id:=r]>).

(** ** Shared statements ([store.go]) *)

(** [insertAudit]: the audit table only ever grows. *)
Definition insertAudit (event : AuditEvent) : tx () :=
  modify (set_audit_events (λ l, l ++ [event])).

Definition audit (actor action resource requestID : string) (now : time)
    (metadata : gmap string string) : AuditEvent :=
  {| ae_Actor := actor; ae_Action := action; ae_Resource := resource;
     ae_Timestamp := now; ae_RequestID := requestID; ae_Metadata := metadata |}.

(** [withAudit]: the operation and its audit event commit together. *)
Definition withAudit (event : AuditEvent) (operation : tx ()) : tx () :=
  operation ;; insertAudit event.

Definition newID (prefix : string) (r : random) : tx string := lift (New prefix r).

(** [SELECT id, assignment_id, state, updated_at FROM sessions WHERE id=$1 FOR UPDATE] *)
Definition session_of (id : string) (r : session_row) : Session :=
  {| s_ID := id; s_AssignmentID := ses_assignment_id r; s_State := ses_state r;
     s_UpdatedAt := ses_updated_at r; s_AuditEvents := [] |}.

(** [UPDATE sessions SET state=$1, updated_at=$2 WHERE id=$3]; a state outside
    the declared ones violates [sessions_state_check]. *)
Definition with_state (state : SessionState) (updated_at : time) (r : session_row) : session_row :=
  {| ses_assignment_id := ses_assignment_id r;
     ses_consent_acceptance_id := ses_consent_acceptance_id r;
     ses_state := state;
     ses_rework_of_session_id := ses_rework_of_session_id r;
     ses_created_at := ses_created_at r;
     ses_updated_at := updated_at |}.

Definition update_session_state (id : string) (state : SessionState) (updated_at : time) : tx () :=
  check (bool_decide (state ∈ session_states)) "sessions_state_check" ;;
  modify (set_sessions (alter (with_state state updated_at) id)).

(** [insertAudit(ctx, tx, session.AuditEvents[len(session.AuditEvents)-1])] *)
Definition insert_last_audit (s : Session) : tx () :=
  match last (s_AuditEvents s) with
  | Some e => insertAudit e
  | None => ret ()
  end.

(** The transition of a stored session, as every writer of [sessions.state]
    spells it: [Transition] on the loaded row, then [UPDATE sessions]. *)
Definition transition_command (to : SessionState) (actor requestID : string) (now : time)
    : TransitionCommand :=
  {| tc_To := to; tc_Actor := actor; tc_RequestID := requestID; tc_Timestamp := now |}.

(** A row found by a unique column. *)
Definition find_where {R} (p : string → R → bool) (m : gmap string R) : option (string * R) :=
  first_by (λ x y, string_leb x.1 y.1) (select p m).

(** [ORDER BY available_at, id FOR UPDATE SKIP LOCKED LIMIT 1]: [locked] holds the
    keys of the rows that concurrent transactions have locked. *)
Definition first_due {R} (available_at : R → time) (due : string → R → bool)
    (locked : gset string) (m : gmap string R) : option (string * R) :=
  first_by (λ x y, time_id_leb (available_at x.2, x.1) (available_at y.2, y.1))
    (select (λ k r, due k r && bool_decide (k ∉ locked)) m).

(** [(state='queued' AND available_at <= now) OR (state='leased' AND lease_expires_at <= now)] *)
Definition queue_due (state : string) (available_at : time) (lease_expires_at : option time)
    (now : time) : bool :=
  seqb state "queued" && (available_at <=? now)
  || seqb state "leased"
     && match lease_expires_at with Some t => t <=? now | None => false end.

(** [time.Duration(attempt*attempt) * time.Second], in 64-bit arithmetic. *)
Definition backoff (attempt : Z) : Z := wrap_int64 (wrap_int64 (attempt * attempt) * second).

(** [COALESCE(column, '')] and [COALESCE(column, 'epoch')] *)
Definition coalesce {A} (default : A) (o : option A) : A :=
  match o with Some a => a | None => default end.

(** [constraintViolation]: a violated unique index is reported as [e]. *)
Definition on_constraint {A} (name : string) (e : error) (m : tx A) : tx A := λ d,
  match m d with
  | Err (ErrConstraint n) => if seqb n name then Err e else Err (ErrConstraint n)
  | r => r
  end.

(** Any error of a statement becomes [e]. *)
Definition any_error {A} (e : error) (m : tx A) : tx A := λ d,
  match m d with Ok r => Ok r | Err _ => Err e end.

(** ** Lemmas *)
Lemma seqb_true a b : seqb a b = true ↔ a = b.
Proof. apply bool_decide_eq_true. Qed.
Lemma seqb_false a b : seqb a b = false ↔ a ≠ b.
Proof. apply bool_decide_eq_false. Qed.
Lemma oneof_true a l : oneof a l = true ↔ a ∈ l.
Proof. apply bool_decide_eq_true. Qed.

Lemma Transition_row id row to actor requestID now :
  id ≠ "" → actor ≠ "" → requestID ≠ "" → now ≠ 0 → allowed (ses_state row) to = true →
  Transition (session_of id row) (transition_command to actor requestID now) =
    Ok {| s_ID := id; s_AssignmentID := ses_assignment_id row; s_State := to; s_UpdatedAt := now;
          s_AuditEvents := [transition_event (session_of id row)
                              (transition_command to actor requestID now)] |}.
Proof. intros. by apply Transition_ok. Qed.

Lemma find_where_some {R} (p : string → R → bool) (m : gmap string R) k r :
  find_where p m = Some (k, r) → m !! k = Some r ∧ p k r = true.
Proof. intros H%first_by_elem. by apply select_spec. Qed.

Lemma find_where_none {R} (p : string → R → bool) (m : gmap string R) :
  find_where p m = None ↔ ∀ k r, m !! k = Some r → p k r = false.
Proof.
  unfold find_where. rewrite first_by_none. split.
  - intros Hn k r Hk. destruct (p k r) eqn:Hp; [|done].
    assert (H : (k, r) ∈ select p m) by (by apply select_spec).
    rewrite Hn in H. by apply elem_of_nil in H.
  - intros Hf. destruct (select p m) as [|[k r] l] eqn:Hs; [done|].
    assert (H : (k, r) ∈ select p m) by (rewrite Hs; left).
    apply select_spec in H as [Hk Hp]. by rewrite (Hf k r Hk) in Hp.
Qed.

Lemma find_where_unique {R} (p : string → R → bool) (m : gmap string R) k r :
  m !! k = Some r → p k r = true →
  (∀ k' r', m !! k' = Some r' → p k' r' = true → k' = k) → find_where p m = Some (k, r).
Proof.
  intros Hk Hp Hu. destruct (find_where p m) as [[k' r']|] eqn:Hf.
  - apply find_where_some in Hf as [Hk' Hp']. pose proof (Hu _ _ Hk' Hp') as ->. congruence.
  - rewrite find_where_none in Hf. by rewrite (Hf _ _ Hk) in Hp.
Qed.

Lemma find_where_insert {R} (p : string → R → bool) (m : gmap string R) k r :
  find_where p m = None → p k r = true → find_where p (<[k := r]> m) = Some (k, r).
Proof.
  intros Hn Hp. rewrite find_where_none in Hn. apply find_where_unique; [apply lookup_insert_eq|done|].
  intros k' r' [[<- _]|[_ Hk']]%lookup_insert_Some Hp'; [done|]. by rewrite (Hn _ _ Hk') in Hp'.
Qed.

Section first_due.
Context {R : Type} (available_at : R → time) (due : string → R → bool).
Context (locked : gset string) (m : gmap string R).

Lemma first_due_some k r :
  first_due available_at due locked m = Some (k, r) →
  m !! k = Some r ∧ due k r = true ∧ k ∉ locked.
Proof using Type.
  intros [H1 H2]%first_by_elem%select_spec.
  apply andb_true_iff in H2 as [H2 H3%bool_decide_eq_true]. done.
Qed.

(** The chosen row is the earliest due one that nobody holds. *)
Lemma first_due_least k r k' r' :
  first_due available_at due locked m = Some (k, r) →
  m !! k' = Some r' → due k' r' = true → k' ∉ locked →
  available_at r < available_at r' ∨
  (available_at r = available_at r' ∧ string_leb k k' = true).
Proof using Type.
  intros Hf Hk' Hd Hl.
  eapply first_by_least with (y := (k', r')) in Hf.
  - cbn in Hf. unfold time_id_leb in Hf. cbn in Hf.
    destruct (Z.ltb_spec (available_at r) (available_at r')); [by left|].
    destruct (Z.ltb_spec (available_at r') (available_at r)); [done|].
    right. split; [lia|done].
  - intros x y z. apply time_id_leb_trans.
  - intros x y. apply time_id_leb_total.
  - apply select_spec. split; [done|]. rewrite Hd. by rewrite bool_decide_true.
Qed.

Lemma first_due_none :
  first_due available_at due locked m = None ↔
  ∀ k r, m !! k = Some r → k ∉ locked → due k r = false.
Proof using Type.
  unfold first_due. rewrite first_by_none. split.
  - intros Hn k r Hk Hl. destruct (due k r) eqn:Hd; [|done].
    assert (H : (k, r) ∈ select (λ k r, due k r && bool_decide (k ∉ locked)) m).
    { apply select_spec. split; [done|]. rewrite Hd. by rewrite bool_decide_true. }
    rewrite Hn in H. by apply elem_of_nil in H.
  - intros Hf. destruct (select _ m) as [|[k r] l] eqn:Hs; [done|].
    assert (H : (k, r) ∈ select (λ k r, due k r && bool_decide (k ∉ locked)) m)
      by (rewrite Hs; left).
    apply select_spec in H as [Hk Hp].
    apply andb_true_iff in Hp as [Hp Hl%bool_decide_eq_true].
    by rewrite (Hf k r Hk Hl) in Hp.
Qed.

(** The row a claim must take: due, not locked, and none such before it. *)
Definition earliest (k : string) (r : R) : Prop :=
  m !! k = Some r ∧ due k r = true ∧ k ∉ locked ∧
  ∀ k' r', m !! k' = Some r' → due k' r' = true → k' ∉ locked →
    available_at r < available_at r' ∨
    (available_at r = available_at r' ∧ string_leb k k' = true).

Lemma first_due_earliest k r :
  first_due available_at due locked m = Some (k, r) ↔ earliest k r.
Proof using Type.
  split.
  - intros H. destruct (first_due_some _ _ H) as (H1 & H2 & H3).
    repeat (split; [done|]). intros k' r'. by apply first_due_least.
  - intros (H1 & H2 & H3 & H4).
    destruct (first_due available_at due locked m) as [[k' r']|] eqn:Hf.
    + destruct (first_due_some _ _ Hf) as (H1' & H2' & H3').
      destruct (H4 _ _ H1' H2' H3') as [?|[Ht Hl]];
        destruct (first_due_least _ _ _ _ Hf H1 H2 H3) as [?|[Ht' Hl']]; try lia.
      pose proof (string_leb_antisym _ _ Hl Hl') as ->. congruence.
    + rewrite first_due_none in Hf. by rewrite (Hf _ _ H1 H3) in H2.
Qed.
End first_due.

Lemma backoff_exact attempt :
  0 ≤ attempt ≤ 96038 → backoff attempt = attempt * attempt * second.
Proof.
  intros H. unfold backoff.
  assert (0 ≤ attempt * attempt ≤ 96038 * 96038) by nia.
  rewrite (wrap_int64_id (attempt * attempt)) by (unfold in_int64; lia).
  apply wrap_int64_id. unfold in_int64, second. nia.
Qed.

(** Reduces a table of a written database. *)
Ltac db_simpl :=
  cbn [
        organizations projects task_templates tasks contributors assignments consent_documents
        consent_acceptances sessions artifacts processing_jobs validation_results reviews
        review_claims redaction_plans redaction_jobs deletion_requests legal_holds
        retention_policies retention_purge_requests dataset_releases release_sessions
        artifact_multipart_uploads artifact_multipart_parts accounts oidc_identities
        organization_memberships invitations audit_events set_organizations set_projects
        set_task_templates set_tasks set_contributors set_assignments set_consent_documents
        set_consent_acceptances set_sessions set_artifacts set_processing_jobs
        set_validation_results set_reviews set_review_claims set_redaction_plans
        set_redaction_jobs set_deletion_requests set_legal_holds set_retention_policies
        set_retention_purge_requests set_dataset_releases set_release_sessions
        set_artifact_multipart_uploads set_artifact_multipart_parts set_accounts
        set_oidc_identities set_organization_memberships set_invitations set_audit_events] in *.

(** Unfolds the statements of a transaction down to [get] and [modify]. *)
Ltac tx_unfold :=
  unfold insert_organization, insert_project, insert_task_template, insert_task,
    insert_contributor, insert_assignment, insert_consent_document,
    insert_consent_acceptance, insert_session, insert_artifact, insert_processing_job,
    insert_validation_result, insert_review, insert_redaction_plan, insert_redaction_job,
    insert_deletion_request, insert_legal_hold, insert_dataset_release,
    insert_release_session in *;
  unfold withAudit, insert_last_audit, insertAudit, newID, update_session_state,
    row_of, exists_in, references_opt, references, no_row, fresh_key, check in *.

(** Inverts a successful transaction into its reads, guards and writes. *)
Ltac tx_solve_step :=
  first
    [ tx_inv_step
    | match goal with
      | H : (match ?x with _ => _ end) _ = Ok (_, _) |- _ => destruct x eqn:?
      | H : (if ?b then _ else _) _ = Ok (_, _) |- _ => destruct b eqn:?
      end ].
Ltac tx_crush := tx_unfold; repeat (tx_solve_step; cbn beta iota in *).
