(* ===== verification/Frame.v ===== *)
(** * What a transaction may change

    [respects R m]: every successful run of [m] relates the database before and
    after by the preorder [R].  The predicate is compositional, so what an
    operation leaves alone is proved by running through its statements; the
    instances used are "this table is as it was", "this table only grew" and "the
    audit log was extended". *)

From S2P Require Import Prelude Domain Schema.

Definition respects {A} (R : relation db) (m : tx A) : Prop :=
  ∀ d a d', m d = Ok (a, d') → R d d'.

(** A relation on the value of a projection of the database. *)
Definition onto {T} (p : db → T) (Q : relation T) : relation db := λ d d', Q (p d) (p d').

#[export] Instance onto_preorder {T} (p : db → T) (Q : relation T) `{!PreOrder Q} :
  PreOrder (onto p Q).
Proof. split; unfold onto; [intros d; reflexivity|intros d1 d2 d3 H1 H2; by etrans]. Qed.

(** The projection is not changed. *)
Definition keeps {T A} (p : db → T) (m : tx A) : Prop := respects (onto p eq) m.

Section respects.
Context (R : relation db) `{!PreOrder R}.

Lemma respects_bind {A B} (m : tx A) (k : A → tx B) :
  respects R m → (∀ a, respects R (k a)) → respects R (bind m k).
Proof using All.
  intros Hm Hk d b d' (a & d1 & H1 & H2)%bind_ok. etrans; [by eapply Hm|by eapply Hk].
Qed.
Lemma respects_ret {A} (a : A) : respects R (ret a).
Proof using All. intros d b d' [= <- <-]. reflexivity. Qed.
Lemma respects_throw {A} e : respects R (throw (A:=A) e).
Proof using Type. intros d b d' [=]. Qed.
Lemma respects_get : respects R get.
Proof using All. intros d b d' [= <- <-]. reflexivity. Qed.
Lemma respects_fail_if c e : respects R (fail_if c e).
Proof using All. intros d b d' [_ ->]%fail_if_ok. reflexivity. Qed.
Lemma respects_some_or {A} (o : option A) e : respects R (some_or o e).
Proof using All. intros d b d' [_ ->]%some_or_ok. reflexivity. Qed.
Lemma respects_lift {A} (r : res A) : respects R (lift r).
Proof using All. intros d b d' [_ ->]%lift_ok. reflexivity. Qed.
Lemma respects_modify f : (∀ d, R d (f d)) → respects R (modify f).
Proof using Type. intros Hf d b d' [= <- <-]. apply Hf. Qed.
Lemma respects_on_constraint {A} name e (m : tx A) :
  respects R m → respects R (on_constraint name e m).
Proof using Type.
  intros Hm d a d' H. apply (Hm d a d'). unfold on_constraint in H.
  destruct (m d) as [[b d1]|err]; [done|]. destruct err; try discriminate.
  destruct (seqb _ _); discriminate.
Qed.
Lemma respects_any_error {A} e (m : tx A) : respects R m → respects R (any_error e m).
Proof using Type.
  intros Hm d a d' H. apply (Hm d a d'). unfold any_error in H. by destruct (m d).
Qed.
End respects.

(** The rest of an operation may use what a pure step returned. *)
Lemma respects_lift_eq {A B} R `{!PreOrder R} (r : res A) (k : A → tx B) :
  (∀ a, r = Ok a → respects R (k a)) → respects R (bind (lift r) k).
Proof.
  intros Hk d b d' (a & d1 & [Hr ->]%lift_ok & H2)%bind_ok. by eapply Hk.
Qed.


Lemma keeps_ok {T A} (p : db → T) (m : tx A) d a d' :
  keeps p m → m d = Ok (a, d') → p d' = p d.
Proof. intros Hk H. symmetry. by apply (Hk d a d' H). Qed.

(** One statement of a transaction.  [respects] holds the lemmas on operations
    whose statements need more than their own text. *)
Create HintDb respects discriminated.

Ltac head_of t := match t with ?f _ => head_of f | _ => t end.

Ltac respects_step :=
  match goal with
  | |- respects _ _ => solve [auto with respects]
  | |- respects _ (bind _ _) => apply respects_bind; [apply _| |intros ?]
  | |- respects _ (ret _) => apply respects_ret; apply _
  | |- respects _ (throw _) => apply respects_throw
  | |- respects _ get => apply respects_get; apply _
  | |- respects _ (fail_if _ _) => apply respects_fail_if; apply _
  | |- respects _ (some_or _ _) => apply respects_some_or; apply _
  | |- respects _ (lift _) => apply respects_lift; apply _
  | |- respects _ (modify _) =>
    apply respects_modify; intros ?; unfold onto; cbn; try reflexivity
  | |- respects _ (on_constraint _ _ _) => apply respects_on_constraint
  | |- respects _ (any_error _ _) => apply respects_any_error
  | |- respects _ (match ?x with _ => _ end) => destruct x
  | |- respects _ (let _ := _ in _) => cbv zeta
  | |- respects _ ?m => let h := head_of m in unfold h
  end.

(** Unfolds an operation and runs through its statements. *)
Ltac respects_all := cbv zeta; repeat (respects_step; cbv beta zeta).

(** ** Inversion of the statements *)

Lemma row_of_ok {R} (table : db → gmap string R) id e d r d' :
  row_of table id e d = Ok (r, d') ↔ table d !! id = Some r ∧ d' = d.
Proof.
  unfold row_of. rewrite bind_ok. split.
  - intros (a & s & [= <- <-] & H%some_or_ok). done.
  - intros [H ->]. exists d, d. split; [done|]. by apply some_or_ok.
Qed.

Lemma bind_row_of {R B} (table : db → gmap string R) id e (k : R → tx B) d :
  bind (row_of table id e) k d = match table d !! id with Some r => k r d | None => Err e end.
Proof. unfold row_of. rewrite bind_assoc, bind_get, bind_some_or. done. Qed.

Lemma bind_no_row {R B} (table : db → gmap string R) p name (k : () → tx B) d :
  bind (no_row table p name) k d =
  if exists_row p (table d) then Err (ErrConstraint name) else k () d.
Proof. unfold no_row. rewrite bind_assoc, bind_get, bind_fail_if. done. Qed.

Lemma bind_insertAudit {B} e (k : () → tx B) d :
  bind (insertAudit e) k d = k () (set_audit_events (λ l, l ++ [e]) d).
Proof. done. Qed.

Lemma fresh_key_ok {R} (table : db → gmap string R) id name d u d' :
  fresh_key table id name d = Ok (u, d') → d' = d ∧ table d !! id = None.
Proof.
  unfold fresh_key. intros H. tx_inv. split; [done|].
  unfold has_row in *. by apply bool_decide_eq_false, eq_None_not_Some in H.
Qed.

Lemma no_row_ok {R} (table : db → gmap string R) p name d u d' :
  no_row table p name d = Ok (u, d') → d' = d ∧ exists_row p (table d) = false.
Proof. unfold no_row. intros H. by tx_inv. Qed.

Lemma update_session_state_ok id st t d u d' :
  update_session_state id st t d = Ok (u, d') ↔
  st ∈ session_states ∧ d' = set_sessions (alter (with_state st t) id) d.
Proof.
  unfold update_session_state, check. rewrite bind_ok. destruct u. split.
  - intros ([] & s1 & [Hin ->]%fail_if_ok & [= <-]).
    by apply negb_false_iff, bool_decide_eq_true in Hin.
  - intros [Hin ->]. exists (), d. split; [|done].
    apply fail_if_ok. by rewrite bool_decide_true.
Qed.

Lemma bind_update_session {B} id st t (k : () → tx B) d :
  st ∈ session_states →
  bind (update_session_state id st t) k d = k () (set_sessions (alter (with_state st t) id) d).
Proof.
  intros Hst. apply bind_run. by apply update_session_state_ok.
Qed.

Lemma insert_session_ok id r d u d' :
  insert_session id r d = Ok (u, d') →
  sessions d !! id = None ∧ d' = set_sessions <[id := r]> d.
Proof.
  unfold insert_session. intros H.
  apply bind_ok in H as ([] & d1 & [-> Hnew]%fresh_key_ok & H).
  apply bind_ok in H as ([] & d2 & Hf & H).
  apply bind_ok in H as ([] & d3 & Hr & H).
  apply bind_ok in H as ([] & d4 & [-> _]%no_row_ok & [= <-]).
  assert (d2 = d) as -> by (unfold references in Hf; by tx_inv).
  assert (d3 = d) as ->; [|done].
  unfold references_opt, references in Hr. destruct (ses_rework_of_session_id r); by tx_inv.
Qed.

Lemma bind_last_audit {B} id a st t e (k : () → tx B) d :
  bind (insert_last_audit {| s_ID := id; s_AssignmentID := a; s_State := st; s_UpdatedAt := t;
                             s_AuditEvents := [e] |}) k d =
  k () (set_audit_events (λ l, l ++ [e]) d).
Proof. done. Qed.

(** Runs an operation forward through its reads, guards and writes. *)
Ltac op_run :=
  repeat first
    [ progress tx_run | rewrite bind_row_of | rewrite bind_no_row | rewrite bind_insertAudit
    | rewrite bind_last_audit ];
  cbn [s_ID s_AssignmentID s_State s_UpdatedAt].

(** What the run [H] of a statement kept of [p]. *)
Ltac kept p H :=
  let K := fresh "K" in
  match type of H with
  | ?m ?d = Ok (?a, ?d') =>
    assert (K : p d' = p d) by (refine (keeps_ok p m d a d' _ H); unfold keeps; solve [respects_all])
  end.

Lemma newID_ok prefix r d i d' : newID prefix r d = Ok (i, d') → New prefix r = Ok i ∧ d' = d.
Proof. unfold newID. by intros [H ->]%lift_ok. Qed.

Lemma insertAudit_ok e d u d' :
  insertAudit e d = Ok (u, d') → d' = set_audit_events (λ l, l ++ [e]) d.
Proof. by intros [= <- <-]. Qed.

(** Inverts the reads, guards and single writes of an operation. *)
Ltac stmt_inv :=
  repeat match goal with
  | H : row_of _ _ _ _ = Ok (_, _) |- _ => apply row_of_ok in H as [H ->]
  | H : newID _ _ _ = Ok (_, _) |- _ => apply newID_ok in H as [H ->]
  | H : insertAudit _ _ = Ok (_, _) |- _ => apply insertAudit_ok in H as ->
  | H : update_session_state _ _ _ _ = Ok (_, _) |- _ =>
    apply update_session_state_ok in H as [_ ->]
  | _ => tx_inv_step
  end.

(** Replaces what a statement did by what it kept of [p], and forgets it. *)
Ltac keep p :=
  repeat match goal with
  | H : ?m ?d = Ok (?a, ?d') |- _ =>
    let K := fresh "K" in
    assert (K : p d' = p d) by (refine (keeps_ok p m d a d' _ H); unfold keeps; solve [respects_all]);
    clear H
  end.

Lemma references_ok {R} (table : db → gmap string R) id name d u d' :
  references table id name d = Ok (u, d') → d' = d ∧ is_Some (table d !! id).
Proof. unfold references, has_row. intros H. tx_inv. split; [done|]. by apply negb_false_iff, bool_decide_eq_true in H. Qed.

Lemma references_opt_ok {R} (table : db → gmap string R) id name d u d' :
  references_opt table id name d = Ok (u, d') → d' = d.
Proof. unfold references_opt. destruct id; [by intros [-> _]%references_ok|by intros [= _ <-]]. Qed.

Lemma check_ok b name d u d' : check b name d = Ok (u, d') → d' = d ∧ b = true.
Proof. unfold check. intros [H ->]%fail_if_ok. by apply negb_false_iff in H. Qed.

Lemma on_constraint_ok {A} name e (m : tx A) d a d' :
  on_constraint name e m d = Ok (a, d') → m d = Ok (a, d').
Proof.
  unfold on_constraint. destruct (m d) as [[b d1]|err]; [done|].
  destruct err; try discriminate. destruct (seqb _ _); discriminate.
Qed.

Lemma any_error_ok {A} e (m : tx A) d a d' : any_error e m d = Ok (a, d') → m d = Ok (a, d').
Proof. unfold any_error. by destruct (m d) as [[]|]. Qed.

(** Inverts the constraint checks of an insert. *)
Ltac insert_inv :=
  repeat match goal with
  | H : fresh_key _ _ _ _ = Ok (_, _) |- _ => apply fresh_key_ok in H as [-> H]
  | H : no_row _ _ _ _ = Ok (_, _) |- _ => apply no_row_ok in H as [-> H]
  | H : references _ _ _ _ = Ok (_, _) |- _ => apply references_ok in H as [-> H]
  | H : references_opt _ _ _ _ = Ok (_, _) |- _ => apply references_opt_ok in H as ->
  | H : check _ _ _ = Ok (_, _) |- _ => apply check_ok in H as [-> H]
  | H : on_constraint ?n ?e ?m ?d = Ok (?a, ?d') |- _ => apply on_constraint_ok in H
  | H : any_error ?e ?m ?d = Ok (?a, ?d') |- _ => apply any_error_ok in H
  | H : insertAudit _ _ = Ok (_, _) |- _ => apply insertAudit_ok in H as ->
  | H : newID _ _ _ = Ok (_, _) |- _ => apply newID_ok in H as [H ->]
  | H : row_of _ _ _ _ = Ok (_, _) |- _ => apply row_of_ok in H as [H ->]
  | _ => tx_inv_step
  end.

Lemma on_constraint_run {A} name e (m : tx A) d a d' :
  m d = Ok (a, d') → on_constraint name e m d = Ok (a, d').
Proof. unfold on_constraint. by intros ->. Qed.

Lemma on_constraint_hit {A} name e (m : tx A) d :
  m d = Err (ErrConstraint name) → on_constraint name e m d = Err e.
Proof. unfold on_constraint. intros ->. by rewrite (proj2 (seqb_true name name)). Qed.

Lemma on_constraint_miss {A} name other e (m : tx A) d :
  m d = Err (ErrConstraint other) → other ≠ name →
  on_constraint name e m d = Err (ErrConstraint other).
Proof. unfold on_constraint. intros -> Hn. by rewrite (proj2 (seqb_false other name)). Qed.

(** The constraint checks of an insert, forward. *)
Lemma bind_fresh_key {R B} (table : db → gmap string R) id name (k : () → tx B) d :
  table d !! id = None → bind (fresh_key table id name) k d = k () d.
Proof.
  intros H. unfold fresh_key, has_row. rewrite bind_assoc, bind_get, H.
  by rewrite bind_fail_if, bool_decide_false by (by intros [? [=]]).
Qed.

Lemma bind_references {R B} (table : db → gmap string R) id name (k : () → tx B) d :
  is_Some (table d !! id) → bind (references table id name) k d = k () d.
Proof.
  intros H. unfold references, has_row. rewrite bind_assoc, bind_get, bind_fail_if.
  by rewrite bool_decide_true.
Qed.

Lemma bind_check {B} b name (k : () → tx B) d :
  bind (check b name) k d = if b then k () d else Err (ErrConstraint name).
Proof. unfold check. rewrite bind_fail_if. by destruct b. Qed.
