(* ===== verification/Text.v ===== *)
(** * Text functions of the Go standard library used at the edges of the system

    [strings.Split], [strings.Fields], [strings.Trim], [strings.TrimPrefix],
    [strconv.ParseInt] and [strconv.ParseUint], [path.Clean], [filepath.Join] and
    [filepath.Rel], on byte strings, with the lemmas that relate a text to its
    parts. *)

From S2P Require Import Prelude.

(** ** Splitting at one byte *)

Fixpoint split_on (c : ascii) (s : string) : list string :=
  match s with
  | EmptyString => [""]
  | String a s' =>
    if Ascii.eqb a c then "" :: split_on c s'
    else match split_on c s' with
         | p :: ps => String a p :: ps
         | [] => [String a ""]
         end
  end.
Definition slash : ascii := "/"%char.
Definition parts (s : string) : list string := split_on slash s.
Definition join_parts (l : list string) : string := String.concat "/" l.

(** [strings.TrimPrefix] *)
Definition TrimPrefix (s p : string) : string :=
  if HasPrefix s p then sdrop (String.length p) s else s.

Definition TrimSuffix (s p : string) : string :=
  rev_string (TrimPrefix (rev_string s) (rev_string p)).

(** [strings.IndexByte] *)
Fixpoint IndexByte (s : string) (c : ascii) : option nat :=
  match s with
  | EmptyString => None
  | String a s' => if Ascii.eqb a c then Some O else S <$> IndexByte s' c
  end.

Fixpoint stake (n : nat) (s : string) : string :=
  match n, s with
  | S n', String c s' => String c (stake n' s')
  | _, _ => ""
  end.

(** [strings.Trim(s, cutset)] for a cutset of one byte. *)
Fixpoint trim_left_byte (c : ascii) (s : string) : string :=
  match s with
  | String a s' => if Ascii.eqb a c then trim_left_byte c s' else s
  | EmptyString => ""
  end.
Definition Trim (s : string) (c : ascii) : string :=
  rev_string (trim_left_byte c (rev_string (trim_left_byte c s))).

(** [strings.ReplaceAll] of one byte by another. *)
Fixpoint replace_byte (a b : ascii) (s : string) : string :=
  match s with
  | EmptyString => ""
  | String c s' => String (if Ascii.eqb c a then b else c) (replace_byte a b s')
  end.

(** [strings.Fields]: the maximal runs without white space. *)
Definition space_at (s : string) : option nat :=
  match list_find (λ e, String.prefix e s = true) space_encodings with
  | Some (_, e) => Some (String.length e)
  | None => None
  end.
Fixpoint fields (fuel : nat) (s current : string) : list string :=
  let flush := if bool_decide (current = "") then [] else [rev_string current] in
  match fuel, s with
  | O, _ | _, EmptyString => flush
  | S fuel', String a s' =>
    match space_at s with
    | Some n => flush ++ fields fuel' (sdrop n s) ""
    | None => fields fuel' s' (String a current)
    end
  end.
Definition Fields (s : string) : list string := fields (S (String.length s)) s "".

(** ** Integers *)

Definition digit_value (base : Z) (c : ascii) : option Z :=
  let n := Z.of_N (N_of_ascii c) in
  let v := if (48 <=? n) && (n <=? 57) then n - 48
           else if (97 <=? n) && (n <=? 122) then n - 87
           else if (65 <=? n) && (n <=? 90) then n - 55 else 99 in
  if v <? base then Some v else None.

Fixpoint all_chars (p : ascii → bool) (s : string) : bool :=
  match s with
  | EmptyString => true
  | String c s' => p c && all_chars p s'
  end.

Fixpoint digits_value (base : Z) (s : string) (acc : Z) : option Z :=
  match s with
  | EmptyString => Some acc
  | String c s' =>
    match digit_value base c with
    | Some v => digits_value base s' (base * acc + v)
    | None => None
    end
  end.

(** [strconv.ParseUint(s, base, bits)]: no sign, at least one digit, in range. *)
Definition ParseUint (s : string) (base bits : Z) : option Z :=
  if bool_decide (s = "") then None
  else match digits_value base s 0 with
       | Some v => if v <? 2 ^ bits then Some v else None
       | None => None
       end.

(** [strconv.ParseInt(s, 10, 64)]: an optional sign, digits, in range. *)
Definition ParseInt (s : string) : option Z :=
  let '(negative, rest) :=
    match s with
    | String "+" r => (false, r)
    | String "-" r => (true, r)
    | _ => (false, s)
    end in
  if bool_decide (rest = "") then None
  else match digits_value 10 rest 0 with
       | Some v =>
         if (negative : bool) then if v <=? 2 ^ 63 then Some (- v) else None
         else if v <? 2 ^ 63 then Some v else None
       | None => None
       end.

(** ** Paths *)

(** One pass over the elements, the result in reverse: an empty element or "."
    goes, ".." removes the element before it; at the root it goes too, otherwise
    leading ".." elements stay. *)
Fixpoint clean_parts (rooted : bool) (l stack : list string) : list string :=
  match l with
  | [] => stack
  | p :: l' =>
    if bool_decide (p = "") || bool_decide (p = ".") then clean_parts rooted l' stack
    else if bool_decide (p = "..") then
      match stack with
      | top :: below =>
        if bool_decide (top = "..") then clean_parts rooted l' (p :: stack)
        else clean_parts rooted l' below
      | [] => clean_parts rooted l' (if rooted then [] else [p])
      end
    else clean_parts rooted l' (p :: stack)
  end.

(** [path.Clean], and [filepath.Clean] on Unix. *)
Definition Clean (p : string) : string :=
  if bool_decide (p = "") then "."
  else
    let rooted := HasPrefix p "/" in
    let body := join_parts (reverse (clean_parts rooted (parts p) [])) in
    if rooted then "/" +:+ body else if bool_decide (body = "") then "." else body.

(** [filepath.Join(a, b)] of two nonempty elements. *)
Definition Join (a b : string) : string := Clean (a +:+ "/" +:+ b).

Fixpoint strip_common (b t : list string) : list string * list string :=
  match b, t with
  | x :: b', y :: t' => if bool_decide (x = y) then strip_common b' t' else (b, t)
  | _, _ => (b, t)
  end.
(** The elements of a clean path. *)
Definition path_elements (p : string) : list string :=
  List.filter (λ x, negb (bool_decide (x = "") || bool_decide (x = "."))) (parts p).
(** [filepath.Rel] *)
Definition Rel (basepath targpath : string) : option string :=
  let base := Clean basepath in
  let targ := Clean targpath in
  if bool_decide (targ = base) then Some "."
  else if negb (Bool.eqb (HasPrefix base "/") (HasPrefix targ "/")) then None
  else
    let '(b, t) := strip_common (path_elements base) (path_elements targ) in
    match b with
    | x :: _ => if bool_decide (x = "..") then None
                else Some (join_parts (repeat ".." (length b) ++ t))
    | [] => Some (join_parts t)
    end.

(** ** Lemmas on parts *)

Definition slash_free (s : string) : Prop := IndexByte s slash = None.
(** An element a clean path may contain anywhere. *)
Definition plain (s : string) : Prop := s ≠ "" ∧ s ≠ "." ∧ s ≠ "..".

Lemma parts_nonempty s : parts s ≠ [].
Proof.
  unfold parts. destruct s as [|a s]; [done|]. cbn.
  destruct (Ascii.eqb a slash); [done|]. by destruct (split_on slash s).
Qed.

Lemma parts_slash s : parts (String slash s) = "" :: parts s.
Proof. reflexivity. Qed.

Lemma parts_char a s :
  a ≠ slash → ∃ p ps, parts s = p :: ps ∧ parts (String a s) = String a p :: ps.
Proof.
  intros Ha. unfold parts. cbn. apply Ascii.eqb_neq in Ha. rewrite Ha.
  pose proof (parts_nonempty s) as Hn. unfold parts in Hn.
  destruct (split_on slash s) as [|p ps]; [done|]. by exists p, ps.
Qed.

Lemma join_parts_cons p q l : join_parts (p :: q :: l) = p +:+ "/" +:+ join_parts (q :: l).
Proof. reflexivity. Qed.

Lemma join_parts_char a p l : join_parts (String a p :: l) = String a (join_parts (p :: l)).
Proof. by destruct l. Qed.

(** Joining what was split gives the text back. *)
Lemma join_parts_parts s : join_parts (parts s) = s.
Proof.
  induction s as [|a s IH]; [done|].
  destruct (decide (a = slash)) as [->|Ha].
  - rewrite parts_slash. destruct (parts s) as [|p ps] eqn:Hp; [by destruct (parts_nonempty s)|].
    rewrite join_parts_cons, IH. done.
  - destruct (parts_char a s Ha) as (p & ps & Hp & ->).
    by rewrite join_parts_char, <-Hp, IH.
Qed.

Lemma parts_slash_free s p : p ∈ parts s → slash_free p.
Proof.
  revert p. induction s as [|a s IH]; intros p.
  - unfold parts. cbn. intros ->%list_elem_of_singleton. done.
  - destruct (decide (a = slash)) as [->|Ha].
    + rewrite parts_slash. intros [->|Hp]%elem_of_cons; [done|auto].
    + destruct (parts_char a s Ha) as (q & ps & Hq & ->).
      intros [->|Hp]%elem_of_cons.
      * unfold slash_free. cbn. apply Ascii.eqb_neq in Ha. rewrite Ha.
        specialize (IH q). rewrite IH; [done|]. rewrite Hq. left.
      * apply IH. rewrite Hq. by right.
Qed.

Lemma parts_one p : slash_free p → parts p = [p].
Proof.
  unfold slash_free, parts. induction p as [|a p IH]; [done|]. cbn.
  destruct (Ascii.eqb a slash); [done|]. intros H.
  rewrite IH; [done|]. by destruct (IndexByte p slash).
Qed.

Lemma parts_app_slash a b : parts (a +:+ "/" +:+ b) = parts a ++ parts b.
Proof.
  induction a as [|x a IH]; [done|]. rewrite string_app_cons.
  destruct (decide (x = slash)) as [->|Hx].
  - rewrite !parts_slash, IH. done.
  - destruct (parts_char x a Hx) as (p & ps & Hp & ->).
    destruct (parts_char x (a +:+ "/" +:+ b) Hx) as (p' & ps' & Hp' & ->).
    rewrite IH, Hp in Hp'. by injection Hp' as <- <-.
Qed.

(** Splitting what was joined gives the elements back. *)
Lemma parts_join_parts l : l ≠ [] → Forall slash_free l → parts (join_parts l) = l.
Proof.
  intros Hl Hf. induction Hf as [|p l Hp Hf IH]; [done|].
  destruct l as [|q l]; [by apply parts_one|].
  rewrite join_parts_cons, parts_app_slash, (parts_one p Hp), IH; done.
Qed.

Lemma parts_rooted s : HasPrefix s "/" = true → ∃ r, s = String slash r ∧ parts s = "" :: parts r.
Proof. intros [r ->]%prefix_exists. by exists r. Qed.

(** ** Lemmas on [Clean] *)

Lemma clean_parts_plain rooted l stack :
  Forall plain l → clean_parts rooted l stack = reverse l ++ stack.
Proof.
  intros Hl. revert stack. induction Hl as [|p l (H1 & H2 & H3) Hl IH]; intros stack; [done|].
  cbn [clean_parts]. rewrite !bool_decide_eq_false_2 by done. cbn [orb].
  rewrite IH, reverse_cons, <-app_assoc. done.
Qed.

(** A cleaned relative path is some ".." elements and then plain ones. *)
Lemma clean_parts_shape l stack n ps :
  Forall slash_free l → Forall slash_free ps →
  reverse stack = repeat ".." n ++ ps → Forall plain ps →
  ∃ n' ps', reverse (clean_parts false l stack) = repeat ".." n' ++ ps' ∧
            Forall plain ps' ∧ Forall slash_free ps'.
Proof.
  intros Hl. revert stack n ps.
  induction Hl as [|p l Hp Hl IH]; intros stack n ps Hfree Hs Hps; [by exists n, ps|].
  cbn [clean_parts]. case_bool_decide as H1; cbn [orb]; [by apply (IH stack n ps)|].
  case_bool_decide as H2; cbn [orb]; [by apply (IH stack n ps)|].
  case_bool_decide as H3.
  - destruct ps as [|q ps'] using rev_ind.
    + rewrite app_nil_r in Hs. apply (f_equal reverse) in Hs. rewrite reverse_involutive in Hs.
      assert (Hr : ∀ k, reverse (repeat ".." k) = repeat ".." k).
      { intros k. induction k as [|k IHk]; [done|]. cbn [repeat].
        rewrite reverse_cons, IHk, <-repeat_cons. done. }
      rewrite Hr in Hs. subst p.
      destruct stack as [|top below].
      * apply (IH [".."] 1%nat []); [done|done|done].
      * destruct n as [|n]; [done|]. cbn [repeat] in Hs. injection Hs as -> ->.
        rewrite bool_decide_eq_true_2 by done.
        apply (IH _ (S (S n)) []); [done| |done].
        rewrite app_nil_r, <-(Hr (S (S n))). reflexivity.
    + clear IHps'. rewrite app_assoc in Hs. apply (f_equal reverse) in Hs.
      rewrite reverse_involutive, reverse_app in Hs. cbn in Hs. subst stack.
      apply Forall_app in Hps as [Hps Hq]. apply Forall_singleton in Hq as (_ & _ & Hq).
      apply Forall_app in Hfree as [Hfree _].
      cbn. rewrite bool_decide_eq_false_2 by done.
      apply (IH _ n ps'); [done| |done]. by rewrite reverse_involutive.
  - apply (IH _ n (ps ++ [p])).
    + apply Forall_app; split; [done|by constructor].
    + rewrite reverse_cons, Hs, app_assoc. done.
    + apply Forall_app. split; [done|]. by repeat constructor.
Qed.

Lemma join_parts_nonempty l : Forall plain l → l ≠ [] → join_parts l ≠ "".
Proof.
  intros Hl Hn. destruct Hl as [|p l (Hp & _) _]; [done|].
  destruct p as [|a p]; [done|]. by rewrite join_parts_char.
Qed.

(** A path of plain elements is clean. *)
Lemma Clean_plain s : Forall plain (parts s) → Clean s = s ∧ HasPrefix s "/" = false ∧ s ≠ "".
Proof.
  intros Hs.
  assert (Hroot : HasPrefix s "/" = false).
  { destruct (HasPrefix s "/") eqn:H; [|done].
    apply parts_rooted in H as (r & -> & Hr). rewrite Hr in Hs.
    by apply Forall_inv in Hs as [? _]. }
  assert (Hne : s ≠ "").
  { intros ->. by apply Forall_inv in Hs as [? _]. }
  split; [|done]. unfold Clean. rewrite bool_decide_eq_false_2 by done. rewrite Hroot.
  rewrite clean_parts_plain by done. rewrite app_nil_r, reverse_involutive, join_parts_parts.
  by rewrite bool_decide_eq_false_2.
Qed.

(** ** Absolute paths *)

Lemma clean_parts_elements rooted l stack :
  clean_parts rooted l stack
  = clean_parts rooted
      (List.filter (λ x, negb (bool_decide (x = "") || bool_decide (x = "."))) l) stack.
Proof.
  revert stack. induction l as [|p l IH]; intros stack; [done|].
  cbn [clean_parts List.filter].
  destruct (bool_decide (p = "") || bool_decide (p = ".")) eqn:H; cbn [negb]; [apply IH|].
  cbn [clean_parts]. rewrite H.
  destruct (bool_decide (p = "..")); [|apply IH].
  destruct stack as [|top below]; [apply IH|]. destruct (bool_decide (top = "..")); apply IH.
Qed.

Lemma clean_parts_rooted l stack :
  Forall plain stack → Forall slash_free stack → Forall slash_free l →
  Forall plain (clean_parts true l stack) ∧ Forall slash_free (clean_parts true l stack).
Proof.
  intros H1 H2 Hl. revert stack H1 H2.
  induction Hl as [|p l Hp Hl IH]; intros stack H1 H2; [done|].
  cbn [clean_parts]. case_bool_decide as Ha; cbn [orb]; [by apply IH|].
  case_bool_decide as Hb; cbn [orb]; [by apply IH|].
  case_bool_decide as Hc.
  - destruct stack as [|top below]; [by apply IH|].
    apply Forall_cons in H1 as [(_ & _ & Ht) H1], H2 as [_ H2].
    rewrite bool_decide_eq_false_2 by done. by apply IH.
  - apply IH; by constructor.
Qed.

Lemma elements_app_slash a b : path_elements (a +:+ "/" +:+ b) = path_elements a ++ path_elements b.
Proof. unfold path_elements. by rewrite parts_app_slash, List.filter_app. Qed.

Lemma elements_plain s : Forall plain (parts s) → path_elements s = parts s.
Proof.
  unfold path_elements. induction 1 as [|p l (H1 & H2 & H3) _ IH]; [done|].
  cbn. rewrite !bool_decide_eq_false_2 by done. cbn. by rewrite IH.
Qed.

Lemma plain_join l : Forall plain l → Forall slash_free l → l ≠ [] →
  parts (join_parts l) = l ∧ path_elements (join_parts l) = l.
Proof.
  intros H1 H2 H3. assert (parts (join_parts l) = l) as Hp by (by apply parts_join_parts).
  split; [done|]. by rewrite elements_plain; rewrite Hp.
Qed.

Lemma elements_root l : Forall plain l → Forall slash_free l →
  path_elements ("/" +:+ join_parts l) = l.
Proof.
  intros H1 H2. change ("/" +:+ join_parts l) with ("" +:+ "/" +:+ join_parts l).
  rewrite elements_app_slash. change (path_elements "") with (@nil string). rewrite app_nil_l.
  destruct (decide (l = [])) as [->|Hn]; [done|]. by apply plain_join.
Qed.

Lemma Clean_rooted s :
  HasPrefix s "/" = true → Forall plain (path_elements s) → Clean s = "/" +:+ join_parts (path_elements s).
Proof.
  intros Hp Hl. unfold Clean. rewrite bool_decide_eq_false_2 by (intros ->; discriminate Hp).
  rewrite Hp, clean_parts_elements. fold (path_elements s).
  by rewrite clean_parts_plain, app_nil_r, reverse_involutive.
Qed.

(** An absolute clean path: the root of a store. *)
Definition absolute (r : string) : bool := HasPrefix r "/" && bool_decide (Clean r = r).

Lemma absolute_elements r :
  absolute r = true →
  Forall plain (path_elements r) ∧ Forall slash_free (path_elements r) ∧
  r = "/" +:+ join_parts (path_elements r).
Proof.
  unfold absolute. rewrite andb_true_iff, bool_decide_eq_true. intros [Hp Hc].
  destruct (clean_parts_rooted (parts r) []) as [H1 H2]; [done|done| |].
  { apply Forall_forall. apply parts_slash_free. }
  assert (Hr : r = "/" +:+ join_parts (reverse (clean_parts true (parts r) []))).
  { rewrite <-Hc at 1. unfold Clean.
    rewrite bool_decide_eq_false_2 by (intros ->; discriminate Hp). by rewrite Hp. }
  assert (He : path_elements r = reverse (clean_parts true (parts r) [])).
  { rewrite Hr at 1. apply elements_root; by apply Forall_reverse. }
  rewrite He. split; [by apply Forall_reverse|]. split; [by apply Forall_reverse|done].
Qed.

Lemma strip_common_app b t : strip_common b (b ++ t) = ([], t).
Proof. induction b as [|x b IH]; [done|]. cbn. by rewrite bool_decide_eq_true_2. Qed.

(** Joining a plain relative path to a root stays below the root. *)
Lemma Join_below r key :
  absolute r = true → Forall plain (parts key) →
  Join r key = "/" +:+ join_parts (path_elements r ++ parts key) ∧
  Rel r (Join r key) = Some key.
Proof.
  intros Hr Hk. destruct (absolute_elements r Hr) as (H1 & H2 & H3).
  assert (Hk2 : Forall slash_free (parts key)) by (apply Forall_forall, parts_slash_free).
  assert (He : path_elements (r +:+ "/" +:+ key) = path_elements r ++ parts key).
  { by rewrite elements_app_slash, (elements_plain key). }
  assert (Hall : Forall plain (path_elements r ++ parts key)) by (by apply Forall_app).
  assert (Hall2 : Forall slash_free (path_elements r ++ parts key)) by (by apply Forall_app).
  assert (HJ : Join r key = "/" +:+ join_parts (path_elements r ++ parts key)).
  { unfold Join. rewrite Clean_rooted; [by rewrite He| |by rewrite He].
    rewrite H3. apply prefix_exists. eexists. rewrite string_app_assoc. reflexivity. }
  split; [done|]. unfold Rel.
  unfold absolute in Hr. rewrite andb_true_iff, bool_decide_eq_true in Hr.
  destruct Hr as [Hp Hc]. rewrite Hc, HJ.
  assert (HeJ : path_elements ("/" +:+ join_parts (path_elements r ++ parts key)) = path_elements r ++ parts key)
    by (by apply elements_root).
  assert (Hpj : HasPrefix ("/" +:+ join_parts (path_elements r ++ parts key)) "/" = true)
    by apply prefix_app.
  rewrite Clean_rooted by (rewrite ?HeJ; done). rewrite HeJ.
  rewrite bool_decide_eq_false_2.
  2: { intros Heq. rewrite <-Heq, HeJ in H3. apply (f_equal path_elements) in H3.
       rewrite Heq in HeJ. rewrite HeJ in H3.
       rewrite <-HeJ in H3 at 2. apply (f_equal length) in HeJ. rewrite length_app in HeJ.
       destruct (parts key) as [|x l] eqn:Hpk; [by destruct (parts_nonempty key)|].
       cbn in HeJ. lia. }
  rewrite Hp, Hpj. cbn [Bool.eqb negb]. rewrite HeJ, strip_common_app, join_parts_parts. done.
Qed.

Lemma Join_inj r a b :
  absolute r = true → Forall plain (parts a) → Forall plain (parts b) →
  Join r a = Join r b → a = b.
Proof.
  intros Hr Ha Hb H. destruct (Join_below r a Hr Ha) as [_ H1], (Join_below r b Hr Hb) as [_ H2].
  rewrite H in H1. rewrite H1 in H2. by injection H2.
Qed.

(** ** Digits and prefixes *)

Lemma all_chars_app p a b : all_chars p (a +:+ b) = all_chars p a && all_chars p b.
Proof.
  induction a as [|c a IH]; [by rewrite string_app_nil_l|].
  rewrite string_app_cons. cbn [all_chars]. by rewrite IH, andb_assoc.
Qed.

Lemma digits_value_nonneg base s acc v :
  0 ≤ base → 0 ≤ acc → digits_value base s acc = Some v → 0 ≤ v.
Proof.
  intros Hb. revert acc. induction s as [|c s IH]; intros acc Ha; cbn; [by intros [= <-]|].
  destruct (digit_value base c) as [x|] eqn:E; [|done]. apply IH.
  assert (0 ≤ x); [|lia]. unfold digit_value in E. destruct (_ <? base); [|done].
  injection E as <-. repeat case_match; try lia;
    match goal with H : (_ && _)%bool = true |- _ => apply andb_true_iff in H as [?%Z.leb_le ?%Z.leb_le] end; lia.
Qed.

Lemma sdrop_length n s : String.length (sdrop n s) = (String.length s - n)%nat.
Proof. revert s. induction n as [|n IH]; intros [|c s]; cbn; [done..|]. by rewrite IH. Qed.
