(* ===== verification/Encoding.v ===== *)
(** * Text encodings of the Go standard library

    What the code relies on of [encoding/json] and [time]: the compact and the
    indented JSON text of a value (strings escaped as [json.Marshal] escapes them,
    binary64 numbers in their shortest round-tripping form), and the RFC 3339 text
    of an instant.  All of it is executable. *)

From S2P Require Import Prelude Text.
From Stdlib Require Import SpecFloat.

(** ** UTF-8 ([unicode/utf8.DecodeRuneInString]) *)

Definition in_range (lo hi n : N) : bool := (lo <=? n)%N && (n <=? hi)%N.
Definition continuation (n : N) : bool := in_range 128 191 n.

(** Bytes of the valid encoding at the head of the string, 0 when there is none. *)
Definition rune_size (l : list N) : nat :=
  match l with
  | a :: l1 =>
    if (a <? 128)%N then 1
    else if in_range 194 223 a then
      match l1 with b :: _ => if continuation b then 2 else 0 | _ => 0 end
    else if in_range 224 239 a then
      match l1 with
      | b :: c :: _ =>
        let lo := if (a =? 224)%N then 160%N else 128%N in
        let hi := if (a =? 237)%N then 159%N else 191%N in
        if in_range lo hi b && continuation c then 3 else 0
      | _ => 0
      end
    else if in_range 240 244 a then
      match l1 with
      | b :: c :: d :: _ =>
        let lo := if (a =? 240)%N then 144%N else 128%N in
        let hi := if (a =? 244)%N then 143%N else 191%N in
        if in_range lo hi b && continuation c && continuation d then 4 else 0
      | _ => 0
      end
    else 0
  | [] => 0
  end%nat.

Fixpoint string_bytes (s : string) : list N :=
  match s with
  | EmptyString => []
  | String c s' => N_of_ascii c :: string_bytes s'
  end.

(** [utf8.ValidString] *)
Fixpoint valid_utf8 (fuel : nat) (l : list N) : bool :=
  match fuel, l with
  | _, [] => true
  | O, _ => false
  | S fuel', _ =>
    match rune_size l with
    | O => false
    | n => valid_utf8 fuel' (drop n l)
    end
  end.
Definition ValidString (s : string) : bool := valid_utf8 (String.length s) (string_bytes s).

(** ** JSON strings *)

Definition quote : string := String (ascii_of_N 34) "".
Definition backslash : ascii := ascii_of_N 92.

Definition hex4 (n : N) : string :=
  String backslash (String "u"%char
    (String (hex_digit (n / 4096 mod 16)) (String (hex_digit (n / 256 mod 16))
      (String (hex_digit (n / 16 mod 16)) (String (hex_digit (n mod 16)) ""))))).

(** A byte below 0x80: quotes, backslashes, control characters and, for HTML, the
    angle brackets and the ampersand are escaped. *)
Definition escape_byte (n : N) : string :=
  if (n =? 34)%N || (n =? 92)%N then String backslash (String (ascii_of_N n) "")
  else if (n =? 8)%N then "\b" else if (n =? 12)%N then "\f"
  else if (n =? 10)%N then "\n" else if (n =? 13)%N then "\r" else if (n =? 9)%N then "\t"
  else if (n <? 32)%N || (n =? 60)%N || (n =? 62)%N || (n =? 38)%N then hex4 n
  else String (ascii_of_N n) "".

(** Invalid UTF-8 becomes U+FFFD; U+2028 and U+2029 are escaped. *)
Fixpoint escape_bytes (fuel : nat) (l : list N) : string :=
  match fuel, l with
  | S fuel', a :: l1 =>
    match rune_size l with
    | O => hex4 65533 +:+ escape_bytes fuel' l1
    | 1%nat => escape_byte a +:+ escape_bytes fuel' l1
    | n =>
      (if bool_decide (take 3 l = [226; 128; 168]%N) then hex4 8232
       else if bool_decide (take 3 l = [226; 128; 169]%N) then hex4 8233
       else bytes_string (take n l)) +:+ escape_bytes fuel' (drop n l)
    end
  | _, _ => ""
  end.
Definition encode_string (s : string) : string :=
  quote +:+ escape_bytes (String.length s) (string_bytes s) +:+ quote.

(** ** JSON numbers: the shortest decimal that reads back as the same binary64 *)

(** [num/den] is the value; [10^(x-1) <= num/den < 10^x]. *)
Definition at_least_pow10 (num den x : Z) : bool :=
  if 0 <=? x then den * 10 ^ x <=? num else den <=? num * 10 ^ (- x).
Fixpoint first_exponent (tries : nat) (num den x : Z) : Z :=
  match tries with
  | O => x
  | S tries' => if at_least_pow10 num den x then first_exponent tries' num den (x + 1) else x
  end.
Definition decimal_exponent (num den : Z) : Z :=
  first_exponent 6 num den ((Z.log2 num - Z.log2 den) * 30103 / 100000 - 2).

(** The digits [d] with [d * 10^k] inside the rounding interval [lo, hi] (scaled by
    [den]), ends included when [incl], closest to [num/den]; ties go to even. *)
Definition inside (incl : bool) (lo hi den d k : Z) : bool :=
  let a := if 0 <=? k then d * 10 ^ k * den else d * den in
  let s := if 0 <=? k then 1 else 10 ^ (- k) in
  if incl then (lo * s <=? a) && (a <=? hi * s) else (lo * s <? a) && (a <? hi * s).
Definition digits_at (incl : bool) (num lo hi den k : Z) : option Z :=
  let p := if 0 <=? k then num else num * 10 ^ (- k) in
  let q := if 0 <=? k then den * 10 ^ k else den in
  let d := p / q in
  let down := inside incl lo hi den d k in
  let up := inside incl lo hi den (d + 1) k in
  let twice := 2 * (p - d * q) in
  if down && up then
    Some (if twice <? q then d else if q <? twice then d + 1 else if Z.even d then d else d + 1)
  else if down then Some d else if up then Some (d + 1) else None.
Fixpoint shortest (n : nat) (incl : bool) (num lo hi den x k : Z) : Z * Z :=
  match n with
  | O => (0, k)
  | S n' =>
    match digits_at incl num lo hi den k with
    | Some d => (d, k)
    | None => shortest n' incl num lo hi den x (k - 1)
    end
  end.

(** Digits [d] and decimal exponent [k] of the mantissa [m] and exponent [e] of a
    binary64; seventeen digits are enough for every finite value. *)
Definition shortest_decimal (m : positive) (e : Z) : Z * Z :=
  let two := if 0 <=? e then 2 ^ e else 1 in
  let den := if 0 <=? e then 4 else 4 * 2 ^ (- e) in
  let num := 4 * Zpos m * two in
  let hi := (4 * Zpos m + 2) * two in
  let lo := (if (Zpos m =? 2 ^ 52) && (-1074 <? e) then 4 * Zpos m - 1 else 4 * Zpos m - 2) * two in
  let x := decimal_exponent num den in
  shortest 17 (Z.even (Zpos m)) num lo hi den x (x - 1).

Fixpoint zeros (n : nat) : string :=
  match n with O => "" | S n' => String "0"%char (zeros n') end.

(** [strconv.AppendFloat(b, f, fmt, -1, 64)] with the choice of [fmt] and the
    exponent clean-up of [encoding/json]: [e-09] is written [e-9]. *)
Fixpoint strip_zeros (fuel : nat) (d k : Z) : Z * Z :=
  match fuel with
  | O => (d, k)
  | S fuel' => if (0 <? d) && (d mod 10 =? 0) then strip_zeros fuel' (d / 10) (k + 1) else (d, k)
  end.
Definition format_decimal (d0 k0 : Z) : string :=
  let '(d, k) := strip_zeros 20 d0 k0 in
  let text := Sprint d in
  let n := Z.of_nat (String.length text) in
  let point := n + k in
  if (point <? -5) || (21 <? point) then
    stake 1 text +:+ (if 1 <? n then "." +:+ sdrop 1 text else "") +:+ "e"
      +:+ (if 0 <? point - 1 then "+" else "") +:+ Sprint (point - 1)
  else if point <=? 0 then "0." +:+ zeros (Z.to_nat (- point)) +:+ text
  else if n <=? point then text +:+ zeros (Z.to_nat (point - n))
  else stake (Z.to_nat point) text +:+ "." +:+ sdrop (Z.to_nat point) text.

(** [None] for the values [json.Marshal] refuses. *)
Definition format_float (f : spec_float) : option string :=
  match f with
  | S754_zero false => Some "0"
  | S754_zero true => Some "-0"
  | S754_finite s m e =>
    let '(d, k) := shortest_decimal m e in
    Some ((if s then "-" else "") +:+ format_decimal d k)
  | S754_infinity _ | S754_nan => None
  end.

(** [strconv.FormatFloat(f, 'f', digits, 64)]: the exact value rounded to the nearest
    decimal, halves to even. *)
Definition round_quotient (p q : Z) : Z :=
  let d := p / q in
  let twice := 2 * (p - d * q) in
  if twice <? q then d else if q <? twice then d + 1 else if Z.even d then d else d + 1.
Definition fixed_digits (digits : nat) (n : Z) : string :=
  let text := decimal_digits (S (Z.to_nat (Z.log2 n))) n "" in
  let text := zeros (S digits - String.length text) +:+ text in
  let whole := (String.length text - digits)%nat in
  stake whole text +:+ (if Nat.eqb digits 0 then "" else "." +:+ sdrop whole text).
Definition FormatFixed (digits : nat) (f : spec_float) : string :=
  match f with
  | S754_zero s => (if s then "-" else "") +:+ fixed_digits digits 0
  | S754_infinity s => if s then "-Inf" else "+Inf"
  | S754_nan => "NaN"
  | S754_finite s m e =>
    let scaled := Zpos m * 10 ^ Z.of_nat digits in
    let n := if 0 <=? e then scaled * 2 ^ e else round_quotient scaled (2 ^ (- e)) in
    (if s then "-" else "") +:+ fixed_digits digits n
  end.

(** ** JSON values *)

Definition comma_join (l : list string) : string := String.concat "," l.

(** [json.Marshal]; the fields of an object are in the order they are written:
    declaration order for a struct, sorted keys for a map. *)
Fixpoint Marshal (v : json) : string :=
  match v with
  | JNull => "null"
  | JBool b => Sprint_bool b
  | JNumber text => text
  | JString s => encode_string s
  | JArray l => "[" +:+ comma_join (map Marshal l) +:+ "]"
  | JObject fields =>
    "{" +:+ comma_join (map (λ kv, encode_string kv.1 +:+ ":" +:+ Marshal kv.2) fields) +:+ "}"
  end.

Definition newline : string := String (ascii_of_N 10) "".
Fixpoint indentation (n : nat) : string :=
  match n with O => newline | S n' => indentation n' +:+ "  " end.

(** [json.MarshalIndent(v, "", "  ")] *)
Fixpoint marshal_indent (depth : nat) (v : json) : string :=
  match v with
  | JArray ((_ :: _) as l) =>
    "[" +:+ comma_join (map (λ x, indentation (S depth) +:+ marshal_indent (S depth) x) l)
      +:+ indentation depth +:+ "]"
  | JObject ((_ :: _) as fields) =>
    "{" +:+ comma_join (map (λ kv, indentation (S depth) +:+ encode_string kv.1 +:+ ": "
                                   +:+ marshal_indent (S depth) kv.2) fields)
      +:+ indentation depth +:+ "}"
  | _ => Marshal v
  end.
Definition MarshalIndent (v : json) : string := marshal_indent 0 v.

(** ** Calendar dates: [Time.Format(time.RFC3339Nano)] in UTC *)

(** Year, month and day of the day [n] after 0001-01-01 (Gregorian calendar,
    computed from 0000-03-01 so that leap days end a year). *)
Definition civil_date (n : Z) : Z * Z * Z :=
  let z := n + 306 in
  let era := z / 146097 in
  let doe := z mod 146097 in
  let yoe := (doe - doe / 1460 + doe / 36524 - doe / 146096) / 365 in
  let doy := doe - (365 * yoe + yoe / 4 - yoe / 100) in
  let mp := (5 * doy + 2) / 153 in
  let d := doy - (153 * mp + 2) / 5 + 1 in
  let m := if mp <? 10 then mp + 3 else mp - 9 in
  (yoe + era * 400 + (if m <=? 2 then 1 else 0), m, d).

Fixpoint pad_digits (width : nat) (n : Z) (acc : string) : string :=
  match width with
  | O => acc
  | S width' => pad_digits width' (n / 10) (String (digit (n mod 10)) acc)
  end.
Definition pad (width : nat) (n : Z) : string := pad_digits width n "".

Fixpoint drop_trailing_zeros (s : string) : string :=
  match s with
  | EmptyString => EmptyString
  | String c s' =>
    match drop_trailing_zeros s' with
    | EmptyString => if Ascii.eqb c "0"%char then EmptyString else String c EmptyString
    | t => String c t
    end
  end.

Definition RFC3339Nano (t : time) : string :=
  let days := t / day in
  let ns := t mod day in
  let '(y, m, d) := civil_date days in
  let fraction := drop_trailing_zeros (pad 9 (ns mod second)) in
  pad 4 y +:+ "-" +:+ pad 2 m +:+ "-" +:+ pad 2 d +:+ "T"
    +:+ pad 2 (ns / hour) +:+ ":" +:+ pad 2 (ns / minute mod 60) +:+ ":"
    +:+ pad 2 (ns / second mod 60)
    +:+ (if bool_decide (fraction = "") then "" else "." +:+ fraction) +:+ "Z".
