(* ===== verification/Json.v ===== *)
(** * Decoding JSON ([encoding/json])

    What the code relies on of the decoder of the Go standard library: the syntax
    (with the decoder's nesting limit), strings with their escapes and the
    replacement of invalid UTF-8, the value [any] (a map keeps the last of several
    equal keys and is written with sorted keys), and the decoding into a struct:
    fields are found by name, or by their folded name, later keys overwrite earlier
    ones, [null] leaves a value alone, a wrong type is reported after the rest was
    decoded.  Numbers keep their text. *)

From S2P Require Import Prelude Text Encoding.
From Stdlib Require Import SpecFloat.

(** ** Syntax *)

Definition is_ws (c : ascii) : bool :=
  let n := N_of_ascii c in bool_decide (n ∈ [32; 9; 10; 13]%N).
Fixpoint skip_ws (s : string) : string :=
  match s with
  | String c s' => if is_ws c then skip_ws s' else s
  | EmptyString => ""
  end.

Definition is_digit (c : ascii) : bool :=
  let n := N_of_ascii c in ((48 <=? n) && (n <=? 57))%N.
Fixpoint take_digits (s : string) : string * string :=
  match s with
  | String c s' =>
    if is_digit c then let '(d, r) := take_digits s' in (String c d, r) else ("", s)
  | EmptyString => ("", "")
  end.

(** [-? (0 | [1-9][0-9]* ) (. [0-9]+)? ([eE] [+-]? [0-9]+)?] *)
Definition scan_integer (s : string) : option (string * string) :=
  match s with
  | String "0" r => Some ("0", r)
  | _ => match take_digits s with
         | (EmptyString, _) => None
         | p => Some p
         end
  end.
Definition scan_fraction (s : string) : option (string * string) :=
  match s with
  | String "." r =>
    match take_digits r with
    | (EmptyString, _) => None
    | (d, r') => Some (String "." d, r')
    end
  | _ => Some ("", s)
  end.
Definition scan_sign (s : string) : string * string :=
  match s with
  | String "+" r => ("+", r)
  | String "-" r => ("-", r)
  | _ => ("", s)
  end.
Definition scan_exponent (s : string) : option (string * string) :=
  match s with
  | String c r =>
    if bool_decide (c = "e"%char) || bool_decide (c = "E"%char) then
      let '(sign, r1) := scan_sign r in
      match take_digits r1 with
      | (EmptyString, _) => None
      | (d, r2) => Some (String c (sign +:+ d), r2)
      end
    else Some ("", s)
  | EmptyString => Some ("", "")
  end.
Definition scan_number (s : string) : option (string * string) :=
  let '(minus, s1) := match s with String "-" r => ("-", r) | _ => ("", s) end in
  '(i, s2) ← scan_integer s1;
  '(f, s3) ← scan_fraction s2;
  '(e, s4) ← scan_exponent s3;
  Some (minus +:+ i +:+ f +:+ e, s4).

(** ** Strings *)

(** The UTF-8 encoding of a code point. *)
Definition encode_rune (n : N) : string :=
  if (n <? 128)%N then bytes_string [n]
  else if (n <? 2048)%N then bytes_string [192 + n / 64; 128 + n mod 64]%N
  else if (n <? 65536)%N
  then bytes_string [224 + n / 4096; 128 + n / 64 mod 64; 128 + n mod 64]%N
  else bytes_string [240 + n / 262144; 128 + n / 4096 mod 64; 128 + n / 64 mod 64; 128 + n mod 64]%N.
Definition replacement : string := encode_rune 65533.

Definition hex4_value (s : string) : option (N * string) :=
  match s with
  | String a (String b (String c (String d r))) =>
    x ← hex_value a; y ← hex_value b; z ← hex_value c; w ← hex_value d;
    Some (4096 * x + 256 * y + 16 * z + w, r)%N
  | _ => None
  end.
Definition high_surrogate (n : N) : bool := in_range 55296 56319 n.
Definition low_surrogate (n : N) : bool := in_range 56320 57343 n.

(** After [\u]: a pair of surrogates is one code point, a lone one is replaced. *)
Definition unescape_u (s : string) : option (string * string) :=
  '(n, r) ← hex4_value s;
  if high_surrogate n then
    match r with
    | String b (String "u" r1) =>
      if bool_decide (b = backslash) then
        match hex4_value r1 with
        | Some (m, r2) =>
          if low_surrogate m
          then Some (encode_rune (65536 + (n - 55296) * 1024 + (m - 56320))%N, r2)
          else Some (replacement, r)
        | None => Some (replacement, r)
        end
      else Some (replacement, r)
    | _ => Some (replacement, r)
    end
  else if low_surrogate n then Some (replacement, r)
  else Some (encode_rune n, r).

Definition escapes : list (ascii * string) :=
  [(ascii_of_N 34, bytes_string [34]); (backslash, bytes_string [92]); ("/"%char, "/");
   ("b"%char, bytes_string [8]); ("f"%char, bytes_string [12]); ("n"%char, bytes_string [10]);
   ("r"%char, bytes_string [13]); ("t"%char, bytes_string [9])]%N.

(** The text after the opening quote: the value, and what follows the closing one. *)
Fixpoint scan_string (fuel : nat) (s : string) : option (string * string) :=
  match fuel, s with
  | S fuel', String c r =>
    let n := N_of_ascii c in
    if (n =? 34)%N then Some ("", r)
    else if (n <? 32)%N then None
    else if (n =? 92)%N then
      match r with
      | String "u" r1 =>
        '(t, r2) ← unescape_u r1;
        '(rest, r3) ← scan_string fuel' r2;
        Some (t +:+ rest, r3)
      | String e r1 =>
        match list_find (λ p, p.1 = e) escapes with
        | Some (_, (_, t)) => '(rest, r3) ← scan_string fuel' r1; Some (t +:+ rest, r3)
        | None => None
        end
      | EmptyString => None
      end
    else
      match rune_size (string_bytes (stake 4 s)) with
      | O => '(rest, r3) ← scan_string fuel' r; Some (replacement +:+ rest, r3)
      | k => '(rest, r3) ← scan_string fuel' (sdrop k s); Some (stake k s +:+ rest, r3)
      end
  | _, _ => None
  end.

(** ** Values

    [maxNestingDepth] of the decoder is 10000.  Every call consumes a character or
    follows one that did, so twice the length of the text bounds the calls. *)

Definition expect (c : ascii) (s : string) : option string :=
  match s with
  | String a r => if Ascii.eqb a c then Some r else None
  | EmptyString => None
  end.
Definition quote_char : ascii := ascii_of_N 34.

Definition literal (s : string) : option (json * string) :=
  if HasPrefix s "true" then Some (JBool true, sdrop 4 s)
  else if HasPrefix s "false" then Some (JBool false, sdrop 5 s)
  else if HasPrefix s "null" then Some (JNull, sdrop 4 s)
  else match expect quote_char s with
       | Some r => '(t, r') ← scan_string (String.length r) r; Some (JString t, r')
       | None => '(t, r') ← scan_number s; Some (JNumber t, r')
       end.

Fixpoint value (fuel depth : nat) (s0 : string) : option (json * string) :=
  match fuel with
  | O => None
  | S fuel' =>
    let s := skip_ws s0 in
    match expect "{" s, expect "[" s with
    | Some r, _ =>
      match depth, expect "}" (skip_ws r) with
      | O, _ => None
      | S _, Some r' => Some (JObject [], r')
      | S depth', None => '(l, r'') ← members fuel' depth' r; Some (JObject l, r'')
      end
    | None, Some r =>
      match depth, expect "]" (skip_ws r) with
      | O, _ => None
      | S _, Some r' => Some (JArray [], r')
      | S depth', None => '(l, r'') ← items fuel' depth' r; Some (JArray l, r'')
      end
    | None, None => literal s
    end
  end
with items (fuel depth : nat) (s : string) : option (list json * string) :=
  match fuel with
  | O => None
  | S fuel' =>
    '(v, r) ← value fuel' depth s;
    match expect "," (skip_ws r) with
    | Some r' => '(l, r'') ← items fuel' depth r'; Some (v :: l, r'')
    | None => r' ← expect "]" (skip_ws r); Some ([v], r')
    end
  end
with members (fuel depth : nat) (s : string) : option (list (string * json) * string) :=
  match fuel with
  | O => None
  | S fuel' =>
    r0 ← expect quote_char (skip_ws s);
    '(k, r1) ← scan_string (String.length r0) r0;
    r2 ← expect ":" (skip_ws r1);
    '(v, r3) ← value fuel' depth r2;
    match expect "," (skip_ws r3) with
    | Some r4 => '(l, r5) ← members fuel' depth r4; Some ((k, v) :: l, r5)
    | None => r4 ← expect "}" (skip_ws r3); Some ([(k, v)], r4)
    end
  end.

Definition max_depth : nat := Z.to_nat 10000.
Definition fuel_for (s : string) : nat := S (2 * String.length s).

(** [Decoder.Decode]: one value and the rest of the input. *)
Definition Decode (s : string) : option (json * string) := value (fuel_for s) max_depth s.
(** [json.Unmarshal] and [json.Valid]: one value, then only white space. *)
Definition Parse (s : string) : option json :=
  '(v, r) ← Decode s;
  if bool_decide (skip_ws r = "") then Some v else None.
Definition Valid (s : string) : bool := bool_decide (is_Some (Parse s)).

(** ** The value [any]

    A [map[string]any] keeps the last of several equal keys and is written with its
    keys in byte order. *)

Fixpoint put_field (k : string) (v : json) (l : list (string * json)) : list (string * json) :=
  match l with
  | [] => [(k, v)]
  | (k', v') :: l' =>
    if bool_decide (k = k') then (k, v) :: l'
    else if string_leb k k' then (k, v) :: l
    else (k', v') :: put_field k v l'
  end.
Definition map_of (l : list (string * json)) : list (string * json) :=
  foldl (λ m kv, put_field kv.1 kv.2 m) [] l.

Fixpoint generic (v : json) : json :=
  match v with
  | JArray l => JArray (map generic l)
  | JObject l => JObject (map_of (map (λ kv, (kv.1, generic kv.2)) l))
  | _ => v
  end.

Fixpoint field (k : string) (l : list (string * json)) : option json :=
  match l with
  | [] => None
  | (k', v) :: l' => if bool_decide (k = k') then Some v else field k l'
  end.

(** Type assertions [v.(string)] and so on, with the zero value on failure. *)
Definition as_string (v : option json) : string :=
  match v with Some (JString s) => s | _ => "" end.
Definition as_number (v : option json) : string :=
  match v with Some (JNumber s) => s | _ => "" end.

(** ** Decoding into Go values

    A decoder takes the value and what the destination holds, and gives what it
    holds afterwards and whether a type did not match. *)

Notation decoder A := (json → A → A * bool).

Definition decode_string : decoder string := λ v old,
  match v with JString s => (s, false) | JNull => (old, false) | _ => (old, true) end.
Definition decode_bool : decoder bool := λ v old,
  match v with JBool b => (b, false) | JNull => (old, false) | _ => (old, true) end.
Definition decode_uint64 : decoder Z := λ v old,
  match v with
  | JNumber t => match ParseUint t 10 64 with Some n => (n, false) | None => (old, true) end
  | JNull => (old, false)
  | _ => (old, true)
  end.
(** [strconv.ParseInt] for an integer field: JSON has no leading plus sign. *)
Definition decode_int64 : decoder Z := λ v old,
  match v with
  | JNumber t => match ParseInt t with Some n => (n, false) | None => (old, true) end
  | JNull => (old, false)
  | _ => (old, true)
  end.
(** [strconv.ParseFloat(s, 64)] of a JSON number: the decimal [m * 10^e] rounded to
    the nearest binary64; the bits below the ones computed are kept as a sticky bit. *)
Definition round_decimal (negative : bool) (m e : Z) : spec_float :=
  if m =? 0 then S754_zero negative
  else
    let num := if 0 <=? e then m * 10 ^ e else m in
    let den := if 0 <=? e then 1 else 10 ^ (- e) in
    let k := Z.max 0 (66 + Z.log2 den - Z.log2 num) in
    let scaled := num * 2 ^ k in
    let q := 2 * (scaled / den) + (if scaled mod den =? 0 then 0 else 1) in
    SpecFloat.binary_normalize 53 1024 (if negative then - q else q) (- (k + 1)) negative.
Definition ParseFloat (s : string) : option spec_float :=
  let '(negative, s) := match s with String "-" r => (true, r) | _ => (false, s) end in
  let '(whole, s) := take_digits s in
  let '(fraction, s) := match s with String "." r => take_digits r | _ => ("", s) end in
  let exponent :=
    match s with
    | String _ r =>
      let '(sign, digits) := scan_sign r in
      let n := default 0 (digits_value 10 digits 0) in
      if bool_decide (sign = "-") then - n else n
    | EmptyString => 0
    end in
  let m := default 0 (digits_value 10 (whole +:+ fraction) 0) in
  match round_decimal negative m (exponent - slen fraction) with
  | S754_infinity _ => None
  | f => Some f
  end.
Definition decode_float64 : decoder spec_float := λ v old,
  match v with
  | JNumber t => match ParseFloat t with Some f => (f, false) | None => (old, true) end
  | JNull => (old, false)
  | _ => (old, true)
  end.

(** A [json.RawMessage] field takes any value. *)
Definition decode_raw : decoder (option json) := λ v _, (Some v, false).

(** A slice: the elements are decoded into those the slice has already. *)
Fixpoint decode_items {A} (zero : A) (dec : decoder A) (l : list json) (old : list A)
    : list A * bool :=
  match l with
  | [] => ([], false)
  | v :: l' =>
    let '(x, e) := dec v (match old with x :: _ => x | [] => zero end) in
    let '(xs, e') := decode_items zero dec l' (tail old) in
    (x :: xs, e || e')
  end.
Definition decode_slice {A} (zero : A) (dec : decoder A) : decoder (list A) := λ v old,
  match v with
  | JArray l => decode_items zero dec l old
  | JNull => ([], false)
  | _ => (old, true)
  end.

(** [foldName] of the decoder: ASCII case, and the two runes that fold to ASCII. *)
Definition long_s : string := bytes_string [197; 191]%N.
Definition kelvin : string := bytes_string [226; 132; 170]%N.
Fixpoint fold_name (s : string) : string :=
  match s with
  | EmptyString => ""
  | String a (String b r as s1) =>
    if HasPrefix s long_s then String "s"%char (fold_name r)
    else if HasPrefix s kelvin then
      match r with String _ r' => String "k"%char (fold_name r') | EmptyString => "" end
    else String (lower_ascii a) (fold_name s1)
  | String a EmptyString => String (lower_ascii a) ""
  end.

(** The field of a struct for a key: the one of that name, else the first whose
    folded name agrees. *)
Definition find_field {A} (fields : list (string * decoder A)) (k : string) : option (decoder A) :=
  match list_find (λ f, f.1 = k) fields with
  | Some (_, f) => Some f.2
  | None => snd ∘ snd <$> list_find (λ f, fold_name f.1 = fold_name k) fields
  end.

Fixpoint decode_members {A} (strict : bool) (fields : list (string * decoder A))
    (l : list (string * json)) (old : A) : A * bool :=
  match l with
  | [] => (old, false)
  | (k, v) :: l' =>
    match find_field fields k with
    | Some dec =>
      let '(x, e) := dec v old in
      let '(y, e') := decode_members strict fields l' x in
      (y, e || e')
    | None => let '(y, e') := decode_members strict fields l' old in (y, strict || e')
    end
  end.
(** [strict] is [DisallowUnknownFields]. *)
Definition decode_struct {A} (strict : bool) (fields : list (string * decoder A)) : decoder A :=
  λ v old,
  match v with
  | JObject l => decode_members strict fields l old
  | JNull => (old, false)
  | _ => (old, true)
  end.

(** A field of a struct, by its projection and its update. *)
Definition on_field {A B} (get : A → B) (set : B → A → A) (dec : decoder B) : decoder A :=
  λ v old, let '(x, e) := dec v (get old) in (set x old, e).

(** ** The fuel is enough

    Every part of the scanner consumes input, so the decoder's result does not
    depend on the fuel once it exceeds twice the length of the text. *)

Notation len := String.length.

Lemma skip_ws_len s : (len (skip_ws s) ≤ len s)%nat.
Proof. induction s as [|c s IH]; cbn; [lia|]. destruct (is_ws c); cbn; lia. Qed.

Lemma sdrop_len n s : (len (sdrop n s) ≤ len s)%nat.
Proof. revert s. induction n as [|n IH]; intros [|c s]; cbn; try lia. specialize (IH s). lia. Qed.

Lemma take_digits_len s d r : take_digits s = (d, r) → (len d + len r = len s)%nat.
Proof.
  revert d r. induction s as [|c s IH]; intros d r; cbn; [by intros [= <- <-]|].
  destruct (is_digit c); [|by intros [= <- <-]].
  destruct (take_digits s) as [d' r'] eqn:E. intros [= <- <-]. cbn. by rewrite <-(IH d' r').
Qed.

Lemma scan_integer_len s d r : scan_integer s = Some (d, r) → (len r < len s)%nat.
Proof.
  unfold scan_integer. intros H.
  assert (Hd : match take_digits s with ("", _) => None | p => Some p end = Some (d, r) →
    (len r < len s)%nat).
  { destruct (take_digits s) as [[|x d'] r'] eqn:E; [done|]. intros [= <- <-].
    apply take_digits_len in E. cbn in E. lia. }
  destruct s as [|c s]; [by apply Hd|].
  destruct c as [[] [] [] [] [] [] [] []]; try (by apply Hd). injection H as <- <-. cbn. lia.
Qed.

Lemma scan_fraction_len s d r : scan_fraction s = Some (d, r) → (len r ≤ len s)%nat.
Proof.
  unfold scan_fraction. destruct s as [|c s]; [by intros [= <- <-]|].
  destruct c as [[] [] [] [] [] [] [] []]; try (by intros [= <- <-]).
  destruct (take_digits s) as [[|x d'] r'] eqn:E; [done|]. intros [= <- <-].
  apply take_digits_len in E. cbn in *. lia.
Qed.

Lemma scan_sign_len s d r : scan_sign s = (d, r) → (len r ≤ len s)%nat.
Proof.
  unfold scan_sign. destruct s as [|c s]; [by intros [= <- <-]|].
  destruct c as [[] [] [] [] [] [] [] []]; intros [= <- <-]; cbn; lia.
Qed.

Lemma scan_exponent_len s d r : scan_exponent s = Some (d, r) → (len r ≤ len s)%nat.
Proof.
  unfold scan_exponent. destruct s as [|c s]; [by intros [= <- <-]|].
  destruct (_ || _); [|by intros [= <- <-]].
  destruct (scan_sign s) as [g r1] eqn:E1. destruct (take_digits r1) as [[|x d'] r2] eqn:E2; [done|].
  intros [= <- <-]. apply scan_sign_len in E1. apply take_digits_len in E2. cbn in *. lia.
Qed.

Lemma scan_number_len s d r : scan_number s = Some (d, r) → (len r < len s)%nat.
Proof.
  unfold scan_number. destruct (match s with String "-" r => _ | _ => _ end) as [m s1] eqn:Em.
  assert (H1 : (len s1 ≤ len s)%nat).
  { destruct s as [|c s]; [by injection Em as <- <-|].
    destruct c as [[] [] [] [] [] [] [] []]; injection Em as <- <-; cbn; lia. }
  destruct (scan_integer s1) as [[i s2]|] eqn:E2; [|done]. cbn.
  destruct (scan_fraction s2) as [[f s3]|] eqn:E3; [|done]. cbn.
  destruct (scan_exponent s3) as [[e s4]|] eqn:E4; [|done]. cbn. intros [= <- <-].
  apply scan_integer_len in E2. apply scan_fraction_len in E3. apply scan_exponent_len in E4. lia.
Qed.

Lemma hex4_value_len s n r : hex4_value s = Some (n, r) → (len r < len s)%nat.
Proof.
  unfold hex4_value. destruct s as [|a [|b [|c [|d s]]]]; try done.
  destruct (hex_value a); [|done]. cbn. destruct (hex_value b); [|done]. cbn.
  destruct (hex_value c); [|done]. cbn. destruct (hex_value d); [|done]. cbn.
  intros [= <- <-]. lia.
Qed.

Lemma unescape_u_len s t r : unescape_u s = Some (t, r) → (len r < len s)%nat.
Proof.
  unfold unescape_u. destruct (hex4_value s) as [[n r1]|] eqn:E; [|done]. cbn.
  apply hex4_value_len in E.
  assert (Hr : ∀ x, Some (x, r1) = Some (t, r) → (len r < len s)%nat) by (intros x [= <- <-]; lia).
  destruct (high_surrogate n); [|destruct (low_surrogate n); apply Hr].
  destruct r1 as [|b [|u r2]]; try apply Hr.
  destruct u as [[] [] [] [] [] [] [] []]; try apply Hr.
  destruct (bool_decide _); [|apply Hr].
  destruct (hex4_value r2) as [[m r3]|] eqn:E2; [|apply Hr].
  destruct (low_surrogate m); [|apply Hr]. intros [= <- <-].
  apply hex4_value_len in E2. cbn in *. lia.
Qed.

Lemma scan_string_len fuel s t r : scan_string fuel s = Some (t, r) → (len r < len s)%nat.
Proof.
  revert s t r. induction fuel as [|fuel IH]; intros s t r; [done|].
  destruct s as [|c s]; [done|]. cbn [scan_string].
  destruct (_ =? 34)%N; [intros [= <- <-]; cbn; lia|].
  destruct (_ <? 32)%N; [done|].
  assert (Hgo : ∀ pre s', (len s' ≤ len s)%nat →
    (match scan_string fuel s' with
     | Some (rest, r3) => Some (pre +:+ rest, r3) | None => None end) = Some (t, r) →
    (len r < len (String c s))%nat).
  { intros pre s' Hs. destruct (scan_string fuel s') as [[rest r3]|] eqn:E; [|done].
    intros [= <- <-]. apply IH in E. cbn. lia. }
  destruct (_ =? 92)%N.
  - destruct s as [|e s1]; [done|].
    assert (He : ∀ s2 pre, (len s2 ≤ len (String e s1))%nat →
      (match scan_string fuel s2 with
       | Some (rest, r3) => Some (pre +:+ rest, r3) | None => None end) = Some (t, r) →
      (len r < len (String c (String e s1)))%nat) by (intros; eapply Hgo; eauto).
    assert (Hesc : match list_find (λ p, p.1 = e) escapes with
      | Some (_, (_, t)) =>
        match scan_string fuel s1 with
        | Some (rest, r3) => Some (t +:+ rest, r3) | None => None end
      | None => None end = Some (t, r) → (len r < len (String c (String e s1)))%nat).
    { destruct (list_find _ _) as [[? [? ?]]|]; [|done]. apply He. cbn. lia. }
    destruct e as [[] [] [] [] [] [] [] []]; try exact Hesc.
    destruct (unescape_u s1) as [[p s2]|] eqn:E; [|done]. apply unescape_u_len in E.
    apply He. cbn. lia.
  - destruct (rune_size _) as [|k]; [by apply Hgo|].
    apply Hgo. cbn [sdrop]. apply sdrop_len.
Qed.

Lemma scan_string_fuel f g s :
  (len s ≤ f)%nat → (len s ≤ g)%nat → scan_string f s = scan_string g s.
Proof.
  revert g s. induction f as [|f IH]; intros [|g] [|c s]; cbn [len]; try lia; try done.
  intros Hf Hg. cbn [scan_string].
  assert (Hgo : ∀ s', (len s' ≤ len s)%nat → scan_string f s' = scan_string g s').
  { intros s' Hs. apply IH; lia. }
  destruct (_ =? 34)%N; [done|]. destruct (_ <? 32)%N; [done|].
  destruct (_ =? 92)%N.
  - destruct s as [|e s1]; [done|].
    assert (H1 : scan_string f s1 = scan_string g s1) by (apply Hgo; cbn; lia).
    destruct e as [[] [] [] [] [] [] [] []]; rewrite ?H1; try done.
    destruct (unescape_u s1) as [[p s2]|] eqn:E; [|done]. apply unescape_u_len in E.
    cbn. rewrite Hgo; [done|cbn; lia].
  - destruct (rune_size _) as [|k]; [by rewrite Hgo|].
    rewrite Hgo; [done|]. cbn [sdrop]. apply sdrop_len.
Qed.

Lemma expect_len c s r : expect c s = Some r → (len s = S (len r))%nat.
Proof. unfold expect. destruct s as [|a s]; [done|]. destruct (Ascii.eqb a c); [|done]. by intros [= <-]. Qed.

Lemma prefix_sdrop_len s p :
  HasPrefix s p = true → p ≠ "" → (len (sdrop (len p) s) < len s)%nat.
Proof.
  intros [r ->]%prefix_exists Hp. rewrite string_length_app.
  replace (sdrop (len p) (p +:+ r)) with r.
  - destruct p; [done|]. cbn. lia.
  - clear. induction p as [|c p IH]; [done|]. rewrite string_app_cons. exact IH.
Qed.

Lemma literal_len s v r : literal s = Some (v, r) → (len r < len s)%nat.
Proof.
  unfold literal.
  destruct (HasPrefix s "true") eqn:H1; [intros [= _ <-]; by apply (prefix_sdrop_len s "true")|].
  destruct (HasPrefix s "false") eqn:H2; [intros [= _ <-]; by apply (prefix_sdrop_len s "false")|].
  destruct (HasPrefix s "null") eqn:H3; [intros [= _ <-]; by apply (prefix_sdrop_len s "null")|].
  destruct (expect quote_char s) as [r0|] eqn:E.
  - apply expect_len in E. destruct (scan_string (len r0) r0) as [[t r']|] eqn:F; [|done].
    apply scan_string_len in F. intros [= _ <-]. lia.
  - destruct (scan_number s) as [[t r']|] eqn:F; [|done].
    apply scan_number_len in F. by intros [= _ <-].
Qed.

(** What the bounds on the lengths of the remaining input add up to. *)
Ltac shorter :=
  repeat match goal with
         | H : expect _ _ = Some _ |- _ => apply expect_len in H
         | H : scan_string _ _ = Some _ |- _ => apply scan_string_len in H
         end;
  repeat match goal with
         | |- context [skip_ws ?s] =>
           lazymatch goal with H : (len (skip_ws s) ≤ _)%nat |- _ => fail | _ => idtac end;
           pose proof (skip_ws_len s)
         | _ : context [skip_ws ?s] |- _ =>
           lazymatch goal with H : (len (skip_ws s) ≤ _)%nat |- _ => fail | _ => idtac end;
           pose proof (skip_ws_len s)
         end; lia.

(** Reading a value, items or members consumes input. *)
Lemma values_len fuel :
  (∀ d s v r, value fuel d s = Some (v, r) → (len r < len s)%nat) ∧
  (∀ d s v r, items fuel d s = Some (v, r) → (len r < len s)%nat) ∧
  (∀ d s v r, members fuel d s = Some (v, r) → (len r < len s)%nat).
Proof.
  induction fuel as [|fuel (IHv & IHi & IHm)]; [done|]. split; [|split].
  - intros d s v r. cbn [value].
    destruct (expect "{" (skip_ws s)) as [r1|] eqn:E1; [|destruct (expect "[" (skip_ws s)) as [r1|] eqn:E2].
    + destruct d as [|d]; [done|].
      destruct (expect "}" (skip_ws r1)) as [r2|] eqn:E3; [intros [= _ <-]; shorter|].
      destruct (members fuel d r1) as [[l r2]|] eqn:E; [|done]. apply IHm in E.
      intros [= _ <-]. shorter.
    + destruct d as [|d]; [done|].
      destruct (expect "]" (skip_ws r1)) as [r2|] eqn:E3; [intros [= _ <-]; shorter|].
      destruct (items fuel d r1) as [[l r2]|] eqn:E; [|done]. apply IHi in E.
      intros [= _ <-]. shorter.
    + intros H%literal_len. shorter.
  - intros d s v r. cbn [items]. destruct (value fuel d s) as [[x r1]|] eqn:E; [|done].
    apply IHv in E. cbn.
    destruct (expect "," (skip_ws r1)) as [r2|] eqn:E1.
    + destruct (items fuel d r2) as [[l r3]|] eqn:E2; [|done]. apply IHi in E2.
      intros [= _ <-]. shorter.
    + destruct (expect "]" (skip_ws r1)) as [r2|] eqn:E2; [|done]. intros [= _ <-]. shorter.
  - intros d s v r. cbn [members].
    destruct (expect quote_char (skip_ws s)) as [r0|] eqn:E0; [|done]. cbn.
    destruct (scan_string (len r0) r0) as [[k r1]|] eqn:E1; [|done]. cbn.
    destruct (expect ":" (skip_ws r1)) as [r2|] eqn:E2; [|done]. cbn.
    destruct (value fuel d r2) as [[x r3]|] eqn:E3; [|done]. apply IHv in E3. cbn.
    destruct (expect "," (skip_ws r3)) as [r4|] eqn:E4.
    + destruct (members fuel d r4) as [[l r5]|] eqn:E5; [|done]. apply IHm in E5.
      intros [= _ <-]. shorter.
    + destruct (expect "}" (skip_ws r3)) as [r4|] eqn:E5; [|done]. intros [= _ <-]. shorter.
Qed.

Lemma values_fuel f :
  (∀ g d s, (2 * len s < f)%nat → (2 * len s < g)%nat → value f d s = value g d s) ∧
  (∀ g d s, (2 * len s + 1 < f)%nat → (2 * len s + 1 < g)%nat → items f d s = items g d s) ∧
  (∀ g d s, (2 * len s < f)%nat → (2 * len s < g)%nat → members f d s = members g d s).
Proof.
  induction f as [|f (IHv & IHi & IHm)]; [split; [|split]; intros; lia|].
  split; [|split]; intros [|g] d s Hf Hg; try lia.
  - cbn [value].
    destruct (expect "{" (skip_ws s)) as [r1|] eqn:E1; [|destruct (expect "[" (skip_ws s)) as [r1|] eqn:E2].
    + destruct d as [|d]; [done|]. destruct (expect "}" (skip_ws r1)); [done|].
      rewrite (IHm g); [done|shorter..].
    + destruct d as [|d]; [done|]. destruct (expect "]" (skip_ws r1)); [done|].
      rewrite (IHi g); [done|shorter..].
    + done.
  - cbn [items]. rewrite (IHv g) by lia.
    destruct (value g d s) as [[x r1]|] eqn:E; [|done]. cbn.
    apply (proj1 (values_len g)) in E.
    destruct (expect "," (skip_ws r1)) as [r2|] eqn:E1; [|done].
    rewrite (IHi g); [done|shorter..].
  - cbn [members]. destruct (expect quote_char (skip_ws s)) as [r0|] eqn:E0; [|done]. cbn.
    destruct (scan_string (len r0) r0) as [[k r1]|] eqn:E1; [|done]. cbn.
    destruct (expect ":" (skip_ws r1)) as [r2|] eqn:E2; [|done]. cbn.
    rewrite (IHv g) by shorter.
    destruct (value g d r2) as [[x r3]|] eqn:E3; [|done]. apply (proj1 (values_len g)) in E3. cbn.
    destruct (expect "," (skip_ws r3)) as [r4|] eqn:E4; [|done].
    rewrite (IHm g); [done|shorter..].
Qed.

(** The decoder's result is the one of every larger fuel. *)
Lemma Decode_fuel s fuel : (fuel_for s ≤ fuel)%nat → value fuel max_depth s = Decode s.
Proof. unfold Decode, fuel_for. intros H. apply (proj1 (values_fuel fuel)); lia. Qed.
