(* ===== verification/RoundTrip.v ===== *)
(** * What the encoder writes, the decoder reads

    [json.Unmarshal] inverts [json.Marshal] and [json.MarshalIndent]: on every value
    whose texts are valid UTF-8, whose numbers are JSON numbers and that is not nested
    deeper than the decoder allows.  The components that hand documents to each other
    through the object store rest on it. *)

From S2P Require Import Prelude Domain Text Encoding Json.

(** ** Bytes of a text *)

Lemma byte_of_bits n : (n < 256)%N → N_of_ascii (byte_of n) = n.
Proof. intros Hn. unfold byte_of. by apply N_ascii_embedding. Qed.

Lemma string_bytes_app l r :
  Forall (λ n, (n < 256)%N) l → string_bytes (bytes_string l +:+ r) = l ++ string_bytes r.
Proof.
  induction 1 as [|n l Hn _ IH]; [by rewrite string_app_nil_l|].
  change (bytes_string (n :: l)) with (String (byte_of n) (bytes_string l)).
  rewrite string_app_cons. cbn [string_bytes]. by rewrite IH, byte_of_bits.
Qed.
Lemma string_bytes_small s : Forall (λ n, (n < 256)%N) (string_bytes s).
Proof. induction s as [|c s IH]; constructor; [apply N_ascii_bounded|done]. Qed.
Lemma bytes_string_bytes s : bytes_string (string_bytes s) = s.
Proof.
  induction s as [|c s IH]; [done|]. cbn [string_bytes bytes_string foldr].
  fold (bytes_string (string_bytes s)). rewrite IH. unfold byte_of. by rewrite ascii_N_embedding.
Qed.
Lemma length_string_bytes s : length (string_bytes s) = String.length s.
Proof. induction s; cbn; congruence. Qed.

Lemma bytes_string_app l k : bytes_string (l ++ k) = bytes_string l +:+ bytes_string k.
Proof.
  induction l as [|n l IH]; [by rewrite string_app_nil_l|].
  change (bytes_string ((n :: l) ++ k)) with (String (byte_of n) (bytes_string (l ++ k))). by rewrite IH.
Qed.

Lemma stake_app a b n : stake (String.length a + n) (a +:+ b) = a +:+ stake n b.
Proof. induction a as [|c a IH]; [done|]. rewrite string_app_cons. cbn. by rewrite IH. Qed.
Lemma sdrop_app a b : sdrop (String.length a) (a +:+ b) = b.
Proof. induction a as [|c a IH]; [done|]. rewrite string_app_cons. exact IH. Qed.

(** The size of the rune at the head depends on the bytes of the rune. *)
Lemma rune_size_take l n : rune_size l = S n → ∀ r, rune_size (take (S n) l ++ r) = S n.
Proof.
  unfold rune_size. intros H r. repeat (case_match; simplify_eq/=; try done).
Qed.
Lemma rune_size_le l : (rune_size l ≤ 4)%nat.
Proof. unfold rune_size. repeat (case_match; try lia). Qed.
Lemma rune_size_length l : (rune_size l ≤ length l)%nat.
Proof. unfold rune_size. repeat (case_match; cbn; try lia). Qed.
Lemma rune_size_one a l : rune_size (a :: l) = 1%nat → (a < 128)%N.
Proof. unfold rune_size. repeat (case_match; try done). intros _. by apply N.ltb_lt. Qed.
Lemma rune_size_more a l n : rune_size (a :: l) = S (S n) → (128 ≤ a)%N.
Proof. unfold rune_size. destruct (a <? 128)%N eqn:E; [done|]. intros _. by apply N.ltb_ge. Qed.

(** ** Strings *)

(** The scanner reads the token [tok] in one step and takes it for [text]. *)
Definition scans (tok text : string) : Prop :=
  ∀ f r, scan_string (S f) (tok +:+ r) = ('(x, r') ← scan_string f r; Some (text +:+ x, r')).

Lemma hex4_value_hex4 n r :
  (n < 65536)%N → hex4_value (sdrop 2 (hex4 n) +:+ r) = Some (n, r).
Proof.
  intros Hn. unfold hex4. cbn [sdrop]. rewrite !string_app_cons, string_app_nil_l. cbn [hex4_value].
  rewrite !hex_digit_value by (apply N.mod_lt; done). cbn [mbind option_bind].
  do 2 f_equal.
  assert (H1 := N.div_mod n 4096 ltac:(done)). assert (H2 := N.div_mod (n / 16) 16 ltac:(done)).
  assert (H3 := N.div_mod (n / 256) 16 ltac:(done)). assert (H4 := N.div_mod n 16 ltac:(done)).
  rewrite N.Div0.div_div in H2, H3. change (16 * 16)%N with 256%N in H2. change (256 * 16)%N with 4096%N in H3.
  rewrite (N.mod_small (n / 4096) 16) by (apply N.Div0.div_lt_upper_bound; lia). lia.
Qed.

Lemma scans_hex4 n : (n < 55296)%N ∨ (57343 < n < 65536)%N → scans (hex4 n) (encode_rune n).
Proof.
  intros Hn f r.
  change (hex4 n) with (String backslash (String "u" (sdrop 2 (hex4 n)))).
  rewrite !string_app_cons. cbn [scan_string]. change (N_of_ascii backslash) with 92%N. cbn [N.eqb Pos.eqb N.ltb N.compare Pos.compare Pos.compare_cont].
  unfold unescape_u. rewrite hex4_value_hex4 by lia. cbn [mbind option_bind].
  assert (Hh : high_surrogate n = false ∧ low_surrogate n = false).
  { unfold high_surrogate, low_surrogate, in_range.
    destruct (N.leb_spec 55296 n), (N.leb_spec n 56319), (N.leb_spec 56320 n), (N.leb_spec n 57343); cbn; lia. }
  destruct Hh as [-> ->]. reflexivity.
Qed.

Lemma scans_plain n :
  (32 ≤ n < 128)%N → n ≠ 34%N → n ≠ 92%N → scans (String (byte_of n) "") (bytes_string [n]).
Proof.
  intros Hn H34 H92 f r. rewrite string_app_cons, string_app_nil_l. cbn [scan_string].
  rewrite byte_of_bits by lia. rewrite (proj2 (N.eqb_neq n 34)), (proj2 (N.eqb_neq n 92)) by done.
  rewrite (proj2 (N.ltb_ge n 32)) by lia. cbn [stake string_bytes]. rewrite byte_of_bits by lia.
  unfold rune_size at 1. rewrite (proj2 (N.ltb_lt n 128)) by lia. cbn [sdrop stake].
  by destruct r.
Qed.

(** The token of a byte below 0x80. *)
Lemma scans_escape_byte n : (n < 128)%N → scans (escape_byte n) (bytes_string [n]).
Proof.
  intros Hn. unfold escape_byte.
  destruct (n =? 34)%N eqn:E1; [apply N.eqb_eq in E1 as ->; by intros f r|].
  destruct (n =? 92)%N eqn:E2; [apply N.eqb_eq in E2 as ->; by intros f r|]. cbn [orb].
  destruct (n =? 8)%N eqn:E3; [apply N.eqb_eq in E3 as ->; by intros f r|].
  destruct (n =? 12)%N eqn:E4; [apply N.eqb_eq in E4 as ->; by intros f r|].
  destruct (n =? 10)%N eqn:E5; [apply N.eqb_eq in E5 as ->; by intros f r|].
  destruct (n =? 13)%N eqn:E6; [apply N.eqb_eq in E6 as ->; by intros f r|].
  destruct (n =? 9)%N eqn:E7; [apply N.eqb_eq in E7 as ->; by intros f r|].
  destruct (_ || _ || _ || _) eqn:E8.
  - replace (bytes_string [n]) with (encode_rune n)
      by (unfold encode_rune; by rewrite (proj2 (N.ltb_lt n 128))).
    apply scans_hex4. lia.
  - rewrite !orb_false_iff in E8. destruct E8 as [[[E8%N.ltb_ge _] _] _].
    apply N.eqb_neq in E1, E2. apply scans_plain; [lia|done..].
Qed.

(** A rune of several bytes is its own token. *)
Lemma scans_rune l n :
  Forall (λ b, (b < 256)%N) l → rune_size l = S (S n) →
  scans (bytes_string (take (S (S n)) l)) (bytes_string (take (S (S n)) l)).
Proof.
  intros Hl Hk f r. destruct l as [|a l]; [done|].
  assert (Ha := rune_size_more _ _ _ Hk). assert (Hlen := rune_size_length (a :: l)).
  assert (H4 := rune_size_le (a :: l)). rewrite Hk in Hlen, H4.
  set (t := take (S (S n)) (a :: l)) in *.
  assert (Ht : Forall (λ b, (b < 256)%N) t) by by apply Forall_take.
  assert (Htl : String.length (bytes_string t) = S (S n)).
  { rewrite <-length_string_bytes, <-(string_app_nil_r (bytes_string t)), string_bytes_app by done.
    rewrite app_nil_r. unfold t. rewrite length_take. lia. }
  assert (Hs : ∃ m, stake 4 (bytes_string t +:+ r) = bytes_string t +:+ stake m r).
  { exists (2 - n)%nat. rewrite <-stake_app, Htl. f_equal. lia. }
  destruct Hs as [m Hs].
  assert (Hrune : rune_size (string_bytes (stake 4 (bytes_string t +:+ r))) = S (S n)).
  { rewrite Hs, string_bytes_app by done. by apply rune_size_take. }
  assert (Hrest : stake (S (S n)) (bytes_string t +:+ r) = bytes_string t ∧
                  sdrop (S (S n)) (bytes_string t +:+ r) = r).
  { rewrite <-Htl. split; [|apply sdrop_app].
    rewrite <-(Nat.add_0_r (String.length _)), stake_app. apply string_app_nil_r. }
  destruct Hrest as [Hr1 Hr2].
  remember (bytes_string t +:+ r) as s eqn:Es. destruct s as [|c s]; [by rewrite <-Hr1 in Htl|].
  assert (Hc : N_of_ascii c = a).
  { unfold t in Es. cbn [take] in Es.
    change (bytes_string (a :: take (S n) l)) with (String (byte_of a) (bytes_string (take (S n) l))) in Es.
    rewrite string_app_cons in Es. injection Es as -> _. apply byte_of_bits.
    by inversion Hl. }
  cbn [scan_string]. rewrite Hc.
  rewrite (proj2 (N.eqb_neq a 34)), (proj2 (N.eqb_neq a 92)), (proj2 (N.ltb_ge a 32)) by lia.
  rewrite Hrune, Hr1, Hr2. reflexivity.
Qed.

(** The closing quote. *)
Lemma scan_quote f r : scan_string (S f) (quote +:+ r) = Some ("", r).
Proof. reflexivity. Qed.

Lemma scan_token f tok text u r r' :
  scans tok text → scan_string f r = Some (u, r') → scan_string (S f) (tok +:+ r) = Some (text +:+ u, r').
Proof. intros Ht Hr. rewrite Ht, Hr. reflexivity. Qed.

Lemma scan_escaped m n l rest f :
  Forall (λ b, (b < 256)%N) l → valid_utf8 m l = true → (length l ≤ n)%nat → (length l < f)%nat →
  scan_string f (escape_bytes n l +:+ quote +:+ rest) = Some (bytes_string l, rest).
Proof.
  revert n l f. induction m as [|m IH]; intros n l f Hl Hv Hn Hf.
  - destruct l; [|done]. destruct f as [|f]; [lia|]. destruct n; apply scan_quote.
  - destruct l as [|a l]; [destruct f as [|f]; [lia|]; destruct n; apply scan_quote|].
    destruct n as [|n]; [cbn in Hn; lia|]. destruct f as [|f]; [lia|].
    cbn [valid_utf8] in Hv. cbn [escape_bytes].
    destruct (rune_size (a :: l)) as [|k] eqn:Ek; [done|].
    assert (Hk := rune_size_length (a :: l)). rewrite Ek in Hk.
    assert (Hd : Forall (λ b, (b < 256)%N) (drop (S k) (a :: l))) by by apply Forall_drop.
    assert (Hlen : length (drop (S k) (a :: l)) = (length l - k)%nat) by (rewrite length_drop; cbn; lia).
    replace (bytes_string (a :: l))
      with (bytes_string (take (S k) (a :: l)) +:+ bytes_string (drop (S k) (a :: l)))
      by (by rewrite <-bytes_string_app, take_drop).
    cbn [length] in Hn, Hf, Hk.
    assert (Hgo := IH n (drop (S k) (a :: l)) f Hd Hv ltac:(lia) ltac:(lia)).
    destruct k as [|k]; rewrite string_app_assoc; eapply scan_token; try exact Hgo.
    + apply scans_escape_byte. by eapply rune_size_one.
    + case_bool_decide as E1; [|case_bool_decide as E2].
      * assert (H4 : rune_size (a :: l) = 3%nat).
        { destruct l as [|b [|c l]]; try done. cbn in E1. injection E1 as -> -> ->. reflexivity. }
        assert (k = 1%nat) as -> by congruence. rewrite E1. apply (scans_hex4 8232). lia.
      * assert (H4 : rune_size (a :: l) = 3%nat).
        { destruct l as [|b [|c l]]; try done. cbn in E2. injection E2 as -> -> ->. reflexivity. }
        assert (k = 1%nat) as -> by congruence. rewrite E2. apply (scans_hex4 8233). lia.
      * by apply scans_rune.
Qed.

(** Reading back the text of a string. *)
Lemma scan_encode_string s rest f :
  ValidString s = true → (String.length s < f)%nat →
  scan_string f (escape_bytes (String.length s) (string_bytes s) +:+ quote +:+ rest) = Some (s, rest).
Proof.
  intros Hv Hf. rewrite <-(bytes_string_bytes s) at 3.
  eapply scan_escaped; [apply string_bytes_small|exact Hv|rewrite length_string_bytes; lia..].
Qed.

(** ** Numbers *)

(** A JSON number, and a text that cannot continue one. *)
Definition is_number (t : string) : bool := bool_decide (scan_number t = Some (t, "")).
Definition ends_number (r : string) : bool :=
  match r with
  | EmptyString => true
  | String c _ => negb (is_digit c) && negb (Ascii.eqb c "." || Ascii.eqb c "e" || Ascii.eqb c "E")
  end.

Lemma take_digits_app s d r rest :
  take_digits s = (d, r) → ends_number rest = true → take_digits (s +:+ rest) = (d, r +:+ rest).
Proof.
  intros H Hr. revert d r H. induction s as [|c s IH]; intros d r; cbn.
  - intros [= <- <-]. rewrite !string_app_nil_l. destruct rest as [|c rest]; [done|]. cbn in *.
    apply andb_true_iff in Hr as [Hc _]. destruct (is_digit c); done.
  - destruct (is_digit c) eqn:Ec.
    + destruct (take_digits s) as [d' r'] eqn:E. intros [= <- <-].
      rewrite string_app_cons. cbn. by rewrite Ec, (IH _ _ eq_refl).
    + intros [= <- <-]. rewrite string_app_cons. cbn. by rewrite Ec.
Qed.

Lemma scan_integer_app s i r rest :
  scan_integer s = Some (i, r) → ends_number rest = true → scan_integer (s +:+ rest) = Some (i, r +:+ rest).
Proof.
  intros H Hr.
  assert (Hd : match take_digits s with ("", _) => None | p => Some p end = Some (i, r) →
    match take_digits (s +:+ rest) with ("", _) => None | p => Some p end = Some (i, r +:+ rest)).
  { destruct (take_digits s) as [d r'] eqn:E. rewrite (take_digits_app _ _ _ _ E Hr).
    destruct d; [done|]. by intros [= <- <-]. }
  unfold scan_integer in *. destruct s as [|c s]; [done|]. rewrite string_app_cons in *.
  destruct c as [[] [] [] [] [] [] [] []]; try (by apply Hd). by injection H as <- <-.
Qed.

Lemma scan_fraction_app s i r rest :
  scan_fraction s = Some (i, r) → ends_number rest = true → scan_fraction (s +:+ rest) = Some (i, r +:+ rest).
Proof.
  intros H Hr. unfold scan_fraction in *. destruct s as [|c s].
  - injection H as <- <-. rewrite !string_app_nil_l. destruct rest as [|c rest]; [done|]. cbn in Hr.
    apply andb_true_iff in Hr as [_ Hc].
    destruct c as [[] [] [] [] [] [] [] []]; done.
  - rewrite string_app_cons. destruct c as [[] [] [] [] [] [] [] []]; try (by injection H as <- <-).
    destruct (take_digits s) as [d r'] eqn:E. rewrite (take_digits_app _ _ _ _ E Hr).
    destruct d; [done|]. by injection H as <- <-.
Qed.

Lemma scan_exponent_app s i r rest :
  scan_exponent s = Some (i, r) → ends_number rest = true → scan_exponent (s +:+ rest) = Some (i, r +:+ rest).
Proof.
  intros H Hr. unfold scan_exponent in *. destruct s as [|c s].
  - injection H as <- <-. rewrite !string_app_nil_l. destruct rest as [|c rest]; [done|]. cbn in Hr.
    apply andb_true_iff in Hr as [_ Hc]. rewrite negb_true_iff, !orb_false_iff in Hc.
    destruct Hc as [[_ H1%Ascii.eqb_neq] H2%Ascii.eqb_neq]. by rewrite !bool_decide_false.
  - rewrite string_app_cons. destruct (_ || _); [|by injection H as <- <-].
    destruct (scan_sign s) as [g r1] eqn:Eg.
    destruct (take_digits r1) as [d r2] eqn:Ed. destruct d as [|x d]; [done|].
    assert (Hs : scan_sign (s +:+ rest) = (g, r1 +:+ rest)).
    { unfold scan_sign in *. destruct s as [|e s]; [by injection Eg as <- <-|]. rewrite string_app_cons.
      destruct e as [[] [] [] [] [] [] [] []]; by injection Eg as <- <-. }
    rewrite Hs, (take_digits_app _ _ _ _ Ed Hr). by injection H as <- <-.
Qed.

Lemma scan_number_app t rest :
  is_number t = true → ends_number rest = true → scan_number (t +:+ rest) = Some (t, rest).
Proof.
  intros H%bool_decide_eq_true_1 Hr. unfold scan_number in *.
  destruct (match t with String "-" r => ("-", r) | _ => ("", t) end) as [m s1] eqn:Em.
  assert (Hm : match t +:+ rest with String "-" r => ("-", r) | _ => ("", t +:+ rest) end = (m, s1 +:+ rest)).
  { destruct t as [|c t]; [injection Em as <- <-; discriminate H|]. rewrite string_app_cons.
    destruct c as [[] [] [] [] [] [] [] []]; by injection Em as <- <-. }
  rewrite Hm. destruct (scan_integer s1) as [[i s2]|] eqn:E2; [|done]. cbn [mbind option_bind] in *.
  destruct (scan_fraction s2) as [[x s3]|] eqn:E3; [|done]. cbn [mbind option_bind] in *.
  destruct (scan_exponent s3) as [[e s4]|] eqn:E4; [|done]. cbn [mbind option_bind] in *.
  injection H as H ->.
  rewrite (scan_integer_app _ _ _ _ E2 Hr). cbn [mbind option_bind].
  rewrite (scan_fraction_app _ _ _ _ E3 Hr). cbn [mbind option_bind].
  rewrite (scan_exponent_app _ _ _ _ E4 Hr). cbn [mbind option_bind].
  by rewrite H, string_app_nil_l.
Qed.

(** A number begins with a digit or a minus sign. *)
Lemma number_head t : is_number t = true → ∃ c t', t = String c t' ∧ (c = "-"%char ∨ is_digit c = true).
Proof.
  intros H%bool_decide_eq_true_1. destruct t as [|c t]; [discriminate H|]. exists c, t. split; [done|].
  destruct (is_digit c) eqn:Ec; [by right|]. left. unfold scan_number in H.
  destruct c as [[] [] [] [] [] [] [] []]; try done.
Qed.

(** ** Values *)

(** Induction over a value and its parts. *)
Section json_induction.
Context (P : json → Prop) (Hnull : P JNull) (Hbool : ∀ b, P (JBool b)) (Hnumber : ∀ t, P (JNumber t))
  (Hstring : ∀ s, P (JString s)) (Harray : ∀ l, Forall P l → P (JArray l))
  (Hobject : ∀ l, Forall (λ kv, P kv.2) l → P (JObject l)).

Fixpoint json_parts (v : json) : P v :=
  match v with
  | JNull => Hnull
  | JBool b => Hbool b
  | JNumber t => Hnumber t
  | JString s => Hstring s
  | JArray l => Harray l ((fix go l : Forall P l :=
      match l with
      | [] => Forall_nil_2 P
      | x :: l' => Forall_cons_2 P x l' (json_parts x) (go l')
      end) l)
  | JObject l => Hobject l ((fix go l : Forall (λ kv, P kv.2) l :=
      match l with
      | [] => Forall_nil_2 _
      | x :: l' => Forall_cons_2 (λ kv, P kv.2) x l' (json_parts x.2) (go l')
      end) l)
  end.
End json_induction.

(** What the encoder may be given: valid UTF-8, JSON numbers, at most [depth] levels of
    nesting. *)
Fixpoint writable (depth : nat) (v : json) {struct v} : bool :=
  match v with
  | JNull | JBool _ => true
  | JNumber t => is_number t
  | JString s => ValidString s
  | JArray l => match depth with O => false | S d => forallb (λ x, writable d x) l end
  | JObject l =>
    match depth with
    | O => false
    | S d => forallb (λ kv, ValidString kv.1 && writable d kv.2) l
    end
  end.

Definition all_ws (w : string) : bool := is_empty (skip_ws w).
Lemma skip_ws_app w s : all_ws w = true → skip_ws (w +:+ s) = skip_ws s.
Proof.
  unfold all_ws. intros H. induction w as [|c w IH]; [done|]. rewrite string_app_cons. cbn in *.
  destruct (is_ws c); [by apply IH|done].
Qed.
Lemma ws_ends_number w c r :
  all_ws w = true → ends_number (String c "") = true → ends_number (w +:+ String c r) = true.
Proof.
  unfold all_ws. destruct w as [|a w]; [done|]. rewrite string_app_cons. cbn [skip_ws].
  destruct (is_ws a) eqn:E; [|done]. intros _ _.
  destruct a as [[] [] [] [] [] [] [] []]; done.
Qed.

(** Both layouts of [encoding/json]: [pad depth] goes before the elements of that depth
    and before the bracket that closes them. *)
Section layout.
Context (pad : nat → string) (colon : string).

Fixpoint print (depth : nat) (v : json) : string :=
  match v with
  | JArray ((_ :: _) as l) =>
    "[" +:+ comma_join (map (λ x, pad (S depth) +:+ print (S depth) x) l) +:+ pad depth +:+ "]"
  | JObject ((_ :: _) as fields) =>
    "{" +:+ comma_join (map (λ kv, pad (S depth) +:+ encode_string kv.1 +:+ colon
                                   +:+ print (S depth) kv.2) fields) +:+ pad depth +:+ "}"
  | _ => Marshal v
  end.

(** No value begins with white space or a closing bracket. *)
Definition opens (s : string) : Prop :=
  ∃ c t, s = String c t ∧ is_ws c = false ∧ c ≠ "]"%char ∧ c ≠ "}"%char.
Lemma print_opens d depth v : writable d v = true → opens (print depth v).
Proof using Type.
  destruct v as [|[]|t|s|[|x l]|[|x l]]; cbn [print writable]; intros Hd; try by eexists _, _.
  destruct (number_head t Hd) as (c & t' & -> & Hc). exists c, t'. split; [done|].
  destruct Hc as [->|Hc]; [done|].
  destruct c as [[] [] [] [] [] [] [] []]; done.
Qed.
Lemma opens_app s r : opens s → opens (s +:+ r).
Proof using Type. intros (c & t & -> & H). exists c, (t +:+ r). by rewrite string_app_cons. Qed.
Lemma opens_skip s : opens s → skip_ws s = s.
Proof using Type. intros (c & t & -> & H & _). cbn. by rewrite H. Qed.
Lemma opens_not_closed s : opens s → expect "]" s = None ∧ expect "}" s = None.
Proof using Type.
  intros (c & t & -> & _ & H1 & H2). cbn.
  destruct (Ascii.eqb_spec c "]"%char), (Ascii.eqb_spec c "}"%char); done.
Qed.

Lemma literal_string s r : ValidString s = true → literal (encode_string s +:+ r) = Some (JString s, r).
Proof using Type.
  intros Hv. unfold literal, encode_string. rewrite !string_app_assoc.
  set (t := escape_bytes _ _ +:+ _).
  change (literal (quote +:+ t) = Some (JString s, r)). unfold literal. cbn [HasPrefix String.prefix].
  change (HasPrefix (quote +:+ t) "true") with false. change (HasPrefix (quote +:+ t) "false") with false.
  change (HasPrefix (quote +:+ t) "null") with false.
  change (expect quote_char (quote +:+ t)) with (Some t). cbv iota beta.
  rewrite (scan_string_fuel _ (String.length t + S (String.length s))) by lia. unfold t.
  rewrite scan_encode_string; [reflexivity|done|lia].
Qed.

Lemma literal_number t r :
  is_number t = true → ends_number r = true → literal (t +:+ r) = Some (JNumber t, r).
Proof using Type.
  intros Ht Hr. assert (Hs := scan_number_app t r Ht Hr).
  destruct (number_head t Ht) as (c & t' & -> & Hc). rewrite string_app_cons in *. unfold literal.
  assert (Hc' : c ≠ "t"%char ∧ c ≠ "f"%char ∧ c ≠ "n"%char ∧ c ≠ quote_char).
  { destruct Hc as [->|Hc]; [done|]. repeat split; intros ->; discriminate Hc. }
  destruct Hc' as (H1 & H2 & H3 & H4).
  assert (Hp : ∀ a p, c ≠ a → HasPrefix (String c (t' +:+ r)) (String a p) = false).
  { intros a p Ha. cbn. destruct (ascii_dec a c); [congruence|done]. }
  rewrite !Hp by done. cbn [expect]. destruct (Ascii.eqb_spec c quote_char); [done|].
  rewrite Hs. reflexivity.
Qed.

(** The reader at nesting [d] takes [t] for [v], whatever follows. *)
Definition reads (d : nat) (t : string) (v : json) : Prop :=
  ∀ rest, ends_number rest = true → ∃ f0, ∀ f, (f0 ≤ f)%nat → value f d (t +:+ rest) = Some (v, rest).

Lemma value_skip f d u t : all_ws u = true → value f d (u +:+ t) = value f d t.
Proof using Type. intros Hu. destruct f as [|f]; [done|]. cbn [value]. by rewrite skip_ws_app. Qed.

Lemma reads_literal d t v :
  opens t → expect "{" t = None → expect "[" t = None →
  (∀ rest, ends_number rest = true → literal (t +:+ rest) = Some (v, rest)) → reads d t v.
Proof using Type.
  intros Ho H1 H2 Hl rest Hr. exists 1%nat. intros [|f] Hf; [lia|]. cbn [value].
  rewrite (opens_skip (t +:+ rest)) by by apply opens_app.
  destruct Ho as (c & t' & -> & _). rewrite string_app_cons in *. cbn [expect] in *.
  destruct (Ascii.eqb c "{"); [done|]. destruct (Ascii.eqb c "["); [done|]. by apply Hl.
Qed.

(** White space, then a separator or a closing bracket. *)
Lemma expect_after u c t : all_ws u = true → is_ws c = false → expect c (skip_ws (u +:+ String c t)) = Some t.
Proof using Type. intros Hu Hc. rewrite skip_ws_app by done. cbn. rewrite Hc. cbn. by rewrite Ascii.eqb_refl. Qed.
Lemma expect_other u c a t :
  all_ws u = true → is_ws c = false → a ≠ c → expect a (skip_ws (u +:+ String c t)) = None.
Proof using Type.
  intros Hu Hc Ha. rewrite skip_ws_app by done. cbn. rewrite Hc. cbn.
  destruct (Ascii.eqb_spec c a); [congruence|done].
Qed.

Lemma comma_join_head a l : ∃ r, comma_join (a :: l) = a +:+ r.
Proof using Type.
  destruct l as [|b l]; [exists ""; by rewrite string_app_nil_r|]. by exists ("," +:+ comma_join (b :: l)).
Qed.
Lemma comma_join_cons x y l : comma_join (x :: y :: l) = x +:+ "," +:+ comma_join (y :: l).
Proof using Type. reflexivity. Qed.

(** [Hpad], [Hcolon]: between the tokens there is only white space. *)
Context (Hpad : ∀ n, all_ws (pad n) = true) (w : string) (Hcolon : colon = ":" +:+ w) (Hw : all_ws w = true).

Lemma items_print d n m (l : list json) rest :
  Forall (λ x, reads d (print n x) x) l → l ≠ [] →
  ∃ f0, ∀ f, (f0 ≤ f)%nat →
    items f d (comma_join (map (λ x, pad n +:+ print n x) l) +:+ pad m +:+ String "]" rest) = Some (l, rest).
Proof using Hpad.
  intros H Hne. induction H as [|x l Hx Hl IH]; [done|].
  destruct l as [|y l].
  - destruct (Hx (pad m +:+ String "]" rest)) as [f0 Hf0]; [by apply ws_ends_number|].
    exists (S f0). intros [|f] Hf; [lia|]. cbn [map comma_join String.concat items].
    rewrite !string_app_assoc, value_skip by done. rewrite Hf0 by lia. cbn [mbind option_bind].
    rewrite expect_other by done. by rewrite expect_after.
  - destruct IH as [f1 Hf1]; [done|].
    destruct (Hx ("," +:+ comma_join (map (λ x, pad n +:+ print n x) (y :: l)) +:+ pad m +:+ String "]" rest))
      as [f0 Hf0]; [done|].
    exists (S (f0 `max` f1)). intros [|f] Hf; [lia|].
    set (g := λ x : json, pad n +:+ print n x) in *. change (map g (x :: y :: l)) with (g x :: g y :: map g l).
    rewrite comma_join_cons. change (g y :: map g l) with (map g (y :: l)). unfold g at 1. cbn [items].
    rewrite !string_app_assoc, value_skip by done. rewrite Hf0 by lia. cbn [mbind option_bind].
    match goal with |- context [expect "," (skip_ws ("," +:+ ?t))] =>
      change (expect "," (skip_ws ("," +:+ t))) with (Some t) end.
    cbv iota beta. rewrite Hf1 by lia. reflexivity.
Qed.

(** One member: the key, the colon and the value. *)
Lemma member_key k t :
  ValidString k = true →
  ∃ r0, expect quote_char (skip_ws (encode_string k +:+ t)) = Some r0 ∧
        scan_string (String.length r0) r0 = Some (k, t).
Proof using Type.
  intros Hk. unfold encode_string. rewrite !string_app_assoc.
  exists (escape_bytes (String.length k) (string_bytes k) +:+ quote +:+ t). split; [reflexivity|].
  set (r0 := escape_bytes _ _ +:+ _).
  rewrite (scan_string_fuel _ (String.length r0 + S (String.length k))) by lia.
  unfold r0. apply scan_encode_string; [done|lia].
Qed.

Lemma members_print d n m (l : list (string * json)) rest :
  Forall (λ kv, ValidString kv.1 = true ∧ reads d (print n kv.2) kv.2) l → l ≠ [] →
  ∃ f0, ∀ f, (f0 ≤ f)%nat →
    members f d (comma_join (map (λ kv, pad n +:+ encode_string kv.1 +:+ colon +:+ print n kv.2) l)
                 +:+ pad m +:+ String "}" rest) = Some (l, rest).
Proof using Hpad Hcolon Hw.
  intros H Hne. set (g := λ kv : string * json, pad n +:+ encode_string kv.1 +:+ colon +:+ print n kv.2).
  assert (Hstep : ∀ kv r v, ValidString kv.1 = true → reads d (print n kv.2) kv.2 → ends_number r = true →
    (∃ f0, ∀ f, (f0 ≤ f)%nat →
       match expect "," (skip_ws r) with
       | Some r4 => '(l, r5) ← members f d r4; Some (kv :: l, r5)
       | None => r4 ← expect "}" (skip_ws r); Some ([kv], r4)
       end = Some v) →
    ∃ f0, ∀ f, (f0 ≤ f)%nat → members f d (g kv +:+ r) = Some v).
  { intros [k x] r v Hk Hx Hr [f1 Hf1]. destruct (Hx r Hr) as [f0 Hf0]. cbn [fst snd] in *.
    exists (S (f0 `max` f1)). intros [|f] Hf; [lia|]. unfold g. cbn [members fst snd].
    rewrite !string_app_assoc, skip_ws_app by done.
    destruct (member_key k (colon +:+ print n x +:+ r) Hk) as (r0 & -> & Hs). cbn [mbind option_bind].
    rewrite Hs. cbn [mbind option_bind]. rewrite Hcolon, !string_app_assoc.
    change (expect ":" (skip_ws (":" +:+ w +:+ print n x +:+ r))) with (Some (w +:+ print n x +:+ r)).
    cbn [mbind option_bind]. rewrite value_skip, Hf0 by (done || lia). cbn [mbind option_bind].
    apply Hf1. lia. }
  induction H as [|kv l [Hk Hx] Hl IH]; [done|]. destruct l as [|kv' l].
  - apply Hstep; [done..|by apply ws_ends_number|]. exists 0%nat. intros f _.
    rewrite expect_other by done. by rewrite expect_after.
  - change (map g (kv :: kv' :: l)) with (g kv :: g kv' :: map g l). rewrite comma_join_cons.
    change (g kv' :: map g l) with (map g (kv' :: l)). rewrite !string_app_assoc.
    apply Hstep; [done..|]. destruct IH as [f0 Hf0]; [done|]. exists f0. intros f Hf.
    match goal with |- context [expect "," (skip_ws ("," +:+ ?t))] =>
      change (expect "," (skip_ws ("," +:+ t))) with (Some t) end.
    cbv iota beta. rewrite Hf0 by lia. reflexivity.
Qed.

(** The reader inverts the printer. *)
Lemma value_print v : ∀ d depth, writable d v = true → reads d (print depth v) v.
Proof using Hpad Hcolon Hw.
  induction v as [|b|t|s|l IH|l IH] using json_parts; intros d depth Hv; cbn [writable] in Hv.
  - apply reads_literal; [by apply (print_opens d)|done..|]. intros rest _. by destruct rest.
  - apply reads_literal; [by apply (print_opens d)|by destruct b..|].
    intros rest _. by destruct b, rest.
  - assert (Ho : opens t) by exact (print_opens d depth (JNumber t) Hv).
    assert (Hc : ∀ a, is_digit a = false → a ≠ "-"%char → expect a t = None).
    { intros a Ha Hm. destruct (number_head t Hv) as (c & t' & -> & Hc). cbn.
      destruct (Ascii.eqb_spec c a) as [->|]; [|done]. destruct Hc; congruence. }
    apply reads_literal; [done|by apply Hc..|intros rest Hr; by apply literal_number].
  - apply reads_literal; [by apply (print_opens d depth (JString s))|done..|].
    intros rest _. by apply literal_string.
  - destruct d as [|d]; [done|]. destruct l as [|x l].
    { intros rest _. exists 1%nat. intros [|f] Hf; [lia|]. reflexivity. }
    intros rest Hr. rewrite forallb_forall in Hv.
    assert (Ho : opens (print (S depth) x)) by (apply (print_opens d), Hv; by left).
    destruct (items_print d (S depth) depth (x :: l) rest) as [f0 Hf0]; [|done|].
    { rewrite Forall_forall in *. intros y Hy. apply IH; [done|]. by apply Hv, list_elem_of_In. }
    exists (S f0). intros [|f] Hf; [lia|]. cbn [print]. rewrite !string_app_assoc.
    set (t := comma_join _ +:+ _) in *.
    assert (Ht : expect "]" (skip_ws t) = None).
    { unfold t. destruct (comma_join_head (pad (S depth) +:+ print (S depth) x)
        (map (λ x, pad (S depth) +:+ print (S depth) x) l)) as [r Hj].
      cbn [map]. rewrite Hj, !string_app_assoc, skip_ws_app by done. rewrite opens_skip by by apply opens_app.
      by apply opens_not_closed, opens_app. }
    change (match expect "]" (skip_ws t) with
            | Some r' => Some (JArray [], r')
            | None => '(l, r) ← items f d t; Some (JArray l, r)
            end = Some (JArray (x :: l), rest)).
    rewrite Ht, Hf0 by lia. reflexivity.
  - destruct d as [|d]; [done|]. destruct l as [|[k x] l].
    { intros rest _. exists 1%nat. intros [|f] Hf; [lia|]. reflexivity. }
    intros rest Hr. rewrite forallb_forall in Hv.
    destruct (members_print d (S depth) depth ((k, x) :: l) rest) as [f0 Hf0]; [|done|].
    { rewrite Forall_forall in *. intros kv Hkv.
      assert (H := Hv kv (proj1 (list_elem_of_In _ _) Hkv)). apply andb_true_iff in H as [? ?].
      split; [done|]. by apply IH. }
    exists (S f0). intros [|f] Hf; [lia|]. cbn [print]. rewrite !string_app_assoc.
    set (t := comma_join _ +:+ _) in *.
    assert (Ht : expect "}" (skip_ws t) = None).
    { unfold t. destruct (comma_join_head
        (pad (S depth) +:+ encode_string k +:+ colon +:+ print (S depth) x)
        (map (λ kv, pad (S depth) +:+ encode_string kv.1 +:+ colon +:+ print (S depth) kv.2) l)) as [r Hj].
      cbn [map fst snd]. rewrite Hj, !string_app_assoc, skip_ws_app by done. reflexivity. }
    change (match expect "}" (skip_ws t) with
            | Some r' => Some (JObject [], r')
            | None => '(l, r) ← members f d t; Some (JObject l, r)
            end = Some (JObject ((k, x) :: l), rest)).
    rewrite Ht, Hf0 by lia. reflexivity.
Qed.
End layout.

Lemma Marshal_print v depth : Marshal v = print (λ _, "") ":" depth v.
Proof.
  revert depth. induction v as [| | | |[|x l] IH|[|x l] IH] using json_parts; intros depth; try done.
  - cbn [Marshal print]. f_equal. rewrite string_app_nil_l. do 2 f_equal.
    apply map_ext_Forall. eapply Forall_impl; [exact IH|]. intros y Hy. cbn. by rewrite string_app_nil_l.
  - cbn [Marshal print]. f_equal. rewrite string_app_nil_l. do 2 f_equal.
    apply map_ext_Forall. eapply Forall_impl; [exact IH|]. intros y Hy. cbn beta.
    by rewrite string_app_nil_l, <-Hy.
Qed.
Lemma marshal_indent_print v depth : marshal_indent depth v = print indentation ": " depth v.
Proof. reflexivity. Qed.
Lemma indentation_ws n : all_ws (indentation n) = true.
Proof.
  unfold all_ws. induction n as [|n IH]; [done|]. cbn [indentation].
  destruct (skip_ws (indentation n)) eqn:E; [|done]. by rewrite (skip_ws_app _ "  ") by (unfold all_ws; by rewrite E).
Qed.

(** [json.Unmarshal] inverts [json.Marshal] and [json.MarshalIndent], also when the
    text is followed by white space: on every value that is writable within the
    decoder's nesting limit, the decoder returns the value itself and stops behind its
    text. *)
Theorem decode_encoded v w rest :
  writable max_depth v = true → all_ws w = true → ends_number rest = true →
  Decode (w +:+ Marshal v +:+ rest) = Some (v, rest) ∧
  Decode (w +:+ MarshalIndent v +:+ rest) = Some (v, rest).
Proof.
  intros Hv Hw Hr.
  assert (Hd : ∀ t, reads max_depth t v → Decode (w +:+ t +:+ rest) = Some (v, rest)).
  { intros t Ht. destruct (Ht rest Hr) as [f0 Hf0].
    rewrite <-(Decode_fuel _ (f0 `max` fuel_for (w +:+ t +:+ rest))) by lia.
    rewrite value_skip by done. apply Hf0. lia. }
  split; apply Hd.
  - rewrite (Marshal_print v 0). by apply (value_print (λ _, "") ":" (λ _, eq_refl) "" eq_refl eq_refl).
  - unfold MarshalIndent. rewrite marshal_indent_print.
    by apply (value_print indentation ": " indentation_ws " " eq_refl eq_refl).
Qed.

(** ** Integers *)

Lemma decimal_digits_onto fuel n acc : decimal_digits fuel n acc = decimal_digits fuel n "" +:+ acc.
Proof.
  revert n acc. induction fuel as [|fuel IH]; intros n acc; cbn [decimal_digits]; [done|].
  destruct (n <? 10); [done|]. rewrite IH, (IH _ (String _ "")), string_app_assoc. done.
Qed.

Lemma digit_spec n : 0 ≤ n < 10 →
  N_of_ascii (digit n) = (48 + Z.to_N n)%N ∧ is_digit (digit n) = true ∧ digit_value 10 (digit n) = Some n.
Proof.
  intros Hn. assert (Hd : N_of_ascii (digit n) = (48 + Z.to_N n)%N).
  { unfold digit. apply N_ascii_embedding. lia. }
  split; [done|]. unfold is_digit, digit_value. rewrite Hd. split.
  - apply andb_true_iff. rewrite !N.leb_le. lia.
  - replace (Z.of_N (48 + Z.to_N n)) with (48 + n) by lia.
    rewrite (proj2 (Z.leb_le 48 _)), (proj2 (Z.leb_le (48 + n) 57)) by lia. cbn [andb].
    replace (48 + n - 48) with n by lia. by rewrite (proj2 (Z.ltb_lt n 10)) by lia.
Qed.

Lemma digits_value_app base s t acc v :
  digits_value base s acc = Some v → digits_value base (s +:+ t) acc = digits_value base t v.
Proof.
  revert acc. induction s as [|c s IH]; intros acc; cbn; [by intros [= ->]|].
  rewrite ?string_app_cons. cbn. destruct (digit_value base c); [apply IH|done].
Qed.


(** The digits of [n] and what they are worth. *)
Lemma decimal_digits_spec fuel n : 0 ≤ n < 10 ^ Z.of_nat fuel → (0 < fuel)%nat →
  let t := decimal_digits fuel n "" in
  digits_value 10 t 0 = Some n ∧ all_chars is_digit t = true ∧ t ≠ "" ∧
  (∀ r, t = String "0" r → n = 0) ∧ (n < 10 → t = String (digit n) "").
Proof.
  revert n. induction fuel as [|fuel IH]; intros n Hn Hf; [lia|]. cbv zeta. cbn [decimal_digits].
  destruct (Z.ltb_spec n 10) as [Hlt|Hge].
  - assert (Hm : n mod 10 = n) by (apply Z.mod_small; lia). rewrite Hm.
    destruct (digit_spec n ltac:(lia)) as (H1 & H2 & H3). cbn [digits_value all_chars]. rewrite H3, H2.
    split; [f_equal; lia|]. split; [done|]. split; [done|]. split; [|done]. intros r [= Ha _].
    rewrite Ha in H1. cbn in H1. lia.
  - rewrite Nat2Z.inj_succ, Z.pow_succ_r in Hn by lia.
    destruct fuel as [|fuel']; [cbn in Hn; lia|]. 
    destruct (IH (n / 10)) as (H1 & H2 & H3 & H4 & H5); [|lia|].
    { split; [apply Z.div_pos; lia|]. apply Z.div_lt_upper_bound; lia. }
    destruct (digit_spec (n mod 10)) as (D1 & D2 & D3); [apply Z.mod_pos_bound; lia|].
    rewrite decimal_digits_onto. set (t := decimal_digits (S fuel') (n / 10) "") in *.
    assert (0 < n / 10) by (apply Z.div_str_pos; lia).
    split; [|split; [|split; [|split]]].
    + rewrite (digits_value_app _ _ _ _ _ H1). cbn [digits_value]. rewrite D3. f_equal.
      assert (Hdm := Z.div_mod n 10 ltac:(lia)). lia.
    + by rewrite all_chars_app, H2; cbn [all_chars]; rewrite D2.
    + destruct t; [done|]. by rewrite string_app_cons.
    + intros r. destruct t as [|c t]; [done|]. rewrite string_app_cons. intros [= -> _].
      specialize (H4 t eq_refl). lia.
    + lia.
Qed.

Lemma take_digits_all t : all_chars is_digit t = true → take_digits t = (t, "").
Proof.
  induction t as [|c t IH]; [done|]. cbn. intros [Hc Ht]%andb_true_iff. by rewrite Hc, (IH Ht).
Qed.

Lemma ParseInt_Sprint n : - 2 ^ 63 ≤ n < 2 ^ 63 → ParseInt (Sprint n) = Some n.
Proof.
  intros Hn. unfold Sprint. destruct (Z.ltb_spec n 0) as [Hneg|Hpos].
  - destruct (decimal_digits_spec 20 (- n)) as (H1 & _ & H3 & _); [lia|lia|].
    unfold ParseInt. rewrite bool_decide_false, H1 by done. by rewrite (proj2 (Z.leb_le _ _)), Z.opp_involutive by lia.
  - destruct (decimal_digits_spec 20 n) as (H1 & H2 & H3 & _); [lia|lia|].
    set (t := decimal_digits 20 n "") in *.
    assert (Hs : match t with String "+" r => (false, r) | String "-" r => (true, r) | _ => (false, t) end
                 = (false, t)).
    { clear -H2. destruct t as [|c t]; [done|]. cbn in H2. apply andb_true_iff in H2 as [Hc _].
      destruct c as [[] [] [] [] [] [] [] []]; done. }
    unfold ParseInt. rewrite Hs, bool_decide_false, H1 by done. by rewrite (proj2 (Z.ltb_lt _ _)) by lia.
Qed.

(** A text of digits without a leading zero is an integer of JSON. *)
Lemma scan_integer_digits t :
  all_chars is_digit t = true → t ≠ "" → (∀ r, t = String "0" r → r = "") → scan_integer t = Some (t, "").
Proof.
  intros Hd Hne Hz. unfold scan_integer. rewrite (take_digits_all t Hd).
  destruct t as [|c t]; [done|].
  destruct c as [[] [] [] [] [] [] [] []]; try done. by rewrite (Hz t eq_refl).
Qed.
Lemma is_number_Sprint n : - 2 ^ 63 ≤ n < 2 ^ 63 → is_number (Sprint n) = true.
Proof.
  intros Hn. apply bool_decide_eq_true_2. 
  assert (Hi : ∀ k, 0 ≤ k ≤ 2 ^ 63 → scan_integer (decimal_digits 20 k "") = Some (decimal_digits 20 k "", "")).
  { intros k Hk. destruct (decimal_digits_spec 20 k) as (H1 & H2 & H3 & H4 & H5); [lia|lia|].
    apply scan_integer_digits; [done..|]. intros r Hr. assert (k = 0) as -> by by eapply H4. by injection Hr. }
  unfold Sprint. destruct (Z.ltb_spec n 0) as [Hneg|Hpos].
  - unfold scan_number. rewrite (Hi (- n)) by lia. cbn. by rewrite string_app_nil_r.
  - destruct (decimal_digits_spec 20 n) as (_ & H2 & H3 & _); [lia|lia|]. specialize (Hi n ltac:(lia)).
    set (t := decimal_digits 20 n "") in *.
    assert (Hs : match t with String "-" r => ("-", r) | _ => ("", t) end = ("", t)).
    { clear -H2. destruct t as [|c t]; [done|]. cbn in H2. apply andb_true_iff in H2 as [Hc _].
      destruct c as [[] [] [] [] [] [] [] []]; done. }
    unfold scan_number. rewrite Hs, Hi. cbn. by rewrite string_app_nil_r.
Qed.

(** ** Decoded integers *)

Definition int64 (n : Z) : bool := (- 2 ^ 63 <=? n) && (n <? 2 ^ 63).
Lemma int64_range n : int64 n = true ↔ - 2 ^ 63 ≤ n < 2 ^ 63.
Proof. unfold int64. by rewrite andb_true_iff, Z.leb_le, Z.ltb_lt. Qed.

Lemma decode_int64_Sprint n old : int64 n = true → decode_int64 (JNumber (Sprint n)) old = (n, false).
Proof. intros Hn%int64_range. unfold decode_int64. by rewrite ParseInt_Sprint. Qed.
Lemma int64_number n : int64 n = true → is_number (Sprint n) = true.
Proof. intros Hn%int64_range. by apply is_number_Sprint. Qed.

Lemma ParseInt_range s n : ParseInt s = Some n → int64 n = true.
Proof.
  unfold ParseInt. rewrite int64_range. destruct (match s with String "+" r => _ | _ => _ end) as [negative rest].
  destruct (bool_decide _); [done|]. destruct (digits_value 10 rest 0) as [v|] eqn:E; [|done].
  apply digits_value_nonneg in E; [|done..]. destruct negative.
  - destruct (Z.leb_spec v (2 ^ 63)); [|done]. intros [= <-]. lia.
  - destruct (Z.ltb_spec v (2 ^ 63)); [|done]. intros [= <-]. lia.
Qed.
Lemma decode_int64_range v old : int64 old = true → int64 (decode_int64 v old).1 = true.
Proof.
  intros Ho. destruct v as [| |t| | |]; try done. unfold decode_int64.
  destruct (ParseInt t) as [n|] eqn:E; [|done]. by eapply ParseInt_range.
Qed.

(** What every field of a struct keeps, the struct keeps. *)
Definition keeps_all {A} (P : A → Prop) (dec : decoder A) : Prop := ∀ v old, P old → P (dec v old).1.
Lemma decode_struct_keeps {A} (P : A → Prop) strict (fields : list (string * decoder A)) :
  Forall (λ f, keeps_all P f.2) fields → keeps_all P (decode_struct strict fields).
Proof.
  intros Hf [| | | | |l] old Hold; try done. unfold decode_struct.
  assert (Hfind : ∀ k dec, find_field fields k = Some dec → keeps_all P dec).
  { intros k dec. unfold find_field. rewrite Forall_forall in Hf.
    destruct (list_find (λ f, f.1 = k) fields) as [[i f]|] eqn:E1.
    - intros [= <-]. apply list_find_Some in E1 as (Hi & _). apply Hf. by eapply list_elem_of_lookup_2.
    - intros H. apply fmap_Some in H as ([i f] & E2%list_find_Some & ->).
      apply Hf. by eapply list_elem_of_lookup_2, (proj1 E2). }
  revert old Hold. induction l as [|[k v] l IH]; intros old Hold; [done|]. cbn [decode_members].
  destruct (find_field fields k) as [dec|] eqn:E.
  - specialize (Hfind _ _ E v old Hold). destruct (dec v old) as [x e]. specialize (IH x Hfind).
    by destruct (decode_members strict fields l x).
  - specialize (IH old Hold). by destruct (decode_members strict fields l old).
Qed.
Lemma decode_slice_keeps {A} (P : A → Prop) zero (dec : decoder A) :
  P zero → keeps_all P dec → keeps_all (Forall P) (decode_slice zero dec).
Proof.
  intros Hz Hd v0 old Hold. destruct v0 as [| | | |l|]; try exact Hold; [apply Forall_nil_2|].
  change (Forall P (decode_items zero dec l old).1).
  revert old Hold. induction l as [|v l IH]; intros old Hold; [by constructor|]. cbn [decode_items].
  assert (Hx : P (dec v match old with x :: _ => x | [] => zero end).1).
  { apply Hd. destruct Hold; done. }
  destruct (dec v _) as [x e]. assert (Ht : Forall P (tail old)) by (destruct Hold; [by constructor|done]).
  specialize (IH (tail old) Ht). destruct (decode_items zero dec l (tail old)) as [xs e']. by constructor.
Qed.
Lemma on_field_keeps {A C} (P : A → Prop) (get : A → C) set dec :
  (∀ v old, P old → P (set (dec v (get old)).1 old)) → keeps_all P (on_field get set dec).
Proof. intros H v old Ho. unfold on_field. specialize (H v old Ho). by destruct (dec v (get old)). Qed.
