(* ===== verification/Floats.v ===== *)
(** * Floating-point numbers through their text

    [encoding/json] prints a [float64] with the fewest digits that read back as the
    same number.  [Encoding.format_float] and [Json.ParseFloat] model the two
    directions; here they are shown to be inverse on the positive numbers, and the
    numbers that [ParseFloat] and [strconv.ParseFloat] return to be canonical.  The
    durations in the redaction manifest travel from the worker to the exporter this
    way. *)

From S2P Require Import Prelude Domain Text Encoding Json RoundTrip.
From Stdlib Require Import SpecFloat.

(** ** Binary64 *)

Local Notation fexp := (SpecFloat.fexp 53 1024).
Local Notation bounded := (SpecFloat.bounded 53 1024).
Local Notation normalize q ex := (SpecFloat.binary_normalize 53 1024 q ex false).

Lemma fexp_eq d : fexp d = Z.max (d - 53) (-1074).
Proof. reflexivity. Qed.

Lemma digits2_log2 p : Z.pos (digits2_pos p) = Z.log2 (Z.pos p) + 1.
Proof.
  induction p as [p IH|p IH|]; [| |done]; cbn [digits2_pos]; rewrite Pos2Z.inj_succ, IH.
  - change (Z.pos p~1) with (2 * Z.pos p + 1). rewrite Z.log2_succ_double by lia. lia.
  - change (Z.pos p~0) with (2 * Z.pos p). rewrite Z.log2_double by lia. lia.
Qed.

(** ** Shifting right *)

Lemma iter_pos_nat {A} (f : A → A) n x : iter_pos f n x = Nat.iter (Pos.to_nat n) f x.
Proof.
  revert x. induction n as [n IH|n IH|]; intros x; cbn [iter_pos]; rewrite ?IH; [| |done].
  - rewrite Pos2Nat.inj_xI, Nat.iter_succ_r, <-Nat.iter_add. f_equal. lia.
  - rewrite Pos2Nat.inj_xO, <-Nat.iter_add. f_equal. lia.
Qed.

Lemma shr_1_eq m r s :
  0 ≤ m → shr_1 {| shr_m := m; shr_r := r; shr_s := s |}
            = {| shr_m := m / 2; shr_r := Z.odd m; shr_s := r || s |}.
Proof.
  intros Hm. rewrite <-Z.div2_div. destruct m as [|[p|p|]|p]; try done; lia.
Qed.

Definition exact_record (m : Z) : shr_record := {| shr_m := m; shr_r := false; shr_s := false |}.

Lemma shift_right q n :
  0 ≤ q → let h := 2 ^ Z.of_nat n in
  Nat.iter (S n) shr_1 (exact_record q)
    = {| shr_m := q / (2 * h); shr_r := Z.odd (q / h); shr_s := negb (q mod h =? 0) |}.
Proof.
  intros Hq. induction n as [|n IH]; cbv zeta in *.
  - change (Nat.iter 1 shr_1 (exact_record q)) with (shr_1 (exact_record q)). unfold exact_record.
    rewrite shr_1_eq by done. cbn. by rewrite Z.div_1_r, Z.mod_1_r.
  - change (Nat.iter (S (S n)) shr_1 ?x) with (shr_1 (Nat.iter (S n) shr_1 x)). rewrite IH.
    rewrite shr_1_eq by (apply Z.div_pos; lia). rewrite Nat2Z.inj_succ, Z.pow_succ_r by lia.
    set (h := 2 ^ Z.of_nat n) in *. assert (0 < h) by (unfold h; lia). f_equal.
    + rewrite Z.div_div by lia. f_equal. lia.
    + rewrite (Z.mul_comm 2 h), Z.rem_mul_r by lia.
      rewrite Zmod_odd. assert (Hb := Z.mod_pos_bound q h ltac:(lia)).
      destruct (Z.odd (q / h)); [|by rewrite Z.mul_0_r, Z.add_0_r].
      symmetry. apply negb_true_iff, Z.eqb_neq. lia.
Qed.

(** ** Rounding to the nearest *)

(** [m] is nearest to [q / 2^n], and even in a tie. *)
Definition nearest_to (m q n : Z) : Prop :=
  (2 * m - 1) * 2 ^ (n - 1) ≤ q ≤ (2 * m + 1) * 2 ^ (n - 1) ∧
  (q = (2 * m - 1) * 2 ^ (n - 1) ∨ q = (2 * m + 1) * 2 ^ (n - 1) → Z.even m = true).

Lemma rounds_near m q n :
  0 ≤ q → nearest_to m q (Z.pos n) →
  let mrs := iter_pos shr_1 n (exact_record q) in
  round_nearest_even (shr_m mrs) (loc_of_shr_record mrs) = m.
Proof.
  intros Hq [Hb Ht]. cbv zeta. rewrite iter_pos_nat. 
  destruct (Pos.to_nat n) as [|k] eqn:Ek; [lia|]. rewrite shift_right by done.
  replace (Z.pos n - 1) with (Z.of_nat k) in * by lia. set (h := 2 ^ Z.of_nat k) in *.
  assert (Hh : 0 < h) by (unfold h; lia).
  set (f := q / (2 * h)). assert (Hq2 : q / h = 2 * f + Z.b2z (Z.odd (q / h))).
  { unfold f. rewrite (Z.mul_comm 2 h), <-Z.div_div by lia. rewrite <-Z.div2_div. apply Z.div2_odd. }
  assert (Hdm := Z.div_mod q h ltac:(lia)). assert (Hmb := Z.mod_pos_bound q h Hh).
  set (s := q mod h) in *. rewrite Hq2 in Hdm. cbn [shr_m].
  destruct (Z.odd (q / h)); cbn [Z.b2z] in Hdm; destruct (Z.eqb_spec s 0) as [E|E]; cbn [negb loc_of_shr_record round_nearest_even].
  - assert (f = m ∨ f = m - 1) as [->| ->] by nia.
    + rewrite Ht by (right; nia). done.
    + assert (He : Z.even m = true) by (apply Ht; left; nia).
      replace (Z.even (m - 1)) with false; [lia|]. symmetry. rewrite Z.even_sub, He. done.
  - nia.
  - nia.
  - nia.
Qed.

(** ** Rounding to a binary64 *)

Lemma log2_bounds q a : 0 ≤ a → 2 ^ a ≤ q < 2 ^ (a + 1) → Z.log2 q = a.
Proof. intros Ha H. apply Z.log2_unique; [done|]. by rewrite <-Z.add_1_r. Qed.

Lemma bounded_cases m e :
  bounded m e = true ↔
  (2 ^ 52 ≤ Z.pos m < 2 ^ 53 ∧ -1074 ≤ e ≤ 971) ∨ (Z.pos m < 2 ^ 52 ∧ e = -1074).
Proof.
  unfold SpecFloat.bounded, canonical_mantissa. rewrite andb_true_iff, Z.eqb_eq, Z.leb_le, fexp_eq, digits2_log2.
  assert (Hs := Z.log2_spec (Z.pos m) ltac:(lia)). assert (Hn := Z.log2_nonneg (Z.pos m)).
  split.
  - intros [H1 H2]. destruct (Z.leb_spec (2 ^ 52) (Z.pos m)) as [Hm|Hm].
    + left. assert (52 ≤ Z.log2 (Z.pos m)) by (by apply Z.log2_le_pow2).
      assert (Z.log2 (Z.pos m) = 52) as E by lia. rewrite E in Hs. change (Z.succ 52) with 53 in Hs. lia.
    + right. split; [done|]. apply Z.log2_lt_pow2 in Hm; lia.
  - intros [[Hm He]|[Hm ->]].
    + rewrite (log2_bounds _ 52); lia.
    + apply Z.log2_lt_pow2 in Hm; lia.
Qed.

(** One rounding step: the second shift brings a carry back into range. *)
Lemma normalize_step q ex n R :
  fexp (Z.log2 (Z.pos q) + 1 + ex) = ex + Z.pos n → nearest_to R (Z.pos q) (Z.pos n) →
  normalize (Z.pos q) ex =
    let '(mrs, e) := shr_fexp 53 1024 R (ex + Z.pos n) loc_Exact in
    match shr_m mrs with
    | Z0 => S754_zero false
    | Z.pos m => if e <=? 971 then S754_finite false m e else S754_infinity false
    | Z.neg _ => S754_nan
    end.
Proof.
  intros Hf Hnear. unfold binary_normalize, binary_round. rewrite digits2_log2, Hf.
  unfold shl_align. replace (ex + Z.pos n - ex) with (Z.pos n) by lia.
  unfold binary_round_aux, shr_fexp at 1. cbn [Zdigits2]. rewrite digits2_log2, Hf.
  replace (ex + Z.pos n - ex) with (Z.pos n) by lia. cbn [shr shr_record_of_loc].
  change {| shr_m := Z.pos q; shr_r := false; shr_s := false |} with (exact_record (Z.pos q)).
  rewrite (rounds_near R (Z.pos q) n) by done. reflexivity.
Qed.

(** What lies in the rounding interval of a binary64 rounds to it. *)
Lemma normalize_near q ex m e n :
  bounded m e = true → e = ex + Z.pos n → nearest_to (Z.pos m) (Z.pos q) (Z.pos n) →
  (2 ^ 52 ≤ Z.pos m → e ≠ -1074 → 2 ^ (52 + Z.pos n) ≤ Z.pos q) →
  normalize (Z.pos q) ex = S754_finite false m e.
Proof.
  intros Hm -> Hnear Hlow. assert (Hb := proj1 Hnear). 
  assert (H2 : 2 ^ Z.pos n = 2 * 2 ^ (Z.pos n - 1)) by (rewrite <-Z.pow_succ_r by lia; f_equal; lia).
  assert (Hh : 0 < 2 ^ (Z.pos n - 1)) by lia. set (h := 2 ^ (Z.pos n - 1)) in *.
  assert (Hpow : ∀ a, 0 ≤ a → 2 ^ (a + Z.pos n) = 2 ^ a * (2 * h)) by (intros a Ha; rewrite Z.pow_add_r, H2; lia).
  apply bounded_cases in Hm.
  assert (Hup : Z.pos q < 2 ^ (53 + Z.pos n)) by (rewrite Hpow by lia; nia).
  assert (Hlog : Z.log2 (Z.pos q) < 53 + Z.pos n) by (by apply Z.log2_lt_pow2).
  assert (Hf : fexp (Z.log2 (Z.pos q) + 1 + ex) = ex + Z.pos n).
  { rewrite fexp_eq. destruct (decide (ex + Z.pos n = -1074)) as [E|E]; [lia|].
    destruct Hm as [[Hm ?]|[_ ?]]; [|lia]. specialize (Hlow (proj1 Hm) E).
    assert (52 + Z.pos n ≤ Z.log2 (Z.pos q)) by (by apply Z.log2_le_pow2). lia. }
  rewrite (normalize_step q ex n (Z.pos m)) by done.
  unfold shr_fexp. cbn [Zdigits2].
  assert (Hc : fexp (Z.pos (digits2_pos m) + (ex + Z.pos n)) = ex + Z.pos n).
  { apply bounded_cases, andb_true_iff in Hm as [Hm%Z.eqb_eq _]. exact Hm. }
  rewrite Hc, Z.sub_diag. cbn [shr shr_m shr_record_of_loc].
  rewrite (proj2 (Z.leb_le _ _)); [done|]. destruct Hm as [[_ ?]|[_ ?]]; lia.
Qed.

(** Just below a power of two the interval is that of the smaller exponent. *)
Lemma normalize_below q ex e n :
  -1074 < e ≤ 971 → e = ex + Z.pos n + 1 →
  (2 ^ 54 - 1) * 2 ^ (Z.pos n - 1) ≤ Z.pos q < 2 ^ (53 + Z.pos n) →
  normalize (Z.pos q) ex = S754_finite false (2 ^ 52)%positive e.
Proof.
  intros He -> [Hl Hu].
  assert (H2 : 2 ^ Z.pos n = 2 * 2 ^ (Z.pos n - 1)) by (rewrite <-Z.pow_succ_r by lia; f_equal; lia).
  assert (Hh : 0 < 2 ^ (Z.pos n - 1)) by lia. set (h := 2 ^ (Z.pos n - 1)) in *.
  assert (Hpow : ∀ a, 0 ≤ a → 2 ^ (a + Z.pos n) = 2 ^ a * (2 * h)) by (intros a Ha; rewrite Z.pow_add_r, H2; lia).
  assert (Hlog : Z.log2 (Z.pos q) = 52 + Z.pos n).
  { apply log2_bounds; [lia|]. replace (52 + Z.pos n + 1) with (53 + Z.pos n) by lia. split; [|done].
    rewrite Hpow by lia. nia. }
  rewrite (normalize_step q ex n (2 ^ 53)).
  - unfold shr_fexp. change (Zdigits2 (2 ^ 53)) with 54.
    rewrite fexp_eq. replace (_ - (ex + Z.pos n)) with 1 by lia.
    change (shr (shr_record_of_loc (2 ^ 53) loc_Exact) (ex + Z.pos n) 1)
      with ({| shr_m := 2 ^ 52; shr_r := false; shr_s := false |}, ex + Z.pos n + 1).
    cbn [shr_m]. change (2 ^ 52) with (Z.pos (2 ^ 52)%positive). rewrite (proj2 (Z.leb_le _ _)) by lia. done.
  - rewrite Hlog, fexp_eq. lia.
  - split; [|done]. fold h. rewrite Hpow in Hu by lia. split; [lia|]. nia.
Qed.

(** ** Rounding a fraction *)

(** The factors of [b^e] above and below the fraction bar. *)
Definition numerator (b e : Z) : Z := b ^ Z.max e 0.
Definition denominator (b e : Z) : Z := b ^ Z.max (- e) 0.

Section fractions.
Context (b : Z) (Hb : 0 < b).
Lemma numerator_pos e : 0 < numerator b e.
Proof using Hb. apply Z.pow_pos_nonneg; lia. Qed.
Lemma denominator_pos e : 0 < denominator b e.
Proof using Hb. apply Z.pow_pos_nonneg; lia. Qed.
Lemma fraction_scale e k : 0 ≤ k → 0 ≤ e + k → numerator b e * b ^ k = denominator b e * b ^ (e + k).
Proof using Type. intros Hk He. unfold numerator, denominator. rewrite <-!Z.pow_add_r by lia. f_equal. lia. Qed.
Lemma fraction_shift e k : 0 ≤ k → numerator b (e + k) * denominator b e = b ^ k * numerator b e * denominator b (e + k).
Proof using Type. intros Hk. unfold numerator, denominator. rewrite <-!Z.pow_add_r by lia. f_equal. lia. Qed.
End fractions.

(** The quotient with a sticky bit stays on its side of every integer. *)
Definition sticky (scaled den : Z) : Z := 2 * (scaled / den) + (if scaled mod den =? 0 then 0 else 1).
Lemma sticky_le scaled den t :
  0 < den → scaled ≤ t * den → sticky scaled den ≤ 2 * t ∧ (sticky scaled den = 2 * t → scaled = t * den).
Proof.
  intros Hd H. unfold sticky. assert (Hdm := Z.div_mod scaled den ltac:(lia)).
  assert (Hb := Z.mod_pos_bound scaled den Hd). destruct (Z.eqb_spec (scaled mod den) 0); nia.
Qed.
Lemma sticky_ge scaled den t :
  0 < den → t * den ≤ scaled → 2 * t ≤ sticky scaled den ∧ (sticky scaled den = 2 * t → scaled = t * den).
Proof.
  intros Hd H. unfold sticky. assert (Hdm := Z.div_mod scaled den ltac:(lia)).
  assert (Hb := Z.mod_pos_bound scaled den Hd). destruct (Z.eqb_spec (scaled mod den) 0); nia.
Qed.
Lemma sticky_lt scaled den t : 0 < den → sticky scaled den < 2 * t → scaled < t * den.
Proof.
  intros Hd H. destruct (Z.lt_ge_cases scaled (t * den)) as [|Hge]; [done|].
  destruct (sticky_ge _ _ _ Hd Hge). lia.
Qed.

Definition precision (num den : Z) : Z := Z.max 0 (66 + Z.log2 den - Z.log2 num).

Lemma precision_enough num den m e :
  0 < num → 0 < den → Z.pos m < 2 ^ 53 → num * 2 * denominator 2 e ≤ (2 * Z.pos m + 1) * numerator 2 e * den →
  13 ≤ e + precision num den.
Proof.
  intros Hn Hd Hm H. assert (Ha := numerator_pos 2 ltac:(done) e). assert (Hb := denominator_pos 2 ltac:(done) e).
  assert (Hn2 := Z.log2_spec num Hn). assert (Hd2 := Z.log2_spec den Hd).
  assert (Hl : 2 ^ (Z.log2 num + 1 + Z.max (- e) 0) < 2 ^ (55 + Z.log2 den + Z.max e 0)).
  { assert (0 ≤ Z.log2 num) by apply Z.log2_nonneg. assert (0 ≤ Z.log2 den) by apply Z.log2_nonneg.
    assert (E1 : 2 ^ (Z.log2 num + 1 + Z.max (- e) 0) = 2 ^ Z.log2 num * 2 * denominator 2 e).
    { rewrite !Z.pow_add_r by lia. done. }
    assert (E2 : 2 ^ (55 + Z.log2 den + Z.max e 0) = 2 ^ 54 * (2 * 2 ^ Z.log2 den) * numerator 2 e).
    { rewrite !Z.pow_add_r by lia. unfold numerator. lia. }
    rewrite E1, E2. rewrite Z.pow_succ_r in Hd2 by done.
    apply Z.le_lt_trans with (num * 2 * denominator 2 e); [nia|]. apply (Z.le_lt_trans _ _ _ H).
    apply Z.lt_le_trans with (2 ^ 54 * numerator 2 e * den); nia. }
  apply Z.pow_lt_mono_r_iff in Hl; [|lia|]. 2:{ pose proof (Z.log2_nonneg den). lia. }
  unfold precision. lia.
Qed.

(** Scaled by [2^k], the bounds of the interval are multiples of a quarter of [2^(e+k)]. *)
Section scaling.
Context (num den e k : Z) (Hd : 0 < den) (Hk : 0 ≤ k) (Hek : 2 ≤ e + k).
Definition quarter : Z := 2 ^ (e + k - 2).
Definition scaled : Z := num * 2 ^ k.

Lemma quarter_pos : 0 < quarter.
Proof using Hek. apply Z.pow_pos_nonneg; lia. Qed.
Lemma quarters : numerator 2 e * 2 ^ k = denominator 2 e * (4 * quarter).
Proof using Hk Hek.
  rewrite fraction_scale by lia. f_equal. unfold quarter. change 4 with (2 ^ 2).
  rewrite <-Z.pow_add_r by lia. f_equal. lia.
Qed.
Lemma scaled_compare a c :
  (a * num * denominator 2 e ≤ c * numerator 2 e * den ↔ a * scaled ≤ c * (4 * quarter) * den) ∧
  (c * numerator 2 e * den ≤ a * num * denominator 2 e ↔ c * (4 * quarter) * den ≤ a * scaled).
Proof using Hk Hek.
  assert (Hq := quarters). assert (Hb := denominator_pos 2 ltac:(done) e).
  assert (Hc : c * numerator 2 e * den * 2 ^ k = c * (4 * quarter) * den * denominator 2 e).
  { replace (c * numerator 2 e * den * 2 ^ k) with (c * (numerator 2 e * 2 ^ k) * den) by ring. rewrite Hq. ring. }
  assert (Ha : a * num * denominator 2 e * 2 ^ k = a * scaled * denominator 2 e) by (unfold scaled; ring).
  rewrite (Z.mul_le_mono_pos_r (a * num * denominator 2 e) _ (2 ^ k)) by lia.
  rewrite (Z.mul_le_mono_pos_r (c * numerator 2 e * den) _ (2 ^ k)) by lia.
  rewrite Ha, Hc, <-!(Z.mul_le_mono_pos_r _ _ (denominator 2 e)) by done. done.
Qed.
Lemma scaled_le a c : a * num * denominator 2 e ≤ c * numerator 2 e * den → a * scaled ≤ c * (4 * quarter) * den.
Proof using Hk Hek. apply scaled_compare. Qed.
Lemma scaled_ge a c : c * numerator 2 e * den ≤ a * num * denominator 2 e → c * (4 * quarter) * den ≤ a * scaled.
Proof using Hk Hek. apply scaled_compare. Qed.
Lemma scaled_eq a c : a * scaled = c * (4 * quarter) * den → a * num * denominator 2 e = c * numerator 2 e * den.
Proof using Hk Hek. intros H. destruct (scaled_compare a c) as [H1 H2]. apply Z.le_antisymm; [apply H1|apply H2]; lia. Qed.

(** The half of the last place of the result, in units of the sticky quotient. *)
Lemma half_place n : Z.pos n = e + k + 1 →
  2 ^ (Z.pos n - 1) = 4 * quarter ∧ 2 ^ (52 + Z.pos n) = 2 ^ 53 * (4 * quarter).
Proof using Hek.
  intros Hn. assert (H : 2 ^ (Z.pos n - 1) = 4 * quarter).
  { unfold quarter. change 4 with (2 ^ 2). rewrite <-Z.pow_add_r by lia. f_equal. lia. }
  split; [done|]. rewrite <-H, <-Z.pow_add_r by lia. f_equal. lia.
Qed.

Context (m : positive) (Hm : bounded m e = true).
Context (Hup : num * 2 * denominator 2 e ≤ (2 * Z.pos m + 1) * numerator 2 e * den).

Lemma sticky_upper :
  sticky scaled den ≤ 2 * ((2 * Z.pos m + 1) * (2 * quarter)) ∧
  (sticky scaled den = 2 * ((2 * Z.pos m + 1) * (2 * quarter)) →
   num * 2 * denominator 2 e = (2 * Z.pos m + 1) * numerator 2 e * den).
Proof using Hd Hk Hek Hup.
  assert (U := scaled_le 2 (2 * Z.pos m + 1) ltac:(lia)).
  destruct (sticky_le scaled den ((2 * Z.pos m + 1) * (2 * quarter)) Hd ltac:(lia)) as [Q1 Q2].
  split; [done|]. intros Hq. assert (E := scaled_eq 2 (2 * Z.pos m + 1)). specialize (Q2 Hq). lia.
Qed.

(** The lower half of the interval is as wide as the upper. *)
Lemma round_wide :
  (Z.pos m =? 2 ^ 52) && (-1074 <? e) = false →
  (2 * Z.pos m - 1) * numerator 2 e * den ≤ num * 2 * denominator 2 e →
  (Z.even (Z.pos m) = false →
   num * 2 * denominator 2 e ≠ (2 * Z.pos m + 1) * numerator 2 e * den ∧
   num * 2 * denominator 2 e ≠ (2 * Z.pos m - 1) * numerator 2 e * den) →
  normalize (sticky scaled den) (- (k + 1)) = S754_finite false m e.
Proof using Hd Hk Hek Hm Hup.
  intros Ec Hlow Hodd. destruct sticky_upper as [Q1 Q2]. assert (Hh := quarter_pos).
  assert (L := scaled_ge 2 (2 * Z.pos m - 1) ltac:(lia)).
  destruct (sticky_ge scaled den ((2 * Z.pos m - 1) * (2 * quarter)) Hd ltac:(lia)) as [Q3 Q4].
  set (q := sticky scaled den) in *.
  assert (Hq : ∃ p, q = Z.pos p) by (exists (Z.to_pos q); nia). destruct Hq as [p Hp]. rewrite Hp in *.
  assert (HZ : ∃ n, Z.pos n = e + k + 1) by (exists (Z.to_pos (e + k + 1)); lia). destruct HZ as [n Hn].
  destruct (half_place n Hn) as [Hp1 Hp2].
  apply (normalize_near p (- (k + 1)) m e n); [done|lia| |].
  - split; [rewrite Hp1; lia|]. rewrite Hp1. intros Ht. destruct (Z.even (Z.pos m)) eqn:Ev; [done|].
    destruct (Hodd eq_refl) as [O1 O2]. destruct Ht as [Ht|Ht]; exfalso; [apply O2|apply O1, Q2; lia].
    assert (E := scaled_eq 2 (2 * Z.pos m - 1)). specialize (Q4 ltac:(lia)). lia.
  - intros H52 He. rewrite Hp2. apply andb_false_iff in Ec. rewrite Z.eqb_neq, Z.ltb_ge in Ec.
    pose proof (proj1 (bounded_cases _ _) Hm). nia.
Qed.

(** Above a power of two: the lower half of the interval is half as wide. *)
Lemma round_narrow :
  Z.pos m = 2 ^ 52 → -1074 < e → (4 * Z.pos m - 1) * numerator 2 e * den ≤ num * 4 * denominator 2 e →
  normalize (sticky scaled den) (- (k + 1)) = S754_finite false m e.
Proof using Hd Hk Hek Hm Hup.
  intros Ec Ee Hlow. destruct sticky_upper as [Q1 _]. assert (Hh := quarter_pos).
  assert (L := scaled_ge 4 (4 * Z.pos m - 1) ltac:(lia)).
  destruct (sticky_ge scaled den ((4 * Z.pos m - 1) * quarter) Hd ltac:(lia)) as [Q3 _].
  set (q := sticky scaled den) in *.
  assert (Hq : ∃ p, q = Z.pos p) by (exists (Z.to_pos q); nia). destruct Hq as [p Hp]. rewrite Hp in *.
  assert (HZ : ∃ n, Z.pos n = e + k) by (exists (Z.to_pos (e + k)); lia). destruct HZ as [n Hn].
  destruct (half_place (n + 1) ltac:(lia)) as [Hp1 Hp2].
  destruct (Z.lt_ge_cases (Z.pos p) (2 ^ (52 + Z.pos (n + 1)))) as [Hlt|Hge].
  - assert (m = (2 ^ 52)%positive) as -> by (apply Pos2Z.inj; exact Ec).
    apply (normalize_below p (- (k + 1)) e n); [pose proof (proj1 (bounded_cases _ _) Hm); lia|lia|].
    replace (53 + Z.pos n) with (52 + Z.pos (n + 1)) by lia. split; [|done].
    replace (Z.pos (n + 1) - 1) with (Z.succ (Z.pos n - 1)) in Hp1 by lia. rewrite Z.pow_succ_r in Hp1 by lia. lia.
  - apply (normalize_near p (- (k + 1)) m e (n + 1)); [done|lia| |done]. rewrite Ec.
    split; [|done]. rewrite Hp1. rewrite Ec in Q1. lia.
Qed.
End scaling.

Lemma round_interval num den m e :
  0 < num → 0 < den → bounded m e = true →
  num * 2 * denominator 2 e ≤ (2 * Z.pos m + 1) * numerator 2 e * den →
  (if (Z.pos m =? 2 ^ 52) && (-1074 <? e) then (4 * Z.pos m - 1) * numerator 2 e * den ≤ num * 4 * denominator 2 e
   else (2 * Z.pos m - 1) * numerator 2 e * den ≤ num * 2 * denominator 2 e) →
  (Z.even (Z.pos m) = false →
   num * 2 * denominator 2 e ≠ (2 * Z.pos m + 1) * numerator 2 e * den ∧
   num * 2 * denominator 2 e ≠ (2 * Z.pos m - 1) * numerator 2 e * den) →
  normalize (sticky (num * 2 ^ precision num den) den) (- (precision num den + 1)) = S754_finite false m e.
Proof.
  intros Hn Hd Hm Hup Hlow Hodd. assert (Hm' := proj1 (bounded_cases m e) Hm).
  assert (HK : 13 ≤ e + precision num den) by (apply (precision_enough num den m e); [done..|lia|done]).
  assert (0 ≤ precision num den) by (unfold precision; lia).
  destruct (_ && _) eqn:Ec.
  - apply andb_true_iff in Ec as [Ec%Z.eqb_eq Ee%Z.ltb_lt].
    apply (round_narrow num den e (precision num den)); [done|lia|lia|done..].
  - apply (round_wide num den e (precision num den)); [done|lia|lia|done..].
Qed.

(** ** The shortest decimal lies in the rounding interval *)

(** [2^e] and [10^k] as the code writes them. *)
Lemma numerator_if b e : (if 0 <=? e then b ^ e else 1) = numerator b e.
Proof. unfold numerator. destruct (Z.leb_spec 0 e); [by rewrite Z.max_l|by rewrite Z.max_r by lia]. Qed.
Lemma denominator_if b e : (if 0 <=? e then 1 else b ^ (- e)) = denominator b e.
Proof. unfold denominator. destruct (Z.leb_spec 0 e); [by rewrite Z.max_r by lia|by rewrite Z.max_l by lia]. Qed.

Lemma at_least_pow10_eq num den x : at_least_pow10 num den x = (den * numerator 10 x <=? num * denominator 10 x).
Proof.
  unfold at_least_pow10, numerator, denominator.
  destruct (Z.leb_spec 0 x); [rewrite Z.max_l, Z.max_r by lia|rewrite Z.max_r, Z.max_l by lia]; f_equal; ring.
Qed.

Definition within (incl : bool) (lo hi den d k : Z) : Prop :=
  let a := d * numerator 10 k * den in
  let s := denominator 10 k in
  if incl then lo * s ≤ a ≤ hi * s else lo * s < a < hi * s.

Lemma inside_within incl lo hi den d k : inside incl lo hi den d k = true ↔ within incl lo hi den d k.
Proof.
  unfold inside, within. rewrite <-denominator_if, <-numerator_if.
  assert ((if 0 <=? k then d * 10 ^ k * den else d * den) = d * (if 0 <=? k then 10 ^ k else 1) * den) as ->
    by (destruct (0 <=? k); ring).
  cbv zeta. destruct incl; rewrite andb_true_iff, ?Z.leb_le, ?Z.ltb_lt; done.
Qed.

Lemma digits_at_inside incl num lo hi den k d :
  digits_at incl num lo hi den k = Some d → within incl lo hi den d k.
Proof.
  unfold digits_at. intros H. apply inside_within. destruct (inside _ _ _ _ (_ / _) _) eqn:E1, (inside _ _ _ _ (_ / _ + 1) _) eqn:E2;
    cbn [andb] in H; repeat case_match; simplify_eq; done.
Qed.

(** A step smaller than the interval hits it. *)
Lemma digits_at_found incl num lo hi den k :
  0 < den → lo < num < hi → den * numerator 10 k < (hi - lo) * denominator 10 k →
  is_Some (digits_at incl num lo hi den k).
Proof.
  intros Hd Hn Hstep. assert (Ha := numerator_pos 10 ltac:(done) k). assert (Hb := denominator_pos 10 ltac:(done) k).
  unfold digits_at.
  assert ((if 0 <=? k then num else num * 10 ^ (- k)) = num * denominator 10 k) as ->
    by (rewrite <-denominator_if; destruct (0 <=? k); ring).
  assert ((if 0 <=? k then den * 10 ^ k else den) = den * numerator 10 k) as ->
    by (rewrite <-numerator_if; destruct (0 <=? k); ring).
  set (q := den * numerator 10 k) in *. set (p := num * denominator 10 k). set (d := p / q).
  assert (Hq : 0 < q) by (unfold q; nia). 
  assert (Hdm := Z.div_mod p q ltac:(lia)). assert (Hmb := Z.mod_pos_bound p q Hq). fold d in Hdm.
  destruct (inside incl lo hi den d k) eqn:E1, (inside incl lo hi den (d + 1) k) eqn:E2; cbn [andb]; try done.
  exfalso. rewrite <-not_true_iff_false, inside_within in E1, E2. unfold within in E1, E2.
  assert (∀ x, x * numerator 10 k * den = x * q) as Hx by (intros x; unfold q; ring). rewrite !Hx in *.
  assert (lo * denominator 10 k < p < hi * denominator 10 k) by (unfold p; nia).
  destruct incl; nia.
Qed.

Lemma shortest_within n incl num lo hi den x k :
  (∃ i, (i < n)%nat ∧ is_Some (digits_at incl num lo hi den (k - Z.of_nat i))) →
  ∃ d k', shortest n incl num lo hi den x k = (d, k') ∧ within incl lo hi den d k' ∧ k - Z.of_nat n < k' ≤ k.
Proof.
  revert k. induction n as [|n IH]; intros k (i & Hi & Hs); [lia|]. cbn [shortest].
  destruct (digits_at incl num lo hi den k) as [d|] eqn:E.
  - exists d, k. split; [done|]. split; [by apply (digits_at_inside _ num)|lia].
  - destruct i as [|i]; [rewrite Z.sub_0_r, E in Hs; by destruct Hs|].
    destruct (IH (k - 1)) as (d & k' & Heq & Hin & Hk).
    { exists i. split; [lia|]. replace (k - 1 - Z.of_nat i) with (k - Z.of_nat (S i)) by lia. done. }
    exists d, k'. split; [done|]. split; [done|lia].
Qed.

(** ** The decimal exponent *)

Lemma first_exponent_spec tries num den x0 :
  at_least_pow10 num den (x0 - 1) = true → at_least_pow10 num den (x0 + Z.of_nat tries) = false →
  let x := first_exponent tries num den x0 in
  at_least_pow10 num den (x - 1) = true ∧ at_least_pow10 num den x = false.
Proof.
  revert x0. induction tries as [|n IH]; intros x0 H1 H2; cbn [first_exponent].
  - rewrite Z.add_0_r in H2. done.
  - destruct (at_least_pow10 num den x0) eqn:E; [|done]. apply IH.
    + by replace (x0 + 1 - 1) with x0 by lia.
    + by replace (x0 + 1 + Z.of_nat n) with (x0 + Z.of_nat (S n)) by lia.
Qed.

Lemma first_exponent_range tries num den x0 :
  x0 ≤ first_exponent tries num den x0 ≤ x0 + Z.of_nat tries.
Proof.
  revert x0. induction tries as [|n IH]; intros x0; cbn [first_exponent]; [lia|].
  destruct (at_least_pow10 _ _ _); [|lia]. specialize (IH (x0 + 1)). lia.
Qed.

(** [10^3 < 2^10] and [2^93 < 10^28] bound the powers of ten by those of two. *)
Lemma pow10_le_pow2 a b : 0 ≤ a → 0 ≤ b → 10 * a ≤ 3 * b → 10 ^ a ≤ 2 ^ b.
Proof.
  intros Ha Hb H. apply (Z.pow_le_mono_l_iff _ _ 3); [apply Z.pow_nonneg; lia..|lia|].
  rewrite <-!Z.pow_mul_r, (Z.mul_comm a), (Z.mul_comm b), Z.pow_mul_r by lia.
  apply Z.le_trans with ((2 ^ 10) ^ a); [by apply Z.pow_le_mono_l|].
  rewrite <-Z.pow_mul_r by lia. apply Z.pow_le_mono_r; lia.
Qed.
Lemma pow2_le_pow10 a b : 0 ≤ a → 0 ≤ b → 28 * b ≤ 93 * a → 2 ^ b ≤ 10 ^ a.
Proof.
  intros Ha Hb H. apply (Z.pow_le_mono_l_iff _ _ 93); [apply Z.pow_nonneg; lia..|lia|].
  rewrite <-!Z.pow_mul_r, (Z.mul_comm a), (Z.mul_comm b), Z.pow_mul_r by lia.
  assert (H0 : 0 < 2 ^ 93 ≤ 10 ^ 28) by lia.
  apply Z.le_trans with ((10 ^ 28) ^ b); [apply Z.pow_le_mono_l; lia|].
  rewrite <-Z.pow_mul_r by lia. apply Z.pow_le_mono_r; lia.
Qed.

(** The estimate of the decimal exponent of the numbers between [2^(l-1)] and
    [2^(l+1)]. *)
Definition estimate (l : Z) : Z := l * 30103 / 100000 - 2.
Lemma estimate_bounds l : 30103 * l - 300000 < 100000 * estimate l ≤ 30103 * l - 200000.
Proof.
  unfold estimate. assert (H := Z.div_mod (l * 30103) 100000 ltac:(lia)).
  assert (H' := Z.mod_pos_bound (l * 30103) 100000 ltac:(lia)). lia.
Qed.
Lemma estimate_ok l : -2000 ≤ l ≤ 2000 →
  numerator 10 (estimate l - 1) * denominator 2 (l - 1) ≤ denominator 10 (estimate l - 1) * numerator 2 (l - 1) ∧
  numerator 2 (l + 1) * denominator 10 (estimate l + 6) ≤ denominator 2 (l + 1) * numerator 10 (estimate l + 6).
Proof.
  intros Hl. assert (He := estimate_bounds l). unfold numerator, denominator. set (x := estimate l) in *. clearbody x.
  assert (H10 : ∀ k, 0 < 10 ^ Z.max k 0) by (intros; apply Z.pow_pos_nonneg; lia).
  assert (H2 : ∀ k, 0 < 2 ^ Z.max k 0) by (intros; apply Z.pow_pos_nonneg; lia).
  split.
  - destruct (Z.le_gt_cases 1 l).
    + assert (10 ^ Z.max (x - 1) 0 ≤ 2 ^ Z.max (l - 1) 0) by (apply pow10_le_pow2; lia).
      rewrite (Z.max_r (- (l - 1)) 0) by lia. specialize (H10 (- (x - 1))). nia.
    + assert (2 ^ Z.max (- (l - 1)) 0 ≤ 10 ^ Z.max (- (x - 1)) 0) by (apply pow2_le_pow10; lia).
      rewrite (Z.max_r (x - 1) 0) by lia. specialize (H2 (l - 1)). nia.
  - destruct (Z.le_gt_cases (-1) l).
    + assert (2 ^ Z.max (l + 1) 0 ≤ 10 ^ Z.max (x + 6) 0) by (apply pow2_le_pow10; lia).
      rewrite (Z.max_r (- (x + 6)) 0) by lia. specialize (H2 (- (l + 1))). nia.
    + assert (10 ^ Z.max (- (x + 6)) 0 ≤ 2 ^ Z.max (- (l + 1)) 0) by (apply pow10_le_pow2; lia).
      rewrite (Z.max_r (l + 1) 0) by lia. specialize (H10 (x + 6)). nia.
Qed.

(** ** From the digits back to the number *)

Section digits.
Context (m : positive) (e : Z) (Hm : bounded m e = true).

Definition scaled_value : Z := 4 * Z.pos m * numerator 2 e.
Definition scale : Z := 4 * denominator 2 e.
Definition upper : Z := (4 * Z.pos m + 2) * numerator 2 e.
Definition lower : Z :=
  (if (Z.pos m =? 2 ^ 52) && (-1074 <? e) then 4 * Z.pos m - 1 else 4 * Z.pos m - 2) * numerator 2 e.
(** The decimals [d * 10^k] that round to the number. *)
Definition reads_back (d k : Z) : Prop := within (Z.even (Z.pos m)) lower upper scale d k.

Lemma interval_bounds : 0 < lower < scaled_value ∧ scaled_value < upper ∧ upper ≤ 2 * scaled_value.
Proof using Type.
  assert (Ha := numerator_pos 2 ltac:(done) e). unfold lower, scaled_value, upper.
  destruct (_ && _); nia.
Qed.

Lemma scale_pos : 0 < scale.
Proof using Type. unfold scale. assert (Hb := denominator_pos 2 ltac:(done) e). lia. Qed.

Lemma reads_back_positive d k : reads_back d k → 0 < d.
Proof using Type.
  unfold reads_back, within. assert (H1 := numerator_pos 10 ltac:(done) k). assert (H2 := denominator_pos 10 ltac:(done) k).
  assert (H3 := interval_bounds). assert (H4 := scale_pos).
  intros H. destruct (Z.lt_ge_cases 0 d) as [|Hd]; [done|]. exfalso.
  assert (d * numerator 10 k * scale ≤ 0) by nia. assert (0 < lower * denominator 10 k) by nia.
  destruct (Z.even (Z.pos m)); lia.
Qed.

Lemma reads_back_strip d k : reads_back d k → d mod 10 = 0 → reads_back (d / 10) (k + 1).
Proof using Type.
  unfold reads_back, within. intros H Hd.
  assert (E : d = 10 * (d / 10)) by (rewrite (Z.div_mod d 10) at 1; lia).
  set (d' := d / 10) in *. clearbody d'. subst d. assert (Hs := fraction_shift 10 k 1 ltac:(lia)).
  assert (H1 := denominator_pos 10 ltac:(done) k). assert (H2 := denominator_pos 10 ltac:(done) (k + 1)).
  rewrite Z.pow_1_r in Hs.
  assert (Hx : ∀ x, (x * denominator 10 k) * denominator 10 (k + 1) = (x * denominator 10 (k + 1)) * denominator 10 k) by (intros; ring).
  assert (Hy : (10 * d' * numerator 10 k * scale) * denominator 10 (k + 1) = (d' * numerator 10 (k + 1) * scale) * denominator 10 k).
  { replace (d' * numerator 10 (k + 1) * scale * denominator 10 k) with (d' * scale * (numerator 10 (k + 1) * denominator 10 k)) by ring.
    rewrite Hs. ring. }
  assert (Hle : ∀ x y x' y', x * denominator 10 (k + 1) = x' * denominator 10 k → y * denominator 10 (k + 1) = y' * denominator 10 k →
    (x ≤ y → x' ≤ y') ∧ (x < y → x' < y')) by (intros; nia).
  destruct (Z.even (Z.pos m)); destruct H as [Ha Hb]; split; eapply Hle; try eassumption; apply Hx || exact Hy.
Qed.

Lemma strip_zeros_reads_back fuel d k : reads_back d k →
  ∃ d' k', strip_zeros fuel d k = (d', k') ∧ reads_back d' k' ∧ d' ≤ d ∧ k ≤ k' ≤ k + Z.of_nat fuel.
Proof using Type.
  revert d k. induction fuel as [|fuel IH]; intros d k H; cbn [strip_zeros]; [exists d, k; do 2 (split; [done|]); lia|].
  destruct (0 <? d) eqn:E1, (d mod 10 =? 0) eqn:E2; cbn [andb];
    try (exists d, k; do 2 (split; [done|]); lia).
  apply Z.eqb_eq in E2. apply Z.ltb_lt in E1.
  destruct (IH (d / 10) (k + 1)) as (d' & k' & Heq & Hr & Hle & Hk); [by apply reads_back_strip|].
  exists d', k'. do 2 (split; [done|]). assert (d / 10 ≤ d) by (apply Z.div_le_upper_bound; lia). lia.
Qed.

Lemma round_decimal_sticky d k : 0 < d →
  round_decimal false d k =
    normalize (sticky (d * numerator 10 k * 2 ^ precision (d * numerator 10 k) (denominator 10 k)) (denominator 10 k))
      (- (precision (d * numerator 10 k) (denominator 10 k) + 1)).
Proof using Type.
  intros Hd. unfold round_decimal. rewrite (proj2 (Z.eqb_neq d 0)) by lia.
  assert ((if 0 <=? k then d * 10 ^ k else d) = d * numerator 10 k) as -> by (rewrite <-numerator_if; destruct (0 <=? k); ring).
  rewrite denominator_if. reflexivity.
Qed.

Lemma reads_back_rounds d k : reads_back d k → round_decimal false d k = S754_finite false m e.
Proof using Hm.
  intros H. assert (Hd := reads_back_positive d k H). rewrite round_decimal_sticky by done.
  assert (H1 := numerator_pos 10 ltac:(done) k). assert (H2 := denominator_pos 10 ltac:(done) k).
  unfold reads_back, within, lower, upper, scale in H.
  apply round_interval; [nia|done|done|..].
  - destruct (Z.even (Z.pos m)); lia.
  - destruct (_ && _), (Z.even (Z.pos m)); lia.
  - intros Ho. rewrite Ho in H. destruct ((Z.pos m =? 2 ^ 52) && _) eqn:E; [|lia].
    apply andb_true_iff in E as [E%Z.eqb_eq _]. rewrite E in Ho. discriminate Ho.
Qed.

(** The search for the shortest digits finds some. *)
Lemma decimal_exponent_spec :
  let x := decimal_exponent scaled_value scale in
  scale * numerator 10 (x - 1) ≤ scaled_value * denominator 10 (x - 1) ∧
  scaled_value * denominator 10 x < scale * numerator 10 x ∧ -2000 ≤ x ≤ 2000.
Proof using Hm.
  unfold decimal_exponent. set (l := Z.log2 scaled_value - Z.log2 scale).
  assert (Hv : 0 < scaled_value) by (destruct interval_bounds; lia). assert (Hs := scale_pos).
  assert (V := Z.log2_spec _ Hv). assert (S := Z.log2_spec _ Hs).
  rewrite Z.pow_succ_r in V, S by apply Z.log2_nonneg.
  assert (Hl : l = Z.log2 (Z.pos m) + e).
  { unfold l, scaled_value, scale, numerator, denominator. change 4 with (2 ^ 2).
    rewrite <-Z.pow_add_r by lia.
    replace (2 ^ 2 * Z.pos m * 2 ^ Z.max e 0) with (Z.pos m * 2 ^ (2 + Z.max e 0)) by (rewrite Z.pow_add_r by lia; ring).
    rewrite Z.log2_mul_pow2, Z.log2_pow2 by lia. lia. }
  assert (Hr : -2000 ≤ l ≤ 2000).
  { apply bounded_cases in Hm. assert (0 ≤ Z.log2 (Z.pos m)) by apply Z.log2_nonneg.
    assert (Z.log2 (Z.pos m) < 53) by (apply Z.log2_lt_pow2; lia). lia. }
  destruct (estimate_ok l Hr) as [E1 E2].
  assert (P2 : ∀ k, 0 < numerator 2 k ∧ 0 < denominator 2 k) by (intros; split; [by apply numerator_pos|by apply denominator_pos]).
  assert (P10 : ∀ k, 0 < numerator 10 k ∧ 0 < denominator 10 k) by (intros; split; [by apply numerator_pos|by apply denominator_pos]).
  assert (0 ≤ Z.log2 scale ∧ 0 ≤ Z.log2 scaled_value) as [L1 L2] by (split; apply Z.log2_nonneg).
  assert (Hlow : scale * numerator 2 (l - 1) ≤ scaled_value * denominator 2 (l - 1)).
  { assert (F := fraction_scale 2 (l - 1) (Z.log2 scale + 1)).
    replace (l - 1 + (Z.log2 scale + 1)) with (Z.log2 scaled_value) in F by lia.
    specialize (F ltac:(lia) ltac:(lia)). rewrite Z.pow_add_r, Z.pow_1_r in F by lia.
    destruct (P2 (l - 1)). nia. }
  assert (Hhigh : scaled_value * denominator 2 (l + 1) < scale * numerator 2 (l + 1)).
  { assert (F := fraction_scale 2 (l + 1) (Z.log2 scale)).
    replace (l + 1 + Z.log2 scale) with (Z.log2 scaled_value + 1) in F by lia.
    specialize (F ltac:(lia) ltac:(lia)). rewrite (Z.pow_add_r _ _ 1), Z.pow_1_r in F by lia.
    destruct (P2 (l + 1)). nia. }
  destruct (first_exponent_spec 6 scaled_value scale (estimate l)) as [X1 X2].
  - rewrite at_least_pow10_eq. apply Z.leb_le. destruct (P2 (l - 1)), (P10 (estimate l - 1)).
    apply (Z.mul_le_mono_pos_r _ _ (denominator 2 (l - 1))); [done|]. nia.
  - rewrite at_least_pow10_eq. apply Z.leb_gt. change (Z.of_nat 6) with 6. destruct (P2 (l + 1)), (P10 (estimate l + 6)).
    apply (Z.mul_lt_mono_pos_r (denominator 2 (l + 1))); [done|]. nia.
  - rewrite at_least_pow10_eq in X1, X2. apply Z.leb_le in X1. apply Z.leb_gt in X2.
    do 2 (split; [done|]). assert (H := estimate_bounds l).
    assert (Hx := first_exponent_range 6 scaled_value scale (estimate l)). unfold estimate in *. lia.
Qed.

Lemma shortest_decimal_ok :
  ∃ d k, shortest_decimal m e = (d, k) ∧ reads_back d k ∧ d < 10 ^ 20 ∧ -3000 ≤ k ≤ 3000.
Proof using Hm.
  unfold shortest_decimal.
  assert ((if 0 <=? e then 2 ^ e else 1) = numerator 2 e) as -> by apply numerator_if.
  assert ((if 0 <=? e then 4 else 4 * 2 ^ (- e)) = scale) as -> by (unfold scale; rewrite <-denominator_if; by destruct (0 <=? e)).
  fold scaled_value upper lower. set (x := decimal_exponent scaled_value scale).
  destruct decimal_exponent_spec as (X1 & X2 & X3). fold x in X1, X2, X3.
  destruct interval_bounds as (B1 & B2 & B3). assert (Hs := scale_pos).
  assert (P10 : ∀ k, 0 < numerator 10 k ∧ 0 < denominator 10 k) by (intros; split; [by apply numerator_pos|by apply denominator_pos]).
  destruct (shortest_within 17 (Z.even (Z.pos m)) scaled_value lower upper scale x (x - 1)) as (d & k & Heq & Hin & Hk).
  - exists 16%nat. split; [lia|]. change (Z.of_nat 16) with 16. replace (x - 1 - 16) with (x - 17) by lia.
    apply digits_at_found; [done|lia|].
    assert (F := fraction_shift 10 (x - 17) 16 ltac:(lia)). replace (x - 17 + 16) with (x - 1) in F by lia.
    destruct (P10 (x - 17)), (P10 (x - 1)).
    (* the interval is wider than 10^-16 of the number *)
    assert (W : scaled_value < 10 ^ 16 * (upper - lower)).
    { assert (Ha := numerator_pos 2 ltac:(done) e). apply bounded_cases in Hm. unfold upper, lower, scaled_value.
      destruct ((Z.pos m =? 2 ^ 52) && _) eqn:E; [apply andb_true_iff in E as [E%Z.eqb_eq _]; rewrite E|]; nia. }
    apply (Z.mul_lt_mono_pos_r (10 ^ 16 * denominator 10 (x - 1))); [lia|].
    replace (scale * numerator 10 (x - 17) * (10 ^ 16 * denominator 10 (x - 1)))
      with (scale * (10 ^ 16 * numerator 10 (x - 17) * denominator 10 (x - 1))) by ring.
    rewrite <-F. apply Z.le_lt_trans with (scaled_value * denominator 10 (x - 1) * denominator 10 (x - 17)).
    + rewrite Z.mul_assoc. apply Z.mul_le_mono_nonneg_r; [lia|done].
    + replace ((upper - lower) * denominator 10 (x - 17) * (10 ^ 16 * denominator 10 (x - 1)))
        with (10 ^ 16 * (upper - lower) * denominator 10 (x - 1) * denominator 10 (x - 17)) by ring.
      rewrite <-!(Z.mul_assoc _ (denominator 10 (x - 1))). apply Z.mul_lt_mono_pos_r; [|done].
      by apply Z.mul_pos_pos.
  - exists d, k. split; [done|]. split; [done|].
    assert (F := fraction_shift 10 k (x - k) ltac:(lia)). replace (k + (x - k)) with x in F by lia.
    destruct (P10 k), (P10 x).
    assert (D : d * numerator 10 k * scale ≤ 2 * scaled_value * denominator 10 k).
    { unfold within in Hin. destruct (Z.even (Z.pos m)); nia. }
    assert (Hp : 10 ^ (x - k) ≤ 10 ^ 17) by (apply Z.pow_le_mono_r; lia).
    set (p := 10 ^ (x - k)) in *. clearbody p. 
    assert (D2 : d * (numerator 10 k * scale * denominator 10 x) < 2 * p * (numerator 10 k * scale * denominator 10 x)).
    { replace (2 * p * (numerator 10 k * scale * denominator 10 x)) with (2 * scale * (p * numerator 10 k * denominator 10 x)) by ring.
      rewrite <-F. nia. }
    apply Z.mul_lt_mono_pos_r in D2; [|nia]. split; lia.
Qed.
End digits.

(** ** The text of a number *)

Notation digits := (all_chars is_digit).

Lemma take_digits_before a r : digits a = true →
  (∀ c s, r = String c s → is_digit c = false) → take_digits (a +:+ r) = (a, r).
Proof.
  intros Ha Hr. induction a as [|c a IH].
  - rewrite string_app_nil_l. destruct r as [|c r]; [done|]. cbn. by rewrite (Hr c r).
  - cbn in Ha. apply andb_true_iff in Ha as [Hc Ha]. rewrite string_app_cons. cbn. by rewrite Hc, (IH Ha).
Qed.

(** The exponent as it is printed. *)
Definition exponent_text (x : option Z) : string :=
  match x with
  | None => ""
  | Some n => "e" +:+ (if 0 <? n then "+" else "") +:+ Sprint n
  end.
Definition exponent_small (x : option Z) : Prop :=
  match x with None => True | Some n => n ≠ 0 ∧ - 10 ^ 20 < n < 10 ^ 20 end.

Lemma exponent_parts n : exponent_small (Some n) →
  ∃ sign ds, exponent_text (Some n) = String "e" (sign +:+ ds) ∧ digits ds = true ∧ ds ≠ "" ∧
    scan_sign (sign +:+ ds) = (sign, ds) ∧ digits_value 10 ds 0 = Some (Z.abs n) ∧
    bool_decide (sign = "-") = (n <? 0).
Proof.
  intros [Hne Hn]. unfold exponent_text, Sprint.
  destruct (decimal_digits_spec 20 (Z.abs n)) as (H1 & H2 & H3 & _); [lia|lia|].
  destruct (Z.ltb_spec n 0).
  - rewrite (proj2 (Z.ltb_ge 0 n)) by lia. replace (- n) with (Z.abs n) by lia.
    by exists "-", (decimal_digits 20 (Z.abs n) "").
  - rewrite (proj2 (Z.ltb_lt 0 n)) by lia. replace n with (Z.abs n) by lia.
    replace (Z.abs (Z.abs n)) with (Z.abs n) by lia. by exists "+", (decimal_digits 20 (Z.abs n) "").
Qed.

Definition number_text (whole fraction : string) (x : option Z) : string :=
  whole +:+ (if is_empty fraction then "" else "." +:+ fraction) +:+ exponent_text x.

Lemma digits_head whole r : digits whole = true → whole ≠ "" →
  ∃ c t, whole +:+ r = String c t ∧ is_digit c = true.
Proof.
  destruct whole as [|c t]; [done|]. intros [Hc _]%andb_true_iff _. by exists c, (t +:+ r).
Qed.

Lemma exponent_text_stops x c s : exponent_small x → exponent_text x = String c s → c = "e"%char.
Proof. intros Hx. destruct x as [n|]; [|done]. by intros [= <- _]. Qed.

Section number_text.
Context (whole fraction : string) (x : option Z).
Context (Hw : digits whole = true) (Hne : whole ≠ "") (Hz : ∀ r, whole = String "0" r → r = "").
Context (Hf : digits fraction = true) (Hx : exponent_small x).

Lemma take_whole : take_digits (number_text whole fraction x) = (whole, (if is_empty fraction then "" else "." +:+ fraction) +:+ exponent_text x).
Proof using Hw Hx.
  apply take_digits_before; [done|]. intros c s. destruct (is_empty fraction).
  - rewrite string_app_nil_l. intros H. by rewrite (exponent_text_stops _ _ _ Hx H).
  - by intros [= <- _].
Qed.

Lemma take_fraction : take_digits (fraction +:+ exponent_text x) = (fraction, exponent_text x).
Proof using Hf Hx.
  apply take_digits_before; [done|]. intros c s H. by rewrite (exponent_text_stops _ _ _ Hx H).
Qed.

Lemma number_text_scans : is_number (number_text whole fraction x) = true.
Proof using Hw Hne Hz Hf Hx.
  apply bool_decide_eq_true_2. unfold scan_number.
  destruct (digits_head whole ((if is_empty fraction then "" else "." +:+ fraction) +:+ exponent_text x) Hw Hne)
    as (c & t & Ht & Hc).
  assert (Hm : match number_text whole fraction x with String "-" r => ("-", r) | _ => ("", number_text whole fraction x) end
    = ("", number_text whole fraction x)).
  { unfold number_text. rewrite Ht. destruct c as [[] [] [] [] [] [] [] []]; done. }
  rewrite Hm.
  assert (Hi : scan_integer (number_text whole fraction x) = Some (whole, (if is_empty fraction then "" else "." +:+ fraction) +:+ exponent_text x)).
  { assert (Ht' := take_whole). unfold number_text in *. clear Hm.
    destruct whole as [|d w]; [done|]. rewrite string_app_cons in *.
    destruct (decide (d = "0"%char)) as [->|Hd].
    - rewrite (Hz w eq_refl), string_app_nil_l. reflexivity.
    - unfold scan_integer. rewrite Ht'. destruct d as [[] [] [] [] [] [] [] []]; done. }
  rewrite Hi. cbn [mbind option_bind].
  assert (Hfr : scan_fraction ((if is_empty fraction then "" else "." +:+ fraction) +:+ exponent_text x)
    = Some ((if is_empty fraction then "" else "." +:+ fraction), exponent_text x)).
  { destruct (is_empty fraction) eqn:E.
    - rewrite string_app_nil_l. destruct x as [n|]; reflexivity.
    - change (("." +:+ fraction) +:+ exponent_text x) with (String "." (fraction +:+ exponent_text x)).
      unfold scan_fraction. rewrite take_fraction. by destruct fraction. }
  rewrite Hfr. cbn [mbind option_bind].
  assert (He : scan_exponent (exponent_text x) = Some (exponent_text x, "")).
  { destruct x as [n|]; [|reflexivity]. destruct (exponent_parts n Hx) as (sign & ds & -> & Hd & Hdn & Hs & _).
    cbn [scan_exponent]. change (bool_decide ("e"%char = "e"%char) || _) with true. cbv iota. rewrite Hs.
    rewrite take_digits_all by done. destruct ds; [done|]. reflexivity. }
  rewrite He. cbn [mbind option_bind]. unfold number_text. rewrite !string_app_nil_l, ?string_app_assoc. done.
Qed.

Lemma ParseFloat_number_text v :
  digits_value 10 (whole +:+ fraction) 0 = Some v →
  ParseFloat (number_text whole fraction x) =
    match round_decimal false v (default 0 x - slen fraction) with S754_infinity _ => None | f => Some f end.
Proof using Hw Hne Hf Hx.
  intros Hv. unfold ParseFloat.
  destruct (digits_head whole ((if is_empty fraction then "" else "." +:+ fraction) +:+ exponent_text x) Hw Hne)
    as (c & t & Ht & Hc).
  assert (Hm : match number_text whole fraction x with String "-" r => (true, r) | _ => (false, number_text whole fraction x) end
    = (false, number_text whole fraction x)).
  { unfold number_text. rewrite Ht. destruct c as [[] [] [] [] [] [] [] []]; done. }
  rewrite Hm, take_whole.
  assert (Hfr : match (if is_empty fraction then "" else "." +:+ fraction) +:+ exponent_text x with
                | String "." r => take_digits r
                | _ => ("", (if is_empty fraction then "" else "." +:+ fraction) +:+ exponent_text x)
                end = (fraction, exponent_text x)).
  { destruct (is_empty fraction) eqn:E; [|exact take_fraction].
    apply bool_decide_eq_true_1 in E. rewrite string_app_nil_l, E. by destruct x as [n|]. }
  rewrite Hfr, Hv.
  assert (He : match exponent_text x with
               | String _ r => let '(sign, ds) := scan_sign r in
                 let n := default 0 (digits_value 10 ds 0) in if bool_decide (sign = "-") then - n else n
               | EmptyString => 0
               end = default 0 x).
  { destruct x as [n|]; [|reflexivity]. destruct (exponent_parts n Hx) as (sign & ds & -> & Hd & Hdn & Hs & Hdv & Hsg).
    rewrite Hs, Hdv, Hsg. cbn. destruct (Z.ltb_spec n 0); lia. }
  cbv zeta in He |- *. rewrite He. reflexivity.
Qed.
End number_text.

(** ** Printing and reading a positive number *)

Lemma stake_sdrop n s : stake n s +:+ sdrop n s = s.
Proof. revert s. induction n as [|n IH]; intros [|c s]; try done. cbn. rewrite string_app_cons. by rewrite IH. Qed.
Lemma stake_digits n s : digits s = true → digits (stake n s) = true ∧ digits (sdrop n s) = true.
Proof. intros H. rewrite <-(stake_sdrop n s), all_chars_app in H. by apply andb_true_iff in H. Qed.
Lemma slen_sdrop n s : slen (sdrop n s) = Z.max 0 (slen s - Z.of_nat n).
Proof. unfold slen. rewrite sdrop_length. lia. Qed.
Lemma stake_head n s r : stake n s = String "0" r → ∃ r', s = String "0" r'.
Proof. destruct n as [|n], s as [|c s]; try done. cbn. intros [= -> _]. by exists s. Qed.

Lemma zeros_digits n : digits (zeros n) = true.
Proof. by induction n. Qed.
Lemma zeros_length n : slen (zeros n) = Z.of_nat n.
Proof. unfold slen. f_equal. induction n as [|n IH]; cbn; congruence. Qed.
Lemma zeros_value n s acc : digits_value 10 (zeros n +:+ s) acc = digits_value 10 s (acc * 10 ^ Z.of_nat n).
Proof.
  revert acc. induction n as [|n IH]; intros acc; [by rewrite string_app_nil_l, Z.mul_1_r|].
  cbn [zeros]. rewrite string_app_cons. cbn [digits_value]. change (digit_value 10 "0"%char) with (Some 0).
  cbv iota. rewrite IH, Nat2Z.inj_succ, Z.pow_succ_r by lia. f_equal. ring.
Qed.
Lemma zeros_value_end n acc : digits_value 10 (zeros n) acc = Some (acc * 10 ^ Z.of_nat n).
Proof. by rewrite <-(string_app_nil_r (zeros n)), zeros_value. Qed.

Definition float_of_decimal (d k : Z) : option spec_float :=
  match round_decimal false d k with S754_infinity _ => None | f => Some f end.
Definition reads_decimal (text : string) (d k : Z) : Prop :=
  is_number text = true ∧ ParseFloat text = float_of_decimal d k.

Lemma reads_number_text whole fraction x v d k :
  digits whole = true → whole ≠ "" → (∀ r, whole = String "0" r → r = "") → digits fraction = true →
  exponent_small x → digits_value 10 (whole +:+ fraction) 0 = Some v →
  round_decimal false v (default 0 x - slen fraction) = round_decimal false d k →
  reads_decimal (number_text whole fraction x) d k.
Proof.
  intros Hw Hne Hz Hf Hx Hv Hr. split; [by apply number_text_scans|].
  rewrite (ParseFloat_number_text whole fraction x Hw Hne Hf Hx v Hv), Hr. done.
Qed.

Lemma decimal_digits_length fuel n acc : slen (decimal_digits fuel n acc) ≤ Z.of_nat fuel + slen acc.
Proof.
  revert n acc. induction fuel as [|fuel IH]; intros n acc; cbn [decimal_digits]; [lia|].
  destruct (n <? 10); [unfold slen; cbn [String.length]; lia|].
  etrans; [apply IH|]. unfold slen. cbn [String.length]. lia.
Qed.

(** The four layouts of the digits [t] of [d], with the decimal point after [point]
    digits. *)
Section layouts.
Context (d k : Z) (t : string) (Hd : 0 < d) (Hv : digits_value 10 t 0 = Some d) (Hdig : digits t = true).
Context (Hne : t ≠ "") (Hz : ∀ r, t ≠ String "0" r).

Lemma head_not_zero i r : stake i t = String "0" r → r = "".
Proof using Hz. intros H. apply stake_head in H as [r' H]. by destruct (Hz r'). Qed.
Lemma head_nonempty i : (0 < i)%nat → stake i t ≠ "".
Proof using Hne. intros Hi H. apply Hne. destruct i as [|i]; [lia|]. revert H. by case t. Qed.
Lemma parts_value i : digits_value 10 (stake i t +:+ sdrop i t) 0 = Some d.
Proof using Hv. by rewrite stake_sdrop. Qed.

Lemma scientific_reads : slen t ≤ 20 → -4000 ≤ k ≤ 4000 → slen t + k - 1 ≠ 0 →
  reads_decimal
    (stake 1 t +:+ (if 1 <? slen t then "." +:+ sdrop 1 t else "") +:+ "e"
      +:+ (if 0 <? slen t + k - 1 then "+" else "") +:+ Sprint (slen t + k - 1)) d k.
Proof using Hv Hdig Hne Hz.
  intros Hn Hk Hp. set (p := slen t + k - 1) in *.
  assert (Hpos : 0 < slen t) by (destruct t; [done|]; unfold slen; cbn [String.length]; lia).
  assert (Hl : slen (sdrop 1 t) = slen t - 1) by (rewrite slen_sdrop; lia).
  replace (if 1 <? slen t then "." +:+ sdrop 1 t else "")
    with (if is_empty (sdrop 1 t) then "" else "." +:+ sdrop 1 t).
  2:{ unfold is_empty. destruct (Z.ltb_spec 1 (slen t)).
      - rewrite bool_decide_eq_false_2; [done|]. intros H0. rewrite H0 in Hl. change (slen "") with 0 in Hl. lia.
      - rewrite bool_decide_eq_true_2; [done|]. destruct (sdrop 1 t); [done|]. unfold slen in *. cbn in Hl. lia. }
  apply (reads_number_text _ _ (Some p) d); [|apply head_nonempty; lia|apply head_not_zero| |split; lia|apply parts_value|].
  - by apply stake_digits.
  - by apply stake_digits.
  - f_equal. cbn [default]. unfold default, id. lia.
Qed.

Lemma small_reads : slen t + k ≤ 0 → reads_decimal ("0." +:+ zeros (Z.to_nat (- (slen t + k))) +:+ t) d k.
Proof using Hv Hdig Hne.
  intros Hp. set (z := Z.to_nat (- (slen t + k))).
  replace ("0." +:+ zeros z +:+ t) with (number_text "0" (zeros z +:+ t) None).
  2:{ unfold number_text. assert (is_empty (zeros z +:+ t) = false) as ->.
      { apply bool_decide_eq_false_2. destruct (zeros z); [by rewrite string_app_nil_l|done]. }
      cbn [exponent_text]. by rewrite string_app_nil_r. }
  apply (reads_number_text _ _ _ d); [done|done|by intros r [= <-]| |done| |].
  - by rewrite all_chars_app, zeros_digits, Hdig.
  - change ("0" +:+ zeros z +:+ t) with (zeros (S z) +:+ t). by rewrite zeros_value.
  - f_equal. cbn [default]. assert (Hzl := zeros_length z). unfold slen in *. rewrite string_length_app. lia.
Qed.

Lemma whole_reads : 0 ≤ k → reads_decimal (t +:+ zeros (Z.to_nat k)) d k.
Proof using Hd Hv Hdig Hne Hz.
  intros Hk. replace (t +:+ zeros (Z.to_nat k)) with (number_text (t +:+ zeros (Z.to_nat k)) "" None).
  2:{ unfold number_text. cbn [exponent_text]. change (is_empty "") with true. cbv iota. by rewrite !string_app_nil_r. }
  apply (reads_number_text _ _ _ (d * 10 ^ k)); [..|done|done| |].
  - by rewrite all_chars_app, zeros_digits, Hdig.
  - by destruct t.
  - intros r. destruct t as [|c t']; [done|]. intros [= -> _]. by destruct (Hz t').
  - rewrite string_app_nil_r, (digits_value_app _ _ _ _ _ Hv), zeros_value_end. do 3 f_equal. lia.
  - cbn [default]. change (0 - slen "") with 0. rewrite !round_decimal_sticky by nia.
    assert (numerator 10 0 = 1 ∧ denominator 10 0 = 1) as [-> ->] by done.
    unfold numerator, denominator. rewrite Z.max_l, Z.max_r by lia. by rewrite Z.mul_1_r.
Qed.

Lemma pointed_reads : 0 < slen t + k < slen t →
  reads_decimal (stake (Z.to_nat (slen t + k)) t +:+ "." +:+ sdrop (Z.to_nat (slen t + k)) t) d k.
Proof using Hv Hdig Hne Hz.
  intros Hp. set (i := Z.to_nat (slen t + k)).
  assert (Hl : slen (sdrop i t) = - k) by (rewrite slen_sdrop; lia).
  replace (stake i t +:+ "." +:+ sdrop i t) with (number_text (stake i t) (sdrop i t) None).
  2:{ unfold number_text. assert (is_empty (sdrop i t) = false) as ->.
      { apply bool_decide_eq_false_2. intros H. rewrite H in Hl. change (slen "") with 0 in Hl. lia. }
      cbn [exponent_text]. by rewrite string_app_nil_r. }
  apply (reads_number_text _ _ _ d); [|apply head_nonempty; lia|apply head_not_zero| |done|apply parts_value|].
  - by apply stake_digits.
  - by apply stake_digits.
  - f_equal. cbn [default]. lia.
Qed.
End layouts.

Lemma format_decimal_reads d0 k0 d k :
  strip_zeros 20 d0 k0 = (d, k) → 0 < d < 10 ^ 20 → -4000 ≤ k ≤ 4000 →
  reads_decimal (format_decimal d0 k0) d k.
Proof.
  intros Hs Hd Hk. unfold format_decimal. rewrite Hs.
  destruct (decimal_digits_spec 20 d) as (Hv & Hdig & Hne & Hlead & _); [lia|lia|].
  assert (Hlen := decimal_digits_length 20 d ""). change (Z.of_nat 20 + slen "") with 20 in Hlen.
  assert (Sprint d = decimal_digits 20 d "") as -> by (unfold Sprint; by rewrite (proj2 (Z.ltb_ge d 0)) by lia).
  set (t := decimal_digits 20 d "") in *. clearbody t.
  change (Z.of_nat (String.length t)) with (slen t).
  assert (Hz : ∀ r, t ≠ String "0" r) by (intros r ->; specialize (Hlead r eq_refl); lia).
  destruct (_ || _) eqn:E1; [|destruct (_ <=? 0) eqn:E2; [|destruct (slen t <=? _) eqn:E3]].
  - apply scientific_reads; try done. apply orb_true_iff in E1. rewrite !Z.ltb_lt in E1. lia.
  - apply small_reads; try done. by apply Z.leb_le.
  - apply Z.leb_le in E3. replace (slen t + k - slen t) with k by lia. apply whole_reads; try done; lia.
  - apply Z.leb_gt in E2, E3. apply pointed_reads; done.
Qed.

(** A positive binary64 is read back from its text. *)
Theorem format_float_reads m e :
  bounded m e = true →
  ∃ t, format_float (S754_finite false m e) = Some t ∧ is_number t = true ∧
       ParseFloat t = Some (S754_finite false m e).
Proof.
  intros Hm. unfold format_float. destruct (shortest_decimal_ok m e Hm) as (d0 & k0 & -> & Hr0 & Hd0 & Hk0).
  destruct (strip_zeros_reads_back m e 20 d0 k0 Hr0) as (d & k & Hs & Hr & Hd & Hk).
  assert (Hpos := reads_back_positive m e d k Hr).
  destruct (format_decimal_reads d0 k0 d k Hs) as [Hn Hp]; [lia|lia|].
  eexists. split; [reflexivity|]. rewrite string_app_nil_l. split; [done|].
  rewrite Hp. unfold float_of_decimal. by rewrite (reads_back_rounds m e Hm d k Hr).
Qed.

(** ** Rounding yields a canonical number *)

(** A mantissa at its own exponent, or one carry above it, comes out canonical. *)
Lemma second_shift_canonical R e m e' :
  0 ≤ R ≤ 2 ^ 53 → -1074 ≤ e → (e ≠ -1074 → 2 ^ 52 ≤ R) →
  (let '(mrs, e'') := shr_fexp 53 1024 R e loc_Exact in
   match shr_m mrs with
   | Z0 => S754_zero false
   | Z.pos p => if e'' <=? 971 then S754_finite false p e'' else S754_infinity false
   | Z.neg _ => S754_nan
   end) = S754_finite false m e' → bounded m e' = true.
Proof.
  intros HR He Hlow. destruct (decide (R = 2 ^ 53)) as [->|HR'].
  - unfold shr_fexp. change (Zdigits2 (2 ^ 53)) with 54. rewrite fexp_eq.
    replace (_ - e) with 1 by lia.
    change (shr (shr_record_of_loc (2 ^ 53) loc_Exact) e 1)
      with ({| shr_m := 2 ^ 52; shr_r := false; shr_s := false |}, e + 1).
    cbn [shr_m]. change (2 ^ 52) with (Z.pos (2 ^ 52)%positive).
    destruct (Z.leb_spec (e + 1) 971); [|done]. intros [= <- <-]. apply bounded_cases. left. split; [done|lia].
  - unfold shr_fexp. destruct R as [|p|p]; [|..|lia].
    + unfold shr. destruct (_ - e) as [|n|n]; [done| |done].
      change (shr_record_of_loc 0 loc_Exact) with (exact_record 0). rewrite iter_pos_nat.
      destruct (Pos.to_nat n) as [|k]; [done|]. rewrite shift_right by lia. cbn [shr_m]. by rewrite Z.div_0_l by lia.
    + cbn [Zdigits2]. assert (Hc : fexp (Z.pos (digits2_pos p) + e) = e).
      { rewrite fexp_eq, digits2_log2. assert (Z.log2 (Z.pos p) < 53) by (apply Z.log2_lt_pow2; lia).
        destruct (decide (e = -1074)) as [->|Hne]; [lia|].
        assert (52 ≤ Z.log2 (Z.pos p)) by (apply Z.log2_le_pow2; [lia|by apply Hlow]). lia. }
      rewrite Hc, Z.sub_diag. cbn [shr shr_m shr_record_of_loc].
      destruct (Z.leb_spec e 971); [|done]. intros [= <- <-].
      unfold SpecFloat.bounded, canonical_mantissa. by rewrite Hc, Z.eqb_refl, (proj2 (Z.leb_le _ _)).
Qed.

Lemma rounds_up_or_down q n :
  0 ≤ q → let mrs := iter_pos shr_1 n (exact_record q) in
  let R := round_nearest_even (shr_m mrs) (loc_of_shr_record mrs) in
  q / 2 ^ Z.pos n ≤ R ≤ q / 2 ^ Z.pos n + 1.
Proof.
  intros Hq. cbv zeta. rewrite iter_pos_nat. destruct (Pos.to_nat n) as [|k] eqn:Ek; [lia|].
  rewrite shift_right by done. cbn [shr_m].
  replace (2 * 2 ^ Z.of_nat k) with (2 ^ Z.pos n) by (rewrite <-Z.pow_succ_r by lia; f_equal; lia).
  destruct (Z.odd _), (negb _); cbn [loc_of_shr_record round_nearest_even]; try lia. destruct (Z.even _); lia.
Qed.

Lemma normalize_bounded q ex m e :
  normalize (Z.pos q) ex = S754_finite false m e → bounded m e = true.
Proof.
  unfold binary_normalize, binary_round. rewrite digits2_log2.
  set (e1 := fexp (Z.log2 (Z.pos q) + 1 + ex)).
  assert (Hl := Z.log2_spec (Z.pos q) ltac:(lia)). assert (Hn := Z.log2_nonneg (Z.pos q)).
  rewrite Z.pow_succ_r in Hl by done.
  (* the mantissa [mz] at [ez], not above its exponent *)
  assert (Hgen : ∀ mz ez, fexp (Z.log2 (Z.pos mz) + 1 + ez) = e1 → ez ≤ e1 →
    binary_round_aux 53 1024 false (Z.pos mz) ez loc_Exact = S754_finite false m e → bounded m e = true).
  { clear Hl Hn. intros mz ez Hf Hle. unfold binary_round_aux, shr_fexp at 1. cbn [Zdigits2]. rewrite digits2_log2, Hf.
    assert (Hl := Z.log2_spec (Z.pos mz) ltac:(lia)). assert (Hn := Z.log2_nonneg (Z.pos mz)).
    rewrite fexp_eq in Hf.
    destruct (e1 - ez) as [|n|n] eqn:En; [| |lia]; cbn [shr shr_record_of_loc].
    - cbn [loc_of_shr_record round_nearest_even shr_m]. intros H. rewrite Z.pow_succ_r in Hl by done.
      eapply second_shift_canonical; [..|exact H].
      + assert (2 ^ Z.log2 (Z.pos mz) ≤ 2 ^ 52) by (apply Z.pow_le_mono_r; lia). lia.
      + lia.
      + intros Hne. assert (2 ^ 52 ≤ 2 ^ Z.log2 (Z.pos mz)) by (apply Z.pow_le_mono_r; lia). lia.
    - change {| shr_m := Z.pos mz; shr_r := false; shr_s := false |} with (exact_record (Z.pos mz)).
      assert (Hr := rounds_up_or_down (Z.pos mz) n ltac:(lia)). cbv zeta in Hr.
      set (R := round_nearest_even _ _) in *. replace (ez + Z.pos n) with e1 by lia. intros H.
      eapply second_shift_canonical; [..|exact H].
      + assert (Hdiv : Z.pos mz / 2 ^ Z.pos n < 2 ^ 53).
        { apply Z.div_lt_upper_bound; [lia|]. rewrite <-Z.pow_add_r by lia.
          apply Z.lt_le_trans with (2 ^ Z.succ (Z.log2 (Z.pos mz))); [lia|]. apply Z.pow_le_mono_r; lia. }
        assert (0 ≤ Z.pos mz / 2 ^ Z.pos n) by (apply Z.div_pos; lia). lia.
      + lia.
      + intros Hne. assert (2 ^ 52 ≤ Z.pos mz / 2 ^ Z.pos n); [|lia].
        apply Z.div_le_lower_bound; [lia|]. rewrite <-Z.pow_add_r by lia.
        apply Z.le_trans with (2 ^ Z.log2 (Z.pos mz)); [|lia]. apply Z.pow_le_mono_r; lia. }
  unfold shl_align. destruct (e1 - ex) as [|n|n] eqn:En.
  - apply Hgen; [done|lia].
  - apply Hgen; [done|lia].
  - apply Hgen; [|lia].
    change (Pos.iter xO q n) with (Pos.shiftl q (N.pos n)).
    assert (Hs : Z.pos (Pos.shiftl q (N.pos n)) = Z.pos q * 2 ^ Z.pos n).
    { rewrite <-Z.shiftl_mul_pow2 by lia. by apply (Pos.iter_swap_gen _ _ Z.pos xO (Z.mul 2)). }
    rewrite Hs, Z.log2_mul_pow2 by lia. unfold e1. f_equal. lia.
Qed.

Lemma binary_normalize_bounded z ex s m e :
  binary_normalize 53 1024 z ex s = S754_finite false m e → bounded m e = true.
Proof.
  destruct z as [|q|q]; [done|exact (normalize_bounded q ex m e)|].
  unfold binary_normalize, binary_round, binary_round_aux. repeat case_match; done.
Qed.

(** What [strconv.ParseFloat] yields is canonical. *)
Lemma round_decimal_bounded negative d k m e :
  round_decimal negative d k = S754_finite false m e → bounded m e = true.
Proof. unfold round_decimal. destruct (d =? 0); [done|]. apply binary_normalize_bounded. Qed.
