(* ===== verification/Sha256.v ===== *)
(** * SHA-256 ([crypto/sha256])

    The code stores [hex.EncodeToString(sha256.Sum256(bytes))] of consent texts,
    invitation tokens, redaction documents and release files.  The digest is a
    computable function here (FIPS 180-4), so a stored hash can be checked by
    evaluation. *)

From S2P Require Import Prelude.

Local Open Scope N_scope.

Definition mask32 (x : N) : N := N.land x 4294967295.
Definition add32 (x y : N) : N := mask32 (x + y).
Definition rotr (n x : N) : N := N.lor (N.shiftr x n) (mask32 (N.shiftl x (32 - n))).
Definition not32 (x : N) : N := N.lxor x 4294967295.

Definition round_constants : list N :=
  [1116352408; 1899447441; 3049323471; 3921009573; 961987163; 1508970993; 2453635748;
   2870763221; 3624381080; 310598401; 607225278; 1426881987; 1925078388; 2162078206;
   2614888103; 3248222580; 3835390401; 4022224774; 264347078; 604807628; 770255983;
   1249150122; 1555081692; 1996064986; 2554220882; 2821834349; 2952996808; 3210313671;
   3336571891; 3584528711; 113926993; 338241895; 666307205; 773529912; 1294757372;
   1396182291; 1695183700; 1986661051; 2177026350; 2456956037; 2730485921; 2820302411;
   3259730800; 3345764771; 3516065817; 3600352804; 4094571909; 275423344; 430227734;
   506948616; 659060556; 883997877; 958139571; 1322822218; 1537002063; 1747873779;
   1955562222; 2024104815; 2227730452; 2361852424; 2428436474; 2756734187; 3204031479;
   3329325298].

Definition initial_state : list N :=
  [1779033703; 3144134277; 1013904242; 2773480762; 1359893119; 2600822924; 528734635;
   1541459225].

Definition string_bytes (s : string) : list N := map N_of_ascii (String.list_ascii_of_string s).

Fixpoint be_bytes (n : nat) (x : N) : list N :=
  match n with
  | O => []
  | S n' => be_bytes n' (x / 256) ++ [x mod 256]
  end.

(** Message, the bit 1, zeros up to 56 modulo 64, and the bit length. *)
Definition pad (m : list N) : list N :=
  let len := N.of_nat (length m) in
  let zeros := N.to_nat ((119 - len mod 64) mod 64) in
  m ++ [128] ++ repeat 0 zeros ++ be_bytes 8 (8 * len).

Fixpoint words (l : list N) : list N :=
  match l with
  | a :: b :: c :: d :: l' => (a * 16777216 + b * 65536 + c * 256 + d) :: words l'
  | _ => []
  end.

(** The message schedule, most recent word first. *)
Fixpoint schedule (n : nat) (rw : list N) : list N :=
  match n with
  | O => rw
  | S n' =>
    let w15 := nth 14 rw 0 in
    let w2 := nth 1 rw 0 in
    let s0 := N.lxor (N.lxor (rotr 7 w15) (rotr 18 w15)) (N.shiftr w15 3) in
    let s1 := N.lxor (N.lxor (rotr 17 w2) (rotr 19 w2)) (N.shiftr w2 10) in
    schedule n' (mask32 (nth 15 rw 0 + s0 + nth 6 rw 0 + s1) :: rw)
  end.

Definition round (h : list N) (kw : N * N) : list N :=
  match h with
  | [a; b; c; d; e; f; g; i] =>
    let s1 := N.lxor (N.lxor (rotr 6 e) (rotr 11 e)) (rotr 25 e) in
    let ch := N.lxor (N.land e f) (N.land (not32 e) g) in
    let t1 := mask32 (i + s1 + ch + fst kw + snd kw) in
    let s0 := N.lxor (N.lxor (rotr 2 a) (rotr 13 a)) (rotr 22 a) in
    let maj := N.lxor (N.lxor (N.land a b) (N.land a c)) (N.land b c) in
    let t2 := add32 s0 maj in
    [add32 t1 t2; a; b; c; add32 d t1; e; f; g]
  | _ => h
  end.

Definition compress (h block : list N) : list N :=
  let w := rev (schedule 48 (rev block)) in
  zip_with add32 h (fold_left round (combine round_constants w) h).

Fixpoint blocks (fuel : nat) (ws h : list N) : list N :=
  match fuel with
  | O => h
  | S fuel' =>
    match ws with
    | [] => h
    | _ => blocks fuel' (drop 16 ws) (compress h (take 16 ws))
    end
  end.

Definition Sum256 (s : string) : list N :=
  let ws := words (pad (string_bytes s)) in
  concat (map (be_bytes 4) (blocks (length ws) ws initial_state)).

Fixpoint hex_of (l : list N) : string :=
  match l with
  | [] => EmptyString
  | n :: l' => String (hex_digit (n / 16)) (String (hex_digit (n mod 16)) (hex_of l'))
  end.

(** [digest := sha256.Sum256(text); hex.EncodeToString(digest[:])] *)
Definition sha256_hex (s : string) : string := hex_of (Sum256 s).

Example sha256_empty :
  sha256_hex "" = "e3b0c44298fc1c149afbf4c8996fb92427ae41e4649b934ca495991b7852b855".
Proof. vm_compute. reflexivity. Qed.

Example sha256_abc :
  sha256_hex "abc" = "ba7816bf8f01cfea414140de5dae2223b00361a396177a9cb410ff61f20015ad".
Proof. vm_compute. reflexivity. Qed.

(** ** The shape of a digest *)

Lemma round_length h kw : length (round h kw) = length h.
Proof. destruct kw as [k w]. unfold round. by do 9 (destruct h as [|? h]; try done). Qed.
Lemma compress_length h block : length (compress h block) = length h.
Proof.
  unfold compress. rewrite length_zip_with.
  assert (H : ∀ l h, length (fold_left round l h) = length h).
  { induction l as [|kw l IH]; intros h'; cbn; [done|]. by rewrite IH, round_length. }
  rewrite H. lia.
Qed.
Lemma blocks_length fuel ws h : length (blocks fuel ws h) = length h.
Proof.
  revert ws h. induction fuel as [|fuel IH]; intros ws h; [done|]. cbn [blocks].
  destruct ws; [done|]. by rewrite IH, compress_length.
Qed.
Lemma be_bytes_ok n x : length (be_bytes n x) = n ∧ Forall (λ b, b < 256) (be_bytes n x).
Proof.
  revert x. induction n as [|n IH]; intros x; [done|]. cbn [be_bytes]. destruct (IH (x / 256)) as [H1 H2].
  rewrite length_app, H1. split; [cbn; lia|]. apply Forall_app. split; [done|].
  constructor; [by apply N.mod_lt|done].
Qed.

Lemma Sum256_ok s : length (Sum256 s) = 32%nat ∧ Forall (λ b, b < 256) (Sum256 s).
Proof.
  unfold Sum256. set (l := blocks _ _ _). assert (Hl : length l = 8%nat) by apply blocks_length.
  split.
  - clear -Hl. assert (H : ∀ k, length (concat (map (be_bytes 4) k)) = (4 * length k)%nat).
    { induction k as [|x k IH]; [done|]. cbn [map concat]. rewrite length_app, IH, (proj1 (be_bytes_ok 4 x)). cbn. lia. }
    rewrite H, Hl. done.
  - clear Hl. induction l as [|x l IH]; [by constructor|]. cbn [map concat].
    apply Forall_app. split; [apply be_bytes_ok|done].
Qed.

Lemma hex_of_bytes l :
  Forall (λ b, b < 256) l → ∃ bytes, length bytes = length l ∧ hex_of l = EncodeToString bytes.
Proof.
  induction 1 as [|x l Hx _ (bytes & Hl & Hb)]; [by exists []|].
  destruct (Byte.of_N x) as [b|] eqn:E.
  2: { apply Byte.of_N_None_iff in E. lia. }
  exists (b :: bytes). split; [cbn; congruence|]. cbn [hex_of EncodeToString].
  apply Byte.to_of_N in E. by rewrite E, Hb.
Qed.

(** A digest is the hexadecimal text of 32 bytes, and decodes to them. *)
Lemma sha256_hex_bytes s :
  ∃ bytes, length bytes = 32%nat ∧ sha256_hex s = EncodeToString bytes ∧ DecodeString (sha256_hex s) = Some bytes.
Proof.
  destruct (Sum256_ok s) as [Hl Hb]. destruct (hex_of_bytes _ Hb) as (bytes & Hlen & Heq).
  exists bytes. unfold sha256_hex. rewrite Heq, DecodeString_EncodeToString. split; [congruence|done].
Qed.
