(* ===== verification/Blob.v ===== *)
(** * Object storage: keys, the interface and the local store
      ([internal/blobstore/blobstore.go], [internal/blobstore/local.go])

    [BlobStore] is the Go interface as a class over the state [B] of a store;
    [BlobLaws] is what the worker, the exporter and the API rely on.  The local
    store is modelled over a small file system: files and directories by absolute
    path, with the errors of [os.MkdirAll], [os.Link], [os.Rename], [os.Open] and
    [os.Remove].  Contexts are never cancelled here, the disk does not fail. *)

From S2P Require Import Prelude Text Sha256.

(** ** The interface *)

Record BlobInfo := {
  bi_Key : string; bi_Size : Z; bi_SHA256 : string; bi_LastModified : time
}.

Inductive errno : Type := ENOENT | ENOTDIR | EISDIR | EEXIST | ENOTEMPTY.

(** [ErrOS context e] is an error of the operating system under the context the
    code adds; [ErrRemote] is one of a remote service, or a text. *)
Inductive blob_error : Type :=
| ErrInvalidKey
| ErrImmutableRaw
| ErrOS (context : string) (e : errno)
| ErrRemote (text : string).

(** [errors.Is(err, os.ErrNotExist)] *)
Definition is_not_exist (e : blob_error) : bool :=
  match e with ErrOS _ ENOENT => true | _ => false end.

(** What an [io.Reader] yields: bytes, then the end or an error. *)
Record reader := { rd_data : string; rd_err : option string }.
Definition NewReader (s : string) : reader := {| rd_data := s; rd_err := None |}.

Notation blob_op B A := (B → result blob_error A * B).

(** The argument of type [time] is the clock of the write. *)
Class BlobStore (B : Type) := {
  Put : string → reader → time → blob_op B BlobInfo;
  Get : string → blob_op B reader;
  Exists : string → blob_op B bool;
  Stat : string → blob_op B BlobInfo;
  Delete : string → blob_op B ();
  Purge : string → blob_op B ()
}.

(** ** Keys *)

Definition backslash_text : string := String (ascii_of_N 92) "".

Definition bad_part (part : string) : bool :=
  bool_decide (part = "") || bool_decide (part = ".") || bool_decide (part = "..").

Definition validateKey (key : string) : result blob_error () :=
  if bool_decide (key = "") || HasPrefix key "/" || Contains key backslash_text
     || negb (bool_decide (Clean key = key))
  then Err ErrInvalidKey
  else if existsb bad_part (parts key) then Err ErrInvalidKey
  else Ok ().

Definition isRaw (key : string) : bool := HasPrefix key "raw/".

(** ** A file system *)

Record local_store := {
  ls_root : string;
  ls_files : gmap string (string * time);
  ls_dirs : gset string
}.

Definition set_files (f : gmap string (string * time) → gmap string (string * time))
    (b : local_store) : local_store :=
  {| ls_root := ls_root b; ls_files := f (ls_files b); ls_dirs := ls_dirs b |}.
Definition set_dirs (f : gset string → gset string) (b : local_store) : local_store :=
  {| ls_root := ls_root b; ls_files := ls_files b; ls_dirs := f (ls_dirs b) |}.

Definition path_of (l : list string) : string := "/" +:+ join_parts l.
(** The paths on the way from the root to the path, itself included. *)
Fixpoint prefixes (above l : list string) : list string :=
  match l with
  | [] => []
  | x :: l' => path_of (above ++ [x]) :: prefixes (above ++ [x]) l'
  end.
Definition ancestors (p : string) : list string := prefixes [] (path_elements p).
Definition Dir (p : string) : string := path_of (removelast (path_elements p)).

Definition is_file (b : local_store) (p : string) : bool := bool_decide (is_Some (ls_files b !! p)).
Definition is_dir (b : local_store) (p : string) : bool :=
  bool_decide (p = "/") || bool_decide (p ∈ ls_dirs b).

(** [os.Stat]: a file on the way makes the path meaningless. *)
Definition os_lookup (b : local_store) (p : string) : (string * time) + () + errno :=
  if existsb (is_file b) (ancestors (Dir p)) then inr ENOTDIR
  else match ls_files b !! p with
       | Some f => inl (inl f)
       | None => if is_dir b p then inl (inr ()) else inr ENOENT
       end.

Definition MkdirAll (dir : string) (b : local_store) : option local_store :=
  if existsb (is_file b) (ancestors dir) then None
  else Some (set_dirs (λ ds, ds ∪ list_to_set (ancestors dir)) b).

(** [os.Remove] of a directory fails unless it is empty. *)
Definition below (dir p : string) : bool := HasPrefix p (dir +:+ "/").
Definition empty_dir (b : local_store) (dir : string) : bool :=
  negb (exists_row (λ p _, below dir p) (ls_files b))
  && negb (existsb (below dir) (elements (ls_dirs b))).

Definition os_Remove (b : local_store) (p : string) : option errno * local_store :=
  match os_lookup b p with
  | inl (inl _) => (None, set_files (delete p) b)
  | inl (inr ()) =>
    if empty_dir b p then (None, set_dirs (λ ds, ds ∖ {[p]}) b) else (Some ENOTEMPTY, b)
  | inr e => (Some e, b)
  end.

(** ** The local store *)

(** [filepath.Abs], from the working directory of the process. *)
Definition Abs (cwd p : string) : string :=
  if HasPrefix p "/" then Clean p else Join cwd p.

Definition NewLocal (cwd root : string) (files : gmap string (string * time))
    (dirs : gset string) : result blob_error local_store :=
  if bool_decide (root = "") then Err (ErrRemote "blob store root is required")
  else
    let b := {| ls_root := Abs cwd root; ls_files := files; ls_dirs := dirs |} in
    match MkdirAll (ls_root b) b with
    | None => Err (ErrOS "create blob store root" ENOTDIR)
    | Some b' => Ok b'
    end.

Definition filename (b : local_store) (key : string) : result blob_error string :=
  match validateKey key with
  | Err e => Err e
  | Ok _ =>
    let f := Join (ls_root b) key in
    match Rel (ls_root b) f with
    | None => Err ErrInvalidKey
    | Some relative =>
      if bool_decide (relative = "..") || HasPrefix relative "../" then Err ErrInvalidKey
      else Ok f
    end
  end.

Definition file_info (key content : string) (modified : time) : BlobInfo :=
  {| bi_Key := key; bi_Size := slen content; bi_SHA256 := sha256_hex content;
     bi_LastModified := modified |}.

(** The temporary file of [os.CreateTemp] is gone when [Put] returns: it was
    renamed, or the deferred [os.Remove] deletes it. *)
Definition local_Put (key : string) (r : reader) (now : time) : blob_op local_store BlobInfo := λ b,
  match filename b key with
  | Err e => (Err e, b)
  | Ok f =>
    match MkdirAll (Dir f) b with
    | None => (Err (ErrOS "create blob directory" ENOTDIR), b)
    | Some b =>
      match rd_err r with
      | Some e => (Err (ErrRemote ("write blob: " +:+ e)), b)
      | None =>
        let commit := set_files <[f := (rd_data r, now)]> b in
        if isRaw key then
          match os_lookup b f with
          | inl _ => (Err ErrImmutableRaw, b)
          | inr ENOENT => (Ok (file_info key (rd_data r) now), commit)
          | inr e => (Err (ErrOS "commit immutable raw blob" e), b)
          end
        else
          match os_lookup b f with
          | inl (inr _) => (Err (ErrOS "commit blob" EEXIST), b)
          | inl (inl _) | inr ENOENT => (Ok (file_info key (rd_data r) now), commit)
          | inr e => (Err (ErrOS "commit blob" e), b)
          end
      end
    end
  end.

(** Opening a directory succeeds, reading it does not. *)
Definition local_Get (key : string) : blob_op local_store reader := λ b,
  match filename b key with
  | Err e => (Err e, b)
  | Ok f =>
    match os_lookup b f with
    | inl (inl (content, _)) => (Ok (NewReader content), b)
    | inl (inr _) => (Ok {| rd_data := ""; rd_err := Some "is a directory" |}, b)
    | inr e => (Err (ErrOS "open" e), b)
    end
  end.

Definition local_Exists (key : string) : blob_op local_store bool := λ b,
  match filename b key with
  | Err e => (Err e, b)
  | Ok f =>
    match os_lookup b f with
    | inl _ => (Ok true, b)
    | inr ENOENT => (Ok false, b)
    | inr e => (Err (ErrOS "stat" e), b)
    end
  end.

Definition local_Stat (key : string) : blob_op local_store BlobInfo := λ b,
  match local_Get key b with
  | (Err e, b) => (Err e, b)
  | (Ok r, b) =>
    match rd_err r with
    | Some e => (Err (ErrRemote ("hash blob: " +:+ e)), b)
    | None =>
      match filename b key with
      | Err e => (Err e, b)
      | Ok f =>
        match os_lookup b f with
        | inl (inl (_, modified)) => (Ok (file_info key (rd_data r) modified), b)
        | inl (inr _) => (Ok (file_info key (rd_data r) 0), b)
        | inr e => (Err (ErrOS "stat" e), b)
        end
      end
    end
  end.

Definition local_Delete (key : string) : blob_op local_store () := λ b,
  if isRaw key then (Err ErrImmutableRaw, b)
  else match filename b key with
       | Err e => (Err e, b)
       | Ok f =>
         match os_Remove b f with
         | (None, b) => (Ok (), b)
         | (Some e, b) => (Err (ErrOS "remove" e), b)
         end
       end.

(** A missing object is purged already. *)
Definition local_Purge (key : string) : blob_op local_store () := λ b,
  match filename b key with
  | Err e => (Err e, b)
  | Ok f =>
    match os_Remove b f with
    | (None, b) | (Some ENOENT, b) => (Ok (), b)
    | (Some e, b) => (Err (ErrOS "remove" e), b)
    end
  end.

#[export] Instance LocalBlobStore : BlobStore local_store := {
  Put := local_Put; Get := local_Get; Exists := local_Exists; Stat := local_Stat;
  Delete := local_Delete; Purge := local_Purge
}.

(** ** What the clients rely on

    [object b k] is the content stored under a key, [store_ok] the invariant of a
    store that was opened. *)
Class BlobView (B : Type) := {
  object : B → string → option string;
  store_ok : B → Prop
}.

Section laws.
Context {B : Type} `{BlobStore B, BlobView B}.

(** The operation keeps the invariant and every object under another key. *)
Definition keeps_others (k : string) (b b' : B) : Prop :=
  store_ok b' ∧ ∀ k', k' ≠ k → object b' k' = object b k'.
(** The operation only reads. *)
Definition only_reads (b b' : B) : Prop :=
  store_ok b' ∧ ∀ k, object b' k = object b k.
(** The information matches the object. *)
Definition describes (i : BlobInfo) (k content : string) : Prop :=
  bi_Key i = k ∧ bi_Size i = slen content ∧ bi_SHA256 i = sha256_hex content.
End laws.

Class BlobLaws (B : Type) `{BlobStore B, BlobView B} : Prop := {
  put_law b k r t x b' :
    store_ok b → Put k r t b = (x, b') →
    keeps_others k b b' ∧
    (isRaw k = true → is_Some (object b k) → object b' k = object b k ∧ is_ok x = false) ∧
    (∀ i, x = Ok i → rd_err r = None ∧ object b' k = Some (rd_data r) ∧ describes i k (rd_data r));
  get_law b k x b' :
    store_ok b → Get k b = (x, b') →
    only_reads b b' ∧ (∀ r, x = Ok r → rd_err r = None → object b k = Some (rd_data r));
  exists_law b k x b' :
    store_ok b → Exists k b = (x, b') →
    only_reads b b' ∧ (x = Ok false → object b k = None);
  stat_law b k x b' :
    store_ok b → Stat k b = (x, b') →
    only_reads b b' ∧ (∀ i, x = Ok i → ∃ c, object b k = Some c ∧ describes i k c);
  delete_law b k x b' :
    store_ok b → Delete k b = (x, b') →
    keeps_others k b b' ∧
    (isRaw k = true → object b' k = object b k ∧ is_ok x = false) ∧
    (x = Ok () → object b' k = None);
  purge_law b k x b' :
    store_ok b → Purge k b = (x, b') →
    keeps_others k b b' ∧ (x = Ok () → object b' k = None)
}.

(** A store that is in service answers every read of an object it holds. *)
Class BlobServing (B : Type) `{BlobStore B, BlobView B} := {
  serving : B → Prop;
  serving_ok b : serving b → store_ok b;
  serving_get b k c :
    serving b → object b k = Some c → ∃ r b', Get k b = (Ok r, b') ∧ rd_err r = None ∧ serving b';
  serving_stat b k c :
    serving b → object b k = Some c → ∃ i b', Stat k b = (Ok i, b') ∧ serving b'
}.

#[export] Instance local_view : BlobView local_store := {
  object b k := match filename b k with
                | Ok f => fst <$> ls_files b !! f
                | Err _ => None
                end;
  store_ok b := absolute (ls_root b) = true
}.

(** ** Keys that are accepted *)

Lemma bad_part_plain l : existsb bad_part l = false ↔ Forall plain l.
Proof.
  induction l as [|p l IH]; cbn; [split; constructor|].
  rewrite orb_false_iff, IH, Forall_cons. unfold bad_part, plain.
  rewrite !orb_false_iff, !bool_decide_eq_false. naive_solver.
Qed.

Lemma validateKey_ok key :
  validateKey key = Ok () ↔ Contains key backslash_text = false ∧ Forall plain (parts key).
Proof.
  unfold validateKey. split.
  - destruct (_ || _ || _ || _) eqn:H; [done|]. rewrite !orb_false_iff in H.
    destruct (existsb bad_part (parts key)) eqn:Hb; [done|]. intros _.
    rewrite bad_part_plain in Hb. naive_solver.
  - intros [Hc Hp]. destruct (Clean_plain key Hp) as (H1 & H2 & H3).
    rewrite bool_decide_eq_false_2, H2, Hc, bool_decide_eq_true_2 by done. cbn.
    by apply bad_part_plain in Hp as ->.
Qed.

Lemma filename_ok b key f :
  filename b key = Ok f → validateKey key = Ok () ∧ f = Join (ls_root b) key.
Proof.
  unfold filename. destruct (validateKey key) as [[]|]; [|done].
  destruct (Rel _ _) as [r|]; [|done]. destruct (_ || _); [done|]. naive_solver.
Qed.

Lemma filename_valid b key :
  store_ok b → validateKey key = Ok () → filename b key = Ok (Join (ls_root b) key).
Proof.
  intros Hb Hk. unfold filename. rewrite Hk. apply validateKey_ok in Hk as [_ Hp].
  destruct (Join_below (ls_root b) key Hb Hp) as [_ ->].
  rewrite bool_decide_eq_false_2.
  2: { intros ->. vm_compute in Hp. apply Forall_inv in Hp as (_ & _ & ?). done. }
  destruct (HasPrefix key "../") eqn:H; [|done].
  apply prefix_exists in H as [r ->]. change ("../" +:+ r) with (".." +:+ "/" +:+ r) in Hp.
  rewrite parts_app_slash in Hp. apply Forall_inv in Hp as (_ & _ & ?). done.
Qed.

Lemma filename_inj b k k' f :
  store_ok b → filename b k = Ok f → filename b k' = Ok f → k = k'.
Proof.
  intros Hb [[_ H1]%validateKey_ok ->]%filename_ok [[_ H2]%validateKey_ok Hj]%filename_ok.
  by apply (Join_inj (ls_root b)).
Qed.

(** ** The local store keeps the laws *)

Lemma filename_root b b' key : ls_root b' = ls_root b → filename b' key = filename b key.
Proof. unfold filename. by intros ->. Qed.

Lemma MkdirAll_some dir b b' :
  MkdirAll dir b = Some b' → ls_root b' = ls_root b ∧ ls_files b' = ls_files b.
Proof. unfold MkdirAll. destruct (existsb _ _); [done|]. by intros [= <-]. Qed.

Lemma os_lookup_file b p c : os_lookup b p = inl (inl c) → ls_files b !! p = Some c.
Proof.
  unfold os_lookup. destruct (existsb _ _); [done|].
  destruct (ls_files b !! p); [by intros [= ->]|]. by destruct (is_dir b p).
Qed.
Lemma os_lookup_not_file b p x :
  os_lookup b p = x → (x = inr ENOENT ∨ x = inl (inr ())) → ls_files b !! p = None.
Proof.
  unfold os_lookup. destruct (existsb _ _); [by intros <- [|]|].
  destruct (ls_files b !! p); [by intros <- [|]|done].
Qed.

Lemma os_Remove_spec b p e b' :
  os_Remove b p = (e, b') →
  ls_root b' = ls_root b ∧ (∀ q, q ≠ p → ls_files b' !! q = ls_files b !! q) ∧
  (e = None ∨ e = Some ENOENT → ls_files b' !! p = None).
Proof.
  unfold os_Remove. destruct (os_lookup b p) as [[f|[]]|er] eqn:Hl.
  - intros [= <- <-]. cbn. split; [done|]. split; [|by rewrite lookup_delete_eq].
    intros q Hq. by apply lookup_delete_ne.
  - destruct (empty_dir b p); intros [= <- <-]; cbn; (split; [done|]); split; try done.
    + intros _. eapply os_lookup_not_file; eauto.
    + by intros [|].
  - intros [= <- <-]. split; [done|]. split; [done|].
    intros [|[= ->]]; [done|]. eapply os_lookup_not_file; eauto.
Qed.

(** Two states of the store with the same root agree on the objects whose files
    they agree on. *)
Lemma keeps_others_files k f b b' :
  store_ok b → ls_root b' = ls_root b → filename b k = Ok f →
  (∀ p, p ≠ f → ls_files b' !! p = ls_files b !! p) → keeps_others k b b'.
Proof.
  intros Hb Hr Hf Hfiles. split; [by cbn in *; rewrite Hr|].
  intros k' Hk. cbn. rewrite (filename_root b b' k' Hr).
  destruct (filename b k') as [f'|] eqn:Hf'; [|done].
  rewrite Hfiles; [done|]. intros ->. by apply Hk, (filename_inj b k' k f).
Qed.

Lemma only_reads_refl (b : local_store) : store_ok b → only_reads b b.
Proof. by split. Qed.

Lemma keeps_others_refl k (b : local_store) : store_ok b → keeps_others k b b.
Proof. by split. Qed.

Lemma object_file b k f : filename b k = Ok f → object b k = fst <$> ls_files b !! f.
Proof. by cbn; intros ->. Qed.

Lemma local_put_law b k r t x b' :
  store_ok b → local_Put k r t b = (x, b') →
  keeps_others k b b' ∧
  (isRaw k = true → is_Some (object b k) → object b' k = object b k ∧ is_ok x = false) ∧
  (∀ i, x = Ok i → rd_err r = None ∧ object b' k = Some (rd_data r) ∧ describes i k (rd_data r)).
Proof.
  intros Hb. unfold local_Put.
  assert (Hsame : ∀ e, (Err e, b) = (x, b') →
    keeps_others k b b' ∧
    (isRaw k = true → is_Some (object b k) → object b' k = object b k ∧ is_ok x = false) ∧
    (∀ i, x = Ok i → rd_err r = None ∧ object b' k = Some (rd_data r) ∧ describes i k (rd_data r))).
  { intros e [= <- <-]. split; [by apply keeps_others_refl|]. done. }
  destruct (filename b k) as [f|e] eqn:Hf; [|apply Hsame].
  destruct (MkdirAll (Dir f) b) as [b1|] eqn:Hm; [|apply Hsame].
  apply MkdirAll_some in Hm as [Hr1 Hf1]. clear Hsame.
  assert (Hk1 : keeps_others k b b1) by (apply (keeps_others_files k f); [done..|by rewrite Hf1]).
  assert (Ho1 : object b1 k = object b k).
  { rewrite (object_file b k f), (object_file b1 k f), Hf1; [done| |done].
    by rewrite (filename_root b). }
  assert (Herr : ∀ e, (Err e, b1) = (x, b') →
    keeps_others k b b' ∧
    (isRaw k = true → is_Some (object b k) → object b' k = object b k ∧ is_ok x = false) ∧
    (∀ i, x = Ok i → rd_err r = None ∧ object b' k = Some (rd_data r) ∧ describes i k (rd_data r))).
  { intros e [= <- <-]. done. }
  assert (Hok : rd_err r = None → (isRaw k = true → object b k = None) →
    (Ok (file_info k (rd_data r) t), set_files <[f:=(rd_data r, t)]> b1) = (x, b') →
    keeps_others k b b' ∧
    (isRaw k = true → is_Some (object b k) → object b' k = object b k ∧ is_ok x = false) ∧
    (∀ i, x = Ok i → rd_err r = None ∧ object b' k = Some (rd_data r) ∧ describes i k (rd_data r))).
  { intros Hre Hraw [= <- <-]. split; [|split].
    - apply (keeps_others_files k f); [done|done|done|]. intros p Hp. cbn.
      by rewrite lookup_insert_ne, Hf1.
    - intros Hk Hs. rewrite Hraw in Hs by done. by destruct Hs.
    - intros i [= <-]. split; [done|]. split; [|by cbn].
      rewrite (object_file _ k f); [|by rewrite (filename_root b)]. cbn.
      by rewrite lookup_insert_eq. }
  destruct (rd_err r) as [e|] eqn:Hre; [apply Herr|].
  destruct (isRaw k) eqn:Hraw.
  - destruct (os_lookup b1 f) as [[?|?]|[]] eqn:Hl; try apply Herr.
    apply Hok; [done|]. intros _. rewrite (object_file b k f), <-Hf1 by done.
    rewrite (os_lookup_not_file b1 f _ Hl); [done|by left].
  - destruct (os_lookup b1 f) as [[?|?]|[]] eqn:Hl; try apply Herr; by apply Hok.
Qed.

Lemma local_get_law b k x b' :
  store_ok b → local_Get k b = (x, b') →
  only_reads b b' ∧ (∀ r, x = Ok r → rd_err r = None → object b k = Some (rd_data r)).
Proof.
  intros Hb. unfold local_Get. destruct (filename b k) as [f|e] eqn:Hf.
  - destruct (os_lookup b f) as [[[c m]|[]]|e] eqn:Hl; intros [= <- <-];
      (split; [by apply only_reads_refl|]); intros r [= <-]; try done.
    intros _. apply os_lookup_file in Hl. rewrite (object_file b k f), Hl; done.
  - intros [= <- <-]. split; [by apply only_reads_refl|done].
Qed.

Lemma local_exists_law b k x b' :
  store_ok b → local_Exists k b = (x, b') →
  only_reads b b' ∧ (x = Ok false → object b k = None).
Proof.
  intros Hb. unfold local_Exists. destruct (filename b k) as [f|e] eqn:Hf.
  - destruct (os_lookup b f) as [?|[]] eqn:Hl; intros [= <- <-];
      (split; [by apply only_reads_refl|]); try done.
    intros _. rewrite (object_file b k f) by done.
    rewrite (os_lookup_not_file b f _ Hl); [done|by left].
  - intros [= <- <-]. split; [by apply only_reads_refl|done].
Qed.

Lemma local_stat_law b k x b' :
  store_ok b → local_Stat k b = (x, b') →
  only_reads b b' ∧ (∀ i, x = Ok i → ∃ c, object b k = Some c ∧ describes i k c).
Proof.
  intros Hb. unfold local_Stat. destruct (local_Get k b) as [[r|e] b1] eqn:Hg;
    apply local_get_law in Hg as [Hr Hg]; [|done|intros [= <- <-]; done|done].
  assert (Hdone : ∀ i, describes i k (rd_data r) → rd_err r = None → (Ok i, b1) = (x, b') →
    only_reads b b' ∧ (∀ i, x = Ok i → ∃ c, object b k = Some c ∧ describes i k c)).
  { intros i Hd He [= <- <-]. split; [done|]. intros ? [= <-]. eauto. }
  destruct (rd_err r) as [e|] eqn:He; [intros [= <- <-]; done|].
  destruct (filename b1 k) as [f|e]; [|intros [= <- <-]; done].
  destruct (os_lookup b1 f) as [[[c m]|[]]|e]; [by apply Hdone|by apply Hdone|].
  intros [= <- <-]. done.
Qed.

Lemma local_delete_law b k x b' :
  store_ok b → local_Delete k b = (x, b') →
  keeps_others k b b' ∧ (isRaw k = true → object b' k = object b k ∧ is_ok x = false) ∧
  (x = Ok () → object b' k = None).
Proof.
  intros Hb. unfold local_Delete. destruct (isRaw k).
  { intros [= <- <-]. split; [by apply keeps_others_refl|done]. }
  destruct (filename b k) as [f|e] eqn:Hf.
  2: { intros [= <- <-]. split; [by apply keeps_others_refl|done]. }
  destruct (os_Remove b f) as [e b1] eqn:Hr. apply os_Remove_spec in Hr as (H1 & H2 & H3).
  assert (keeps_others k b b1) by by apply (keeps_others_files k f).
  assert (filename b1 k = Ok f) by by rewrite (filename_root b).
  destruct e as [e|]; intros [= <- <-]; (split; [done|]); (split; [done|]); [done|].
  intros _. rewrite (object_file b1 k f), H3; [done|by left|done].
Qed.

Lemma local_purge_law b k x b' :
  store_ok b → local_Purge k b = (x, b') →
  keeps_others k b b' ∧ (x = Ok () → object b' k = None).
Proof.
  intros Hb. unfold local_Purge. destruct (filename b k) as [f|e] eqn:Hf.
  2: { intros [= <- <-]. split; [by apply keeps_others_refl|done]. }
  destruct (os_Remove b f) as [e b1] eqn:Hr. apply os_Remove_spec in Hr as (H1 & H2 & H3).
  assert (keeps_others k b b1) by by apply (keeps_others_files k f).
  assert (filename b1 k = Ok f) by by rewrite (filename_root b).
  destruct e as [[]|]; intros [= <- <-]; (split; [done|]); try done;
    intros _; rewrite (object_file b1 k f), H3; auto.
Qed.

#[export] Instance local_laws : BlobLaws local_store.
Proof.
  split.
  - apply local_put_law.
  - apply local_get_law.
  - apply local_exists_law.
  - apply local_stat_law.
  - apply local_delete_law.
  - apply local_purge_law.
Qed.

(** No file lies below another file, as in a real file system. *)
Definition flat_files (b : local_store) : Prop :=
  ∀ f, is_Some (ls_files b !! f) → existsb (is_file b) (ancestors (Dir f)) = false.

#[export] Instance local_serving : BlobServing local_store.
Proof.
  refine {| serving b := absolute (ls_root b) = true ∧ flat_files b |}; [by intros b [H _]| |].
  all: intros b k c [Hr Hf]; cbn [object local_view]; destruct (filename b k) as [f|] eqn:Ef; [|done];
    destruct (ls_files b !! f) as [[content modified]|] eqn:El; [|done]; intros [= ->].
  all: assert (Hg : os_lookup b f = inl (inl (c, modified)))
    by (unfold os_lookup; rewrite Hf by (by rewrite El); by rewrite El).
  - exists (NewReader c), b. change (Get k b) with (local_Get k b). unfold local_Get. by rewrite Ef, Hg.
  - eexists _, b. change (Stat k b) with (local_Stat k b). unfold local_Stat, local_Get. rewrite Ef, Hg.
    cbn [rd_err NewReader rd_data]. by rewrite Ef, Hg.
Defined.

(** ** Properties of keys and stores *)

(** A key is accepted exactly when it has no backslash and each of its parts
    between slashes is nonempty and neither "." nor ".."; the checks for the empty
    key, the leading slash and the clean path follow from that. *)
Theorem validateKey_spec key :
  validateKey key =
    if Contains key backslash_text || existsb bad_part (parts key)
    then Err ErrInvalidKey else Ok ().
Proof.
  destruct (validateKey key) as [[]|e] eqn:H.
  - pose proof H as [-> ->%bad_part_plain]%validateKey_ok. done.
  - destruct (_ || _) eqn:Hc.
    + unfold validateKey in H. destruct (_ || _ || _ || _); [by injection H as <-|].
      destruct (existsb _ _); [by injection H as <-|done].
    + rewrite orb_false_iff, bad_part_plain, <-validateKey_ok, H in Hc. done.
Qed.

(** C27: in an opened local store every accepted key names a file strictly below the
    root, reached by the parts of the key, and different keys name different files. *)
Theorem filename_below_root b key key' :
  absolute (ls_root b) = true → validateKey key = Ok () → validateKey key' = Ok () →
  ∃ f f',
    filename b key = Ok f ∧ filename b key' = Ok f' ∧
    path_elements f = path_elements (ls_root b) ++ parts key ∧
    Rel (ls_root b) f = Some key ∧ (f = f' → key = key').
Proof.
  intros Hb Hk Hk'. exists (Join (ls_root b) key), (Join (ls_root b) key').
  split; [by apply filename_valid|]. split; [by apply filename_valid|].
  apply validateKey_ok in Hk as [_ Hk], Hk' as [_ Hk'].
  destruct (Join_below (ls_root b) key Hb Hk) as [HJ HR].
  split; [|split; [done|by apply Join_inj]].
  destruct (absolute_elements _ Hb) as (H1 & H2 & _).
  rewrite HJ. apply elements_root; apply Forall_app; split; try done.
  apply Forall_forall, parts_slash_free.
Qed.

Lemma filename_below_root_witness :
  let b := {| ls_root := "/var/blobs"; ls_files := ∅; ls_dirs := ∅ |} in
  filename b "raw/sessions/s1/a.mp4" = Ok "/var/blobs/raw/sessions/s1/a.mp4" ∧
  ∃ f, filename b "raw/sessions/s1/a.mp4" = Ok f ∧
       Rel "/var/blobs" f = Some "raw/sessions/s1/a.mp4".
Proof.
  intros b. split; [vm_compute; reflexivity|].
  destruct (filename_below_root b "raw/sessions/s1/a.mp4" "derived/x") as (f & _ & H1 & _ & _ & H2 & _);
    [vm_compute; reflexivity..|]. exists f. split; [exact H1|exact H2].
Defined.

(** *** Sequences of calls *)
Inductive call : Type :=
| CPut (k : string) (r : reader) (t : time)
| CGet (k : string)
| CExists (k : string)
| CStat (k : string)
| CDelete (k : string)
| CPurge (k : string).

Section calls.
Context {B : Type} `{BlobLaws B}.

Definition do_call (c : call) (b : B) : B :=
  match c with
  | CPut k r t => (Put k r t b).2
  | CGet k => (Get k b).2
  | CExists k => (Exists k b).2
  | CStat k => (Stat k b).2
  | CDelete k => (Delete k b).2
  | CPurge k => (Purge k b).2
  end.
Definition do_calls (l : list call) (b : B) : B := foldl (λ b c, do_call c b) b l.

Lemma raw_call c b k content :
  store_ok b → isRaw k = true → object b k = Some content → c ≠ CPurge k →
  store_ok (do_call c b) ∧ object (do_call c b) k = Some content.
Proof using All.
  intros Hb Hk Ho Hc. destruct c as [j r t|j|j|j|j|j]; cbn.
  - destruct (Put j r t b) as [x b'] eqn:E. cbn.
    destruct (put_law b j r t x b' Hb E) as ([? Hf] & Hr & _).
    split; [done|]. destruct (decide (k = j)) as [<-|Hj]; [|by rewrite Hf].
    destruct Hr as [-> _]; [done|by rewrite Ho|done].
  - destruct (Get j b) as [x b'] eqn:E. cbn.
    destruct (get_law b j x b' Hb E) as ([? Hf] & _). by rewrite Hf.
  - destruct (Exists j b) as [x b'] eqn:E. cbn.
    destruct (exists_law b j x b' Hb E) as ([? Hf] & _). by rewrite Hf.
  - destruct (Stat j b) as [x b'] eqn:E. cbn.
    destruct (stat_law b j x b' Hb E) as ([? Hf] & _). by rewrite Hf.
  - destruct (Delete j b) as [x b'] eqn:E. cbn.
    destruct (delete_law b j x b' Hb E) as ([? Hf] & Hr & _).
    split; [done|]. destruct (decide (k = j)) as [<-|Hj]; [|by rewrite Hf].
    by destruct Hr as [-> _].
  - destruct (Purge j b) as [x b'] eqn:E. cbn.
    destruct (purge_law b j x b' Hb E) as ([? Hf] & _).
    split; [done|]. rewrite Hf; [done|]. naive_solver.
Qed.
End calls.



(** The file of a key is not one of the directories on the way to it. *)
Lemma prefixes_spec above l p :
  p ∈ prefixes above l → ∃ m, p = path_of (above ++ m) ∧ (length m ≤ length l)%nat ∧
    ∃ rest, l = m ++ rest.
Proof.
  revert above. induction l as [|x l IH]; intros above; [by intros ?%elem_of_nil|].
  cbn. intros [->|Hp]%elem_of_cons.
  - exists [x]. split; [done|]. split; [cbn; lia|]. by exists l.
  - apply IH in Hp as (m & -> & Hm & rest & ->). exists (x :: m).
    rewrite <-app_assoc. split; [done|]. split; [cbn; lia|]. by exists rest.
Qed.

Lemma not_own_ancestor l :
  Forall plain l → Forall slash_free l → l ≠ [] →
  path_of l ∉ ancestors (Dir (path_of l)).
Proof.
  intros H1 H2 Hn. destruct l as [|x l] using rev_ind; [done|clear IHl Hn].
  unfold Dir. replace (path_elements (path_of (l ++ [x]))) with (l ++ [x])
    by (symmetry; by apply elements_root).
  rewrite removelast_last. unfold ancestors.
  apply Forall_app in H1 as H1', H2 as H2'. destruct H1' as [H1' _], H2' as [H2' _].
  replace (path_elements (path_of l)) with l by (symmetry; by apply elements_root).
  intros (m & Hp & Hlen & rest & ->)%prefixes_spec. cbn in Hp.
  apply Forall_app in H1' as [H1' _], H2' as [H2' _].
  apply (f_equal path_elements) in Hp. unfold path_of in Hp.
  rewrite !elements_root in Hp by done. apply (f_equal length) in Hp.
  rewrite !length_app in Hp. cbn in Hp. lia.
Qed.

(** C28: what [Put] of the local store stored, [Get] reads back and [Stat] describes with
    the length and the SHA-256 digest that [Put] returned, and no other object changed. *)
Theorem local_put_get key r now (b b' : local_store) i :
  absolute (ls_root b) = true → local_Put key r now b = (Ok i, b') →
  local_Get key b' = (Ok (NewReader (rd_data r)), b') ∧
  local_Stat key b' = (Ok i, b') ∧
  bi_Size i = slen (rd_data r) ∧ bi_SHA256 i = sha256_hex (rd_data r) ∧
  ∀ k, k ≠ key → object b' k = object b k.
Proof.
  intros Hb HP.
  pose proof (local_put_law b key r now _ _ Hb HP) as ((_ & Hk) & _ & Hi).
  destruct (Hi i eq_refl) as (Hre & _ & _ & Hsz & Hsha).
  assert (Hget : ∃ f, filename b' key = Ok f ∧
            os_lookup b' f = inl (inl (rd_data r, now)) ∧ i = file_info key (rd_data r) now).
  { unfold local_Put in HP. destruct (filename b key) as [f|] eqn:Hf; [|done].
    destruct (MkdirAll (Dir f) b) as [b1|] eqn:Hm; [|done].
    assert (Hno : existsb (is_file b) (ancestors (Dir f)) = false).
    { unfold MkdirAll in Hm. by destruct (existsb _ _). }
    apply MkdirAll_some in Hm as [Hr1 Hf1]. rewrite Hre in HP.
    apply filename_ok in Hf as Hf'. destruct Hf' as [[_ Hp]%validateKey_ok ->].
    exists (Join (ls_root b) key).
    assert (Hdone : (Ok (E:=blob_error) (file_info key (rd_data r) now),
              set_files <[Join (ls_root b) key := (rd_data r, now)]> b1) = (Ok i, b') →
      filename b' key = Ok (Join (ls_root b) key) ∧
      os_lookup b' (Join (ls_root b) key) = inl (inl (rd_data r, now)) ∧
      i = file_info key (rd_data r) now).
    { intros [= <- <-]. split; [by rewrite (filename_root b)|]. split; [|done].
      unfold os_lookup. replace (existsb _ _) with false; [cbn; by rewrite lookup_insert_eq|].
      symmetry. apply not_true_is_false. intros (p & Hin & Hfile)%existsb_exists.
      rewrite <-not_true_iff_false, existsb_exists in Hno. apply Hno. exists p. split; [done|].
      unfold is_file in *. cbn in Hfile. rewrite lookup_insert_ne in Hfile; [by rewrite <-Hf1|].
      intros <-. apply list_elem_of_In in Hin. revert Hin.
      destruct (absolute_elements _ Hb) as (H1 & H2 & _).
      destruct (Join_below (ls_root b) key Hb Hp) as [-> _].
      apply not_own_ancestor.
      - by apply Forall_app.
      - apply Forall_app. split; [done|]. apply Forall_forall, parts_slash_free.
      - intros [_ Hn]%app_eq_nil. by apply parts_nonempty in Hn. }
    destruct (isRaw key); destruct (os_lookup b1 _) as [[?|?]|[]]; try done; by apply Hdone. }
  destruct Hget as (f & Hf & Hl & Hinfo).
  assert (HG : local_Get key b' = (Ok (NewReader (rd_data r)), b')).
  { unfold local_Get. by rewrite Hf, Hl. }
  split; [done|]. split; [|done].
  unfold local_Stat. rewrite HG. cbn. by rewrite Hf, Hl, Hinfo.
Qed.

Lemma local_put_get_witness :
  let b := {| ls_root := "/blobs"; ls_files := ∅; ls_dirs := {["/blobs"]} |} in
  ∃ i b', local_Put "raw/s/a" (NewReader "abc") 5 b = (Ok i, b') ∧
          local_Get "raw/s/a" b' = (Ok (NewReader "abc"), b').
Proof.
  intros b. destruct (local_Put "raw/s/a" (NewReader "abc") 5 b) as [[i|e] b'] eqn:H;
    [|vm_compute in H; discriminate H].
  exists i, b'. split; [reflexivity|].
  apply (local_put_get "raw/s/a" (NewReader "abc") 5 b b' i); [vm_compute; reflexivity|exact H].
Defined.
