(* ===== verification/R2.v ===== *)
(** * The remote object store ([internal/blobstore/r2.go], [open.go])

    [R2BlobStore] talks to an S3-compatible service through [r2Client], the Go
    interface of the vendor's client; the client and the service behind it are
    parameters.  [r2_contract] states what S3 documents of them: a conditional
    write ([If-None-Match: *]) does not replace an object, a successful write or
    copy stores the bytes, a delete removes the key.  Under it the store keeps the
    laws of the interface.  The texts of errors leave out the quoted key. *)

From S2P Require Import Prelude Text Sha256 Blob.

(** ** The client *)

Record client_error := { ce_status : option Z; ce_text : string }.

(** [errors.As(err, *smithyhttp.ResponseError)] and its status. *)
Definition hasHTTPStatus (e : client_error) (status : Z) : bool :=
  bool_decide (ce_status e = Some status).

Record MultipartPart := { mp_PartNumber : Z; mp_PartETag : string }.

Record head_output := { ho_ContentLength : option Z; ho_LastModified : option time }.

(** Each operation names the bucket and the key; the boolean is [If-None-Match: *].
    [PutObject] returns the bytes the client read from the body. *)
Record r2Client (S : Type) := {
  PutObject : string → string → reader → bool → S → option client_error * string * S;
  GetObject : string → string → S → result client_error (option reader) * S;
  HeadObject : string → string → S → result client_error head_output * S;
  DeleteObject : string → string → S → option client_error * S;
  CopyObject : string → string → string → bool → S → option client_error * S;
  S3CreateMultipartUpload : string → string → string → gmap string string → S →
    result client_error (option string) * S;
  S3CompleteMultipartUpload : string → string → string → list MultipartPart → bool → S →
    option client_error * S;
  S3AbortMultipartUpload : string → string → string → S → option client_error * S
}.
Arguments PutObject {S}.
Arguments GetObject {S}.
Arguments HeadObject {S}.
Arguments DeleteObject {S}.
Arguments CopyObject {S}.
Arguments S3CreateMultipartUpload {S}.
Arguments S3CompleteMultipartUpload {S}.
Arguments S3AbortMultipartUpload {S}.

Definition conflict (e : client_error) : bool := hasHTTPStatus e 409 || hasHTTPStatus e 412.

(** [url.PathEscape] *)
Definition path_unreserved (c : ascii) : bool :=
  let n := N_of_ascii c in
  ((48 <=? n) && (n <=? 57) || (65 <=? n) && (n <=? 90) || (97 <=? n) && (n <=? 122))%N
  || bool_decide (n ∈ [45; 95; 46; 126; 36; 38; 43; 61; 58; 64]%N).
Definition upper_hex (n : N) : ascii :=
  if (n <? 10)%N then ascii_of_N (48 + n) else ascii_of_N (55 + n).
Fixpoint PathEscape (s : string) : string :=
  match s with
  | EmptyString => ""
  | String c s' =>
    (if path_unreserved c then String c ""
     else String "%"%char (String (upper_hex (N_of_ascii c / 16))
            (String (upper_hex (N_of_ascii c mod 16)) ""))) +:+ PathEscape s'
  end.

Definition validateDirectUploadHash (expectedSHA256 : string) : result blob_error () :=
  if negb (slen expectedSHA256 =? 64)
     || negb (bool_decide (is_Some (DecodeString expectedSHA256)))
     || negb (bool_decide (ToLower expectedSHA256 = expectedSHA256))
  then Err (ErrRemote "direct upload SHA-256 must be a lowercase hex digest")
  else Ok ().

Definition blank (s : string) : bool := bool_decide (TrimSpace s = "").

Section store.
Context {S : Type} (client : r2Client S) (bucket : string).

(** An operation on a key that [validateKey] accepts. *)
Definition with_key {A} (key : string) (op : blob_op S A) : blob_op S A := λ s,
  match validateKey key with
  | Err e => (Err e, s)
  | Ok _ => op s
  end.

Definition r2_info (key content : string) (modified : time) : BlobInfo :=
  {| bi_Key := key; bi_Size := slen content; bi_SHA256 := sha256_hex content;
     bi_LastModified := modified |}.

Definition r2_Put (key : string) (r : reader) (now : time) : blob_op S BlobInfo :=
  with_key key (λ s,
    match PutObject client bucket key r (isRaw key) s with
    | (Some e, _, s) =>
      (Err (if isRaw key && conflict e then ErrImmutableRaw
            else ErrRemote ("put R2 object: " +:+ ce_text e)), s)
    | (None, read, s) => (Ok (r2_info key read now), s)
    end).

Definition r2_Get (key : string) : blob_op S reader :=
  with_key key (λ s,
    match GetObject client bucket key s with
    | (Err e, s) => (Err (ErrRemote ("get R2 object: " +:+ ce_text e)), s)
    | (Ok None, s) => (Err (ErrRemote "get R2 object: response body is missing"), s)
    | (Ok (Some body), s) => (Ok body, s)
    end).

Definition r2_Exists (key : string) : blob_op S bool :=
  with_key key (λ s,
    match HeadObject client bucket key s with
    | (Ok _, s) => (Ok true, s)
    | (Err e, s) =>
      if hasHTTPStatus e 404 then (Ok false, s)
      else (Err (ErrRemote ("check R2 object: " +:+ ce_text e)), s)
    end).

Definition r2_Stat (key : string) : blob_op S BlobInfo :=
  with_key key (λ s,
    match HeadObject client bucket key s with
    | (Err e, s) => (Err (ErrRemote ("stat R2 object: " +:+ ce_text e)), s)
    | (Ok head, s) =>
      match r2_Get key s with
      | (Err e, s) => (Err e, s)
      | (Ok body, s) =>
        match rd_err body with
        | Some e => (Err (ErrRemote ("hash R2 object: " +:+ e)), s)
        | None =>
          match ho_ContentLength head with
          | Some n =>
            if negb (n =? slen (rd_data body))
            then (Err (ErrRemote "R2 object changed while being inspected"), s)
            else (Ok (r2_info key (rd_data body) (default 0 (ho_LastModified head))), s)
          | None => (Ok (r2_info key (rd_data body) (default 0 (ho_LastModified head))), s)
          end
        end
      end
    end).

Definition r2_Delete (key : string) : blob_op S () :=
  with_key key (λ s,
    if isRaw key then (Err ErrImmutableRaw, s)
    else match DeleteObject client bucket key s with
         | (Some e, s) => (Err (ErrRemote ("delete R2 object: " +:+ ce_text e)), s)
         | (None, s) => (Ok (), s)
         end).

Definition r2_Purge (key : string) : blob_op S () :=
  with_key key (λ s,
    match DeleteObject client bucket key s with
    | (Some e, s) => (Err (ErrRemote ("purge R2 object: " +:+ ce_text e)), s)
    | (None, s) => (Ok (), s)
    end).

Definition R2BlobStore : BlobStore S := {|
  Put := r2_Put; Get := r2_Get; Exists := r2_Exists; Stat := r2_Stat;
  Delete := r2_Delete; Purge := r2_Purge
|}.

(** *** Multipart uploads *)

Definition CreateMultipartUpload (key mediaType expectedSHA256 : string) : blob_op S string :=
  with_key key (λ s,
    match validateDirectUploadHash expectedSHA256 with
    | Err e => (Err e, s)
    | Ok _ =>
      match S3CreateMultipartUpload client bucket key mediaType
              {["trajectory-sha256" := expectedSHA256]} s with
      | (Err e, s) => (Err (ErrRemote ("create R2 multipart upload: " +:+ ce_text e)), s)
      | (Ok uploadID, s) =>
        if blank (default "" uploadID)
        then (Err (ErrRemote "create R2 multipart upload: response upload ID is missing"), s)
        else (Ok (default "" uploadID), s)
      end
    end).

(** The checks of [AuthorizeMultipartPart] before the request is presigned; [presign]
    is the vendor's presigner. *)
Definition AuthorizeMultipartPart {A} (presign : string → string → Z → Z → Z → result blob_error A)
    (key uploadID : string) (partNumber size ttl : Z) : result blob_error A :=
  match validateKey key with
  | Err e => Err e
  | Ok _ =>
    if blank uploadID then Err (ErrRemote "multipart upload ID is required")
    else if (partNumber <? 1) || (10000 <? partNumber)
    then Err (ErrRemote "multipart part number must be between 1 and 10000")
    else if (size <? 1) || (Z.shiftl 5 30 <? size)
    then Err (ErrRemote "multipart part size must be between 1 byte and 5 GiB")
    else if (ttl <? minute) || (hour <? ttl)
    then Err (ErrRemote "multipart upload authorization must last between one minute and one hour")
    else presign key uploadID partNumber size ttl
  end.

(** The parts in ascending order with entity tags. *)
Fixpoint ascending_parts (previous : Z) (l : list MultipartPart) : bool :=
  match l with
  | [] => true
  | p :: l' =>
    negb ((mp_PartNumber p <=? previous) || blank (mp_PartETag p))
    && ascending_parts (mp_PartNumber p) l'
  end.

Definition CompleteMultipartUpload (key uploadID : string) (l : list MultipartPart)
    : blob_op S () :=
  with_key key (λ s,
    if blank uploadID || bool_decide (l = []) || (10000 <? Z.of_nat (length l))
    then (Err (ErrRemote "multipart upload ID and one to 10000 parts are required"), s)
    else if negb (ascending_parts 0 l)
    then (Err (ErrRemote "multipart parts must have unique ascending numbers and ETags"), s)
    else match S3CompleteMultipartUpload client bucket key uploadID l (isRaw key) s with
         | (Some e, s) =>
           (Err (if isRaw key && conflict e then ErrImmutableRaw
                 else ErrRemote ("complete R2 multipart upload: " +:+ ce_text e)), s)
         | (None, s) => (Ok (), s)
         end).

Definition AbortMultipartUpload (key uploadID : string) : blob_op S () :=
  with_key key (λ s,
    if blank uploadID then (Err (ErrRemote "multipart upload ID is required"), s)
    else match S3AbortMultipartUpload client bucket key uploadID s with
         | (Some e, s) => (Err (ErrRemote ("abort R2 multipart upload: " +:+ ce_text e)), s)
         | (None, s) => (Ok (), s)
         end).

Definition PromoteMultipartUpload (sourceKey destinationKey : string) : blob_op S () :=
  with_key sourceKey (with_key destinationKey (λ s,
    if isRaw sourceKey || negb (isRaw destinationKey)
    then (Err (ErrRemote "multipart promotion must move a staging object to immutable raw storage"), s)
    else match CopyObject client bucket destinationKey
                 (PathEscape (bucket +:+ "/" +:+ sourceKey)) true s with
         | (Some e, s) =>
           (Err (if conflict e then ErrImmutableRaw
                 else ErrRemote ("promote R2 multipart object: " +:+ ce_text e)), s)
         | (None, s) =>
           match DeleteObject client bucket sourceKey s with
           | (Some e, s) =>
             (Err (ErrRemote ("remove promoted R2 staging object: " +:+ ce_text e)), s)
           | (None, s) => (Ok (), s)
           end
         end)).
End store.

(** ** What the service promises

    [stored s b k] is the content under a key of a bucket; [inv] is what holds of
    every state of the service the client can be in. *)
Section contract.
Context {S : Type}.

Definition others_kept (stored : S → string → string → option string) (b k : string)
    (s s' : S) : Prop :=
  ∀ b' k', (b', k') ≠ (b, k) → stored s' b' k' = stored s b' k'.

Record r2_contract (client : r2Client S) (inv : S → Prop)
    (stored : S → string → string → option string) : Prop := {
  rc_put b k body cond s e read s' :
    inv s → PutObject client b k body cond s = (e, read, s') →
    inv s' ∧ others_kept stored b k s s' ∧
    (cond = true → is_Some (stored s b k) → e ≠ None ∧ stored s' b k = stored s b k) ∧
    (e = None → rd_err body = None ∧ read = rd_data body ∧ stored s' b k = Some read);
  rc_get b k s x s' :
    inv s → GetObject client b k s = (x, s') →
    inv s' ∧ stored s' = stored s ∧
    (∀ body, x = Ok (Some body) → rd_err body = None → stored s b k = Some (rd_data body));
  rc_head b k s x s' :
    inv s → HeadObject client b k s = (x, s') →
    inv s' ∧ stored s' = stored s ∧
    (∀ e, x = Err e → hasHTTPStatus e 404 = true → stored s b k = None);
  rc_delete b k s e s' :
    inv s → DeleteObject client b k s = (e, s') →
    inv s' ∧ others_kept stored b k s s' ∧ (e = None → stored s' b k = None);
  rc_copy b k source src cond s e s' :
    inv s → source = PathEscape (b +:+ "/" +:+ src) →
    CopyObject client b k source cond s = (e, s') →
    inv s' ∧ others_kept stored b k s s' ∧
    (cond = true → is_Some (stored s b k) → e ≠ None ∧ stored s' b k = stored s b k) ∧
    (e = None → is_Some (stored s b src) ∧ stored s' b k = stored s b src)
}.
End contract.

Section laws.
Context {S : Type} (client : r2Client S) (bucket : string)
  (inv : S → Prop) (stored : S → string → string → option string)
  (contract : r2_contract client inv stored).

Definition r2_view : BlobView S := {|
  object s k := match validateKey k with Ok _ => stored s bucket k | Err _ => None end;
  store_ok := inv
|}.
#[local] Existing Instance r2_view.

Lemma r2_object s k : validateKey k = Ok () → object s k = stored s bucket k.
Proof using Type. cbn. by intros ->. Qed.

Lemma others_keep k s s' :
  inv s' → others_kept stored bucket k s s' → keeps_others k s s'.
Proof using Type.
  intros Hs Hk. split; [done|]. intros k' Hne. cbn. destruct (validateKey k'); [|done].
  apply Hk. congruence.
Qed.
Lemma same_reads s s' : inv s' → stored s' = stored s → only_reads s s'.
Proof using Type. intros Hs He. split; [done|]. intros k. cbn. by rewrite He. Qed.

Lemma r2_put_law s k r t x s' :
  inv s → r2_Put client bucket k r t s = (x, s') →
  keeps_others k s s' ∧
  (isRaw k = true → is_Some (object s k) → object s' k = object s k ∧ is_ok x = false) ∧
  (∀ i, x = Ok i → rd_err r = None ∧ object s' k = Some (rd_data r) ∧ describes i k (rd_data r)).
Proof using contract.
  intros Hs. unfold r2_Put, with_key. destruct (validateKey k) as [[]|e] eqn:Hk.
  2: { intros [= <- <-]. split; [by apply others_keep|done]. }
  rewrite !r2_object by done.
  destruct (PutObject client bucket k r (isRaw k) s) as [[e read] s1] eqn:E.
  destruct (rc_put _ _ _ contract _ _ _ _ _ _ _ _ Hs E) as (Hi & Ho & Hc & Hn).
  destruct e as [e|]; intros [= <- <-].
  - split; [by apply others_keep|]. split; [|done]. intros Hr Hv. by destruct (Hc Hr Hv).
  - destruct (Hn eq_refl) as (Hre & Hread & Hst).
    split; [by apply others_keep|]. split.
    + intros Hr Hv. by destruct (Hc Hr Hv).
    + intros i [= <-]. rewrite Hst, Hread. by repeat split.
Qed.

Lemma r2_get_law s k x s' :
  inv s → r2_Get client bucket k s = (x, s') →
  only_reads s s' ∧ (∀ r, x = Ok r → rd_err r = None → object s k = Some (rd_data r)).
Proof using contract.
  intros Hs. unfold r2_Get, with_key. destruct (validateKey k) as [[]|e] eqn:Hk.
  2: { intros [= <- <-]. split; [by apply same_reads|done]. }
  rewrite r2_object by done.
  destruct (GetObject client bucket k s) as [y s1] eqn:E.
  destruct (rc_get _ _ _ contract _ _ _ _ _ Hs E) as (Hi & Hsame & Hb).
  destruct y as [[body|]|e]; intros [= <- <-];
    (split; [by apply same_reads|]); [|done|done].
  intros r [= <-] Hre. by apply Hb.
Qed.

Lemma r2_exists_law s k x s' :
  inv s → r2_Exists client bucket k s = (x, s') →
  only_reads s s' ∧ (x = Ok false → object s k = None).
Proof using contract.
  intros Hs. unfold r2_Exists, with_key. destruct (validateKey k) as [[]|e] eqn:Hk.
  2: { intros [= <- <-]. split; [by apply same_reads|done]. }
  rewrite r2_object by done.
  destruct (HeadObject client bucket k s) as [y s1] eqn:E.
  destruct (rc_head _ _ _ contract _ _ _ _ _ Hs E) as (Hi & Hsame & Hb).
  destruct y as [h|e]; [intros [= <- <-]; split; [by apply same_reads|done]|].
  destruct (hasHTTPStatus e 404) eqn:H4; intros [= <- <-];
    (split; [by apply same_reads|]); [|done]. intros _. by apply (Hb e).
Qed.

Lemma r2_stat_law s k x s' :
  inv s → r2_Stat client bucket k s = (x, s') →
  only_reads s s' ∧ (∀ i, x = Ok i → ∃ c, object s k = Some c ∧ describes i k c).
Proof using contract.
  intros Hs. unfold r2_Stat, with_key. destruct (validateKey k) as [[]|e] eqn:Hk.
  2: { intros [= <- <-]. split; [by apply same_reads|done]. }
  destruct (HeadObject client bucket k s) as [y s1] eqn:E.
  destruct (rc_head _ _ _ contract _ _ _ _ _ Hs E) as (Hi1 & Hsame1 & _).
  destruct y as [h|e]; [|intros [= <- <-]; split; [by apply same_reads|done]].
  destruct (r2_Get client bucket k s1) as [g s2] eqn:G.
  destruct (r2_get_law s1 k g s2 Hi1 G) as ([Hi2 Hr2] & Hg).
  assert (Hreads : only_reads s s2).
  { split; [done|]. intros k'. rewrite Hr2. apply (same_reads s s1); done. }
  destruct g as [body|e]; [|intros [= <- <-]; done].
  destruct (rd_err body) as [e|] eqn:He; [intros [= <- <-]; done|].
  assert (Hok : ∀ i, describes i k (rd_data body) →
    (Ok i, s2) = (x, s') →
    only_reads s s' ∧ (∀ i, x = Ok i → ∃ c, object s k = Some c ∧ describes i k c)).
  { intros i Hd [= <- <-]. split; [done|]. intros ? [= <-]. exists (rd_data body).
    split; [|done]. destruct (same_reads s s1 Hi1 Hsame1) as [_ <-]. by apply Hg. }
  destruct (ho_ContentLength h) as [n|].
  - destruct (negb _); [intros [= <- <-]; done|]. by apply Hok.
  - by apply Hok.
Qed.

Lemma r2_delete_law s k x s' :
  inv s → r2_Delete client bucket k s = (x, s') →
  keeps_others k s s' ∧ (isRaw k = true → object s' k = object s k ∧ is_ok x = false) ∧
  (x = Ok () → object s' k = None).
Proof using contract.
  intros Hs. unfold r2_Delete, with_key. destruct (validateKey k) as [[]|e] eqn:Hk.
  2: { intros [= <- <-]. split; [by apply others_keep|done]. }
  rewrite !r2_object by done. destruct (isRaw k).
  { intros [= <- <-]. split; [by apply others_keep|done]. }
  destruct (DeleteObject client bucket k s) as [e s1] eqn:E.
  destruct (rc_delete _ _ _ contract _ _ _ _ _ Hs E) as (Hi & Ho & Hn).
  destruct e; intros [= <- <-]; (split; [by apply others_keep|]); (split; [done|]); [done|].
  intros _. by apply Hn.
Qed.

Lemma r2_purge_law s k x s' :
  inv s → r2_Purge client bucket k s = (x, s') →
  keeps_others k s s' ∧ (x = Ok () → object s' k = None).
Proof using contract.
  intros Hs. unfold r2_Purge, with_key. destruct (validateKey k) as [[]|e] eqn:Hk.
  2: { intros [= <- <-]. split; [by apply others_keep|done]. }
  rewrite !r2_object by done.
  destruct (DeleteObject client bucket k s) as [e s1] eqn:E.
  destruct (rc_delete _ _ _ contract _ _ _ _ _ Hs E) as (Hi & Ho & Hn).
  destruct e; intros [= <- <-]; (split; [by apply others_keep|]); [done|].
  intros _. by apply Hn.
Qed.
End laws.

Lemma r2_laws {S} (client : r2Client S) bucket inv stored :
  r2_contract client inv stored →
  @BlobLaws S (R2BlobStore client bucket) (r2_view bucket inv stored).
Proof.
  intros Hc. split.
  - by apply (r2_put_law client bucket inv stored).
  - by apply (r2_get_law client bucket inv stored).
  - by apply (r2_exists_law client bucket inv stored).
  - by apply (r2_stat_law client bucket inv stored).
  - by apply (r2_delete_law client bucket inv stored).
  - by apply (r2_purge_law client bucket inv stored).
Qed.

(** ** A service in memory

    A client that answers from a map: the contract can be met. *)

Definition memory : Type := gmap (string * string) string.
Definition precondition_failed : client_error :=
  {| ce_status := Some 412; ce_text := "PreconditionFailed" |}.
Definition no_such_key : client_error := {| ce_status := Some 404; ce_text := "NoSuchKey" |}.

Definition memory_put (b k content : string) (cond : bool) (m : memory)
    : option client_error * memory :=
  if cond && bool_decide (is_Some (m !! (b, k))) then (Some precondition_failed, m)
  else (None, <[(b, k) := content]> m).

Definition memory_client : r2Client memory := {|
  PutObject b k body cond m :=
    match rd_err body with
    | Some e => (Some {| ce_status := None; ce_text := e |}, rd_data body, m)
    | None => let '(e, m') := memory_put b k (rd_data body) cond m in (e, rd_data body, m')
    end;
  GetObject b k m :=
    match m !! (b, k) with
    | Some c => (Ok (Some (NewReader c)), m)
    | None => (Err no_such_key, m)
    end;
  HeadObject b k m :=
    match m !! (b, k) with
    | Some c => (Ok {| ho_ContentLength := Some (slen c); ho_LastModified := None |}, m)
    | None => (Err no_such_key, m)
    end;
  DeleteObject b k m := (None, delete (b, k) m);
  CopyObject b k source cond m :=
    match list_find (λ kv, kv.1.1 = b ∧ PathEscape (b +:+ "/" +:+ kv.1.2) = source)
            (map_to_list m) with
    | Some (_, (_, c)) => memory_put b k c cond m
    | None => (Some no_such_key, m)
    end;
  S3CreateMultipartUpload _ _ _ _ m := (Ok (Some "upload-1"), m);
  S3CompleteMultipartUpload _ _ _ _ _ m := (Some no_such_key, m);
  S3AbortMultipartUpload _ _ _ m := (None, m)
|}.

Definition escape_char (c : ascii) : string :=
  if path_unreserved c then String c ""
  else String "%"%char (String (upper_hex (N_of_ascii c / 16))
         (String (upper_hex (N_of_ascii c mod 16)) "")).

Lemma upper_hex_value n : (n < 16)%N → hex_value (upper_hex n) = Some n.
Proof. apply (all_below (λ k, hex_value (upper_hex k) = Some k) 16). vm_compute. reflexivity. Qed.
Lemma upper_hex_inj n m : (n < 16)%N → (m < 16)%N → upper_hex n = upper_hex m → n = m.
Proof.
  intros Hn Hm He. apply (f_equal hex_value) in He.
  rewrite !upper_hex_value in He by done. by injection He.
Qed.

Lemma escape_char_inj c d x y :
  escape_char c +:+ x = escape_char d +:+ y → c = d ∧ x = y.
Proof.
  assert (Hp : path_unreserved "%"%char = false) by reflexivity.
  unfold escape_char.
  destruct (path_unreserved c) eqn:Hc, (path_unreserved d) eqn:Hd;
    rewrite !string_app_cons, ?string_app_nil_l.
  - by intros [= -> ->].
  - intros [= E _]. congruence.
  - intros [= E _]. congruence.
  - intros H. injection H as H1 H2 H3.
    pose proof (N_ascii_bounded c). pose proof (N_ascii_bounded d).
    apply upper_hex_inj in H1; [|apply N.Div0.div_lt_upper_bound; lia..].
    apply upper_hex_inj in H2; [|apply N.mod_lt; lia..].
    split; [|done]. rewrite <-(ascii_N_embedding c), <-(ascii_N_embedding d). f_equal.
    rewrite (N.div_mod (N_of_ascii c) 16), (N.div_mod (N_of_ascii d) 16) by lia. congruence.
Qed.

Lemma PathEscape_inj a b : PathEscape a = PathEscape b → a = b.
Proof.
  revert b. induction a as [|c a IH]; intros [|d b].
  - done.
  - cbn. destruct (path_unreserved d); discriminate.
  - cbn. destruct (path_unreserved c); discriminate.
  - change (escape_char c +:+ PathEscape a = escape_char d +:+ PathEscape b → String c a = String d b).
    intros [-> H]%escape_char_inj. by rewrite (IH b).
Qed.

Definition memory_stored (m : memory) (b k : string) : option string := m !! (b, k).

Lemma memory_put_spec b k c cond m e m' :
  memory_put b k c cond m = (e, m') →
  others_kept memory_stored b k m m' ∧
  (cond = true → is_Some (memory_stored m b k) →
    e ≠ None ∧ memory_stored m' b k = memory_stored m b k) ∧
  (e = None → memory_stored m' b k = Some c).
Proof.
  unfold memory_put, memory_stored, others_kept. destruct cond; cbn.
  - case_bool_decide as Hs; intros [= <- <-]; [done|].
    split; [|split; [done|intros _; apply lookup_insert_eq]].
    intros b' k' Hne. apply lookup_insert_ne. congruence.
  - intros [= <- <-]. split; [|split; [done|intros _; apply lookup_insert_eq]].
    intros b' k' Hne. apply lookup_insert_ne. congruence.
Qed.

Lemma memory_contract : r2_contract memory_client (λ _, True) memory_stored.
Proof.
  split.
  - intros b k body cond s e read s' _. cbn. destruct (rd_err body) as [er|].
    { intros [= <- <- <-]. done. }
    destruct (memory_put b k (rd_data body) cond s) as [e1 s1] eqn:E.
    intros [= <- <- <-]. apply memory_put_spec in E as (H1 & H2 & H3).
    split; [done|]. split; [done|]. split; [done|]. intros He. by rewrite H3.
  - intros b k s x s' _. cbn. unfold memory_stored.
    destruct (s !! (b, k)) as [c|] eqn:Hl; intros [= <- <-]; (split; [done|]); (split; [done|]);
      [|done]. by intros body [= <-] _.
  - intros b k s x s' _. cbn. unfold memory_stored.
    destruct (s !! (b, k)) as [c|] eqn:Hl; intros [= <- <-]; (split; [done|]); (split; [done|]);
      [done|]. done.
  - intros b k s e s' _. cbn. intros [= <- <-]. split; [done|]. unfold memory_stored.
    split; [|intros _; apply lookup_delete_eq].
    intros b' k' Hne. apply lookup_delete_ne. congruence.
  - intros b k source src cond s e s' _ ->. cbn.
    destruct (list_find _ (map_to_list s)) as [[i [[b1 k1] c]]|] eqn:Hf.
    + apply list_find_Some in Hf as (Hi & [Hb Hk] & _). cbn in Hb, Hk. subst b1.
      apply PathEscape_inj in Hk. apply string_app_inj_l in Hk. apply string_app_inj_l in Hk as ->.
      apply list_elem_of_lookup_2, elem_of_map_to_list in Hi.
      intros (H1 & H2 & H3)%memory_put_spec. split; [done|]. split; [done|]. split; [done|].
      intros He. assert (memory_stored s b src = Some c) as -> by exact Hi.
      split; [done|]. by apply H3.
    + intros [= <- <-]. done.
Qed.

(** ** Properties of the remote store *)

(** C26: against a service that keeps its documented contract the remote store keeps
    every law of the interface: what [Put] reports stored is the object, a raw
    object is never replaced or deleted, [Stat] describes the bytes it read,
    and every operation leaves the objects under other keys alone. *)
Theorem r2_keeps_laws {S} (client : r2Client S) bucket inv stored :
  r2_contract client inv stored →
  @BlobLaws S (R2BlobStore client bucket) (r2_view bucket inv stored).
Proof. apply r2_laws. Qed.

Lemma r2_keeps_laws_witness :
  @BlobLaws memory (R2BlobStore memory_client "artifacts")
    (r2_view "artifacts" (λ _, True) memory_stored).
Proof. apply (r2_keeps_laws memory_client "artifacts"). apply memory_contract. Defined.

(** Promoting a staged upload moves it to immutable raw storage: it needs a
    source outside and a destination inside [raw/]; it never changes a raw object that
    exists already; when it succeeds the destination has the staged content and the
    staging object is gone; and no third object changes. *)
Theorem promote_to_raw {S} (client : r2Client S) bucket inv stored source destination s x s' :
  r2_contract client inv stored → inv s →
  PromoteMultipartUpload client bucket source destination s = (x, s') →
  (is_Some (stored s bucket destination) → isRaw destination = true →
   stored s' bucket destination = stored s bucket destination) ∧
  (x = Ok () →
   isRaw source = false ∧ isRaw destination = true ∧
   stored s bucket destination = None ∧
   is_Some (stored s bucket source) ∧
   stored s' bucket destination = stored s bucket source ∧
   stored s' bucket source = None) ∧
  (∀ k, k ≠ source → k ≠ destination → stored s' bucket k = stored s bucket k).
Proof.
  intros Hc Hs. unfold PromoteMultipartUpload, with_key.
  destruct (validateKey source) as [[]|]; [|intros [= <- <-]; done].
  destruct (validateKey destination) as [[]|]; [|intros [= <- <-]; done].
  destruct (isRaw source) eqn:H1; [intros [= <- <-]; done|].
  destruct (isRaw destination) eqn:H2; [|intros [= <- <-]; done]. cbn.
  assert (Hne : destination ≠ source) by (intros ->; congruence).
  destruct (CopyObject _ _ _ _ _ _) as [e s1] eqn:E.
  destruct (rc_copy _ _ _ Hc _ _ _ _ _ _ _ _ Hs eq_refl E) as (Hs1 & Ho1 & Hex & Hok).
  destruct e as [e|].
  { intros [= <- <-]. split; [|split; [done|]].
    - intros Hv _. by destruct (Hex eq_refl Hv).
    - intros k Hk1 Hk2. apply Ho1. congruence. }
  destruct (Hok eq_refl) as [Hsrc Hdst].
  assert (Hnew : stored s bucket destination = None).
  { destruct (stored s bucket destination) eqn:Hv; [|done]. by destruct (Hex eq_refl). }
  destruct (DeleteObject _ _ _ _) as [e s2] eqn:F.
  destruct (rc_delete _ _ _ Hc _ _ _ _ _ Hs1 F) as (_ & Ho2 & Hdel).
  assert (Hrest : ∀ k, k ≠ source → k ≠ destination → stored s2 bucket k = stored s bucket k).
  { intros k Hk1 Hk2. rewrite Ho2, Ho1; congruence. }
  destruct e as [e|]; intros [= <- <-]; (split; [|split; [|done]]); rewrite Hnew; try by intros [].
  - done.
  - intros _. rewrite Hdel by done. rewrite Ho2 by congruence. done.
Qed.

Lemma promote_to_raw_witness :
  let s : memory := {[("artifacts", "staging/multipart/stage_1") := "video"]} in
  ∃ s', PromoteMultipartUpload memory_client "artifacts" "staging/multipart/stage_1"
          "raw/sessions/s1/a.mp4" s = (Ok (), s') ∧
        memory_stored s' "artifacts" "raw/sessions/s1/a.mp4" = Some "video" ∧
        memory_stored s' "artifacts" "staging/multipart/stage_1" = None.
Proof.
  intros s. destruct (PromoteMultipartUpload memory_client "artifacts" "staging/multipart/stage_1"
    "raw/sessions/s1/a.mp4" s) as [x s'] eqn:H.
  assert (Hx : x = Ok ()).
  { pose proof (f_equal fst H) as Hx. vm_compute in Hx. symmetry. exact Hx. }
  destruct (promote_to_raw memory_client "artifacts" (λ _, True) memory_stored
    "staging/multipart/stage_1" "raw/sessions/s1/a.mp4" s x s' memory_contract I H)
    as (_ & Hp & _).
  destruct (Hp Hx) as (_ & _ & _ & _ & H1 & H2).
  exists s'. split; [rewrite Hx; reflexivity|]. split; [|exact H2].
  rewrite H1. vm_compute. reflexivity.
Defined.

(** The store over the service in memory, for examples. *)
#[export] Instance memory_store : BlobStore memory := R2BlobStore memory_client "artifacts".
#[export] Instance memory_view : BlobView memory := r2_view "artifacts" (λ _, True) memory_stored.
#[export] Instance memory_blob_laws : BlobLaws memory.
Proof. apply (r2_laws memory_client "artifacts"). apply memory_contract. Qed.

#[export] Instance memory_serving : BlobServing memory.
Proof.
  refine {| serving _ := True |}; [done| |].
  all: intros s k c _; cbn; destruct (validateKey k) as [[]|] eqn:Ek; [|done];
    unfold memory_stored; intros Hs.
  - exists (NewReader c), s. unfold r2_Get, with_key. cbn. by rewrite Ek, Hs.
  - eexists _, s. unfold r2_Stat, r2_Get, with_key. cbn. rewrite Ek, Hs. cbn. rewrite Hs. cbn. rewrite Z.eqb_refl. by split.
Defined.
