(* ===== verification/Validator.v ===== *)
(** * Validation of trajectories ([internal/worker/validator.go])

    The worker checks a submitted session before a reviewer sees it: the stored
    objects match the registered artifacts, the trajectory is one JSON document the
    schema accepts, its references stay inside the session and its times are
    consistent.  An accepted trajectory is normalized: pointer movement is
    sampled, adjacent button events become clicks.

    The JSON schema library and the media inspector are parameters, and so are the
    texts of the errors of the JSON decoder and of the object store. *)

From S2P Require Import Prelude Domain Text Encoding Json Sha256 Blob.

Definition SchemaVersion : string := "trajectory/v1".
Definition ValidatorVersion : string := "trajectory-validator/0.2.0".
Definition maxTrajectory : Z := Z.shiftl 32 20.

(** ** The document *)

Record VideoSegment := {
  vs_Key : string; vs_StartNS : Z; vs_EndNS : Z; vs_SHA256 : string; vs_Size : Z;
  vs_SegmentID : string
}.
Record ActionTime := { at_TimestampNS : Z; at_Type : string }.
Record OutputArtifact := {
  oa_Key : string; oa_SHA256 : string; oa_Size : Z; oa_MediaType : string
}.
Record validationDocument := {
  vd_SchemaVersion : string;
  vd_DurationNS : Z;
  vd_VideoSegments : list VideoSegment;
  vd_Actions : list ActionTime;
  vd_OutputArtifacts : list OutputArtifact;
  vd_ConsentDocumentID : string;
  vd_ConsentVersion : string;
  vd_ClipboardCaptured : bool;
  vd_RecordingVisible : bool;
  vd_SessionID : string
}.

Definition zero_segment : VideoSegment :=
  {| vs_Key := ""; vs_StartNS := 0; vs_EndNS := 0; vs_SHA256 := ""; vs_Size := 0;
     vs_SegmentID := "" |}.
Definition segment_fields : list (string * decoder VideoSegment) :=
  [("key", on_field vs_Key (λ x s, {| vs_Key := x; vs_StartNS := vs_StartNS s;
      vs_EndNS := vs_EndNS s; vs_SHA256 := vs_SHA256 s; vs_Size := vs_Size s;
      vs_SegmentID := vs_SegmentID s |}) decode_string);
   ("start_ns", on_field vs_StartNS (λ x s, {| vs_Key := vs_Key s; vs_StartNS := x;
       vs_EndNS := vs_EndNS s; vs_SHA256 := vs_SHA256 s; vs_Size := vs_Size s;
       vs_SegmentID := vs_SegmentID s |}) decode_uint64);
   ("end_ns", on_field vs_EndNS (λ x s, {| vs_Key := vs_Key s; vs_StartNS := vs_StartNS s;
       vs_EndNS := x; vs_SHA256 := vs_SHA256 s; vs_Size := vs_Size s;
       vs_SegmentID := vs_SegmentID s |}) decode_uint64);
   ("sha256", on_field vs_SHA256 (λ x s, {| vs_Key := vs_Key s; vs_StartNS := vs_StartNS s;
       vs_EndNS := vs_EndNS s; vs_SHA256 := x; vs_Size := vs_Size s;
       vs_SegmentID := vs_SegmentID s |}) decode_string);
   ("size", on_field vs_Size (λ x s, {| vs_Key := vs_Key s; vs_StartNS := vs_StartNS s;
       vs_EndNS := vs_EndNS s; vs_SHA256 := vs_SHA256 s; vs_Size := x;
       vs_SegmentID := vs_SegmentID s |}) decode_int64);
   ("segment_id", on_field vs_SegmentID (λ x s, {| vs_Key := vs_Key s; vs_StartNS := vs_StartNS s;
       vs_EndNS := vs_EndNS s; vs_SHA256 := vs_SHA256 s; vs_Size := vs_Size s;
       vs_SegmentID := x |}) decode_string)].

Definition action_fields : list (string * decoder ActionTime) :=
  [("timestamp_ns", on_field at_TimestampNS (λ x a, {| at_TimestampNS := x;
      at_Type := at_Type a |}) decode_uint64);
   ("type", on_field at_Type (λ x a, {| at_TimestampNS := at_TimestampNS a;
       at_Type := x |}) decode_string)].

Definition output_fields : list (string * decoder OutputArtifact) :=
  [("key", on_field oa_Key (λ x o, {| oa_Key := x; oa_SHA256 := oa_SHA256 o; oa_Size := oa_Size o;
      oa_MediaType := oa_MediaType o |}) decode_string);
   ("sha256", on_field oa_SHA256 (λ x o, {| oa_Key := oa_Key o; oa_SHA256 := x;
       oa_Size := oa_Size o; oa_MediaType := oa_MediaType o |}) decode_string);
   ("size", on_field oa_Size (λ x o, {| oa_Key := oa_Key o; oa_SHA256 := oa_SHA256 o; oa_Size := x;
       oa_MediaType := oa_MediaType o |}) decode_int64);
   ("media_type", on_field oa_MediaType (λ x o, {| oa_Key := oa_Key o; oa_SHA256 := oa_SHA256 o;
       oa_Size := oa_Size o; oa_MediaType := x |}) decode_string)].

Definition zero_output : OutputArtifact :=
  {| oa_Key := ""; oa_SHA256 := ""; oa_Size := 0; oa_MediaType := "" |}.

(** The nested structs of the document, as decoders of the whole. *)
Definition capture_fields : list (string * decoder validationDocument) :=
  [("duration_ns", on_field vd_DurationNS
     (λ x d, {| vd_SchemaVersion := vd_SchemaVersion d; vd_DurationNS := x;
         vd_VideoSegments := vd_VideoSegments d; vd_Actions := vd_Actions d;
         vd_OutputArtifacts := vd_OutputArtifacts d;
         vd_ConsentDocumentID := vd_ConsentDocumentID d; vd_ConsentVersion := vd_ConsentVersion d;
         vd_ClipboardCaptured := vd_ClipboardCaptured d;
         vd_RecordingVisible := vd_RecordingVisible d; vd_SessionID := vd_SessionID d |})
     decode_uint64);
   ("video_segments", on_field vd_VideoSegments
     (λ x d, {| vd_SchemaVersion := vd_SchemaVersion d; vd_DurationNS := vd_DurationNS d;
         vd_VideoSegments := x; vd_Actions := vd_Actions d;
         vd_OutputArtifacts := vd_OutputArtifacts d;
         vd_ConsentDocumentID := vd_ConsentDocumentID d; vd_ConsentVersion := vd_ConsentVersion d;
         vd_ClipboardCaptured := vd_ClipboardCaptured d;
         vd_RecordingVisible := vd_RecordingVisible d; vd_SessionID := vd_SessionID d |})
     (decode_slice zero_segment (decode_struct false segment_fields)))].
Definition outcome_fields : list (string * decoder validationDocument) :=
  [("output_artifacts", on_field vd_OutputArtifacts
     (λ x d, {| vd_SchemaVersion := vd_SchemaVersion d; vd_DurationNS := vd_DurationNS d;
         vd_VideoSegments := vd_VideoSegments d; vd_Actions := vd_Actions d;
         vd_OutputArtifacts := x; vd_ConsentDocumentID := vd_ConsentDocumentID d;
         vd_ConsentVersion := vd_ConsentVersion d; vd_ClipboardCaptured := vd_ClipboardCaptured d;
         vd_RecordingVisible := vd_RecordingVisible d; vd_SessionID := vd_SessionID d |})
     (decode_slice zero_output (decode_struct false output_fields)))].
Definition privacy_fields : list (string * decoder validationDocument) :=
  [("consent_document_id", on_field vd_ConsentDocumentID
     (λ x d, {| vd_SchemaVersion := vd_SchemaVersion d; vd_DurationNS := vd_DurationNS d;
         vd_VideoSegments := vd_VideoSegments d; vd_Actions := vd_Actions d;
         vd_OutputArtifacts := vd_OutputArtifacts d; vd_ConsentDocumentID := x;
         vd_ConsentVersion := vd_ConsentVersion d; vd_ClipboardCaptured := vd_ClipboardCaptured d;
         vd_RecordingVisible := vd_RecordingVisible d; vd_SessionID := vd_SessionID d |})
     decode_string);
   ("consent_version", on_field vd_ConsentVersion
     (λ x d, {| vd_SchemaVersion := vd_SchemaVersion d; vd_DurationNS := vd_DurationNS d;
         vd_VideoSegments := vd_VideoSegments d; vd_Actions := vd_Actions d;
         vd_OutputArtifacts := vd_OutputArtifacts d;
         vd_ConsentDocumentID := vd_ConsentDocumentID d; vd_ConsentVersion := x;
         vd_ClipboardCaptured := vd_ClipboardCaptured d;
         vd_RecordingVisible := vd_RecordingVisible d; vd_SessionID := vd_SessionID d |})
     decode_string);
   ("clipboard_captured", on_field vd_ClipboardCaptured
     (λ x d, {| vd_SchemaVersion := vd_SchemaVersion d; vd_DurationNS := vd_DurationNS d;
         vd_VideoSegments := vd_VideoSegments d; vd_Actions := vd_Actions d;
         vd_OutputArtifacts := vd_OutputArtifacts d;
         vd_ConsentDocumentID := vd_ConsentDocumentID d; vd_ConsentVersion := vd_ConsentVersion d;
         vd_ClipboardCaptured := x; vd_RecordingVisible := vd_RecordingVisible d;
         vd_SessionID := vd_SessionID d |})
     decode_bool);
   ("recording_visible", on_field vd_RecordingVisible
     (λ x d, {| vd_SchemaVersion := vd_SchemaVersion d; vd_DurationNS := vd_DurationNS d;
         vd_VideoSegments := vd_VideoSegments d; vd_Actions := vd_Actions d;
         vd_OutputArtifacts := vd_OutputArtifacts d;
         vd_ConsentDocumentID := vd_ConsentDocumentID d; vd_ConsentVersion := vd_ConsentVersion d;
         vd_ClipboardCaptured := vd_ClipboardCaptured d; vd_RecordingVisible := x;
         vd_SessionID := vd_SessionID d |})
     decode_bool)].
Definition provenance_fields : list (string * decoder validationDocument) :=
  [("session_id", on_field vd_SessionID
     (λ x d, {| vd_SchemaVersion := vd_SchemaVersion d; vd_DurationNS := vd_DurationNS d;
         vd_VideoSegments := vd_VideoSegments d; vd_Actions := vd_Actions d;
         vd_OutputArtifacts := vd_OutputArtifacts d;
         vd_ConsentDocumentID := vd_ConsentDocumentID d; vd_ConsentVersion := vd_ConsentVersion d;
         vd_ClipboardCaptured := vd_ClipboardCaptured d;
         vd_RecordingVisible := vd_RecordingVisible d; vd_SessionID := x |})
     decode_string)].
Definition document_fields : list (string * decoder validationDocument) :=
  [("schema_version", on_field vd_SchemaVersion
     (λ x d, {| vd_SchemaVersion := x; vd_DurationNS := vd_DurationNS d;
         vd_VideoSegments := vd_VideoSegments d; vd_Actions := vd_Actions d;
         vd_OutputArtifacts := vd_OutputArtifacts d;
         vd_ConsentDocumentID := vd_ConsentDocumentID d; vd_ConsentVersion := vd_ConsentVersion d;
         vd_ClipboardCaptured := vd_ClipboardCaptured d;
         vd_RecordingVisible := vd_RecordingVisible d; vd_SessionID := vd_SessionID d |})
     decode_string);
   ("capture", decode_struct false capture_fields);
   ("actions", on_field vd_Actions
     (λ x d, {| vd_SchemaVersion := vd_SchemaVersion d; vd_DurationNS := vd_DurationNS d;
         vd_VideoSegments := vd_VideoSegments d; vd_Actions := x;
         vd_OutputArtifacts := vd_OutputArtifacts d;
         vd_ConsentDocumentID := vd_ConsentDocumentID d; vd_ConsentVersion := vd_ConsentVersion d;
         vd_ClipboardCaptured := vd_ClipboardCaptured d;
         vd_RecordingVisible := vd_RecordingVisible d; vd_SessionID := vd_SessionID d |})
     (decode_slice {| at_TimestampNS := 0; at_Type := "" |} (decode_struct false action_fields)));
   ("outcome", decode_struct false outcome_fields);
   ("privacy", decode_struct false privacy_fields);
   ("provenance", decode_struct false provenance_fields)].

Definition zero_document : validationDocument :=
  {| vd_SchemaVersion := ""; vd_DurationNS := 0; vd_VideoSegments := []; vd_Actions := [];
     vd_OutputArtifacts := []; vd_ConsentDocumentID := ""; vd_ConsentVersion := "";
     vd_ClipboardCaptured := false; vd_RecordingVisible := false; vd_SessionID := "" |}.
(** [json.Unmarshal(raw, &document)] of a parsed text: [None] is an error. *)
Definition decode_document (v : json) : option validationDocument :=
  let '(d, e) := decode_struct false document_fields v zero_document in
  if (e : bool) then None else Some d.

(** ** Cross references *)

Definition registered_artifacts (artifacts : list Artifact) : gmap string Artifact :=
  foldl (λ m a, <[art_Key a := a]> m) ∅ artifacts.

Fixpoint unique_onto (seen : list string) (values : list string) : list string :=
  match values with
  | [] => []
  | v :: rest =>
    if bool_decide (v ∈ seen) then unique_onto seen rest
    else v :: unique_onto (v :: seen) rest
  end.
Definition unique (values : list string) : list string := unique_onto [] values.

Definition problem_if (b : bool) (text : string) : list string := if b then [text] else [].

(** One pass over the segments; [previous] is the end of the last one, [first]
    says that there is none. *)
Definition segment_problems (prefix : string) (registered : gmap string Artifact)
    (duration : Z) (first : bool) (previous : Z) (s : VideoSegment) : list string :=
  problem_if (negb (HasPrefix (vs_Key s) prefix))
    ("video segment " +:+ vs_SegmentID s +:+ " is outside the submitted session") ++
  match registered !! vs_Key s with
  | None => ["video segment is not registered: " +:+ vs_Key s]
  | Some a =>
    problem_if (negb (bool_decide (art_SHA256 a = vs_SHA256 s)) || negb (art_Size a =? vs_Size s)
                || negb (bool_decide (art_MediaType a = "video/mp4")))
      ("video segment metadata mismatch: " +:+ vs_Key s)
  end ++
  problem_if (negb first && (vs_StartNS s <? previous))
    ("video segment " +:+ vs_SegmentID s +:+ " overlaps its predecessor") ++
  problem_if (duration <? vs_EndNS s)
    ("video segment " +:+ vs_SegmentID s +:+ " exceeds capture duration").
Fixpoint segments_problems prefix registered duration first previous (l : list VideoSegment)
    : list string :=
  match l with
  | [] => []
  | s :: l' =>
    segment_problems prefix registered duration first previous s ++
    segments_problems prefix registered duration false (vs_EndNS s) l'
  end.

Fixpoint actions_problems (duration index previous : Z) (l : list ActionTime) : list string :=
  match l with
  | [] => []
  | a :: l' =>
    problem_if ((0 <? index) && (at_TimestampNS a <? previous))
      ("action " +:+ Sprint index +:+ " timestamp is not monotonic") ++
    problem_if (duration <? at_TimestampNS a)
      ("action " +:+ Sprint index +:+ " exceeds capture duration") ++
    actions_problems duration (index + 1) (at_TimestampNS a) l'
  end.

Definition output_problems (prefix : string) (registered : gmap string Artifact)
    (o : OutputArtifact) : list string :=
  problem_if (negb (HasPrefix (oa_Key o) prefix))
    ("output artifact is outside the submitted session: " +:+ oa_Key o) ++
  match registered !! oa_Key o with
  | None => ["output artifact is not registered: " +:+ oa_Key o]
  | Some a =>
    problem_if (negb (bool_decide (art_SHA256 a = oa_SHA256 o)) || negb (art_Size a =? oa_Size o)
                || negb (bool_decide (art_MediaType a = oa_MediaType o)))
      ("output artifact metadata mismatch: " +:+ oa_Key o)
  end.

Definition validateCrossReferences (sessionID : string) (document : validationDocument)
    (registered : gmap string Artifact) : list string :=
  let prefix := "raw/sessions/" +:+ sessionID +:+ "/" in
  unique
    (problem_if (negb (bool_decide (vd_SchemaVersion document = SchemaVersion)))
       ("unsupported schema_version: " +:+ vd_SchemaVersion document) ++
     problem_if (negb (bool_decide (vd_SessionID document = sessionID)))
       "provenance.session_id does not match submitted session" ++
     segments_problems prefix registered (vd_DurationNS document) true 0
       (vd_VideoSegments document) ++
     actions_problems (vd_DurationNS document) 0 0 (vd_Actions document) ++
     concat (map (output_problems prefix registered) (vd_OutputArtifacts document)) ++
     problem_if (vd_ClipboardCaptured document || negb (vd_RecordingVisible document))
       "privacy invariants are not satisfied").

(** ** Normalized actions *)

Definition mouseMoveIntervalNS : Z := 100000000.

(** [json.Number.Int64] with its error ignored: a number out of range gives the
    bound, a fraction or an exponent zero. *)
Definition number_int64 (t : string) : Z :=
  let '(negative, rest) := match t with String "-" r => (true, r) | _ => (false, t) end in
  match digits_value 10 rest 0 with
  | Some v => if (negative : bool) then Z.max (- v) (- 2 ^ 63) else Z.min v (2 ^ 63 - 1)
  | None => 0
  end.
(** The decoder uses [UseNumber], so the [float64] case does not occur. *)
Definition uintValue (v : option json) : Z :=
  match v with
  | Some (JNumber t) => let parsed := number_int64 t in if 0 <? parsed then parsed else 0
  | _ => 0
  end.

Record pointer := { last_move : Z; pointer_x : string; pointer_y : string }.

(** The click of a pair of button events. *)
Definition click (next : list (string * json)) (button : string) (p : pointer) : json :=
  let base := put_field "timestamp_ns" (default JNull (field "timestamp_ns" next))
                (put_field "type" (JString "click") (put_field "button" (JString button) [])) in
  let with_app := match field "application" next with
                  | Some a => put_field "application" a base
                  | None => base
                  end in
  JObject (if bool_decide (pointer_x p ≠ "") && bool_decide (pointer_y p ≠ "")
           then put_field "x" (JNumber (pointer_x p)) (put_field "y" (JNumber (pointer_y p)) with_app)
           else with_app).

Fixpoint normalize_from (p : pointer) (actions : list json) : list json :=
  match actions with
  | [] => []
  | JObject action :: rest =>
    let timestamp := uintValue (field "timestamp_ns" action) in
    let typeName := as_string (field "type" action) in
    if bool_decide (typeName = "mouse_move") then
      let x := as_number (field "x" action) in
      let y := as_number (field "y" action) in
      if negb (last_move p =? 0) && (wrap_uint64 (timestamp - last_move p) <? mouseMoveIntervalNS)
      then normalize_from {| last_move := last_move p; pointer_x := x; pointer_y := y |} rest
      else JObject action ::
           normalize_from {| last_move := timestamp; pointer_x := x; pointer_y := y |} rest
    else
      match bool_decide (typeName = "mouse_down"), rest with
      | true, JObject next :: rest' =>
        let button := as_string (field "button" action) in
        if bool_decide (as_string (field "type" next) = "mouse_up")
           && bool_decide (button ≠ "") && bool_decide (button = as_string (field "button" next))
        then click next button p :: normalize_from p rest'
        else JObject action :: normalize_from p rest
      | _, _ => JObject action :: normalize_from p rest
      end
  | v :: rest => v :: normalize_from p rest
  end.
Definition normalizeActions (actions : list json) : list json :=
  normalize_from {| last_move := 0; pointer_x := ""; pointer_y := "" |} actions.

(** [object["actions"] = normalizeActions(actions)], when the value is an object
    with an array of actions. *)
Definition normalize (v : json) : json :=
  match v with
  | JObject l =>
    match field "actions" l with
    | Some (JArray actions) => JObject (put_field "actions" (JArray (normalizeActions actions)) l)
    | _ => v
    end
  | _ => v
  end.

(** *** [actionsJSONL]

    The elements of the array are [json.RawMessage]s: the bytes of the text as they
    are, white space inside them included. *)

(** The text a parser consumed, after leading white space. *)
Definition consumed (s r : string) : string :=
  stake (String.length (skip_ws s) - String.length r) (skip_ws s).

Fixpoint raw_items (fuel : nat) (s : string) : option (list string * string) :=
  match fuel with
  | O => None
  | S fuel' =>
    '(_, r) ← value (fuel_for s) max_depth s;
    match expect "," (skip_ws r) with
    | Some r' => '(l, r'') ← raw_items fuel' r'; Some (consumed s r :: l, r'')
    | None => r' ← expect "]" (skip_ws r); Some ([consumed s r], r')
    end
  end.
(** [None] is a value that does not decode into a slice. *)
Definition raw_array (s : string) : option (list string) :=
  match expect "[" (skip_ws s) with
  | Some r =>
    match expect "]" (skip_ws r) with
    | Some _ => Some []
    | None => fst <$> raw_items (String.length r) r
    end
  | None => if HasPrefix (skip_ws s) "null" then Some [] else None
  end.
(** The text of each member of the object. *)
Fixpoint raw_members (fuel : nat) (s : string) : option (list (string * string)) :=
  match fuel with
  | O => None
  | S fuel' =>
    r0 ← expect quote_char (skip_ws s);
    '(k, r1) ← scan_string (String.length r0) r0;
    r2 ← expect ":" (skip_ws r1);
    '(_, r3) ← value (fuel_for r2) max_depth r2;
    match expect "," (skip_ws r3) with
    | Some r4 => l ← raw_members fuel' r4; Some ((k, consumed r2 r3) :: l)
    | None => Some [(k, consumed r2 r3)]
    end
  end.

Fixpoint last_actions (l : list (string * string)) (old : option (list string))
    : option (list string) :=
  match l with
  | [] => old
  | (k, text) :: l' =>
    if bool_decide (fold_name k = "actions") then
      match old, raw_array text with
      | Some _, Some a => last_actions l' (Some a)
      | _, _ => None
      end
    else last_actions l' old
  end.

Definition actionsJSONL (trajectory : string) : option string :=
  _ ← Parse trajectory;
  let s := skip_ws trajectory in
  actions ←
    match expect "{" s with
    | Some r =>
      match expect "}" (skip_ws r) with
      | Some _ => Some []
      | None => l ← raw_members (String.length r) r; last_actions l (Some [])
      end
    | None => if HasPrefix s "null" then Some [] else None
    end;
  Some (String.concat "" (map (λ a, a +:+ newline) actions)).

(** ** Media *)

Record MediaInfo := {
  mi_Codec : string; mi_Width : Z; mi_Height : Z; mi_DurationSeconds : float64
}.

Definition float_of (n : Z) : float64 := binary_normalize 53 1024 n 0 false.
Definition float_max (x y : float64) : float64 := if SFltb x y then y else x.
(** The constants [1_000_000_000] and [0.10]. *)
Definition billion64 : float64 := float_of 1000000000.
Definition tenth64 : float64 := SFdiv 53 1024 (float_of 1) (float_of 10).

Definition declared_seconds (s : VideoSegment) : float64 :=
  SFdiv 53 1024 (float_of (vs_EndNS s - vs_StartNS s)) billion64.
Definition duration_differs (s : VideoSegment) (info : MediaInfo) : bool :=
  let declared := declared_seconds s in
  let tolerance := float_max (float_of 2) (SFmul 53 1024 declared tenth64) in
  SFltb tolerance (SFabs (SFsub 53 1024 (mi_DurationSeconds info) declared)).

(** ** [Validate] *)

Definition read_limited (limit : Z) (r : reader) : result string string :=
  if limit <=? slen (rd_data r) then Ok (stake (Z.to_nat limit) (rd_data r))
  else match rd_err r with
       | Some e => Err e
       | None => Ok (rd_data r)
       end.

Section validator.
Context {B : Type} `{BlobStore B}.
(** [schema.Validate], the inspector when there is one, the texts of errors. *)
Variables (schema : json → option string)
  (inspector : option (reader → result string MediaInfo))
  (json_error : string → string) (blob_text : blob_error → string).

(** [Ok] carries the normalized document and the problems. *)
Notation outcome := (result string (string * list string)).

Fixpoint stat_artifacts (artifacts : list Artifact) (b : B)
    : result string (option string) * B :=
  match artifacts with
  | [] => (Ok None, b)
  | a :: rest =>
    match Stat (art_Key a) b with
    | (Err e, b) => (Err ("stat artifact " +:+ art_Key a +:+ ": " +:+ blob_text e), b)
    | (Ok info, b) =>
      if negb (bi_Size info =? art_Size a) || negb (bool_decide (bi_SHA256 info = art_SHA256 a))
      then (Ok (Some ("artifact metadata mismatch: " +:+ art_Key a)), b)
      else stat_artifacts rest b
    end
  end.

Fixpoint inspect_segments (inspect : reader → result string MediaInfo)
    (registered : gmap string Artifact) (segments : list VideoSegment) (b : B)
    : result string (list string) * B :=
  match segments with
  | [] => (Ok [], b)
  | s :: rest =>
    if negb (bool_decide (is_Some (registered !! vs_Key s))) || (vs_EndNS s <? vs_StartNS s)
    then inspect_segments inspect registered rest b
    else
      match Get (vs_Key s) b with
      | (Err e, b) =>
        (Err ("read video segment " +:+ vs_SegmentID s +:+ " for inspection: " +:+ blob_text e), b)
      | (Ok r, b) =>
        let found :=
          match inspect r with
          | Err e => ["video segment " +:+ vs_SegmentID s +:+ " failed media inspection: " +:+ e]
          | Ok info =>
            problem_if (duration_differs s info)
              ("video segment " +:+ vs_SegmentID s +:+ " duration "
               +:+ FormatFixed 3 (mi_DurationSeconds info) +:+ "s differs from declared "
               +:+ FormatFixed 3 (declared_seconds s) +:+ "s")
          end in
        match inspect_segments inspect registered rest b with
        | (Ok l, b) => (Ok (found ++ l), b)
        | (Err e, b) => (Err e, b)
        end
      end
  end.
Definition inspectMedia (document : validationDocument) (registered : gmap string Artifact) (b : B)
    : result string (list string) * B :=
  match inspector with
  | None => (Ok [], b)
  | Some inspect => inspect_segments inspect registered (vd_VideoSegments document) b
  end.

(** The text of the trajectory, as one JSON value, or the problem with it. *)
Definition decode_trajectory (raw : string) : string + json :=
  if maxTrajectory <? slen raw then inl "trajectory.json exceeds 32 MiB"
  else match Decode raw with
       | None => inl ("trajectory.json is not valid JSON: " +:+ json_error raw)
       | Some (v, rest) =>
         if bool_decide (skip_ws rest = "") then inr v
         else inl ("trajectory.json contains trailing JSON: "
                   +:+ match Decode rest with
                       | Some _ => "multiple JSON values"
                       | None => json_error rest
                       end)
       end.

(** What follows the decoding of the trajectory. *)
Definition check_trajectory (sessionID raw : string) (v : json) (registered : gmap string Artifact)
    (b : B) : outcome * B :=
  match schema (generic v) with
  | Some e => (Ok ("", ["schema validation failed: " +:+ e]), b)
  | None =>
    match decode_document v with
    | None => (Ok ("", ["trajectory.json could not be inspected: " +:+ json_error raw]), b)
    | Some document =>
      match inspectMedia document registered b with
      | (Err e, b) => (Err e, b)
      | (Ok mediaProblems, b) =>
        let problems := validateCrossReferences sessionID document registered ++ mediaProblems in
        match problems with
        | [] => (Ok (MarshalIndent (normalize (generic v)) +:+ newline, []), b)
        | _ => (Ok ("", sort_strings problems), b)
        end
      end
    end
  end.

Definition trajectory_key (sessionID : string) : string :=
  "raw/sessions/" +:+ sessionID +:+ "/trajectory.json".

Definition Validate (sessionID : string) (artifacts : list Artifact) (b : B) : outcome * B :=
  match stat_artifacts artifacts b with
  | (Err e, b) => (Err e, b)
  | (Ok (Some problem), b) => (Ok ("", [problem]), b)
  | (Ok None, b) =>
    let registered := registered_artifacts artifacts in
    match registered !! trajectory_key sessionID with
    | None => (Ok ("", ["required artifact is missing: " +:+ trajectory_key sessionID]), b)
    | Some trajectory =>
      match Get (art_Key trajectory) b with
      | (Err e, b) => (Err ("read trajectory artifact: " +:+ blob_text e), b)
      | (Ok r, b) =>
        match read_limited (maxTrajectory + 1) r with
        | Err e => (Err ("read trajectory artifact: " +:+ e), b)
        | Ok raw =>
          match decode_trajectory raw with
          | inl problem => (Ok ("", [problem]), b)
          | inr v => check_trajectory sessionID raw v registered b
          end
        end
      end
    end
  end.
End validator.

(** ** What the cross references establish *)

Definition matches (registered : gmap string Artifact) (key sha256 : string) (size : Z)
    (media : string) : Prop :=
  ∃ a, registered !! key = Some a ∧ art_SHA256 a = sha256 ∧ art_Size a = size ∧
       art_MediaType a = media.

(** A document whose references stay in the session and whose times are in order. *)
Record consistent (sessionID : string) (document : validationDocument)
    (registered : gmap string Artifact) : Prop := {
  cs_schema : vd_SchemaVersion document = SchemaVersion;
  cs_session : vd_SessionID document = sessionID;
  cs_segment s : s ∈ vd_VideoSegments document →
    HasPrefix (vs_Key s) ("raw/sessions/" +:+ sessionID +:+ "/") = true ∧
    matches registered (vs_Key s) (vs_SHA256 s) (vs_Size s) "video/mp4" ∧
    vs_EndNS s ≤ vd_DurationNS document;
  cs_segments i s s' : vd_VideoSegments document !! i = Some s →
    vd_VideoSegments document !! S i = Some s' → vs_EndNS s ≤ vs_StartNS s';
  cs_action a : a ∈ vd_Actions document → at_TimestampNS a ≤ vd_DurationNS document;
  cs_actions i a a' : vd_Actions document !! i = Some a → vd_Actions document !! S i = Some a' →
    at_TimestampNS a ≤ at_TimestampNS a';
  cs_output o : o ∈ vd_OutputArtifacts document →
    HasPrefix (oa_Key o) ("raw/sessions/" +:+ sessionID +:+ "/") = true ∧
    matches registered (oa_Key o) (oa_SHA256 o) (oa_Size o) (oa_MediaType o);
  cs_privacy : vd_ClipboardCaptured document = false ∧ vd_RecordingVisible document = true
}.

Lemma unique_nil l : unique l = [] ↔ l = [].
Proof. by destruct l. Qed.
Lemma problem_if_nil b t : problem_if b t = [] ↔ b = false.
Proof. by destruct b. Qed.
Lemma app_nil_iff {A} (l k : list A) : l ++ k = [] ↔ l = [] ∧ k = [].
Proof. split; [apply app_eq_nil|by intros [-> ->]]. Qed.

Lemma metadata_nil (registered : gmap string Artifact) key sha256 size media t1 t2 :
  match registered !! key with
  | None => [t1]
  | Some a => problem_if (negb (bool_decide (art_SHA256 a = sha256)) || negb (art_Size a =? size)
                          || negb (bool_decide (art_MediaType a = media))) t2
  end = [] ↔ matches registered key sha256 size media.
Proof.
  unfold matches. destruct (registered !! key) as [a|].
  - rewrite problem_if_nil, !orb_false_iff, !negb_false_iff, !bool_decide_eq_true, Z.eqb_eq.
    naive_solver.
  - naive_solver.
Qed.

(** The condition on each element of a list and on each pair of neighbours. *)
Definition chained {A} (one : A → Prop) (two : A → A → Prop) (l : list A) : Prop :=
  (∀ x, x ∈ l → one x) ∧
  (∀ i x y, l !! i = Some x → l !! S i = Some y → two x y).

Lemma chained_nil {A} (one : A → Prop) two : chained one two [].
Proof. split; [by intros x ?%elem_of_nil|done]. Qed.
Lemma chained_cons {A} (one : A → Prop) two x l :
  chained one two (x :: l) ↔
  one x ∧ (match l with y :: _ => two x y | [] => True end) ∧ chained one two l.
Proof.
  split.
  - intros [H1 H2]. split; [apply H1; left|]. split.
    + destruct l as [|y l]; [done|]. by apply (H2 O).
    + split; [intros z Hz; apply H1; by right|]. intros i y z Hy Hz. by apply (H2 (S i)).
  - intros (H1 & H2 & H3 & H4). split.
    + intros z [->|Hz]%elem_of_cons; [done|auto].
    + intros [|i] y z; cbn; [|apply H4].
      intros [= <-]. destruct l as [|w l]; [done|]. cbn. by intros [= <-].
Qed.

Lemma segments_problems_nil prefix registered duration first previous l :
  segments_problems prefix registered duration first previous l = [] ↔
  (first = false → match l with s :: _ => previous ≤ vs_StartNS s | [] => True end) ∧
  chained (λ s, HasPrefix (vs_Key s) prefix = true ∧
                matches registered (vs_Key s) (vs_SHA256 s) (vs_Size s) "video/mp4" ∧
                vs_EndNS s ≤ duration)
          (λ s s', vs_EndNS s ≤ vs_StartNS s') l.
Proof.
  revert first previous. induction l as [|s l IH]; intros first previous.
  { cbn. split; [|done]. intros _. split; [done|apply chained_nil]. }
  cbn [segments_problems]. rewrite app_nil_iff, IH, chained_cons.
  unfold segment_problems. rewrite !app_nil_iff, !problem_if_nil, metadata_nil.
  rewrite negb_false_iff, andb_false_iff, negb_false_iff, !Z.ltb_ge.
  destruct first; naive_solver.
Qed.

Lemma actions_problems_nil duration index previous l :
  0 ≤ index →
  actions_problems duration index previous l = [] ↔
  (0 < index → match l with a :: _ => previous ≤ at_TimestampNS a | [] => True end) ∧
  chained (λ a, at_TimestampNS a ≤ duration)
          (λ a a', at_TimestampNS a ≤ at_TimestampNS a') l.
Proof.
  revert index previous. induction l as [|a l IH]; intros index previous Hi.
  { cbn. split; [|done]. intros _. split; [done|apply chained_nil]. }
  cbn [actions_problems]. rewrite !app_nil_iff, IH by lia. rewrite chained_cons.
  rewrite !problem_if_nil, andb_false_iff, !Z.ltb_ge.
  split.
  - intros (H1 & H2 & H3 & H4). split; [|split; [done|split; [apply H3; lia|done]]]. lia.
  - intros (H1 & H2 & H3 & H4). split; [|split; [done|split; [done|done]]].
    destruct (decide (0 < index)); [right; auto|left; lia].
Qed.

Lemma outputs_problems_nil prefix registered l :
  concat (map (output_problems prefix registered) l) = [] ↔
  ∀ o, o ∈ l → HasPrefix (oa_Key o) prefix = true ∧
               matches registered (oa_Key o) (oa_SHA256 o) (oa_Size o) (oa_MediaType o).
Proof.
  induction l as [|o l IH]; cbn.
  { split; [by intros _ o ?%elem_of_nil|done]. }
  rewrite app_nil_iff, IH. unfold output_problems.
  rewrite app_nil_iff, problem_if_nil, negb_false_iff, metadata_nil. split.
  - intros [H1 H2] o' [->|Ho]%elem_of_cons; auto.
  - intros H. split; [apply H; left|]. intros o' Ho. apply H. by right.
Qed.

(** The cross-reference check reports no problem exactly when the document is
    consistent: schema version and session are the expected ones, every video segment
    and output artifact lies in the session and equals its registered artifact in
    digest, size and media type, segments follow each other without overlap and actions
    in time order, both within the capture, the clipboard was not captured and the
    recording was visible. *)
Theorem cross_references_spec sessionID document registered :
  validateCrossReferences sessionID document registered = [] ↔
  consistent sessionID document registered.
Proof.
  unfold validateCrossReferences. rewrite unique_nil, !app_nil_iff, !problem_if_nil.
  rewrite segments_problems_nil, actions_problems_nil, outputs_problems_nil by lia.
  rewrite !negb_false_iff, !bool_decide_eq_true, orb_false_iff, negb_false_iff.
  unfold chained. split.
  - intros (H1 & H2 & (_ & H3 & H4) & (_ & H5 & H6) & H7 & H8). by split.
  - intros [H1 H2 H3 H4 H5 H6 H7 H8].
    split; [exact H1|]. split; [exact H2|]. split; [split; [done|split; [exact H3|exact H4]]|].
    split; [split; [lia|split; [exact H5|exact H6]]|]. split; [exact H7|exact H8].
Qed.

(** ** What an accepted session establishes *)

(** The stored object is the one the artifact was registered with. *)
Definition stored_as_registered {B} `{BlobView B} (b : B) (a : Artifact) : Prop :=
  ∃ c, object b (art_Key a) = Some c ∧ slen c = art_Size a ∧ sha256_hex c = art_SHA256 a.

Lemma only_reads_trans {B} `{BlobView B} (b1 b2 b3 : B) :
  only_reads b1 b2 → only_reads b2 b3 → only_reads b1 b3.
Proof. intros [_ H1] [H2 H3]. split; [done|]. intros k. by rewrite H3. Qed.

Section accepted.
Context {B : Type} {HS : BlobStore B} {HV : BlobView B} {HL : BlobLaws B}.
Variables (schema : json → option string)
  (inspector : option (reader → result string MediaInfo))
  (json_error : string → string) (blob_text : blob_error → string).

Lemma stat_artifacts_law artifacts b x b' :
  store_ok b → stat_artifacts blob_text artifacts b = (x, b') →
  only_reads b b' ∧ (x = Ok None → ∀ a, a ∈ artifacts → stored_as_registered b a).
Proof using HL.
  revert b. induction artifacts as [|a l IH]; intros b Hb; cbn.
  { intros [= <- <-]. split; [by split|]. intros _ a ?%elem_of_nil. done. }
  destruct (Stat (art_Key a) b) as [y b1] eqn:E.
  destruct (stat_law b (art_Key a) y b1 Hb E) as [Hr Hs].
  destruct y as [info|e]; [|intros [= <- <-]; done].
  destruct (_ || _) eqn:Hm; [intros [= <- <-]; done|].
  intros Hst. apply IH in Hst as [Hr2 Hall]; [|apply Hr].
  split; [by apply (only_reads_trans b b1)|].
  intros Hx a' [->|Ha]%elem_of_cons.
  - destruct (Hs info eq_refl) as (c & Hc & _ & Hsz & Hsha). exists c. split; [done|].
    rewrite orb_false_iff, !negb_false_iff, Z.eqb_eq, bool_decide_eq_true in Hm.
    destruct Hm. split; congruence.
  - destruct (Hall Hx a' Ha) as (c & Hc & ?). exists c. split; [|done].
    destruct Hr as [_ Hr]. by rewrite <-Hr.
Qed.

Lemma inspect_segments_law inspect registered l b x b' :
  store_ok b → inspect_segments blob_text inspect registered l b = (x, b') → only_reads b b'.
Proof using HL.
  revert b x. induction l as [|s l IH]; intros b x Hb; cbn; [intros [= <- <-]; by split|].
  destruct (_ || _); [by apply IH|].
  destruct (Get (vs_Key s) b) as [y b1] eqn:E.
  destruct (get_law b _ y b1 Hb E) as [Hr _].
  destruct y as [r|e]; [|intros [= <- <-]; done].
  destruct (inspect_segments _ _ _ l b1) as [[l1|e1] b2] eqn:E2; intros [= <- <-];
    (apply (only_reads_trans b b1); [done|]); eapply IH; eauto; apply Hr.
Qed.

Lemma inspectMedia_law document registered b x b' :
  store_ok b → inspectMedia inspector blob_text document registered b = (x, b') →
  only_reads b b'.
Proof using HL.
  intros Hb. unfold inspectMedia. destruct inspector; [by apply inspect_segments_law|].
  intros [= <- <-]. by split.
Qed.

Lemma registered_key artifacts k a :
  registered_artifacts artifacts !! k = Some a → art_Key a = k ∧ a ∈ artifacts.
Proof using Type.
  unfold registered_artifacts. induction artifacts as [|x l IH] using rev_ind; cbn; [done|].
  rewrite foldl_app. cbn. destruct (decide (art_Key x = k)) as [<-|Hk].
  - rewrite lookup_insert_eq. intros [= <-]. split; [done|]. apply elem_of_app. right. left.
  - rewrite lookup_insert_ne by done. intros [? ?]%IH. split; [done|]. apply elem_of_app. by left.
Qed.

Lemma sort_strings_nil l : sort_strings l = [] → l = [].
Proof using Type. intros Hs. apply Permutation_nil. rewrite <-Hs. apply sort_strings_Permutation. Qed.

Lemma check_trajectory_law sessionID raw v registered b normalized b' :
  store_ok b →
  check_trajectory schema inspector json_error blob_text sessionID raw v registered b
    = (Ok (normalized, []), b') →
  only_reads b b' ∧ schema (generic v) = None ∧
  ∃ document, decode_document v = Some document ∧ consistent sessionID document registered ∧
    normalized = MarshalIndent (normalize (generic v)) +:+ newline.
Proof using HL.
  intros Hb. unfold check_trajectory. destruct (schema (generic v)); [done|].
  destruct (decode_document v) as [document|]; [|done].
  destruct (inspectMedia _ _ document registered b) as [[media|e] b1] eqn:E; [|done].
  apply inspectMedia_law in E; [|done].
  destruct (_ ++ media) as [|p ps] eqn:Hp.
  - intros [= <- <-]. apply app_nil_iff in Hp as [Hp _].
    apply cross_references_spec in Hp. eauto 10.
  - intros [= _ Hs _]. apply sort_strings_nil in Hs. done.
Qed.

Lemma decode_trajectory_law raw v :
  decode_trajectory json_error raw = inr v → slen raw ≤ maxTrajectory ∧ Parse raw = Some v.
Proof using Type.
  unfold decode_trajectory, Parse. destruct (Z.ltb_spec maxTrajectory (slen raw)); [done|].
  destruct (Decode raw) as [[v' rest]|]; [|done]. cbn.
  destruct (bool_decide _); [|done]. by intros [= ->].
Qed.

Lemma stake_len n s : (n ≤ String.length s)%nat → String.length (stake n s) = n.
Proof using Type.
  revert s. induction n as [|n IH]; intros [|c s]; cbn; try lia. intros ?. rewrite IH; lia.
Qed.

Lemma read_limited_law n r raw :
  0 ≤ n → read_limited (n + 1) r = Ok raw → slen raw ≤ n → rd_err r = None ∧ raw = rd_data r.
Proof using Type.
  unfold read_limited. intros Hn. destruct (Z.leb_spec (n + 1) (slen (rd_data r))) as [Hl|Hl].
  - intros [= <-]. unfold slen in *. rewrite stake_len by lia. lia.
  - destruct (rd_err r); [done|]. by intros [= <-].
Qed.
Lemma check_trajectory_reads sessionID raw v registered b x b' :
  store_ok b →
  check_trajectory schema inspector json_error blob_text sessionID raw v registered b = (x, b') →
  only_reads b b'.
Proof using HL.
  intros Hb. unfold check_trajectory.
  destruct (schema (generic v)); [intros [= _ <-]; by split|].
  destruct (decode_document v) as [document|]; [|intros [= _ <-]; by split].
  destruct (inspectMedia _ _ document registered b) as [[media|e] b1] eqn:E;
    apply inspectMedia_law in E; try done; [|by intros [= _ <-]].
  cbv zeta. destruct (_ ++ media); by intros [= _ <-].
Qed.

(** Whatever it finds, [Validate] only reads the store. *)
Lemma Validate_reads sessionID artifacts b x b' :
  store_ok b → Validate schema inspector json_error blob_text sessionID artifacts b = (x, b') →
  only_reads b b'.
Proof using HL.
  intros Hb. unfold Validate.
  destruct (stat_artifacts blob_text artifacts b) as [[[p|]|e] b1] eqn:E1;
    apply stat_artifacts_law in E1 as [Hr1 _]; try done; try (by intros [= _ <-]).
  cbv zeta. destruct (_ !! trajectory_key sessionID) as [t|]; [|by intros [= _ <-]].
  destruct (Get (art_Key t) b1) as [y b2] eqn:E2.
  destruct (get_law b1 _ y b2 (proj1 Hr1) E2) as [Hr2 _].
  pose proof (only_reads_trans _ _ _ Hr1 Hr2) as Hr.
  destruct y as [r|e]; [|by intros [= _ <-]].
  destruct (read_limited _ r) as [raw|]; [|by intros [= _ <-]].
  destruct (decode_trajectory json_error raw) as [p|v]; [by intros [= _ <-]|].
  intros H. apply check_trajectory_reads in H; [|apply Hr]. by eapply only_reads_trans.
Qed.
End accepted.

Lemma Validate_evidence {B} `{BlobLaws B} schema inspector json_error blob_text
    sessionID artifacts (b : B) normalized b' :
  store_ok b →
  Validate schema inspector json_error blob_text sessionID artifacts b
    = (Ok (normalized, []), b') →
  only_reads b b' ∧
  (∀ a, a ∈ artifacts → stored_as_registered b a) ∧
  ∃ raw v document,
    object b (trajectory_key sessionID) = Some raw ∧ slen raw ≤ maxTrajectory ∧
    Parse raw = Some v ∧ schema (generic v) = None ∧ decode_document v = Some document ∧
    consistent sessionID document (registered_artifacts artifacts) ∧
    normalized = MarshalIndent (normalize (generic v)) +:+ newline.
Proof.
  intros Hb. unfold Validate.
  destruct (stat_artifacts blob_text artifacts b) as [[[p|]|e] b1] eqn:E1; try done.
  apply stat_artifacts_law in E1 as [Hr1 Hall]; [|done]. specialize (Hall eq_refl).
  destruct (registered_artifacts artifacts !! trajectory_key sessionID) as [t|] eqn:Ht; [|done].
  apply registered_key in Ht as [Hkey _].
  destruct (Get (art_Key t) b1) as [[r|e] b2] eqn:E2; [|done].
  pose proof (get_law b1 (art_Key t) _ b2 (proj1 Hr1) E2) as [Hr2 Hget].
  destruct (read_limited (maxTrajectory + 1) r) as [raw|] eqn:E3; [|done].
  destruct (decode_trajectory json_error raw) as [p|v] eqn:E4; [done|].
  apply decode_trajectory_law in E4 as [Hlen Hparse].
  intros Hc. apply check_trajectory_law in Hc as (Hr3 & Hschema & document & Hd & Hcons & Hn);
    [|apply Hr2].
  split; [by eapply only_reads_trans; [exact Hr1|]; eapply only_reads_trans|].
  split; [done|]. exists raw, v, document. split; [|done].
  apply read_limited_law in E3 as [Hre ->]; [|by apply Z.shiftl_nonneg|done].
  rewrite <-(proj2 Hr1), <-Hkey. by apply Hget.
Qed.

(** C15: a session is accepted only on evidence.  When [Validate] reports no problem,
    it has only read the store; every registered artifact is stored with the size and
    the SHA-256 digest it was registered with; the stored trajectory is at most 32
    MiB, exactly one JSON value, accepted by the schema and consistent with the
    session and its artifacts; and the normalized text is that value with its
    actions normalized. *)
Theorem validate_accepts {B} `{BlobLaws B} schema inspector json_error blob_text
    sessionID artifacts (b : B) normalized b' :
  store_ok b →
  Validate schema inspector json_error blob_text sessionID artifacts b
    = (Ok (normalized, []), b') →
  only_reads b b' ∧
  (∀ a, a ∈ artifacts → stored_as_registered b a) ∧
  ∃ raw v document,
    object b (trajectory_key sessionID) = Some raw ∧ slen raw ≤ maxTrajectory ∧
    Parse raw = Some v ∧ schema (generic v) = None ∧ decode_document v = Some document ∧
    consistent sessionID document (registered_artifacts artifacts) ∧
    normalized = MarshalIndent (normalize (generic v)) +:+ newline.
Proof. apply Validate_evidence. Qed.

Definition quoted (s : string) : string := replace_byte "'"%char (ascii_of_N 34) s.
Definition sample_trajectory : string := quoted
  "{'schema_version':'trajectory/v1','capture':{'duration_ns':10,'video_segments':[]},'actions':[{'timestamp_ns':1,'type':'key_down'}],'outcome':{'output_artifacts':[]},'privacy':{'clipboard_captured':false,'recording_visible':true},'provenance':{'session_id':'s1'}}".
Definition sample_blobs : local_store :=
  {| ls_root := "/b"; ls_dirs := {["/b"; "/b/raw"; "/b/raw/sessions"; "/b/raw/sessions/s1"]};
     ls_files := {["/b/raw/sessions/s1/trajectory.json" := (sample_trajectory, 1)]} |}.
Definition sample_registered : list Artifact :=
  [{| art_ID := "art_1"; art_SessionID := "s1"; art_Key := trajectory_key "s1";
      art_SHA256 := sha256_hex sample_trajectory; art_MediaType := "application/json";
      art_Size := slen sample_trajectory |}].

Lemma validate_accepts_witness :
  ∃ normalized b',
    Validate (λ _, None) None (λ _, "") (λ _, "") "s1" sample_registered sample_blobs
      = (Ok (normalized, []), b') ∧
    ∃ raw, object sample_blobs (trajectory_key "s1") = Some raw ∧ slen raw ≤ maxTrajectory.
Proof.
  destruct (Validate (λ _, None) None (λ _, "") (λ _, "") "s1" sample_registered sample_blobs)
    as [[[normalized [|p ps]]|e] b'] eqn:H.
  - exists normalized, b'. split; [reflexivity|].
    destruct (validate_accepts (λ _, None) None (λ _, "") (λ _, "") "s1" sample_registered
      sample_blobs normalized b') as (_ & _ & raw & v & document & H1 & H2 & _);
      [vm_compute; reflexivity|exact H|].
    exists raw. split; [exact H1|exact H2].
  - pose proof (f_equal (λ r, match r.1 with Ok (_, []) => true | _ => false end) H) as E.
    vm_compute in E. discriminate E.
  - pose proof (f_equal (λ r, match r.1 with Ok (_, []) => true | _ => false end) H) as E.
    vm_compute in E. discriminate E.
Defined.

(** ** Properties of normalization *)

Definition pointer_event (v : json) : bool :=
  match v with
  | JObject l => bool_decide (as_string (field "type" l) ∈
                              ["mouse_move"; "mouse_down"; "mouse_up"; "click"])
  | _ => false
  end.
Definition other_events (l : list json) : list json := List.filter (λ v, negb (pointer_event v)) l.

(** The times of the pointer movements. *)
Definition move_times (l : list json) : list Z :=
  concat (map (λ v, match v with
                    | JObject a => if bool_decide (as_string (field "type" a) = "mouse_move")
                                   then [uintValue (field "timestamp_ns" a)] else []
                    | _ => []
                    end) l).

Lemma put_field_same k v l : field k (put_field k v l) = Some v.
Proof.
  induction l as [|[k' v'] l IH]; cbn; [by rewrite bool_decide_eq_true_2|].
  case_bool_decide; cbn; [by rewrite bool_decide_eq_true_2|].
  destruct (string_leb k k'); cbn; [by rewrite bool_decide_eq_true_2|].
  by rewrite bool_decide_eq_false_2.
Qed.
Lemma put_field_other k j v l : j ≠ k → field j (put_field k v l) = field j l.
Proof.
  intros Hj. induction l as [|[k' v'] l IH]; cbn; [by rewrite bool_decide_eq_false_2|].
  case_bool_decide as Hk; cbn.
  - subst k'. by rewrite !bool_decide_eq_false_2.
  - destruct (string_leb k k'); cbn; [by rewrite bool_decide_eq_false_2|].
    by case_bool_decide.
Qed.

Lemma click_type next button p : ∃ l, click next button p = JObject l ∧
  as_string (field "type" l) = "click".
Proof.
  unfold click. eexists. split; [reflexivity|].
  destruct (_ && _); destruct (field "application" next);
    rewrite ?put_field_other by done; by rewrite put_field_same.
Qed.

Lemma number_int64_range t : number_int64 t < 2 ^ 63.
Proof.
  unfold number_int64. destruct (match t with String "-" r => _ | _ => _ end) as [g r].
  destruct (digits_value 10 r 0) as [v|] eqn:E; [|lia].
  assert (H : ∀ s acc v, 0 ≤ acc → digits_value 10 s acc = Some v → 0 ≤ v).
  { clear. induction s as [|c s IH]; intros acc v Ha; cbn; [by intros [= <-]|].
    destruct (digit_value 10 c) as [x|] eqn:E; [|done]. intros Hv. apply IH in Hv; [done|].
    unfold digit_value in E.
    assert (0 ≤ x); [|lia]. revert E.
    repeat match goal with |- context [if ?b then _ else _] => destruct b eqn:?H end;
      intros [= <-]; try lia. }
  apply H in E; [|lia]. destruct g; lia.
Qed.
Lemma uintValue_range v : 0 ≤ uintValue v < 2 ^ 63.
Proof.
  unfold uintValue. destruct v as [[| |t| | |]|]; try lia.
  pose proof (number_int64_range t). destruct (Z.ltb_spec 0 (number_int64 t)); lia.
Qed.

(** Case analysis along the recursion of [normalize_from]. *)
Lemma normalize_ind (P : pointer → list json → list json → Prop) :
  (∀ p, P p [] []) →
  (∀ p v rest out, (∀ l, v ≠ JObject l) → P p rest out → P p (v :: rest) (v :: out)) →
  (∀ p a rest out,
    as_string (field "type" a) = "mouse_move" →
    last_move p ≠ 0 →
    wrap_uint64 (uintValue (field "timestamp_ns" a) - last_move p) < mouseMoveIntervalNS →
    P {| last_move := last_move p; pointer_x := as_number (field "x" a);
         pointer_y := as_number (field "y" a) |} rest out →
    P p (JObject a :: rest) out) →
  (∀ p a rest out,
    as_string (field "type" a) = "mouse_move" →
    (last_move p = 0 ∨
     mouseMoveIntervalNS ≤ wrap_uint64 (uintValue (field "timestamp_ns" a) - last_move p)) →
    P {| last_move := uintValue (field "timestamp_ns" a); pointer_x := as_number (field "x" a);
         pointer_y := as_number (field "y" a) |} rest out →
    P p (JObject a :: rest) (JObject a :: out)) →
  (∀ p a next rest out,
    as_string (field "type" a) = "mouse_down" → as_string (field "type" next) = "mouse_up" →
    P p rest out →
    P p (JObject a :: JObject next :: rest)
        (click next (as_string (field "button" a)) p :: out)) →
  (∀ p a rest out,
    as_string (field "type" a) ≠ "mouse_move" → P p rest out →
    P p (JObject a :: rest) (JObject a :: out)) →
  ∀ l p, P p l (normalize_from p l).
Proof.
  intros Hnil Hval Hskip Hmove Hclick Hother l.
  remember (length l) as n eqn:Hn. assert (Hle : (length l ≤ n)%nat) by lia. clear Hn.
  revert l Hle. induction n as [|n IH]; intros [|v rest] Hle p; cbn in Hle; try lia;
    try apply Hnil.
  assert (Hrest : ∀ q, P q rest (normalize_from q rest)) by (intros; apply IH; lia).
  destruct v as [| | | | |a]; try (by apply Hval). cbn [normalize_from].
  case_bool_decide as Ht.
  - destruct (negb _ && _) eqn:Hs.
    + rewrite andb_true_iff, negb_true_iff, Z.eqb_neq, Z.ltb_lt in Hs. destruct Hs.
      by apply Hskip.
    + rewrite andb_false_iff, negb_false_iff, Z.eqb_eq, Z.ltb_ge in Hs. by apply Hmove.
  - case_bool_decide as Hd; [|by apply Hother].
    destruct rest as [|[| | | | |next] rest']; try (by apply Hother).
    destruct (_ && _ && _) eqn:Hc; [|by apply Hother].
    rewrite !andb_true_iff, !bool_decide_eq_true in Hc. destruct Hc as [[Hu _] _].
    apply Hclick; [done|done|]. apply IH. cbn in Hle. lia.
Qed.

Lemma pointer_type l t :
  as_string (field "type" l) = t → t ∈ ["mouse_move"; "mouse_down"; "mouse_up"; "click"] →
  pointer_event (JObject l) = true.
Proof. cbn. intros -> Ht. by apply bool_decide_eq_true. Qed.

Lemma normalize_others p l : other_events (normalize_from p l) = other_events l.
Proof.
  apply (normalize_ind (λ _ l out, other_events out = other_events l)); unfold other_events;
    intros; cbn [List.filter].
  - done.
  - destruct (negb _); congruence.
  - rewrite (pointer_type a "mouse_move"); [done|done|left].
  - rewrite (pointer_type a "mouse_move"); [done|done|left].
  - destruct (click_type next (as_string (field "button" a)) p0) as (c & -> & Hc).
    rewrite (pointer_type c "click"); [|done|repeat (left || right)].
    rewrite (pointer_type a "mouse_down"); [|done|repeat (left || right)].
    by rewrite (pointer_type next "mouse_up"); [|done|repeat (left || right)].
  - destruct (negb _); congruence.
Qed.

Lemma normalize_length p l : (length (normalize_from p l) ≤ length l)%nat.
Proof. apply (normalize_ind (λ _ l out, length out ≤ length l)%nat); cbn; intros; lia. Qed.

Definition at_least (m : Z) (l : list Z) : Prop := match l with t :: _ => m ≤ t | [] => True end.

Lemma normalize_sampled p l :
  0 ≤ last_move p < 2 ^ 63 →
  chained (λ t, 0 < t) Z.le (move_times l) → at_least (last_move p) (move_times l) →
  chained (λ _, True) (λ t t', t + mouseMoveIntervalNS ≤ t')
    (move_times (normalize_from p l)) ∧
  (last_move p ≠ 0 →
   at_least (last_move p + mouseMoveIntervalNS) (move_times (normalize_from p l))).
Proof.
  assert (Hstep : ∀ a rest, as_string (field "type" a) = "mouse_move" →
    move_times (JObject a :: rest) = uintValue (field "timestamp_ns" a) :: move_times rest).
  { intros a rest Ha. unfold move_times. cbn. by rewrite bool_decide_eq_true_2. }
  assert (Hskip : ∀ a rest, as_string (field "type" a) ≠ "mouse_move" →
    move_times (JObject a :: rest) = move_times rest).
  { intros a rest Ha. unfold move_times. cbn. by rewrite bool_decide_eq_false_2. }
  apply (normalize_ind (λ p l out, 0 ≤ last_move p < 2 ^ 63 →
    chained (λ t, 0 < t) Z.le (move_times l) → at_least (last_move p) (move_times l) →
    chained (λ _, True) (λ t t', t + mouseMoveIntervalNS ≤ t') (move_times out) ∧
    (last_move p ≠ 0 → at_least (last_move p + mouseMoveIntervalNS) (move_times out)))).
  - intros q _ _ _. split; [apply chained_nil|done].
  - intros q v rest out Hv IH Hq.
    assert (Hm : ∀ l, move_times (v :: l) = move_times l).
    { intros l0. unfold move_times. destruct v; cbn; try done. by destruct (Hv fields). }
    rewrite !Hm. by apply IH.
  - intros q a rest out Ha H0 Hw IH Hq. cbn [last_move] in IH. rewrite Hstep by done.
    rewrite chained_cons. intros (_ & Hh & Hr) Hle. apply IH; [done|done|].
    destruct (move_times rest); [done|]. cbn in *. lia.
  - intros q a rest out Ha Hw IH Hq. cbn [last_move] in IH. rewrite !Hstep by done.
    rewrite chained_cons. intros (Hpos & Hh & Hr) Hle. cbn [at_least] in *.
    pose proof (uintValue_range (field "timestamp_ns" a)) as Ht.
    destruct IH as [IH1 IH2]; [done|done| |].
    { unfold at_least. destruct (move_times rest); [done|]. done. }
    split.
    + apply chained_cons. split; [done|]. split; [|done].
      specialize (IH2 ltac:(lia)). unfold at_least in IH2. by destruct (move_times out).
    + intros Hq0. destruct Hw as [|Hw]; [done|].
      rewrite wrap_uint64_id in Hw by lia. lia.
  - intros q a next rest out Ha Hn IH Hq.
    rewrite !Hskip by congruence.
    destruct (click_type next (as_string (field "button" a)) q) as (c & -> & Hc).
    rewrite Hskip by congruence. by apply IH.
  - intros q a rest out Ha IH Hq. rewrite !Hskip by done. by apply IH.
Qed.

(** Normalizing the actions keeps, in order and unchanged, every action that is not
    a pointer event; it never adds actions; and when the pointer movements carry
    positive times in order, two consecutive movements that remain are at least
    100 milliseconds apart. *)
Theorem normalize_actions_sound l :
  other_events (normalizeActions l) = other_events l ∧
  (length (normalizeActions l) ≤ length l)%nat ∧
  (chained (λ t, 0 < t) Z.le (move_times l) →
   chained (λ _, True) (λ t t', t + mouseMoveIntervalNS ≤ t')
     (move_times (normalizeActions l))).
Proof.
  split; [apply normalize_others|]. split; [apply normalize_length|].
  intros Hl. unfold normalizeActions. apply normalize_sampled; [cbn; lia|done|].
  cbn. unfold at_least. destruct (move_times l) as [|t ts]; [done|].
  apply chained_cons in Hl as [? _]. lia.
Qed.

(** ** Two gaps *)

(** A segment that ends before it starts is skipped by the media inspection, whatever
    the inspector says, and the cross references accept it. *)
Lemma reversed_segments_uninspected {B} `{BlobStore B} blob_text inspect registered l (b : B) :
  (∀ s, s ∈ l → vs_EndNS s < vs_StartNS s) →
  inspect_segments blob_text inspect registered l b = (Ok [], b).
Proof.
  induction l as [|s l IH]; intros Hl; [done|]. cbn.
  replace (vs_EndNS s <? vs_StartNS s) with true by (symmetry; apply Z.ltb_lt, Hl; left).
  rewrite orb_true_r. apply IH. intros s' Hs. apply Hl. by right.
Qed.

Definition not_a_video : string := "no video".
Definition reversed_trajectory : string := quoted
  ("{'schema_version':'trajectory/v1','capture':{'duration_ns':10,'video_segments':[{'key':'raw/sessions/s1/v.mp4','start_ns':9,'end_ns':2,'sha256':'"
   +:+ sha256_hex not_a_video +:+
   "','size':8,'segment_id':'v1'}]},'actions':[{'timestamp_ns':1,'type':'key_down'}],'outcome':{'output_artifacts':[]},'privacy':{'clipboard_captured':false,'recording_visible':true},'provenance':{'session_id':'s1'}}").
Definition reversed_blobs : local_store :=
  {| ls_root := "/b"; ls_dirs := {["/b"; "/b/raw"; "/b/raw/sessions"; "/b/raw/sessions/s1"]};
     ls_files := {["/b/raw/sessions/s1/trajectory.json" := (reversed_trajectory, 1);
                   "/b/raw/sessions/s1/v.mp4" := (not_a_video, 1)]} |}.
Definition reversed_registered : list Artifact :=
  [{| art_ID := "art_1"; art_SessionID := "s1"; art_Key := trajectory_key "s1";
      art_SHA256 := sha256_hex reversed_trajectory; art_MediaType := "application/json";
      art_Size := slen reversed_trajectory |};
   {| art_ID := "art_2"; art_SessionID := "s1"; art_Key := "raw/sessions/s1/v.mp4";
      art_SHA256 := sha256_hex not_a_video; art_MediaType := "video/mp4"; art_Size := 8 |}].

Definition accepted {B} (r : result string (string * list string) * B) : bool :=
  match r.1 with Ok (_, []) => true | _ => false end.

(** A session can be accepted although no inspector accepts its video: a segment whose
    end is before its start passes the cross references and is not inspected, here
    with eight bytes that are no video and an inspector that rejects everything. *)
Theorem reversed_segment_accepted :
  accepted (Validate (λ _, None) (Some (λ _, Err "not a video")) (λ _, "") (λ _, "") "s1"
              reversed_registered reversed_blobs) = true ∧
  ∀ inspect l (b : local_store),
    (∀ s, s ∈ l → vs_EndNS s < vs_StartNS s) →
    inspect_segments (λ _, "") inspect (registered_artifacts reversed_registered) l b = (Ok [], b).
Proof.
  split; [vm_compute; reflexivity|]. intros inspect l b. apply reversed_segments_uninspected.
Qed.

(** The lines of a text that ends in a newline. *)
Definition line_count (s : string) : nat := pred (length (split_on (ascii_of_N 10) s)).

(** The file of actions is not one action per line.  The normalized trajectory is
    indented, and the elements of its array are copied as they are: the one action of
    this accepted session takes four lines of [actions.jsonl], and the first of them is
    not a JSON value.  On a compact text the same function writes one line per action. *)
Theorem actions_jsonl_lines :
  ∃ normalized b' text,
    Validate (λ _, None) None (λ _, "") (λ _, "") "s1" sample_registered sample_blobs
      = (Ok (normalized, []), b') ∧
    actionsJSONL normalized = Some text ∧ line_count text = 4%nat ∧
    Parse (hd "" (split_on (ascii_of_N 10) text)) = None ∧
    actionsJSONL (quoted "{'actions':[{'timestamp_ns':1,'type':'click'},{'timestamp_ns':2,'type':'scroll'}]}")
      = Some (quoted "{'timestamp_ns':1,'type':'click'}" +:+ newline +:+
              quoted "{'timestamp_ns':2,'type':'scroll'}" +:+ newline).
Proof.
  eexists _, _, _. split; [vm_compute; reflexivity|].
  split; [vm_compute; reflexivity|]. split; [vm_compute; reflexivity|].
  split; vm_compute; reflexivity.
Qed.
