(* ===== verification/Store.v ===== *)
(** * Sessions, consent and the catalogue ([database/store.go], [database/access.go])

    The operations of [Store] that create the catalogue (organizations, projects,
    templates, tasks, contributors), assign tasks, record consent and move
    sessions, and the lookups that resolve the owner of a resource. *)

From S2P Require Import Prelude Domain Schema Sha256 Frame.

(** ** Catalogue *)

Definition CreateOrganization (name actor requestID : string) (now : time) (r : random)
    : tx Organization :=
  identifier <- newID "org" r ;;
  withAudit (audit actor "organization.created" ("organization/" +:+ identifier) requestID now ∅)
    (insert_organization identifier {| org_name := name; org_created_at := now |}) ;;
  ret {| o_ID := identifier; o_Name := name |}.

Definition CreateProject (organizationID name : string) (target : Z)
    (actor requestID : string) (now : time) (r : random) : tx Project :=
  identifier <- newID "proj" r ;;
  withAudit (audit actor "project.created" ("project/" +:+ identifier) requestID now ∅)
    (insert_project identifier
       {| prj_organization_id := organizationID; prj_name := name;
          prj_target_trajectories := target; prj_created_at := now |}) ;;
  ret {| p_ID := identifier; p_OrganizationID := organizationID; p_Name := name;
         p_TargetTrajectories := target |}.

Definition CreateTaskTemplate (template : TaskTemplate) (specification : string)
    (actor requestID : string) (now : time) (r : random) : tx TaskTemplate :=
  identifier <- newID "tmpl" r ;;
  withAudit (audit actor "task_template.created" ("task-template/" +:+ identifier) requestID now ∅)
    (insert_task_template identifier
       {| tpl_project_id := tt_ProjectID template; tpl_name := tt_Name template;
          tpl_goal := tt_Goal template; tpl_category := tt_Category template;
          tpl_difficulty := tt_Difficulty template; tpl_specification := specification;
          tpl_created_at := now |}) ;;
  ret {| tt_ID := identifier; tt_ProjectID := tt_ProjectID template; tt_Name := tt_Name template;
         tt_Goal := tt_Goal template; tt_Category := tt_Category template;
         tt_Difficulty := tt_Difficulty template |}.

Definition CreateTask (templateID goal inputAssets expectedOutputs : string)
    (actor requestID : string) (now : time) (r : random) : tx Task :=
  identifier <- newID "task" r ;;
  withAudit (audit actor "task.created" ("task/" +:+ identifier) requestID now ∅)
    (insert_task identifier
       {| tsk_template_id := templateID; tsk_goal := goal; tsk_input_assets := inputAssets;
          tsk_expected_outputs := expectedOutputs; tsk_created_at := now |}) ;;
  ret {| t_ID := identifier; t_TemplateID := templateID; t_Goal := goal |}.

Definition CreateContributor (displayName actor requestID : string) (now : time) (r : random)
    : tx Contributor :=
  identifier <- newID "contrib" r ;;
  withAudit (audit actor "contributor.created" ("contributor/" +:+ identifier) requestID now ∅)
    (insert_contributor identifier
       {| ctb_display_name := displayName; ctb_status := "active"; ctb_account_id := None;
          ctb_created_at := now |}) ;;
  ret {| c_ID := identifier; c_DisplayName := displayName |}.

(** ** Assignments *)

Record AssignmentSession := { as_Assignment : Assignment; as_Session : Session }.

Definition new_session (assignmentID : string) (state : SessionState)
    (rework_of : option string) (now : time) : session_row :=
  {| ses_assignment_id := assignmentID; ses_consent_acceptance_id := None;
     ses_state := state; ses_rework_of_session_id := rework_of;
     ses_created_at := now; ses_updated_at := now |}.

Definition AssignTask (taskID contributorID actor requestID : string) (now : time)
    (r1 r2 : random) : tx AssignmentSession :=
  assignmentID <- newID "assign" r1 ;;
  sessionID <- newID "sess" r2 ;;
  session <- lift (Transition
    {| s_ID := sessionID; s_AssignmentID := assignmentID; s_State := SessionCreated;
       s_UpdatedAt := 0; s_AuditEvents := [] |}
    (transition_command SessionAssigned actor requestID now)) ;;
  insert_assignment assignmentID
    {| asg_task_id := taskID; asg_contributor_id := contributorID; asg_created_at := now |} ;;
  insert_session sessionID (new_session assignmentID (s_State session) None now) ;;
  insertAudit (audit actor "task.assigned" ("assignment/" +:+ assignmentID) requestID now
    {["task_id" := taskID; "contributor_id" := contributorID]}) ;;
  insert_last_audit session ;;
  ret {| as_Assignment := {| a_ID := assignmentID; a_TaskID := taskID;
                             a_ContributorID := contributorID; a_CreatedAt := now |};
         as_Session := session |}.

(** ** Consent *)

Record ConsentDocumentText := {
  cdt_ID : string; cdt_Version : string; cdt_TextHash : string; cdt_Body : string;
  cdt_EffectiveDate : time
}.

(** [ORDER BY effective_date DESC, id DESC LIMIT 1] *)
Definition CurrentConsentDocument (d : db) (now : time) : res ConsentDocumentText :=
  let effective := select (λ _ c, cdo_effective_date c <=? now) (consent_documents d) in
  match first_by (λ x y, time_id_leb (cdo_effective_date y.2, y.1) (cdo_effective_date x.2, x.1))
          effective with
  | None => Err ErrNotFound
  | Some (id, c) => Ok {| cdt_ID := id; cdt_Version := cdo_version c;
                          cdt_TextHash := cdo_text_hash c; cdt_Body := cdo_body c;
                          cdt_EffectiveDate := cdo_effective_date c |}
  end.

Definition CreateConsentDocument (version body actor requestID : string)
    (effectiveAt now : time) (r : random) : tx ConsentDocument :=
  identifier <- newID "consent" r ;;
  let hash := sha256_hex body in
  withAudit (audit actor "consent_document.created" ("consent-document/" +:+ identifier)
               requestID now {["version" := version; "text_hash" := hash]})
    (insert_consent_document identifier
       {| cdo_version := version; cdo_text_hash := hash; cdo_body := body;
          cdo_effective_date := effectiveAt |}) ;;
  ret {| cd_ID := identifier; cd_Version := version; cd_TextHash := hash;
         cd_EffectiveDate := effectiveAt |}.

Definition with_consent (acceptance : option string) (updated_at : time) (r : session_row)
    : session_row :=
  {| ses_assignment_id := ses_assignment_id r;
     ses_consent_acceptance_id := acceptance;
     ses_state := ses_state r;
     ses_rework_of_session_id := ses_rework_of_session_id r;
     ses_created_at := ses_created_at r;
     ses_updated_at := updated_at |}.

(** [INSERT ... ON CONFLICT (contributor_id, document_id) DO NOTHING RETURNING],
    then the lookup of the existing row: a contributor accepts a document once. *)
Definition record_acceptance (acceptance : ConsentAcceptance) : tx ConsentAcceptance :=
  d <- get ;;
  match find_where (λ _ c, seqb (cac_contributor_id c) (ca_ContributorID acceptance)
                           && seqb (cac_document_id c) (ca_DocumentID acceptance))
          (consent_acceptances d) with
  | Some (id, c) =>
    ret {| ca_ID := id; ca_ContributorID := ca_ContributorID acceptance;
           ca_DocumentID := ca_DocumentID acceptance;
           ca_ClientVersion := cac_client_version c; ca_AcceptedAt := cac_accepted_at c |}
  | None =>
    insert_consent_acceptance (ca_ID acceptance)
      {| cac_contributor_id := ca_ContributorID acceptance;
         cac_document_id := ca_DocumentID acceptance;
         cac_accepted_at := ca_AcceptedAt acceptance;
         cac_client_version := ca_ClientVersion acceptance |} ;;
    ret acceptance
  end.

Definition AcceptConsent (sessionID contributorID documentID clientVersion actor requestID : string)
    (now : time) (r : random) : tx ConsentAcceptance :=
  identifier <- newID "accept" r ;;
  d <- get ;;
  (* SELECT a.contributor_id, s.state, d.effective_date ... FOR UPDATE OF s *)
  s <- some_or (sessions d !! sessionID) ErrNotFound ;;
  a <- some_or (assignments d !! ses_assignment_id s) ErrNotFound ;;
  document <- some_or (consent_documents d !! documentID) ErrNotFound ;;
  fail_if (negb (seqb (asg_contributor_id a) contributorID))
    (ErrText "contributor does not own session") ;;
  fail_if (negb (bool_decide (ses_state s = SessionAssigned)))
    (ErrInvalidTransition ("consent requires ASSIGNED, current state is "
                           +:+ state_string (ses_state s))) ;;
  fail_if (After (cdo_effective_date document) now)
    (ErrText "consent document is not yet effective") ;;
  acceptance <- record_acceptance
    {| ca_ID := identifier; ca_ContributorID := contributorID; ca_DocumentID := documentID;
       ca_ClientVersion := clientVersion; ca_AcceptedAt := now |} ;;
  modify (set_sessions (alter (with_consent (Some (ca_ID acceptance)) now) sessionID)) ;;
  insertAudit (audit actor "consent.accepted" ("session/" +:+ sessionID) requestID now
    {["document_id" := documentID; "acceptance_id" := ca_ID acceptance]}) ;;
  ret acceptance.

(** ** Session states *)

Definition GetSession (d : db) (sessionID : string) : res Session :=
  match sessions d !! sessionID with
  | None => Err ErrNotFound
  | Some s => Ok (session_of sessionID s)
  end.

Definition TransitionSession (sessionID : string) (to : SessionState)
    (actor requestID : string) (now : time) : tx Session :=
  row <- row_of sessions sessionID ErrNotFound ;;
  fail_if (bool_decide (to = SessionReady)
           && bool_decide (ses_consent_acceptance_id row = None)) ErrConsentMissing ;;
  session <- lift (Transition (session_of sessionID row)
                     (transition_command to actor requestID now)) ;;
  update_session_state (s_ID session) (s_State session) (s_UpdatedAt session) ;;
  insert_last_audit session ;;
  ret session.

(** ** Owners of resources ([access.go])

    Each query joins along the foreign keys; a missing link gives no row. *)

Record SessionAccess := { sa_OrganizationID : string; sa_ContributorID : string }.

Definition project_organization (d : db) (projectID : string) : option string :=
  prj_organization_id <$> projects d !! projectID.
Definition template_organization (d : db) (templateID : string) : option string :=
  t ← task_templates d !! templateID; project_organization d (tpl_project_id t).
Definition task_organization (d : db) (taskID : string) : option string :=
  t ← tasks d !! taskID; template_organization d (tsk_template_id t).
Definition session_access (d : db) (sessionID : string) : option SessionAccess :=
  s ← sessions d !! sessionID;
  a ← assignments d !! ses_assignment_id s;
  o ← task_organization d (asg_task_id a);
  Some {| sa_OrganizationID := o; sa_ContributorID := asg_contributor_id a |}.

Definition or_not_found {A} (o : option A) : res A :=
  match o with Some a => Ok a | None => Err ErrNotFound end.

Definition GetSessionAccess (d : db) (sessionID : string) : res SessionAccess :=
  or_not_found (session_access d sessionID).
Definition GetProjectOrganization (d : db) (projectID : string) : res string :=
  or_not_found (project_organization d projectID).
Definition GetTaskTemplateOrganization (d : db) (templateID : string) : res string :=
  or_not_found (template_organization d templateID).
Definition GetTaskOrganization (d : db) (taskID : string) : res string :=
  or_not_found (task_organization d taskID).
Definition GetReleaseOrganization (d : db) (releaseID : string) : res string :=
  or_not_found (r ← dataset_releases d !! releaseID; project_organization d (drl_project_id r)).
Definition GetProcessingJobAccess (d : db) (jobID : string) : res SessionAccess :=
  match processing_jobs d !! jobID with
  | None => Err ErrNotFound
  | Some j => GetSessionAccess d (job_session_id j)
  end.

Definition active_member (d : db) (organizationID role : string) (accountID : string) : bool :=
  match organization_memberships d !! (organizationID, accountID, role) with
  | Some m => seqb (mem_status m) "active"
  | None => false
  end.

(** The contributor's account has an active contributor membership. *)
Definition ContributorHasOrganization (d : db) (contributorID organizationID : string) : bool :=
  match contributors d !! contributorID with
  | Some c =>
    match ctb_account_id c with
    | Some a => seqb (ctb_status c) "active" && active_member d organizationID "contributor" a
    | None => false
    end
  | None => false
  end.

(** ** Lists

    [$1::text[] IS NULL OR organization_id=ANY($1)] *)
Definition in_scope (organizationIDs : option (list string)) (organizationID : string) : bool :=
  match organizationIDs with None => true | Some l => oneof organizationID l end.

(** [ORDER BY t DESC, id] *)
Definition newest_first {R} (t : R → time) (x y : string * R) : Prop :=
  (if t y.2 <? t x.2 then true else if t x.2 <? t y.2 then false else string_leb x.1 y.1) = true.
#[export] Instance newest_first_dec {R} (t : R → time) : RelDecision (newest_first t).
Proof. intros x y. unfold newest_first. apply _. Defined.

(** The organization a session belongs to is in the scope of the list. *)
Definition session_in_scope (d : db) (organizationIDs : option (list string))
    (sessionID : string) : bool :=
  match session_access d sessionID with
  | Some a => in_scope organizationIDs (sa_OrganizationID a)
  | None => false
  end.

(** ** Lemmas on consent *)

Definition acceptance_row (a : ConsentAcceptance) : consent_acceptance_row :=
  {| cac_contributor_id := ca_ContributorID a; cac_document_id := ca_DocumentID a;
     cac_accepted_at := ca_AcceptedAt a; cac_client_version := ca_ClientVersion a |}.

Lemma insert_consent_acceptance_ok id r d u d' :
  insert_consent_acceptance id r d = Ok (u, d') →
  consent_acceptances d !! id = None ∧ d' = set_consent_acceptances <[id := r]> d.
Proof.
  unfold insert_consent_acceptance. intros H.
  apply bind_ok in H as ([] & d1 & [-> Hnew]%fresh_key_ok & H).
  unfold references in H. by tx_inv.
Qed.

(** The acceptance returned is the one stored: a first acceptance is inserted, a
    second one leaves the table as it is. *)
Lemma record_acceptance_ok a d a' d' :
  record_acceptance a d = Ok (a', d') →
  ca_ContributorID a' = ca_ContributorID a ∧ ca_DocumentID a' = ca_DocumentID a ∧
  consent_acceptances d' !! ca_ID a' = Some (acceptance_row a') ∧
  ((a' = a ∧ consent_acceptances d !! ca_ID a = None ∧
    d' = set_consent_acceptances <[ca_ID a := acceptance_row a]> d) ∨ d' = d).
Proof.
  unfold record_acceptance. intros H. tx_inv.
  destruct (find_where _ _) as [[id c]|] eqn:Hf; tx_inv.
  - apply find_where_some in Hf as [Hc Hp]. rewrite andb_true_iff, !seqb_true in Hp.
    destruct Hp as [H1 H2]. cbn. rewrite Hc, <-H1, <-H2. split; [done|]. split; [done|].
    split; [by destruct c|by right].
  - apply insert_consent_acceptance_ok in H0 as [Hn ->].
    split; [done|]. split; [done|]. split; [|left; done].
    cbn. by rewrite lookup_insert_eq.
Qed.

Lemma AcceptConsent_ok sessionID contributorID documentID clientVersion actor requestID now r d a d' :
  AcceptConsent sessionID contributorID documentID clientVersion actor requestID now r d = Ok (a, d') →
  ∃ s g document,
    sessions d !! sessionID = Some s ∧ ses_state s = SessionAssigned ∧
    assignments d !! ses_assignment_id s = Some g ∧ asg_contributor_id g = contributorID ∧
    consent_documents d !! documentID = Some document ∧ cdo_effective_date document ≤ now ∧
    ca_ContributorID a = contributorID ∧ ca_DocumentID a = documentID ∧
    consent_acceptances d' !! ca_ID a = Some (acceptance_row a) ∧
    (consent_acceptances d' = consent_acceptances d ∨
     ca_AcceptedAt a = now ∧ ca_ClientVersion a = clientVersion ∧
     consent_acceptances d !! ca_ID a = None ∧
     consent_acceptances d' = <[ca_ID a := acceptance_row a]> (consent_acceptances d)) ∧
    sessions d' = alter (with_consent (Some (ca_ID a)) now) sessionID (sessions d) ∧
    assignments d' = assignments d ∧ consent_documents d' = consent_documents d.
Proof.
  unfold AcceptConsent, newID, insertAudit, After. intros H. tx_inv.
  match goal with H : record_acceptance _ _ = _ |- _ =>
    apply record_acceptance_ok in H as (Hc & Hd & Hl & Hs) end.
  cbn in Hc, Hd, Hs.
  apply negb_false_iff, seqb_true in H5. apply negb_false_iff, bool_decide_eq_true in H6.
  apply Z.ltb_ge in H7.
  exists a2, a3, a4. repeat (split; [done|]).
  destruct Hs as [(-> & Hn & ->)| ->]; cbn in *; naive_solver.
Qed.
