(* ===== verification/Pipeline.v ===== *)
(** * Artifacts and validation jobs ([database/pipeline.go])

    Raw artifacts are registered while a session is UPLOADING; submission queues
    one validation job; workers lease jobs, complete them, or give them back with
    a quadratic delay until the attempts are used up and the job is
    dead-lettered.  [locked] is the set of rows that concurrent transactions hold
    when [FOR UPDATE SKIP LOCKED] chooses a job. *)

From S2P Require Import Prelude Domain Schema Frame Store.

(** ** Artifacts *)

Definition raw_prefix (sessionID : string) : string := "raw/sessions/" +:+ sessionID +:+ "/".

Definition validateArtifact (artifact : Artifact) : res () :=
  let prefix := raw_prefix (art_SessionID artifact) in
  if is_empty (art_SessionID artifact) || negb (HasPrefix (art_Key artifact) prefix)
     || (slen (art_Key artifact) =? slen prefix)
  then Err (ErrText ("artifact key must be scoped under " +:+ prefix))
  else match DecodeString (art_SHA256 artifact) with
       | Some decoded =>
         if negb (Nat.eqb (length decoded) 32)
         then Err (ErrText "artifact sha256 must be a 64-character hexadecimal digest")
         else if (art_Size artifact <? 1) || is_empty (TrimSpace (art_MediaType artifact))
         then Err (ErrText "artifact size and media type are required")
         else Ok ()
       | None => Err (ErrText "artifact sha256 must be a 64-character hexadecimal digest")
       end.

Definition EnsureArtifactUploadAllowed (d : db) (sessionID : string) : res () :=
  match sessions d !! sessionID with
  | None => Err ErrNotFound
  | Some s =>
    if bool_decide (ses_state s = SessionUploading) then Ok ()
    else Err (ErrInvalidTransition ("artifact upload requires UPLOADING, current state is "
                                    +:+ state_string (ses_state s)))
  end.

Definition artifact_of (id : string) (r : artifact_row) : Artifact :=
  {| art_ID := id; art_SessionID := arf_session_id r; art_Key := arf_logical_key r;
     art_SHA256 := arf_sha256 r; art_MediaType := arf_media_type r;
     art_Size := arf_size_bytes r |}.

Definition with_artifact_id (id : string) (a : Artifact) : Artifact :=
  {| art_ID := id; art_SessionID := art_SessionID a; art_Key := art_Key a;
     art_SHA256 := art_SHA256 a; art_MediaType := art_MediaType a; art_Size := art_Size a |}.

Definition artifact_to_row (a : Artifact) (now : time) : artifact_row :=
  {| arf_session_id := art_SessionID a; arf_logical_key := art_Key a;
     arf_sha256 := art_SHA256 a; arf_size_bytes := art_Size a;
     arf_media_type := art_MediaType a; arf_created_at := now; arf_purged_at := None |}.

Definition same_artifact (existing artifact : Artifact) : bool :=
  seqb (art_SessionID existing) (art_SessionID artifact)
  && seqb (art_SHA256 existing) (art_SHA256 artifact)
  && (art_Size existing =? art_Size artifact)
  && seqb (art_MediaType existing) (art_MediaType artifact).

(** [INSERT ... ON CONFLICT (logical_key) DO NOTHING]: a key is registered once;
    the same registration again returns the stored artifact. *)
Definition RegisterArtifact (artifact : Artifact) (actor requestID : string) (now : time)
    (r : random) : tx Artifact :=
  lift (validateArtifact artifact) ;;
  identifier <- newID "artifact" r ;;
  let artifact := with_artifact_id identifier artifact in
  s <- row_of sessions (art_SessionID artifact) ErrNotFound ;;
  fail_if (negb (bool_decide (ses_state s = SessionUploading)))
    (ErrInvalidTransition ("artifact registration requires UPLOADING, current state is "
                           +:+ state_string (ses_state s))) ;;
  d <- get ;;
  match find_where (λ _ a, seqb (arf_logical_key a) (art_Key artifact)) (artifacts d) with
  | Some (id, row) =>
    let existing := artifact_of id row in
    fail_if (negb (same_artifact existing artifact)) ErrArtifactConflict ;;
    ret existing
  | None =>
    insert_artifact identifier (artifact_to_row artifact now) ;;
    insertAudit (audit actor "artifact.registered" ("artifact/" +:+ identifier) requestID now
      {["session_id" := art_SessionID artifact; "logical_key" := art_Key artifact;
        "sha256" := art_SHA256 artifact]}) ;;
    ret artifact
  end.

Definition key_leb (x y : string * artifact_row) : Prop :=
  String.le (arf_logical_key x.2) (arf_logical_key y.2).
#[export] Instance key_leb_dec : RelDecision key_leb.
Proof. intros x y. unfold key_leb. apply _. Defined.

(** [SELECT ... FROM artifacts WHERE session_id=$1 ORDER BY logical_key] *)
Definition ListArtifacts (d : db) (sessionID : string) : list Artifact :=
  map (λ kr, artifact_of kr.1 kr.2)
    (merge_sort key_leb (select (λ _ a, seqb (arf_session_id a) sessionID) (artifacts d))).

Definition GetArtifact (d : db) (sessionID key : string) : res Artifact :=
  match find_where (λ _ a, seqb (arf_session_id a) sessionID && seqb (arf_logical_key a) key)
          (artifacts d) with
  | Some (id, row) => Ok (artifact_of id row)
  | None => Err ErrNotFound
  end.

(** [ORDER BY created_at DESC, id DESC LIMIT 1] *)
Definition GetNormalizedTrajectoryKey (d : db) (sessionID : string) : res string :=
  match first_by (λ x y, time_id_leb (val_created_at y.2, y.1) (val_created_at x.2, x.1))
          (select (λ _ v, seqb (val_session_id v) sessionID && val_valid v)
                  (validation_results d)) with
  | Some (_, v) =>
    match val_normalized_key v with
    | Some key => Ok key
    | None => Err (ErrText "cannot scan NULL into *string")
    end
  | None => Err ErrNotFound
  end.

(** ** Submission *)

Definition has_artifact (d : db) (sessionID : string) (p : artifact_row → bool) : bool :=
  exists_row (λ _ a, seqb (arf_session_id a) sessionID && p a) (artifacts d).

Definition job_to_row (sessionID : string) (now : time) : processing_job_row :=
  {| job_session_id := sessionID; job_type := "validate_trajectory"; job_state := "queued";
     job_attempt := 0; job_available_at := now; job_started_at := None;
     job_finished_at := None; job_error := None; job_leased_by := None;
     job_lease_expires_at := None; job_updated_at := now; job_dead_lettered_at := None;
     job_manual_requeues := 0 |}.

Definition job_of (id : string) (r : processing_job_row) : ProcessingJob :=
  {| pj_ID := id; pj_SessionID := job_session_id r; pj_JobType := job_type r;
     pj_State := job_state r; pj_LastError := coalesce "" (job_error r);
     pj_Attempt := job_attempt r; pj_ManualRequeues := job_manual_requeues r;
     pj_AvailableAt := job_available_at r; pj_LeasedAt := coalesce epoch (job_started_at r);
     pj_FinishedAt := coalesce epoch (job_finished_at r);
     pj_LeasedBy := coalesce "" (job_leased_by r);
     pj_LeaseExpiresAt := coalesce epoch (job_lease_expires_at r);
     pj_DeadLetteredAt := coalesce epoch (job_dead_lettered_at r) |}.

Definition SubmitSession (sessionID actor requestID : string) (now : time) (r : random)
    : tx (Session * ProcessingJob) :=
  s <- row_of sessions sessionID ErrNotFound ;;
  fail_if (negb (bool_decide (ses_state s = SessionUploading)))
    (ErrInvalidTransition ("submission requires UPLOADING, current state is "
                           +:+ state_string (ses_state s))) ;;
  d <- get ;;
  let hasTrajectory := has_artifact d sessionID
    (λ a, seqb (arf_logical_key a) ("raw/sessions/" +:+ sessionID +:+ "/trajectory.json")) in
  let hasVideo := has_artifact d sessionID (λ a, seqb (arf_media_type a) "video/mp4") in
  let hasEvents := has_artifact d sessionID (λ a, seqb (arf_media_type a) "application/x-ndjson") in
  fail_if (negb hasTrajectory || negb hasVideo || negb hasEvents) ErrArtifactsMissing ;;
  session <- lift (Transition (session_of sessionID s)
                     (transition_command SessionSubmitted actor requestID now)) ;;
  update_session_state (s_ID session) (s_State session) (s_UpdatedAt session) ;;
  jobID <- newID "job" r ;;
  let row := job_to_row (s_ID session) now in
  insert_processing_job jobID row ;;
  insert_last_audit session ;;
  insertAudit (audit actor "processing_job.queued" ("processing-job/" +:+ jobID) requestID now
    {["session_id" := s_ID session; "job_type" := "validate_trajectory"]}) ;;
  ret (session,
       {| pj_ID := jobID; pj_SessionID := s_ID session; pj_JobType := "validate_trajectory";
          pj_State := "queued"; pj_LastError := ""; pj_Attempt := 0; pj_ManualRequeues := 0;
          pj_AvailableAt := now; pj_LeasedAt := 0; pj_FinishedAt := 0; pj_LeasedBy := "";
          pj_LeaseExpiresAt := 0; pj_DeadLetteredAt := 0 |}).

(** ** Leases *)

Definition validation_due (now : time) (_ : string) (j : processing_job_row) : bool :=
  seqb (job_type j) "validate_trajectory"
  && queue_due (job_state j) (job_available_at j) (job_lease_expires_at j) now.

Definition lease_job (workerID : string) (expires now : time) (j : processing_job_row)
    : processing_job_row :=
  {| job_session_id := job_session_id j; job_type := job_type j; job_state := "leased";
     job_attempt := job_attempt j + 1; job_available_at := job_available_at j;
     job_started_at := Some (coalesce now (job_started_at j));
     job_finished_at := job_finished_at j; job_error := None;
     job_leased_by := Some workerID; job_lease_expires_at := Some expires;
     job_updated_at := now; job_dead_lettered_at := job_dead_lettered_at j;
     job_manual_requeues := job_manual_requeues j |}.

Definition ClaimValidationJob (workerID : string) (leaseDuration : Z) (now : time)
    (locked : gset string) : tx ProcessingJob :=
  fail_if (is_empty (TrimSpace workerID) || (leaseDuration <=? 0))
    (ErrText "worker ID and positive lease duration are required") ;;
  d <- get ;;
  '(jobID, j) <- some_or (first_due job_available_at (validation_due now) locked
                            (processing_jobs d)) ErrNoJobAvailable ;;
  let expires := now + leaseDuration in
  modify (set_processing_jobs (alter (lease_job workerID expires now) jobID)) ;;
  s <- row_of sessions (job_session_id j) ErrNoRows ;;
  (if bool_decide (ses_state s = SessionSubmitted) then
     session <- lift (Transition (session_of (job_session_id j) s)
                        (transition_command SessionProcessing workerID jobID now)) ;;
     update_session_state (s_ID session) (s_State session) (s_UpdatedAt session) ;;
     insert_last_audit session
   else
     fail_if (negb (bool_decide (ses_state s = SessionProcessing)))
       (ErrInvalidTransition ("cannot lease validation for session in "
                              +:+ state_string (ses_state s)))) ;;
  insertAudit (audit workerID "processing_job.leased" ("processing-job/" +:+ jobID) jobID now
    {["attempt" := Sprint (job_attempt j + 1)]}) ;;
  ret {| pj_ID := jobID; pj_SessionID := job_session_id j; pj_JobType := job_type j;
         pj_State := "leased"; pj_LastError := ""; pj_Attempt := job_attempt j + 1;
         pj_ManualRequeues := 0; pj_AvailableAt := job_available_at j; pj_LeasedAt := 0;
         pj_FinishedAt := 0; pj_LeasedBy := workerID; pj_LeaseExpiresAt := expires;
         pj_DeadLetteredAt := 0 |}.

(** [state != "leased" || leasedBy != workerID] *)
Definition holds_lease (state : string) (leased_by : option string) (workerID : string) : bool :=
  seqb state "leased" && seqb (coalesce "" leased_by) workerID.

Definition complete_job (now : time) (j : processing_job_row) : processing_job_row :=
  {| job_session_id := job_session_id j; job_type := job_type j; job_state := "completed";
     job_attempt := job_attempt j; job_available_at := job_available_at j;
     job_started_at := job_started_at j; job_finished_at := Some now; job_error := None;
     job_leased_by := job_leased_by j; job_lease_expires_at := None;
     job_updated_at := now; job_dead_lettered_at := job_dead_lettered_at j;
     job_manual_requeues := job_manual_requeues j |}.

Definition CompleteValidationJob (jobID workerID : string) (result : ValidationResult)
    (now : time) (r : random) : tx Session :=
  fail_if (is_empty (vr_SchemaVersion result) || is_empty (vr_ValidatorVersion result)
           || (vr_Valid result && is_empty (vr_NormalizedKey result)))
    (ErrText "validation result is incomplete") ;;
  resultID <- newID "validation" r ;;
  j <- row_of processing_jobs jobID ErrNotFound ;;
  fail_if (negb (holds_lease (job_state j) (job_leased_by j) workerID)) ErrJobLease ;;
  let sessionID := job_session_id j in
  s <- row_of sessions sessionID ErrNoRows ;;
  let target := if vr_Valid result then SessionReadyForReview else SessionFailed in
  session <- lift (Transition (session_of sessionID s)
                     (transition_command target workerID jobID now)) ;;
  insert_validation_result resultID
    {| val_job_id := jobID; val_session_id := sessionID; val_valid := vr_Valid result;
       val_errors := vr_Errors result;
       val_normalized_key := if vr_Valid result then Some (vr_NormalizedKey result) else None;
       val_schema_version := vr_SchemaVersion result;
       val_validator_version := vr_ValidatorVersion result;
       val_created_at := now; val_purged_at := None |} ;;
  modify (set_processing_jobs (alter (complete_job now) jobID)) ;;
  update_session_state (s_ID session) (s_State session) (s_UpdatedAt session) ;;
  insertAudit (audit workerID "validation.completed" ("session/" +:+ sessionID) jobID now
    {["valid" := Sprint_bool (vr_Valid result); "result_id" := resultID]}) ;;
  insert_last_audit session ;;
  ret session.

Definition requeue_job (available now : time) (message : string) (j : processing_job_row)
    : processing_job_row :=
  {| job_session_id := job_session_id j; job_type := job_type j; job_state := "queued";
     job_attempt := job_attempt j; job_available_at := available;
     job_started_at := job_started_at j; job_finished_at := job_finished_at j;
     job_error := Some message; job_leased_by := None; job_lease_expires_at := None;
     job_updated_at := now; job_dead_lettered_at := job_dead_lettered_at j;
     job_manual_requeues := job_manual_requeues j |}.

Definition dead_letter_job (now : time) (message : string) (j : processing_job_row)
    : processing_job_row :=
  {| job_session_id := job_session_id j; job_type := job_type j; job_state := "dead_letter";
     job_attempt := job_attempt j; job_available_at := job_available_at j;
     job_started_at := job_started_at j; job_finished_at := Some now;
     job_error := Some message; job_leased_by := None; job_lease_expires_at := None;
     job_updated_at := now; job_dead_lettered_at := Some now;
     job_manual_requeues := job_manual_requeues j |}.

Definition RequeueValidationJob (jobID workerID message : string) (maxAttempts : Z)
    (now : time) : tx () :=
  fail_if (maxAttempts <? 1) (ErrText "max attempts must be positive") ;;
  j <- row_of processing_jobs jobID ErrNotFound ;;
  fail_if (negb (holds_lease (job_state j) (job_leased_by j) workerID)) ErrJobLease ;;
  let attempt := job_attempt j in
  if attempt <? maxAttempts then
    modify (set_processing_jobs (alter (requeue_job (now + backoff attempt) now message) jobID)) ;;
    insertAudit (audit workerID "processing_job.requeued" ("processing-job/" +:+ jobID) jobID now
      {["attempt" := Sprint attempt; "error" := message]})
  else
    modify (set_processing_jobs (alter (dead_letter_job now message) jobID)) ;;
    s <- row_of sessions (job_session_id j) ErrNoRows ;;
    session <- lift (Transition (session_of (job_session_id j) s)
                       (transition_command SessionFailed workerID jobID now)) ;;
    update_session_state (s_ID session) (s_State session) (s_UpdatedAt session) ;;
    insertAudit (audit workerID "processing_job.dead_lettered" ("processing-job/" +:+ jobID)
                   jobID now {["attempt" := Sprint attempt; "error" := message]}) ;;
    insert_last_audit session.

(** ** Dead letters *)

Definition GetProcessingJob (d : db) (jobID : string) : res ProcessingJob :=
  match processing_jobs d !! jobID with
  | Some j => Ok (job_of jobID j)
  | None => Err ErrNotFound
  end.

Definition ListDeadLetterJobs (d : db) (organizationIDs : option (list string))
    : list ProcessingJob :=
  map (λ kr, job_of kr.1 kr.2)
    (merge_sort (newest_first (λ j, coalesce epoch (job_dead_lettered_at j)))
      (select (λ _ j, seqb (job_state j) "dead_letter"
                      && session_in_scope d organizationIDs (job_session_id j))
              (processing_jobs d))).

Definition retry_job (now : time) (j : processing_job_row) : processing_job_row :=
  {| job_session_id := job_session_id j; job_type := job_type j; job_state := "queued";
     job_attempt := 0; job_available_at := now; job_started_at := job_started_at j;
     job_finished_at := None; job_error := None; job_leased_by := None;
     job_lease_expires_at := None; job_updated_at := now; job_dead_lettered_at := None;
     job_manual_requeues := job_manual_requeues j + 1 |}.

(** The one place where a FAILED session goes back to PROCESSING: the state is
    written directly, the transition table has no such edge.  The unique index
    refuses a second active job of the type. *)
Definition RetryDeadLetterJob (jobID actor requestID : string) (now : time) : tx ProcessingJob :=
  j <- row_of processing_jobs jobID ErrNotFound ;;
  let sessionID := job_session_id j in
  fail_if (negb (seqb (job_state j) "dead_letter")) ErrJobNotDeadLetter ;;
  s <- row_of sessions sessionID ErrNoRows ;;
  fail_if (negb (bool_decide (ses_state s = SessionFailed)))
    (ErrInvalidTransition ("dead-letter retry requires FAILED session, current state is "
                           +:+ state_string (ses_state s))) ;;
  no_row processing_jobs
    (λ id k, negb (seqb id jobID) && active_job k && seqb (job_session_id k) sessionID
             && seqb (job_type k) (job_type j))
    "processing_jobs_one_active_type_per_session" ;;
  modify (set_processing_jobs (alter (retry_job now) jobID)) ;;
  update_session_state sessionID SessionProcessing now ;;
  insertAudit (audit actor "processing_job.manual_retry" ("processing-job/" +:+ jobID) requestID
    now {["previous_attempts" := Sprint (job_attempt j); "session_id" := sessionID]}) ;;
  insertAudit (audit actor "session.processing_recovered" ("session/" +:+ sessionID) requestID now
    {["from" := state_string SessionFailed; "to" := state_string SessionProcessing;
      "job_id" := jobID]}) ;;
  d <- get ;;
  lift (GetProcessingJob d jobID).

(** ** Lemmas *)

Lemma state_known state : state = SessionProcessing ∨ state = SessionFailed ∨
  state = SessionReadyForReview ∨ state = SessionSubmitted → state ∈ session_states.
Proof. intros [->|[->|[->| ->]]]; by repeat (left || right). Qed.

Definition with_job (d : db) (id : string) (f : processing_job_row → processing_job_row) : db :=
  set_processing_jobs (alter f id) d.

Lemma claim_args workerID lease :
  TrimSpace workerID ≠ "" → 0 < lease →
  is_empty (TrimSpace workerID) || (lease <=? 0) = false.
Proof.
  intros H1 H2. apply orb_false_iff. split; [by apply is_empty_false|].
  apply Z.leb_gt. lia.
Qed.

(** ** Properties *)

(** A worker that asks for a validation job gets exactly the due job that waits
    longest (ties by identifier) among those nobody holds: it is leased to the
    worker until the lease ends, with one more attempt and a cleared error, no
    other job changes, and its session is PROCESSING.  When nothing is due the
    answer is [ErrNoJobAvailable].  When the longest waiting job belongs to a
    session in any other state than SUBMITTED or PROCESSING the claim fails
    without trying the next job. *)
Theorem claim_validation_job_cases workerID lease now locked d :
  TrimSpace workerID ≠ "" → 0 < lease → now ≠ 0 →
  ((∀ k j, processing_jobs d !! k = Some j → k ∉ locked → validation_due now k j = false) →
   ClaimValidationJob workerID lease now locked d = Err ErrNoJobAvailable) ∧
  (∀ id j s, earliest job_available_at (validation_due now) locked (processing_jobs d) id j →
   id ≠ "" → job_session_id j ≠ "" → sessions d !! job_session_id j = Some s →
   (ses_state s = SessionSubmitted ∨ ses_state s = SessionProcessing →
    ∃ job d', ClaimValidationJob workerID lease now locked d = Ok (job, d') ∧
      pj_ID job = id ∧ pj_SessionID job = job_session_id j ∧
      processing_jobs d' = <[id := lease_job workerID (now + lease) now j]> (processing_jobs d) ∧
      (∃ s', sessions d' !! job_session_id j = Some s' ∧ ses_state s' = SessionProcessing) ∧
      (∀ k, k ≠ job_session_id j → sessions d' !! k = sessions d !! k)) ∧
   (ses_state s ≠ SessionSubmitted → ses_state s ≠ SessionProcessing →
    ClaimValidationJob workerID lease now locked d =
      Err (ErrInvalidTransition ("cannot lease validation for session in "
                                 +:+ state_string (ses_state s))))).
Proof.
  intros Hw Hl Hn. pose proof (TrimSpace_not_empty _ Hw) as Hw'.
  unfold ClaimValidationJob. op_run. rewrite (claim_args _ _ Hw Hl). split.
  - intros Hnone.
    by rewrite (proj2 (first_due_none job_available_at _ _ _) Hnone).
  - intros id j s He Hid Hsid Hs. pose proof (proj2 (first_due_earliest _ _ _ _ _ _) He) as ->.
    op_run. db_simpl. rewrite Hs. split.
    + intros [Hst|Hst]; rewrite Hst, ?bool_decide_true by done.
      * op_run. rewrite Transition_row by (rewrite ?Hst; done).
        op_run. rewrite bind_update_session by (apply state_known; eauto). op_run.
        eexists _, _. split; [reflexivity|]. db_simpl. split; [done|]. split; [done|].
        split; [by apply alter_as_insert; destruct He|]. split.
        -- eexists. rewrite lookup_alter_eq, Hs. done.
        -- intros k Hk. by rewrite lookup_alter_ne.
      * rewrite bool_decide_false by done. op_run.
        eexists _, _. split; [reflexivity|]. db_simpl. split; [done|]. split; [done|].
        split; [by apply alter_as_insert; destruct He|]. split; [by eexists|done].
    + intros H1 H2. rewrite !bool_decide_false by done. by op_run.
Qed.

Lemma claim_validation_job_witness :
  let j := job_to_row "sess_1" 5 in
  let s := {| ses_assignment_id := "a"; ses_consent_acceptance_id := Some "acc";
              ses_state := SessionSubmitted; ses_rework_of_session_id := None;
              ses_created_at := 1; ses_updated_at := 4 |} in
  let d := set_sessions <["sess_1" := s]> (set_processing_jobs <["job_1" := j]> empty_db) in
  ∃ job d', ClaimValidationJob "worker" second 7 ∅ d = Ok (job, d') ∧ pj_ID job = "job_1".
Proof.
  intros j s d.
  destruct (claim_validation_job_cases "worker" second 7 ∅ d) as [_ H];
    [done|reflexivity|done|].
  destruct (H "job_1" j s) as [H1 _]; [|done|done|reflexivity|].
  - apply first_due_earliest. vm_compute. reflexivity.
  - destruct H1 as (job & d' & H1 & H2 & _); [by left|]. exists job, d'. split; [exact H1|exact H2].
Defined.

Lemma requeue_guard j workerID :
  job_state j = "leased" → coalesce "" (job_leased_by j) = workerID →
  holds_lease (job_state j) (job_leased_by j) workerID = true.
Proof. intros H1 H2. unfold holds_lease. by rewrite H1, H2, !(proj2 (seqb_true _ _)). Qed.

Lemma not_held_guard j workerID :
  ¬ (job_state j = "leased" ∧ coalesce "" (job_leased_by j) = workerID) →
  holds_lease (job_state j) (job_leased_by j) workerID = false.
Proof.
  intros H. apply not_true_iff_false. unfold holds_lease.
  by rewrite andb_true_iff, !seqb_true.
Qed.

(** A job given back by its worker waits the square of its attempts in seconds
    (no overflow up to 96038 attempts) and keeps its attempt count and its
    session; once the attempts have reached the maximum it is dead-lettered
    instead and its PROCESSING session becomes FAILED.  Only the worker that holds
    the lease can give a job back. *)
Theorem requeue_validation_job_cases jobID workerID message maxAttempts now d j s :
  1 ≤ maxAttempts → processing_jobs d !! jobID = Some j →
  (¬ (job_state j = "leased" ∧ coalesce "" (job_leased_by j) = workerID) →
   RequeueValidationJob jobID workerID message maxAttempts now d = Err ErrJobLease) ∧
  (job_state j = "leased" → coalesce "" (job_leased_by j) = workerID →
   0 ≤ job_attempt j ≤ 96038 → job_attempt j < maxAttempts →
   ∃ d', RequeueValidationJob jobID workerID message maxAttempts now d = Ok ((), d') ∧
     processing_jobs d' =
       <[jobID := requeue_job (now + job_attempt j * job_attempt j * second) now message j]>
         (processing_jobs d) ∧
     sessions d' = sessions d) ∧
  (job_state j = "leased" → coalesce "" (job_leased_by j) = workerID →
   maxAttempts ≤ job_attempt j →
   sessions d !! job_session_id j = Some s → ses_state s = SessionProcessing →
   jobID ≠ "" → workerID ≠ "" → job_session_id j ≠ "" → now ≠ 0 →
   ∃ d', RequeueValidationJob jobID workerID message maxAttempts now d = Ok ((), d') ∧
     processing_jobs d' = <[jobID := dead_letter_job now message j]> (processing_jobs d) ∧
     sessions d' = <[job_session_id j := with_state SessionFailed now s]> (sessions d)).
Proof.
  intros Hm Hj. unfold RequeueValidationJob. op_run.
  rewrite (proj2 (Z.ltb_ge _ _)) by lia. rewrite Hj. op_run. split; [|split].
  - intros Hn. by rewrite not_held_guard.
  - intros H1 H2 Hb Ha. rewrite requeue_guard by done. cbn [negb].
    rewrite (proj2 (Z.ltb_lt _ _)) by lia. op_run. eexists. split; [reflexivity|].
    db_simpl. rewrite backoff_exact by done. split; [by apply alter_as_insert|done].
  - intros H1 H2 Ha Hs Hst Hjob Hw Hsid Hn. rewrite requeue_guard by done. cbn [negb].
    rewrite (proj2 (Z.ltb_ge _ _)) by lia. op_run. db_simpl. rewrite Hs. op_run.
    rewrite Transition_row by (rewrite ?Hst; done). op_run.
    rewrite bind_update_session by (apply state_known; eauto). op_run.
    eexists. split; [reflexivity|]. db_simpl.
    split; by apply alter_as_insert.
Qed.

Lemma requeue_validation_job_witness :
  let j := lease_job "worker" 100 5 (job_to_row "sess_1" 5) in
  let d := set_processing_jobs <["job_1" := j]> empty_db in
  ∃ d', RequeueValidationJob "job_1" "worker" "boom" 3 10 d = Ok ((), d') ∧
        sessions d' = sessions d.
Proof.
  intros j d.
  destruct (requeue_validation_job_cases "job_1" "worker" "boom" 3 10 d j
              (with_state SessionProcessing 0 {| ses_assignment_id := "";
                 ses_consent_acceptance_id := None; ses_state := SessionProcessing;
                 ses_rework_of_session_id := None; ses_created_at := 0; ses_updated_at := 0 |}))
    as (_ & H & _); [lia|reflexivity|].
  destruct H as (d' & H1 & _ & H2); [reflexivity..|cbn; lia|cbn; lia|].
  exists d'. split; [exact H1|exact H2].
Defined.

Lemma insert_artifact_ok id r d u d' :
  insert_artifact id r d = Ok (u, d') → d' = set_artifacts <[id := r]> d.
Proof.
  unfold insert_artifact. intros H.
  apply bind_ok in H as ([] & d1 & [-> _]%fresh_key_ok & H).
  unfold references, check in H. by tx_inv.
Qed.

Definition by_key (key : string) (_ : string) (a : artifact_row) : bool :=
  seqb (arf_logical_key a) key.

(** A registration stores the artifact it returns, as the only one of its key that
    the registration of that key will find. *)
Lemma RegisterArtifact_ok artifact actor requestID now r d a d' :
  RegisterArtifact artifact actor requestID now r d = Ok (a, d') →
  (∃ row, find_where (by_key (art_Key artifact)) (artifacts d') = Some (art_ID a, row) ∧
          artifact_of (art_ID a) row = a) ∧
  (d' = d ∨ artifacts d' = <[art_ID a := artifact_to_row a now]> (artifacts d) ∧
            sessions d' = sessions d).
Proof.
  unfold RegisterArtifact, newID, insertAudit, row_of. intros H. tx_inv.
  destruct (find_where _ _) as [[id row]|] eqn:Hf; tx_inv.
  - split; [|by left]. exists row. split; [exact Hf|done].
  - match goal with H : insert_artifact _ _ _ = _ |- _ => apply insert_artifact_ok in H as -> end.
    split; [|by right]. eexists. split.
    + cbn. apply find_where_insert; [exact Hf|]. unfold by_key. by apply seqb_true.
    + by destruct artifact.
Qed.

(** A registered artifact is immutable under its key.  Registering the key again
    while the session is still uploading, by anyone, at any time and with any fresh
    identifier, returns the stored artifact and changes nothing when session,
    digest, size and media type agree, and is refused as a conflict when one of
    them differs. *)
Theorem register_artifact_idempotent artifact actor requestID now r d a d'
    artifact' actor' requestID' now' bytes s :
  RegisterArtifact artifact actor requestID now r d = Ok (a, d') →
  art_Key artifact' = art_Key artifact → validateArtifact artifact' = Ok () →
  sessions d' !! art_SessionID artifact' = Some s → ses_state s = SessionUploading →
  RegisterArtifact artifact' actor' requestID' now' (Some bytes) d' =
    if same_artifact a artifact' then Ok (a, d') else Err ErrArtifactConflict.
Proof.
  intros [(row & Hf & Ha) _]%RegisterArtifact_ok Hk Hv Hs Hst.
  unfold RegisterArtifact, newID. op_run. rewrite Hv. rewrite New_bytes by done.
  op_run. cbn [art_SessionID art_Key with_artifact_id]. rewrite Hs, Hst.
  rewrite bool_decide_true by done. op_run.
  rewrite Hk. unfold by_key in Hf. rewrite Hf. rewrite Ha. op_run.
  replace (same_artifact a (with_artifact_id _ artifact')) with (same_artifact a artifact')
    by (by destruct artifact').
  by destruct (same_artifact a artifact').
Qed.

Definition uploading_session : session_row :=
  {| ses_assignment_id := "assign_1"; ses_consent_acceptance_id := Some "accept_1";
     ses_state := SessionUploading; ses_rework_of_session_id := None;
     ses_created_at := 1; ses_updated_at := 4 |}.

Definition sample_artifact (media : string) : Artifact :=
  {| art_ID := ""; art_SessionID := "sess_1"; art_Key := "raw/sessions/sess_1/trajectory.json";
     art_SHA256 := "00000000000000000000000000000000000000000000000000000000000000ff";
     art_MediaType := media; art_Size := 3 |}.

Lemma register_artifact_witness :
  let d := set_sessions <["sess_1" := uploading_session]> empty_db in
  ∃ a d', RegisterArtifact (sample_artifact "application/json") "c" "r" 9 (Some [x01]) d = Ok (a, d') ∧
    RegisterArtifact (sample_artifact "application/json") "c" "r2" 11 (Some [x02]) d' = Ok (a, d') ∧
    RegisterArtifact (sample_artifact "video/mp4") "c" "r2" 11 (Some [x02]) d' = Err ErrArtifactConflict.
Proof.
  intros d.
  destruct (RegisterArtifact (sample_artifact "application/json") "c" "r" 9 (Some [x01]) d)
    as [[a d']|e] eqn:H; [|vm_compute in H; discriminate H].
  exists a, d'. split; [reflexivity|].
  assert (Ha : a = with_artifact_id "artifact_01" (sample_artifact "application/json")
               ∧ sessions d' !! "sess_1" = Some uploading_session).
  { vm_compute in H. injection H as <- <-. split; reflexivity. }
  destruct Ha as [Ha Hs]. split.
  - rewrite (register_artifact_idempotent _ _ _ _ _ _ _ _ (sample_artifact "application/json")
      "c" "r2" 11 [x02] uploading_session H); [|reflexivity..|exact Hs|reflexivity].
    by rewrite Ha.
  - rewrite (register_artifact_idempotent _ _ _ _ _ _ _ _ (sample_artifact "video/mp4")
      "c" "r2" 11 [x02] uploading_session H); [|reflexivity..|exact Hs|reflexivity].
    by rewrite Ha.
Defined.

Lemma insert_processing_job_ok id r d :
  processing_jobs d !! id = None → is_Some (sessions d !! job_session_id r) →
  (∀ k j, processing_jobs d !! k = Some j → active_job j = true →
          job_session_id j = job_session_id r → job_type j ≠ job_type r) →
  insert_processing_job id r d = Ok ((), set_processing_jobs <[id := r]> d).
Proof.
  intros Hid [s Hs] Hu. unfold insert_processing_job, fresh_key, references, has_row. op_run.
  rewrite Hid, bool_decide_false by (by intros [? [=]]). op_run.
  rewrite Hs, bool_decide_true by done. op_run.
  destruct (exists_row _ _) eqn:He; [|done]. apply exists_row_spec in He as (k & j & Hj & Hp).
  rewrite !andb_true_iff, !seqb_true in Hp. destruct Hp as [[[_ Ha] Hsid] Ht].
  by destruct (Hu _ _ Hj Ha Hsid).
Qed.

(** Whether the raw artifacts a submission needs are registered. *)
Definition submittable (d : db) (sessionID : string) : bool :=
  has_artifact d sessionID
    (λ a, seqb (arf_logical_key a) ("raw/sessions/" +:+ sessionID +:+ "/trajectory.json"))
  && has_artifact d sessionID (λ a, seqb (arf_media_type a) "video/mp4")
  && has_artifact d sessionID (λ a, seqb (arf_media_type a) "application/x-ndjson").

(** The submission gate.  A session that is not UPLOADING is refused, and so is
    one without its trajectory, a video and an event stream; otherwise the session
    becomes SUBMITTED and exactly one validation job, queued and due at once, is
    added for it, in one transaction. *)
Theorem submission_gate sessionID actor requestID now bytes d s :
  sessionID ≠ "" → actor ≠ "" → requestID ≠ "" → now ≠ 0 →
  sessions d !! sessionID = Some s →
  (ses_state s ≠ SessionUploading →
   SubmitSession sessionID actor requestID now (Some bytes) d =
     Err (ErrInvalidTransition ("submission requires UPLOADING, current state is "
                                +:+ state_string (ses_state s)))) ∧
  (ses_state s = SessionUploading → submittable d sessionID = false →
   SubmitSession sessionID actor requestID now (Some bytes) d = Err ErrArtifactsMissing) ∧
  (ses_state s = SessionUploading → submittable d sessionID = true →
   let jobID := "job_" +:+ EncodeToString bytes in
   processing_jobs d !! jobID = None →
   (∀ k j, processing_jobs d !! k = Some j → active_job j = true → job_session_id j ≠ sessionID) →
   ∃ session job d', SubmitSession sessionID actor requestID now (Some bytes) d = Ok ((session, job), d') ∧
     sessions d' = <[sessionID := with_state SessionSubmitted now s]> (sessions d) ∧
     processing_jobs d' = <[jobID := job_to_row sessionID now]> (processing_jobs d) ∧
     validation_due now jobID (job_to_row sessionID now) = true).
Proof.
  intros Hid Ha Hr Hn Hs. unfold SubmitSession. op_run. rewrite Hs. split; [|split].
  - intros Hst. rewrite bool_decide_false by done. by op_run.
  - intros Hst Hsub. rewrite bool_decide_true by done. op_run.
    unfold submittable in Hsub. rewrite !andb_false_iff in Hsub.
    destruct Hsub as [[->| ->]| ->]; rewrite ?orb_true_r; by op_run.
  - set (jobID := "job_" +:+ EncodeToString bytes). intros Hst Hsub Hjob Hu. rewrite bool_decide_true by done. op_run.
    unfold submittable in Hsub. rewrite !andb_true_iff in Hsub.
    destruct Hsub as [[-> ->] ->]. op_run.
    rewrite Transition_row by (rewrite ?Hst; done). op_run.
    rewrite bind_update_session by (apply state_known; eauto). unfold newID. op_run.
    rewrite New_bytes by done. op_run. fold jobID.
    erewrite bind_run; [|apply insert_processing_job_ok].
    + op_run. eexists _, _, _. split; [reflexivity|]. db_simpl.
      split; [by apply alter_as_insert|]. split; [done|].
      unfold validation_due, queue_due. cbn. by rewrite Z.leb_refl.
    + done.
    + db_simpl. exists (with_state SessionSubmitted now s). by rewrite lookup_alter_eq, Hs.
    + db_simpl. intros k j Hj Hact Hsid. by destruct (Hu k j Hj Hact).
Qed.

Definition sample_upload (key media : string) : artifact_row :=
  {| arf_session_id := "sess_1"; arf_logical_key := key; arf_sha256 := ""; arf_size_bytes := 1;
     arf_media_type := media; arf_created_at := 2; arf_purged_at := None |}.

Definition ready_to_submit : db :=
  set_sessions <["sess_1" := uploading_session]>
    (set_artifacts
       (λ m, <["a" := sample_upload "raw/sessions/sess_1/trajectory.json" "application/json"]>
             (<["b" := sample_upload "raw/sessions/sess_1/video/1.mp4" "video/mp4"]>
             (<["c" := sample_upload "raw/sessions/sess_1/events.ndjson" "application/x-ndjson"]> m)))
       empty_db).

Lemma submission_gate_witness :
  ∃ r d', SubmitSession "sess_1" "c" "req" 9 (Some [x07]) ready_to_submit = Ok (r, d') ∧
    processing_jobs d' = <["job_07" := job_to_row "sess_1" 9]> ∅.
Proof.
  destruct (submission_gate "sess_1" "c" "req" 9 [x07] ready_to_submit uploading_session)
    as (_ & _ & H); [done..|].
  destruct H as (s & j & d' & H1 & _ & H2 & _);
    [reflexivity|vm_compute; reflexivity|reflexivity|intros k j' Hj; cbn in Hj; by rewrite lookup_empty in Hj|].
  exists (s, j), d'. split; [exact H1|exact H2].
Defined.

Lemma insert_validation_result_ok id r d :
  validation_results d !! id = None → is_Some (processing_jobs d !! val_job_id r) →
  is_Some (sessions d !! val_session_id r) →
  (∀ k v, validation_results d !! k = Some v → val_job_id v ≠ val_job_id r) →
  val_valid r = bool_decide (is_Some (val_normalized_key r)) →
  insert_validation_result id r d = Ok ((), set_validation_results <[id := r]> d).
Proof.
  intros Hid [j Hj] [s Hs] Hu Hv.
  unfold insert_validation_result, fresh_key, references, has_row, check. op_run.
  rewrite Hid, bool_decide_false by (by intros [? [=]]). op_run.
  rewrite Hj, bool_decide_true by done. op_run. rewrite Hs, bool_decide_true by done. op_run.
  destruct (exists_row _ _) eqn:He.
  { apply exists_row_spec in He as (k & v & Hk & Hp%seqb_true). by destruct (Hu _ _ Hk). }
  by rewrite Hv, eqb_reflx.
Qed.

(** The row a completed validation stores. *)
Definition validation_row (jobID sessionID : string) (result : ValidationResult) (now : time)
    : validation_result_row :=
  {| val_job_id := jobID; val_session_id := sessionID; val_valid := vr_Valid result;
     val_errors := vr_Errors result;
     val_normalized_key := if vr_Valid result then Some (vr_NormalizedKey result) else None;
     val_schema_version := vr_SchemaVersion result;
     val_validator_version := vr_ValidatorVersion result;
     val_created_at := now; val_purged_at := None |}.

(** Only the worker that holds the lease completes a job.  A complete report on
    a PROCESSING session without an earlier result for the job makes the job
    completed, stores one result row (with a normalized key exactly when valid)
    and moves the session to READY_FOR_REVIEW when the trajectory is valid and to
    FAILED when it is not. *)
Theorem complete_validation_job_cases jobID workerID result now bytes d j s :
  vr_SchemaVersion result ≠ "" → vr_ValidatorVersion result ≠ "" →
  (vr_Valid result = true → vr_NormalizedKey result ≠ "") →
  processing_jobs d !! jobID = Some j →
  (¬ (job_state j = "leased" ∧ coalesce "" (job_leased_by j) = workerID) →
   CompleteValidationJob jobID workerID result now (Some bytes) d = Err ErrJobLease) ∧
  (job_state j = "leased" → coalesce "" (job_leased_by j) = workerID →
   sessions d !! job_session_id j = Some s → ses_state s = SessionProcessing →
   jobID ≠ "" → workerID ≠ "" → job_session_id j ≠ "" → now ≠ 0 →
   let resultID := "validation_" +:+ EncodeToString bytes in
   validation_results d !! resultID = None →
   (∀ k v, validation_results d !! k = Some v → val_job_id v ≠ jobID) →
   ∃ session d', CompleteValidationJob jobID workerID result now (Some bytes) d = Ok (session, d') ∧
     processing_jobs d' = <[jobID := complete_job now j]> (processing_jobs d) ∧
     validation_results d' =
       <[resultID := validation_row jobID (job_session_id j) result now]> (validation_results d) ∧
     sessions d' = <[job_session_id j :=
       with_state (if vr_Valid result then SessionReadyForReview else SessionFailed) now s]> (sessions d)).
Proof.
  intros H1 H2 H3 Hj. unfold CompleteValidationJob, newID. op_run.
  rewrite (proj2 (is_empty_false _) H1), (proj2 (is_empty_false _) H2). cbn [orb].
  assert (vr_Valid result && is_empty (vr_NormalizedKey result) = false) as ->.
  { destruct (vr_Valid result); [|done]. by apply is_empty_false, H3. }
  rewrite New_bytes by done. op_run. rewrite Hj. op_run. split.
  - intros Hn. by rewrite not_held_guard.
  - set (resultID := "validation_" +:+ EncodeToString bytes).
    intros Hl Hw Hs Hst Hjid Hwid Hsid Hn Hr Hu. rewrite requeue_guard by done. cbn [negb].
    rewrite Hs. op_run.
    rewrite Transition_row by (rewrite ?Hst; try done; by destruct (vr_Valid result)). op_run.
    erewrite bind_run; [|apply insert_validation_result_ok; cbn; eauto; by destruct (vr_Valid result)].
    op_run. rewrite bind_update_session by (apply state_known; destruct (vr_Valid result); eauto).
    op_run. eexists _, _. split; [reflexivity|]. db_simpl.
    split; [by apply alter_as_insert|]. split; [done|]. by apply alter_as_insert.
Qed.

Lemma complete_validation_job_witness :
  let j := lease_job "worker" 100 5 (job_to_row "sess_1" 5) in
  let s := with_state SessionProcessing 5 uploading_session in
  let d := set_sessions <["sess_1" := s]> (set_processing_jobs <["job_1" := j]> empty_db) in
  let result := {| vr_ID := ""; vr_JobID := ""; vr_SessionID := ""; vr_NormalizedKey := "k"; vr_SchemaVersion := "v1"; vr_ValidatorVersion := "w1";
                   vr_Valid := true; vr_Errors := []; vr_CreatedAt := 0 |} in
  ∃ session d', CompleteValidationJob "job_1" "worker" result 9 (Some [x07]) d = Ok (session, d') ∧
    sessions d' = <["sess_1" := with_state SessionReadyForReview 9 s]> (sessions d).
Proof.
  intros j s d result.
  destruct (complete_validation_job_cases "job_1" "worker" result 9 [x07] d j s) as [_ H];
    [done..|reflexivity|].
  destruct H as (x & d' & H1 & _ & _ & H2);
    [reflexivity..|done|done|done|done|reflexivity|intros k v Hk; cbn in Hk; by rewrite lookup_empty in Hk|].
  exists x, d'. split; [exact H1|exact H2].
Defined.
