(* ===== verification/Redaction.v ===== *)
(** * Redaction plans and jobs ([database/redaction.go])

    A reviewer's redaction document is validated, put in canonical form (segments
    sorted by source key) and hashed; the plan and its job are stored with it.
    Workers lease the jobs, complete them, or give them back. *)

From S2P Require Import Prelude Domain Schema Frame Text Encoding Sha256 Store.

(** ** The document *)

Definition segment_id_char (c : ascii) : bool :=
  let n := N_of_ascii c in
  in_range 65 90 n || in_range 97 122 n || in_range 48 57 n || (n =? 95)%N || (n =? 45)%N.
(** [^[A-Za-z0-9_-]+$] *)
Definition redactionSegmentID (s : string) : bool :=
  negb (is_empty s) && all_chars segment_id_char s.

Definition zero64 : float64 := S754_zero false.
Definition one64 : float64 := S754_finite false 4503599627370496 (-52).
Definition add64 (x y : float64) : float64 := SFadd 53 1024 x y.
Definition not_finite (x : float64) : bool :=
  match x with S754_nan | S754_infinity _ => true | _ => false end.

Definition validateRedactionRegion (region : RedactionRegion) : res () :=
  let x := rg_X region in let y := rg_Y region in
  let w := rg_Width region in let h := rg_Height region in
  if (rg_StartNS region <? 0) || (rg_EndNS region <=? rg_StartNS region)
  then Err (ErrText "time range must be finite, non-negative, and increasing")
  else if existsb not_finite [x; y; w; h]
  then Err (ErrText "geometry must contain finite normalized numbers")
  else if SFltb x zero64 || SFltb y zero64 || SFleb w zero64 || SFleb h zero64
          || SFltb one64 (add64 x w) || SFltb one64 (add64 y h)
  then Err (ErrText "geometry must be a positive rectangle within normalized [0,1] bounds")
  else if oneof (rg_Kind region) ["personal_data"; "credential"; "unrelated_content"; "other"]
  then Ok ()
  else Err (ErrText "kind must be personal_data, credential, unrelated_content, or other").

Definition error_text (e : error) : string :=
  match e with ErrText t => t | _ => "" end.

Fixpoint validate_regions (index regionIndex : Z) (regions : list RedactionRegion) : res () :=
  match regions with
  | [] => Ok ()
  | region :: rest =>
    match validateRedactionRegion region with
    | Err e => Err (ErrText ("segment " +:+ Sprint index +:+ " region " +:+ Sprint regionIndex
                             +:+ ": " +:+ error_text e))
    | Ok _ => validate_regions index (regionIndex + 1) rest
    end
  end.

Definition video_prefix (sessionID : string) : string :=
  "raw/sessions/" +:+ sessionID +:+ "/video/".

Definition validate_segment (sessionID : string) (seen : list string) (index : Z)
    (segment : RedactionSegment) : res () :=
  let text := "segment " +:+ Sprint index in
  if (128 <? slen (sg_SegmentID segment)) || negb (redactionSegmentID (sg_SegmentID segment))
  then Err (ErrText (text +:+ " has an invalid segment_id"))
  else if negb (HasPrefix (sg_SourceKey segment) (video_prefix sessionID))
          || oneof (sg_SourceKey segment) seen
  then Err (ErrText (text +:+ " source_key is not a unique video in this session"))
  else if negb (oneof (sg_Decision segment) ["publish_as_is"; "redact"])
  then Err (ErrText (text +:+ " decision must be publish_as_is or redact"))
  else if (seqb (sg_Decision segment) "publish_as_is" && negb (Nat.eqb (length (sg_Regions segment)) 0))
          || (seqb (sg_Decision segment) "redact" && Nat.eqb (length (sg_Regions segment)) 0)
  then Err (ErrText (text +:+ " decision does not match its regions"))
  else if (100 <? length (sg_Regions segment))%nat
  then Err (ErrText (text +:+ " exceeds 100 redaction regions"))
  else validate_regions index 0 (sg_Regions segment).

Fixpoint validate_segments (sessionID : string) (seen : list string) (index : Z)
    (segments : list RedactionSegment) : res () :=
  match segments with
  | [] => Ok ()
  | segment :: rest =>
    match validate_segment sessionID seen index segment with
    | Err e => Err e
    | Ok _ => validate_segments sessionID (sg_SourceKey segment :: seen) (index + 1) rest
    end
  end.

Definition segment_le (x y : RedactionSegment) : Prop := String.le (sg_SourceKey x) (sg_SourceKey y).
#[export] Instance segment_le_dec : RelDecision segment_le.
Proof. intros x y. unfold segment_le. apply _. Defined.

(** [sort.Slice] by source key; the keys are distinct once validated. *)
Definition sort_segments (l : list RedactionSegment) : list RedactionSegment :=
  merge_sort segment_le l.

Definition canonical_document (document : RedactionDocument) : RedactionDocument :=
  {| rd_SchemaVersion := rd_SchemaVersion document;
     rd_Segments := sort_segments (rd_Segments document) |}.

Definition float_json (f : float64) : json := JNumber (default "" (format_float f)).
Definition region_json (r : RedactionRegion) : json :=
  JObject [("start_ns", JNumber (Sprint (rg_StartNS r))); ("end_ns", JNumber (Sprint (rg_EndNS r)));
           ("x", float_json (rg_X r)); ("y", float_json (rg_Y r));
           ("width", float_json (rg_Width r)); ("height", float_json (rg_Height r));
           ("kind", JString (rg_Kind r))].
Definition segment_json (s : RedactionSegment) : json :=
  JObject [("segment_id", JString (sg_SegmentID s)); ("source_key", JString (sg_SourceKey s));
           ("decision", JString (sg_Decision s)); ("regions", JArray (map region_json (sg_Regions s)))].
Definition document_json (d : RedactionDocument) : json :=
  JObject [("schema_version", JString (rd_SchemaVersion d));
           ("segments", JArray (map segment_json (rd_Segments d)))].

Definition validate_document (document : RedactionDocument) (sessionID : string) : res () :=
  let n := length (rd_Segments document) in
  if negb (seqb (rd_SchemaVersion document) "redaction/v1") || (n <? 1)%nat || (1000 <? n)%nat
  then Err (ErrText "redaction/v1 and between 1 and 1000 segment decisions are required")
  else validate_segments sessionID [] 0 (rd_Segments document).

Definition canonicalRedactionDocument (document : RedactionDocument) (sessionID : string)
    : res string :=
  match validate_document document sessionID with
  | Err e => Err e
  | Ok _ => Ok (Marshal (document_json (canonical_document document)))
  end.

(** The [jsonb] column keeps no sign of zero; the rest of the canonical document
    reads back as it was written. *)
Definition positive_zero (f : float64) : float64 :=
  match f with S754_zero _ => S754_zero false | _ => f end.
Definition stored_region (r : RedactionRegion) : RedactionRegion :=
  {| rg_StartNS := rg_StartNS r; rg_EndNS := rg_EndNS r; rg_X := positive_zero (rg_X r);
     rg_Y := positive_zero (rg_Y r); rg_Width := positive_zero (rg_Width r);
     rg_Height := positive_zero (rg_Height r); rg_Kind := rg_Kind r |}.
Definition stored_document (d : RedactionDocument) : RedactionDocument :=
  {| rd_SchemaVersion := rd_SchemaVersion d;
     rd_Segments := map (λ s, {| sg_SegmentID := sg_SegmentID s; sg_SourceKey := sg_SourceKey s;
                                 sg_Decision := sg_Decision s;
                                 sg_Regions := map stored_region (sg_Regions s) |})
                        (rd_Segments d) |}.

(** ** Plans *)

Definition plan_of (id : string) (r : redaction_plan_row) : RedactionPlan :=
  {| pl_ID := id; pl_SessionID := rpl_session_id r; pl_ReviewerID := rpl_reviewer_id r;
     pl_SchemaVersion := rpl_schema_version r; pl_DocumentHash := rpl_document_hash r;
     pl_Version := rpl_version r; pl_Document := rpl_document r; pl_CreatedAt := rpl_created_at r |}.

Definition redaction_job_of (id : string) (r : redaction_job_row) : RedactionJob :=
  {| rj_ID := id; rj_PlanID := rjb_plan_id r; rj_SessionID := rjb_session_id r;
     rj_State := rjb_state r; rj_LeasedBy := coalesce "" (rjb_leased_by r);
     rj_OutputManifestKey := coalesce "" (rjb_output_manifest_key r);
     rj_LastError := coalesce "" (rjb_error r); rj_Attempt := rjb_attempt r;
     rj_ManualRequeues := rjb_manual_requeues r; rj_AvailableAt := rjb_available_at r;
     rj_LeaseExpiresAt := coalesce epoch (rjb_lease_expires_at r);
     rj_CreatedAt := rjb_created_at r; rj_UpdatedAt := rjb_updated_at r;
     rj_FinishedAt := coalesce epoch (rjb_finished_at r);
     rj_DeadLetteredAt := coalesce epoch (rjb_dead_lettered_at r); rj_PurgedAt := 0 |}.

(** The plan and its job; a plan has at most one job. *)
Definition redactionByRequest (d : db) (sessionID requestID : string)
    : option (RedactionPlan * RedactionJob) :=
  '(planID, p) ← find_where (λ _ p, seqb (rpl_session_id p) sessionID
                                    && seqb (rpl_request_id p) requestID) (redaction_plans d);
  '(jobID, j) ← find_where (λ _ j, seqb (rjb_plan_id j) planID) (redaction_jobs d);
  Some (plan_of planID p, redaction_job_of jobID j).

Definition has_accepted_review (d : db) (sessionID : string) : bool :=
  exists_row (λ _ r, seqb (rev_session_id r) sessionID && seqb (rev_decision r) "accepted"
                     && seqb (rev_pii_review r) "passed") (reviews d).

Definition deletion_pending (d : db) (sessionID : string) : bool :=
  exists_row (λ _ q, seqb (del_session_id q) sessionID
                     && oneof (del_state q) ["queued"; "leased"; "blocked"; "dead_letter"])
    (deletion_requests d).

(** [SELECT logical_key ... AND media_type='video/mp4' AND purged_at IS NULL ORDER BY logical_key] *)
Definition video_keys (d : db) (sessionID : string) : list string :=
  sort_strings (map (λ kr, arf_logical_key kr.2)
    (select (λ _ a, seqb (arf_session_id a) sessionID && seqb (arf_media_type a) "video/mp4"
                    && bool_decide (arf_purged_at a = None)) (artifacts d))).
Definition planned_keys (document : RedactionDocument) : list string :=
  sort_strings (map sg_SourceKey (rd_Segments document)).

(** A decision for every video: the sorted key lists agree and are not empty. *)
Definition keys_match (videoKeys plannedKeys : list string) : bool :=
  negb (Nat.eqb (length videoKeys) 0) && bool_decide (videoKeys = plannedKeys).

(** [SELECT COALESCE(max(version),0)+1 FROM redaction_plans WHERE session_id=$1] *)
Definition next_plan_version (d : db) (sessionID : string) : Z :=
  foldr Z.max 0 (map (λ kr, rpl_version kr.2)
    (select (λ _ p, seqb (rpl_session_id p) sessionID) (redaction_plans d))) + 1.

Definition redaction_job_to_row (planID sessionID : string) (now : time) : redaction_job_row :=
  {| rjb_plan_id := planID; rjb_session_id := sessionID; rjb_state := "queued";
     rjb_attempt := 0; rjb_manual_requeues := 0; rjb_available_at := now;
     rjb_leased_by := None; rjb_lease_expires_at := None; rjb_output_manifest_key := None;
     rjb_error := None; rjb_created_at := now; rjb_updated_at := now; rjb_finished_at := None;
     rjb_dead_lettered_at := None; rjb_purged_at := None |}.

Definition queued_redaction_job (jobID planID sessionID : string) (now : time) : RedactionJob :=
  {| rj_ID := jobID; rj_PlanID := planID; rj_SessionID := sessionID; rj_State := "queued";
     rj_LeasedBy := ""; rj_OutputManifestKey := ""; rj_LastError := ""; rj_Attempt := 0;
     rj_ManualRequeues := 0; rj_AvailableAt := now; rj_LeaseExpiresAt := 0;
     rj_CreatedAt := now; rj_UpdatedAt := now; rj_FinishedAt := 0; rj_DeadLetteredAt := 0;
     rj_PurgedAt := 0 |}.

(** The two [INSERT]s and the two audit events of an approved plan. *)
Definition insert_plan_and_job (plan : RedactionPlan) (jobID actor requestID : string) (now : time)
    : tx () :=
  insert_redaction_plan (pl_ID plan)
    {| rpl_session_id := pl_SessionID plan; rpl_reviewer_id := pl_ReviewerID plan;
       rpl_version := pl_Version plan; rpl_schema_version := pl_SchemaVersion plan;
       rpl_document := stored_document (canonical_document (pl_Document plan));
       rpl_document_hash := pl_DocumentHash plan; rpl_request_id := requestID;
       rpl_created_at := now |} ;;
  insert_redaction_job jobID (redaction_job_to_row (pl_ID plan) (pl_SessionID plan) now) ;;
  insertAudit (audit actor "redaction_plan.approved" ("redaction-plan/" +:+ pl_ID plan) requestID now
    {["session_id" := pl_SessionID plan; "version" := Sprint (pl_Version plan);
      "document_hash" := pl_DocumentHash plan]}) ;;
  insertAudit (audit actor "redaction_job.queued" ("redaction-job/" +:+ jobID) requestID now
    {["session_id" := pl_SessionID plan; "plan_id" := pl_ID plan]}).

Definition invalid_plan {A} (r : res A) : res A :=
  match r with
  | Ok a => Ok a
  | Err e => Err (ErrInvalidRedactionPlan (error_text e))
  end.

Definition with_plan_id (plan : RedactionPlan) (id hash : string) (version : Z) (now : time)
    : RedactionPlan :=
  {| pl_ID := id; pl_SessionID := pl_SessionID plan; pl_ReviewerID := pl_ReviewerID plan;
     pl_SchemaVersion := "redaction/v1"; pl_DocumentHash := hash; pl_Version := version;
     pl_Document := pl_Document plan; pl_CreatedAt := now |}.

Definition CreateRedactionPlan (plan : RedactionPlan) (actor requestID : string) (now : time)
    (r1 r2 : random) : tx (RedactionPlan * RedactionJob) :=
  fail_if (is_empty (pl_SessionID plan) || is_empty (pl_ReviewerID plan)
           || negb (seqb (pl_ReviewerID plan) actor) || is_empty requestID)
    (ErrText "session, matching reviewer actor, and request ID are required") ;;
  canonical <- lift (invalid_plan (canonicalRedactionDocument (pl_Document plan) (pl_SessionID plan))) ;;
  let hash := sha256_hex canonical in
  d <- get ;;
  match redactionByRequest d (pl_SessionID plan) requestID with
  | Some (existing, job) =>
    fail_if (negb (seqb (pl_DocumentHash existing) hash)
             || negb (seqb (pl_ReviewerID existing) (pl_ReviewerID plan))) ErrRedactionConflict ;;
    ret (existing, job)
  | None =>
    s <- row_of sessions (pl_SessionID plan) ErrNotFound ;;
    fail_if (negb (bool_decide (ses_state s = SessionAccepted))
             || negb (has_accepted_review d (pl_SessionID plan))) ErrRedactionEligibility ;;
    fail_if (deletion_pending d (pl_SessionID plan)) ErrDeletionPending ;;
    fail_if (negb (keys_match (video_keys d (pl_SessionID plan)) (planned_keys (pl_Document plan))))
      ErrRedactionEligibility ;;
    let version := next_plan_version d (pl_SessionID plan) in
    planID <- newID "redaction" r1 ;;
    jobID <- newID "job" r2 ;;
    let plan := with_plan_id plan planID hash version now in
    insert_plan_and_job plan jobID actor requestID now ;;
    ret (plan, queued_redaction_job jobID planID (pl_SessionID plan) now)
  end.

Definition version_geb (x y : string * redaction_plan_row) : bool :=
  rpl_version y.2 <=? rpl_version x.2.
Definition version_ge (x y : string * redaction_plan_row) : Prop := version_geb x y = true.
#[export] Instance version_ge_dec : RelDecision version_ge.
Proof. intros x y. unfold version_ge. apply _. Defined.

Definition ListRedactionPlans (d : db) (sessionID : string) : list RedactionPlan :=
  map (λ kr, plan_of kr.1 kr.2)
    (merge_sort version_ge (select (λ _ p, seqb (rpl_session_id p) sessionID) (redaction_plans d))).

Definition GetRedactionPlan (d : db) (planID : string) : res RedactionPlan :=
  match redaction_plans d !! planID with
  | Some p => Ok (plan_of planID p)
  | None => Err ErrNotFound
  end.

(** ** Jobs *)

Definition redaction_due (now : time) (_ : string) (j : redaction_job_row) : bool :=
  queue_due (rjb_state j) (rjb_available_at j) (rjb_lease_expires_at j) now.

Definition lease_redaction (workerID : string) (expires now : time) (j : redaction_job_row)
    : redaction_job_row :=
  {| rjb_plan_id := rjb_plan_id j; rjb_session_id := rjb_session_id j; rjb_state := "leased";
     rjb_attempt := rjb_attempt j + 1; rjb_manual_requeues := rjb_manual_requeues j;
     rjb_available_at := rjb_available_at j; rjb_leased_by := Some workerID;
     rjb_lease_expires_at := Some expires; rjb_output_manifest_key := rjb_output_manifest_key j;
     rjb_error := None; rjb_created_at := rjb_created_at j; rjb_updated_at := now;
     rjb_finished_at := rjb_finished_at j; rjb_dead_lettered_at := rjb_dead_lettered_at j;
     rjb_purged_at := rjb_purged_at j |}.

Definition ClaimRedactionJob (workerID : string) (leaseDuration : Z) (now : time)
    (locked : gset string) : tx RedactionJob :=
  fail_if (is_empty (TrimSpace workerID) || (leaseDuration <=? 0))
    (ErrText "worker ID and positive lease duration are required") ;;
  d <- get ;;
  '(jobID, j) <- some_or (first_due rjb_available_at (redaction_due now) locked (redaction_jobs d))
                   ErrNoRedactionJob ;;
  s <- row_of sessions (rjb_session_id j) ErrNoRows ;;
  fail_if (negb (bool_decide (ses_state s = SessionAccepted)))
    (ErrInvalidTransition ("redaction job requires ACCEPTED, current state is "
                           +:+ state_string (ses_state s))) ;;
  fail_if (deletion_pending d (rjb_session_id j)) ErrDeletionPending ;;
  let leased := lease_redaction workerID (now + leaseDuration) now j in
  modify (set_redaction_jobs (alter (λ _, leased) jobID)) ;;
  insertAudit (audit workerID "redaction_job.leased" ("redaction-job/" +:+ jobID) jobID now
    {["session_id" := rjb_session_id j; "plan_id" := rjb_plan_id j;
      "attempt" := Sprint (rjb_attempt leased)]}) ;;
  ret {| rj_ID := jobID; rj_PlanID := rjb_plan_id j; rj_SessionID := rjb_session_id j;
         rj_State := "leased"; rj_LeasedBy := workerID; rj_OutputManifestKey := "";
         rj_LastError := ""; rj_Attempt := rjb_attempt leased;
         rj_ManualRequeues := rjb_manual_requeues j; rj_AvailableAt := rjb_available_at j;
         rj_LeaseExpiresAt := now + leaseDuration; rj_CreatedAt := rjb_created_at j;
         rj_UpdatedAt := now; rj_FinishedAt := 0; rj_DeadLetteredAt := 0;
     rj_PurgedAt := 0 |}.

Definition redaction_manifest_key (sessionID planID : string) : string :=
  "derived/sessions/" +:+ sessionID +:+ "/redactions/" +:+ planID +:+ "/manifest.json".

Definition complete_redaction (key : string) (now : time) (j : redaction_job_row)
    : redaction_job_row :=
  {| rjb_plan_id := rjb_plan_id j; rjb_session_id := rjb_session_id j; rjb_state := "completed";
     rjb_attempt := rjb_attempt j; rjb_manual_requeues := rjb_manual_requeues j;
     rjb_available_at := rjb_available_at j; rjb_leased_by := None;
     rjb_lease_expires_at := None; rjb_output_manifest_key := Some key; rjb_error := None;
     rjb_created_at := rjb_created_at j; rjb_updated_at := now; rjb_finished_at := Some now;
     rjb_dead_lettered_at := rjb_dead_lettered_at j; rjb_purged_at := rjb_purged_at j |}.

Definition CompleteRedactionJob (jobID workerID outputManifestKey : string) (now : time) : tx () :=
  fail_if (is_empty jobID || is_empty workerID || is_empty outputManifestKey)
    (ErrText "job, worker, and output manifest are required") ;;
  j <- row_of redaction_jobs jobID ErrNotFound ;;
  fail_if (negb (seqb (rjb_state j) "leased" && seqb (coalesce "" (rjb_leased_by j)) workerID))
    ErrRedactionJobLease ;;
  fail_if (negb (seqb outputManifestKey
                   (redaction_manifest_key (rjb_session_id j) (rjb_plan_id j))))
    (ErrText "redaction output manifest key is outside its immutable plan prefix") ;;
  modify (set_redaction_jobs (alter (complete_redaction outputManifestKey now) jobID)) ;;
  insertAudit (audit workerID "redaction_job.completed" ("redaction-job/" +:+ jobID) jobID now
    {["session_id" := rjb_session_id j; "plan_id" := rjb_plan_id j;
      "output_manifest_key" := outputManifestKey]}).

Definition requeue_redaction (available now : time) (message : string) (j : redaction_job_row)
    : redaction_job_row :=
  {| rjb_plan_id := rjb_plan_id j; rjb_session_id := rjb_session_id j; rjb_state := "queued";
     rjb_attempt := rjb_attempt j; rjb_manual_requeues := rjb_manual_requeues j;
     rjb_available_at := available; rjb_leased_by := None;
     rjb_lease_expires_at := None; rjb_output_manifest_key := rjb_output_manifest_key j;
     rjb_error := Some message; rjb_created_at := rjb_created_at j; rjb_updated_at := now;
     rjb_finished_at := rjb_finished_at j; rjb_dead_lettered_at := rjb_dead_lettered_at j;
     rjb_purged_at := rjb_purged_at j |}.

Definition dead_letter_redaction (now : time) (message : string) (j : redaction_job_row)
    : redaction_job_row :=
  {| rjb_plan_id := rjb_plan_id j; rjb_session_id := rjb_session_id j; rjb_state := "dead_letter";
     rjb_attempt := rjb_attempt j; rjb_manual_requeues := rjb_manual_requeues j;
     rjb_available_at := rjb_available_at j; rjb_leased_by := None;
     rjb_lease_expires_at := None; rjb_output_manifest_key := rjb_output_manifest_key j;
     rjb_error := Some message; rjb_created_at := rjb_created_at j; rjb_updated_at := now;
     rjb_finished_at := Some now; rjb_dead_lettered_at := Some now;
     rjb_purged_at := rjb_purged_at j |}.

Definition RequeueRedactionJob (jobID workerID message : string) (maxAttempts : Z) (now : time)
    : tx () :=
  fail_if (maxAttempts <? 1) (ErrText "max attempts must be positive") ;;
  j <- row_of redaction_jobs jobID ErrNotFound ;;
  fail_if (negb (seqb (rjb_state j) "leased" && seqb (coalesce "" (rjb_leased_by j)) workerID))
    ErrRedactionJobLease ;;
  let attempt := rjb_attempt j in
  let requeue := attempt <? maxAttempts in
  modify (set_redaction_jobs (alter
    (if requeue then requeue_redaction (now + backoff attempt) now message
     else dead_letter_redaction now message) jobID)) ;;
  insertAudit (audit workerID
    (if requeue then "redaction_job.requeued" else "redaction_job.dead_lettered")
    ("redaction-job/" +:+ jobID) jobID now
    {["attempt" := Sprint attempt; "error" := message]}).

Definition LatestCompletedRedaction (d : db) (sessionID : string)
    : res (RedactionPlan * RedactionJob) :=
  let completed (planID : string) (p : redaction_plan_row) :=
    seqb (rpl_session_id p) sessionID
    && exists_row (λ _ j, seqb (rjb_plan_id j) planID && seqb (rjb_state j) "completed"
                          && bool_decide (rjb_purged_at j = None)) (redaction_jobs d) in
  match first_by version_geb (select completed (redaction_plans d)) with
  | None => Err ErrRedactionPlanMissing
  | Some (planID, p) =>
    match find_where (λ _ j, seqb (rjb_plan_id j) planID) (redaction_jobs d) with
    | None => Err ErrRedactionPlanMissing
    | Some (jobID, j) =>
      Ok (plan_of planID p,
          {| rj_ID := jobID; rj_PlanID := rjb_plan_id j; rj_SessionID := rjb_session_id j;
             rj_State := rjb_state j; rj_LeasedBy := "";
             rj_OutputManifestKey := coalesce "" (rjb_output_manifest_key j); rj_LastError := "";
             rj_Attempt := rjb_attempt j; rj_ManualRequeues := rjb_manual_requeues j;
             rj_AvailableAt := rjb_available_at j; rj_LeaseExpiresAt := 0;
             rj_CreatedAt := rjb_created_at j; rj_UpdatedAt := rjb_updated_at j;
             rj_FinishedAt := coalesce epoch (rjb_finished_at j); rj_DeadLetteredAt := 0;
     rj_PurgedAt := 0 |})
    end
  end.

Definition listed_redaction_job (id : string) (r : redaction_job_row) : RedactionJob :=
  let job := redaction_job_of id r in
  {| rj_ID := id; rj_PlanID := rj_PlanID job; rj_SessionID := rj_SessionID job;
     rj_State := rj_State job; rj_LeasedBy := rj_LeasedBy job;
     rj_OutputManifestKey := rj_OutputManifestKey job; rj_LastError := rj_LastError job;
     rj_Attempt := rj_Attempt job; rj_ManualRequeues := rj_ManualRequeues job;
     rj_AvailableAt := rj_AvailableAt job; rj_LeaseExpiresAt := rj_LeaseExpiresAt job;
     rj_CreatedAt := rj_CreatedAt job; rj_UpdatedAt := rj_UpdatedAt job;
     rj_FinishedAt := rj_FinishedAt job; rj_DeadLetteredAt := rj_DeadLetteredAt job;
     rj_PurgedAt := coalesce epoch (rjb_purged_at r) |}.

Definition ListDeadLetterRedactionJobs (d : db) (organizationIDs : option (list string))
    : list RedactionJob :=
  map (λ kr, listed_redaction_job kr.1 kr.2)
    (merge_sort (newest_first (λ j, coalesce epoch (rjb_dead_lettered_at j)))
      (select (λ _ j, seqb (rjb_state j) "dead_letter"
                      && session_in_scope d organizationIDs (rjb_session_id j))
              (redaction_jobs d))).

Definition retry_redaction (now : time) (j : redaction_job_row) : redaction_job_row :=
  {| rjb_plan_id := rjb_plan_id j; rjb_session_id := rjb_session_id j; rjb_state := "queued";
     rjb_attempt := 0; rjb_manual_requeues := rjb_manual_requeues j + 1;
     rjb_available_at := now; rjb_leased_by := None; rjb_lease_expires_at := None;
     rjb_output_manifest_key := None; rjb_error := None; rjb_created_at := rjb_created_at j;
     rjb_updated_at := now; rjb_finished_at := None; rjb_dead_lettered_at := None;
     rjb_purged_at := rjb_purged_at j |}.

Definition RetryDeadLetterRedactionJob (jobID actor requestID : string) (now : time)
    : tx RedactionJob :=
  j <- row_of redaction_jobs jobID ErrNotFound ;;
  fail_if (negb (seqb (rjb_state j) "dead_letter")) ErrRedactionNotDead ;;
  s <- row_of sessions (rjb_session_id j) ErrNoRows ;;
  d <- get ;;
  fail_if (negb (bool_decide (ses_state s = SessionAccepted)))
    (ErrInvalidTransition ("redaction retry requires ACCEPTED, current state is "
                           +:+ state_string (ses_state s))) ;;
  fail_if (deletion_pending d (rjb_session_id j)) ErrDeletionPending ;;
  modify (set_redaction_jobs (alter (retry_redaction now) jobID)) ;;
  insertAudit (audit actor "redaction_job.manual_retry" ("redaction-job/" +:+ jobID) requestID now
    {["session_id" := rjb_session_id j; "plan_id" := rjb_plan_id j;
      "previous_attempts" := Sprint (rjb_attempt j)]}) ;;
  ret {| rj_ID := jobID; rj_PlanID := rjb_plan_id j; rj_SessionID := rjb_session_id j;
         rj_State := "queued"; rj_LeasedBy := ""; rj_OutputManifestKey := ""; rj_LastError := "";
         rj_Attempt := 0; rj_ManualRequeues := rjb_manual_requeues j + 1; rj_AvailableAt := now;
         rj_LeaseExpiresAt := 0; rj_CreatedAt := 0; rj_UpdatedAt := now; rj_FinishedAt := 0;
         rj_DeadLetteredAt := 0;
     rj_PurgedAt := 0 |}.

Definition GetRedactionJobOrganization (d : db) (jobID : string) : res string :=
  match redaction_jobs d !! jobID with
  | None => Err ErrNotFound
  | Some j => result_bind (λ a, Ok (sa_OrganizationID a)) (GetSessionAccess d (rjb_session_id j))
  end.

(** ** Lemmas on documents *)

(** What a segment must satisfy, whatever its position. *)
Definition segment_ok (sessionID : string) (s : RedactionSegment) : Prop :=
  slen (sg_SegmentID s) ≤ 128 ∧ redactionSegmentID (sg_SegmentID s) = true ∧
  HasPrefix (sg_SourceKey s) (video_prefix sessionID) = true ∧
  (sg_Decision s = "publish_as_is" ∧ sg_Regions s = [] ∨
   sg_Decision s = "redact" ∧ sg_Regions s ≠ []) ∧
  (length (sg_Regions s) ≤ 100)%nat ∧
  Forall (λ r, validateRedactionRegion r = Ok ()) (sg_Regions s).

Lemma validate_regions_ok index k regions :
  validate_regions index k regions = Ok () ↔ Forall (λ r, validateRedactionRegion r = Ok ()) regions.
Proof.
  revert k. induction regions as [|r l IH]; intros k; cbn.
  - split; [by constructor|done].
  - rewrite Forall_cons. destruct (validateRedactionRegion r) as [[]|e].
    + rewrite IH. naive_solver.
    + naive_solver.
Qed.

Lemma decision_cases decision (regions : list RedactionRegion) :
  oneof decision ["publish_as_is"; "redact"] = true ∧
  (seqb decision "publish_as_is" && negb (Nat.eqb (length regions) 0))
  || (seqb decision "redact" && Nat.eqb (length regions) 0) = false ↔
  (decision = "publish_as_is" ∧ regions = [] ∨ decision = "redact" ∧ regions ≠ []).
Proof.
  rewrite oneof_true. destruct regions as [|r l]; cbn [length Nat.eqb negb].
  - rewrite andb_false_r, andb_true_r, orb_false_l, seqb_false. set_solver.
  - rewrite andb_true_r, andb_false_r, orb_false_r, seqb_false. set_solver.
Qed.

Lemma validate_segment_ok sessionID seen index s :
  validate_segment sessionID seen index s = Ok () ↔
  segment_ok sessionID s ∧ sg_SourceKey s ∉ seen.
Proof.
  unfold validate_segment, segment_ok. rewrite <-decision_cases.
  destruct (_ || negb (redactionSegmentID _)) eqn:E1.
  { split; [done|]. rewrite orb_true_iff, negb_true_iff, Z.ltb_lt in E1.
    intros [(H1 & H2 & _) _]. destruct E1; [lia|congruence]. }
  rewrite orb_false_iff, negb_false_iff, Z.ltb_ge in E1. destruct E1 as [E1 E1'].
  destruct (_ || oneof _ seen) eqn:E2.
  { split; [done|]. rewrite orb_true_iff, negb_true_iff, oneof_true in E2.
    intros [(_ & _ & H & _) Hs]. destruct E2; congruence. }
  rewrite orb_false_iff, negb_false_iff in E2. destruct E2 as [E2 E2'].
  assert (sg_SourceKey s ∉ seen) by (rewrite <-oneof_true, E2'; done).
  destruct (negb (oneof (sg_Decision s) _)) eqn:E3.
  { apply negb_true_iff in E3. rewrite E3. naive_solver. }
  apply negb_false_iff in E3. rewrite E3.
  destruct (_ || _) eqn:E4; [naive_solver|].
  destruct (100 <? length (sg_Regions s))%nat eqn:E5.
  { apply Nat.ltb_lt in E5. split; [done|]. intros [(_ & _ & _ & _ & H5 & _) _]. lia. }
  apply Nat.ltb_ge in E5. rewrite validate_regions_ok. naive_solver.
Qed.

Lemma validate_segments_ok sessionID seen index segments :
  validate_segments sessionID seen index segments = Ok () ↔
  Forall (segment_ok sessionID) segments ∧ NoDup (map sg_SourceKey segments) ∧
  Forall (λ s, sg_SourceKey s ∉ seen) segments.
Proof.
  revert seen index. induction segments as [|s l IH]; intros seen index; cbn.
  - split; [|done]. repeat split; constructor.
  - destruct (validate_segment sessionID seen index s) as [[]|e] eqn:Hv.
    + apply validate_segment_ok in Hv as [H1 H2]. rewrite IH, !Forall_cons, NoDup_cons.
      rewrite !Forall_forall, list_elem_of_fmap. set_solver.
    + split; [done|]. rewrite !Forall_cons. intros ([H1 _] & _ & [H2 _]).
      rewrite (proj2 (validate_segment_ok sessionID seen index s)) in Hv; done.
Qed.

(** The documents the code accepts for a session. *)
Definition document_ok (sessionID : string) (document : RedactionDocument) : Prop :=
  rd_SchemaVersion document = "redaction/v1" ∧
  (1 ≤ length (rd_Segments document) ≤ 1000)%nat ∧
  Forall (segment_ok sessionID) (rd_Segments document) ∧
  NoDup (map sg_SourceKey (rd_Segments document)).

Lemma validate_document_ok document sessionID :
  validate_document document sessionID = Ok () ↔ document_ok sessionID document.
Proof.
  unfold validate_document, document_ok.
  destruct (_ || _ || _) eqn:E.
  - split; [done|]. rewrite !orb_true_iff, negb_true_iff, !Nat.ltb_lt, seqb_false in E.
    intros (H1 & H2 & _). naive_solver lia.
  - rewrite !orb_false_iff, negb_false_iff, !Nat.ltb_ge, seqb_true in E.
    destruct E as [[H1 H2] H3]. rewrite validate_segments_ok.
    split; [naive_solver|]. intros (_ & _ & Ha & Hb). split; [done|]. split; [done|].
    apply Forall_forall. intros s _. by apply not_elem_of_nil.
Qed.

Lemma sort_segments_Permutation l : sort_segments l ≡ₚ l.
Proof. apply merge_sort_Permutation. Qed.

Lemma sort_segments_sorted l : StronglySorted segment_le (sort_segments l).
Proof.
  apply StronglySorted_merge_sort.
  - intros x y z H1 H2. unfold segment_le in *. by etrans.
  - intros x y. unfold segment_le. apply (total String.le).
Qed.

(** With distinct source keys there is one sorted list. *)
Lemma sort_segments_unique l l' :
  NoDup (map sg_SourceKey l) → l ≡ₚ l' → sort_segments l = sort_segments l'.
Proof.
  intros Hd Hp. apply (StronglySorted_unique_strong segment_le).
  - intros x y Hx Hy Hxy Hyx.
    rewrite sort_segments_Permutation in Hx, Hy. rewrite <-Hp in Hy.
    assert (Hk : sg_SourceKey x = sg_SourceKey y) by (by apply (anti_symm String.le)).
    apply list_elem_of_lookup in Hx as [i Hi]. apply list_elem_of_lookup in Hy as [j Hj].
    assert (i = j) as ->; [|congruence].
    eapply NoDup_lookup; [exact Hd| |]; rewrite list_lookup_fmap; [by rewrite Hi|].
    rewrite Hj. cbn. by rewrite Hk.
  - apply sort_segments_sorted.
  - apply sort_segments_sorted.
  - by rewrite !sort_segments_Permutation.
Qed.

Lemma document_ok_Permutation sessionID d d' :
  rd_SchemaVersion d = rd_SchemaVersion d' → rd_Segments d ≡ₚ rd_Segments d' →
  document_ok sessionID d → document_ok sessionID d'.
Proof.
  unfold document_ok. intros -> Hp (H1 & H2 & H3 & H4). rewrite <-Hp.
  split; [done|]. split; [done|]. split; [done|].
  eapply NoDup_Permutation_proper; [|exact H4]. by rewrite Hp.
Qed.

Lemma canonical_document_Permutation sessionID d d' :
  rd_SchemaVersion d = rd_SchemaVersion d' → rd_Segments d ≡ₚ rd_Segments d' →
  document_ok sessionID d → canonical_document d = canonical_document d'.
Proof.
  unfold canonical_document. intros -> Hp (_ & _ & _ & Hd).
  by rewrite (sort_segments_unique _ _ Hd Hp).
Qed.

(** A redaction document is accepted exactly when it has schema redaction/v1,
    between 1 and 1000 segments with distinct source keys, and every segment is
    well formed (identifier, key under the session's video prefix, regions if and
    only if the decision is to redact, at most 100 of them, each a rectangle of
    the unit square over a forward time range).  The canonical bytes, and so the
    plan's hash, do not depend on the order the reviewer lists the segments in. *)
Theorem canonical_redaction_document document document' sessionID :
  rd_SchemaVersion document = rd_SchemaVersion document' →
  rd_Segments document ≡ₚ rd_Segments document' →
  (is_ok (canonicalRedactionDocument document sessionID) = true ↔ document_ok sessionID document) ∧
  (document_ok sessionID document →
   canonicalRedactionDocument document' sessionID = canonicalRedactionDocument document sessionID) ∧
  (document_ok sessionID document →
   StronglySorted segment_le (rd_Segments (canonical_document document)) ∧
   rd_Segments (canonical_document document) ≡ₚ rd_Segments document).
Proof.
  intros Hs Hp. unfold canonicalRedactionDocument. split; [|split].
  - rewrite <-validate_document_ok. by destruct (validate_document _ _) as [[]|].
  - intros Hd. pose proof (document_ok_Permutation _ _ _ Hs Hp Hd) as Hd'.
    rewrite (canonical_document_Permutation _ _ _ Hs Hp Hd).
    apply validate_document_ok in Hd, Hd'. by rewrite Hd, Hd'.
  - intros _. split; [apply sort_segments_sorted|apply sort_segments_Permutation].
Qed.

Definition half64 : float64 := S754_finite false 4503599627370496 (-53).
Definition sample_region : RedactionRegion :=
  {| rg_StartNS := 0; rg_EndNS := 1000; rg_X := zero64; rg_Y := half64; rg_Width := half64;
     rg_Height := half64; rg_Kind := "credential" |}.
Definition sample_segment (name decision : string) (regions : list RedactionRegion) :=
  {| sg_SegmentID := name; sg_SourceKey := "raw/sessions/sess_1/video/" +:+ name;
     sg_Decision := decision; sg_Regions := regions |}.
Definition sample_document (l : list RedactionSegment) : RedactionDocument :=
  {| rd_SchemaVersion := "redaction/v1"; rd_Segments := l |}.

Lemma canonical_redaction_document_witness :
  let s1 := sample_segment "b" "redact" [sample_region] in
  let s2 := sample_segment "a" "publish_as_is" [] in
  is_ok (canonicalRedactionDocument (sample_document [s1; s2]) "sess_1") = true ∧
  canonicalRedactionDocument (sample_document [s2; s1]) "sess_1" =
  canonicalRedactionDocument (sample_document [s1; s2]) "sess_1".
Proof.
  intros s1 s2.
  destruct (canonical_redaction_document (sample_document [s1; s2]) (sample_document [s2; s1]) "sess_1")
    as (H1 & H2 & _); [reflexivity|apply Permutation_swap|].
  assert (H : is_ok (canonicalRedactionDocument (sample_document [s1; s2]) "sess_1") = true)
    by (vm_compute; reflexivity).
  split; [exact H|]. apply H2, H1, H.
Defined.

(** ** Plans *)

Definition plan_request (sessionID requestID : string) (_ : string) (p : redaction_plan_row) : bool :=
  seqb (rpl_session_id p) sessionID && seqb (rpl_request_id p) requestID.

Lemma insert_redaction_plan_ok id r d u d' :
  insert_redaction_plan id r d = Ok (u, d') →
  d' = set_redaction_plans <[id := r]> d ∧ redaction_plans d !! id = None ∧
  find_where (plan_request (rpl_session_id r) (rpl_request_id r)) (redaction_plans d) = None.
Proof.
  unfold insert_redaction_plan. intros H. insert_inv.
  repeat (split; [done|]). apply find_where_none. by apply exists_row_false.
Qed.

Lemma insert_redaction_job_ok id r d u d' :
  insert_redaction_job id r d = Ok (u, d') →
  d' = set_redaction_jobs <[id := r]> d ∧
  find_where (λ _ j, seqb (rjb_plan_id j) (rjb_plan_id r)) (redaction_jobs d) = None.
Proof.
  unfold insert_redaction_job. intros H. insert_inv.
  split; [done|]. apply find_where_none. by apply exists_row_false.
Qed.

Lemma elem_of_video_keys d sessionID key :
  key ∈ video_keys d sessionID ↔
  ∃ k a, artifacts d !! k = Some a ∧ arf_session_id a = sessionID ∧
         arf_media_type a = "video/mp4" ∧ arf_purged_at a = None ∧ arf_logical_key a = key.
Proof.
  unfold video_keys. rewrite sort_strings_Permutation, list_elem_of_fmap. split.
  - intros ([k a] & -> & [Hk Hp]%select_spec).
    rewrite !andb_true_iff, !seqb_true, bool_decide_eq_true in Hp. naive_solver.
  - intros (k & a & Hk & H1 & H2 & H3 & <-). exists (k, a). split; [done|].
    apply select_spec. split; [done|].
    by rewrite !andb_true_iff, !seqb_true, bool_decide_eq_true.
Qed.

Lemma elem_of_planned_keys document key :
  key ∈ planned_keys document ↔ ∃ s, s ∈ rd_Segments document ∧ sg_SourceKey s = key.
Proof.
  unfold planned_keys. rewrite sort_strings_Permutation, list_elem_of_fmap. naive_solver.
Qed.

Lemma next_plan_version_above d sessionID k p :
  redaction_plans d !! k = Some p → rpl_session_id p = sessionID →
  rpl_version p < next_plan_version d sessionID.
Proof.
  intros Hk Hs. unfold next_plan_version.
  assert (Hin : (k, p) ∈ select (λ _ p, seqb (rpl_session_id p) sessionID) (redaction_plans d)).
  { apply select_spec. split; [done|]. by apply seqb_true. }
  revert Hin. induction (select _ _) as [|x l IH]; [by intros ?%elem_of_nil|].
  cbn. intros [<-|Hin]%elem_of_cons; cbn; [lia|]. specialize (IH Hin). lia.
Qed.

(** A finished run of [CreateRedactionPlan]: the replay of a request, or a new plan. *)
Lemma CreateRedactionPlan_ok plan actor requestID now r1 r2 d plan' job d' :
  CreateRedactionPlan plan actor requestID now r1 r2 d = Ok ((plan', job), d') →
  ∃ canonical, let sid := pl_SessionID plan in
  canonicalRedactionDocument (pl_Document plan) sid = Ok canonical ∧
  (redactionByRequest d sid requestID = Some (plan', job) ∧ d' = d ∧
     pl_DocumentHash plan' = sha256_hex canonical ∧ pl_ReviewerID plan' = pl_ReviewerID plan ∨
   ∃ s, redactionByRequest d sid requestID = None ∧ sessions d !! sid = Some s ∧
     ses_state s = SessionAccepted ∧ has_accepted_review d sid = true ∧
     deletion_pending d sid = false ∧
     keys_match (video_keys d sid) (planned_keys (pl_Document plan)) = true ∧
     plan' = with_plan_id plan (pl_ID plan') (sha256_hex canonical) (next_plan_version d sid) now ∧
     job = queued_redaction_job (rj_ID job) (pl_ID plan') sid now ∧
     insert_plan_and_job plan' (rj_ID job) actor requestID now d = Ok ((), d')).
Proof.
  unfold CreateRedactionPlan, newID. intros H. stmt_inv.
  destruct (canonicalRedactionDocument (pl_Document plan) (pl_SessionID plan)) as [canonical|e] eqn:Hc;
    [|by tx_inv]. cbn in *.
  exists canonical. split; [done|].
  destruct (redactionByRequest d (pl_SessionID plan) requestID) as [[p j]|] eqn:Hr.
  - left. stmt_inv. rewrite orb_false_iff, !negb_false_iff, !seqb_true in *.
    repeat match goal with H : _ ∧ _ |- _ => destruct H end.
    simplify_eq. done.
  - right. stmt_inv. simplify_eq. eexists. split; [done|]. split; [eassumption|].
    rewrite ?orb_false_iff, ?negb_false_iff, ?bool_decide_eq_true in *.
    repeat match goal with H : _ ∧ _ |- _ => destruct H end.
    repeat (split; [done|]).
    match goal with H : insert_plan_and_job _ _ _ _ _ _ = Ok (?u, _) |- _ => by destruct u end.
Qed.

(** The rows a new plan adds. *)
Definition plan_row_of (plan : RedactionPlan) (requestID : string) : redaction_plan_row :=
  {| rpl_session_id := pl_SessionID plan; rpl_reviewer_id := pl_ReviewerID plan;
     rpl_version := pl_Version plan; rpl_schema_version := pl_SchemaVersion plan;
     rpl_document := stored_document (canonical_document (pl_Document plan));
     rpl_document_hash := pl_DocumentHash plan; rpl_request_id := requestID;
     rpl_created_at := pl_CreatedAt plan |}.

Lemma insert_plan_and_job_ok plan jobID actor requestID d d' :
  insert_plan_and_job plan jobID actor requestID (pl_CreatedAt plan) d = Ok ((), d') →
  let j := redaction_job_to_row (pl_ID plan) (pl_SessionID plan) (pl_CreatedAt plan) in
  redaction_plans d' = <[pl_ID plan := plan_row_of plan requestID]> (redaction_plans d) ∧
  redaction_jobs d' = <[jobID := j]> (redaction_jobs d) ∧
  sessions d' = sessions d ∧
  redactionByRequest d' (pl_SessionID plan) requestID =
    Some (plan_of (pl_ID plan) (plan_row_of plan requestID), redaction_job_of jobID j).
Proof.
  unfold insert_plan_and_job. intros H. cbv zeta.
  apply bind_ok in H as ([] & d1 & (-> & Hid & Hf)%insert_redaction_plan_ok & H).
  apply bind_ok in H as ([] & d2 & [-> Hj]%insert_redaction_job_ok & H).
  stmt_inv. db_simpl. fold (plan_row_of plan requestID) in *.
  split; [done|]. split; [done|]. split; [done|].
  unfold redactionByRequest. db_simpl. fold (plan_request (pl_SessionID plan) requestID).
  rewrite (find_where_insert (plan_request _ _)); [|exact Hf|].
  - cbn. rewrite find_where_insert; [done|exact Hj|]. by apply seqb_true.
  - unfold plan_request. by rewrite andb_true_iff, !seqb_true.
Qed.

(** C37: what an approved plan rests on.  A call that succeeds either replays a
    request already stored and writes nothing, or finds the session ACCEPTED with
    an accepted review that passed the PII check, no deletion under way, and a
    document with a decision for every unpurged video of the session and for
    nothing else; it then adds the plan, under a version above all earlier ones,
    and one queued job for it. *)
Theorem redaction_plan_eligibility plan actor requestID now r1 r2 d plan' job d' :
  CreateRedactionPlan plan actor requestID now r1 r2 d = Ok ((plan', job), d') →
  let sid := pl_SessionID plan in
  document_ok sid (pl_Document plan) ∧
  (redactionByRequest d sid requestID = Some (plan', job) ∧ d' = d ∨
   (∃ s, sessions d !! sid = Some s ∧ ses_state s = SessionAccepted) ∧
   (∃ k r, reviews d !! k = Some r ∧ rev_session_id r = sid ∧ rev_decision r = "accepted" ∧
           rev_pii_review r = "passed") ∧
   (∀ k q, deletion_requests d !! k = Some q → del_session_id q = sid →
           del_state q ∉ ["queued"; "leased"; "blocked"; "dead_letter"]) ∧
   (∀ key, (∃ x, x ∈ rd_Segments (pl_Document plan) ∧ sg_SourceKey x = key) ↔
      ∃ k a, artifacts d !! k = Some a ∧ arf_session_id a = sid ∧
             arf_media_type a = "video/mp4" ∧ arf_purged_at a = None ∧ arf_logical_key a = key) ∧
   (∀ k p, redaction_plans d !! k = Some p → rpl_session_id p = sid →
           rpl_version p < pl_Version plan') ∧
   redaction_plans d' = <[pl_ID plan' := plan_row_of plan' requestID]> (redaction_plans d) ∧
   redaction_jobs d' = <[rj_ID job := redaction_job_to_row (pl_ID plan') sid now]> (redaction_jobs d) ∧
   sessions d' = sessions d).
Proof.
  intros (canonical & Hc & H)%CreateRedactionPlan_ok. cbv zeta. split.
  { unfold canonicalRedactionDocument in Hc. destruct (validate_document _ _) as [[]|] eqn:Hv; [|done].
    by apply validate_document_ok. }
  destruct H as [(H1 & H2 & _)|(s & _ & Hs & Hst & Hrev & Hdel & Hkeys & Hp & Hj & Hi)]; [by left|].
  right. split; [by exists s|]. split.
  { apply exists_row_spec in Hrev as (k & r & Hk & Hr). exists k, r.
    by rewrite !andb_true_iff, !seqb_true in Hr; destruct Hr as [[? ?] ?]. }
  split.
  { unfold deletion_pending in Hdel. rewrite exists_row_false in Hdel. intros k q Hk Hq.
    apply Hdel in Hk. rewrite (proj2 (seqb_true _ _) Hq) in Hk. cbn in Hk.
    by apply bool_decide_eq_false in Hk. }
  split.
  { intros key. rewrite <-elem_of_video_keys, <-elem_of_planned_keys. unfold keys_match in Hkeys.
    apply andb_true_iff in Hkeys as [_ ->%bool_decide_eq_true]. done. }
  split.
  { intros k p Hk Hps. rewrite Hp. by eapply next_plan_version_above. }
  assert (Hn : now = pl_CreatedAt plan') by (by rewrite Hp).
  assert (Hsid : pl_SessionID plan = pl_SessionID plan') by (by rewrite Hp).
  rewrite Hn in Hi |- *. rewrite Hsid. by apply insert_plan_and_job_ok in Hi as (-> & -> & -> & _).
Qed.

Lemma CreateRedactionPlan_stored plan actor requestID now r1 r2 d plan' job d' :
  CreateRedactionPlan plan actor requestID now r1 r2 d = Ok ((plan', job), d') →
  ∃ stored job', pl_ID stored = pl_ID plan' ∧ pl_Version stored = pl_Version plan' ∧
    pl_DocumentHash stored = pl_DocumentHash plan' ∧ pl_ReviewerID stored = pl_ReviewerID plan ∧
    rj_ID job' = rj_ID job ∧ is_empty requestID = false ∧ is_empty (pl_SessionID plan) = false ∧
    redactionByRequest d' (pl_SessionID plan) requestID = Some (stored, job').
Proof.
  intros Hrun. assert (Hg : is_empty requestID = false ∧ is_empty (pl_SessionID plan) = false).
  { unfold CreateRedactionPlan in Hrun. apply bind_ok in Hrun as (u & s & [Hg _]%fail_if_ok & _).
    by rewrite !orb_false_iff in Hg; destruct Hg as [[[? _] _] ?]. }
  destruct Hg as [Hr Hsid]. apply CreateRedactionPlan_ok in Hrun as (canonical & Hc & H).
  destruct H as [(H1 & -> & H2 & H3)|(s & _ & _ & _ & _ & _ & _ & Hp & _ & Hi)].
  - exists plan', job. done.
  - assert (Hn : now = pl_CreatedAt plan') by (by rewrite Hp).
    assert (Hs : pl_SessionID plan = pl_SessionID plan') by (by rewrite Hp).
    rewrite Hn in Hi. apply insert_plan_and_job_ok in Hi as (_ & _ & _ & H4).
    eexists _, _. rewrite Hs in *. split_and!; [..|exact H4]; try done.
    cbn. by rewrite Hp.
Qed.

(** A redaction request is idempotent.  Once a plan was stored for a request
    identifier of a session, sending that identifier again, at any later time,
    returns that plan and its job and writes nothing when the reviewer and the
    canonical document's hash agree, and is refused as a conflict when either
    differs; it never stores a second plan. *)
Theorem redaction_plan_idempotent plan actor requestID now r1 r2 d plan' job d'
    plan2 now2 r1' r2' canonical2 :
  CreateRedactionPlan plan actor requestID now r1 r2 d = Ok ((plan', job), d') →
  pl_SessionID plan2 = pl_SessionID plan → pl_ReviewerID plan2 ≠ "" →
  canonicalRedactionDocument (pl_Document plan2) (pl_SessionID plan2) = Ok canonical2 →
  ∃ stored job', pl_ID stored = pl_ID plan' ∧ pl_Version stored = pl_Version plan' ∧
    rj_ID job' = rj_ID job ∧
    CreateRedactionPlan plan2 (pl_ReviewerID plan2) requestID now2 r1' r2' d' =
      if seqb (pl_DocumentHash plan') (sha256_hex canonical2) &&
         seqb (pl_ReviewerID plan) (pl_ReviewerID plan2)
      then Ok ((stored, job'), d') else Err ErrRedactionConflict.
Proof.
  intros (stored & job' & H1 & H2 & H3 & H4 & H5 & Hreq & Hsid & H6)%CreateRedactionPlan_stored.
  intros Hs Hne Hc. exists stored, job'. split; [done|]. split; [done|]. split; [done|].
  unfold CreateRedactionPlan. rewrite Hs in *. rewrite Hsid, Hreq, (proj2 (is_empty_false _) Hne).
  rewrite (proj2 (seqb_true _ _)) by done. cbn [negb orb]. op_run. rewrite Hc. cbn [invalid_plan].
  op_run. rewrite H6. op_run. rewrite H3, H4.
  destruct (seqb (pl_DocumentHash plan') _); [|by op_run].
  by destruct (seqb (pl_ReviewerID plan) _); op_run.
Qed.

Definition accepted_session : session_row :=
  {| ses_assignment_id := "assign_1"; ses_consent_acceptance_id := Some "accept_1";
     ses_state := SessionAccepted; ses_rework_of_session_id := None;
     ses_created_at := 1; ses_updated_at := 4 |}.
Definition passed_review : review_row :=
  {| rev_session_id := "sess_1"; rev_reviewer_id := "reviewer"; rev_rubric_version := "v1";
     rev_scores := JNull; rev_comments := ""; rev_decision := "accepted"; rev_pii_review := "passed";
     rev_created_at := 3 |}.
Definition sample_video : artifact_row :=
  {| arf_session_id := "sess_1"; arf_logical_key := "raw/sessions/sess_1/video/a"; arf_sha256 := "";
     arf_size_bytes := 1; arf_media_type := "video/mp4"; arf_created_at := 2; arf_purged_at := None |}.
Definition redactable_db : db :=
  set_sessions <["sess_1" := accepted_session]>
    (set_reviews <["review_1" := passed_review]>
      (set_artifacts <["artifact_1" := sample_video]> empty_db)).
Definition sample_plan (decision : string) (regions : list RedactionRegion) : RedactionPlan :=
  {| pl_ID := ""; pl_SessionID := "sess_1"; pl_ReviewerID := "reviewer"; pl_SchemaVersion := "";
     pl_DocumentHash := ""; pl_Version := 0;
     pl_Document := sample_document [sample_segment "a" decision regions]; pl_CreatedAt := 0 |}.

Lemma redaction_plan_eligibility_witness :
  ∃ plan job d', CreateRedactionPlan (sample_plan "publish_as_is" []) "reviewer" "req" 9
                   (Some [x01]) (Some [x02]) redactable_db = Ok ((plan, job), d') ∧
    document_ok "sess_1" (sample_document [sample_segment "a" "publish_as_is" []]) ∧
    redaction_jobs d' = <[rj_ID job := redaction_job_to_row (pl_ID plan) "sess_1" 9]> ∅.
Proof.
  destruct (CreateRedactionPlan (sample_plan "publish_as_is" []) "reviewer" "req" 9
              (Some [x01]) (Some [x02]) redactable_db) as [[[plan job] d']|e] eqn:H;
    [|vm_compute in H; discriminate H].
  exists plan, job, d'. split; [reflexivity|].
  destruct (redaction_plan_eligibility _ _ _ _ _ _ _ _ _ _ H) as [Hd [[Hr _]|Hn]].
  - vm_compute in Hr. discriminate Hr.
  - split; [exact Hd|]. destruct Hn as (_ & _ & _ & _ & _ & _ & Hj & _). exact Hj.
Defined.

Lemma redaction_plan_idempotent_witness :
  ∃ plan job d' stored job',
    CreateRedactionPlan (sample_plan "publish_as_is" []) "reviewer" "req" 9
      (Some [x01]) (Some [x02]) redactable_db = Ok ((plan, job), d') ∧
    CreateRedactionPlan (sample_plan "publish_as_is" []) "reviewer" "req" 12
      (Some [x03]) (Some [x04]) d' = Ok ((stored, job'), d') ∧
    CreateRedactionPlan (sample_plan "redact" [sample_region]) "reviewer" "req" 12
      (Some [x03]) (Some [x04]) d' = Err ErrRedactionConflict.
Proof.
  destruct (CreateRedactionPlan (sample_plan "publish_as_is" []) "reviewer" "req" 9
              (Some [x01]) (Some [x02]) redactable_db) as [[[plan job] d']|e] eqn:H;
    [|vm_compute in H; discriminate H].
  assert (Hh : pl_DocumentHash plan = match canonicalRedactionDocument
      (sample_document [sample_segment "a" "publish_as_is" []]) "sess_1" with
      | Ok c => sha256_hex c | Err _ => "" end)
    by (vm_compute in H; injection H as <- _ _; vm_compute; reflexivity).
  destruct (canonicalRedactionDocument (sample_document [sample_segment "a" "publish_as_is" []]) "sess_1")
    as [c1|] eqn:H1; [|vm_compute in H1; discriminate H1].
  destruct (canonicalRedactionDocument (sample_document [sample_segment "a" "redact" [sample_region]])
              "sess_1") as [c2|] eqn:H2; [|vm_compute in H2; discriminate H2].
  destruct (redaction_plan_idempotent _ _ _ _ _ _ _ _ _ _ (sample_plan "publish_as_is" []) 12
              (Some [x03]) (Some [x04]) c1 H eq_refl) as (stored & job' & _ & _ & _ & Ha);
    [discriminate|exact H1|].
  destruct (redaction_plan_idempotent _ _ _ _ _ _ _ _ _ _ (sample_plan "redact" [sample_region]) 12
              (Some [x03]) (Some [x04]) c2 H eq_refl) as (stored2 & job2 & _ & _ & _ & Hb);
    [discriminate|exact H2|].
  exists plan, job, d', stored, job'. split; [reflexivity|]. split.
  - cbn in Ha. rewrite Ha, Hh. unfold seqb. rewrite bool_decide_true by reflexivity. reflexivity.
  - cbn in Hb. rewrite Hb, Hh. clear -H1 H2. vm_compute in H1, H2.
    injection H1 as <-. injection H2 as <-. vm_compute. reflexivity.
Defined.

(** ** Jobs *)

(** Claiming a redaction job.  Nothing due is reported as such.  The earliest due job
    that nobody has locked is the only one looked at: it is leased with one more
    attempt when its session is still ACCEPTED and no erasure is under way; when the
    session has moved on or an erasure is pending the whole call fails and changes
    nothing, so the same job is met again by every later call and no job behind it
    is ever leased while that lasts. *)
Theorem claim_redaction_job_cases workerID leaseDuration now locked d :
  TrimSpace workerID ≠ "" → 0 < leaseDuration →
  (first_due rjb_available_at (redaction_due now) locked (redaction_jobs d) = None →
   ClaimRedactionJob workerID leaseDuration now locked d = Err ErrNoRedactionJob) ∧
  (∀ id j s,
   earliest rjb_available_at (redaction_due now) locked (redaction_jobs d) id j →
   sessions d !! rjb_session_id j = Some s →
   if negb (bool_decide (ses_state s = SessionAccepted)) then
     ClaimRedactionJob workerID leaseDuration now locked d =
       Err (ErrInvalidTransition ("redaction job requires ACCEPTED, current state is "
                                  +:+ state_string (ses_state s)))
   else if deletion_pending d (rjb_session_id j) then
     ClaimRedactionJob workerID leaseDuration now locked d = Err ErrDeletionPending
   else ∃ job d', ClaimRedactionJob workerID leaseDuration now locked d = Ok (job, d') ∧
     rj_ID job = id ∧ rj_Attempt job = rjb_attempt j + 1 ∧ sessions d' = sessions d ∧
     redaction_jobs d' =
       <[id := lease_redaction workerID (now + leaseDuration) now j]> (redaction_jobs d)).
Proof.
  intros Hw Hl. unfold ClaimRedactionJob.
  assert (Hg : is_empty (TrimSpace workerID) || (leaseDuration <=? 0) = false).
  { apply orb_false_iff. split; [by apply is_empty_false|]. apply Z.leb_gt. lia. }
  rewrite Hg. split.
  - intros Hn. op_run. by rewrite Hn.
  - intros id j s He%first_due_earliest Hs.
    pose proof (first_due_some _ _ _ _ _ _ He) as (Hj & _).
    destruct (negb (bool_decide _)) eqn:Hst; [|destruct (deletion_pending _ _) eqn:Hd];
      op_run; rewrite He; op_run; rewrite Hs; op_run; rewrite Hst; op_run; [done|by rewrite Hd|].
    rewrite Hd. op_run. eexists _, _. split; [reflexivity|]. db_simpl.
    split_and!; try done. by rewrite (alter_as_insert _ _ _ j Hj).
Qed.

(** The first job's session was released meanwhile; the second job is ready. *)
Definition stuck_db : db :=
  let released := with_state SessionReleased 5 accepted_session in
  set_sessions (λ m, <["sess_0" := released]> (<["sess_1" := accepted_session]> m))
    (set_redaction_jobs (λ m, <["job_0" := redaction_job_to_row "plan_0" "sess_0" 1]>
                              (<["job_1" := redaction_job_to_row "plan_1" "sess_1" 2]> m)) empty_db).

Lemma claim_redaction_job_cases_witness :
  redaction_due 7 "job_1" (redaction_job_to_row "plan_1" "sess_1" 2) = true ∧
  ClaimRedactionJob "worker" 50 7 ∅ stuck_db =
    Err (ErrInvalidTransition "redaction job requires ACCEPTED, current state is RELEASED").
Proof.
  split; [reflexivity|].
  destruct (claim_redaction_job_cases "worker" 50 7 ∅ stuck_db) as [_ H]; [done|lia|].
  apply (H "job_0" (redaction_job_to_row "plan_0" "sess_0" 1) (with_state SessionReleased 5 accepted_session)).
  - apply first_due_earliest. vm_compute. reflexivity.
  - reflexivity.
Defined.

Lemma redaction_lease_true j workerID :
  (seqb (rjb_state j) "leased" && seqb (coalesce "" (rjb_leased_by j)) workerID) = true ↔
  rjb_state j = "leased" ∧ coalesce "" (rjb_leased_by j) = workerID.
Proof. by rewrite andb_true_iff, !seqb_true. Qed.

(** Finishing a redaction job.  Only the worker that holds the lease finishes a job.
    It may report one output only, the manifest under the plan's own prefix; a
    failure is retried after the square of the attempts in seconds and, when the
    attempts are used up, the job is dead-lettered.  Nothing but the job row and the
    audit log is written. *)
Theorem finish_redaction_job_cases jobID workerID key message maxAttempts now d j :
  redaction_jobs d !! jobID = Some j → jobID ≠ "" → workerID ≠ "" → key ≠ "" → 1 ≤ maxAttempts →
  (¬ (rjb_state j = "leased" ∧ coalesce "" (rjb_leased_by j) = workerID) →
   CompleteRedactionJob jobID workerID key now d = Err ErrRedactionJobLease ∧
   RequeueRedactionJob jobID workerID message maxAttempts now d = Err ErrRedactionJobLease) ∧
  (rjb_state j = "leased" → coalesce "" (rjb_leased_by j) = workerID →
   (key ≠ redaction_manifest_key (rjb_session_id j) (rjb_plan_id j) →
    is_ok (CompleteRedactionJob jobID workerID key now d) = false) ∧
   (key = redaction_manifest_key (rjb_session_id j) (rjb_plan_id j) →
    ∃ d', CompleteRedactionJob jobID workerID key now d = Ok ((), d') ∧
      redaction_jobs d' = <[jobID := complete_redaction key now j]> (redaction_jobs d)) ∧
   (0 ≤ rjb_attempt j ≤ 96038 →
    ∃ d', RequeueRedactionJob jobID workerID message maxAttempts now d = Ok ((), d') ∧
      redaction_jobs d' = <[jobID :=
        if rjb_attempt j <? maxAttempts
        then requeue_redaction (now + rjb_attempt j * rjb_attempt j * second) now message j
        else dead_letter_redaction now message j]> (redaction_jobs d))).
Proof.
  intros Hj H1 H2 H3 Hm. unfold CompleteRedactionJob, RequeueRedactionJob.
  rewrite (proj2 (is_empty_false _) H1), (proj2 (is_empty_false _) H2), (proj2 (is_empty_false _) H3).
  rewrite (proj2 (Z.ltb_ge _ _)) by done. op_run. rewrite Hj. op_run. split.
  - intros Hn. destruct (_ && _) eqn:E; [|done]. by apply redaction_lease_true in E.
  - intros Hl Hw. rewrite (proj2 (redaction_lease_true j workerID)) by done. cbn [negb].
    op_run. split; [|split].
    + intros Hk. by rewrite (proj2 (seqb_false _ _)).
    + intros ->. rewrite (proj2 (seqb_true _ _)) by done. op_run. eexists.
      split; [reflexivity|]. db_simpl. by apply alter_as_insert.
    + intros Ha. rewrite backoff_exact by done.
      eexists. split; [reflexivity|]. db_simpl. rewrite (alter_as_insert _ _ _ _ Hj).
      by destruct (_ <? _).
Qed.

Lemma finish_redaction_job_cases_witness :
  let j := lease_redaction "worker" 50 5 (redaction_job_to_row "plan_1" "sess_1" 2) in
  let d := set_redaction_jobs <["job_1" := j]> empty_db in
  ∃ d', CompleteRedactionJob "job_1" "worker" "derived/sessions/sess_1/redactions/plan_1/manifest.json" 9 d
          = Ok ((), d') ∧
    is_ok (CompleteRedactionJob "job_1" "worker" "derived/sessions/other" 9 d) = false.
Proof.
  intros j d.
  destruct (finish_redaction_job_cases "job_1" "worker"
              "derived/sessions/sess_1/redactions/plan_1/manifest.json" "" 1 9 d j) as [_ H];
    [reflexivity|done|done|done|done|].
  destruct H as (_ & H & _); [reflexivity|reflexivity|]. destruct H as (d' & H & _); [reflexivity|].
  exists d'. split; [exact H|].
  destruct (finish_redaction_job_cases "job_1" "worker" "derived/sessions/other" "" 1 9 d j) as [_ H'];
    [reflexivity|done|done|done|done|].
  destruct H' as (H' & _); [reflexivity|reflexivity|]. apply H'. discriminate.
Defined.
