(* ===== verification/Media.v ===== *)
(** * Video redaction with ffmpeg ([worker/redactor.go], the helpers of [worker/media.go])

    The filter graph and the command line that blacken the regions of a plan, and
    the text of a failed run.  ffmpeg itself is a parameter: a function from the
    arguments and the input to what one run does. *)

From S2P Require Import Prelude Domain Text Encoding Blob Schema Store Validator Redaction.

(** ** Output of a child process *)

(** [limitedBuffer.Write]: keeps the first 64 KiB. *)
Definition buffer_limit : Z := Z.shiftl 64 10.
Definition Write (buffer input : string) : string :=
  if slen buffer <? buffer_limit then
    let remaining := buffer_limit - slen buffer in
    buffer +:+ (if remaining <? slen input then stake (Z.to_nat remaining) input else input)
  else buffer.

Definition safeProbeMessage (message0 fallback : string) : string :=
  let message := TrimSpace (replace_byte (ascii_of_N 10) " "%char message0) in
  let message := if is_empty message then fallback else message in
  if 500 <? slen message then stake 500 message else message.

(** ** The filter graph *)

Definition seconds_text (ns : Z) : string :=
  FormatFixed 9 (SFdiv 53 1024 (float_of ns) billion64).

Definition bad_region (region : RedactionRegion) : bool :=
  (rg_StartNS region <? 0) || (rg_EndNS region <=? rg_StartNS region)
  || SFltb (rg_X region) zero64 || SFltb (rg_Y region) zero64
  || SFleb (rg_Width region) zero64 || SFleb (rg_Height region) zero64
  || SFltb one64 (add64 (rg_X region) (rg_Width region))
  || SFltb one64 (add64 (rg_Y region) (rg_Height region)).

Definition drawbox (region : RedactionRegion) : string :=
  "drawbox=x=iw*" +:+ FormatFixed 9 (rg_X region) +:+ ":y=ih*" +:+ FormatFixed 9 (rg_Y region)
  +:+ ":w=iw*" +:+ FormatFixed 9 (rg_Width region) +:+ ":h=ih*" +:+ FormatFixed 9 (rg_Height region)
  +:+ ":color=black:t=fill:enable='between(t," +:+ seconds_text (rg_StartNS region) +:+ ","
  +:+ seconds_text (rg_EndNS region) +:+ ")'".

Fixpoint region_filters (index : Z) (regions : list RedactionRegion) : result string (list string) :=
  match regions with
  | [] => Ok []
  | region :: rest =>
    if bad_region region
    then Err ("region " +:+ Sprint index +:+ " has invalid time or geometry")
    else match region_filters (index + 1) rest with
         | Ok filters => Ok (drawbox region :: filters)
         | Err e => Err e
         end
  end.

Definition redactionFilter (regions : list RedactionRegion) : result string string :=
  if Nat.eqb (length regions) 0 || (100 <? length regions)%nat
  then Err "between one and 100 redaction regions are required"
  else match region_filters 0 regions with
       | Ok filters => Ok (String.concat "," filters)
       | Err e => Err e
       end.

(** ** One run *)

(** [run_stderr] are the chunks written to the error stream, [run_error] is the
    error of [command.Run], [run_timeout] tells that the deadline had passed. *)
Record run := {
  run_stdout : string; run_stderr : list string; run_error : option string; run_timeout : bool
}.

Definition ffmpeg_arguments (filter : option string) : list string :=
  ["-nostdin"; "-hide_banner"; "-loglevel"; "error"; "-i"; "pipe:0"; "-map"; "0:v:0"; "-an"]
  ++ match filter with Some f => ["-vf"; f] | None => [] end
  ++ ["-c:v"; "libx264"; "-preset"; "medium"; "-crf"; "18"; "-pix_fmt"; "yuv420p";
      "-movflags"; "frag_keyframe+empty_moov"; "-f"; "mp4"; "pipe:1"].

(** What is written to the output, and the error. *)
Definition Redact (ffmpeg : list string → reader → run) (input : reader)
    (regions : list RedactionRegion) : string * option string :=
  if (100 <? length regions)%nat then ("", Some "no more than 100 redaction regions are allowed")
  else
    match (if (0 <? length regions)%nat
           then match redactionFilter regions with Ok f => Ok (Some f) | Err e => Err e end
           else Ok None) with
    | Err e => ("", Some e)
    | Ok filter =>
      let r := ffmpeg (ffmpeg_arguments filter) input in
      (run_stdout r,
       match run_error r with
       | None => None
       | Some e =>
         Some (if run_timeout r then "ffmpeg redaction timed out"
               else "ffmpeg redaction failed: "
                    +:+ safeProbeMessage (foldl Write "" (run_stderr r)) e)
       end)
    end.

(** ** Properties *)

Lemma accepted_region_drawable region :
  validateRedactionRegion region = Ok () → bad_region region = false.
Proof.
  unfold validateRedactionRegion, bad_region. cbv zeta.
  destruct (_ || _) eqn:E1; [done|]. destruct (existsb _ _); [done|].
  destruct (_ || _ || _ || _ || _ || _) eqn:E2; [done|]. intros _.
  rewrite !orb_false_iff in *. tauto.
Qed.

Lemma region_filters_ok index regions :
  Forall (λ r, bad_region r = false) regions → region_filters index regions = Ok (map drawbox regions).
Proof.
  intros H. revert index. induction H as [|r l Hr _ IH]; intros index; cbn; [done|].
  by rewrite Hr, IH.
Qed.

Lemma region_filters_bad index regions k r :
  regions !! k = Some r → bad_region r = true → Forall (λ r, bad_region r = false) (take k regions) →
  region_filters index regions =
    Err ("region " +:+ Sprint (index + Z.of_nat k) +:+ " has invalid time or geometry").
Proof.
  revert index regions. induction k as [|k IH]; intros index [|x l]; cbn; try done.
  - intros [= ->] -> _. by rewrite Z.add_0_r.
  - intros Hk Hr [Hx Hl]%Forall_cons. rewrite Hx, (IH _ _ Hk Hr Hl).
    by replace (index + 1 + Z.of_nat k) with (index + Z.of_nat (S k)) by lia.
Qed.

Lemma document_regions sessionID document s :
  document_ok sessionID document → s ∈ rd_Segments document →
  (length (sg_Regions s) ≤ 100)%nat ∧ Forall (λ r, bad_region r = false) (sg_Regions s) ∧
  (sg_Decision s = "publish_as_is" ∧ sg_Regions s = [] ∨
   sg_Decision s = "redact" ∧ sg_Regions s ≠ []).
Proof.
  intros (_ & _ & Hall & _) Hs. rewrite Forall_forall in Hall.
  destruct (Hall s Hs) as (_ & _ & _ & Hd & Hn & Hr). split; [done|]. split; [|done].
  eapply Forall_impl; [exact Hr|]. intros r. apply accepted_region_drawable.
Qed.

(** C31: every document the API accepts can be rendered.  For each of its segments the
    redactor runs ffmpeg once: without a filter when the segment is published as it
    is, and with one filled black box per region, in the plan's order, when it is
    redacted; no region is refused or dropped on the way from the plan to the
    command line. *)
Theorem accepted_plan_renders ffmpeg sessionID document s input :
  document_ok sessionID document → s ∈ rd_Segments document →
  let filter := if seqb (sg_Decision s) "redact"
                then Some (String.concat "," (map drawbox (sg_Regions s))) else None in
  (Redact ffmpeg input (sg_Regions s)).1 = run_stdout (ffmpeg (ffmpeg_arguments filter) input) ∧
  ((Redact ffmpeg input (sg_Regions s)).2 = None ↔
   run_error (ffmpeg (ffmpeg_arguments filter) input) = None).
Proof.
  intros Hd Hs. destruct (document_regions _ _ _ Hd Hs) as (Hn & Hr & Hc).
  cbv zeta. unfold Redact. rewrite (proj2 (Nat.ltb_ge _ _) Hn).
  destruct Hc as [[-> Hl]|[-> Hl]].
  - rewrite Hl. cbn. destruct (run_error _); naive_solver.
  - rewrite (proj2 (seqb_true _ _)) by done.
    rewrite (proj2 (Nat.ltb_lt 0 _)) by (destruct (sg_Regions s); cbn; [done|lia]).
    unfold redactionFilter. rewrite (proj2 (Nat.ltb_ge _ _) Hn).
    rewrite (proj2 (Nat.eqb_neq _ _)) by (by destruct (sg_Regions s)). cbn [orb].
    rewrite (region_filters_ok 0 _ Hr). cbn. destruct (run_error _); naive_solver.
Qed.

Lemma accepted_plan_renders_witness :
  let s := sample_segment "a" "redact" [sample_region] in
  let ffmpeg (args : list string) (r : reader) :=
    {| run_stdout := rd_data r; run_stderr := []; run_error := None; run_timeout := false |} in
  (Redact ffmpeg (NewReader "video") (sg_Regions s)).2 = None.
Proof.
  intros s ffmpeg.
  refine (proj2 (proj2 (accepted_plan_renders ffmpeg "sess_1" (sample_document [s]) s (NewReader "video") _ _)) _).
  - apply validate_document_ok. vm_compute. reflexivity.
  - left.
  - reflexivity.
Defined.

Lemma Write_bounded buffer input :
  slen buffer ≤ buffer_limit → slen (Write buffer input) ≤ buffer_limit.
Proof.
  intros Hb. unfold Write. destruct (Z.ltb_spec (slen buffer) buffer_limit) as [Hl|]; [|done].
  cbv zeta. unfold slen in *. rewrite string_length_app, Nat2Z.inj_add.
  destruct (Z.ltb_spec (buffer_limit - Z.of_nat (String.length buffer)) (Z.of_nat (String.length input))).
  - rewrite stake_len; lia.
  - lia.
Qed.

Lemma Write_prefix buffer input : ∃ r, Write buffer input = buffer +:+ r.
Proof.
  unfold Write. destruct (_ <? _); [by eexists|]. exists "". by rewrite string_app_nil_r.
Qed.

(** What the worker keeps of a child process is bounded: of any sequence of writes
    the buffer keeps a text of at most 64 KiB that begins with what it held before,
    and the message made of it has at most 500 bytes. *)
Theorem probe_output_bounded chunks message fallback :
  slen (foldl Write "" chunks) ≤ buffer_limit ∧
  (∀ more, ∃ r, foldl Write "" (chunks ++ more) = foldl Write "" chunks +:+ r) ∧
  slen (safeProbeMessage message fallback) ≤ 500.
Proof.
  split_and!.
  - enough (∀ l b, slen b ≤ buffer_limit → slen (foldl Write b l) ≤ buffer_limit) as H
      by (by apply H).
    intros l. induction l as [|x l IH]; intros b Hb; cbn; [done|]. by apply IH, Write_bounded.
  - intros more. rewrite foldl_app. generalize (foldl Write "" chunks).
    induction more as [|x l IH]; intros b; cbn; [by exists ""; rewrite string_app_nil_r|].
    destruct (Write_prefix b x) as [r ->]. destruct (IH (b +:+ r)) as [r' ->].
    exists (r +:+ r'). by rewrite string_app_assoc.
  - unfold safeProbeMessage. cbv zeta.
    match goal with |- slen (if 500 <? slen ?t then _ else _) ≤ _ => generalize t end.
    intros t. destruct (Z.ltb_spec 500 (slen t)); [|done]. unfold slen in *. rewrite stake_len; lia.
Qed.
