(* ===== verification/Probe.v ===== *)
(** * Media inspection with ffprobe ([InspectMP4] of [worker/media.go])

    What the worker reads of one run of ffprobe and which media it accepts.  The run
    is a parameter, as that of ffmpeg in [Media]; [strconv.ParseFloat] of the
    duration is modelled in full. *)

From S2P Require Import Prelude Domain Text Encoding Json RoundTrip Floats Blob Schema Validator Media.
From Stdlib Require Import SpecFloat.

(** ** [strconv.ParseFloat] of any text *)

Definition underscore : ascii := "_"%char.

(** [underscoreOK] after the sign and the base prefix: an underscore stands between
    two digits; [digit_before] tells that the last character was a digit (or the
    prefix), [after] that it was an underscore. *)
Fixpoint underscores_between (base : Z) (digit_before after : bool) (s : string) : bool :=
  match s with
  | EmptyString => negb after
  | String c s' =>
    if bool_decide (is_Some (digit_value base c)) then underscores_between base true false s'
    else if Ascii.eqb c underscore then digit_before && underscores_between base false true s'
    else negb after && underscores_between base false false s'
  end.

(** The mantissa: its value, the digits after the point, whether there is a digit, and
    what follows. *)
Fixpoint mantissa (base : Z) (dot : bool) (m fraction : Z) (seen : bool) (s : string)
    : Z * Z * bool * string :=
  match s with
  | EmptyString => (m, fraction, seen, "")
  | String c s' =>
    if Ascii.eqb c underscore then mantissa base dot m fraction seen s'
    else if Ascii.eqb c "."%char then
      if dot then (m, fraction, seen, s) else mantissa base true m fraction seen s'
    else match digit_value base c with
         | Some d => mantissa base dot (base * m + d) (if dot then fraction + 1 else fraction) true s'
         | None => (m, fraction, seen, s)
         end
  end.

(** The digits of an exponent; it stops growing at five digits. *)
Fixpoint exponent_digits (e : Z) (s : string) : Z * string :=
  match s with
  | EmptyString => (e, "")
  | String c s' =>
    if Ascii.eqb c underscore then exponent_digits e s'
    else match digit_value 10 c with
         | Some d => exponent_digits (if e <? 10000 then 10 * e + d else e) s'
         | None => (e, s)
         end
  end.
Definition signed (s : string) : bool * string :=
  match s with
  | String "+" r => (false, r)
  | String "-" r => (true, r)
  | _ => (false, s)
  end.
Definition exponent_value (s : string) : option (Z * string) :=
  let '(negative, r) := signed s in
  match r with
  | String c _ =>
    if bool_decide (is_Some (digit_value 10 c))
    then let '(e, r) := exponent_digits 0 r in Some (if negative then - e else e, r)
    else None
  | EmptyString => None
  end.

Definition special (s : string) : option spec_float :=
  let '(negative, r) := signed s in
  let t := ToLower r in
  if seqb t "inf" || seqb t "infinity" then Some (S754_infinity negative)
  else if seqb (ToLower s) "nan" then Some S754_nan
  else None.

(** A base prefix, by [readFloat] ([0x] only) and by [underscoreOK] ([0b] and [0o] too). *)
Definition hex_prefix (s : string) : option string :=
  match s with
  | String "0" (String c ((String _ _) as r)) => if Ascii.eqb (lower_ascii c) "x" then Some r else None
  | _ => None
  end.
Definition prefixed (s : string) : Z * bool * string :=
  match s with
  | String "0" (String c r) =>
    if Ascii.eqb (lower_ascii c) "x" then (16, true, r)
    else if Ascii.eqb (lower_ascii c) "b" || Ascii.eqb (lower_ascii c) "o" then (10, true, r)
    else (10, false, s)
  | _ => (10, false, s)
  end.
Definition underscoreOK (s : string) : bool :=
  let '(base, digit_before, r) := prefixed (signed s).2 in
  underscores_between base digit_before false r.

(** [None] is an error: bad syntax, text after the number, or out of range. *)
Definition parse_float (s : string) : option spec_float :=
  match special s with
  | Some f => Some f
  | None =>
    let '(negative, r) := signed s in
    let '(base, digits) := match hex_prefix r with Some d => (16, d) | None => (10, r) end in
    let '(m, fraction, seen, rest) := mantissa base false 0 0 false digits in
    if negb seen then None
    else
      let exponent :=
        match rest with
        | String c rest' =>
          if Ascii.eqb (lower_ascii c) (if Z.eqb base 16 then "p"%char else "e"%char) then exponent_value rest'
          else if base =? 16 then None else Some (0, rest)
        | EmptyString => if base =? 16 then None else Some (0, "")
        end in
      match exponent with
      | Some (e, EmptyString) =>
        if negb (underscoreOK s) then None
        else
          let f := if base =? 16
                   then (if m =? 0 then S754_zero negative
                         else SpecFloat.binary_normalize 53 1024 (if negative then - m else m)
                                (e - 4 * fraction) negative)
                   else round_decimal negative m (e - fraction) in
          match f with S754_infinity _ => None | _ => Some f end
      | _ => None
      end
  end.

Example parses_decimals :
  map parse_float ["10.5"; "+1e1"; "0x1p-1"; "1_0.5"; "1e999"; "1."; "."; "1e"; "_1"; "1__0"; "N/A"; "0x1"; "1_"; "nan"]
  = [Some (S754_finite false 5910974510923776 (-49)); Some (S754_finite false 5629499534213120 (-49));
     Some (S754_finite false 4503599627370496 (-53)); Some (S754_finite false 5910974510923776 (-49));
     None; Some (S754_finite false 4503599627370496 (-52)); None; None; None; None; None; None; None;
     Some S754_nan].
Proof. vm_compute. reflexivity. Qed.

(** ** The answer of ffprobe *)

Record probe_stream := { ps_CodecName : string; ps_Width : Z; ps_Height : Z; ps_Duration : string }.
Record probe_result := {
  pb_Streams : list probe_stream; pb_Duration : string; pb_FormatName : string
}.

Definition zero_stream : probe_stream :=
  {| ps_CodecName := ""; ps_Width := 0; ps_Height := 0; ps_Duration := "" |}.
Definition stream_fields : list (string * decoder probe_stream) :=
  [("codec_name", on_field ps_CodecName (λ x s, {| ps_CodecName := x; ps_Width := ps_Width s;
      ps_Height := ps_Height s; ps_Duration := ps_Duration s |}) decode_string);
   ("width", on_field ps_Width (λ x s, {| ps_CodecName := ps_CodecName s; ps_Width := x;
      ps_Height := ps_Height s; ps_Duration := ps_Duration s |}) decode_int64);
   ("height", on_field ps_Height (λ x s, {| ps_CodecName := ps_CodecName s; ps_Width := ps_Width s;
      ps_Height := x; ps_Duration := ps_Duration s |}) decode_int64);
   ("duration", on_field ps_Duration (λ x s, {| ps_CodecName := ps_CodecName s; ps_Width := ps_Width s;
      ps_Height := ps_Height s; ps_Duration := x |}) decode_string)].
Definition format_fields : list (string * decoder probe_result) :=
  [("duration", on_field pb_Duration (λ x r, {| pb_Streams := pb_Streams r; pb_Duration := x;
      pb_FormatName := pb_FormatName r |}) decode_string);
   ("format_name", on_field pb_FormatName (λ x r, {| pb_Streams := pb_Streams r;
      pb_Duration := pb_Duration r; pb_FormatName := x |}) decode_string)].
Definition zero_result : probe_result := {| pb_Streams := []; pb_Duration := ""; pb_FormatName := "" |}.
Definition result_fields : list (string * decoder probe_result) :=
  [("streams", on_field pb_Streams (λ x r, {| pb_Streams := x; pb_Duration := pb_Duration r;
      pb_FormatName := pb_FormatName r |}) (decode_slice zero_stream (decode_struct false stream_fields)));
   ("format", decode_struct false format_fields)].
(** [json.Unmarshal(stdout.Bytes(), &result)] *)
Definition decode_probe (stdout : string) : option probe_result :=
  match Parse stdout with
  | None => None
  | Some v => let '(r, e) := decode_struct false result_fields v zero_result in
              if (e : bool) then None else Some r
  end.

Definition ffprobe_arguments : list string :=
  ["-v"; "error"; "-select_streams"; "v:0";
   "-show_entries"; "stream=codec_name,width,height,duration:format=duration,format_name";
   "-of"; "json"; "-i"; "pipe:0"].

(** A number greater than zero that is neither infinite nor NaN. *)
Definition finite_positive (f : float64) : bool :=
  match f with S754_finite false _ _ => true | _ => false end.

Section inspect.
(** The run of ffprobe, the text of a decoding error, [strconv.Quote]. *)
Context (ffprobe : list string → reader → run) (json_error : string → string)
  (Quote : string → string).

(** [durationText] *)
Definition duration_text (stream : probe_stream) (r : probe_result) : string :=
  let t := ps_Duration stream in if is_empty t || seqb t "N/A" then pb_Duration r else t.

(** The checks on a decoded answer. *)
Definition accept_media (r : probe_result) : result string MediaInfo :=
  match pb_Streams r with
  | [stream] =>
    match parse_float (duration_text stream r) with
    | None => Err "MP4 has no finite positive duration"
    | Some duration =>
      if negb (finite_positive duration) then Err "MP4 has no finite positive duration"
      else if negb (Contains (pb_FormatName r) "mp4") && negb (Contains (pb_FormatName r) "mov")
      then Err ("unsupported video container " +:+ Quote (pb_FormatName r))
      else if negb (seqb (ps_CodecName stream) "h264")
      then Err ("unsupported video codec " +:+ Quote (ps_CodecName stream) +:+ "; H.264 is required")
      else if (ps_Width stream <? 1) || (ps_Height stream <? 1)
      then Err "MP4 video dimensions are missing"
      else Ok {| mi_Codec := ps_CodecName stream; mi_Width := ps_Width stream;
                 mi_Height := ps_Height stream; mi_DurationSeconds := duration |}
    end
  | _ => Err "MP4 must contain one inspectable video stream"
  end.

Definition InspectMP4 (input : reader) : result string MediaInfo :=
  let r := ffprobe ffprobe_arguments input in
  match run_error r with
  | Some e =>
    Err (if run_timeout r then "ffprobe timed out"
         else "ffprobe rejected media: " +:+ safeProbeMessage (foldl Write "" (run_stderr r)) e)
  | None =>
    let stdout := Write "" (run_stdout r) in
    match decode_probe stdout with
    | None => Err ("decode ffprobe result: " +:+ json_error stdout)
    | Some r => accept_media r
    end
  end.
End inspect.

(** ** What an accepted media file is *)

Lemma accept_media_ok Quote r info :
  accept_media Quote r = Ok info →
  mi_Codec info = "h264" ∧ 1 ≤ mi_Width info ∧ 1 ≤ mi_Height info ∧
  finite_positive (mi_DurationSeconds info) = true ∧
  (Contains (pb_FormatName r) "mp4" = true ∨ Contains (pb_FormatName r) "mov" = true) ∧
  ∃ stream, pb_Streams r = [stream] ∧ ps_Width stream = mi_Width info ∧ ps_Height stream = mi_Height info ∧
    parse_float (duration_text stream r) = Some (mi_DurationSeconds info).
Proof.
  unfold accept_media. destruct (pb_Streams r) as [|stream [|? ?]] eqn:Es; try done.
  destruct (parse_float _) as [f|] eqn:Ef; [|done].
  destruct (finite_positive f) eqn:Ep; [|done]. cbn [negb].
  destruct (negb (Contains _ "mp4") && _) eqn:Ec; [done|].
  destruct (seqb_true (ps_CodecName stream) "h264") as [Hc _].
  destruct (seqb _ _); [|done]. cbn [negb]. destruct (_ || _) eqn:Ed; [done|].
  intros [= <-]. cbn. apply orb_false_iff in Ed as [?%Z.ltb_ge ?%Z.ltb_ge].
  apply andb_false_iff in Ec. rewrite !negb_false_iff in Ec.
  split; [by apply Hc|]. split; [lia|]. split; [lia|]. split; [done|]. split; [done|].
  by exists stream.
Qed.

(** The inspector accepts a file exactly when ffprobe ends without an error and the
    first 64 KiB of its output are a JSON document that describes one H.264 stream of
    positive size in an MP4 or QuickTime container, with a finite positive duration;
    the result repeats the size and the duration of that document, the duration of the
    container when the stream has none. *)
Theorem inspected_media_sound ffprobe json_error Quote input info :
  InspectMP4 ffprobe json_error Quote input = Ok info ↔
  run_error (ffprobe ffprobe_arguments input) = None ∧
  ∃ r stream, decode_probe (Write "" (run_stdout (ffprobe ffprobe_arguments input))) = Some r ∧
    pb_Streams r = [stream] ∧ ps_CodecName stream = "h264" ∧ 1 ≤ ps_Width stream ∧ 1 ≤ ps_Height stream ∧
    (Contains (pb_FormatName r) "mp4" = true ∨ Contains (pb_FormatName r) "mov" = true) ∧
    parse_float (if is_empty (ps_Duration stream) || seqb (ps_Duration stream) "N/A"
                 then pb_Duration r else ps_Duration stream) = Some (mi_DurationSeconds info) ∧
    finite_positive (mi_DurationSeconds info) = true ∧
    info = {| mi_Codec := "h264"; mi_Width := ps_Width stream; mi_Height := ps_Height stream;
              mi_DurationSeconds := mi_DurationSeconds info |}.
Proof.
  unfold InspectMP4. set (run := ffprobe ffprobe_arguments input). split.
  - destruct (run_error run); [done|]. intros H. split; [done|].
    destruct (decode_probe _) as [r|] eqn:Er; [|done]. exists r.
    destruct (accept_media_ok _ _ _ H) as (Hc & Hw & Hh & Hp & Hf & stream & Hs & Hws & Hhs & Hd).
    exists stream. rewrite Hws, Hhs. split; [done|]. split; [done|].
    assert (Hcodec : ps_CodecName stream = "h264").
    { unfold accept_media in H. rewrite Hs, Hd, Hp in H. cbn [negb] in H.
      destruct (_ && _); [done|]. destruct (seqb (ps_CodecName stream) "h264") eqn:E; [by apply seqb_true|done]. }
    do 6 (split; [done|]). rewrite <-Hc. by destruct info.
  - intros [-> (r & stream & -> & Hs & Hc & Hw & Hh & Hf & Hd & Hp & ->)].
    unfold accept_media, duration_text. rewrite Hs, Hd, Hp, Hc. cbn [negb].
    replace (negb (Contains (pb_FormatName r) "mp4") && negb (Contains (pb_FormatName r) "mov")) with false
      by (destruct Hf as [-> | ->]; cbn; [done|by rewrite andb_false_r]).
    rewrite (proj2 (seqb_true _ _)) by done. cbn [negb].
    by rewrite !(proj2 (Z.ltb_ge _ _)) by lia.
Qed.

(** *** What an inspected media file fits *)

(** A positive binary64 in canonical form. *)
Definition canonical_positive (f : float64) : bool :=
  match f with S754_finite false m e => SpecFloat.bounded 53 1024 m e | _ => false end.
(** Dimensions of a Go [int], a duration that a JSON text carries. *)
Definition media_fits (m : MediaInfo) : bool :=
  (1 <=? mi_Width m) && int64 (mi_Width m) && (1 <=? mi_Height m) && int64 (mi_Height m)
  && canonical_positive (mi_DurationSeconds m).

Lemma special_not_finite s f : special s = Some f → finite_positive f = false.
Proof.
  unfold special. destruct (signed s) as [negative r]. destruct (_ || _); [intros [= <-]; reflexivity|].
  destruct (seqb _ _); [intros [= <-]; reflexivity|discriminate].
Qed.
Lemma parse_float_canonical s f :
  parse_float s = Some f → finite_positive f = true → canonical_positive f = true.
Proof.
  intros H Hp. destruct f as [| | |[] m e]; try done. unfold canonical_positive. revert H. unfold parse_float.
  destruct (special s) as [f|] eqn:Es; [intros [= ->]; by apply special_not_finite in Es|].
  destruct (signed s) as [negative r], (match hex_prefix r with Some _ => _ | None => _ end) as [base digits].
  destruct (mantissa _ _ _ _ _ _) as [[[v fraction] seen] rest]. destruct (negb seen); [done|].
  destruct (match rest with EmptyString => _ | String _ _ => _ end) as [[x [|]]|]; try done.
  destruct (negb (underscoreOK s)); [done|].
  assert (Hb : ∀ g : float64, match g with S754_infinity _ => None | _ => Some g end = Some (S754_finite false m e) →
            g = S754_finite false m e) by (intros []; congruence).
  intros H%Hb. destruct (base =? 16); [destruct (v =? 0); [done|]|].
  - by eapply binary_normalize_bounded.
  - by eapply round_decimal_bounded.
Qed.

Definition stream_int64 (s : probe_stream) : Prop := int64 (ps_Width s) = true ∧ int64 (ps_Height s) = true.
Lemma decode_probe_streams text r : decode_probe text = Some r → Forall stream_int64 (pb_Streams r).
Proof.
  unfold decode_probe. destruct (Parse text) as [v|]; [|done].
  assert (Hs : keeps_all stream_int64 (decode_struct false stream_fields)).
  { apply decode_struct_keeps. repeat (apply Forall_cons_2; [apply on_field_keeps; intros x s [H1 H2]|]);
      [..|apply Forall_nil_2]; split; cbn [ps_Width ps_Height]; try done; by apply decode_int64_range. }
  assert (Hf : keeps_all (λ r, Forall stream_int64 (pb_Streams r)) (decode_struct false format_fields)).
  { apply decode_struct_keeps. repeat (apply Forall_cons_2; [apply on_field_keeps; intros x s H; exact H|]).
    apply Forall_nil_2. }
  assert (H : keeps_all (λ r, Forall stream_int64 (pb_Streams r)) (decode_struct false result_fields)).
  { apply decode_struct_keeps. apply Forall_cons_2; [|apply Forall_cons_2; [exact Hf|apply Forall_nil_2]].
    apply on_field_keeps. intros x s H. by apply (decode_slice_keeps stream_int64). }
  specialize (H v zero_result ltac:(by constructor)).
  destruct (decode_struct false result_fields v zero_result) as [r' []]; [done|]. by intros [= <-].
Qed.

Lemma InspectMP4_fits ffprobe json_error Quote input media :
  InspectMP4 ffprobe json_error Quote input = Ok media → media_fits media = true.
Proof.
  unfold InspectMP4. destruct (run_error _); [done|]. destruct (decode_probe _) as [r|] eqn:Er; [|done].
  intros H. destruct (accept_media_ok _ _ _ H) as (_ & Hw & Hh & Hp & _ & stream & Hs & Ew & Eh & Hd).
  apply decode_probe_streams in Er. rewrite Hs in Er. apply Forall_singleton in Er as [Iw Ih].
  unfold media_fits. rewrite (parse_float_canonical _ _ Hd Hp), <-Ew, <-Eh, Iw, Ih in *.
  by rewrite !(proj2 (Z.leb_le _ _)) by lia.
Qed.

Definition probe_answer (stdout : string) (args : list string) (input : reader) : run :=
  {| run_stdout := quoted stdout; run_stderr := []; run_error := None; run_timeout := false |}.
Example media_examples :
  map (λ t, InspectMP4 (probe_answer t) id id (NewReader ""))
    ["{'streams':[{'codec_name':'h264','width':1280,'height':720,'duration':'N/A'}],'format':{'format_name':'mov,mp4','duration':'10.5'}}";
     "{'streams':[{'codec_name':'vp9','width':1280,'height':720,'duration':'1'}],'format':{'format_name':'mp4'}}";
     "{'streams':[{'codec_name':'h264','width':1280,'height':720,'duration':'0'}],'format':{'format_name':'mp4'}}";
     "{'streams':[],'format':{'format_name':'mp4'}}"]
  = [Ok {| mi_Codec := "h264"; mi_Width := 1280; mi_Height := 720;
           mi_DurationSeconds := S754_finite false 5910974510923776 (-49) |};
     Err "unsupported video codec vp9; H.264 is required"; Err "MP4 has no finite positive duration";
     Err "MP4 must contain one inspectable video stream"].
Proof. vm_compute. reflexivity. Qed.
