(* ===== verification/Review.v ===== *)
(** * Reviews ([database/review.go])

    Reviewers see the queue of validated sessions, claim one for a limited time,
    and decide it: accepted (only with a passed PII review, optionally with a
    redaction plan), rejected, or sent back for rework, which opens a successor
    session for the same assignment. *)

From S2P Require Import Prelude Domain Schema Frame Encoding Sha256 Store Redaction.

(** ** The queue *)

Record ReviewQueueItem := {
  ri_SessionID : string; ri_TaskID : string; ri_Goal : string; ri_Category : string;
  ri_Difficulty : string; ri_ContributorID : string; ri_NormalizedKey : string;
  ri_ReadySince : time
}.

Record ReviewClaim := {
  rc_SessionID : string; rc_ReviewerID : string; rc_ClaimedAt : time; rc_ExpiresAt : time
}.

(** [LEFT JOIN review_claims rc ON rc.expires_at > now ... WHERE rc.session_id IS NULL] *)
Definition unclaimed (d : db) (now : time) (sessionID : string) : bool :=
  match review_claims d !! sessionID with
  | Some c => clm_expires_at c <=? now
  | None => true
  end.

Definition in_organizations (organizationIDs : option (list string)) (organizationID : string) : bool :=
  match organizationIDs with None => true | Some l => oneof organizationID l end.

Definition queue_items (d : db) (organizationIDs : option (list string))
    (sessionID : string) (s : session_row) : list ReviewQueueItem :=
  default [] (
    a ← assignments d !! ses_assignment_id s;
    t ← tasks d !! asg_task_id a;
    tt ← task_templates d !! tsk_template_id t;
    p ← projects d !! tpl_project_id tt;
    if in_organizations organizationIDs (prj_organization_id p) then
      Some (map (λ kv, {| ri_SessionID := sessionID; ri_TaskID := asg_task_id a; ri_Goal := tsk_goal t;
                          ri_Category := tpl_category tt; ri_Difficulty := tpl_difficulty tt;
                          ri_ContributorID := asg_contributor_id a;
                          ri_NormalizedKey := coalesce "" (val_normalized_key kv.2);
                          ri_ReadySince := ses_updated_at s |})
              (select (λ _ v, seqb (val_session_id v) sessionID && val_valid v)
                      (validation_results d)))
    else None).

Definition queue_le (x y : ReviewQueueItem) : Prop :=
  time_id_leb (ri_ReadySince x, ri_SessionID x) (ri_ReadySince y, ri_SessionID y) = true.
#[export] Instance queue_le_dec : RelDecision queue_le.
Proof. intros x y. unfold queue_le. apply _. Defined.

Definition review_ready (d : db) (now : time) (id : string) (s : session_row) : bool :=
  bool_decide (ses_state s = SessionReadyForReview) && unclaimed d now id.

Definition listReviewQueue (d : db) (now : time) (limit : Z)
    (organizationIDs : option (list string)) : res (list ReviewQueueItem) :=
  if (limit <? 1) || (200 <? limit)
  then Err (ErrText "review queue limit must be between 1 and 200")
  else Ok (take (Z.to_nat limit) (merge_sort queue_le
    (concat (map (λ ks, queue_items d organizationIDs ks.1 ks.2)
                 (select (review_ready d now) (sessions d)))))).

Definition ListReviewQueue (d : db) (now : time) (limit : Z) : res (list ReviewQueueItem) :=
  listReviewQueue d now limit None.

Definition ListReviewQueueForOrganizations (d : db) (now : time) (limit : Z)
    (organizationIDs : list string) : res (list ReviewQueueItem) :=
  if Nat.eqb (length organizationIDs) 0 then Ok []
  else listReviewQueue d now limit (Some organizationIDs).

(** ** Claims *)

(** [INSERT ... ON CONFLICT (session_id) DO UPDATE ... WHERE expires_at <= now OR
    reviewer_id = reviewer]: whether a row is written. *)
Definition claim_available (d : db) (sessionID reviewerID : string) (now : time) : bool :=
  match review_claims d !! sessionID with
  | None => true
  | Some c => (clm_expires_at c <=? now) || seqb (clm_reviewer_id c) reviewerID
  end.

Definition ClaimReview (sessionID reviewerID actor requestID : string) (lease : Z) (now : time)
    : tx ReviewClaim :=
  fail_if (is_empty sessionID || is_empty reviewerID || negb (seqb actor reviewerID)
           || (lease <? minute) || (8 * hour <? lease))
    (ErrText "reviewer must claim for themselves with a lease between one minute and eight hours") ;;
  s <- row_of sessions sessionID ErrNotFound ;;
  fail_if (negb (bool_decide (ses_state s = SessionReadyForReview)))
    (ErrInvalidTransition ("review claiming requires READY_FOR_REVIEW, current state is "
                           +:+ state_string (ses_state s))) ;;
  d <- get ;;
  fail_if (negb (claim_available d sessionID reviewerID now)) ErrReviewClaimed ;;
  modify (set_review_claims <[sessionID :=
    {| clm_reviewer_id := reviewerID; clm_claimed_at := now; clm_expires_at := now + lease |}]>) ;;
  insertAudit (audit actor "review.claimed" ("session/" +:+ sessionID) requestID now
    {["reviewer_id" := reviewerID; "expires_at" := RFC3339Nano (now + lease)]}) ;;
  ret {| rc_SessionID := sessionID; rc_ReviewerID := reviewerID; rc_ClaimedAt := now;
         rc_ExpiresAt := now + lease |}.

Definition ReleaseReview (sessionID reviewerID actor requestID : string) (now : time) : tx () :=
  fail_if (is_empty sessionID || is_empty reviewerID || negb (seqb actor reviewerID))
    (ErrText "reviewer must release their own claim") ;;
  c <- row_of review_claims sessionID ErrReviewLease ;;
  fail_if (negb (seqb (clm_reviewer_id c) reviewerID)) ErrReviewLease ;;
  modify (set_review_claims (delete sessionID)) ;;
  insertAudit (audit actor "review.released" ("session/" +:+ sessionID) requestID now
    {["reviewer_id" := reviewerID]}).

(** ** Decisions *)

(** The checks on the request, before the transaction. *)
Definition check_review (review : Review) (actor : string) : res () :=
  if is_empty (rv_SessionID review) || is_empty (rv_ReviewerID review)
     || negb (seqb (rv_ReviewerID review) actor) || is_empty (rv_RubricVersion review)
  then Err (ErrText "session, reviewer, matching actor, and rubric version are required")
  else if negb (oneof (rv_Decision review) ["accepted"; "rejected"; "rework_required"])
  then Err (ErrText "unsupported review decision")
  else if negb (oneof (rv_PIIReview review) ["pending"; "passed"; "failed"])
  then Err (ErrText "unsupported PII review state")
  else if seqb (rv_Decision review) "accepted" && negb (seqb (rv_PIIReview review) "passed")
  then Err ErrPIIGate
  else Ok ().

(** The plan of a redaction document that accompanies the decision: identifiers
    and hash; [None] without a document. *)
Definition prepare_redaction (review : Review) (rPlan rJob : random)
    : res (option (RedactionDocument * string * string * string)) :=
  match rv_RedactionDocument review with
  | None => Ok None
  | Some document =>
    if negb (seqb (rv_Decision review) "accepted") || negb (seqb (rv_PIIReview review) "passed")
    then Err (ErrInvalidRedactionPlan
                "video redaction can only accompany an accepted, PII-approved review")
    else match invalid_plan (canonicalRedactionDocument document (rv_SessionID review)) with
         | Err e => Err e
         | Ok canonical =>
           match New "redaction" rPlan, New "job" rJob with
           | Ok planID, Ok jobID => Ok (Some (document, sha256_hex canonical, planID, jobID))
           | Err e, _ => Err e
           | _, Err e => Err e
           end
         end
  end.

(** [json.Valid] and [json.Unmarshal] into a [map[string]any] of at least one key. *)
Definition scores_object (scores : option json) : bool :=
  match scores with
  | Some (JObject (_ :: _)) => true
  | _ => false
  end.

Definition review_target (decision : string) : SessionState :=
  if seqb decision "accepted" then SessionAccepted
  else if seqb decision "rejected" then SessionRejected
  else if seqb decision "rework_required" then SessionReworkRequired
  else SessionOther "".

(** Storing the plan of an accepted review. *)
Definition store_redaction (review : Review)
    (plan : option (RedactionDocument * string * string * string)) (requestID : string) (now : time)
    : tx () :=
  match plan with
  | None => ret ()
  | Some (document, hash, planID, jobID) =>
    d <- get ;;
    fail_if (deletion_pending d (rv_SessionID review)) ErrDeletionPending ;;
    fail_if (negb (keys_match (video_keys d (rv_SessionID review)) (planned_keys document)))
      ErrRedactionEligibility ;;
    insert_plan_and_job
      {| pl_ID := planID; pl_SessionID := rv_SessionID review;
         pl_ReviewerID := rv_ReviewerID review; pl_SchemaVersion := "redaction/v1";
         pl_DocumentHash := hash; pl_Version := next_plan_version d (rv_SessionID review);
         pl_Document := document; pl_CreatedAt := now |}
      jobID (rv_ReviewerID review) requestID now
  end.

(** The successor of a session sent back for rework. *)
Definition open_rework (reworkSessionID : string) (session : Session)
    (reviewID actor requestID : string) (now : time) : tx () :=
  if is_empty reworkSessionID then ret ()
  else
    insert_session reworkSessionID
      (new_session (s_AssignmentID session) SessionAssigned (Some (s_ID session)) now) ;;
    insertAudit (audit actor "session.rework_assigned" ("session/" +:+ reworkSessionID) requestID now
      {["assignment_id" := s_AssignmentID session; "rework_of_session_id" := s_ID session;
        "review_id" := reviewID]}).

Definition with_review_id (review : Review) (id : string) (now : time) : Review :=
  {| rv_ID := id; rv_SessionID := rv_SessionID review; rv_ReviewerID := rv_ReviewerID review;
     rv_RubricVersion := rv_RubricVersion review; rv_Decision := rv_Decision review;
     rv_Comments := rv_Comments review; rv_PIIReview := rv_PIIReview review;
     rv_Scores := rv_Scores review; rv_RedactionDocument := rv_RedactionDocument review;
     rv_CreatedAt := now |}.

Definition review_to_row (review : Review) : review_row :=
  {| rev_session_id := rv_SessionID review; rev_reviewer_id := rv_ReviewerID review;
     rev_rubric_version := rv_RubricVersion review; rev_scores := default JNull (rv_Scores review);
     rev_comments := rv_Comments review; rev_decision := rv_Decision review;
     rev_pii_review := rv_PIIReview review; rev_created_at := rv_CreatedAt review |}.

(** The claim the reviewer holds on the session. *)
Definition holds_claim (c : review_claim_row) (reviewerID : string) (now : time) : bool :=
  seqb (clm_reviewer_id c) reviewerID && After (clm_expires_at c) now.

Definition SubmitReview (review : Review) (actor requestID : string) (now : time)
    (rPlan rJob rReview rRework : random) : tx (Review * Session) :=
  lift (check_review review actor) ;;
  plan <- lift (prepare_redaction review rPlan rJob) ;;
  fail_if (negb (scores_object (rv_Scores review)))
    (ErrText "scores must be a non-empty JSON object") ;;
  reviewID <- newID "review" rReview ;;
  reworkSessionID <- (if seqb (rv_Decision review) "rework_required" then newID "sess" rRework
                      else ret "") ;;
  let review := with_review_id review reviewID now in
  row <- row_of sessions (rv_SessionID review) ErrNotFound ;;
  fail_if (negb (bool_decide (ses_state row = SessionReadyForReview)))
    (ErrInvalidTransition ("review requires READY_FOR_REVIEW, current state is "
                           +:+ state_string (ses_state row))) ;;
  c <- row_of review_claims (rv_SessionID review) ErrReviewLease ;;
  fail_if (negb (holds_claim c (rv_ReviewerID review) now)) ErrReviewLease ;;
  session <- lift (Transition (session_of (rv_SessionID review) row)
                     (transition_command (review_target (rv_Decision review)) actor requestID now)) ;;
  insert_review reviewID (review_to_row review) ;;
  update_session_state (s_ID session) (s_State session) (s_UpdatedAt session) ;;
  store_redaction review plan requestID now ;;
  open_rework reworkSessionID session reviewID actor requestID now ;;
  modify (set_review_claims (delete (rv_SessionID review))) ;;
  insertAudit (audit actor "review.submitted" ("review/" +:+ reviewID) requestID now
    {["session_id" := rv_SessionID review; "decision" := rv_Decision review;
      "pii_review" := rv_PIIReview review; "rubric_version" := rv_RubricVersion review]}) ;;
  insert_last_audit session ;;
  ret (review, session).

(** ** Stored reviews *)

Definition review_of (id : string) (r : review_row) : Review :=
  {| rv_ID := id; rv_SessionID := rev_session_id r; rv_ReviewerID := rev_reviewer_id r;
     rv_RubricVersion := rev_rubric_version r; rv_Decision := rev_decision r;
     rv_Comments := rev_comments r; rv_PIIReview := rev_pii_review r;
     rv_Scores := Some (rev_scores r); rv_RedactionDocument := None;
     rv_CreatedAt := rev_created_at r |}.

Definition review_le (x y : string * review_row) : Prop :=
  time_id_leb (rev_created_at x.2, x.1) (rev_created_at y.2, y.1) = true.
#[export] Instance review_le_dec : RelDecision review_le.
Proof. intros x y. unfold review_le. apply _. Defined.

Definition ListReviews (d : db) (sessionID : string) : list Review :=
  map (λ kr, review_of kr.1 kr.2)
    (merge_sort review_le (select (λ _ r, seqb (rev_session_id r) sessionID) (reviews d))).

(** ** Lemmas *)

Lemma check_review_ok review actor u :
  check_review review actor = Ok u →
  rv_ReviewerID review = actor ∧
  rv_Decision review ∈ ["accepted"; "rejected"; "rework_required"] ∧
  (rv_Decision review = "accepted" → rv_PIIReview review = "passed").
Proof.
  unfold check_review. repeat case_match; intros [= <-].
  rewrite !orb_false_iff, !negb_false_iff, seqb_true in *.
  repeat match goal with H : _ ∧ _ |- _ => destruct H end.
  rewrite oneof_true in *. split; [done|]. split; [done|]. intros Hd.
  match goal with H : _ && _ = false |- _ =>
    rewrite (proj2 (seqb_true _ _) Hd), andb_true_l, negb_false_iff, seqb_true in H end. done.
Qed.

Lemma insert_review_ok id r d u d' :
  insert_review id r d = Ok (u, d') → reviews d !! id = None ∧ d' = set_reviews <[id := r]> d.
Proof.
  unfold insert_review. intros H.
  apply bind_ok in H as ([] & d1 & [-> Hn]%fresh_key_ok & H).
  unfold references, check in H. by tx_inv.
Qed.

Lemma open_rework_ok k session id actor requestID now d x d' :
  open_rework k session id actor requestID now d = Ok (x, d') →
  reviews d' = reviews d ∧ review_claims d' = review_claims d ∧
  ((k = "" ∧ sessions d' = sessions d) ∨
   k ≠ "" ∧ sessions d !! k = None ∧
   sessions d' = <[k := new_session (s_AssignmentID session) SessionAssigned
                          (Some (s_ID session)) now]> (sessions d)).
Proof.
  unfold open_rework, insertAudit. intros H.
  destruct (is_empty k) eqn:Hk; tx_inv.
  - apply is_empty_true in Hk. eauto.
  - match goal with H : insert_session _ _ _ = _ |- _ => apply insert_session_ok in H as [Hn ->] end.
    apply is_empty_false in Hk. db_simpl. eauto 6.
Qed.

Lemma rework_id_ok (b : bool) r d k d' :
  (if b then newID "sess" r else ret "") d = Ok (k, d') → d' = d ∧ (k = "" ↔ b = false).
Proof.
  intros H. destruct b; stmt_inv; [|done]. split; [done|].
  apply New_ok in H as (_ & bytes & _ & ->). split; intros [=].
Qed.

Lemma SubmitReview_ok review actor requestID now r1 r2 r3 r4 d review' session d' :
  SubmitReview review actor requestID now r1 r2 r3 r4 d = Ok ((review', session), d') →
  let sid := rv_SessionID review in
  ∃ row c,
    sessions d !! sid = Some row ∧ ses_state row = SessionReadyForReview ∧
    review_claims d !! sid = Some c ∧ clm_reviewer_id c = rv_ReviewerID review ∧
    now < clm_expires_at c ∧
    check_review review actor = Ok () ∧
    reviews d !! rv_ID review' = None ∧
    review' = with_review_id review (rv_ID review') now ∧
    reviews d' = <[rv_ID review' := review_to_row review']> (reviews d) ∧
    review_claims d' = delete sid (review_claims d) ∧
    let moved := alter (with_state (review_target (rv_Decision review)) now) sid (sessions d) in
    if bool_decide (rv_Decision review = "rework_required") then
      ∃ k, moved !! k = None ∧
           sessions d' = <[k := new_session (ses_assignment_id row) SessionAssigned (Some sid) now]> moved
    else sessions d' = moved.
Proof.
  unfold SubmitReview. intros H. cbv zeta. stmt_inv.
  match goal with H : (if _ then _ else _) _ = _ |- _ => apply rework_id_ok in H as [-> Hk] end.
  subst.
  match goal with H : insert_review _ _ _ = _ |- _ => apply insert_review_ok in H as [Hnew ->] end.
  match goal with H : store_redaction _ _ _ _ _ = _ |- _ =>
    kept sessions H; kept reviews H; kept review_claims H; clear H end.
  match goal with H : open_rework _ _ _ _ _ _ _ = _ |- _ =>
    apply open_rework_ok in H as (R1 & R2 & R3) end.
  match goal with H : insert_last_audit _ _ = _ |- _ =>
    kept sessions H; kept reviews H; kept review_claims H; clear H end.
  db_simpl. cbn [with_review_id rv_SessionID rv_ReviewerID rv_Decision rv_ID] in *.
  apply Transition_result in H9 as (E1 & E2 & E3 & E4 & _). cbn in E1, E2, E3, E4.
  rewrite E1, E3, E4 in K. rewrite E1, E2 in R3.
  apply negb_false_iff, bool_decide_eq_true in H6.
  apply negb_false_iff, andb_true_iff in H8 as [Ho%seqb_true Hx]. unfold After in Hx.
  apply Z.ltb_lt in Hx. destruct a.
  exists a4, a6. repeat (split; [done|]).
  split; [congruence|]. split; [congruence|].
  rewrite K2. case_bool_decide as Hd.
  - destruct R3 as [[-> _]|(_ & Hn & ->)].
    + destruct Hk as [Hk _]. specialize (Hk eq_refl). by rewrite seqb_false in Hk.
    + exists a3. rewrite <-K. done.
  - destruct R3 as [[_ ->]|(Hne & _)]; [done|].
    apply seqb_false in Hd. by apply Hk in Hd.
Qed.

(** ** Properties *)

(** C36: what a submitted review establishes.  A decision is only recorded for a
    session that is READY_FOR_REVIEW, by the reviewer who holds an unexpired claim
    on it and is the caller; an acceptance requires a passed PII review.  The
    session then has the state of the decision, the review is stored under a new
    identifier with the decision it was given, the claim is gone, and a rework
    decision opens exactly one successor session: ASSIGNED, for the same
    assignment, without consent, referring to the reviewed session. *)
Theorem submitted_review_gate review actor requestID now r1 r2 r3 r4 d review' session d' :
  SubmitReview review actor requestID now r1 r2 r3 r4 d = Ok ((review', session), d') →
  let sid := rv_SessionID review in
  ∃ row c,
    sessions d !! sid = Some row ∧ ses_state row = SessionReadyForReview ∧
    review_claims d !! sid = Some c ∧ clm_reviewer_id c = actor ∧ now < clm_expires_at c ∧
    rv_ReviewerID review = actor ∧
    (rv_Decision review = "accepted" → rv_PIIReview review = "passed") ∧
    review_claims d' !! sid = None ∧
    reviews d !! rv_ID review' = None ∧
    (∃ stored, reviews d' !! rv_ID review' = Some stored ∧ rev_session_id stored = sid ∧
               rev_reviewer_id stored = actor ∧ rev_decision stored = rv_Decision review ∧
               rev_pii_review stored = rv_PIIReview review) ∧
    sessions d' !! sid = Some (with_state (review_target (rv_Decision review)) now row) ∧
    ((rv_Decision review = "rework_required" ∧
      ∃ k, sessions d !! k = None ∧
        sessions d' !! k = Some (new_session (ses_assignment_id row) SessionAssigned (Some sid) now) ∧
        ∀ j, j ≠ sid → j ≠ k → sessions d' !! j = sessions d !! j) ∨
     (rv_Decision review ≠ "rework_required" ∧
      ∀ j, j ≠ sid → sessions d' !! j = sessions d !! j)).
Proof.
  intros (row & c & Hs & Hst & Hc & Ho & Hx & Hck & Hn & Er & Hr & Hcl & Hse)%SubmitReview_ok sid.
  apply check_review_ok in Hck as (Ha & _ & Hpii).
  exists row, c. repeat (split; [congruence || done|]).
  split; [by rewrite Hcl, lookup_delete_eq|]. split; [done|]. split.
  { exists (review_to_row review'). split; [by rewrite Hr, lookup_insert_eq|].
    rewrite Er. by repeat split. }
  fold sid in Hs, Hse. case_bool_decide as Hd.
  - destruct Hse as (k & Hk & ->).
    assert (k ≠ sid) as Hks by (intros ->; by rewrite lookup_alter_eq, Hs in Hk).
    split; [by rewrite lookup_insert_ne, lookup_alter_eq, Hs|]. left. split; [done|].
    exists k. rewrite lookup_insert_eq. rewrite lookup_alter_ne in Hk by done.
    split; [done|]. split; [done|]. intros j H1 H2. by rewrite lookup_insert_ne, lookup_alter_ne.
  - rewrite Hse. split; [by rewrite lookup_alter_eq, Hs|]. right. split; [done|].
    intros j Hj. by rewrite lookup_alter_ne.
Qed.

Definition reviewable : session_row :=
  {| ses_assignment_id := "assign_1"; ses_consent_acceptance_id := Some "accept_1";
     ses_state := SessionReadyForReview; ses_rework_of_session_id := None;
     ses_created_at := 1; ses_updated_at := 4 |}.
Definition sample_review (decision pii : string) : Review :=
  {| rv_ID := ""; rv_SessionID := "sess_1"; rv_ReviewerID := "rev_1"; rv_RubricVersion := "v1";
     rv_Decision := decision; rv_Comments := ""; rv_PIIReview := pii;
     rv_Scores := Some (JObject [("quality", JNumber "4")]); rv_RedactionDocument := None;
     rv_CreatedAt := 0 |}.
Definition review_db : db :=
  set_assignments <["assign_1" := {| asg_task_id := "t"; asg_contributor_id := "c";
                                     asg_created_at := 1 |}]>
    (set_sessions <["sess_1" := reviewable]>
      (set_review_claims <["sess_1" := {| clm_reviewer_id := "rev_1"; clm_claimed_at := 5;
                                          clm_expires_at := 100 |}]> empty_db)).

Lemma submitted_review_gate_witness :
  ∃ review session d',
    SubmitReview (sample_review "rework_required" "failed") "rev_1" "req" 9 None None
      (Some [x01]) (Some [x02]) review_db = Ok ((review, session), d') ∧
    review_claims d' !! "sess_1" = None.
Proof.
  destruct (SubmitReview (sample_review "rework_required" "failed") "rev_1" "req" 9 None None
      (Some [x01]) (Some [x02]) review_db) as [[[rv s] d']|e] eqn:H;
    [|vm_compute in H; discriminate H].
  exists rv, s, d'. split; [reflexivity|].
  destruct (submitted_review_gate _ _ _ _ _ _ _ _ _ _ _ _ H)
    as (row & c & _ & _ & _ & _ & _ & _ & _ & Hcl & _).
  exact Hcl.
Defined.

Lemma ClaimReview_ok sessionID reviewerID actor requestID lease now d x d' :
  ClaimReview sessionID reviewerID actor requestID lease now d = Ok (x, d') →
  sessionID ≠ "" ∧ reviewerID ≠ "" ∧ minute ≤ lease ≤ 8 * hour ∧
  (∃ s, sessions d !! sessionID = Some s ∧ ses_state s = SessionReadyForReview) ∧
  claim_available d sessionID reviewerID now = true ∧
  review_claims d' = <[sessionID := {| clm_reviewer_id := reviewerID; clm_claimed_at := now;
                                       clm_expires_at := now + lease |}]> (review_claims d) ∧
  sessions d' = sessions d.
Proof.
  unfold ClaimReview. intros H. stmt_inv. db_simpl.
  rewrite !orb_false_iff, !is_empty_false in H0.
  destruct H0 as ((((H0 & Hr) & Ha) & Hl) & Hu). apply Z.ltb_ge in Hl, Hu.
  match goal with H : negb (bool_decide _) = false |- _ =>
    apply negb_false_iff, bool_decide_eq_true in H end.
  match goal with H : negb (claim_available _ _ _ _) = false |- _ => apply negb_false_iff in H end.
  eauto 12.
Qed.

(** C38: a claim is exclusive until it expires.  While the claim of one reviewer
    lasts, another reviewer can neither claim the session, nor release the claim,
    nor submit a review of it; the owner may renew it at any time, and once it
    has expired another reviewer may take it. *)
Theorem review_claim_exclusive sessionID owner lease now d d' x requestID :
  ClaimReview sessionID owner owner requestID lease now d = Ok (x, d') →
  ∀ other request lease' t, other ≠ "" → other ≠ owner → minute ≤ lease' ≤ 8 * hour →
  (t < now + lease →
    ClaimReview sessionID other other request lease' t d' = Err ErrReviewClaimed) ∧
  ReleaseReview sessionID other other request t d' = Err ErrReviewLease ∧
  (∀ review r1 r2 r3 r4 y, rv_SessionID review = sessionID → rv_ReviewerID review = other →
    SubmitReview review other request t r1 r2 r3 r4 d' ≠ Ok y) ∧
  (now + lease ≤ t →
    ∃ y d'', ClaimReview sessionID other other request lease' t d' = Ok (y, d'')) ∧
  ∃ y d'', ClaimReview sessionID owner owner request lease' t d' = Ok (y, d'').
Proof.
  intros (Hsid & Hown & _ & (s & Hs & Hst) & _ & Hcl & Hse)%ClaimReview_ok.
  intros other request lease' t Hne Ho Hl.
  assert (Hc : review_claims d' !! sessionID =
    Some {| clm_reviewer_id := owner; clm_claimed_at := now; clm_expires_at := now + lease |})
    by (by rewrite Hcl, lookup_insert_eq).
  assert (Hg : ∀ r, r ≠ "" →
    is_empty sessionID || is_empty r || negb (seqb r r) || (lease' <? minute) || (8 * hour <? lease') = false).
  { intros r Hr. rewrite !orb_false_iff, !is_empty_false, negb_false_iff, seqb_true, !Z.ltb_ge.
    repeat split; done || lia. }
  assert (Hav : ∀ r, claim_available d' sessionID r t = (now + lease <=? t) || seqb owner r)
    by (intros; unfold claim_available; by rewrite Hc).
  assert (Hrun : ∀ r, r ≠ "" → claim_available d' sessionID r t = true →
    ∃ y d'', ClaimReview sessionID r r request lease' t d' = Ok (y, d'')).
  { intros r Hr Ha. unfold ClaimReview. op_run. rewrite Hg, Hse, Hs, Hst by done.
    rewrite bool_decide_true by done. op_run. rewrite Ha. op_run. by eexists _, _. }
  split; [|split; [|split; [|split]]].
  - intros Ht. unfold ClaimReview. op_run. rewrite Hg, Hse, Hs, Hst by done.
    rewrite bool_decide_true by done. op_run. rewrite Hav.
    rewrite (proj2 (Z.leb_gt _ _)) by lia. by rewrite (proj2 (seqb_false _ _)).
  - unfold ReleaseReview. op_run.
    rewrite (proj2 (is_empty_false _) Hsid), (proj2 (is_empty_false _) Hne).
    rewrite (proj2 (seqb_true other other)) by done. cbn [orb negb]. rewrite Hc. op_run. cbn.
    by rewrite (proj2 (seqb_false _ _)).
  - intros review r1 r2 r3 r4 [[rv se] d''] Hrs Hrr H.
    apply SubmitReview_ok in H as (row & c & _ & _ & Hc' & Hco & _).
    rewrite Hrs, Hc in Hc'. injection Hc' as <-. cbn in Hco. congruence.
  - intros Ht. apply Hrun; [done|]. rewrite Hav. by rewrite (proj2 (Z.leb_le _ _)) by lia.
  - apply Hrun; [done|]. rewrite Hav, (proj2 (seqb_true owner owner)) by done. apply orb_true_r.
Qed.

Lemma review_claim_exclusive_witness :
  ∃ x d', ClaimReview "sess_1" "rev_1" "rev_1" "req" minute 10 review_db = Ok (x, d') ∧
    ClaimReview "sess_1" "rev_2" "rev_2" "req2" hour (10 + second) d' = Err ErrReviewClaimed.
Proof.
  destruct (ClaimReview "sess_1" "rev_1" "rev_1" "req" minute 10 review_db)
    as [[x d']|e] eqn:H; [|vm_compute in H; discriminate H].
  exists x, d'. split; [reflexivity|].
  apply (review_claim_exclusive _ _ _ _ _ _ _ _ H); [done|done|vm_compute; by split|reflexivity].
Defined.
