(* ===== verification/Erasure.v ===== *)
(** * Legal holds, session erasure and retention policies
      ([database/erasure.go], [database/retention.go])

    An administrator may place a legal hold on a session, ask for its erasure, and
    set the retention periods of an organization.  A worker leases erasure
    requests, deletes the objects, and completes the erasure; a hold that appears
    in between blocks the request. *)

From S2P Require Import Prelude Domain Schema Frame Store Redaction.

(** [EXISTS(SELECT 1 FROM legal_holds WHERE session_id=$1 AND released_at IS NULL)] *)
Definition under_hold (d : db) (sessionID : string) : bool :=
  exists_row (λ _ h, seqb (hld_session_id h) sessionID && active_hold h) (legal_holds d).

(** ** Legal holds *)

Definition deletion_leased (d : db) (sessionID : string) : bool :=
  exists_row (λ _ q, seqb (del_session_id q) sessionID && seqb (del_state q) "leased")
    (deletion_requests d).

Definition in_release (d : db) (releaseID sessionID : string) : bool :=
  match release_sessions d !! sessionID with
  | Some rs => seqb (rls_release_id rs) releaseID
  | None => false
  end.

(** A purge request whose objects belong to the session: its raw or derived
    objects, or a release it is part of. *)
Definition purge_affects (d : db) (sessionID : string) (q : retention_purge_row) : bool :=
  oneof (prg_resource_type q) ["session_raw"; "session_derived"] && seqb (prg_resource_id q) sessionID
  || seqb (prg_resource_type q) "release" && in_release d (prg_resource_id q) sessionID.

Definition retention_leased (d : db) (sessionID : string) : bool :=
  exists_row (λ _ q, seqb (prg_state q) "leased" && purge_affects d sessionID q)
    (retention_purge_requests d).

Definition reason_length_ok (reason : string) : bool :=
  (3 <=? slen reason) && (slen reason <=? 2000).

(** [SELECT p.organization_id, s.state ... FOR UPDATE OF s] *)
Definition session_and_organization (sessionID : string) : tx (string * SessionState) :=
  d <- get ;;
  s <- some_or (sessions d !! sessionID) ErrNotFound ;;
  a <- some_or (session_access d sessionID) ErrNotFound ;;
  ret (sa_OrganizationID a, ses_state s).

Definition PlaceLegalHold (sessionID reason0 actor requestID : string) (now : time) (r : random)
    : tx LegalHold :=
  let reason := TrimSpace reason0 in
  fail_if (negb (reason_length_ok reason))
    (ErrText "legal-hold reason must contain 3 to 2000 characters") ;;
  holdID <- newID "hold" r ;;
  '(organizationID, state) <- session_and_organization sessionID ;;
  fail_if (bool_decide (state = SessionDeleted)) ErrDeletionNotAllowed ;;
  d <- get ;;
  fail_if (deletion_leased d sessionID)
    (ErrText "a deletion worker is already erasing this session") ;;
  fail_if (retention_leased d sessionID) ErrRetentionPurgeInProgress ;;
  on_constraint "legal_holds_one_active_per_session" ErrLegalHoldExists
    (insert_legal_hold holdID
       {| hld_organization_id := organizationID; hld_session_id := sessionID;
          hld_reason := reason; hld_placed_by := actor; hld_placed_at := now;
          hld_released_by := None; hld_released_at := None |}) ;;
  insertAudit (audit actor "legal_hold.placed" ("legal-hold/" +:+ holdID) requestID now
    {["organization_id" := organizationID; "session_id" := sessionID; "reason" := reason]}) ;;
  ret {| lh_ID := holdID; lh_OrganizationID := organizationID; lh_SessionID := sessionID;
         lh_Reason := reason; lh_PlacedBy := actor; lh_PlacedAt := now;
         lh_ReleasedBy := ""; lh_ReleasedAt := 0 |}.

Definition release_hold (actor : string) (now : time) (h : legal_hold_row) : legal_hold_row :=
  {| hld_organization_id := hld_organization_id h; hld_session_id := hld_session_id h;
     hld_reason := hld_reason h; hld_placed_by := hld_placed_by h;
     hld_placed_at := hld_placed_at h; hld_released_by := Some actor;
     hld_released_at := Some now |}.

(** One [UPDATE] of a deletion request: state, availability, lease and error. *)
Definition update_deletion (state : string) (attempt manual : Z) (available now : time)
    (lease : option (string * time)) (last_error : option string) (q : deletion_request_row)
    : deletion_request_row :=
  {| del_organization_id := del_organization_id q; del_session_id := del_session_id q;
     del_reason := del_reason q; del_object_keys := del_object_keys q; del_state := state;
     del_attempt := attempt; del_manual_requeues := manual; del_available_at := available;
     del_leased_by := fst <$> lease; del_lease_expires_at := snd <$> lease;
     del_requested_by := del_requested_by q; del_requested_at := del_requested_at q;
     del_completed_at := del_completed_at q; del_last_error := last_error;
     del_updated_at := now |}.

Definition unblock_deletion (now : time) (q : deletion_request_row) : deletion_request_row :=
  {| del_organization_id := del_organization_id q; del_session_id := del_session_id q;
     del_reason := del_reason q; del_object_keys := del_object_keys q; del_state := "queued";
     del_attempt := del_attempt q; del_manual_requeues := del_manual_requeues q;
     del_available_at := now; del_leased_by := del_leased_by q;
     del_lease_expires_at := del_lease_expires_at q; del_requested_by := del_requested_by q;
     del_requested_at := del_requested_at q; del_completed_at := del_completed_at q;
     del_last_error := None; del_updated_at := now |}.

Definition unblock_purge (now : time) (q : retention_purge_row) : retention_purge_row :=
  {| prg_organization_id := prg_organization_id q; prg_resource_type := prg_resource_type q;
     prg_resource_id := prg_resource_id q; prg_policy_updated_at := prg_policy_updated_at q;
     prg_object_keys := prg_object_keys q; prg_state := "queued"; prg_attempt := prg_attempt q;
     prg_available_at := now; prg_leased_by := prg_leased_by q;
     prg_lease_expires_at := prg_lease_expires_at q; prg_requested_at := prg_requested_at q;
     prg_completed_at := prg_completed_at q; prg_last_error := None; prg_updated_at := now |}.

Definition ReleaseLegalHold (sessionID holdID actor requestID : string) (now : time) : tx () :=
  h <- row_of legal_holds holdID ErrNotFound ;;
  fail_if (negb (seqb (hld_session_id h) sessionID && active_hold h)) ErrNotFound ;;
  modify (set_legal_holds (alter (release_hold actor now) holdID)) ;;
  modify (set_deletion_requests (update_where
    (λ _ q, seqb (del_session_id q) sessionID && seqb (del_state q) "blocked")
    (unblock_deletion now))) ;;
  d <- get ;;
  modify (set_retention_purge_requests (update_where
    (λ _ q, seqb (prg_state q) "blocked" && purge_affects d sessionID q) (unblock_purge now))) ;;
  insertAudit (audit actor "legal_hold.released" ("legal-hold/" +:+ holdID) requestID now
    {["organization_id" := hld_organization_id h; "session_id" := sessionID]}).

(** ** Erasure *)

Definition deletableSessionState (state : SessionState) : bool :=
  match state with
  | SessionCreated | SessionAssigned | SessionReady | SessionReadyForReview
  | SessionAccepted | SessionFailed | SessionRejected | SessionReworkRequired
  | SessionCancelled => true
  | _ => false
  end.

Definition redaction_in_progress (d : db) (sessionID : string) : bool :=
  exists_row (λ _ j, seqb (rjb_session_id j) sessionID && oneof (rjb_state j) ["queued"; "leased"])
    (redaction_jobs d).

Definition derived_prefix (sessionID : string) : string := "derived/sessions/" +:+ sessionID +:+ "/".
Definition actions_key (sessionID : string) : string := derived_prefix sessionID +:+ "actions.jsonl".
Definition redaction_prefix (sessionID planID : string) : string :=
  derived_prefix sessionID +:+ "redactions/" +:+ planID +:+ "/".
Definition segment_keys (sessionID planID : string) (document : RedactionDocument) : list string :=
  map (λ s, redaction_prefix sessionID planID +:+ sg_SegmentID s +:+ ".mp4") (rd_Segments document).

(** A plan whose job wrote, or may have written, objects that are not purged. *)
Definition plan_has_objects (states : list string) (d : db) (planID : string) : bool :=
  exists_row (λ _ j, seqb (rjb_plan_id j) planID && oneof (rjb_state j) states
                     && bool_decide (rjb_purged_at j = None)) (redaction_jobs d).

Definition optional_list {A} (o : option A) : list A := match o with Some a => [a] | None => [] end.

(** The [UNION] of the object keys of a session, sorted, without duplicates. *)
Definition sessionObjectKeys (d : db) (sessionID : string) : list string :=
  let plans := select (λ planID p, seqb (rpl_session_id p) sessionID
                                   && plan_has_objects ["completed"; "dead_letter"] d planID)
                      (redaction_plans d) in
  let results := select (λ _ v, seqb (val_session_id v) sessionID) (validation_results d) in
  sort_strings (remove_dups
    (map (λ kr, arf_logical_key kr.2)
         (select (λ _ a, seqb (arf_session_id a) sessionID) (artifacts d))
     ++ concat (map (λ kr, optional_list (val_normalized_key kr.2)) results)
     ++ (if existsb (λ kr, val_valid kr.2) results then [actions_key sessionID] else [])
     ++ map (λ kp, redaction_prefix sessionID kp.1 +:+ "manifest.json") plans
     ++ concat (map (λ kp, segment_keys sessionID kp.1 (rpl_document kp.2)) plans))).

Definition RequestSessionDeletion (sessionID reason0 actor requestID : string) (now : time)
    (r : random) : tx DeletionRequest :=
  let reason := TrimSpace reason0 in
  fail_if (negb (reason_length_ok reason))
    (ErrText "deletion reason must contain 3 to 2000 characters") ;;
  id <- newID "delete" r ;;
  '(organizationID, state) <- session_and_organization sessionID ;;
  fail_if (negb (deletableSessionState state)) ErrDeletionNotAllowed ;;
  d <- get ;;
  fail_if (under_hold d sessionID) ErrLegalHoldActive ;;
  fail_if (redaction_in_progress d sessionID) ErrRedactionInProgress ;;
  let keys := sessionObjectKeys d sessionID in
  on_constraint "deletion_requests_one_active_per_session" ErrDeletionPending
    (insert_deletion_request id
       {| del_organization_id := organizationID; del_session_id := sessionID;
          del_reason := reason; del_object_keys := keys; del_state := "queued";
          del_attempt := 0; del_manual_requeues := 0; del_available_at := now;
          del_leased_by := None; del_lease_expires_at := None; del_requested_by := actor;
          del_requested_at := now; del_completed_at := None; del_last_error := None;
          del_updated_at := now |}) ;;
  insertAudit (audit actor "session.deletion_requested" ("deletion-request/" +:+ id) requestID now
    {["organization_id" := organizationID; "session_id" := sessionID; "reason" := reason;
      "object_count" := Sprint (Z.of_nat (length keys))]}) ;;
  ret {| dr_ID := id; dr_OrganizationID := organizationID; dr_SessionID := sessionID;
         dr_Reason := reason; dr_State := "queued"; dr_ObjectKeys := keys; dr_Attempt := 0;
         dr_ManualRequeues := 0; dr_AvailableAt := now; dr_RequestedAt := now;
         dr_LeaseExpiresAt := 0; dr_LeasedBy := ""; dr_RequestedBy := actor; dr_LastError := "" |}.

Definition deletion_due (now : time) (_ : string) (q : deletion_request_row) : bool :=
  queue_due (del_state q) (del_available_at q) (del_lease_expires_at q) now.

Definition deletion_of (id : string) (q : deletion_request_row) : DeletionRequest :=
  {| dr_ID := id; dr_OrganizationID := del_organization_id q; dr_SessionID := del_session_id q;
     dr_Reason := del_reason q; dr_State := del_state q; dr_ObjectKeys := del_object_keys q;
     dr_Attempt := del_attempt q; dr_ManualRequeues := del_manual_requeues q;
     dr_AvailableAt := del_available_at q; dr_RequestedAt := del_requested_at q;
     dr_LeaseExpiresAt := coalesce epoch (del_lease_expires_at q);
     dr_LeasedBy := coalesce "" (del_leased_by q); dr_RequestedBy := del_requested_by q;
     dr_LastError := coalesce "" (del_last_error q) |}.

(** The request returned for a changed [State] and [LastError]. *)
Definition deletion_with (state last_error : string) (q : DeletionRequest) : DeletionRequest :=
  {| dr_ID := dr_ID q; dr_OrganizationID := dr_OrganizationID q; dr_SessionID := dr_SessionID q;
     dr_Reason := dr_Reason q; dr_State := state; dr_ObjectKeys := dr_ObjectKeys q;
     dr_Attempt := dr_Attempt q; dr_ManualRequeues := dr_ManualRequeues q;
     dr_AvailableAt := dr_AvailableAt q; dr_RequestedAt := dr_RequestedAt q;
     dr_LeaseExpiresAt := dr_LeaseExpiresAt q; dr_LeasedBy := dr_LeasedBy q;
     dr_RequestedBy := dr_RequestedBy q; dr_LastError := last_error |}.

(** Parking a request that may not run: dead-lettered or blocked. *)
Definition park_deletion (state message : string) (now : time) (q : deletion_request_row)
    : deletion_request_row :=
  update_deletion state (del_attempt q) (del_manual_requeues q) (del_available_at q) now
    None (Some message) q.

Definition lease_deletion (workerID : string) (expires now : time) (q : deletion_request_row)
    : deletion_request_row :=
  update_deletion "leased" (del_attempt q + 1) (del_manual_requeues q) (del_available_at q) now
    (Some (workerID, expires)) None q.

Definition ClaimDeletionRequest (workerID : string) (leaseDuration : Z) (now : time)
    (locked : gset string) : tx DeletionRequest :=
  d <- get ;;
  '(id, q) <- some_or (first_due del_available_at
      (λ k q, deletion_due now k q && has_row (sessions d) (del_session_id q)) locked
      (deletion_requests d)) ErrNoDeletionRequest ;;
  s <- row_of sessions (del_session_id q) ErrNoDeletionRequest ;;
  let request := deletion_of id q in
  if negb (deletableSessionState (ses_state s)) then
    let message := "session state changed to " +:+ state_string (ses_state s) in
    modify (set_deletion_requests (alter (park_deletion "dead_letter" message now) id)) ;;
    insertAudit (audit workerID "session.deletion_dead_letter" ("deletion-request/" +:+ id) id now
      {["session_id" := del_session_id q; "error" := message]}) ;;
    ret (deletion_with "dead_letter" message request)
  else if under_hold d (del_session_id q) then
    modify (set_deletion_requests (alter (park_deletion "blocked" "active legal hold" now) id)) ;;
    insertAudit (audit workerID "session.deletion_blocked" ("deletion-request/" +:+ id) id now
      {["session_id" := del_session_id q; "reason" := "active legal hold"]}) ;;
    ret (deletion_with "blocked" "active legal hold" request)
  else
    modify (set_deletion_requests (alter (lease_deletion workerID (now + leaseDuration) now) id)) ;;
    ret {| dr_ID := id; dr_OrganizationID := dr_OrganizationID request;
           dr_SessionID := dr_SessionID request; dr_Reason := dr_Reason request;
           dr_State := "leased"; dr_ObjectKeys := dr_ObjectKeys request;
           dr_Attempt := del_attempt q + 1; dr_ManualRequeues := dr_ManualRequeues request;
           dr_AvailableAt := dr_AvailableAt request; dr_RequestedAt := dr_RequestedAt request;
           dr_LeaseExpiresAt := now + leaseDuration; dr_LeasedBy := workerID;
           dr_RequestedBy := dr_RequestedBy request; dr_LastError := dr_LastError request |}.

Definition holds_deletion_lease (q : deletion_request_row) (workerID : string) : bool :=
  seqb (del_state q) "leased" && seqb (coalesce "" (del_leased_by q)) workerID.

Definition RequeueDeletionRequest (deletionID workerID message : string) (maxAttempts : Z)
    (now : time) : tx () :=
  q <- row_of deletion_requests deletionID ErrNotFound ;;
  fail_if (negb (holds_deletion_lease q workerID)) ErrDeletionLease ;;
  let attempt := del_attempt q in
  let exhausted := maxAttempts <=? attempt in
  let nextState := if exhausted then "dead_letter" else "queued" in
  let availableAt := if exhausted then now else now + backoff attempt in
  modify (set_deletion_requests (alter
    (update_deletion nextState attempt (del_manual_requeues q) availableAt now None (Some message))
    deletionID)) ;;
  insertAudit (audit workerID ("session.deletion_" +:+ nextState)
    ("deletion-request/" +:+ deletionID) deletionID now
    {["session_id" := del_session_id q; "attempt" := Sprint attempt; "error" := message]}).

Definition erase_session (now : time) (r : session_row) : session_row :=
  {| ses_assignment_id := ses_assignment_id r; ses_consent_acceptance_id := None;
     ses_state := SessionDeleted; ses_rework_of_session_id := ses_rework_of_session_id r;
     ses_created_at := ses_created_at r; ses_updated_at := now |}.

Definition complete_deletion (now : time) (q : deletion_request_row) : deletion_request_row :=
  {| del_organization_id := del_organization_id q; del_session_id := del_session_id q;
     del_reason := del_reason q; del_object_keys := del_object_keys q; del_state := "completed";
     del_attempt := del_attempt q; del_manual_requeues := del_manual_requeues q;
     del_available_at := del_available_at q; del_leased_by := None;
     del_lease_expires_at := None; del_requested_by := del_requested_by q;
     del_requested_at := del_requested_at q; del_completed_at := Some now;
     del_last_error := None; del_updated_at := now |}.

(** The eight [DELETE]s, in order; deleting the uploads cascades to their parts.
    The trigger on [redaction_plans] lets them go because the session is DELETED
    by then; the foreign keys from rows of other sessions are checked. *)
Definition delete_session_rows (sessionID : string) : tx () :=
  modify (set_review_claims (delete sessionID)) ;;
  modify (set_reviews (delete_where (λ _ r, seqb (rev_session_id r) sessionID))) ;;
  modify (set_validation_results (delete_where (λ _ v, seqb (val_session_id v) sessionID))) ;;
  modify (set_redaction_jobs (delete_where (λ _ j, seqb (rjb_session_id j) sessionID))) ;;
  d <- get ;;
  no_row redaction_jobs
    (λ _ j, match redaction_plans d !! rjb_plan_id j with
            | Some p => seqb (rpl_session_id p) sessionID
            | None => false
            end) "redaction_jobs_plan_id_fkey" ;;
  modify (set_redaction_plans (delete_where (λ _ p, seqb (rpl_session_id p) sessionID))) ;;
  let gone (id : string) :=
    match artifact_multipart_uploads d !! id with
    | Some u => seqb (mpu_session_id u) sessionID
    | None => false
    end in
  modify (set_artifact_multipart_parts (delete_where (λ k _, gone k.1))) ;;
  modify (set_artifact_multipart_uploads (delete_where (λ _ u, seqb (mpu_session_id u) sessionID))) ;;
  modify (set_artifacts (delete_where (λ _ a, seqb (arf_session_id a) sessionID))) ;;
  no_row validation_results
    (λ _ v, match processing_jobs d !! val_job_id v with
            | Some j => seqb (job_session_id j) sessionID
            | None => false
            end) "validation_results_job_id_fkey" ;;
  modify (set_processing_jobs (delete_where (λ _ j, seqb (job_session_id j) sessionID))).

Definition CompleteDeletionRequest (deletionID workerID : string) (now : time) : tx () :=
  q <- row_of deletion_requests deletionID ErrNotFound ;;
  fail_if (negb (holds_deletion_lease q workerID)) ErrDeletionLease ;;
  let sessionID := del_session_id q in
  d <- get ;;
  fail_if (under_hold d sessionID) ErrLegalHoldActive ;;
  modify (set_sessions (alter (erase_session now) sessionID)) ;;
  delete_session_rows sessionID ;;
  modify (set_deletion_requests (alter (complete_deletion now) deletionID)) ;;
  insertAudit (audit workerID "session.deleted" ("session/" +:+ sessionID) deletionID now
    {["deletion_request_id" := deletionID]}).

Definition GetDeletionRequestOrganization (d : db) (deletionID : string) : res string :=
  or_not_found (del_organization_id <$> deletion_requests d !! deletionID).

Definition retry_deletion (now : time) (q : deletion_request_row) : deletion_request_row :=
  update_deletion "queued" 0 (del_manual_requeues q + 1) now now None None q.

Definition RetryDeadLetterDeletionRequest (deletionID actor requestID : string) (now : time)
    : tx DeletionRequest :=
  q <- row_of deletion_requests deletionID ErrNotFound ;;
  fail_if (negb (seqb (del_state q) "dead_letter")) ErrDeletionNotDead ;;
  s <- row_of sessions (del_session_id q) ErrNoRows ;;
  fail_if (negb (deletableSessionState (ses_state s))) ErrDeletionNotAllowed ;;
  d <- get ;;
  fail_if (under_hold d (del_session_id q)) ErrLegalHoldActive ;;
  no_row deletion_requests
    (λ id k, negb (seqb id deletionID) && active_deletion k
             && seqb (del_session_id k) (del_session_id q))
    "deletion_requests_one_active_per_session" ;;
  modify (set_deletion_requests (alter (retry_deletion now) deletionID)) ;;
  insertAudit (audit actor "session.deletion_manual_retry" ("deletion-request/" +:+ deletionID)
    requestID now
    {["session_id" := del_session_id q; "previous_attempts" := Sprint (del_attempt q)]}) ;;
  ret {| dr_ID := deletionID; dr_OrganizationID := del_organization_id q;
         dr_SessionID := del_session_id q; dr_Reason := del_reason q; dr_State := "queued";
         dr_ObjectKeys := del_object_keys q; dr_Attempt := 0;
         dr_ManualRequeues := del_manual_requeues q + 1; dr_AvailableAt := now;
         dr_RequestedAt := del_requested_at q; dr_LeaseExpiresAt := 0; dr_LeasedBy := "";
         dr_RequestedBy := del_requested_by q; dr_LastError := "" |}.

Definition ListDeletionRequests (d : db) (organizationIDs : option (list string))
    : list DeletionRequest :=
  map (λ kr, deletion_of kr.1 kr.2)
    (merge_sort (newest_first del_requested_at)
      (select (λ _ q, in_scope organizationIDs (del_organization_id q)) (deletion_requests d))).

Definition ListActiveLegalHolds (d : db) (organizationIDs : option (list string))
    : list LegalHold :=
  map (λ kr, {| lh_ID := kr.1; lh_OrganizationID := hld_organization_id kr.2;
                lh_SessionID := hld_session_id kr.2; lh_Reason := hld_reason kr.2;
                lh_PlacedBy := hld_placed_by kr.2; lh_PlacedAt := hld_placed_at kr.2;
                lh_ReleasedBy := ""; lh_ReleasedAt := 0 |})
    (merge_sort (newest_first hld_placed_at)
      (select (λ _ h, active_hold h && in_scope organizationIDs (hld_organization_id h))
              (legal_holds d))).

(** ** Retention policies ([retention.go]) *)

Definition policy_of (organizationID : string) (p : retention_policy_row) : RetentionPolicy :=
  {| rp_OrganizationID := organizationID; rp_RawDays := pol_raw_days p;
     rp_DerivedDays := pol_derived_days p; rp_ReleaseDays := pol_release_days p;
     rp_UpdatedBy := pol_updated_by p; rp_CreatedAt := pol_created_at p;
     rp_UpdatedAt := pol_updated_at p |}.

Definition GetRetentionPolicy (d : db) (organizationID : string) : res RetentionPolicy :=
  or_not_found (policy_of organizationID <$> retention_policies d !! organizationID).

Definition policy_days_ok (n : Z) : bool := (1 <=? n) && (n <=? 3650).

Definition UpsertRetentionPolicy (policy : RetentionPolicy) (actor requestID : string) (now : time)
    : tx RetentionPolicy :=
  let org := rp_OrganizationID policy in
  fail_if (is_empty org || negb (policy_days_ok (rp_RawDays policy))
           || negb (policy_days_ok (rp_DerivedDays policy))
           || negb (policy_days_ok (rp_ReleaseDays policy))) ErrInvalidRetentionPolicy ;;
  purgeLeased <- exists_in retention_purge_requests
    (λ _ q, seqb (prg_organization_id q) org && seqb (prg_state q) "leased") ;;
  fail_if purgeLeased ErrRetentionPurgeInProgress ;;
  references organizations org "retention_policies_organization_id_fkey" ;;
  d <- get ;;
  let created := match retention_policies d !! org with
                 | Some p => pol_created_at p
                 | None => now
                 end in
  modify (set_retention_policies <[org :=
    {| pol_raw_days := rp_RawDays policy; pol_derived_days := rp_DerivedDays policy;
       pol_release_days := rp_ReleaseDays policy; pol_updated_by := actor;
       pol_created_at := created; pol_updated_at := now |}]>) ;;
  insertAudit (audit actor "retention_policy.updated" ("organization/" +:+ org) requestID now
    {["raw_days" := Sprint (rp_RawDays policy); "derived_days" := Sprint (rp_DerivedDays policy);
      "release_days" := Sprint (rp_ReleaseDays policy)]}) ;;
  ret {| rp_OrganizationID := org; rp_RawDays := rp_RawDays policy;
         rp_DerivedDays := rp_DerivedDays policy; rp_ReleaseDays := rp_ReleaseDays policy;
         rp_UpdatedBy := actor; rp_CreatedAt := created; rp_UpdatedAt := now |}.

(** ** What an erasure leaves *)

(** The rows of the owner are gone and all others stand. *)
Definition rows_erased {K R} `{Countable K} (owner : R → string) (sessionID : string)
    (m m' : gmap K R) : Prop :=
  ∀ k r, m' !! k = Some r ↔ m !! k = Some r ∧ owner r ≠ sessionID.

Lemma delete_where_erased {R} (owner : R → string) sessionID (m : gmap string R) :
  rows_erased owner sessionID m (delete_where (λ _ r, seqb (owner r) sessionID) m).
Proof.
  intros k r. rewrite lookup_delete_where. destruct (m !! k) as [q|]; [|naive_solver].
  destruct (seqb (owner q) sessionID) eqn:E.
  - apply seqb_true in E. naive_solver.
  - apply seqb_false in E. naive_solver.
Qed.

Definition session_data_erased (sessionID : string) (d d' : db) : Prop :=
  review_claims d' = delete sessionID (review_claims d) ∧
  rows_erased rev_session_id sessionID (reviews d) (reviews d') ∧
  rows_erased val_session_id sessionID (validation_results d) (validation_results d') ∧
  rows_erased rjb_session_id sessionID (redaction_jobs d) (redaction_jobs d') ∧
  rows_erased rpl_session_id sessionID (redaction_plans d) (redaction_plans d') ∧
  rows_erased mpu_session_id sessionID (artifact_multipart_uploads d) (artifact_multipart_uploads d') ∧
  rows_erased arf_session_id sessionID (artifacts d) (artifacts d') ∧
  rows_erased job_session_id sessionID (processing_jobs d) (processing_jobs d').

Lemma delete_session_rows_ok sessionID d u d' :
  delete_session_rows sessionID d = Ok (u, d') →
  session_data_erased sessionID d d' ∧ sessions d' = sessions d ∧
  deletion_requests d' = deletion_requests d ∧ consent_acceptances d' = consent_acceptances d ∧
  release_sessions d' = release_sessions d ∧ audit_events d' = audit_events d.
Proof.
  unfold delete_session_rows. intros H. insert_inv. unfold session_data_erased. db_simpl.
  split_and!; try done; apply delete_where_erased.
Qed.

Lemma deletion_lease_true q workerID :
  holds_deletion_lease q workerID = true ↔
  del_state q = "leased" ∧ coalesce "" (del_leased_by q) = workerID.
Proof. unfold holds_deletion_lease. by rewrite andb_true_iff, !seqb_true. Qed.

(** Redaction jobs and validation results belong to the session of the plan or job
    they refer to. *)
Definition owned_references (sessionID : string) (d : db) : Prop :=
  (∀ k j p, redaction_jobs d !! k = Some j → redaction_plans d !! rjb_plan_id j = Some p →
            rpl_session_id p = sessionID → rjb_session_id j = sessionID) ∧
  (∀ k v j, validation_results d !! k = Some v → processing_jobs d !! val_job_id v = Some j →
            job_session_id j = sessionID → val_session_id v = sessionID).

Lemma delete_session_rows_total sessionID d :
  owned_references sessionID d → ∃ d', delete_session_rows sessionID d = Ok ((), d').
Proof.
  intros [H1 H2]. unfold delete_session_rows. op_run. db_simpl.
  destruct (exists_row _ (delete_where _ (redaction_jobs d))) eqn:E1.
  { apply exists_row_spec in E1 as (k & j & [Hj Hn]%delete_where_erased & Hp).
    destruct (redaction_plans d !! rjb_plan_id j) as [p|] eqn:Hpl; [|done].
    apply seqb_true in Hp. by destruct Hn, (H1 k j p). }
  op_run. db_simpl.
  destruct (exists_row _ (delete_where _ (validation_results d))) eqn:E2.
  { apply exists_row_spec in E2 as (k & v & [Hv Hn]%delete_where_erased & Hp).
    destruct (processing_jobs d !! val_job_id v) as [j|] eqn:Hj; [|done].
    apply seqb_true in Hp. by destruct Hn, (H2 k v j). }
  op_run. eauto.
Qed.

Lemma CompleteDeletionRequest_total deletionID workerID now d q :
  deletion_requests d !! deletionID = Some q →
  del_state q = "leased" → coalesce "" (del_leased_by q) = workerID →
  under_hold d (del_session_id q) = false → owned_references (del_session_id q) d →
  ∃ d', CompleteDeletionRequest deletionID workerID now d = Ok ((), d').
Proof.
  intros Hq H1 H2 H3 Ho. unfold CompleteDeletionRequest. op_run. rewrite Hq. op_run.
  rewrite (proj2 (deletion_lease_true q workerID)) by done. cbn [negb]. rewrite H3. op_run.
  destruct (delete_session_rows_total (del_session_id q)
              (set_sessions (alter (erase_session now) (del_session_id q)) d) Ho) as [d' Hd'].
  erewrite bind_run; [|exact Hd']. op_run. eauto.
Qed.

Lemma CompleteDeletionRequest_ok deletionID workerID now d q d' :
  deletion_requests d !! deletionID = Some q →
  CompleteDeletionRequest deletionID workerID now d = Ok ((), d') →
  sessions d' = alter (erase_session now) (del_session_id q) (sessions d) ∧
  session_data_erased (del_session_id q) d d' ∧
  consent_acceptances d' = consent_acceptances d ∧ release_sessions d' = release_sessions d ∧
  deletion_requests d' = <[deletionID := complete_deletion now q]> (deletion_requests d).
Proof.
  intros Hq H. unfold CompleteDeletionRequest in H. stmt_inv. rewrite Hq in *. simplify_eq.
  match goal with H : delete_session_rows _ _ = _ |- _ => apply delete_session_rows_ok in H
    as (He & Hs & Hd & Hc & Hr & _) end.
  split_and!; try done. db_simpl. rewrite Hd. by apply alter_as_insert.
Qed.

(** C23: a completed erasure is complete.  Only the worker that holds the lease
    completes a request, and never while the session is under legal hold; it then
    succeeds on every database whose redaction jobs and validation results belong
    to the session of their plan or job.  Afterwards the session row is DELETED
    and detached from its consent, no row of the session is left among review
    claims, reviews, validation results, redaction jobs and plans, uploads,
    artifacts and processing jobs, every row of another session stands, and the
    record that the contributor accepted the consent terms is kept. *)
Theorem complete_erasure deletionID workerID now d q :
  deletion_requests d !! deletionID = Some q →
  (¬ (del_state q = "leased" ∧ coalesce "" (del_leased_by q) = workerID) →
   CompleteDeletionRequest deletionID workerID now d = Err ErrDeletionLease) ∧
  (del_state q = "leased" → coalesce "" (del_leased_by q) = workerID →
   under_hold d (del_session_id q) = true →
   CompleteDeletionRequest deletionID workerID now d = Err ErrLegalHoldActive) ∧
  (del_state q = "leased" → coalesce "" (del_leased_by q) = workerID →
   under_hold d (del_session_id q) = false → owned_references (del_session_id q) d →
   ∃ d', CompleteDeletionRequest deletionID workerID now d = Ok ((), d')) ∧
  (∀ d', CompleteDeletionRequest deletionID workerID now d = Ok ((), d') →
   sessions d' = alter (erase_session now) (del_session_id q) (sessions d) ∧
   session_data_erased (del_session_id q) d d' ∧
   consent_acceptances d' = consent_acceptances d ∧ release_sessions d' = release_sessions d ∧
   deletion_requests d' = <[deletionID := complete_deletion now q]> (deletion_requests d)).
Proof.
  intros Hq. split; [|split; [|split]].
  - intros Hn. unfold CompleteDeletionRequest. op_run. rewrite Hq. op_run.
    destruct (holds_deletion_lease q workerID) eqn:E; [|done].
    by apply deletion_lease_true in E.
  - intros H1 H2 H3. unfold CompleteDeletionRequest. op_run. rewrite Hq. op_run.
    rewrite (proj2 (deletion_lease_true q workerID)) by done. cbn [negb]. by rewrite H3.
  - intros. by eapply CompleteDeletionRequest_total.
  - intros d'. by apply CompleteDeletionRequest_ok.
Qed.

Definition leased_deletion : deletion_request_row :=
  {| del_organization_id := "org_1"; del_session_id := "sess_1"; del_reason := "asked";
     del_object_keys := []; del_state := "leased"; del_attempt := 1; del_manual_requeues := 0;
     del_available_at := 1; del_leased_by := Some "worker"; del_lease_expires_at := Some 9;
     del_requested_by := "admin"; del_requested_at := 1; del_completed_at := None;
     del_last_error := None; del_updated_at := 1 |}.

Lemma complete_erasure_witness :
  let d := set_deletion_requests <["delete_1" := leased_deletion]> redactable_db in
  ∃ d', CompleteDeletionRequest "delete_1" "worker" 7 d = Ok ((), d') ∧
    session_data_erased "sess_1" d d' ∧ artifacts d' = ∅ ∧
    sessions d' = <["sess_1" := erase_session 7 accepted_session]> ∅.
Proof.
  intros d. destruct (complete_erasure "delete_1" "worker" 7 d leased_deletion eq_refl)
    as (_ & _ & Hrun & Hok).
  destruct Hrun as [d' Hd']; [reflexivity|reflexivity|vm_compute; reflexivity| |].
  { split; intros k x y Hk; cbn in Hk; by rewrite lookup_empty in Hk. }
  exists d'. split; [exact Hd'|]. destruct (Hok d' Hd') as (Hs & He & _).
  split; [exact He|]. split.
  - clear -Hd'. vm_compute in Hd'. injection Hd' as <-. vm_compute. reflexivity.
  - rewrite Hs. vm_compute. reflexivity.
Defined.

(** ** Requests and claims *)

Lemma sessionObjectKeys_NoDup d sessionID : NoDup (sessionObjectKeys d sessionID).
Proof.
  unfold sessionObjectKeys. cbv zeta. rewrite sort_strings_Permutation. apply NoDup_remove_dups.
Qed.

(** The objects an erasure must delete. *)
Inductive session_object (d : db) (sessionID : string) : string → Prop :=
| object_artifact k a :
    artifacts d !! k = Some a → arf_session_id a = sessionID →
    session_object d sessionID (arf_logical_key a)
| object_normalized k v key :
    validation_results d !! k = Some v → val_session_id v = sessionID →
    val_normalized_key v = Some key → session_object d sessionID key
| object_actions k v :
    validation_results d !! k = Some v → val_session_id v = sessionID → val_valid v = true →
    session_object d sessionID (actions_key sessionID)
| object_manifest k j planID p :
    redaction_jobs d !! k = Some j → rjb_plan_id j = planID →
    rjb_state j ∈ ["completed"; "dead_letter"] → rjb_purged_at j = None →
    redaction_plans d !! planID = Some p → rpl_session_id p = sessionID →
    session_object d sessionID (redaction_prefix sessionID planID +:+ "manifest.json")
| object_segment k j planID p s :
    redaction_jobs d !! k = Some j → rjb_plan_id j = planID →
    rjb_state j ∈ ["completed"; "dead_letter"] → rjb_purged_at j = None →
    redaction_plans d !! planID = Some p → rpl_session_id p = sessionID →
    s ∈ rd_Segments (rpl_document p) →
    session_object d sessionID (redaction_prefix sessionID planID +:+ sg_SegmentID s +:+ ".mp4").

Lemma plan_has_objects_spec states d planID :
  plan_has_objects states d planID = true ↔
  ∃ k j, redaction_jobs d !! k = Some j ∧ rjb_plan_id j = planID ∧ rjb_state j ∈ states ∧
         rjb_purged_at j = None.
Proof.
  unfold plan_has_objects. rewrite exists_row_spec.
  setoid_rewrite andb_true_iff. setoid_rewrite andb_true_iff. setoid_rewrite seqb_true.
  setoid_rewrite oneof_true. setoid_rewrite bool_decide_eq_true. naive_solver.
Qed.

Lemma elem_of_concat_map {A B} (f : A → list B) l y :
  y ∈ concat (map f l) ↔ ∃ x, x ∈ l ∧ y ∈ f x.
Proof.
  rewrite !list_elem_of_In, in_concat. setoid_rewrite in_map_iff.
  setoid_rewrite list_elem_of_In. naive_solver.
Qed.

(** The objects recorded for an erasure, before the rows that name them are
    deleted, are sorted, without repetition, and are exactly the session's
    artifacts, its normalized trajectories, its action log when a validation
    succeeded, and the manifest and segments of every redaction whose job finished
    or was dead-lettered and is not purged. *)
Theorem erasure_object_keys d sessionID :
  StronglySorted String.le (sessionObjectKeys d sessionID) ∧
  NoDup (sessionObjectKeys d sessionID) ∧
  (∀ key, key ∈ sessionObjectKeys d sessionID ↔ session_object d sessionID key).
Proof.
  split; [apply sort_strings_sorted|]. split; [apply sessionObjectKeys_NoDup|]. intros key.
  unfold sessionObjectKeys. cbv zeta.
  rewrite sort_strings_Permutation, elem_of_remove_dups, !elem_of_app.
  rewrite !elem_of_concat_map, !list_elem_of_fmap. split.
  - intros [([k a] & -> & [Hk Ha%seqb_true]%select_spec)
           |[([k v] & [Hk Hv%seqb_true]%select_spec & Hin)
           |[Hin|[([k p] & -> & [Hk Hp]%select_spec)|([k p] & [Hk Hp]%select_spec & Hin)]]]].
    + by eapply object_artifact.
    + cbn in Hin. destruct (val_normalized_key v) as [x|] eqn:Hx; cbn in Hin; [|by apply elem_of_nil in Hin].
      apply list_elem_of_singleton in Hin as ->. by eapply object_normalized.
    + destruct (existsb _ _) eqn:He; [|by apply elem_of_nil in Hin].
      apply list_elem_of_singleton in Hin as ->.
      apply existsb_exists in He as ([k v] & [Hk Hv%seqb_true]%list_elem_of_In%select_spec & Hval).
      by eapply object_actions.
    + apply andb_true_iff in Hp as [Hp%seqb_true (k' & j & ? & ? & ? & ?)%plan_has_objects_spec].
      by eapply object_manifest.
    + apply andb_true_iff in Hp as [Hp%seqb_true (k' & j & ? & ? & ? & ?)%plan_has_objects_spec].
      unfold segment_keys in Hin. apply list_elem_of_fmap in Hin as (s & -> & Hs).
      by eapply object_segment.
  - intros Hobj. destruct Hobj as [k a Hk Ha|k v key Hk Hv Hn|k v Hk Hv Hval
                                   |k j planID p Hk Hj Hst Hpu Hp Hs|k j planID p s Hk Hj Hst Hpu Hp Hs Hin].
    + left. exists (k, a). split; [done|]. apply select_spec. by rewrite seqb_true.
    + right. left. exists (k, v). split; [apply select_spec; by rewrite seqb_true|].
      cbn. rewrite Hn. by left.
    + right. right. left. rewrite (proj2 (existsb_exists _ _)); [by left|].
      exists (k, v). split; [|done]. apply list_elem_of_In, select_spec. by rewrite seqb_true.
    + right. right. right. left. exists (planID, p). split; [done|]. apply select_spec. split; [done|].
      apply andb_true_iff. rewrite seqb_true, plan_has_objects_spec. eauto 10.
    + right. right. right. right. exists (planID, p). split.
      * apply select_spec. split; [done|]. apply andb_true_iff.
        rewrite seqb_true, plan_has_objects_spec. eauto 10.
      * apply list_elem_of_fmap. eauto.
Qed.

Definition claimable_deletion (d : db) (now : time) (k : string) (q : deletion_request_row) : bool :=
  deletion_due now k q && has_row (sessions d) (del_session_id q).

(** The row a failed attempt leaves behind. *)
Definition requeued_deletion (message : string) (maxAttempts : Z) (now : time)
    (q : deletion_request_row) : deletion_request_row :=
  let attempt := del_attempt q in
  let exhausted := maxAttempts <=? attempt in
  update_deletion (if exhausted then "dead_letter" else "queued") attempt (del_manual_requeues q)
    (if exhausted then now else now + backoff attempt) now None (Some message) q.

Lemma RequeueDeletionRequest_run deletionID workerID message maxAttempts now d q :
  deletion_requests d !! deletionID = Some q →
  del_state q = "leased" → coalesce "" (del_leased_by q) = workerID →
  ∃ e, RequeueDeletionRequest deletionID workerID message maxAttempts now d
    = Ok ((), set_audit_events (λ a, a ++ [e])
        (set_deletion_requests <[deletionID := requeued_deletion message maxAttempts now q]> d)).
Proof.
  intros Hq H1 H2. unfold RequeueDeletionRequest. op_run. rewrite Hq. op_run.
  rewrite (proj2 (deletion_lease_true q workerID)) by done. cbn [negb].
  eexists. unfold insertAudit, modify, requeued_deletion, set_deletion_requests.
  by rewrite (alter_as_insert _ _ _ q Hq).
Qed.

(** The row a claim leaves behind. *)
Definition claimed_deletion (workerID : string) (leaseDuration : Z) (now : time) (d : db)
    (s : session_row) (q : deletion_request_row) : deletion_request_row :=
  if negb (deletableSessionState (ses_state s))
  then park_deletion "dead_letter" ("session state changed to " +:+ state_string (ses_state s)) now q
  else if under_hold d (del_session_id q) then park_deletion "blocked" "active legal hold" now q
  else lease_deletion workerID (now + leaseDuration) now q.

Lemma ClaimDeletionRequest_run workerID leaseDuration now locked d id q s :
  earliest del_available_at (claimable_deletion d now) locked (deletion_requests d) id q →
  sessions d !! del_session_id q = Some s →
  ∃ request l, ClaimDeletionRequest workerID leaseDuration now locked d
      = Ok (request, set_audit_events (λ a, a ++ l)
          (set_deletion_requests <[id := claimed_deletion workerID leaseDuration now d s q]> d)) ∧
    dr_ID request = id ∧ dr_ObjectKeys request = del_object_keys q ∧
    dr_State request = del_state (claimed_deletion workerID leaseDuration now d s q).
Proof.
  intros He%first_due_earliest Hs. pose proof (first_due_some _ _ _ _ _ _ He) as (Hq & _).
  unfold ClaimDeletionRequest, claimed_deletion. op_run. unfold claimable_deletion in He.
  rewrite He. op_run. rewrite Hs. op_run.
  assert (Halter : ∀ f, set_deletion_requests (alter f id) d = set_deletion_requests <[id := f q]> d).
  { intros f. unfold set_deletion_requests. f_equal. by apply alter_as_insert. }
  destruct (negb _); [|destruct (under_hold _ _)]; op_run; rewrite Halter.
  - eexists _, [_]. split; [reflexivity|done].
  - eexists _, [_]. split; [reflexivity|done].
  - eexists _, []. split.
    + unfold ret, set_audit_events. cbn. by rewrite app_nil_r.
    + done.
Qed.

(** Claiming an erasure.  Nothing due is reported as such.  The earliest due
    request that nobody has locked is taken; by the session as it is now, it is
    dead-lettered when the session has moved to a state that may not be erased,
    blocked when a legal hold is active, and otherwise leased to the worker with
    one more attempt, so a hold placed after the request still prevents it. *)
Theorem claim_deletion_cases workerID leaseDuration now locked d :
  (first_due del_available_at (claimable_deletion d now) locked (deletion_requests d) = None →
   ClaimDeletionRequest workerID leaseDuration now locked d = Err ErrNoDeletionRequest) ∧
  (∀ id q s,
   earliest del_available_at (claimable_deletion d now) locked (deletion_requests d) id q →
   sessions d !! del_session_id q = Some s →
   ∃ request d', ClaimDeletionRequest workerID leaseDuration now locked d = Ok (request, d') ∧
     dr_ID request = id ∧ sessions d' = sessions d ∧
     deletion_requests d' = <[id :=
       if negb (deletableSessionState (ses_state s))
       then park_deletion "dead_letter" ("session state changed to " +:+ state_string (ses_state s)) now q
       else if under_hold d (del_session_id q) then park_deletion "blocked" "active legal hold" now q
       else lease_deletion workerID (now + leaseDuration) now q]> (deletion_requests d) ∧
     del_state <$> deletion_requests d' !! id = Some (dr_State request)).
Proof.
  unfold ClaimDeletionRequest. split.
  - intros Hn. op_run. unfold claimable_deletion in Hn. by rewrite Hn.
  - intros id q s He Hs.
    destruct (ClaimDeletionRequest_run workerID leaseDuration now locked d id q s He Hs)
      as (r & l & Hrun & H1 & _ & H2). unfold ClaimDeletionRequest in Hrun. rewrite Hrun.
    eexists _, _. split; [reflexivity|]. db_simpl. rewrite lookup_insert_eq. cbn [fmap option_fmap option_map].
    by rewrite H2.
Qed.

Definition queued_deletion : deletion_request_row :=
  update_deletion "queued" 0 0 1 1 None None leased_deletion.
Definition sample_hold : legal_hold_row :=
  {| hld_organization_id := "org_1"; hld_session_id := "sess_1"; hld_reason := "litigation";
     hld_placed_by := "admin"; hld_placed_at := 2; hld_released_by := None; hld_released_at := None |}.

Lemma claim_deletion_cases_witness :
  let d := set_legal_holds <["hold_1" := sample_hold]>
             (set_deletion_requests <["delete_1" := queued_deletion]> redactable_db) in
  ∃ request d', ClaimDeletionRequest "worker" 50 7 ∅ d = Ok (request, d') ∧
    deletion_requests d' = <["delete_1" := park_deletion "blocked" "active legal hold" 7
                                              queued_deletion]> (deletion_requests d).
Proof.
  intros d. destruct (claim_deletion_cases "worker" 50 7 ∅ d) as [_ H].
  destruct (H "delete_1" queued_deletion accepted_session) as (r & d' & H1 & _ & _ & H2 & _).
  - apply first_due_earliest. vm_compute. reflexivity.
  - reflexivity.
  - exists r, d'. split; [exact H1|]. rewrite H2. reflexivity.
Defined.

(** Asking for an erasure.  For a session of an organization and a reason of
    acceptable length, the request is refused when the session's state does not
    allow it, when a legal hold is active, when a redaction is queued or running,
    and when another request is active; otherwise it is queued with the
    objects of the session.  A refused request changes nothing. *)
Theorem request_deletion_cases sessionID reason0 actor requestID now bytes d s a :
  let reason := TrimSpace reason0 in
  let request := RequestSessionDeletion sessionID reason0 actor requestID now (Some bytes) d in
  let id := "delete_" +:+ EncodeToString bytes in
  let active := exists_row (λ _ q, active_deletion q && seqb (del_session_id q) sessionID)
                  (deletion_requests d) in
  reason_length_ok reason = true → 3 ≤ char_length reason ≤ 2000 →
  sessions d !! sessionID = Some s → session_access d sessionID = Some a →
  has_row (organizations d) (sa_OrganizationID a) = true → deletion_requests d !! id = None →
  if negb (deletableSessionState (ses_state s)) then request = Err ErrDeletionNotAllowed
  else if under_hold d sessionID then request = Err ErrLegalHoldActive
  else if redaction_in_progress d sessionID then request = Err ErrRedactionInProgress
  else if active then request = Err ErrDeletionPending
  else ∃ r d', request = Ok (r, d') ∧ dr_ID r = id ∧ sessions d' = sessions d ∧
    deletion_requests d' = <[id :=
      {| del_organization_id := sa_OrganizationID a; del_session_id := sessionID;
         del_reason := reason; del_object_keys := sessionObjectKeys d sessionID;
         del_state := "queued"; del_attempt := 0; del_manual_requeues := 0;
         del_available_at := now; del_leased_by := None; del_lease_expires_at := None;
         del_requested_by := actor; del_requested_at := now; del_completed_at := None;
         del_last_error := None; del_updated_at := now |}]> (deletion_requests d).
Proof.
  intros reason request id active Hlen Hchars Hs Ha Horg Hid. subst request.
  unfold RequestSessionDeletion, newID, session_and_organization. fold reason. op_run.
  rewrite Hlen. op_run. rewrite New_bytes by done. op_run. rewrite Hs. op_run. rewrite Ha. op_run.
  destruct (negb (deletableSessionState _)); [done|].
  destruct (under_hold d sessionID); [done|]. destruct (redaction_in_progress d sessionID); [done|].
  cbn [negb]. op_run. change ("delete" +:+ "_" +:+ EncodeToString bytes) with id.
  match goal with |- context [insert_deletion_request id ?r] => set (row := r) end.
  assert (Hins : insert_deletion_request id row d =
                 if active then Err (ErrConstraint "deletion_requests_one_active_per_session")
                 else Ok ((), set_deletion_requests <[id := row]> d)).
  { unfold insert_deletion_request. rewrite bind_fresh_key by done.
    rewrite bind_references by (by apply bool_decide_eq_true in Horg).
    rewrite bind_references by eauto. rewrite bind_check. cbn [del_reason row].
    rewrite (proj2 (Z.leb_le _ _)), (proj2 (Z.leb_le _ _)) by lia. cbn [andb].
    rewrite bind_no_row. unfold active. cbn. by destruct (exists_row _ _). }
  destruct active.
  - unfold bind. by rewrite (on_constraint_hit _ _ _ _ Hins).
  - erewrite bind_run; [|by apply on_constraint_run]. op_run. eauto 10.
Qed.

(** One organization with a task assigned to a contributor, over the rows of [d]. *)
Definition with_task (d : db) : db :=
  set_organizations <["org_1" := {| org_name := "o"; org_created_at := 1 |}]>
  (set_projects <["project_1" := {| prj_organization_id := "org_1"; prj_name := "p";
                                    prj_target_trajectories := 1; prj_created_at := 1 |}]>
  (set_task_templates <["template_1" :=
     {| tpl_project_id := "project_1"; tpl_name := "t"; tpl_goal := "g"; tpl_category := "c";
        tpl_difficulty := "d"; tpl_specification := "{}"; tpl_created_at := 1 |}]>
  (set_tasks <["task_1" := {| tsk_template_id := "template_1"; tsk_goal := "g";
                              tsk_input_assets := "[]"; tsk_expected_outputs := "[]";
                              tsk_created_at := 1 |}]>
  (set_assignments <["assign_1" := {| asg_task_id := "task_1"; asg_contributor_id := "contributor_1";
                                      asg_created_at := 1 |}]> d)))).

Lemma request_deletion_cases_witness :
  ∃ r d', RequestSessionDeletion "sess_1" " asked " "admin" "req" 9 (Some [x0a]) (with_task redactable_db)
            = Ok (r, d') ∧ dr_ID r = "delete_0a" ∧ sessions d' = sessions redactable_db.
Proof.
  pose proof (request_deletion_cases "sess_1" " asked " "admin" "req" 9 [x0a] (with_task redactable_db)
    accepted_session {| sa_OrganizationID := "org_1"; sa_ContributorID := "contributor_1" |}) as H.
  cbv zeta in H.
  destruct H as (r & d' & H1 & H2 & H3 & _);
    [vm_compute; reflexivity|vm_compute; split; discriminate|reflexivity..|].
  exists r, d'. split; [exact H1|]. split; [exact H2|exact H3].
Defined.
