(* ===== verification/Retention.v ===== *)
(** * Governed retention expiry ([database/retention_expiry.go])

    Sessions and releases past the retention period of their organization are
    queued for purging; a worker leases each request after rechecking policy,
    eligibility and legal holds, deletes the objects and marks the rows purged. *)

From S2P Require Import Prelude Domain Schema Frame Store Redaction Erasure.

Record retentionCandidate := {
  cand_organizationID : string; cand_resourceType : string; cand_resourceID : string;
  cand_policyUpdatedAt : time; cand_objectKeys : list string
}.

(** ** Candidates *)

Definition raw_states : list SessionState :=
  [SessionAccepted; SessionReleased; SessionFailed; SessionRejected; SessionReworkRequired;
   SessionCancelled].
Definition derived_states : list SessionState :=
  [SessionReleased; SessionFailed; SessionRejected; SessionReworkRequired; SessionCancelled].

(** [now - days * interval '1 day'], in UTC *)
Definition cutoff (now : time) (days : Z) : time := now - days * day.

(** A request for the resource in one of [states] exists. *)
Definition purge_exists (states : list string) (d : db) (resourceType resourceID : string) : bool :=
  exists_row (λ _ q, seqb (prg_resource_type q) resourceType && seqb (prg_resource_id q) resourceID
                     && oneof (prg_state q) states) (retention_purge_requests d).
Definition already_queued := purge_exists ["queued"; "leased"; "blocked"; "completed"].

Definition live_artifacts (d : db) (sessionID : string) : list (string * artifact_row) :=
  select (λ _ a, seqb (arf_session_id a) sessionID && bool_decide (arf_purged_at a = None))
    (artifacts d).
Definition live_results (d : db) (sessionID : string) : list (string * validation_result_row) :=
  select (λ _ v, seqb (val_session_id v) sessionID && val_valid v
                 && bool_decide (val_purged_at v = None)) (validation_results d).
Definition live_redactions (d : db) (sessionID : string) : list (string * redaction_job_row) :=
  select (λ _ j, seqb (rjb_session_id j) sessionID && seqb (rjb_state j) "completed"
                 && bool_decide (rjb_purged_at j = None)) (redaction_jobs d).

(** [COALESCE((SELECT max(finished_at) ...), 'epoch')] *)
Definition last_redaction (d : db) (sessionID : string) : time :=
  match concat (map (λ kr, optional_list (rjb_finished_at kr.2)) (live_redactions d sessionID)) with
  | [] => epoch
  | t :: l => foldr Z.max t l
  end.
Definition derived_anchor (d : db) (sessionID : string) (s : session_row)
    (v : validation_result_row) : time :=
  Z.max (val_created_at v) (Z.max (ses_updated_at s) (last_redaction d sessionID)).

Definition derived_keys (d : db) (sessionID : string) (results : list (string * validation_result_row))
    : list string :=
  concat (map (λ kr, optional_list (val_normalized_key kr.2)) results)
  ++ [actions_key sessionID]
  ++ concat (map (λ kr, optional_list (rjb_output_manifest_key kr.2)) (live_redactions d sessionID))
  ++ concat (map (λ kp, segment_keys sessionID kp.1 (rpl_document kp.2))
       (select (λ planID p, seqb (rpl_session_id p) sessionID
                            && plan_has_objects ["completed"] d planID) (redaction_plans d))).

Definition sorted_distinct (l : list string) : list string := sort_strings (remove_dups l).

(** The row of the grouped query for one session; [None] when it has none. *)
Definition session_candidate (resourceType : string) (derived : bool) (d : db) (now : time)
    (sessionID : string) (s : session_row) : option retentionCandidate :=
  a ← session_access d sessionID;
  p ← retention_policies d !! sa_OrganizationID a;
  let days := if derived then pol_derived_days p else pol_raw_days p in
  let states := if derived then derived_states else raw_states in
  let results := List.filter
    (λ kr, derived_anchor d sessionID s kr.2 <=? cutoff now days) (live_results d sessionID) in
  let raw := live_artifacts d sessionID in
  if bool_decide (ses_state s ∈ states)
     && negb (under_hold d sessionID) && negb (already_queued d resourceType sessionID)
     && (if derived then negb (Nat.eqb (length results) 0)
         else negb (Nat.eqb (length raw) 0) && (ses_updated_at s <=? cutoff now days))
  then Some {| cand_organizationID := sa_OrganizationID a; cand_resourceType := resourceType;
               cand_resourceID := sessionID; cand_policyUpdatedAt := pol_updated_at p;
               cand_objectKeys := sorted_distinct
                 (if derived then derived_keys d sessionID results
                  else map (λ kr, arf_logical_key kr.2) raw) |}
  else None.

Definition release_under_hold (d : db) (releaseID : string) : bool :=
  exists_row (λ sessionID rs, seqb (rls_release_id rs) releaseID && under_hold d sessionID)
    (release_sessions d).

Definition release_candidate (d : db) (now : time) (releaseID : string) (r : dataset_release_row)
    : option retentionCandidate :=
  organizationID ← project_organization d (drl_project_id r);
  p ← retention_policies d !! organizationID;
  if bool_decide (drl_purged_at r = None)
     && (drl_created_at r <=? cutoff now (pol_release_days p))
     && negb (release_under_hold d releaseID) && negb (already_queued d "release" releaseID)
  then Some {| cand_organizationID := organizationID; cand_resourceType := "release";
               cand_resourceID := releaseID; cand_policyUpdatedAt := pol_updated_at p;
               cand_objectKeys := drl_object_keys r |}
  else None.

Definition candidate_le (x y : retentionCandidate) : Prop :=
  String.le (cand_resourceID x) (cand_resourceID y).
#[export] Instance candidate_le_dec : RelDecision candidate_le.
Proof. intros x y. unfold candidate_le. apply _. Defined.

(** [ORDER BY id LIMIT limit-len(candidates)] appended to what is there. *)
Definition append_candidates {R} (row : string → R → option retentionCandidate) (limit : Z)
    (m : gmap string R) (candidates : list retentionCandidate) : list retentionCandidate :=
  candidates ++ take (Z.to_nat limit - length candidates)
    (merge_sort candidate_le (concat (map (λ kr, optional_list (row kr.1 kr.2)) (map_to_list m)))).

Definition expired_candidates (d : db) (now : time) (limit : Z) : list retentionCandidate :=
  append_candidates (release_candidate d now) limit (dataset_releases d)
    (append_candidates (session_candidate "session_derived" true d now) limit (sessions d)
      (append_candidates (session_candidate "session_raw" false d now) limit (sessions d) [])).

(** ** Queueing *)

Definition active_purge (q : retention_purge_row) : bool :=
  oneof (prg_state q) ["queued"; "leased"; "blocked"].

Definition candidate_row (c : retentionCandidate) (now : time) : retention_purge_row :=
  {| prg_organization_id := cand_organizationID c; prg_resource_type := cand_resourceType c;
     prg_resource_id := cand_resourceID c; prg_policy_updated_at := cand_policyUpdatedAt c;
     prg_object_keys := cand_objectKeys c; prg_state := "queued"; prg_attempt := 0;
     prg_available_at := now; prg_leased_by := None; prg_lease_expires_at := None;
     prg_requested_at := now; prg_completed_at := None; prg_last_error := None;
     prg_updated_at := now |}.

(** [ON CONFLICT DO NOTHING]: the key and the unique index on active requests. *)
Definition purge_conflict (d : db) (id : string) (c : retentionCandidate) : bool :=
  has_row (retention_purge_requests d) id
  || exists_row (λ _ q, active_purge q && seqb (prg_resource_type q) (cand_resourceType c)
                        && seqb (prg_resource_id q) (cand_resourceID c))
       (retention_purge_requests d).

Definition queue_candidate (actor : string) (now : time) (r : random) (c : retentionCandidate)
    : tx Z :=
  id <- newID "retention" r ;;
  d <- get ;;
  if purge_conflict d id c then ret 0
  else
    references organizations (cand_organizationID c) "retention_purge_requests_organization_id_fkey" ;;
    modify (set_retention_purge_requests <[id := candidate_row c now]>) ;;
    insertAudit (audit actor "retention.purge_queued" ("retention-purge/" +:+ id) id now
      {["organization_id" := cand_organizationID c; "resource_type" := cand_resourceType c;
        "resource_id" := cand_resourceID c;
        "object_count" := Sprint (Z.of_nat (length (cand_objectKeys c)))]}) ;;
    ret 1.

(** [randoms] are the buffers of the successive identifiers. *)
Fixpoint queue_candidates (actor : string) (now : time) (randoms : nat → random) (n : nat)
    (candidates : list retentionCandidate) : tx Z :=
  match candidates with
  | [] => ret 0
  | c :: rest =>
    k <- queue_candidate actor now (randoms n) c ;;
    total <- queue_candidates actor now randoms (S n) rest ;;
    ret (k + total)
  end.

Definition QueueExpiredRetention (actor : string) (now : time) (limit : Z) (randoms : nat → random)
    : tx Z :=
  fail_if (is_empty actor || (limit <? 1) || (1000 <? limit))
    (ErrText "actor and a limit from 1 to 1000 are required") ;;
  d <- get ;;
  queue_candidates actor now randoms 0 (expired_candidates d now limit).

(** ** Leases *)

Definition purge_due (now : time) (_ : string) (q : retention_purge_row) : bool :=
  queue_due (prg_state q) (prg_available_at q) (prg_lease_expires_at q) now.

Definition purge_of (id : string) (q : retention_purge_row) : RetentionPurgeRequest :=
  {| rq_ID := id; rq_OrganizationID := prg_organization_id q; rq_ResourceType := prg_resource_type q;
     rq_ResourceID := prg_resource_id q; rq_State := prg_state q; rq_ObjectKeys := prg_object_keys q;
     rq_Attempt := prg_attempt q; rq_PolicyUpdatedAt := prg_policy_updated_at q;
     rq_AvailableAt := prg_available_at q; rq_RequestedAt := prg_requested_at q;
     rq_LeaseExpiresAt := coalesce epoch (prg_lease_expires_at q);
     rq_CompletedAt := 0; rq_LeasedBy := coalesce "" (prg_leased_by q);
     rq_LastError := coalesce "" (prg_last_error q) |}.

(** The two booleans [eligible] and [held] of a request. *)
Definition retentionStillEligible (d : db) (request : RetentionPurgeRequest) (now : time)
    : res (bool * bool) :=
  let id := rq_ResourceID request in
  let org := rq_OrganizationID request in
  if seqb (rq_ResourceType request) "session_raw" then
    Ok (match sessions d !! id, session_access d id, retention_policies d !! org with
        | Some s, Some a, Some p =>
          seqb (sa_OrganizationID a) org && bool_decide (ses_state s ∈ raw_states)
          && (ses_updated_at s <=? cutoff now (pol_raw_days p))
          && negb (Nat.eqb (length (live_artifacts d id)) 0)
        | _, _, _ => false
        end, under_hold d id)
  else if seqb (rq_ResourceType request) "session_derived" then
    Ok (match sessions d !! id, session_access d id, retention_policies d !! org with
        | Some s, Some a, Some p =>
          seqb (sa_OrganizationID a) org && bool_decide (ses_state s ∈ derived_states)
          && existsb (λ kr, val_created_at kr.2 <=? cutoff now (pol_derived_days p))
               (live_results d id)
        | _, _, _ => false
        end, under_hold d id)
  else if seqb (rq_ResourceType request) "release" then
    Ok (match dataset_releases d !! id, retention_policies d !! org with
        | Some r, Some p =>
          bool_decide (project_organization d (drl_project_id r) = Some org)
          && bool_decide (drl_purged_at r = None)
          && (drl_created_at r <=? cutoff now (pol_release_days p))
        | _, _ => false
        end, release_under_hold d id)
  else Err (ErrText "unknown retention resource type").

(** One [UPDATE] of a purge request: state, availability, lease and error. *)
Definition update_purge (state : string) (attempt : Z) (available now : time)
    (lease : option (string * time)) (last_error : option string) (q : retention_purge_row)
    : retention_purge_row :=
  {| prg_organization_id := prg_organization_id q; prg_resource_type := prg_resource_type q;
     prg_resource_id := prg_resource_id q; prg_policy_updated_at := prg_policy_updated_at q;
     prg_object_keys := prg_object_keys q; prg_state := state; prg_attempt := attempt;
     prg_available_at := available; prg_leased_by := fst <$> lease;
     prg_lease_expires_at := snd <$> lease; prg_requested_at := prg_requested_at q;
     prg_completed_at := prg_completed_at q; prg_last_error := last_error;
     prg_updated_at := now |}.

Definition park_purge (state reason : string) (now : time) (q : retention_purge_row)
    : retention_purge_row :=
  update_purge state (prg_attempt q) (prg_available_at q) now None (Some reason) q.

Definition finishRetentionWithoutPurge (request : RetentionPurgeRequest)
    (actor state reason : string) (now : time) : tx () :=
  modify (set_retention_purge_requests (alter (park_purge state reason now) (rq_ID request))) ;;
  insertAudit (audit actor ("retention.purge_" +:+ state) ("retention-purge/" +:+ rq_ID request)
    (rq_ID request) now
    {["resource_type" := rq_ResourceType request; "resource_id" := rq_ResourceID request;
      "reason" := reason]}).

Definition lease_purge (workerID : string) (expires now : time) (q : retention_purge_row)
    : retention_purge_row :=
  update_purge "leased" (prg_attempt q + 1) (prg_available_at q) now (Some (workerID, expires))
    None q.

(** A request that is cancelled or blocked is returned as it was read: its state
    is still the one it had before this transaction. *)
Definition ClaimRetentionPurge (workerID : string) (leaseDuration : Z) (now : time)
    (locked : gset string) : tx RetentionPurgeRequest :=
  d <- get ;;
  '(id, q) <- some_or (first_due prg_available_at (purge_due now) locked
                         (retention_purge_requests d)) ErrNoRetentionPurge ;;
  let request := purge_of id q in
  policy <- some_or (retention_policies d !! prg_organization_id q) ErrNoRows ;;
  '(eligible, held) <- lift (retentionStillEligible d request now) ;;
  if negb (pol_updated_at policy =? prg_policy_updated_at q) || negb eligible then
    finishRetentionWithoutPurge request workerID "cancelled"
      "retention policy or eligibility changed" now ;;
    ret request
  else if held : bool then
    finishRetentionWithoutPurge request workerID "blocked" "active legal hold" now ;;
    ret request
  else
    modify (set_retention_purge_requests (alter (lease_purge workerID (now + leaseDuration) now) id)) ;;
    ret {| rq_ID := id; rq_OrganizationID := rq_OrganizationID request;
           rq_ResourceType := rq_ResourceType request; rq_ResourceID := rq_ResourceID request;
           rq_State := "leased"; rq_ObjectKeys := rq_ObjectKeys request;
           rq_Attempt := prg_attempt q + 1; rq_PolicyUpdatedAt := rq_PolicyUpdatedAt request;
           rq_AvailableAt := rq_AvailableAt request; rq_RequestedAt := rq_RequestedAt request;
           rq_LeaseExpiresAt := now + leaseDuration; rq_CompletedAt := 0; rq_LeasedBy := workerID;
           rq_LastError := rq_LastError request |}.

Definition holds_purge_lease (q : retention_purge_row) (workerID : string) : bool :=
  seqb (prg_state q) "leased" && seqb (coalesce "" (prg_leased_by q)) workerID.

(** The hold check of a request that completes. *)
Definition purge_held (d : db) (q : retention_purge_row) : bool :=
  if oneof (prg_resource_type q) ["session_raw"; "session_derived"]
  then under_hold d (prg_resource_id q)
  else seqb (prg_resource_type q) "release" && release_under_hold d (prg_resource_id q).

Definition purge_artifact (now : time) (a : artifact_row) : artifact_row :=
  {| arf_session_id := arf_session_id a; arf_logical_key := arf_logical_key a;
     arf_sha256 := arf_sha256 a; arf_size_bytes := arf_size_bytes a;
     arf_media_type := arf_media_type a; arf_created_at := arf_created_at a;
     arf_purged_at := Some now |}.
Definition purge_result (now : time) (v : validation_result_row) : validation_result_row :=
  {| val_job_id := val_job_id v; val_session_id := val_session_id v; val_valid := val_valid v;
     val_errors := val_errors v; val_normalized_key := val_normalized_key v;
     val_schema_version := val_schema_version v; val_validator_version := val_validator_version v;
     val_created_at := val_created_at v; val_purged_at := Some now |}.
Definition purge_redaction (now : time) (j : redaction_job_row) : redaction_job_row :=
  {| rjb_plan_id := rjb_plan_id j; rjb_session_id := rjb_session_id j; rjb_state := rjb_state j;
     rjb_attempt := rjb_attempt j; rjb_manual_requeues := rjb_manual_requeues j;
     rjb_available_at := rjb_available_at j; rjb_leased_by := rjb_leased_by j;
     rjb_lease_expires_at := rjb_lease_expires_at j;
     rjb_output_manifest_key := rjb_output_manifest_key j; rjb_error := rjb_error j;
     rjb_created_at := rjb_created_at j; rjb_updated_at := rjb_updated_at j;
     rjb_finished_at := rjb_finished_at j; rjb_dead_lettered_at := rjb_dead_lettered_at j;
     rjb_purged_at := Some now |}.
Definition purge_release (now : time) (r : dataset_release_row) : dataset_release_row :=
  {| drl_project_id := drl_project_id r; drl_name := drl_name r;
     drl_release_profile := drl_release_profile r; drl_schema_version := drl_schema_version r;
     drl_exporter_version := drl_exporter_version r; drl_pipeline_version := drl_pipeline_version r;
     drl_source_session_ids := drl_source_session_ids r;
     drl_configuration_hash := drl_configuration_hash r; drl_manifest_hash := drl_manifest_hash r;
     drl_bundle_hash := drl_bundle_hash r; drl_bundle_size := drl_bundle_size r;
     drl_created_at := drl_created_at r; drl_purged_at := Some now;
     drl_object_keys := drl_object_keys r |}.

(** The rows marked purged, by resource type. *)
Definition mark_purged (resourceType resourceID : string) (now : time) : tx () :=
  if seqb resourceType "session_raw" then
    modify (set_artifacts (update_where
      (λ _ a, seqb (arf_session_id a) resourceID && bool_decide (arf_purged_at a = None))
      (purge_artifact now)))
  else if seqb resourceType "session_derived" then
    modify (set_validation_results (update_where
      (λ _ v, seqb (val_session_id v) resourceID && bool_decide (val_purged_at v = None))
      (purge_result now))) ;;
    modify (set_redaction_jobs (update_where
      (λ _ j, seqb (rjb_session_id j) resourceID && seqb (rjb_state j) "completed"
              && bool_decide (rjb_purged_at j = None)) (purge_redaction now)))
  else if seqb resourceType "release" then
    modify (set_dataset_releases (update_where
      (λ id r, seqb id resourceID && bool_decide (drl_purged_at r = None)) (purge_release now)))
  else throw (ErrText "unknown retention resource type").

Definition complete_purge (now : time) (q : retention_purge_row) : retention_purge_row :=
  {| prg_organization_id := prg_organization_id q; prg_resource_type := prg_resource_type q;
     prg_resource_id := prg_resource_id q; prg_policy_updated_at := prg_policy_updated_at q;
     prg_object_keys := prg_object_keys q; prg_state := "completed"; prg_attempt := prg_attempt q;
     prg_available_at := prg_available_at q; prg_leased_by := None;
     prg_lease_expires_at := None; prg_requested_at := prg_requested_at q;
     prg_completed_at := Some now; prg_last_error := None; prg_updated_at := now |}.

Definition CompleteRetentionPurge (requestID workerID : string) (now : time) : tx () :=
  q <- row_of retention_purge_requests requestID ErrNotFound ;;
  fail_if (negb (holds_purge_lease q workerID)) ErrRetentionLease ;;
  d <- get ;;
  fail_if (purge_held d q) ErrLegalHoldActive ;;
  mark_purged (prg_resource_type q) (prg_resource_id q) now ;;
  modify (set_retention_purge_requests (alter (complete_purge now) requestID)) ;;
  insertAudit (audit workerID "retention.purge_completed" ("retention-purge/" +:+ requestID)
    requestID now
    {["resource_type" := prg_resource_type q; "resource_id" := prg_resource_id q]}).

Definition RequeueRetentionPurge (requestID workerID message : string) (maxAttempts : Z)
    (now : time) : tx () :=
  q <- row_of retention_purge_requests requestID ErrNotFound ;;
  fail_if (negb (holds_purge_lease q workerID)) ErrRetentionLease ;;
  let attempt := prg_attempt q in
  let exhausted := maxAttempts <=? attempt in
  let nextState := if exhausted then "dead_letter" else "queued" in
  let availableAt := if exhausted then now else now + backoff attempt in
  modify (set_retention_purge_requests (alter
    (update_purge nextState attempt availableAt now None (Some message)) requestID)) ;;
  insertAudit (audit workerID ("retention.purge_" +:+ nextState) ("retention-purge/" +:+ requestID)
    requestID now
    {["resource_type" := prg_resource_type q; "resource_id" := prg_resource_id q;
      "attempt" := Sprint attempt; "error" := message]}).

Definition GetRetentionPurgeOrganization (d : db) (requestID : string) : res string :=
  or_not_found (prg_organization_id <$> retention_purge_requests d !! requestID).

Definition retry_purge (now : time) (q : retention_purge_row) : retention_purge_row :=
  update_purge "queued" 0 now now None None q.

Definition RetryDeadLetterRetentionPurge (requestID actor auditRequestID : string) (now : time)
    : tx RetentionPurgeRequest :=
  q <- row_of retention_purge_requests requestID ErrNotFound ;;
  fail_if (negb (seqb (prg_state q) "dead_letter")) ErrRetentionNotDead ;;
  no_row retention_purge_requests
    (λ id k, negb (seqb id requestID) && active_purge k
             && seqb (prg_resource_type k) (prg_resource_type q)
             && seqb (prg_resource_id k) (prg_resource_id q))
    "retention_purge_one_active_resource" ;;
  modify (set_retention_purge_requests (alter (retry_purge now) requestID)) ;;
  insertAudit (audit actor "retention.purge_manual_retry" ("retention-purge/" +:+ requestID)
    auditRequestID now
    {["resource_type" := prg_resource_type q; "resource_id" := prg_resource_id q;
      "previous_attempts" := Sprint (prg_attempt q)]}) ;;
  ret {| rq_ID := requestID; rq_OrganizationID := prg_organization_id q;
         rq_ResourceType := prg_resource_type q; rq_ResourceID := prg_resource_id q;
         rq_State := "queued"; rq_ObjectKeys := prg_object_keys q; rq_Attempt := 0;
         rq_PolicyUpdatedAt := prg_policy_updated_at q; rq_AvailableAt := now;
         rq_RequestedAt := prg_requested_at q; rq_LeaseExpiresAt := 0; rq_CompletedAt := 0;
         rq_LeasedBy := "";
         rq_LastError := "" |}.

(** A listed request has its completion time too. *)
Definition listed_purge (id : string) (q : retention_purge_row) : RetentionPurgeRequest :=
  let request := purge_of id q in
  {| rq_ID := id; rq_OrganizationID := rq_OrganizationID request;
     rq_ResourceType := rq_ResourceType request; rq_ResourceID := rq_ResourceID request;
     rq_State := rq_State request; rq_ObjectKeys := rq_ObjectKeys request;
     rq_Attempt := rq_Attempt request; rq_PolicyUpdatedAt := rq_PolicyUpdatedAt request;
     rq_AvailableAt := rq_AvailableAt request; rq_RequestedAt := rq_RequestedAt request;
     rq_LeaseExpiresAt := rq_LeaseExpiresAt request;
     rq_CompletedAt := coalesce epoch (prg_completed_at q); rq_LeasedBy := rq_LeasedBy request;
     rq_LastError := rq_LastError request |}.

Definition ListRetentionPurgeRequests (d : db) (organizationIDs : option (list string))
    : list RetentionPurgeRequest :=
  map (λ kr, listed_purge kr.1 kr.2)
    (merge_sort (newest_first prg_requested_at)
      (select (λ _ q, in_scope organizationIDs (prg_organization_id q))
              (retention_purge_requests d))).

(** ** Claims and completion *)

(** Claiming a purge.  The earliest due request that nobody has locked is
    taken and checked again: it is cancelled when the policy was updated after the
    request or the resource is no longer eligible, blocked when a legal hold is
    active, and otherwise leased with one more attempt.  Of a request it cancels or
    blocks the claim returns the state read before the update, so one whose earlier
    lease had expired is handed to the worker as "leased" although its row says
    "cancelled" or "blocked". *)
Theorem claim_retention_cases workerID leaseDuration now locked d id q p eligible held :
  earliest prg_available_at (purge_due now) locked (retention_purge_requests d) id q →
  retention_policies d !! prg_organization_id q = Some p →
  retentionStillEligible d (purge_of id q) now = Ok (eligible, held) →
  let cancelled := negb (pol_updated_at p =? prg_policy_updated_at q) || negb eligible in
  ∃ request d', ClaimRetentionPurge workerID leaseDuration now locked d = Ok (request, d') ∧
    rq_ID request = id ∧
    retention_purge_requests d' = <[id :=
      if cancelled then park_purge "cancelled" "retention policy or eligibility changed" now q
      else if held then park_purge "blocked" "active legal hold" now q
      else lease_purge workerID (now + leaseDuration) now q]> (retention_purge_requests d) ∧
    rq_State request = (if cancelled || held then prg_state q else "leased").
Proof.
  intros He%first_due_earliest Hp Hel cancelled. pose proof (first_due_some _ _ _ _ _ _ He) as (Hq & _).
  unfold ClaimRetentionPurge. op_run. rewrite He. op_run. rewrite Hp. op_run. rewrite Hel. op_run.
  fold cancelled. unfold finishRetentionWithoutPurge.
  destruct cancelled; [|destruct held]; op_run; eexists _, _; (split; [reflexivity|]); db_simpl;
    (split; [done|]); (split; [by apply alter_as_insert|done]).
Qed.

Definition sample_policy : retention_policy_row :=
  {| pol_raw_days := 1; pol_derived_days := 1; pol_release_days := 1; pol_updated_by := "admin";
     pol_created_at := 1; pol_updated_at := 1 |}.
(** A purge leased to a worker whose lease ran out. *)
Definition expired_purge : retention_purge_row :=
  {| prg_organization_id := "org_1"; prg_resource_type := "session_raw"; prg_resource_id := "sess_1";
     prg_policy_updated_at := 1; prg_object_keys := ["raw/sessions/sess_1/video/a"];
     prg_state := "leased"; prg_attempt := 1; prg_available_at := 1; prg_leased_by := Some "old";
     prg_lease_expires_at := Some 5; prg_requested_at := 1; prg_completed_at := None;
     prg_last_error := None; prg_updated_at := 1 |}.
Definition purge_db : db :=
  set_legal_holds <["hold_1" := sample_hold]>
    (set_retention_policies <["org_1" := sample_policy]>
      (set_retention_purge_requests <["retention_1" := expired_purge]> (with_task redactable_db))).

(** The session is under legal hold: the row is blocked, the answer says leased. *)
Lemma claim_retention_cases_witness :
  ∃ request d', ClaimRetentionPurge "worker" 50 (2 * day) ∅ purge_db = Ok (request, d') ∧
    prg_state <$> retention_purge_requests d' !! "retention_1" = Some "blocked" ∧
    rq_State request = "leased".
Proof.
  destruct (claim_retention_cases "worker" 50 (2 * day) ∅ purge_db "retention_1" expired_purge
              sample_policy true true) as (r & d' & H1 & _ & H2 & H3).
  - apply first_due_earliest. vm_compute. reflexivity.
  - reflexivity.
  - vm_compute. reflexivity.
  - exists r, d'. split; [exact H1|]. split; [|exact H3].
    rewrite H2. vm_compute. reflexivity.
Defined.

Lemma purge_lease_true q workerID :
  holds_purge_lease q workerID = true ↔
  prg_state q = "leased" ∧ coalesce "" (prg_leased_by q) = workerID.
Proof. unfold holds_purge_lease. by rewrite andb_true_iff, !seqb_true. Qed.

(** What a completed purge of a resource type does to the rows. *)
Definition purged (resourceType id : string) (now : time) (d d' : db) : Prop :=
  artifacts d' =
    (if seqb resourceType "session_raw"
     then update_where (λ _ a, seqb (arf_session_id a) id && bool_decide (arf_purged_at a = None))
            (purge_artifact now) (artifacts d) else artifacts d) ∧
  validation_results d' =
    (if seqb resourceType "session_derived"
     then update_where (λ _ v, seqb (val_session_id v) id && bool_decide (val_purged_at v = None))
            (purge_result now) (validation_results d) else validation_results d) ∧
  dataset_releases d' =
    (if seqb resourceType "release"
     then update_where (λ k r, seqb k id && bool_decide (drl_purged_at r = None))
            (purge_release now) (dataset_releases d) else dataset_releases d) ∧
  (resourceType = "session_raw" → live_artifacts d' id = []) ∧
  (resourceType = "session_derived" → live_results d' id = [] ∧ live_redactions d' id = []).

Lemma select_none `{Countable K} {R} (p : K → R → bool) (m : gmap K R) :
  (∀ k r, m !! k = Some r → p k r = false) → select p m = [].
Proof.
  intros Hf. destruct (select p m) as [|[k r] l] eqn:Hs; [done|].
  assert (Hin : (k, r) ∈ select p m) by (rewrite Hs; left).
  apply select_spec in Hin as [Hk Hp]. by rewrite (Hf k r Hk) in Hp.
Qed.

(** No row satisfies [p] after an update that falsifies it. *)
Lemma select_update_where `{Countable K} {R} (p q : K → R → bool) (f : R → R) (m : gmap K R) :
  (∀ k r, p k r = true → q k r = true) → (∀ k r, p k (f r) = false) →
  select p (update_where q f m) = [].
Proof.
  intros Hpq Hf. apply select_none. intros k r Hk. rewrite lookup_update_where in Hk.
  destruct (m !! k) as [r0|]; [|done]. injection Hk as <-.
  destruct (q k r0) eqn:E; [apply Hf|]. destruct (p k r0) eqn:E'; [|done].
  by rewrite (Hpq _ _ E') in E.
Qed.

Lemma mark_purged_ok resourceType id now d u d' :
  mark_purged resourceType id now d = Ok (u, d') →
  purged resourceType id now d d' ∧ resourceType ∈ ["session_raw"; "session_derived"; "release"] ∧
  retention_purge_requests d' = retention_purge_requests d ∧ sessions d' = sessions d.
Proof.
  unfold mark_purged, purged. intros H.
  destruct (seqb resourceType "session_raw") eqn:E1; [|destruct (seqb resourceType "session_derived") eqn:E2;
    [|destruct (seqb resourceType "release") eqn:E3; [|by tx_inv]]]; stmt_inv; db_simpl;
    rewrite ?seqb_true, ?seqb_false in *; subst; split_and!; try done; try set_solver;
    try (intros _); try split_and!; try (intros ->; done).
  - apply select_update_where; [done|]. intros k r. cbn. by rewrite andb_false_r.
  - apply select_update_where; [|intros k r; cbn; by rewrite andb_false_r].
    intros k r. by rewrite !andb_true_iff; intros [[? ?] ?].
  - apply select_update_where; [done|]. intros k r. cbn. by rewrite andb_false_r.
Qed.

(** Completing a purge.  Only the worker that holds the lease completes it, and
    not while a legal hold covers the session or a session of the release.  It then
    marks every unpurged row of the resource purged, leaves the rows of the other
    kinds as they are, completes the request and changes no session: afterwards a
    raw purge leaves the session no live artifact, a derived purge no live
    validation result and no live redaction. *)
Theorem complete_retention_purge requestID workerID now d q :
  retention_purge_requests d !! requestID = Some q →
  prg_resource_type q ∈ ["session_raw"; "session_derived"; "release"] →
  (¬ (prg_state q = "leased" ∧ coalesce "" (prg_leased_by q) = workerID) →
   CompleteRetentionPurge requestID workerID now d = Err ErrRetentionLease) ∧
  (prg_state q = "leased" → coalesce "" (prg_leased_by q) = workerID → purge_held d q = true →
   CompleteRetentionPurge requestID workerID now d = Err ErrLegalHoldActive) ∧
  (prg_state q = "leased" → coalesce "" (prg_leased_by q) = workerID → purge_held d q = false →
   ∃ d', CompleteRetentionPurge requestID workerID now d = Ok ((), d') ∧
     purged (prg_resource_type q) (prg_resource_id q) now d d' ∧ sessions d' = sessions d ∧
     retention_purge_requests d' = <[requestID := complete_purge now q]> (retention_purge_requests d)).
Proof.
  intros Hq Ht. unfold CompleteRetentionPurge. op_run. rewrite Hq. op_run. split; [|split].
  - intros Hn. destruct (holds_purge_lease q workerID) eqn:E; [|done].
    by apply purge_lease_true in E.
  - intros H1 H2 H3. rewrite (proj2 (purge_lease_true q workerID)) by done. cbn [negb].
    by rewrite H3.
  - intros H1 H2 H3. rewrite (proj2 (purge_lease_true q workerID)) by done. cbn [negb].
    rewrite H3. op_run.
    destruct (mark_purged (prg_resource_type q) (prg_resource_id q) now d) as [[[] d1]|e] eqn:Hm.
    + erewrite bind_run; [|exact Hm]. op_run. apply mark_purged_ok in Hm as (Hp & _ & Hr & Hs).
      eexists. split; [reflexivity|]. split; [exact Hp|]. db_simpl. split; [done|].
      rewrite Hr. by apply alter_as_insert.
    + exfalso. revert Hm. unfold mark_purged.
      repeat (apply elem_of_cons in Ht as [->|Ht]; [done|]). by apply elem_of_nil in Ht.
Qed.

Lemma complete_retention_purge_witness :
  let q := lease_purge "worker" 50 7 expired_purge in
  let d := set_legal_holds (λ _, ∅) (set_retention_purge_requests <["retention_1" := q]> purge_db) in
  ∃ d', CompleteRetentionPurge "retention_1" "worker" 9 d = Ok ((), d') ∧
    live_artifacts d "sess_1" ≠ [] ∧ live_artifacts d' "sess_1" = [].
Proof.
  intros q d. destruct (complete_retention_purge "retention_1" "worker" 9 d q) as (_ & _ & H);
    [reflexivity|left|].
  destruct H as (d' & H1 & (_ & _ & _ & H2 & _) & _); [reflexivity|reflexivity|vm_compute; reflexivity|].
  exists d'. split; [exact H1|]. split; [vm_compute; discriminate|]. apply H2. reflexivity.
Defined.

(** ** What is queued *)

(** A resource past the retention period of its organization, not under hold and
    not queued before. *)
Definition overdue (d : db) (now : time) (c : retentionCandidate) : Prop :=
  let id := cand_resourceID c in
  ∃ p, retention_policies d !! cand_organizationID c = Some p ∧
    cand_policyUpdatedAt c = pol_updated_at p ∧
    already_queued d (cand_resourceType c) id = false ∧
    (cand_resourceType c = "session_raw" ∧ under_hold d id = false ∧ live_artifacts d id ≠ [] ∧
       (∃ s, sessions d !! id = Some s ∧ ses_state s ∈ raw_states ∧
             ses_updated_at s ≤ now - pol_raw_days p * day) ∨
     cand_resourceType c = "session_derived" ∧ under_hold d id = false ∧ live_results d id ≠ [] ∧
       (∃ s, sessions d !! id = Some s ∧ ses_state s ∈ derived_states ∧
             ses_updated_at s ≤ now - pol_derived_days p * day) ∨
     cand_resourceType c = "release" ∧ release_under_hold d id = false ∧
       (∃ r, dataset_releases d !! id = Some r ∧ drl_purged_at r = None ∧
             drl_created_at r ≤ now - pol_release_days p * day)).

Lemma length_not_zero {A} (l : list A) : negb (Nat.eqb (length l) 0) = true → l ≠ [].
Proof. by destruct l. Qed.

Lemma session_candidate_overdue (derived : bool) d now id s c :
  sessions d !! id = Some s →
  session_candidate (if derived then "session_derived" else "session_raw") derived d now id s = Some c →
  overdue d now c.
Proof.
  intros Hs. unfold session_candidate. intros H.
  apply bind_Some in H as (a & _ & H). apply bind_Some in H as (p & Hp & H).
  destruct (_ && _) eqn:E in H; [|done]. injection H as <-. unfold overdue. cbn.
  rewrite !andb_true_iff, bool_decide_eq_true, !negb_true_iff in E.
  destruct E as [[[Hst Hh] Hq] E]. exists p. destruct derived; cbn in *.
  - split_and!; [done..|]. right. left. split_and!; [done|done| |].
    + apply length_not_zero in E. intros Hl. by rewrite Hl in E.
    + exists s. split_and!; [done..|]. apply length_not_zero in E.
      destruct (List.filter _ _) as [|x l] eqn:Hf; [done|].
      assert (Hx : In x (x :: l)) by (by left). rewrite <-Hf in Hx.
      apply filter_In in Hx as [_ Hx%Z.leb_le]. unfold derived_anchor, cutoff in Hx. lia.
  - apply andb_true_iff in E as [El Et%Z.leb_le]. split_and!; [done..|]. left.
    split_and!; [done|done|by apply length_not_zero|]. exists s. by split_and!.
Qed.

Lemma release_candidate_overdue d now id r c :
  dataset_releases d !! id = Some r → release_candidate d now id r = Some c → overdue d now c.
Proof.
  intros Hr. unfold release_candidate. intros H.
  apply bind_Some in H as (org & _ & H). apply bind_Some in H as (p & Hp & H).
  destruct (_ && _) eqn:E in H; [|done]. injection H as <-. unfold overdue. cbn.
  rewrite !andb_true_iff, bool_decide_eq_true, !negb_true_iff in E.
  destruct E as [[[Hpu Ht%Z.leb_le] Hh] Hq]. exists p. split_and!; [done..|]. right. right.
  split_and!; [done..|]. by exists r.
Qed.

Lemma append_candidates_spec {R} (row : string → R → option retentionCandidate) limit m l c :
  c ∈ append_candidates row limit m l → c ∈ l ∨ ∃ k r, m !! k = Some r ∧ row k r = Some c.
Proof.
  unfold append_candidates. rewrite elem_of_app. intros [?|H]; [by left|right].
  apply elem_of_take in H as (i & H%list_elem_of_lookup_2 & _).
  rewrite merge_sort_Permutation, elem_of_concat_map in H.
  destruct H as ([k r] & Hk%elem_of_map_to_list & Hin). exists k, r. split; [done|].
  cbn in Hin. destruct (row k r); cbn in Hin; [|by apply elem_of_nil in Hin].
  by apply list_elem_of_singleton in Hin as ->.
Qed.

Lemma append_candidates_length {R} (row : string → R → option retentionCandidate) limit m l :
  (length l ≤ Z.to_nat limit)%nat → (length (append_candidates row limit m l) ≤ Z.to_nat limit)%nat.
Proof. intros H. unfold append_candidates. rewrite length_app, length_take. lia. Qed.

Lemma expired_candidates_overdue d now limit c :
  c ∈ expired_candidates d now limit → overdue d now c.
Proof.
  intros [[[[]%elem_of_nil|(k & r & Hk & Hr)]%append_candidates_spec
    |(k & r & Hk & Hr)]%append_candidates_spec|(k & r & Hk & Hr)]%append_candidates_spec.
  - by apply (session_candidate_overdue false) in Hr.
  - by apply (session_candidate_overdue true) in Hr.
  - by apply release_candidate_overdue in Hr.
Qed.

Lemma expired_candidates_length d now limit :
  (length (expired_candidates d now limit) ≤ Z.to_nat limit)%nat.
Proof. unfold expired_candidates. do 3 apply append_candidates_length. cbn. lia. Qed.

Lemma respects_queue_candidates R `{!PreOrder R} actor now rs n l :
  (∀ r c, respects R (queue_candidate actor now r c)) →
  respects R (queue_candidates actor now rs n l).
Proof.
  intros H1. revert n. induction l as [|c l IH]; intros n; cbn; respects_all.
Qed.

(** The requests queued for a list of candidates: each new row is the row of a
    candidate, [n] of them were added, and what was there is still there. *)
Definition queued_for (now : time) (candidates : list retentionCandidate) (n : Z)
    (m m' : gmap string retention_purge_row) : Prop :=
  m ⊆ m' ∧ Z.of_nat (size m') = Z.of_nat (size m) + n ∧ 0 ≤ n ≤ Z.of_nat (length candidates) ∧
  ∀ id q, m' !! id = Some q → m !! id = None → ∃ c, c ∈ candidates ∧ q = candidate_row c now.

Lemma queue_candidate_ok actor now r c d n d' :
  queue_candidate actor now r c d = Ok (n, d') →
  queued_for now [c] n (retention_purge_requests d) (retention_purge_requests d').
Proof.
  unfold queue_candidate, queued_for. intros H.
  apply bind_ok in H as (id & d1 & [_ ->]%newID_ok & H). rewrite bind_get in H.
  destruct (purge_conflict d id c) eqn:Hc.
  - injection H as <- <-. split_and!; try done; [cbn; lia..|]. intros id' q H1 H2. congruence.
  - insert_inv. db_simpl. unfold purge_conflict in Hc. apply orb_false_iff in Hc as [Hc _].
    apply bool_decide_eq_false, eq_None_not_Some in Hc.
    split_and!; [by apply insert_subseteq|by rewrite map_size_insert_None by done; lia|cbn; lia..|].
    intros id' q [[<- <-]|[_ H1]]%lookup_insert_Some H2; [|congruence]. exists c. by split; [left|].
Qed.

Lemma queue_candidates_ok actor now randoms k candidates d n d' :
  queue_candidates actor now randoms k candidates d = Ok (n, d') →
  queued_for now candidates n (retention_purge_requests d) (retention_purge_requests d').
Proof.
  revert k d n. induction candidates as [|c l IH]; intros k d n; cbn.
  - intros [= <- <-]. unfold queued_for. split_and!; try done; [cbn; lia..|]. intros id q H1 H2. congruence.
  - intros H. tx_inv.
    match goal with H1 : queue_candidate _ _ _ _ _ = _, H2 : queue_candidates _ _ _ _ _ _ = _ |- _ =>
      apply queue_candidate_ok in H1 as (A1 & A2 & A3 & A4); apply IH in H2 as (B1 & B2 & B3 & B4) end.
    split_and!; [by etrans|lia|cbn in *; lia..|]. intros id q H1 H2.
    destruct (retention_purge_requests s !! id) as [q'|] eqn:Hs.
    + assert (q' = q) as -> by (eapply lookup_weaken in Hs; [|exact B1]; congruence).
      destruct (A4 id q Hs H2) as (c' & ->%list_elem_of_singleton & Hq). exists c. by split; [left|].
    + destruct (B4 id q H1 Hs) as (c' & Hc & Hq). exists c'. by split; [right|].
Qed.

(** Queueing expired data.  A run adds at most [limit] requests, reports how many,
    keeps every earlier one, and each new request is for a resource whose
    organization has a policy, that is past that policy's period, has something
    left to purge, is under no legal hold (nor has, for a release, a session under
    one) and was not queued, leased, blocked or purged before.  No session and no
    artifact is touched. *)
Theorem queue_expired_retention actor now limit randoms d n d' :
  QueueExpiredRetention actor now limit randoms d = Ok (n, d') →
  let m := retention_purge_requests d in let m' := retention_purge_requests d' in
  0 ≤ n ≤ limit ∧ limit ≤ 1000 ∧ m ⊆ m' ∧ Z.of_nat (size m') = Z.of_nat (size m) + n ∧
  (∀ id q, m' !! id = Some q → m !! id = None → ∃ c, q = candidate_row c now ∧ overdue d now c) ∧
  sessions d' = sessions d ∧ artifacts d' = artifacts d.
Proof.
  intros H. unfold QueueExpiredRetention in H. cbv zeta.
  apply bind_ok in H as (u & d1 & [Hg ->]%fail_if_ok & H). rewrite bind_get in H.
  rewrite !orb_false_iff, !Z.ltb_ge in Hg. destruct Hg as [[_ Hl] Hu].
  assert (Hs : sessions d' = sessions d ∧ artifacts d' = artifacts d).
  { revert H. generalize (expired_candidates d now limit) 0%nat n. intros l.
    generalize d. induction l as [|c l IH]; intros d0 k n0 H.
    - by injection H as _ <-.
    - cbn in H. apply bind_ok in H as (a & d1 & H1 & H). apply bind_ok in H as (b & d2 & H2 & [= _ <-]).
      destruct (IH _ _ _ H2) as [-> ->]. kept sessions H1. kept artifacts H1. done. }
  apply queue_candidates_ok in H as (H1 & H2 & H3 & H4).
  pose proof (expired_candidates_length d now limit).
  split_and!; [lia..|done|done| |apply Hs|apply Hs].
  intros id q Hq Hn. destruct (H4 id q Hq Hn) as (c & Hc & ->). exists c. split; [done|].
  by eapply expired_candidates_overdue.
Qed.

Lemma queue_expired_retention_witness :
  let d := set_legal_holds (λ _, ∅) (set_retention_purge_requests (λ _, ∅) purge_db) in
  ∃ d', QueueExpiredRetention "worker" (2 * day) 10 (λ _, Some [x01]) d = Ok (1, d') ∧
    sessions d' = sessions d ∧
    prg_object_keys <$> retention_purge_requests d' !! "retention_01" =
      Some ["raw/sessions/sess_1/video/a"].
Proof.
  intros d.
  destruct (QueueExpiredRetention "worker" (2 * day) 10 (λ _, Some [x01]) d) as [[n d']|e] eqn:H;
    [|vm_compute in H; discriminate H].
  assert (Hn : n = 1) by (vm_compute in H; injection H as <- _; reflexivity). subst n.
  destruct (queue_expired_retention _ _ _ _ _ _ _ H) as (_ & _ & _ & _ & _ & Hs & _).
  exists d'. split; [reflexivity|]. split; [exact Hs|].
  clear -H. vm_compute in H. injection H as <-. vm_compute. reflexivity.
Defined.
