(* ===== verification/Steps.v ===== *)
(** * Steps of a process between the database and the object store

    The worker and the API are state computations over the [world]: the database, an
    object store of any kind, the instant of the worker's next retention sweep (which
    the API leaves alone) and a counter of the interactions.  The environment
    answers the n-th interaction: what the clock says, what other clients did to the
    database since the last transaction, which rows they have locked, which random
    bytes are read. *)

From S2P Require Import Prelude Domain Schema.

(** ** The world *)

Record environment := {
  env_now : nat → time;
  env_meanwhile : nat → db → db;
  env_locked : nat → gset string;
  env_random : nat → random;
  env_randoms : nat → nat → random
}.

(** Other clients are idle. *)
Definition undisturbed (env : environment) : Prop := ∀ n d, env_meanwhile env n d = d.

Record world (B : Type) := {
  w_db : db; w_blobs : B; w_next_sweep : time; w_tick : nat
}.
Arguments w_db {B}. Arguments w_blobs {B}. Arguments w_next_sweep {B}. Arguments w_tick {B}.

Definition W (B A : Type) : Type := world B → A * world B.

Section steps.
Context {B : Type} (env : environment).
Implicit Types w : world B.

Definition wret {A} (a : A) : W B A := λ w, (a, w).
Definition wbind {A C} (m : W B A) (k : A → W B C) : W B C := λ w, let (a, w) := m w in k a w.

(** [processor.now()] *)
Definition clock : W B time := λ w,
  (env_now env (w_tick w),
   {| w_db := w_db w; w_blobs := w_blobs w; w_next_sweep := w_next_sweep w; w_tick := S (w_tick w) |}).
(** A call of the store: one transaction, after what others did meanwhile.  The
    operation may use the number of the interaction. *)
Definition store_call {A} (op : nat → tx A) : W B (res A) := λ w,
  let (r, d) := run_tx (op (w_tick w)) (env_meanwhile env (w_tick w) (w_db w)) in
  (r, {| w_db := d; w_blobs := w_blobs w; w_next_sweep := w_next_sweep w; w_tick := S (w_tick w) |}).
Definition store_read {A} (query : db → A) : W B A := λ w,
  let d := env_meanwhile env (w_tick w) (w_db w) in
  (query d, {| w_db := d; w_blobs := w_blobs w; w_next_sweep := w_next_sweep w; w_tick := S (w_tick w) |}).
(** A call of the object store; a write is given the instant. *)
Definition blob_call {A} (op : time → B → A * B) : W B A := λ w,
  let (a, b) := op (env_now env (w_tick w)) (w_blobs w) in
  (a, {| w_db := w_db w; w_blobs := b; w_next_sweep := w_next_sweep w; w_tick := S (w_tick w) |}).
Definition set_next_sweep (t : time) : W B () := λ w,
  ((), {| w_db := w_db w; w_blobs := w_blobs w; w_next_sweep := t; w_tick := w_tick w |}).
Definition next_sweep : W B time := λ w, (w_next_sweep w, w).
(** The random bytes of the interaction. *)
Definition read_random : W B (nat → random) := λ w,
  (env_randoms env (w_tick w),
   {| w_db := w_db w; w_blobs := w_blobs w; w_next_sweep := w_next_sweep w; w_tick := S (w_tick w) |}).
End steps.

Declare Scope world_scope.
Delimit Scope world_scope with world.
Notation "'let*' x := m 'in' k" := (wbind m (λ x, k))
  (at level 200, x name, m at level 100, k at level 200) : world_scope.
(** [if err != nil { return ... }] *)
Notation "'try' x := m 'else' e => f 'in' k" := (wbind m (λ r, match r with Ok x => k | Err e => f end))
  (at level 200, x name, e name, m at level 100, f at level 100, k at level 200) : world_scope.
Open Scope world_scope.

(** ** Steps as relations *)

Section relations.
Context {B : Type} (R : relation (world B)) `{!PreOrder R}.

Definition does {A} (m : W B A) : Prop := ∀ w a w', m w = (a, w') → R w w'.

Lemma does_ret {A} (a : A) : does (wret a).
Proof using All. intros w x w' [= _ <-]. reflexivity. Qed.
Lemma does_bind {A C} (m : W B A) (k : A → W B C) : does m → (∀ a, does (k a)) → does (wbind m k).
Proof using All.
  intros Hm Hk w x w' H. unfold wbind in H. destruct (m w) as [a w1] eqn:E.
  trans w1; [by eapply Hm|by eapply Hk].
Qed.
(** The continuation may use what the first step returned. *)
Lemma does_bind_post {A C} (Q : A → world B → Prop) (m : W B A) (k : A → W B C) :
  does m → (∀ w a w', m w = (a, w') → Q a w') →
  (∀ a w x w', Q a w → k a w = (x, w') → R w w') → does (wbind m k).
Proof using All.
  intros Hm HQ Hk w x w' H. unfold wbind in H. destruct (m w) as [a w1] eqn:E.
  trans w1; [by eapply Hm|]. eapply Hk; [by eapply HQ|done].
Qed.
End relations.
