(* ===== verification/Worker.v ===== *)
(** * The worker ([worker/processor.go])

    [ProcessNext] takes one job from the database, works on the object store and
    reports back in a second transaction, as a state computation of [Steps].  The
    validator is that of [Validator], the redactor a function on readers, such as
    [Media.Redact]. *)

From S2P Require Import Prelude Domain Schema Sha256 Frame Text Encoding Json Blob Store Validator Pipeline Redaction Erasure Retention Steps.

(** ** The processor *)

Definition lease : Z := 2 * minute.
Definition maxAttempts : Z := 3.
Definition retentionSweepInterval : Z := 15 * minute.

Record redactionOutput := {
  ro_SegmentID : string; ro_SourceKey : string; ro_Decision : string; ro_OutputKey : string;
  ro_SHA256 : string; ro_Size : Z; ro_Width : Z; ro_Height : Z; ro_DurationSecond : float64
}.
Record redactionOutputManifest := {
  rm_SessionID : string; rm_PlanID : string; rm_PlanVersion : Z; rm_PlanHash : string;
  rm_Outputs : list redactionOutput
}.

Definition output_json (o : redactionOutput) : json :=
  JObject [("segment_id", JString (ro_SegmentID o)); ("source_key", JString (ro_SourceKey o));
           ("decision", JString (ro_Decision o)); ("output_key", JString (ro_OutputKey o));
           ("sha256", JString (ro_SHA256 o)); ("size", JNumber (Sprint (ro_Size o)));
           ("width", JNumber (Sprint (ro_Width o))); ("height", JNumber (Sprint (ro_Height o)));
           ("duration_seconds", float_json (ro_DurationSecond o))].
Definition manifest_json (m : redactionOutputManifest) : json :=
  JObject [("schema_version", JString "redaction-output/v1"); ("session_id", JString (rm_SessionID m));
           ("plan_id", JString (rm_PlanID m)); ("plan_version", JNumber (Sprint (rm_PlanVersion m)));
           ("plan_hash", JString (rm_PlanHash m)); ("outputs", JArray (map output_json (rm_Outputs m)))].
(** [json.Marshal] refuses a float that is not finite. *)
Definition marshal_manifest (m : redactionOutputManifest) : result string string :=
  match List.find (λ o, not_finite (ro_DurationSecond o)) (rm_Outputs m) with
  | Some o => Err ("json: unsupported value: " +:+ FormatFixed 0 (ro_DurationSecond o))
  | None => Ok (Marshal (manifest_json m))
  end.

(** [sort.Slice] by segment; equal segments keep their order, as in the insertion
    sort Go uses for up to twelve elements. *)
Definition output_le (x y : redactionOutput) : Prop := String.le (ro_SegmentID x) (ro_SegmentID y).
#[export] Instance output_le_dec : RelDecision output_le.
Proof. intros x y. unfold output_le. apply _. Defined.

(** [int64(math.Ceil(x))] on amd64: out of range is the least integer. *)
Definition ceil_int64 (x : float64) : Z :=
  let least := - 2 ^ 63 in
  match x with
  | S754_zero _ => 0
  | S754_finite s m e =>
    let n := if s then Zneg m else Zpos m in
    let c := if 0 <=? e then n * 2 ^ e else - (- n / 2 ^ (- e)) in
    if (least <=? c) && (c <? 2 ^ 63) then c else least
  | _ => least
  end.
Definition duration_ns (info : MediaInfo) : Z :=
  ceil_int64 (SFmul 53 1024 (mi_DurationSeconds info) billion64).

Section processor.
Context {B : Type} `{BlobStore B} (env : environment).
(** The validator, the inspector and redactor of videos when they are set, and the
    texts of errors. *)
Variables (validate : string → list Artifact → B → result string (string * list string) * B)
  (video : option ((reader → result string MediaInfo) *
                   (reader → list RedactionRegion → string * option string)))
  (store_text : error → string) (blob_text : blob_error → string) (json_error : string → string).

Notation outcome := (bool * option string)%type.

Definition put (key content : string) : W B (result blob_error BlobInfo) :=
  blob_call env (λ now, Put key (NewReader content) now).

(** *** Validation *)

Definition retry (job : ProcessingJob) (workerID cause : string) : W B string :=
  let* now := clock env in
  try _ := store_call env (λ _, RequeueValidationJob (pj_ID job) workerID cause maxAttempts now)
    else e => wret (cause +:+ "; requeue validation job: " +:+ store_text e) in
  wret cause.

Definition normalized_key (sessionID : string) : string := derived_prefix sessionID +:+ "trajectory.json".

Definition validation_result (sessionID : string) (problems : list string) : ValidationResult :=
  let valid := Nat.eqb (length problems) 0 in
  {| vr_ID := ""; vr_JobID := ""; vr_SessionID := "";
     vr_NormalizedKey := if valid then normalized_key sessionID else "";
     vr_SchemaVersion := SchemaVersion; vr_ValidatorVersion := ValidatorVersion;
     vr_Valid := valid; vr_Errors := problems; vr_CreatedAt := 0 |}.

(** The two derived objects; the error that interrupts. *)
Definition write_derived (sessionID normalized : string) : W B (option string) :=
  try _ := put (normalized_key sessionID) normalized
    else e => wret (Some ("write normalized trajectory: " +:+ blob_text e)) in
  match actionsJSONL normalized with
  | None => wret (Some ("encode normalized actions: " +:+ json_error normalized))
  | Some actions =>
    try _ := put (actions_key sessionID) actions
      else e => wret (Some ("write normalized actions: " +:+ blob_text e)) in
    wret None
  end.

Definition processValidation (job : ProcessingJob) (workerID : string) : W B outcome :=
  let sessionID := pj_SessionID job in
  let* artifacts := store_read env (λ d, ListArtifacts d sessionID) in
  try validated := blob_call env (λ _, validate sessionID artifacts)
    else e => (let* cause := retry job workerID e in wret (true, Some cause)) in
  let (normalized, problems) := (validated : string * list string) in
  let result := validation_result sessionID problems in
  let* interrupted := (if vr_Valid result then write_derived sessionID normalized else wret None) in
  match interrupted with
  | Some e => let* cause := retry job workerID e in wret (true, Some cause)
  | None =>
    let* now := clock env in
    try _ := store_call env (λ n, CompleteValidationJob (pj_ID job) workerID result now (env_random env n))
      else e => wret (true, Some ("complete validation job: " +:+ store_text e)) in
    wret (true, None)
  end.

(** *** Redaction *)

Definition retryRedaction (job : RedactionJob) (workerID cause : string) : W B string :=
  let* now := clock env in
  try _ := store_call env (λ _, RequeueRedactionJob (rj_ID job) workerID cause maxAttempts now)
    else e => wret (cause +:+ "; requeue redaction job: " +:+ store_text e) in
  wret cause.

Definition inspectRedactionSource (inspect : reader → result string MediaInfo) (key : string)
    : W B (result string MediaInfo) :=
  try input := blob_call env (λ _, Get key) else e => wret (Err (blob_text e)) in
  wret (inspect input).

(** The pipe between the redactor and [Put]: [Put] reads what the redactor wrote,
    then its error. *)
Definition writeRedactedSegment (redact : reader → list RedactionRegion → string * option string)
    (segment : RedactionSegment) (outputKey : string) : W B (result string BlobInfo) :=
  try input := blob_call env (λ _, Get (sg_SourceKey segment)) else e => wret (Err (blob_text e)) in
  let (written, redactionErr) := redact input (sg_Regions segment) in
  try info := blob_call env (λ now, Put outputKey {| rd_data := written; rd_err := redactionErr |} now)
    else e => wret (Err (blob_text e)) in
  wret (match redactionErr with Some e => Err e | None => Ok info end).

Definition output_key (plan : RedactionPlan) (segment : RedactionSegment) : string :=
  redaction_prefix (pl_SessionID plan) (pl_ID plan) +:+ sg_SegmentID segment +:+ ".mp4".

Definition render_segment (inspect : reader → result string MediaInfo)
    (redact : reader → list RedactionRegion → string * option string)
    (plan : RedactionPlan) (segment : RedactionSegment) : W B (result string redactionOutput) :=
  let id := sg_SegmentID segment in
  try media := inspectRedactionSource inspect (sg_SourceKey segment)
    else e => wret (Err ("inspect " +:+ id +:+ ": " +:+ e)) in
  if existsb (λ r, duration_ns media <=? rg_StartNS r) (sg_Regions segment)
  then wret (Err ("segment " +:+ id +:+ " region starts after media duration"))
  else
    let key := output_key plan segment in
    try info := writeRedactedSegment redact segment key
      else e => wret (Err ("write " +:+ id +:+ ": " +:+ e)) in
    wret (Ok {| ro_SegmentID := id; ro_SourceKey := sg_SourceKey segment;
                ro_Decision := sg_Decision segment; ro_OutputKey := key;
                ro_SHA256 := bi_SHA256 info; ro_Size := bi_Size info;
                ro_Width := mi_Width media; ro_Height := mi_Height media;
                ro_DurationSecond := mi_DurationSeconds media |}).

Fixpoint render_segments inspect redact (plan : RedactionPlan) (segments : list RedactionSegment)
    : W B (result string (list redactionOutput)) :=
  match segments with
  | [] => wret (Ok [])
  | segment :: rest =>
    try output := render_segment inspect redact plan segment else e => wret (Err e) in
    try outputs := render_segments inspect redact plan rest else e => wret (Err e) in
    wret (Ok (output :: outputs))
  end.

Definition redaction_manifest (plan : RedactionPlan) (outputs : list redactionOutput)
    : redactionOutputManifest :=
  {| rm_SessionID := pl_SessionID plan; rm_PlanID := pl_ID plan; rm_PlanVersion := pl_Version plan;
     rm_PlanHash := pl_DocumentHash plan; rm_Outputs := merge_sort output_le outputs |}.

(** From the plan to the stored manifest; the key of the manifest. *)
Definition render_plan inspect redact (plan : RedactionPlan) : W B (result string string) :=
  try outputs := render_segments inspect redact plan (rd_Segments (pl_Document plan))
    else e => wret (Err e) in
  match marshal_manifest (redaction_manifest plan outputs) with
  | Err e => wret (Err ("encode redaction manifest: " +:+ e))
  | Ok manifestBytes =>
    let key := redaction_prefix (pl_SessionID plan) (pl_ID plan) +:+ "manifest.json" in
    try _ := put key (manifestBytes +:+ newline)
      else e => wret (Err ("write redaction manifest: " +:+ blob_text e)) in
    wret (Ok key)
  end.

Definition processRedaction (workerID : string)
    (inspect : reader → result string MediaInfo)
    (redact : reader → list RedactionRegion → string * option string) : W B outcome :=
  let* now := clock env in
  try job := store_call env (λ n, ClaimRedactionJob workerID lease now (env_locked env n))
    else e => wret (match e with
                    | ErrNoRedactionJob => (false, None)
                    | _ => (false, Some ("claim redaction job: " +:+ store_text e))
                    end) in
  let put_back cause := (let* text := retryRedaction job workerID cause in wret (true, Some text)) in
  try plan := store_read env (λ d, GetRedactionPlan d (rj_PlanID job))
    else e => put_back ("load redaction plan: " +:+ store_text e) in
  try manifestKey := render_plan inspect redact plan else e => put_back e in
  let* now := clock env in
  try _ := store_call env (λ _, CompleteRedactionJob (rj_ID job) workerID manifestKey now)
    else e => put_back ("complete redaction job: " +:+ store_text e) in
  wret (true, None).

(** *** Deletion of objects *)

Fixpoint purge_keys (keys : list string) : W B (option string) :=
  match keys with
  | [] => wret None
  | key :: rest =>
    try _ := blob_call env (λ _, Purge key)
      else e => wret (Some ("purge " +:+ key +:+ ": " +:+ blob_text e)) in
    purge_keys rest
  end.

Definition retryRetention (request : RetentionPurgeRequest) (workerID cause : string) : W B string :=
  let* now := clock env in
  try _ := store_call env (λ _, RequeueRetentionPurge (rq_ID request) workerID cause maxAttempts now)
    else e => wret (cause +:+ "; requeue retention purge: " +:+ store_text e) in
  wret cause.

(** What [processRetention] does with a claimed request. *)
Definition run_purge (request : RetentionPurgeRequest) (workerID : string) : W B outcome :=
  let put_back cause := (let* text := retryRetention request workerID cause in wret (true, Some text)) in
  if negb (seqb (rq_State request) "leased") then wret (true, None)
  else
    let* failed := purge_keys (rq_ObjectKeys request) in
    match failed with
    | Some e => put_back e
    | None =>
      let* now := clock env in
      try _ := store_call env (λ _, CompleteRetentionPurge (rq_ID request) workerID now)
        else e => put_back ("complete retention purge: " +:+ store_text e) in
      wret (true, None)
    end.

(** The sweep that queues what has expired, when it is due; its error. *)
Definition sweep (workerID : string) (now : time) : W B (option string) :=
  let* next := next_sweep in
  if IsZero next || negb (now <? next) then
    try _ := store_call env (λ n, QueueExpiredRetention workerID now 100 (env_randoms env n))
      else e => wret (Some ("queue expired retention: " +:+ store_text e)) in
    let* _ := set_next_sweep (now + retentionSweepInterval) in wret None
  else wret None.

Definition processRetention (workerID : string) : W B outcome :=
  let* now := clock env in
  let* failed := sweep workerID now in
  match failed with
  | Some e => wret (false, Some e)
  | None =>
    try request := store_call env (λ n, ClaimRetentionPurge workerID lease now (env_locked env n))
      else e => wret (match e with
                      | ErrNoRetentionPurge => (false, None)
                      | _ => (false, Some ("claim retention purge: " +:+ store_text e))
                      end) in
    run_purge request workerID
  end.

Definition retryDeletion (request : DeletionRequest) (workerID cause : string) : W B string :=
  let* now := clock env in
  try _ := store_call env (λ _, RequeueDeletionRequest (dr_ID request) workerID cause maxAttempts now)
    else e => wret (cause +:+ "; requeue deletion request: " +:+ store_text e) in
  wret cause.

(** What [processDeletion] does with a claimed request. *)
Definition run_deletion (request : DeletionRequest) (workerID : string) : W B outcome :=
  let put_back cause := (let* text := retryDeletion request workerID cause in wret (true, Some text)) in
  if negb (seqb (dr_State request) "leased") then wret (true, None)
  else
    let* failed := purge_keys (dr_ObjectKeys request) in
    match failed with
    | Some e => put_back e
    | None =>
      let* now := clock env in
      try _ := store_call env (λ _, CompleteDeletionRequest (dr_ID request) workerID now)
        else e => put_back ("complete erasure: " +:+ store_text e) in
      wret (true, None)
    end.

Definition processDeletion (workerID : string) : W B outcome :=
  let* now := clock env in
  try request := store_call env (λ n, ClaimDeletionRequest workerID lease now (env_locked env n))
    else e => wret (match e with
                    | ErrNoDeletionRequest => (false, None)
                    | _ => (false, Some ("claim deletion request: " +:+ store_text e))
                    end) in
  run_deletion request workerID.

(** *** One turn *)

Definition handled (o : outcome) : bool := o.1 || bool_decide (is_Some o.2).

(** No validation job is due: redaction, then erasure, then retention. *)
Definition idle_turn (workerID : string) : W B outcome :=
  let* redaction := (match video with
                     | Some (inspect, redact) => processRedaction workerID inspect redact
                     | None => wret (false, None)
                     end) in
  if handled redaction then wret redaction
  else
    let* deletion := processDeletion workerID in
    if handled deletion then wret deletion else processRetention workerID.

Definition ProcessNext (workerID : string) : W B outcome :=
  let* now := clock env in
  try job := store_call env (λ n, ClaimValidationJob workerID lease now (env_locked env n))
    else e => match e with
              | ErrNoJobAvailable => idle_turn workerID
              | _ => wret (false, Some ("claim validation job: " +:+ store_text e))
              end in
  processValidation job workerID.
End processor.

(** ** What a turn does to evidence *)

Definition keys_kept {R} (keys : R → list string) (m m' : gmap string R) : Prop :=
  ∀ id q, m !! id = Some q → ∃ q', m' !! id = Some q' ∧ keys q' = keys q.

#[export] Instance keys_kept_preorder {R} (keys : R → list string) : PreOrder (keys_kept keys).
Proof.
  split.
  - intros m id q Hq. eauto.
  - intros m1 m2 m3 H1 H2 id q Hq. destruct (H1 id q Hq) as (q2 & Hq2 & <-). by apply H2.
Qed.

Lemma keys_kept_alter {R} (keys : R → list string) f id (m : gmap string R) :
  (∀ q, keys (f q) = keys q) → keys_kept keys m (alter f id m).
Proof.
  intros Hf k q Hq. destruct (decide (k = id)) as [->|Hk].
  - exists (f q). by rewrite lookup_alter_eq, Hq.
  - exists q. by rewrite lookup_alter_ne.
Qed.

Lemma keys_kept_insert {R} (keys : R → list string) id r (m : gmap string R) :
  m !! id = None → keys_kept keys m (<[id := r]> m).
Proof.
  intros Hn k q Hq. exists q. split; [|done]. apply lookup_insert_Some. right.
  split; [congruence|done].
Qed.

(** No request to delete objects disappears or changes its list of objects. *)
Definition requests_kept : relation db :=
  onto (λ d, (deletion_requests d, retention_purge_requests d))
    (λ x y, keys_kept del_object_keys x.1 y.1 ∧ keys_kept prg_object_keys x.2 y.2).

#[export] Instance requests_kept_preorder : PreOrder requests_kept.
Proof.
  apply onto_preorder. split; [by intros [m p]|].
  intros x y z [H1 H2] [H3 H4]. split; [by trans y.1|by trans y.2].
Qed.

(** An erasure or a purge of the database names the object. *)
Definition listed (d : db) (k : string) : Prop :=
  (∃ id q, deletion_requests d !! id = Some q ∧ k ∈ del_object_keys q) ∨
  (∃ id q, retention_purge_requests d !! id = Some q ∧ k ∈ prg_object_keys q).

Lemma listed_kept d d' k : requests_kept d d' → listed d k → listed d' k.
Proof.
  intros [H1 H2] [(id & q & Hq & Hk)|(id & q & Hq & Hk)]; [left|right].
  - destruct (H1 id q Hq) as (q' & ? & Heq). exists id, q'. by rewrite Heq.
  - destruct (H2 id q Hq) as (q' & ? & Heq). exists id, q'. by rewrite Heq.
Qed.

Ltac kept_requests :=
  unfold requests_kept; respects_all;
  try (split; cbn; try reflexivity; apply keys_kept_alter; by intros ?).

Lemma claim_validation_kept a b c l : respects requests_kept (ClaimValidationJob a b c l).
Proof. kept_requests. Qed.
Lemma complete_validation_kept a b c l r : respects requests_kept (CompleteValidationJob a b c l r).
Proof. kept_requests. Qed.
Lemma requeue_validation_kept a b c l r : respects requests_kept (RequeueValidationJob a b c l r).
Proof. kept_requests. Qed.
Lemma claim_redaction_kept a b c l : respects requests_kept (ClaimRedactionJob a b c l).
Proof. kept_requests. Qed.
Lemma complete_redaction_kept a b c l : respects requests_kept (CompleteRedactionJob a b c l).
Proof. kept_requests. Qed.
Lemma requeue_redaction_kept a b c l r : respects requests_kept (RequeueRedactionJob a b c l r).
Proof. kept_requests. Qed.
Lemma claim_deletion_kept a b c l : respects requests_kept (ClaimDeletionRequest a b c l).
Proof. kept_requests. Qed.
Lemma complete_deletion_kept a b c : respects requests_kept (CompleteDeletionRequest a b c).
Proof. kept_requests. Qed.
Lemma requeue_deletion_kept a b c l r : respects requests_kept (RequeueDeletionRequest a b c l r).
Proof. kept_requests. Qed.
Lemma claim_purge_kept a b c l : respects requests_kept (ClaimRetentionPurge a b c l).
Proof. kept_requests. Qed.
Lemma complete_purge_kept a b c : respects requests_kept (CompleteRetentionPurge a b c).
Proof. kept_requests. Qed.
Lemma requeue_purge_kept a b c l r : respects requests_kept (RequeueRetentionPurge a b c l r).
Proof. kept_requests. Qed.

Lemma queue_candidate_kept actor now r c : respects requests_kept (queue_candidate actor now r c).
Proof.
  intros d n d' H. unfold queue_candidate in H. stmt_inv.
  destruct (purge_conflict _ _ c) eqn:E; insert_inv; [done|].
  unfold purge_conflict in E. apply orb_false_iff in E as [E _].
  unfold has_row in E. apply bool_decide_eq_false, eq_None_not_Some in E.
  split; [by cbn|]. cbn. by apply keys_kept_insert.
Qed.

Lemma sweep_kept actor now limit randoms :
  respects requests_kept (QueueExpiredRetention actor now limit randoms).
Proof.
  unfold QueueExpiredRetention.
  apply respects_bind; [apply _|apply respects_fail_if, _|intros _].
  apply respects_bind; [apply _|apply respects_get, _|intros d].
  generalize 0%nat. induction (expired_candidates d now limit) as [|c l IH]; intros n; cbn.
  - apply respects_ret, _.
  - apply respects_bind; [apply _|apply queue_candidate_kept|intros k].
    apply respects_bind; [apply _|apply IH|intros t]. apply respects_ret, _.
Qed.

(** The objects of a claimed request are those its row lists. *)
Lemma claim_deletion_listed workerID leaseDuration now locked d request d' k :
  ClaimDeletionRequest workerID leaseDuration now locked d = Ok (request, d') →
  k ∈ dr_ObjectKeys request → listed d' k.
Proof.
  intros H Hk. pose proof (claim_deletion_kept _ _ _ _ _ _ _ H) as Hkept.
  apply (listed_kept d); [done|]. left. clear Hkept.
  unfold ClaimDeletionRequest in H. stmt_inv.
  match goal with H : first_due _ _ _ _ = Some (?i, ?q) |- _ =>
    apply first_due_some in H as [Hq _]; exists i, q; split; [exact Hq|] end.
  repeat match goal with H : (if ?b then _ else _) _ = Ok _ |- _ => destruct b end;
    stmt_inv; exact Hk.
Qed.

Lemma claim_purge_listed workerID leaseDuration now locked d request d' k :
  ClaimRetentionPurge workerID leaseDuration now locked d = Ok (request, d') →
  k ∈ rq_ObjectKeys request → listed d' k.
Proof.
  intros H Hk. pose proof (claim_purge_kept _ _ _ _ _ _ _ H) as Hkept.
  apply (listed_kept d); [done|]. right. clear Hkept.
  unfold ClaimRetentionPurge in H. stmt_inv.
  match goal with H : first_due _ _ _ _ = Some (?i, ?q) |- _ =>
    apply first_due_some in H as [Hq _]; exists i, q; split; [exact Hq|] end.
  repeat match goal with H : (if ?b then _ else _) _ = Ok _ |- _ => destruct b end;
    stmt_inv; exact Hk.
Qed.

Section evidence.
Context {B : Type} {HS : BlobStore B} {HV : BlobView B} {HL : BlobLaws B}.

(** Every raw object survives or is named by a request. *)
Definition accounted (w w' : world B) : Prop :=
  store_ok (w_blobs w) →
  store_ok (w_blobs w') ∧ requests_kept (w_db w) (w_db w') ∧
  ∀ k c, isRaw k = true → object (w_blobs w) k = Some c →
    object (w_blobs w') k = Some c ∨ listed (w_db w') k.

#[local] Instance accounted_preorder : PreOrder accounted.
Proof.
  split.
  - intros w Hok. split; [done|]. split; [done|]. eauto.
  - intros w1 w2 w3 H1 H2 Hok. destruct (H1 Hok) as (Hok2 & Hk1 & Hr1).
    destruct (H2 Hok2) as (Hok3 & Hk2 & Hr2). split; [done|]. split; [by trans (w_db w2)|].
    intros k c Hk Hc. destruct (Hr1 k c Hk Hc) as [Hc2|Hl]; [by apply Hr2|].
    right. by apply (listed_kept (w_db w2)).
Qed.

Context (env : environment)
  (others : ∀ n d, requests_kept d (env_meanwhile env n d)).

Lemma accounted_clock : does accounted (clock (B:=B) env).
Proof using Type. intros w a w' [= _ <-] Hok. cbn. split; [done|]. split; [done|]. eauto. Qed.

Lemma accounted_set_sweep t : does accounted (set_next_sweep (B:=B) t).
Proof using Type. intros w a w' [= _ <-] Hok. cbn. split; [done|]. split; [done|]. eauto. Qed.

Lemma accounted_next_sweep : does accounted (next_sweep (B:=B)).
Proof using Type. intros w a w' [= _ <-]. reflexivity. Qed.

Lemma accounted_read {A} (query : db → A) : does accounted (store_read (B:=B) env query).
Proof using others.
  intros w a w' [= _ <-] Hok. cbn. split; [done|]. split; [apply others|]. eauto.
Qed.

Lemma accounted_store {A} (op : nat → tx A) :
  (∀ n, respects requests_kept (op n)) → does accounted (store_call (B:=B) env op).
Proof using others.
  intros Hop w a w' H Hok. unfold store_call, run_tx in H.
  destruct (op (w_tick w) _) as [[r d]|e] eqn:E; injection H as _ <-; cbn;
    (split; [done|]); (split; [|by eauto]).
  - trans (env_meanwhile env (w_tick w) (w_db w)); [apply others|by eapply Hop].
  - apply others.
Qed.

(** A call that may change one object, which is not raw. *)
Lemma accounted_blob {A} (op : time → B → A * B) :
  (∀ t b x b', store_ok b → op t b = (x, b') →
     store_ok b' ∧ ∀ k c, isRaw k = true → object b k = Some c → object b' k = Some c) →
  does accounted (blob_call env op).
Proof using Type.
  intros Hop w a w' H Hok. unfold blob_call in H.
  destruct (op _ (w_blobs w)) as [x b'] eqn:E. injection H as _ <-. cbn.
  destruct (Hop _ _ _ _ Hok E) as [? Hk]. split; [done|]. split; [done|]. eauto.
Qed.

Lemma accounted_get key : does accounted (blob_call env (λ _, Get key)).
Proof using HL.
  apply accounted_blob. intros _ b x b' Hok E. destruct (get_law b key x b' Hok E) as [[? Hk] _].
  split; [done|]. intros k c _. by rewrite Hk.
Qed.

Lemma accounted_put key r : does accounted (blob_call env (λ now, Put key r now)).
Proof using HL.
  apply accounted_blob. intros t b x b' Hok E.
  destruct (put_law b key r t x b' Hok E) as ([? Hk] & Hraw & _).
  split; [done|]. intros k c Hr Hc. destruct (decide (k = key)) as [->|Hne].
  - destruct Hraw as [-> _]; [done|by rewrite Hc|done].
  - by rewrite Hk.
Qed.

(** Deleting listed objects is accounted for. *)
Lemma accounted_purge blob_text keys w x w' :
  (∀ k, k ∈ keys → listed (w_db w) k) → purge_keys env blob_text keys w = (x, w') → accounted w w'.
Proof using HL.
  revert w. induction keys as [|key keys IH]; intros w Hl; cbn; [intros [= _ <-]; reflexivity|].
  unfold wbind at 1, blob_call at 1. destruct (Purge key (w_blobs w)) as [r b'] eqn:E.
  set (w1 := {| w_db := w_db w; w_blobs := b' |}). intros H.
  assert (H1 : accounted w w1).
  { intros Hok. destruct (purge_law _ key r b' Hok E) as [[? Hk] _]. cbn.
    split; [done|]. split; [done|]. intros k c _ Hc. destruct (decide (k = key)) as [->|Hne].
    - right. apply Hl. left.
    - left. by rewrite Hk. }
  trans w1; [done|]. destruct r; [|by injection H as _ <-].
  apply (IH w1); [|done]. intros k Hk. apply Hl. by right.
Qed.

(** *** The parts of a turn *)

Variables (validate : string → list Artifact → B → result string (string * list string) * B)
  (video : option ((reader → result string MediaInfo) *
                   (reader → list RedactionRegion → string * option string)))
  (store_text : error → string) (blob_text : blob_error → string) (json_error : string → string).
Hypothesis validate_reads : ∀ sessionID artifacts b x b',
  store_ok b → validate sessionID artifacts b = (x, b') → only_reads b b'.

Lemma accounted_validate sessionID artifacts :
  does accounted (blob_call env (λ _, validate sessionID artifacts)).
Proof using validate_reads.
  apply accounted_blob. intros _ b x b' Hok E. destruct (validate_reads _ _ _ _ _ Hok E) as [? Hk].
  split; [done|]. intros k c _. by rewrite Hk.
Qed.

#[local] Hint Resolve accounted_clock accounted_set_sweep accounted_next_sweep accounted_read
  accounted_get accounted_put accounted_validate : accounted.
#[local] Hint Resolve claim_validation_kept complete_validation_kept requeue_validation_kept
  claim_redaction_kept complete_redaction_kept requeue_redaction_kept complete_deletion_kept
  requeue_deletion_kept complete_purge_kept requeue_purge_kept sweep_kept : accounted.

Ltac accounted_step :=
  match goal with
  | |- does _ (wbind _ _) => apply does_bind; [apply _| |intros ?]
  | |- does _ (wret _) => apply does_ret; apply _
  | |- does _ (store_call _ _) => apply accounted_store; intros ?; auto with accounted
  | |- does _ (match ?x with _ => _ end) => destruct x
  | |- does _ (let _ := _ in _) => cbv zeta
  | |- does _ _ => solve [auto with accounted]
  | |- does _ ?m => let h := head_of m in unfold h
  end.

Lemma accounted_validation job workerID :
  does accounted (processValidation env validate store_text blob_text json_error job workerID).
Proof using All. unfold processValidation, write_derived, put. repeat accounted_step. Qed.

Lemma accounted_segments inspect redact plan segments :
  does accounted (render_segments env blob_text inspect redact plan segments).
Proof using HL others.
  induction segments as [|s l IH]; cbn [render_segments]; [by repeat accounted_step|].
  apply does_bind; [apply _|by unfold render_segment; repeat accounted_step|intros [?|?]];
    repeat first [exact IH | accounted_step].
Qed.

Lemma accounted_redaction workerID inspect redact :
  does accounted (processRedaction env store_text blob_text workerID inspect redact).
Proof using HL others.
  unfold processRedaction, render_plan, put.
  repeat first [apply accounted_segments | accounted_step].
Qed.

Lemma accounted_run_deletion request workerID w x w' :
  (∀ k, k ∈ dr_ObjectKeys request → listed (w_db w) k) →
  run_deletion env store_text blob_text request workerID w = (x, w') → accounted w w'.
Proof using HL others.
  intros Hl. unfold run_deletion. destruct (negb _); [intros [= _ <-]; reflexivity|].
  unfold wbind at 1. destruct (purge_keys env blob_text _ w) as [failed w1] eqn:E.
  intros H. trans w1; [by eapply accounted_purge|].
  revert H. destruct failed; eapply (_ : does accounted _).
Unshelve.
  - repeat accounted_step.
  - repeat accounted_step.
Qed.

Lemma accounted_run_purge request workerID w x w' :
  (∀ k, k ∈ rq_ObjectKeys request → listed (w_db w) k) →
  run_purge env store_text blob_text request workerID w = (x, w') → accounted w w'.
Proof using HL others.
  intros Hl. unfold run_purge. destruct (negb _); [intros [= _ <-]; reflexivity|].
  unfold wbind at 1. destruct (purge_keys env blob_text _ w) as [failed w1] eqn:E.
  intros H. trans w1; [by eapply accounted_purge|].
  revert H. destruct failed; eapply (_ : does accounted _).
Unshelve.
  - repeat accounted_step.
  - repeat accounted_step.
Qed.

(** A claim followed by work on what it returned. *)
Lemma accounted_claim {A C} (op : nat → tx A) (k : res A → W B C) :
  (∀ n, respects requests_kept (op n)) →
  (∀ e, does accounted (k (Err e))) →
  (∀ n d a d' w x w', op n d = Ok (a, d') → w_db w = d' → k (Ok a) w = (x, w') → accounted w w') →
  does accounted (wbind (store_call env op) k).
Proof using others.
  intros Hop He Hk w x w' H. unfold wbind in H.
  destruct (store_call env op w) as [r w1] eqn:E.
  trans w1; [by eapply accounted_store|]. destruct r as [a|e]; [|by eapply He].
  unfold store_call, run_tx in E.
  destruct (op (w_tick w) _) as [[a' d']|] eqn:E'; [|done]. injection E as -> <-.
  by eapply Hk.
Qed.

Lemma accounted_deletion workerID :
  does accounted (processDeletion env store_text blob_text workerID).
Proof using HL others.
  unfold processDeletion. accounted_step; [accounted_step|]. apply accounted_claim.
  - intros ?. apply claim_deletion_kept.
  - intros e. repeat accounted_step.
  - intros n d a' d' w x w' Hc <- H. eapply accounted_run_deletion; [|done].
    intros k. by eapply claim_deletion_listed.
Qed.

Lemma accounted_retention workerID :
  does accounted (processRetention env store_text blob_text workerID).
Proof using HL others.
  unfold processRetention. accounted_step; [accounted_step|].
  apply does_bind; [apply _|unfold sweep; repeat accounted_step|intros [e|]]; [repeat accounted_step|].
  apply accounted_claim.
  - intros ?. apply claim_purge_kept.
  - intros e. repeat accounted_step.
  - intros n d a' d' w x w' Hc <- H. eapply accounted_run_purge; [|done].
    intros k. by eapply claim_purge_listed.
Qed.

Lemma accounted_turn workerID :
  does accounted (ProcessNext env validate video store_text blob_text json_error workerID).
Proof using All.
  unfold ProcessNext, idle_turn.
  repeat first [apply accounted_validation | apply accounted_redaction | apply accounted_deletion
               | apply accounted_retention | accounted_step].
Qed.
End evidence.
