(* ===== verification/Turns.v ===== *)
(** * What turns of the worker achieve

    Theorems on [Worker]: erasures are carried out and the queue of erasures drains,
    deleted evidence is always named by a request, a session is ready for review
    only on evidence, and what the outputs of a redaction are. *)

From S2P Require Import Prelude Domain Schema Sha256 Frame Text Encoding Json Blob R2 Store Validator Pipeline Redaction Media Erasure Retention Steps Worker.

(** ** Evidence *)

(** C5: no raw evidence disappears unaccounted.  Whatever job a turn handles, however
    the object store, the redactor and other clients behave (as long as these do
    not delete deletion requests), an object under [raw/] is after the turn what it
    was, or it is named by an erasure or a retention purge that the database
    records. *)
Theorem evidence_accounted {B} `{BlobLaws B} env schema inspector json_error blob_text video
    store_text workerID (w : world B) x w' k content :
  (∀ n d, requests_kept d (env_meanwhile env n d)) → store_ok (w_blobs w) →
  ProcessNext env (Validate schema inspector json_error blob_text) video store_text blob_text
    json_error workerID w = (x, w') →
  isRaw k = true → object (w_blobs w) k = Some content →
  object (w_blobs w') k = Some content ∨ listed (w_db w') k.
Proof.
  intros Hothers Hok Hrun Hk Hc.
  assert (Hv : ∀ sessionID artifacts b y b', store_ok b →
    Validate schema inspector json_error blob_text sessionID artifacts b = (y, b') → only_reads b b')
    by (intros; by eapply Validate_reads).
  destruct (accounted_turn env Hothers _ video store_text blob_text json_error Hv workerID
              w x w' Hrun Hok) as (_ & _ & Hkeep).
  by apply Hkeep.
Qed.


(** ** Erasures *)

(** The turns a request can still take. *)
Definition erasure_work (q : deletion_request_row) : nat :=
  if seqb (del_state q) "queued" || seqb (del_state q) "leased"
  then S (Z.to_nat (maxAttempts - del_attempt q)) else 0.
Definition erasures_work (m : gmap string deletion_request_row) : nat :=
  map_fold (λ _ q n, erasure_work q + n)%nat 0%nat m.

Lemma erasures_work_insert m id q q' :
  m !! id = Some q →
  (erasures_work (<[id := q']> m) + erasure_work q = erasures_work m + erasure_work q')%nat.
Proof.
  intros Hq. unfold erasures_work. rewrite <-(insert_delete_id m id q Hq) at 2.
  rewrite <-insert_delete_eq.
  rewrite !map_fold_insert_L; [lia|..]; try (by rewrite lookup_delete_eq); intros; lia.
Qed.

Lemma due_erasure_work now k q : deletion_due now k q = true → (1 ≤ erasure_work q)%nat.
Proof.
  unfold deletion_due, queue_due, erasure_work. rewrite orb_true_iff, !andb_true_iff.
  intros [[-> _]|[-> _]]; [|rewrite orb_true_r]; cbn; lia.
Qed.

Section turns.
Context {B : Type} `{BlobStore B} (env : environment) (Hidle : undisturbed env).
Variables (store_text : error → string) (blob_text : blob_error → string).

Lemma store_call_idle {A} (op : nat → tx A) (w : world B) :
  store_call env op w =
  let (r, d) := run_tx (op (w_tick w)) (w_db w) in
  (r, {| w_db := d; w_blobs := w_blobs w; w_next_sweep := w_next_sweep w; w_tick := S (w_tick w) |}).
Proof using Hidle. unfold store_call. by rewrite Hidle. Qed.

Lemma purge_keys_db keys (w : world B) x w' :
  purge_keys env blob_text keys w = (x, w') → w_db w' = w_db w.
Proof using Type.
  revert w. induction keys as [|key keys IH]; intros w; cbn; [by intros [= _ <-]|].
  unfold wbind, blob_call. destruct (Purge key (w_blobs w)) as [[r|e] b'].
  - by intros ?%IH.
  - by intros [= _ <-].
Qed.

Lemma retry_deletion_run request workerID cause (w : world B) q :
  deletion_requests (w_db w) !! dr_ID request = Some q →
  del_state q = "leased" → coalesce "" (del_leased_by q) = workerID →
  ∃ e w', retryDeletion env store_text request workerID cause w = (cause, w') ∧
    w_db w' = set_audit_events (λ a, a ++ [e]) (set_deletion_requests
      <[dr_ID request := requeued_deletion cause maxAttempts (env_now env (w_tick w)) q]> (w_db w)).
Proof using Hidle.
  intros Hq H1 H2. unfold retryDeletion, wbind, clock. rewrite store_call_idle. cbn.
  destruct (RequeueDeletionRequest_run (dr_ID request) workerID cause maxAttempts
              (env_now env (w_tick w)) (w_db w) q Hq H1 H2) as [e He].
  unfold run_tx. rewrite He. cbn. eauto.
Qed.

(** What a turn does with a request it has leased. *)
Lemma run_deletion_work request workerID (w : world B) x w' q :
  deletion_requests (w_db w) !! dr_ID request = Some q →
  del_state q = "leased" → coalesce "" (del_leased_by q) = workerID →
  dr_State request = "leased" →
  run_deletion env store_text blob_text request workerID w = (x, w') →
  x.1 = true ∧ ∃ q', deletion_requests (w_db w') = <[dr_ID request := q']> (deletion_requests (w_db w)) ∧
    (del_state q' = "completed" ∨ ∃ message now, q' = requeued_deletion message maxAttempts now q).
Proof using Hidle.
  intros Hq H1 H2 H3. unfold run_deletion. rewrite H3. cbn [seqb negb].
  rewrite (proj2 (seqb_true _ _)) by done. cbn [negb]. unfold wbind at 1.
  destruct (purge_keys env blob_text _ w) as [failed w1] eqn:Ep. apply purge_keys_db in Ep as Hdb.
  destruct failed as [cause|].
  - unfold wbind. rewrite <-Hdb in Hq.
    destruct (retry_deletion_run request workerID cause w1 q Hq H1 H2) as (e & w2 & -> & Hw).
    intros [= <- <-]. split; [done|]. rewrite Hw. db_simpl. rewrite Hdb. eauto 10.
  - unfold wbind at 1, clock at 1. unfold wbind at 1. rewrite store_call_idle.
    cbn [w_db w_tick w_blobs w_next_sweep].
    unfold run_tx. destruct (CompleteDeletionRequest _ _ _ _) as [[[] d2]|e] eqn:Ec.
    + intros [= <- <-]. split; [done|]. rewrite Hdb in Ec.
      apply (CompleteDeletionRequest_ok _ _ _ _ q) in Ec as (_ & _ & _ & _ & Hd); [|done].
      cbn. rewrite Hd. eexists. split; [done|]. by left.
    + set (w2 := {| w_db := w_db w1; w_tick := _ |}). unfold wbind.
      assert (Hq2 : deletion_requests (w_db w2) !! dr_ID request = Some q) by (cbn; by rewrite Hdb).
      destruct (retry_deletion_run request workerID ("complete erasure: " +:+ store_text e) w2 q Hq2 H1 H2)
        as (e' & w3 & -> & Hw).
      intros [= <- <-]. split; [done|]. rewrite Hw. db_simpl. cbn. rewrite Hdb. eauto 10.
Qed.

Lemma failed_attempt_work workerID expires now0 message now1 now q k :
  deletion_due now k q = true →
  (erasure_work (requeued_deletion message maxAttempts now1 (lease_deletion workerID expires now0 q))
   < erasure_work q)%nat.
Proof using Type.
  intros Hd. pose proof (due_erasure_work now k q Hd) as Hw. revert Hw.
  unfold erasure_work. destruct (_ || _) eqn:E; [intros _|lia].
  unfold requeued_deletion. cbn [lease_deletion update_deletion del_attempt del_state].
  destruct (Z.leb_spec maxAttempts (del_attempt q + 1)).
  - change (seqb "dead_letter" "queued" || seqb "dead_letter" "leased") with false. cbv iota. lia.
  - change (seqb "queued" "queued" || seqb "queued" "leased") with true. cbv iota.
    unfold maxAttempts in *. lia.
Qed.

(** A turn that takes a request leaves less work; another one writes nothing. *)
Lemma deletion_turn_work workerID (w : world B) x w' :
  processDeletion env store_text blob_text workerID w = (x, w') →
  if x.1 then (erasures_work (deletion_requests (w_db w')) < erasures_work (deletion_requests (w_db w)))%nat
  else w_db w' = w_db w.
Proof using Hidle.
  unfold processDeletion. unfold wbind at 1, clock at 1. unfold wbind at 1.
  rewrite store_call_idle. cbn [w_db w_tick w_blobs w_next_sweep].
  set (now := env_now env (w_tick w)). set (locked := env_locked env _). set (d := w_db w).
  destruct (first_due del_available_at (claimable_deletion d now) locked (deletion_requests d))
    as [[id q]|] eqn:Hf.
  - pose proof (first_due_some _ _ _ _ _ _ Hf) as (Hq & Hdue & _).
    unfold claimable_deletion in Hdue. apply andb_true_iff in Hdue as [Hdue Hrow].
    unfold has_row in Hrow. apply bool_decide_eq_true in Hrow as [s Hs].
    apply first_due_earliest in Hf.
    destruct (ClaimDeletionRequest_run workerID lease now locked d id q s Hf Hs)
      as (request & l & Hrun & Hid & _ & Hst).
    unfold run_tx. rewrite Hrun. cbn beta iota.
    set (q1 := claimed_deletion workerID lease now d s q) in *.
    set (w1 := {| w_db := _; w_tick := _ |}).
    pose proof (due_erasure_work now id q Hdue) as Hw.
    pose proof (erasures_work_insert (deletion_requests d) id q q1 Hq) as Hsum.
    destruct (seqb (dr_State request) "leased") eqn:Hl.
    + apply seqb_true in Hl. intros Hturn.
      assert (Hq1 : q1 = lease_deletion workerID (now + lease) now q).
      { rewrite Hl in Hst. unfold q1, claimed_deletion in *.
        destruct (negb _); [done|]. by destruct (under_hold _ _). }
      apply (run_deletion_work request workerID w1 x w' q1) in Hturn as (-> & q2 & Hd & Hq2).
      * rewrite Hd, Hid. cbn [w_db w1]. db_simpl. rewrite insert_insert_eq.
        pose proof (erasures_work_insert (deletion_requests d) id q q2 Hq) as Hsum2.
        destruct Hq2 as [Hq2|(message & now1 & ->)].
        -- assert (erasure_work q2 = 0%nat) by (unfold erasure_work; by rewrite Hq2). fold d. lia.
        -- rewrite Hq1 in *. pose proof (failed_attempt_work workerID (now + lease) now message now1 now q id Hdue).
           fold d. lia.
      * rewrite Hid. cbn. by rewrite lookup_insert_eq.
      * by rewrite Hq1.
      * by rewrite Hq1.
      * done.
    + unfold run_deletion. rewrite Hl. cbn [negb]. intros [= <- <-]. cbn.
      assert (erasure_work q1 = 0%nat) as Hz.
      { rewrite Hst in Hl. unfold q1, claimed_deletion in *.
        destruct (negb _); [done|]. by destruct (under_hold _ _). }
      fold d. lia.
  - unfold run_tx, ClaimDeletionRequest. unfold claimable_deletion in Hf. tx_run. rewrite Hf.
    by intros [= <- <-].
Qed.

(** The results of [n] turns, one after the other. *)
Fixpoint erasure_turns (workerID : string) (n : nat) (w : world B) : list (bool * option string) * world B :=
  match n with
  | O => ([], w)
  | S n' =>
    let (x, w) := processDeletion env store_text blob_text workerID w in
    let (l, w) := erasure_turns workerID n' w in (x :: l, w)
  end.
End turns.

(** C12: the queue of erasures drains.  While no other client writes, the number of turns
    that take up a request is bounded, whatever the clock, the locks and the object
    store do and however many turns are taken: a queued or leased request is good for
    one turn more than it has attempts left of three, so a request that cannot be
    carried out is given up. *)
Theorem erasure_queue_drains {B} `{BlobStore B} env store_text blob_text workerID n (w : world B) :
  undisturbed env →
  (length (List.filter fst (erasure_turns env store_text blob_text workerID n w).1)
     ≤ erasures_work (deletion_requests (w_db w)))%nat.
Proof.
  intros Hidle. revert w. induction n as [|n IH]; intros w; cbn [erasure_turns]; [cbn; lia|].
  destruct (processDeletion env store_text blob_text workerID w) as [x w1] eqn:E.
  apply (deletion_turn_work env Hidle) in E. specialize (IH w1).
  destruct (erasure_turns _ _ _ _ n w1) as [l w2].
  destruct x as [[] e]; cbn in *; [lia|]. by rewrite E in IH.
Qed.

Lemma erasure_queue_drains_witness :
  let q := {| del_organization_id := "org_1"; del_session_id := "sess_1"; del_reason := "asked";
              del_object_keys := ["/not/a/key"]; del_state := "queued"; del_attempt := 0;
              del_manual_requeues := 0; del_available_at := 1; del_leased_by := None;
              del_lease_expires_at := None; del_requested_by := "admin"; del_requested_at := 1;
              del_completed_at := None; del_last_error := None; del_updated_at := 1 |} in
  let env := {| env_now := λ n, Z.of_nat n * hour; env_meanwhile := λ _ d, d; env_locked := λ _, ∅;
                env_random := λ _, None; env_randoms := λ _ _, None |} in
  let w := {| w_db := set_deletion_requests <["delete_1" := q]> redactable_db;
              w_blobs := {| ls_root := "/blobs"; ls_files := ∅; ls_dirs := {["/blobs"]} |};
              w_next_sweep := 0; w_tick := 1 |} in
  let turns := (erasure_turns env (λ _, "") (λ _, "invalid key") "worker" 6 w).1 in
  map fst turns = [true; true; true; false; false; false] ∧ (length (List.filter fst turns) ≤ 4)%nat.
Proof.
  intros q env w turns. split; [vm_compute; reflexivity|].
  apply (erasure_queue_drains env (λ _, "") (λ _, "invalid key") "worker" 6 w).
  intros n d. reflexivity.
Defined.

(** *** A due erasure is carried out *)

Lemma claim_validation_none workerID now locked d :
  TrimSpace workerID ≠ "" →
  (∀ k j, processing_jobs d !! k = Some j → validation_due now k j = false) →
  ClaimValidationJob workerID lease now locked d = Err ErrNoJobAvailable.
Proof.
  intros Hw Hn. unfold ClaimValidationJob. op_run. rewrite (claim_args _ _ Hw) by done.
  by rewrite (proj2 (first_due_none job_available_at _ _ _)) by eauto.
Qed.

Lemma claim_redaction_none workerID now locked d :
  TrimSpace workerID ≠ "" →
  (∀ k j, redaction_jobs d !! k = Some j → redaction_due now k j = false) →
  ClaimRedactionJob workerID lease now locked d = Err ErrNoRedactionJob.
Proof.
  intros Hw Hn. unfold ClaimRedactionJob. op_run. rewrite (claim_args _ _ Hw) by done.
  by rewrite (proj2 (first_due_none rjb_available_at _ _ _)) by eauto.
Qed.

Section erasure.
Context {B : Type} {HS : BlobStore B} {HV : BlobView B} {HL : BlobLaws B}.
Context (env : environment) (Hidle : undisturbed env).
Variables (validate : string → list Artifact → B → result string (string * list string) * B)
  (video : option ((reader → result string MediaInfo) *
                   (reader → list RedactionRegion → string * option string)))
  (store_text : error → string) (blob_text : blob_error → string) (json_error : string → string).

Lemma purge_keys_done keys (w : world B) :
  store_ok (w_blobs w) →
  (∀ key b, key ∈ keys → store_ok b → is_ok (Purge key b).1 = true) →
  ∃ w', purge_keys env blob_text keys w = (None, w') ∧ w_db w' = w_db w ∧ store_ok (w_blobs w') ∧
    (∀ key, key ∈ keys → object (w_blobs w') key = None) ∧
    (∀ key, key ∉ keys → object (w_blobs w') key = object (w_blobs w) key).
Proof using HL.
  revert w. induction keys as [|key keys IH]; intros w Hok Hp; cbn.
  { exists w. split_and!; try done. by intros k ?%elem_of_nil. }
  unfold wbind, blob_call. specialize (Hp key (w_blobs w)) as Hkey.
  destruct (Purge key (w_blobs w)) as [r b] eqn:E.
  destruct (purge_law _ _ _ _ Hok E) as [[Hb Hsame] Hgone].
  destruct r as [[]|e]; [|discriminate (Hkey ltac:(left) Hok)].
  specialize (Hgone eq_refl).
  destruct (IH {| w_db := w_db w; w_blobs := b; w_next_sweep := w_next_sweep w; w_tick := S (w_tick w) |})
    as (w' & -> & Hdb & Hok' & Hin & Hout); [done|intros; apply Hp; [by right|done]|].
  cbn in Hout. exists w'. split_and!; try done.
  - intros k Hk. destruct (decide (k ∈ keys)) as [|Hn]; [by apply Hin|].
    apply elem_of_cons in Hk as [->|]; [|done]. by rewrite Hout.
  - intros k [Hk Hk']%not_elem_of_cons. rewrite Hout, Hsame; done.
Qed.

(** Up to the erasure queue when nothing else is due. *)
Lemma idle_until_deletion workerID (w : world B) :
  TrimSpace workerID ≠ "" →
  (∀ n k j, processing_jobs (w_db w) !! k = Some j → validation_due (env_now env n) k j = false) →
  (∀ n k j, redaction_jobs (w_db w) !! k = Some j → redaction_due (env_now env n) k j = false) →
  ∃ w1, w_db w1 = w_db w ∧ w_blobs w1 = w_blobs w ∧
    ∀ x w', processDeletion env store_text blob_text workerID w1 = (x, w') → handled x = true →
      ProcessNext env validate video store_text blob_text json_error workerID w = (x, w').
Proof using Hidle.
  intros Hw Hv Hr. unfold ProcessNext, wbind at 1, clock at 1. unfold wbind at 1.
  rewrite (store_call_idle env Hidle). cbn [w_db w_tick w_blobs w_next_sweep].
  unfold run_tx. rewrite claim_validation_none by eauto.
  unfold idle_turn. set (w2 := {| w_db := w_db w; w_tick := _ |}).
  assert (∃ w1, w_db w1 = w_db w ∧ w_blobs w1 = w_blobs w ∧
    match video with
    | Some (inspect, redact) => processRedaction env store_text blob_text workerID inspect redact
    | None => wret (false, None)
    end w2 = ((false, None), w1)) as (w1 & H1 & H2 & H3).
  { destruct video as [[inspect redact]|]; [|by exists w2].
    unfold processRedaction, wbind at 1, clock at 1. unfold wbind at 1.
    rewrite (store_call_idle env Hidle). unfold run_tx. cbn [w_db w_tick w_blobs w_next_sweep w2].
    rewrite claim_redaction_none by eauto. eexists. by refine (conj _ (conj _ eq_refl)). }
  exists w1. split; [done|]. split; [done|]. intros x w' Hx Hh.
  unfold wbind at 1. rewrite H3. cbn. unfold wbind. rewrite Hx. by rewrite Hh.
Qed.
End erasure.

(** C10: a due erasure is carried out.  When no validation and no redaction is due, no
    other client interferes, the session may be erased and is not under legal hold,
    and the object store can delete, one turn completes the earliest due request:
    the session and its rows are erased as [complete_erasure] says, every object of
    the request is gone and every other object is as it was. *)
Theorem due_erasure_completes {B} `{BlobLaws B} env validate video store_text blob_text json_error
    workerID (w : world B) id q s :
  let d := w_db w in
  let sessionID := del_session_id q in
  undisturbed env → store_ok (w_blobs w) → TrimSpace workerID ≠ "" →
  (∀ n k j, processing_jobs d !! k = Some j → validation_due (env_now env n) k j = false) →
  (∀ n k j, redaction_jobs d !! k = Some j → redaction_due (env_now env n) k j = false) →
  (∀ n m, earliest del_available_at (claimable_deletion d (env_now env n)) (env_locked env m)
            (deletion_requests d) id q) →
  sessions d !! sessionID = Some s → deletableSessionState (ses_state s) = true →
  under_hold d sessionID = false → owned_references sessionID d →
  (∀ key b, key ∈ del_object_keys q → store_ok b → is_ok (Purge key b).1 = true) →
  ∃ w' now, ProcessNext env validate video store_text blob_text json_error workerID w = ((true, None), w') ∧
    sessions (w_db w') = <[sessionID := erase_session now s]> (sessions d) ∧
    session_data_erased sessionID d (w_db w') ∧
    del_state <$> deletion_requests (w_db w') !! id = Some "completed" ∧
    (∀ key, key ∈ del_object_keys q → object (w_blobs w') key = None) ∧
    (∀ key, key ∉ del_object_keys q → object (w_blobs w') key = object (w_blobs w) key).
Proof.
  intros d sessionID Hidle Hok Hw Hv Hr He Hs Hst Hh Ho Hp.
  destruct (idle_until_deletion env Hidle validate video store_text blob_text json_error workerID w Hw Hv Hr)
    as (w1 & Hdb1 & Hb1 & Hrun).
  set (now := env_now env (w_tick w1)).
  destruct (ClaimDeletionRequest_run workerID lease now (env_locked env (S (w_tick w1))) d id q s)
    as (request & l & Hclaim & Hid & Hkeys & Hstate); [apply He|done|].
  assert (Hq1 : claimed_deletion workerID lease now d s q = lease_deletion workerID (now + lease) now q).
  { unfold claimed_deletion. fold sessionID. by rewrite Hst, Hh. }
  rewrite Hq1 in Hclaim, Hstate. set (q1 := lease_deletion _ _ _ _) in *.
  set (d1 := set_audit_events _ _) in Hclaim.
  set (w2 := {| w_db := d1; w_blobs := w_blobs w; w_next_sweep := w_next_sweep w1;
                w_tick := S (S (w_tick w1)) |}).
  destruct (purge_keys_done env blob_text (dr_ObjectKeys request) w2)
    as (w3 & Hpurge & Hdb3 & Hok3 & Hin & Hout); [done|rewrite Hkeys; done|].
  assert (Hq : deletion_requests d1 !! dr_ID request = Some q1).
  { rewrite Hid. cbn. by rewrite lookup_insert_eq. }
  set (now' := env_now env (w_tick w3)).
  destruct (CompleteDeletionRequest_total (dr_ID request) workerID now' d1 q1 Hq) as [d4 Hd4];
    [done..|].
  destruct (CompleteDeletionRequest_ok _ _ _ _ q1 _ Hq Hd4) as (Hs4 & He4 & _ & _ & Hr4).
  eexists _, now'. split.
  - apply Hrun; [|done]. unfold processDeletion, wbind at 1, clock at 1. unfold wbind at 1.
    rewrite (store_call_idle env Hidle). cbn [w_db w_tick w_blobs w_next_sweep].
    fold now. unfold run_tx. rewrite Hdb1. fold d. rewrite Hclaim, Hb1. fold w2.
    unfold run_deletion. rewrite Hstate. cbn [negb].
    rewrite (proj2 (seqb_true _ _)) by done. cbn [negb]. unfold wbind at 1. rewrite Hpurge.
    unfold wbind at 1, clock at 1. unfold wbind. rewrite (store_call_idle env Hidle).
    cbn [w_db w_tick w_blobs w_next_sweep]. unfold run_tx. fold now'. rewrite Hdb3.
    cbn [w_db w2]. rewrite Hd4. reflexivity.
  - cbn [w_db w_blobs]. rewrite Hs4, Hr4, Hid, lookup_insert_eq, <-Hkeys. split_and!; try done.
    by apply alter_as_insert.
Qed.

(** ** Validation *)

(** What stands behind a session that is ready for review: before the turn the store
    held every registered artifact as registered and a trajectory that passes the
    schema and the cross references, and after it the two derived objects made from
    that trajectory. *)
Definition review_evidence {B} `{BlobView B} (schema : json → option string) (sessionID : string)
    (artifacts : list Artifact) (b b' : B) : Prop :=
  (∀ a, a ∈ artifacts → stored_as_registered b a) ∧
  ∃ raw v document actions,
    object b (trajectory_key sessionID) = Some raw ∧ Parse raw = Some v ∧
    schema (generic v) = None ∧ decode_document v = Some document ∧
    consistent sessionID document (registered_artifacts artifacts) ∧
    let normalized := MarshalIndent (normalize (generic v)) +:+ newline in
    actionsJSONL normalized = Some actions ∧
    object b' (normalized_key sessionID) = Some normalized ∧
    object b' (actions_key sessionID) = Some actions.

Lemma claim_validation_ok workerID now locked d job d' :
  ClaimValidationJob workerID lease now locked d = Ok (job, d') →
  artifacts d' = artifacts d ∧
  ∃ j, processing_jobs d' !! pj_ID job = Some j ∧ job_session_id j = pj_SessionID job.
Proof.
  intros H. kept artifacts H. split; [done|]. clear K.
  unfold ClaimValidationJob in H. stmt_inv.
  match goal with H : first_due _ _ _ _ = Some _ |- _ => apply first_due_some in H as [Hj _] end.
  match goal with H : (if ?b then _ else _) _ = Ok _ |- _ => kept processing_jobs H end.
  cbn. cbn in K. rewrite K, lookup_alter_eq, Hj. eexists. by split.
Qed.

Lemma complete_validation_ok jobID workerID result now r d s d' j :
  processing_jobs d !! jobID = Some j →
  CompleteValidationJob jobID workerID result now r d = Ok (s, d') →
  ∃ row, sessions d' !! job_session_id j = Some row ∧
    ses_state row = if vr_Valid result then SessionReadyForReview else SessionFailed.
Proof.
  intros Hj H. unfold CompleteValidationJob in H. stmt_inv. rewrite Hj in *. simplify_eq.
  match goal with H : Transition _ _ = Ok _ |- _ =>
    apply Transition_result in H as (Hid & _ & Hst & _) end.
  match goal with H : insert_validation_result _ _ _ = Ok _ |- _ => kept sessions H end.
  cbn in Hid, Hst.
  match goal with H : insert_last_audit _ ?d1 = Ok (_, ?d2) |- _ => kept sessions H end.
  rewrite K0. cbn. rewrite Hid, lookup_alter_eq, K.
  match goal with H : sessions d !! _ = Some _ |- _ => rewrite H end. cbn. eauto.
Qed.

Lemma derived_keys_differ sessionID : normalized_key sessionID ≠ actions_key sessionID.
Proof. unfold normalized_key, actions_key. by intros H%string_app_inj_l. Qed.

(** The two objects a valid trajectory leaves. *)
Lemma write_derived_ok {B} `{BlobLaws B} env blob_text json_error sessionID normalized (w : world B) w' :
  store_ok (w_blobs w) →
  write_derived env blob_text json_error sessionID normalized w = (None, w') →
  w_db w' = w_db w ∧ ∃ actions, actionsJSONL normalized = Some actions ∧
    object (w_blobs w') (normalized_key sessionID) = Some normalized ∧
    object (w_blobs w') (actions_key sessionID) = Some actions.
Proof.
  intros Hok. unfold write_derived, put, wbind at 1, blob_call at 1.
  destruct (Put (normalized_key sessionID) _ _ _) as [[i|e] b1] eqn:E1; [|done].
  destruct (put_law _ _ _ _ _ _ Hok E1) as ([Hok1 _] & _ & Hput1).
  destruct (actionsJSONL normalized) as [actions|]; [|done].
  unfold wbind, blob_call. cbn [w_blobs w_db w_tick].
  destruct (Put (actions_key sessionID) _ _ b1) as [[i2|e] b2] eqn:E2; [|done].
  destruct (put_law _ _ _ _ _ _ Hok1 E2) as ([_ Hsame] & _ & Hput2).
  intros [= <-]. split; [done|]. exists actions. split; [done|]. cbn. split.
  - rewrite Hsame by apply derived_keys_differ. by apply (Hput1 i).
  - by apply (Hput2 i2).
Qed.


(** ** A cancelled purge *)

(** An environment at one instant, in which nobody else acts. *)
Definition at_instant (now : time) : environment :=
  {| env_now := λ _, now; env_meanwhile := λ _ d, d; env_locked := λ _, ∅;
     env_random := λ _, Some [x0a]; env_randoms := λ _ _, Some [x0b] |}.

Definition sample_content (k : string) (content : string) : memory := {[("artifacts", k) := content]}.
Definition sample_world (d : db) (b : memory) : world memory :=
  {| w_db := d; w_blobs := b; w_next_sweep := 1000 * day; w_tick := 0 |}.

(** A session sent back for rework whose raw objects a worker was purging when its
    lease ran out. *)
Definition interrupted_purge : db :=
  set_sessions <["sess_1" := with_state SessionReworkRequired 4 accepted_session]>
    (set_legal_holds (λ _, ∅) purge_db).

(** The contributor resumes it. *)
Definition resumed_db : db :=
  match TransitionSession "sess_1" SessionReady "contributor" "req" (2 * day) interrupted_purge with
  | Ok (_, d) => d
  | Err _ => interrupted_purge
  end.
Definition one_video : memory := sample_content "raw/sessions/sess_1/video/a" "evidence".

(** The worker purges objects it must not.  A worker loses its lease on a purge; the
    contributor resumes the session, which ends its eligibility; the next turn cancels
    the request, says so in its row and leaves the artifact registered as present,
    and yet deletes the object. *)
Theorem cancelled_purge_deletes :
  (∃ session, TransitionSession "sess_1" SessionReady "contributor" "req" (2 * day) interrupted_purge
     = Ok (session, resumed_db)) ∧
  object one_video "raw/sessions/sess_1/video/a" = Some "evidence" ∧
  let turn := ProcessNext (at_instant (3 * day)) (λ _ _ b, (Err "", b)) None (λ _, "lost lease")
                (λ _, "") (λ t, t) "worker" (sample_world resumed_db one_video) in
  turn.1 = (true, Some "complete retention purge: lost lease; requeue retention purge: lost lease") ∧
  prg_state <$> retention_purge_requests (w_db turn.2) !! "retention_1" = Some "cancelled" ∧
  arf_purged_at <$> artifacts (w_db turn.2) !! "artifact_1" = Some None ∧
  object (w_blobs turn.2) "raw/sessions/sess_1/video/a" = None.
Proof.
  split.
  { unfold resumed_db. destruct (TransitionSession _ _ _ _ _ _) as [[session d1]|] eqn:H; [eauto|].
    vm_compute in H. discriminate H. }
  split; [reflexivity|]. intros turn. split_and!; vm_compute; reflexivity.
Qed.

(** ** Outputs of a redaction *)

Lemma output_key_inj plan s s' : output_key plan s = output_key plan s' → sg_SegmentID s = sg_SegmentID s'.
Proof. unfold output_key. intros H%string_app_inj_l. by apply string_app_inj_r in H as [-> _]. Qed.

Lemma output_key_not_manifest plan s :
  output_key plan s ≠ redaction_prefix (pl_SessionID plan) (pl_ID plan) +:+ "manifest.json".
Proof.
  unfold output_key. intros H%string_app_inj_l.
  change "manifest.json" with ("manifest." +:+ "json") in H.
  by apply string_app_inj_r in H as [_ H].
Qed.

(** The output describes an object of the store, which the redactor made of the
    segment's source, and the media that the inspector found there. *)
Definition true_output {B} `{BlobView B} (inspect : reader → result string MediaInfo)
    (redact : reader → list RedactionRegion → string * option string)
    (plan : RedactionPlan) (b0 b : B) (s : RedactionSegment) (o : redactionOutput) : Prop :=
  ro_SegmentID o = sg_SegmentID s ∧ ro_SourceKey o = sg_SourceKey s ∧
  ro_Decision o = sg_Decision s ∧ ro_OutputKey o = output_key plan s ∧
  (∃ input media,
    (rd_err input = None → object b0 (sg_SourceKey s) = Some (rd_data input)) ∧
    inspect input = Ok media ∧ ro_Width o = mi_Width media ∧ ro_Height o = mi_Height media ∧
    ro_DurationSecond o = mi_DurationSeconds media) ∧
  ∃ source content,
    (rd_err source = None → object b0 (sg_SourceKey s) = Some (rd_data source)) ∧
    redact source (sg_Regions s) = (content, None) ∧
    object b (ro_OutputKey o) = Some content ∧
    ro_Size o = slen content ∧ ro_SHA256 o = sha256_hex content.

Section redaction.
Context {B : Type} {HS : BlobStore B} {HV : BlobView B} {HL : BlobLaws B}.
Context (env : environment).
Variables (inspect : reader → result string MediaInfo)
  (redact : reader → list RedactionRegion → string * option string)
  (blob_text : blob_error → string) (plan : RedactionPlan).

Lemma render_segment_ok s (w : world B) o w' :
  store_ok (w_blobs w) →
  render_segment env blob_text inspect redact plan s w = (Ok o, w') →
  w_db w' = w_db w ∧ keeps_others (output_key plan s) (w_blobs w) (w_blobs w') ∧
  true_output inspect redact plan (w_blobs w) (w_blobs w') s o.
Proof using HL.
  intros Hok. unfold render_segment, inspectRedactionSource.
  unfold wbind at 1, wbind at 1, blob_call at 1.
  destruct (Get (sg_SourceKey s) (w_blobs w)) as [[input|e] b1] eqn:E1; [|done].
  destruct (get_law _ _ _ _ Hok E1) as [[Hok1 Hr1] Hinput]. unfold wret at 1.
  destruct (inspect input) as [media|e] eqn:Em; [|done].
  destruct (existsb _ _); [done|]. unfold writeRedactedSegment.
  unfold wbind at 1, wbind at 1, blob_call at 1. cbn [w_blobs w_db w_tick].
  destruct (Get (sg_SourceKey s) b1) as [[source|e] b2] eqn:E2; [|done].
  destruct (get_law _ _ _ _ Hok1 E2) as [[Hok2 Hr2] Hsource].
  destruct (redact source (sg_Regions s)) as [content err] eqn:Er.
  unfold wbind at 1, blob_call at 1. cbn [w_blobs w_db w_tick].
  destruct (Put (output_key plan s) _ _ b2) as [[info|e] b3] eqn:E3; [|done].
  destruct (put_law _ _ _ _ _ _ Hok2 E3) as ([Hok3 Hk] & _ & Hput).
  destruct (Hput info eq_refl) as (Herr & Hobj & _ & Hsize & Hsha). cbn in Herr, Hobj, Hsize, Hsha.
  subst err. unfold wret. intros [= <- <-]. cbn [w_db w_blobs]. split; [done|]. split.
  - split; [done|]. intros k Hne. by rewrite Hk, Hr2, Hr1.
  - do 4 (split; [done|]). split; [exists input, media; split; [by apply Hinput|done]|].
    exists source, content. split; [|done]. intros Hs. rewrite <-Hr1. by apply Hsource.
Qed.

(** Sources are raw objects, outputs are not. *)
Lemma source_not_output (sessionID : string) s s' :
  HasPrefix (sg_SourceKey s) (video_prefix sessionID) = true → sg_SourceKey s ≠ output_key plan s'.
Proof using Type.
  intros [r ->]%prefix_exists. unfold video_prefix, output_key, redaction_prefix, derived_prefix.
  rewrite !string_app_assoc. discriminate.
Qed.

Lemma true_output_source b0 b0' b s o :
  object b0 (sg_SourceKey s) = object b0' (sg_SourceKey s) →
  true_output inspect redact plan b0 b s o → true_output inspect redact plan b0' b s o.
Proof using Type.
  intros Heq (H1 & H2 & H3 & H4 & (input & media & Hi & Hm) & source & content & H5 & H).
  do 4 (split; [done|]). split; [exists input, media; split; [by rewrite <-Heq|done]|].
  exists source, content. split; [|done]. by rewrite <-Heq.
Qed.

Lemma render_segments_ok sessionID b0 segments (w : world B) outputs w' :
  store_ok (w_blobs w) → NoDup (map sg_SegmentID segments) →
  Forall (λ s, HasPrefix (sg_SourceKey s) (video_prefix sessionID) = true) segments →
  Forall (λ s, object (w_blobs w) (sg_SourceKey s) = object b0 (sg_SourceKey s)) segments →
  render_segments env blob_text inspect redact plan segments w = (Ok outputs, w') →
  w_db w' = w_db w ∧ store_ok (w_blobs w') ∧
  (∀ k, (∀ s, s ∈ segments → k ≠ output_key plan s) → object (w_blobs w') k = object (w_blobs w) k) ∧
  Forall2 (true_output inspect redact plan b0 (w_blobs w')) segments outputs.
Proof using HL.
  revert w outputs. induction segments as [|s l IH]; intros w outputs Hok Hnd Hsrc Hsame; cbn.
  { intros [= <- <-]. by split_and!. }
  apply NoDup_cons in Hnd as [Hn Hnd]. apply Forall_cons in Hsrc as [Hs Hsrc].
  apply Forall_cons in Hsame as [Hs0 Hsame].
  unfold wbind at 1. destruct (render_segment _ _ _ _ _ s w) as [[o|e] w1] eqn:E1; [|done].
  destruct (render_segment_ok s w o w1 Hok E1) as (Hdb1 & [Hok1 Hk1] & Ho).
  unfold wbind. destruct (render_segments _ _ _ _ _ l w1) as [[os|e] w2] eqn:E2; [|done].
  unfold wret. intros [= <- <-].
  destruct (IH w1 os Hok1 Hnd Hsrc) as (Hdb2 & Hok2 & Hk2 & Hos); [|done|].
  { rewrite Forall_forall in Hsame, Hsrc |- *. intros s' Hs'.
    rewrite Hk1 by (eapply source_not_output, Hsrc, Hs'). by apply Hsame. }
  split; [congruence|]. split; [done|]. split.
  - intros k Hk. rewrite Hk2, Hk1; [done|apply Hk; left|intros; apply Hk; by right].
  - constructor; [|done]. apply (true_output_source (w_blobs w)); [done|].
    destruct Ho as (H1 & H2 & H3 & H4 & Hmedia & source & content & H5 & H6 & H7 & H8).
    do 5 (split; [done|]). exists source, content. split; [done|]. split; [done|]. split; [|done].
    rewrite Hk2; [done|]. intros s' Hs'. rewrite H4. intros Heq%output_key_inj.
    apply Hn. rewrite Heq. by apply list_elem_of_fmap_2.
Qed.

Lemma render_plan_ok sessionID (w : world B) key w' :
  store_ok (w_blobs w) → NoDup (map sg_SegmentID (rd_Segments (pl_Document plan))) →
  Forall (λ s, HasPrefix (sg_SourceKey s) (video_prefix sessionID) = true) (rd_Segments (pl_Document plan)) →
  render_plan env blob_text inspect redact plan w = (Ok key, w') →
  w_db w' = w_db w ∧ store_ok (w_blobs w') ∧
  key = redaction_prefix (pl_SessionID plan) (pl_ID plan) +:+ "manifest.json" ∧
  ∃ outputs,
    object (w_blobs w') key = Some (Marshal (manifest_json (redaction_manifest plan outputs)) +:+ newline) ∧
    Forall2 (true_output inspect redact plan (w_blobs w) (w_blobs w')) (rd_Segments (pl_Document plan)) outputs.
Proof using HL.
  intros Hok Hnd Hsrc. unfold render_plan, wbind at 1.
  destruct (render_segments _ _ _ _ _ _ w) as [[outputs|e] w1] eqn:E1; [|done].
  destruct (render_segments_ok sessionID (w_blobs w) _ w outputs w1 Hok Hnd Hsrc) as (Hdb & Hok1 & _ & Hall);
    [by apply Forall_true|done|].
  destruct (marshal_manifest _) as [bytes|e] eqn:Em; [|done].
  unfold marshal_manifest in Em. destruct (List.find _ _); [done|]. injection Em as <-.
  unfold put, wbind, blob_call. cbv zeta. destruct (Put _ _ _ (w_blobs w1)) as [[info|e] b2] eqn:E2; [|done].
  destruct (put_law _ _ _ _ _ _ Hok1 E2) as ([Hok2 Hk] & _ & Hput).
  destruct (Hput info eq_refl) as (_ & Hobj & _).
  unfold wret. intros [= <- <-]. cbn [w_db w_blobs]. do 3 (split; [done|]).
  exists outputs. split; [done|]. eapply Forall2_impl; [exact Hall|].
  intros s o (H1 & H2 & H3 & H4 & Hmedia & source & content & H5 & H6 & H7 & H8).
  do 5 (split; [done|]). exists source, content. repeat (split; [done|]). split; [|done].
  rewrite Hk; [done|]. rewrite H4. apply output_key_not_manifest.
Qed.
End redaction.

Lemma claim_redaction_ok workerID now locked d job d' :
  ClaimRedactionJob workerID lease now locked d = Ok (job, d') → redaction_plans d' = redaction_plans d.
Proof. intros H. by kept redaction_plans H. Qed.

(** A turn that completes a redaction job. *)
Lemma processRedaction_ok {B} `{BlobLaws B} env inspect redact store_text blob_text
    workerID (w : world B) job d1 w' plan :
  undisturbed env → store_ok (w_blobs w) →
  ClaimRedactionJob workerID lease (env_now env (w_tick w)) (env_locked env (S (w_tick w))) (w_db w)
    = Ok (job, d1) →
  GetRedactionPlan (w_db w) (rj_PlanID job) = Ok plan →
  document_ok (pl_SessionID plan) (pl_Document plan) →
  NoDup (map sg_SegmentID (rd_Segments (pl_Document plan))) →
  processRedaction env store_text blob_text workerID inspect redact w = ((true, None), w') →
  store_ok (w_blobs w') ∧
  ∃ j key outputs,
    redaction_jobs (w_db w') !! rj_ID job = Some j ∧ rjb_state j = "completed" ∧
    rjb_output_manifest_key j = Some key ∧
    key = redaction_prefix (pl_SessionID plan) (pl_ID plan) +:+ "manifest.json" ∧
    object (w_blobs w') key = Some (Marshal (manifest_json (redaction_manifest plan outputs)) +:+ newline) ∧
    Forall2 (true_output inspect redact plan (w_blobs w) (w_blobs w')) (rd_Segments (pl_Document plan)) outputs.
Proof.
  intros Hidle Hok Hclaim Hplan Hdoc Hnd.
  unfold processRedaction, wbind at 1, clock at 1. unfold wbind at 1.
  rewrite (store_call_idle env Hidle). cbn [w_db w_tick w_blobs w_next_sweep].
  unfold run_tx. rewrite Hclaim. unfold wbind at 1, store_read. rewrite Hidle.
  cbn [w_db w_tick w_blobs w_next_sweep].
  assert (GetRedactionPlan d1 (rj_PlanID job) = Ok plan) as ->.
  { rewrite <-Hplan. unfold GetRedactionPlan. by rewrite (claim_redaction_ok _ _ _ _ _ _ Hclaim). }
  set (w1 := {| w_db := d1; w_blobs := w_blobs w; w_tick := _ |}). unfold wbind at 1.
  destruct (render_plan _ _ _ _ _ w1) as [[key|e] w2] eqn:Er.
  2: { unfold wbind. by destruct (retryRedaction _ _ _ _ _ _). }
  destruct (render_plan_ok env inspect redact blob_text plan (pl_SessionID plan) w1 key w2)
    as (Hdb & Hokw & Hkey & outputs & Hman & Hall); [done|done| |done|].
  { destruct Hdoc as (_ & _ & Hsegs & _). eapply Forall_impl; [exact Hsegs|].
    intros s (_ & _ & Hpre & _). exact Hpre. }
  unfold wbind at 1, clock at 1. unfold wbind at 1. rewrite (store_call_idle env Hidle).
  cbn [w_db w_tick w_blobs w_next_sweep]. unfold run_tx. rewrite Hdb. cbn [w_db w1].
  destruct (CompleteRedactionJob _ _ _ _ _) as [[u d2]|e] eqn:Hc.
  2: { unfold wbind. by destruct (retryRedaction _ _ _ _ _ _). }
  unfold wret. intros [= <-]. cbn [w_db w_blobs].
  unfold CompleteRedactionJob in Hc. stmt_inv.
  split; [done|].
  match goal with H : redaction_jobs d1 !! _ = Some ?j |- _ =>
    exists (complete_redaction key (env_now env (w_tick w2)) j), key, outputs;
    cbn; rewrite lookup_alter_eq, H end.
  by split_and!.
Qed.


(** ** Concrete turns *)

Definition one_second : MediaInfo :=
  {| mi_Codec := "h264"; mi_Width := 640; mi_Height := 480; mi_DurationSeconds := float_of 1 |}.
Definition inspect_fixed (_ : reader) : result string MediaInfo := Ok one_second.
Definition blacken (r : reader) (_ : list RedactionRegion) : string * option string :=
  ("redacted " +:+ rd_data r, None).

Definition named_segment (name source : string) : RedactionSegment :=
  {| sg_SegmentID := name; sg_SourceKey := "raw/sessions/sess_1/video/" +:+ source;
     sg_Decision := "publish_as_is"; sg_Regions := [] |}.
Definition plan_with (segments : list RedactionSegment) : RedactionPlan :=
  {| pl_ID := "plan_1"; pl_SessionID := "sess_1"; pl_ReviewerID := "reviewer";
     pl_SchemaVersion := "redaction/v1"; pl_DocumentHash := "hash"; pl_Version := 1;
     pl_Document := sample_document segments; pl_CreatedAt := 1 |}.
Definition two_videos : memory :=
  {[("artifacts", "raw/sessions/sess_1/video/a") := "first"; 
    ("artifacts", "raw/sessions/sess_1/video/b") := "second"]}.

(** Segments of one name overwrite each other.  A document whose two segments carry
    the same name is accepted; the worker renders both into one object, so the first
    output's digest is not that of the stored object. *)
Theorem shared_name_overwrites :
  let plan := plan_with [named_segment "x" "a"; named_segment "x" "b"] in
  validate_document (pl_Document plan) "sess_1" = Ok () ∧
  ∃ o1 o2 w',
    render_segments (at_instant 7) (λ _, "") inspect_fixed blacken plan
      (rd_Segments (pl_Document plan)) (sample_world empty_db two_videos) = (Ok [o1; o2], w') ∧
    ro_OutputKey o1 = ro_OutputKey o2 ∧
    object (w_blobs w') (ro_OutputKey o1) = Some "redacted second" ∧
    ro_SHA256 o1 = sha256_hex "redacted first" ∧ ro_SHA256 o1 ≠ ro_SHA256 o2.
Proof.
  intros plan. split; [vm_compute; reflexivity|].
  destruct (render_segments (at_instant 7) (λ _, "") inspect_fixed blacken plan
    (rd_Segments (pl_Document plan)) (sample_world empty_db two_videos)) as [x w'] eqn:H.
  pose proof (f_equal fst H) as Hx. vm_compute in Hx. cbn [fst] in Hx. subst x.
  eexists _, _, w'. split; [reflexivity|]. split; [reflexivity|]. split.
  - pose proof (f_equal (λ r, object (w_blobs r.2) "derived/sessions/sess_1/redactions/plan_1/x.mp4") H) as E.
    cbn [snd] in E. cbn [ro_OutputKey]. rewrite <-E. vm_compute. reflexivity.
  - split; [vm_compute; reflexivity|]. cbn [ro_SHA256]. discriminate.
Qed.


Definition erasable (keys : list string) : deletion_request_row :=
  {| del_organization_id := "org_1"; del_session_id := "sess_1"; del_reason := "asked";
     del_object_keys := keys; del_state := "queued"; del_attempt := 0;
     del_manual_requeues := 0; del_available_at := 1; del_leased_by := None;
     del_lease_expires_at := None; del_requested_by := "admin"; del_requested_at := 1;
     del_completed_at := None; del_last_error := None; del_updated_at := 1 |}.
Definition erasable_db : db :=
  set_deletion_requests <["delete_1" := erasable ["raw/sessions/sess_1/video/a"]]> redactable_db.

Lemma due_erasure_completes_witness :
  ∃ w' now, ProcessNext (at_instant 7) (λ _ _ b, (Err "", b)) None (λ _, "") (λ _, "") (λ t, t) "worker"
      (sample_world erasable_db two_videos) = ((true, None), w') ∧
    sessions (w_db w') = <["sess_1" := erase_session now accepted_session]> (sessions erasable_db) ∧
    object (w_blobs w') "raw/sessions/sess_1/video/a" = None ∧
    object (w_blobs w') "raw/sessions/sess_1/video/b" = Some "second".
Proof.
  destruct (due_erasure_completes (at_instant 7) (λ _ _ b, (Err "", b)) None (λ _, "") (λ _, "") (λ t, t)
    "worker" (sample_world erasable_db two_videos) "delete_1"
    (erasable ["raw/sessions/sess_1/video/a"]) accepted_session) as (w' & now & H1 & H2 & _ & _ & H3 & H4).
  - intros n d. reflexivity.
  - exact I.
  - vm_compute. discriminate.
  - intros n k j Hk. cbn in Hk. by rewrite lookup_empty in Hk.
  - intros n k j Hk. cbn in Hk. by rewrite lookup_empty in Hk.
  - intros n m. apply first_due_earliest. vm_compute. reflexivity.
  - reflexivity.
  - reflexivity.
  - vm_compute. reflexivity.
  - split; intros k x y Hk; cbn in Hk; by rewrite lookup_empty in Hk.
  - intros key b ->%list_elem_of_singleton _. reflexivity.
  - exists w', now. split; [exact H1|]. split; [exact H2|]. split.
    + apply H3. vm_compute. left.
    + rewrite H4; [reflexivity|]. intros Hk%list_elem_of_singleton. discriminate Hk.
Defined.

Lemma evidence_accounted_witness :
  ∃ x w', ProcessNext (at_instant 7) (Validate (λ _, None) None (λ t, t) (λ _, "")) None (λ _, "") (λ _, "")
      (λ t, t) "worker" (sample_world erasable_db two_videos) = (x, w') ∧
    object (w_blobs w') "raw/sessions/sess_1/video/a" = None ∧
    listed (w_db w') "raw/sessions/sess_1/video/a".
Proof.
  destruct (ProcessNext (at_instant 7) (Validate (λ _, None) None (λ t, t) (λ _, "")) None (λ _, "") (λ _, "")
      (λ t, t) "worker" (sample_world erasable_db two_videos)) as [x w'] eqn:H.
  exists x, w'. split; [reflexivity|].
  assert (Hgone : object (w_blobs w') "raw/sessions/sess_1/video/a" = None).
  { pose proof (f_equal (λ r, object (w_blobs r.2) "raw/sessions/sess_1/video/a") H) as E.
    cbv beta in E. cbn [snd] in E. rewrite <-E. vm_compute. reflexivity. }
  split; [exact Hgone|].
  destruct (evidence_accounted (at_instant 7) (λ _, None) None (λ t, t) (λ _, "") None (λ _, "") "worker"
    (sample_world erasable_db two_videos) x w' "raw/sessions/sess_1/video/a" "first") as [Hs|Hl].
  - intros n d. reflexivity.
  - exact I.
  - exact H.
  - reflexivity.
  - reflexivity.
  - rewrite Hgone in Hs. discriminate Hs.
  - exact Hl.
Defined.

Definition submitted_db : db :=
  set_sessions <["s1" := with_state SessionSubmitted 4 accepted_session]>
    (set_processing_jobs <["job_1" := job_to_row "s1" 5]>
      (set_artifacts <["artifact_1" :=
        {| arf_session_id := "s1"; arf_logical_key := trajectory_key "s1";
           arf_sha256 := sha256_hex sample_trajectory; arf_size_bytes := slen sample_trajectory;
           arf_media_type := "application/json"; arf_created_at := 2; arf_purged_at := None |}]> empty_db)).

