(* ===== verification/Release.v ===== *)
(** * Dataset releases ([database/release.go])

    Which accepted sessions may be released, and the transaction that records a
    release: its metadata, its ordered source sessions, and the RELEASED state of
    each of them. *)

From S2P Require Import Prelude Domain Schema Frame Store Redaction Review Erasure.

Record ReleaseCandidate := {
  rcd_SessionID : string; rcd_NormalizedKey : string; rcd_Review : Review
}.

(** [ORDER BY created_at DESC, id DESC LIMIT 1] *)
Definition latest_review (d : db) (sessionID : string) : option (string * review_row) :=
  first_by (λ x y, time_id_leb (rev_created_at y.2, y.1) (rev_created_at x.2, x.1))
    (select (λ _ r, seqb (rev_session_id r) sessionID) (reviews d)).

(** [EXISTS(SELECT 1 FROM deletion_requests ... state IN ('queued','leased','blocked'))] *)
Definition deletion_active (d : db) (sessionID : string) : bool :=
  exists_row (λ _ q, seqb (del_session_id q) sessionID && active_deletion q) (deletion_requests d).

Definition session_project (d : db) (sessionID : string) : option string :=
  s ← sessions d !! sessionID;
  a ← assignments d !! ses_assignment_id s;
  t ← tasks d !! asg_task_id a;
  tt ← task_templates d !! tsk_template_id t;
  Some (tpl_project_id tt).

Definition releasable (d : db) (projectID : string) (sessionIDs : list string)
    (id : string) (s : session_row) : bool :=
  bool_decide (session_project d id = Some projectID)
  && bool_decide (ses_state s = SessionAccepted)
  && match latest_review d id with
     | Some (_, r) => seqb (rev_decision r) "accepted" && seqb (rev_pii_review r) "passed"
     | None => false
     end
  && negb (deletion_active d id)
  && (Nat.eqb (length sessionIDs) 0 || oneof id sessionIDs).

(** The rows of a session: one for each valid validation result. *)
Definition session_candidates (d : db) (id : string) : list ReleaseCandidate :=
  match latest_review d id with
  | None => []
  | Some (reviewID, r) =>
    map (λ kv, {| rcd_SessionID := id; rcd_NormalizedKey := coalesce "" (val_normalized_key kv.2);
                  rcd_Review := review_of reviewID r |})
      (select (λ _ v, seqb (val_session_id v) id && val_valid v) (validation_results d))
  end.

Definition ListReleaseCandidates (d : db) (projectID : string) (sessionIDs : list string)
    : res (list ReleaseCandidate) :=
  if negb (has_row (projects d) projectID) then Err ErrNotFound
  else
    let ids := sort_strings (map fst (select (releasable d projectID sessionIDs) (sessions d))) in
    let candidates := concat (map (session_candidates d) ids) in
    if negb (Nat.eqb (length sessionIDs) 0) && negb (Nat.eqb (length candidates) (length sessionIDs))
    then Err (ErrReleaseEligibility "")
    else if Nat.eqb (length candidates) 0 then Err (ErrReleaseEligibility "")
    else Ok candidates.

(** ** Object inventories *)

Definition release_prefix (releaseID : string) : string := "releases/" +:+ releaseID +:+ "/".
Definition release_bundle (releaseID : string) : string := "bundles/" +:+ releaseID +:+ ".zip".

Definition string_ltb (a b : string) : bool := negb (string_leb b a).

(** [key == "" || strings.Contains(key, "\") || strings.Contains(key, "../") || ...] *)
Definition release_key_ok (releaseID : string) (previous : option string) (key : string) : bool :=
  negb (is_empty key) && negb (Contains key (String (ascii_of_N 92) "")) && negb (Contains key "../")
  && match previous with Some p => string_ltb p key | None => true end
  && (seqb key (release_bundle releaseID) || HasPrefix key (release_prefix releaseID)).

Fixpoint release_keys_ok (releaseID : string) (previous : option string) (keys : list string) : bool :=
  match keys with
  | [] => true
  | key :: rest =>
    release_key_ok releaseID previous key && release_keys_ok releaseID (Some key) rest
  end.

Definition validReleaseObjectKeys (releaseID : string) (keys : list string) : bool :=
  negb (is_empty releaseID) && (7 <=? length keys)%nat
  && release_keys_ok releaseID None keys
  && oneof (release_prefix releaseID +:+ "manifest.json") keys
  && oneof (release_bundle releaseID) keys.

(** ** Committing a release *)

Definition release_of (id : string) (r : dataset_release_row) : DatasetRelease :=
  {| rl_ID := id; rl_ProjectID := drl_project_id r; rl_Name := drl_name r;
     rl_Profile := drl_release_profile r; rl_SchemaVersion := drl_schema_version r;
     rl_ExporterVersion := drl_exporter_version r; rl_PipelineVersion := drl_pipeline_version r;
     rl_ConfigurationHash := drl_configuration_hash r; rl_ManifestHash := drl_manifest_hash r;
     rl_BundleHash := coalesce "" (drl_bundle_hash r); rl_BundleSize := coalesce 0 (drl_bundle_size r);
     rl_SourceSessionIDs := drl_source_session_ids r; rl_ObjectKeys := drl_object_keys r;
     rl_CreatedAt := drl_created_at r; rl_PurgedAt := coalesce epoch (drl_purged_at r) |}.

Definition release_to_row (r : DatasetRelease) (now : time) : dataset_release_row :=
  {| drl_project_id := rl_ProjectID r; drl_name := rl_Name r; drl_release_profile := rl_Profile r;
     drl_schema_version := rl_SchemaVersion r; drl_exporter_version := rl_ExporterVersion r;
     drl_pipeline_version := rl_PipelineVersion r;
     drl_source_session_ids := rl_SourceSessionIDs r;
     drl_configuration_hash := rl_ConfigurationHash r; drl_manifest_hash := rl_ManifestHash r;
     drl_bundle_hash := Some (rl_BundleHash r); drl_bundle_size := Some (rl_BundleSize r);
     drl_created_at := now; drl_purged_at := None; drl_object_keys := rl_ObjectKeys r |}.

Definition check_release (release : DatasetRelease) : res () :=
  if is_empty (rl_ID release) || is_empty (rl_ProjectID release) || is_empty (rl_Name release)
     || is_empty (rl_SchemaVersion release) || is_empty (rl_ExporterVersion release)
     || is_empty (rl_PipelineVersion release) || Nat.eqb (length (rl_SourceSessionIDs release)) 0
  then Err (ErrText "release metadata and source sessions are required")
  else if negb (oneof (rl_Profile release) ["trajectory_only"; "redacted_video"])
  then Err (ErrText "release profile must be trajectory_only or redacted_video")
  else if negb (slen (rl_ConfigurationHash release) =? 64) || negb (slen (rl_ManifestHash release) =? 64)
          || negb (slen (rl_BundleHash release) =? 64) || (rl_BundleSize release <? 1)
          || negb (validReleaseObjectKeys (rl_ID release) (rl_ObjectKeys release))
  then Err (ErrText "release configuration, manifest, and bundle integrity metadata are required")
  else Ok ().

Definition id_le {R} (x y : string * R) : Prop := String.le x.1 y.1.
#[export] Instance id_le_dec {R} : RelDecision (@id_le R).
Proof. intros x y. unfold id_le. apply _. Defined.

(** [SELECT ... FROM sessions WHERE id=ANY($1) ORDER BY id FOR UPDATE] *)
Definition source_sessions (d : db) (ids : list string) : list (string * session_row) :=
  merge_sort id_le (select (λ id _, oneof id ids) (sessions d)).

(** The loop over the sessions: membership, RELEASED, its audit event. *)
Fixpoint release_loop (releaseID actor requestID : string) (now : time) (index : Z)
    (sources : list (string * session_row)) : tx () :=
  match sources with
  | [] => ret ()
  | (id, row) :: rest =>
    insert_release_session id {| rls_release_id := releaseID; rls_ordinal := index |} ;;
    session <- lift (Transition (session_of id row)
                       (transition_command SessionReleased actor requestID now)) ;;
    update_session_state (s_ID session) (s_State session) (s_UpdatedAt session) ;;
    insert_last_audit session ;;
    release_loop releaseID actor requestID now (index + 1) rest
  end.

Definition same_release (existing release : DatasetRelease) : bool :=
  seqb (rl_ID existing) (rl_ID release)
  && seqb (rl_ConfigurationHash existing) (rl_ConfigurationHash release)
  && seqb (rl_ManifestHash existing) (rl_ManifestHash release).

Definition with_created (release : DatasetRelease) (now : time) : DatasetRelease :=
  {| rl_ID := rl_ID release; rl_ProjectID := rl_ProjectID release; rl_Name := rl_Name release;
     rl_Profile := rl_Profile release; rl_SchemaVersion := rl_SchemaVersion release;
     rl_ExporterVersion := rl_ExporterVersion release;
     rl_PipelineVersion := rl_PipelineVersion release;
     rl_ConfigurationHash := rl_ConfigurationHash release;
     rl_ManifestHash := rl_ManifestHash release; rl_BundleHash := rl_BundleHash release;
     rl_BundleSize := rl_BundleSize release; rl_SourceSessionIDs := rl_SourceSessionIDs release;
     rl_ObjectKeys := rl_ObjectKeys release; rl_CreatedAt := now; rl_PurgedAt := rl_PurgedAt release |}.

Definition by_name (projectID name : string) (_ : string) (r : dataset_release_row) : bool :=
  seqb (drl_project_id r) projectID && seqb (drl_name r) name.

Definition CommitRelease (release : DatasetRelease) (actor requestID : string) (now : time)
    : tx DatasetRelease :=
  lift (check_release release) ;;
  d <- get ;;
  match find_where (by_name (rl_ProjectID release) (rl_Name release)) (dataset_releases d) with
  | Some (id, row) =>
    let existing := release_of id row in
    fail_if (negb (same_release existing release)) ErrReleaseConflict ;;
    ret existing
  | None =>
    let sources := source_sessions d (rl_SourceSessionIDs release) in
    fail_if (negb (Nat.eqb (length sources) (length (rl_SourceSessionIDs release))))
      (ErrReleaseEligibility "") ;;
    fail_if (negb (forallb (λ ks, bool_decide (ses_state ks.2 = SessionAccepted)) sources))
      (ErrReleaseEligibility "") ;;
    fail_if (existsb (deletion_active d) (rl_SourceSessionIDs release))
      (ErrReleaseEligibility "a source session has an active deletion request") ;;
    insert_dataset_release (rl_ID release) (release_to_row release now) ;;
    release_loop (rl_ID release) actor requestID now 0 sources ;;
    insertAudit (audit actor "dataset_release.created" ("dataset-release/" +:+ rl_ID release)
      requestID now
      {["project_id" := rl_ProjectID release; "name" := rl_Name release;
        "profile" := rl_Profile release; "manifest_hash" := rl_ManifestHash release;
        "session_count" := Sprint (Z.of_nat (length sources))]}) ;;
    ret (with_created release now)
  end.

Definition GetRelease (d : db) (releaseID : string) : res DatasetRelease :=
  or_not_found (release_of releaseID <$> dataset_releases d !! releaseID).

Definition GetReleaseByName (d : db) (projectID name : string) : res DatasetRelease :=
  match find_where (by_name projectID name) (dataset_releases d) with
  | Some (id, row) => Ok (release_of id row)
  | None => Err ErrNotFound
  end.

(** ** Lemmas on inventories *)

Definition string_lt (a b : string) : Prop := String.le a b ∧ a ≠ b.

Lemma string_ltb_lt a b : string_ltb a b = true ↔ string_lt a b.
Proof.
  unfold string_ltb, string_lt. rewrite negb_true_iff. split.
  - intros H. split.
    + destruct (string_leb_total a b) as [Hl|Hl]; [by apply bool_decide_eq_true in Hl|congruence].
    + intros ->. destruct (string_leb_total b b); congruence.
  - intros [Hl Hn]. destruct (string_leb b a) eqn:E; [|done].
    destruct Hn. apply string_leb_antisym; [by apply bool_decide_eq_true|done].
Qed.

Lemma string_lt_trans a b c : string_lt a b → string_lt b c → string_lt a c.
Proof.
  intros [H1 N1] [H2 N2]. split; [by etrans|]. intros ->. apply N1.
  by apply (anti_symm String.le).
Qed.

(** A key that stays inside the release's own prefix. *)
Definition safe_release_key (releaseID key : string) : Prop :=
  key ≠ "" ∧ ¬ (∃ a b, key = a +:+ String (ascii_of_N 92) "" +:+ b) ∧
  ¬ (∃ a b, key = a +:+ "../" +:+ b) ∧
  (key = release_bundle releaseID ∨ ∃ rest, key = release_prefix releaseID +:+ rest).

Lemma negb_Contains s sub : negb (Contains s sub) = true ↔ ¬ ∃ a b, s = a +:+ sub +:+ b.
Proof. by rewrite negb_true_iff, <-not_true_iff_false, Contains_spec. Qed.

Lemma release_key_ok_spec releaseID previous key :
  release_key_ok releaseID previous key = true ↔
  safe_release_key releaseID key ∧ (∀ p, previous = Some p → string_lt p key).
Proof.
  unfold release_key_ok, safe_release_key.
  rewrite !andb_true_iff, orb_true_iff, !negb_Contains, negb_true_iff, is_empty_false, seqb_true.
  rewrite prefix_exists.
  assert (Hp : match previous with Some p => string_ltb p key | None => true end = true ↔
               ∀ p, previous = Some p → string_lt p key).
  { destruct previous as [p|]; [|done]. rewrite string_ltb_lt. split; [by intros H q [= <-]|eauto]. }
  rewrite Hp. tauto.
Qed.

Lemma release_keys_ok_spec releaseID previous keys :
  release_keys_ok releaseID previous keys = true ↔
  Forall (safe_release_key releaseID) keys ∧ StronglySorted string_lt keys ∧
  (∀ p, previous = Some p → Forall (string_lt p) keys).
Proof.
  revert previous. induction keys as [|key keys IH]; intros previous; cbn.
  - split; [intros _|done]. split; [constructor|]. split; constructor.
  - rewrite andb_true_iff, release_key_ok_spec, IH, Forall_cons. split.
    + intros [[H1 H2] (H3 & H4 & H5)]. split_and!; [done|done|constructor; eauto|].
      intros p Hp. constructor; [by apply H2|]. specialize (H5 key eq_refl).
      eapply Forall_impl; [exact H5|]. intros x Hx. eapply string_lt_trans; [by apply H2|done].
    + intros ([H1 H2] & H3%StronglySorted_inv & H4). destruct H3 as [H3 H5].
      split_and!; [done| |done|done|].
      * intros p Hp. specialize (H4 p Hp). by apply Forall_cons in H4 as [? _].
      * intros p [= <-]. exact H5.
Qed.

(** The object inventory of a release is accepted exactly when the release has an
    identifier, there are at least seven keys in strictly increasing order (so no
    key twice), every key is the bundle or lies under the release's own prefix and
    contains neither a backslash nor "../", and the manifest and the bundle are
    among them. *)
Theorem valid_release_object_keys releaseID keys :
  validReleaseObjectKeys releaseID keys = true ↔
  releaseID ≠ "" ∧ (7 ≤ length keys)%nat ∧ StronglySorted string_lt keys ∧
  Forall (safe_release_key releaseID) keys ∧
  release_prefix releaseID +:+ "manifest.json" ∈ keys ∧ release_bundle releaseID ∈ keys.
Proof.
  unfold validReleaseObjectKeys.
  rewrite !andb_true_iff, negb_true_iff, is_empty_false, Nat.leb_le, !oneof_true, release_keys_ok_spec.
  split; [tauto|]. intros (?&?&?&?&?&?). by split_and!.
Qed.

(** ** Lemmas on the commit *)

Lemma NoDup_select {R} (p : string → R → bool) (m : gmap string R) : NoDup (map fst (select p m)).
Proof.
  unfold select. pose proof (NoDup_fst_map_to_list m) as Hnd. revert Hnd.
  induction (map_to_list m) as [|[k r] l IH]; [done|]. cbn. intros [Hk Hnd]%NoDup_cons.
  specialize (IH Hnd). destruct (p k r); [|done]. cbn. apply NoDup_cons. split; [|done].
  intros Hin. apply Hk. apply list_elem_of_In, in_map_iff in Hin as (kr & <- & Hin).
  apply filter_In in Hin as [Hin _]. apply list_elem_of_In, in_map_iff. by exists kr.
Qed.

Lemma source_sessions_spec d ids :
  NoDup (map fst (source_sessions d ids)) ∧
  ∀ k r, (k, r) ∈ source_sessions d ids ↔ sessions d !! k = Some r ∧ k ∈ ids.
Proof.
  unfold source_sessions. split.
  - rewrite (Permutation_map fst (merge_sort_Permutation _ _)). apply NoDup_select.
  - intros k r. rewrite (merge_sort_Permutation _ _), select_spec. by rewrite oneof_true.
Qed.


Lemma insert_release_session_ok id r d u d' :
  insert_release_session id r d = Ok (u, d') →
  release_sessions d !! id = None ∧ d' = set_release_sessions <[id := r]> d.
Proof. unfold insert_release_session. intros H. by insert_inv. Qed.

(** One step of the loop moves its session and records its membership. *)
Lemma release_step_ok id row r actor requestID now (k : tx ()) d x d' :
  sessions d !! id = Some row →
  (insert_release_session id r ;;
   session <- lift (Transition (session_of id row)
                      (transition_command SessionReleased actor requestID now)) ;;
   update_session_state (s_ID session) (s_State session) (s_UpdatedAt session) ;;
   insert_last_audit session ;; k) d = Ok (x, d') →
  ∃ d1, k d1 = Ok (x, d') ∧ release_sessions d !! id = None ∧
    allowed (ses_state row) SessionReleased = true ∧
    release_sessions d1 = <[id := r]> (release_sessions d) ∧
    sessions d1 = <[id := with_state SessionReleased now row]> (sessions d).
Proof.
  intros Hrow H. apply bind_ok in H as ([] & d1 & [Hnew ->]%insert_release_session_ok & H).
  apply bind_ok in H as (s & d2 & [Ht ->]%lift_ok & H).
  apply Transition_result in Ht as (Hid & Has & Hst & Hup & Hal). cbn in Hid, Has, Hst, Hup, Hal.
  apply bind_ok in H as ([] & d2 & [_ ->]%update_session_state_ok & H).
  apply bind_ok in H as ([] & d3 & Hl & H). exists d3. split; [exact H|].
  kept sessions Hl. kept release_sessions Hl. rewrite K, K0. db_simpl.
  rewrite Hst, Hup, Hid. split_and!; try done. by apply alter_as_insert.
Qed.

Lemma release_loop_ok id actor requestID now index sources d d' x :
  release_loop id actor requestID now index sources d = Ok (x, d') →
  NoDup (map fst sources) →
  (∀ k r, (k, r) ∈ sources → sessions d !! k = Some r) →
  Forall (λ kr, allowed (ses_state kr.2) SessionReleased = true) sources ∧
  (∀ k, sessions d' !! k =
    if decide (k ∈ map fst sources) then with_state SessionReleased now <$> sessions d !! k
    else sessions d !! k) ∧
  (∀ i k r, sources !! i = Some (k, r) → release_sessions d !! k = None ∧
    release_sessions d' !! k = Some {| rls_release_id := id; rls_ordinal := index + Z.of_nat i |}) ∧
  (∀ k, k ∉ map fst sources → release_sessions d' !! k = release_sessions d !! k).
Proof.
  revert index d. induction sources as [|[k row] l IH]; intros index d H Hnd Hin.
  - cbn in H. tx_inv. split_and!; [done| |done|done].
    intros k. by rewrite decide_False by (by apply not_elem_of_nil).
  - cbn [release_loop] in H. apply NoDup_cons in Hnd as [Hk Hnd].
    assert (Hrow : sessions d !! k = Some row) by (apply Hin; left).
    apply release_step_ok in H as (d1 & H & Hn & Hal & Hr1 & Hs1); [|done].
    apply IH in H as (Hall & Hs & Hr & Ho); [|done|].
    2:{ intros j r Hj. rewrite Hs1, lookup_insert_ne; [apply Hin; by right|]. intros ->.
        by apply Hk, (list_elem_of_fmap_2 fst l (j, r)). }
    split_and!.
    + by constructor.
    + intros j. rewrite Hs, Hs1. cbn [map]. destruct (decide (j = k)) as [->|Hj].
      * rewrite decide_False by done. rewrite decide_True by left.
        by rewrite lookup_insert_eq, Hrow.
      * rewrite lookup_insert_ne by done.
        destruct (decide (j ∈ map fst l)); [rewrite decide_True by (by right)|
          rewrite decide_False by (by intros [?|?]%elem_of_cons)]; done.
    + intros i j r Hi. destruct i as [|i]; cbn in Hi.
      * injection Hi as <- <-. split; [done|]. rewrite Ho, Hr1, lookup_insert_eq by done.
        by rewrite Z.add_0_r.
      * destruct (Hr i j r Hi) as [H1 H2]. apply list_elem_of_lookup_2 in Hi.
        assert (j ≠ k) by (intros ->; by apply Hk, (list_elem_of_fmap_2 fst l (k, r))).
        rewrite Hr1, lookup_insert_ne in H1 by done. split; [done|]. rewrite H2. do 2 f_equal. lia.
    + intros j Hj. cbn in Hj. apply not_elem_of_cons in Hj as [Hjk Hj].
      by rewrite Ho, Hr1, lookup_insert_ne.
Qed.

Lemma respects_release_loop R `{!PreOrder R} id actor requestID now index sources :
  (∀ s r, respects R (insert_release_session s r)) →
  (∀ s st t, respects R (update_session_state s st t)) →
  (∀ s, respects R (insert_last_audit s)) →
  respects R (release_loop id actor requestID now index sources).
Proof.
  intros H1 H2 H3. revert index.
  induction sources as [|[k row] l IH]; intros index; cbn; respects_all.
Qed.

(** A committed release: the replay of an earlier commit, or a new one. *)
Lemma CommitRelease_ok release actor requestID now d x d' :
  CommitRelease release actor requestID now d = Ok (x, d') →
  check_release release = Ok () ∧
  ((∃ id row, find_where (by_name (rl_ProjectID release) (rl_Name release)) (dataset_releases d)
                = Some (id, row) ∧ x = release_of id row ∧ same_release x release = true ∧ d' = d) ∨
   let sources := source_sessions d (rl_SourceSessionIDs release) in
   find_where (by_name (rl_ProjectID release) (rl_Name release)) (dataset_releases d) = None ∧
   x = with_created release now ∧
   length sources = length (rl_SourceSessionIDs release) ∧
   (∀ k r, (k, r) ∈ sources → ses_state r = SessionAccepted) ∧
   (∀ k, k ∈ rl_SourceSessionIDs release → deletion_active d k = false) ∧
   dataset_releases d !! rl_ID release = None ∧
   dataset_releases d' = <[rl_ID release := release_to_row release now]> (dataset_releases d) ∧
   ∃ d1 d2, release_loop (rl_ID release) actor requestID now 0 sources d1 = Ok ((), d2) ∧
     sessions d1 = sessions d ∧ release_sessions d1 = release_sessions d ∧
     sessions d' = sessions d2 ∧ release_sessions d' = release_sessions d2).
Proof.
  unfold CommitRelease. intros H. apply bind_ok in H as ([] & d1 & [Hc ->]%lift_ok & H).
  split; [done|]. rewrite bind_get in H.
  destruct (find_where _ _) as [[id row]|] eqn:Hf.
  - left. exists id, row. stmt_inv. by rewrite negb_false_iff in *.
  - right. split; [done|].
    apply bind_ok in H as ([] & ? & [Hlen ->]%fail_if_ok & H).
    apply bind_ok in H as ([] & ? & [Hst ->]%fail_if_ok & H).
    apply bind_ok in H as ([] & ? & [Hdel ->]%fail_if_ok & H).
    apply bind_ok in H as ([] & d1 & Hi & H). apply bind_ok in H as ([] & d2 & Hl & H).
    assert (K : dataset_releases d2 = dataset_releases d1).
    { refine (keeps_ok _ _ _ _ _ _ Hl). unfold keeps.
      apply respects_release_loop; [apply _|intros; respects_all..]. }
    unfold insert_dataset_release in Hi. insert_inv. db_simpl.
    apply negb_false_iff, Nat.eqb_eq in Hlen. apply negb_false_iff in Hst.
    rewrite forallb_forall in Hst.
    split_and!; try done.
    + intros k r Hin. by apply list_elem_of_In, Hst, bool_decide_eq_true in Hin.
    + intros k Hk. destruct (deletion_active d k) eqn:E; [|done].
      rewrite <-not_true_iff_false, existsb_exists in Hdel. destruct Hdel. exists k.
      by rewrite <-list_elem_of_In.
    + eexists _, d2. split; [exact Hl|]. by db_simpl.
Qed.

Lemma source_sessions_ids d ids :
  length (source_sessions d ids) = length ids → map fst (source_sessions d ids) ≡ₚ ids.
Proof.
  intros Hlen. destruct (source_sessions_spec d ids) as [Hnd Hin].
  apply submseteq_length_Permutation.
  - apply NoDup_submseteq; [done|]. intros k Hk.
    apply list_elem_of_fmap in Hk as ([k' r] & -> & Hr). by apply Hin in Hr as [_ ?].
  - by rewrite length_map, Hlen.
Qed.

Lemma source_sessions_sorted d ids :
  StronglySorted String.le (map fst (source_sessions d ids)).
Proof.
  assert (Hs : StronglySorted id_le (source_sessions d ids)).
  { apply StronglySorted_merge_sort.
    - intros x y z H1 H2. unfold id_le in *. by etrans.
    - intros x y. unfold id_le. apply (total String.le). }
  induction Hs as [|x l Hs IH Hx]; cbn; constructor; [done|]. by apply Forall_map.
Qed.

(** C35: what a new release did.  If the commit succeeds and the project had no release
    of that name, then the named source sessions were all different, all existed,
    all were ACCEPTED, none had an active erasure request or was part of an earlier
    release.  Afterwards each is RELEASED and a member of this release, under its
    position in the order of identifiers, and no other session or membership
    changed. *)
Theorem commit_release_effect release actor requestID now d x d' :
  CommitRelease release actor requestID now d = Ok (x, d') →
  find_where (by_name (rl_ProjectID release) (rl_Name release)) (dataset_releases d) = None →
  let ids := rl_SourceSessionIDs release in
  ∃ ordered, StronglySorted String.le ordered ∧ ordered ≡ₚ ids ∧ NoDup ids ∧
  (∀ k, k ∈ ids → deletion_active d k = false) ∧
  (∀ i k, ordered !! i = Some k →
     (∃ r, sessions d !! k = Some r ∧ ses_state r = SessionAccepted ∧
           sessions d' !! k = Some (with_state SessionReleased now r)) ∧
     release_sessions d !! k = None ∧
     release_sessions d' !! k =
       Some {| rls_release_id := rl_ID release; rls_ordinal := Z.of_nat i |}) ∧
  (∀ k, k ∉ ids → sessions d' !! k = sessions d !! k ∧
                  release_sessions d' !! k = release_sessions d !! k) ∧
  dataset_releases d' = <[rl_ID release := release_to_row release now]> (dataset_releases d).
Proof.
  intros [_ [(id & row & Hf & _)|H]]%CommitRelease_ok Hn; [congruence|]. cbv zeta in *.
  destruct H as (_ & _ & Hlen & Hst & Hdel & _ & Hrel & d1 & d2 & Hl & Hs1 & Hr1 & Hs2 & Hr2).
  pose proof (source_sessions_ids _ _ Hlen) as Hp.
  destruct (source_sessions_spec d (rl_SourceSessionIDs release)) as [Hnd Hin].
  apply release_loop_ok in Hl as (_ & Hs & Hr & Ho); [|done|].
  2:{ intros k r Hk. rewrite Hs1. by apply Hin in Hk as [? _]. }
  exists (map fst (source_sessions d (rl_SourceSessionIDs release))).
  split_and!; [apply source_sessions_sorted|done|by rewrite <-Hp|done| | |done].
  - intros i k Hi. rewrite list_lookup_fmap in Hi.
    destruct (source_sessions d _ !! i) as [[k' r]|] eqn:Hk; [|done]. injection Hi as <-.
    destruct (Hr i _ _ Hk) as [Hnew Hmem]. apply list_elem_of_lookup_2 in Hk.
    rewrite Hr1 in Hnew. rewrite Hr2. split_and!; [|done|done].
    exists r. split; [by apply Hin in Hk as [? _]|]. split; [by eapply Hst|].
    rewrite Hs2, Hs, Hs1. rewrite decide_True by (by apply (list_elem_of_fmap_2 fst _ (k', r))).
    by apply Hin in Hk as [-> _].
  - intros k Hk. rewrite <-Hp in Hk. rewrite Hs2, Hr2, Hs, Hs1, Ho, Hr1 by done.
    by rewrite decide_False.
Qed.

(** Committing a release is idempotent.  Once a release was committed for a project
    and name, committing that project and name again returns the stored release and
    changes nothing when identifier, configuration hash and manifest hash agree,
    and is refused as a conflict when one differs. *)
Theorem commit_release_idempotent release actor requestID now d x d' release2 actor2 requestID2 now2 :
  CommitRelease release actor requestID now d = Ok (x, d') →
  rl_ProjectID release2 = rl_ProjectID release → rl_Name release2 = rl_Name release →
  check_release release2 = Ok () →
  ∃ stored, rl_ID stored = rl_ID x ∧
    CommitRelease release2 actor2 requestID2 now2 d' =
      if same_release x release2 then Ok (stored, d') else Err ErrReleaseConflict.
Proof.
  intros [_ Hc]%CommitRelease_ok Hp Hn Hok.
  assert (Hf : ∃ id row, find_where (by_name (rl_ProjectID release) (rl_Name release))
                           (dataset_releases d') = Some (id, row) ∧ rl_ID x = id ∧
                         same_release x release2 = same_release (release_of id row) release2).
  { destruct Hc as [(id & row & Hf & -> & _ & ->)|(Hf & -> & _ & _ & _ & _ & Hd & _)].
    - by exists id, row.
    - exists (rl_ID release), (release_to_row release now). rewrite Hd. split_and!; [|done|done].
      apply find_where_insert; [done|]. unfold by_name, release_to_row. cbn.
      by rewrite !(proj2 (seqb_true _ _)). }
  destruct Hf as (id & row & Hf & Hid & Hsame). exists (release_of id row). split; [done|].
  unfold CommitRelease. rewrite Hok. op_run. rewrite Hp, Hn, Hf. op_run. rewrite <-Hsame.
  by destruct (same_release x release2).
Qed.

Definition sample_hash : string := "00000000000000000000000000000000000000000000000000000000000000ff".
Definition sample_release (manifest : string) : DatasetRelease :=
  {| rl_ID := "rel_1"; rl_ProjectID := "project_1"; rl_Name := "v1"; rl_Profile := "trajectory_only";
     rl_SchemaVersion := "s"; rl_ExporterVersion := "e"; rl_PipelineVersion := "p";
     rl_ConfigurationHash := sample_hash; rl_ManifestHash := manifest; rl_BundleHash := sample_hash;
     rl_BundleSize := 10; rl_SourceSessionIDs := ["sess_1"];
     rl_ObjectKeys := ["bundles/rel_1.zip"; "releases/rel_1/a"; "releases/rel_1/b"; "releases/rel_1/c";
                       "releases/rel_1/d"; "releases/rel_1/e"; "releases/rel_1/manifest.json"];
     rl_CreatedAt := 0; rl_PurgedAt := 0 |}.
Definition other_hash : string := "000000000000000000000000000000000000000000000000000000000000beef".

Lemma commit_release_effect_witness :
  ∃ x d', CommitRelease (sample_release sample_hash) "admin" "req" 9 (with_task redactable_db) = Ok (x, d') ∧
    sessions d' !! "sess_1" = Some (with_state SessionReleased 9 accepted_session).
Proof.
  destruct (CommitRelease (sample_release sample_hash) "admin" "req" 9 (with_task redactable_db))
    as [[x d']|e] eqn:H; [|vm_compute in H; discriminate H].
  exists x, d'. split; [reflexivity|].
  destruct (commit_release_effect _ _ _ _ _ _ _ H) as (l & _ & Hp & _ & _ & Hs & _).
  - vm_compute. reflexivity.
  - apply Permutation_singleton_r in Hp. subst l.
    destruct (Hs 0%nat "sess_1" eq_refl) as ((r & Hr & _ & Hr') & _).
    rewrite Hr'. vm_compute in Hr. injection Hr as <-. reflexivity.
Defined.

Lemma commit_release_idempotent_witness :
  ∃ x d' stored,
    CommitRelease (sample_release sample_hash) "admin" "req" 9 (with_task redactable_db) = Ok (x, d') ∧
    CommitRelease (sample_release sample_hash) "other" "req2" 12 d' = Ok (stored, d') ∧
    CommitRelease (sample_release other_hash) "other" "req2" 12 d' = Err ErrReleaseConflict.
Proof.
  destruct (CommitRelease (sample_release sample_hash) "admin" "req" 9 (with_task redactable_db))
    as [[x d']|e] eqn:H; [|vm_compute in H; discriminate H].
  assert (Hx : x = with_created (sample_release sample_hash) 9)
    by (vm_compute in H; injection H as <- _; reflexivity).
  destruct (commit_release_idempotent _ _ _ _ _ _ _ (sample_release sample_hash) "other" "req2" 12 H)
    as (stored & _ & Ha); [reflexivity|reflexivity|vm_compute; reflexivity|].
  destruct (commit_release_idempotent _ _ _ _ _ _ _ (sample_release other_hash) "other" "req2" 12 H)
    as (stored2 & _ & Hb); [reflexivity|reflexivity|vm_compute; reflexivity|].
  exists x, d', stored. split; [reflexivity|]. split; [rewrite Ha|rewrite Hb]; rewrite Hx; reflexivity.
Defined.
