(* ===== verification/Multipart.v ===== *)
(** * Resumable uploads ([database/multipart_uploads.go], the part plan of
      [httpapi/multipart_uploads.go])

    An upload is split into equal parts but the last; each part is recorded with
    its entity tag until the upload is completed, aborted or expires. *)

From S2P Require Import Prelude Domain Schema.

(** ** Stored uploads *)

Record MultipartUpload := {
  mu_ID : string; mu_SessionID : string; mu_Key : string; mu_StorageKey : string;
  mu_StorageUploadID : string; mu_SHA256 : string; mu_Size : Z; mu_MediaType : string;
  mu_PartSize : Z; mu_State : string; mu_ExpiresAt : time
}.

Record MultipartUploadPart := { mp_Number : Z; mp_ETag : string; mp_Size : Z }.

Definition upload_of (id : string) (r : multipart_upload_row) : MultipartUpload :=
  {| mu_ID := id; mu_SessionID := mpu_session_id r; mu_Key := mpu_logical_key r;
     mu_StorageKey := mpu_storage_key r; mu_StorageUploadID := mpu_storage_upload_id r;
     mu_SHA256 := mpu_sha256 r; mu_Size := mpu_size_bytes r; mu_MediaType := mpu_media_type r;
     mu_PartSize := mpu_part_size_bytes r; mu_State := mpu_state r;
     mu_ExpiresAt := mpu_expires_at r |}.

Definition scanMultipartUpload (row : option (string * multipart_upload_row)) : res MultipartUpload :=
  match row with
  | Some (id, r) => Ok (upload_of id r)
  | None => Err ErrNotFound
  end.

Definition FindMultipartUpload (d : db) (sessionID key : string) : res MultipartUpload :=
  scanMultipartUpload (find_where
    (λ _ u, seqb (mpu_session_id u) sessionID && seqb (mpu_logical_key u) key)
    (artifact_multipart_uploads d)).

Definition GetMultipartUpload (d : db) (sessionID uploadID : string) : res MultipartUpload :=
  scanMultipartUpload (find_where
    (λ id u, seqb (mpu_session_id u) sessionID && seqb id uploadID)
    (artifact_multipart_uploads d)).

Definition upload_to_row (upload : MultipartUpload) (now : time) : multipart_upload_row :=
  {| mpu_session_id := mu_SessionID upload; mpu_logical_key := mu_Key upload;
     mpu_storage_key := mu_StorageKey upload;
     mpu_storage_upload_id := mu_StorageUploadID upload; mpu_sha256 := mu_SHA256 upload;
     mpu_size_bytes := mu_Size upload; mpu_media_type := mu_MediaType upload;
     mpu_part_size_bytes := mu_PartSize upload; mpu_state := "active";
     mpu_expires_at := mu_ExpiresAt upload; mpu_created_at := now; mpu_updated_at := now |}.

(** The constraints on the columns of an upload. *)
Definition check_upload (id : string) (upload : MultipartUpload) : tx () :=
  check (0 <? mu_Size upload) "artifact_multipart_uploads_size_bytes_check" ;;
  check (5242880 <=? mu_PartSize upload) "artifact_multipart_uploads_part_size_bytes_check" ;;
  no_row artifact_multipart_uploads
    (λ k u, negb (seqb k id) && seqb (mpu_storage_key u) (mu_StorageKey upload))
    "artifact_multipart_uploads_storage_key_key".

Definition with_upload_id (upload : MultipartUpload) (id state : string) : MultipartUpload :=
  {| mu_ID := id; mu_SessionID := mu_SessionID upload; mu_Key := mu_Key upload;
     mu_StorageKey := mu_StorageKey upload; mu_StorageUploadID := mu_StorageUploadID upload;
     mu_SHA256 := mu_SHA256 upload; mu_Size := mu_Size upload; mu_MediaType := mu_MediaType upload;
     mu_PartSize := mu_PartSize upload; mu_State := state; mu_ExpiresAt := mu_ExpiresAt upload |}.

Definition upload_audit (action : string) (upload : MultipartUpload) (actor requestID : string)
    (now : time) : tx () :=
  insertAudit (audit actor action ("multipart-upload/" +:+ mu_ID upload) requestID now
    {["session_id" := mu_SessionID upload; "logical_key" := mu_Key upload;
      "sha256" := mu_SHA256 upload]}).

(** [INSERT ... ON CONFLICT (logical_key) DO NOTHING]: the boolean says whether a
    row was created. *)
Definition CreateMultipartUpload (upload : MultipartUpload) (actor requestID : string) (now : time)
    (r : random) : tx (MultipartUpload * bool) :=
  identifier <- newID "upload" r ;;
  let upload := with_upload_id upload identifier (mu_State upload) in
  check (0 <? mu_Size upload) "artifact_multipart_uploads_size_bytes_check" ;;
  check (5242880 <=? mu_PartSize upload) "artifact_multipart_uploads_part_size_bytes_check" ;;
  d <- get ;;
  match find_where (λ _ u, seqb (mpu_logical_key u) (mu_Key upload)) (artifact_multipart_uploads d) with
  | Some (id, row) => ret (upload_of id row, false)
  | None =>
    fresh_key artifact_multipart_uploads identifier "artifact_multipart_uploads_pkey" ;;
    check_upload identifier upload ;;
    references sessions (mu_SessionID upload) "artifact_multipart_uploads_session_id_fkey" ;;
    modify (set_artifact_multipart_uploads <[identifier := upload_to_row upload now]>) ;;
    upload_audit "artifact.multipart_started" upload actor requestID now ;;
    ret (with_upload_id upload identifier "active", true)
  end.

Definition restart_upload (upload : MultipartUpload) (now : time) (r : multipart_upload_row)
    : multipart_upload_row :=
  {| mpu_session_id := mpu_session_id r; mpu_logical_key := mpu_logical_key r;
     mpu_storage_key := mu_StorageKey upload;
     mpu_storage_upload_id := mu_StorageUploadID upload; mpu_sha256 := mu_SHA256 upload;
     mpu_size_bytes := mu_Size upload; mpu_media_type := mu_MediaType upload;
     mpu_part_size_bytes := mu_PartSize upload; mpu_state := "active";
     mpu_expires_at := mu_ExpiresAt upload; mpu_created_at := mpu_created_at r;
     mpu_updated_at := now |}.

(** The row of an upload in a given state. *)
Definition upload_in_state (id state : string) : tx multipart_upload_row :=
  row <- row_of artifact_multipart_uploads id ErrNotFound ;;
  fail_if (negb (seqb (mpu_state row) state)) ErrNotFound ;;
  ret row.

Definition RestartMultipartUpload (upload : MultipartUpload) (actor requestID : string) (now : time)
    : tx MultipartUpload :=
  modify (set_artifact_multipart_parts (delete_where (λ k _, seqb k.1 (mu_ID upload)))) ;;
  upload_in_state (mu_ID upload) "aborted" ;;
  check_upload (mu_ID upload) upload ;;
  modify (set_artifact_multipart_uploads (alter (restart_upload upload now) (mu_ID upload))) ;;
  upload_audit "artifact.multipart_restarted" upload actor requestID now ;;
  ret (with_upload_id upload (mu_ID upload) "active").

Definition part_le (x y : MultipartUploadPart) : Prop := mp_Number x ≤ mp_Number y.
#[export] Instance part_le_dec : RelDecision part_le.
Proof. intros x y. unfold part_le. apply _. Defined.

Definition ListMultipartUploadParts (d : db) (uploadID : string) : list MultipartUploadPart :=
  merge_sort part_le
    (map (λ kr, {| mp_Number := kr.1.2; mp_ETag := mpp_etag kr.2; mp_Size := mpp_size_bytes kr.2 |})
         (select (λ k _, seqb k.1 uploadID) (artifact_multipart_parts d))).

Definition upload_accepts (now : time) (u : multipart_upload_row) : bool :=
  seqb (mpu_state u) "active" && (now <? mpu_expires_at u).

Definition RecordMultipartUploadPart (uploadID : string) (part : MultipartUploadPart) (now : time)
    : tx () :=
  u <- row_of artifact_multipart_uploads uploadID ErrNotFound ;;
  fail_if (negb (upload_accepts now u)) ErrNotFound ;;
  check ((1 <=? mp_Number part) && (mp_Number part <=? 10000))
    "artifact_multipart_parts_part_number_check" ;;
  check (0 <? mp_Size part) "artifact_multipart_parts_size_bytes_check" ;;
  modify (set_artifact_multipart_parts <[(uploadID, mp_Number part) :=
    {| mpp_etag := mp_ETag part; mpp_size_bytes := mp_Size part; mpp_created_at := now |}]>).

Definition set_upload_state (state : string) (now : time) (r : multipart_upload_row)
    : multipart_upload_row :=
  {| mpu_session_id := mpu_session_id r; mpu_logical_key := mpu_logical_key r;
     mpu_storage_key := mpu_storage_key r; mpu_storage_upload_id := mpu_storage_upload_id r;
     mpu_sha256 := mpu_sha256 r; mpu_size_bytes := mpu_size_bytes r;
     mpu_media_type := mpu_media_type r; mpu_part_size_bytes := mpu_part_size_bytes r;
     mpu_state := state; mpu_expires_at := mpu_expires_at r; mpu_created_at := mpu_created_at r;
     mpu_updated_at := now |}.

Definition SetMultipartUploadState (uploadID from to : string) (now : time) : tx () :=
  upload_in_state uploadID from ;;
  check (oneof to ["active"; "completed"; "aborted"]) "artifact_multipart_uploads_state_check" ;;
  modify (set_artifact_multipart_uploads (alter (set_upload_state to now) uploadID)).

(** ** The part plan, in 64-bit arithmetic; Go's division truncates *)

Definition multipartPartSize : Z := Z.shiftl 16 20.

Definition multipartPartCount (size partSize : Z) : Z :=
  if (size <? 1) || (partSize <? 1) then 0
  else Z.quot (wrap_int64 (wrap_int64 (size + partSize) - 1)) partSize.

Definition multipartExpectedPartSize (size partSize partNumber : Z) : Z :=
  let total := multipartPartCount size partSize in
  if (partNumber <? 1) || (total <? partNumber) then 0
  else if partNumber <? total then partSize
  else wrap_int64 (size - wrap_int64 ((total - 1) * partSize)).

Fixpoint decimal_value (s : string) (acc : Z) : option Z :=
  match s with
  | EmptyString => Some acc
  | String c s' =>
    let n := Z.of_N (N_of_ascii c) - 48 in
    if (0 <=? n) && (n <=? 9) then decimal_value s' (10 * acc + n) else None
  end.

(** [fmt.Sscan] followed by the comparison with [fmt.Sprint]: only the canonical
    decimal text of a number from 1 to 10000 passes. *)
Definition parsePositiveInt32 (value : string) : option Z :=
  match decimal_value value 0 with
  | Some parsed =>
    if (parsed <? 1) || (10000 <? parsed) || negb (seqb (Sprint parsed) value) then None
    else Some parsed
  | None => None
  end.

(** The check of [completeMultipartArtifactUpload]: every part of the plan is
    there, in order, with its size. *)
Fixpoint parts_match (size partSize : Z) (index : Z) (parts : list MultipartUploadPart) : bool :=
  match parts with
  | [] => true
  | part :: rest =>
    (mp_Number part =? index + 1)
    && (mp_Size part =? multipartExpectedPartSize size partSize (index + 1))
    && parts_match size partSize (index + 1) rest
  end.
Definition upload_complete (upload : MultipartUpload) (parts : list MultipartUploadPart) : bool :=
  (Z.of_nat (length parts) =? multipartPartCount (mu_Size upload) (mu_PartSize upload))
  && parts_match (mu_Size upload) (mu_PartSize upload) 0 parts.

(** ** The part plan covers the object *)

(** Sizes for which the sum in [multipartPartCount] does not overflow. *)
Definition plannable (size partSize : Z) : Prop :=
  1 ≤ size ∧ 1 ≤ partSize ∧ size + partSize < 2 ^ 63.

Lemma part_count_ceiling size partSize :
  plannable size partSize →
  multipartPartCount size partSize = (size + partSize - 1) / partSize.
Proof.
  intros (H1 & H2 & H3). unfold multipartPartCount.
  rewrite !(proj2 (Z.ltb_ge _ _)) by lia. cbn [orb].
  rewrite (wrap_int64_id (size + partSize)) by (unfold in_int64; lia).
  rewrite wrap_int64_id by (unfold in_int64; lia). apply Z.quot_div_nonneg; lia.
Qed.

Lemma part_count_bounds size partSize :
  plannable size partSize →
  let n := multipartPartCount size partSize in
  1 ≤ n ∧ (n - 1) * partSize < size ≤ n * partSize.
Proof.
  intros Hp. cbv zeta. rewrite part_count_ceiling by done. destruct Hp as (H1 & H2 & H3).
  pose proof (Z.div_mod (size + partSize - 1) partSize ltac:(lia)) as Hd.
  pose proof (Z.mod_pos_bound (size + partSize - 1) partSize ltac:(lia)) as Hm.
  set (q := (size + partSize - 1) / partSize) in *.
  set (r := (size + partSize - 1) mod partSize) in *.
  assert (1 ≤ q) by nia. split; [done|]. split; nia.
Qed.

Lemma expected_part_size size partSize k :
  plannable size partSize → 1 ≤ k ≤ multipartPartCount size partSize →
  multipartExpectedPartSize size partSize k = Z.min partSize (size - (k - 1) * partSize).
Proof.
  intros Hp Hk. pose proof (part_count_bounds _ _ Hp) as [Hn Hb]. cbv zeta in *.
  unfold multipartExpectedPartSize. set (n := multipartPartCount size partSize) in *.
  destruct Hp as (H1 & H2 & H3).
  rewrite !(proj2 (Z.ltb_ge _ _)) by lia. cbn [orb].
  destruct (Z.ltb_spec k n).
  - rewrite Z.min_l; [done|]. nia.
  - assert (k = n) as -> by lia. rewrite Z.min_r by nia.
    rewrite (wrap_int64_id ((n - 1) * partSize)) by (unfold in_int64; nia).
    apply wrap_int64_id. unfold in_int64. nia.
Qed.

(** The plan as a list of part numbers and sizes, from part [k + 1] on. *)
Definition plan_from (size partSize k : Z) (count : nat) : list (Z * Z) :=
  map (λ i, (k + 1 + Z.of_nat i, multipartExpectedPartSize size partSize (k + 1 + Z.of_nat i)))
    (seq 0 count).
Definition part_plan (size partSize : Z) : list (Z * Z) :=
  plan_from size partSize 0 (Z.to_nat (multipartPartCount size partSize)).

Lemma plan_from_S size partSize k count :
  plan_from size partSize k (S count) =
  (k + 1, multipartExpectedPartSize size partSize (k + 1)) :: plan_from size partSize (k + 1) count.
Proof.
  unfold plan_from. cbn [seq map]. rewrite Z.add_0_r. f_equal.
  rewrite <-seq_shift, map_map. apply map_ext. intros i.
  by replace (k + 1 + Z.of_nat (S i)) with (k + 1 + 1 + Z.of_nat i) by lia.
Qed.

Lemma plan_from_sum size partSize k count :
  plannable size partSize → 0 ≤ k → k + Z.of_nat count = multipartPartCount size partSize →
  foldr Z.add 0 (map snd (plan_from size partSize k count)) =
  if Nat.eqb count 0 then 0 else size - k * partSize.
Proof.
  intros Hp. revert k. induction count as [|count IH]; intros k Hk Hn; [done|].
  rewrite plan_from_S. cbn [map snd foldr]. rewrite IH by lia.
  rewrite expected_part_size by (done || lia). cbn [Nat.eqb].
  pose proof (part_count_bounds _ _ Hp) as [H1 H2]. cbv zeta in *.
  destruct Hp as (Hs & Hps & _). destruct count as [|count]; cbn [Nat.eqb].
  - rewrite Z.min_r; nia.
  - assert ((k + 1) * partSize ≤ (multipartPartCount size partSize - 1) * partSize) by nia.
    rewrite Z.min_l; lia.
Qed.

(** The part plan covers the object.  When size plus part size stays below 2^63,
    the plan has as many parts as the size needs, each of at least one byte and at
    most the part size, the sizes add up to the size of the object, and a part
    number outside the plan has size zero.  For the server's fixed part size of
    16 MiB this holds for every positive size below 2^63 - 16 MiB. *)
Theorem multipart_plan_covers size partSize :
  plannable size partSize →
  let n := multipartPartCount size partSize in
  (1 ≤ n ∧ (n - 1) * partSize < size ≤ n * partSize) ∧
  (∀ k, 1 ≤ k ≤ n → 1 ≤ multipartExpectedPartSize size partSize k ≤ partSize) ∧
  (∀ k, k < 1 ∨ n < k → multipartExpectedPartSize size partSize k = 0) ∧
  foldr Z.add 0 (map snd (part_plan size partSize)) = size.
Proof.
  intros Hp n. pose proof (part_count_bounds _ _ Hp) as Hb. cbv zeta in Hb. fold n in Hb.
  split_and!; [apply Hb..| | |].
  - intros k Hk. rewrite expected_part_size by done. destruct Hp as (? & ? & ?). nia.
  - intros k Hk. unfold multipartExpectedPartSize. fold n.
    destruct Hk; [rewrite (proj2 (Z.ltb_lt k 1)) by done; done|].
    by rewrite (proj2 (Z.ltb_lt n k)), orb_true_r by done.
  - unfold part_plan. fold n. rewrite plan_from_sum by (done || lia).
    destruct (Nat.eqb_spec (Z.to_nat n) 0); lia.
Qed.

Lemma multipart_plan_covers_witness :
  multipartPartCount 40000000 multipartPartSize = 3 ∧
  foldr Z.add 0 (map snd (part_plan 40000000 multipartPartSize)) = 40000000.
Proof.
  split; [vm_compute; reflexivity|].
  apply (multipart_plan_covers 40000000 multipartPartSize).
  split_and!; vm_compute; first [reflexivity|discriminate].
Defined.

Lemma parts_match_plan size partSize k parts :
  parts_match size partSize k parts = true ↔
  map (λ p, (mp_Number p, mp_Size p)) parts = plan_from size partSize k (length parts).
Proof.
  revert k. induction parts as [|p l IH]; intros k; [done|].
  cbn [parts_match map length]. rewrite plan_from_S, !andb_true_iff, !Z.eqb_eq, IH. split.
  - intros [[-> ->] ->]. done.
  - intros [= -> -> ->]. done.
Qed.

(** An upload is completed only with exactly its plan: the recorded parts are
    numbered 1 to n without a gap, each has the planned size, and so together they
    hold exactly the declared number of bytes. *)
Theorem upload_complete_exact upload parts :
  plannable (mu_Size upload) (mu_PartSize upload) →
  (upload_complete upload parts = true ↔
   map (λ p, (mp_Number p, mp_Size p)) parts = part_plan (mu_Size upload) (mu_PartSize upload)) ∧
  (upload_complete upload parts = true → foldr Z.add 0 (map mp_Size parts) = mu_Size upload).
Proof.
  intros Hp. pose proof (part_count_bounds _ _ Hp) as [Hn _]. cbv zeta in Hn.
  assert (Hiff : upload_complete upload parts = true ↔
    map (λ p, (mp_Number p, mp_Size p)) parts = part_plan (mu_Size upload) (mu_PartSize upload)).
  { unfold upload_complete, part_plan. rewrite andb_true_iff, Z.eqb_eq, parts_match_plan. split.
    - intros [Hl ->]. f_equal. lia.
    - intros H. assert (Hl : length parts = Z.to_nat (multipartPartCount (mu_Size upload) (mu_PartSize upload))).
      { rewrite <-(length_map (λ p, (mp_Number p, mp_Size p)) parts), H. unfold plan_from.
        by rewrite length_map, length_seq. }
      rewrite Hl. split; [lia|done]. }
  split; [exact Hiff|]. intros H%Hiff.
  replace (map mp_Size parts) with (map snd (map (λ p, (mp_Number p, mp_Size p)) parts))
    by (rewrite map_map; done).
  rewrite H. unfold part_plan. rewrite plan_from_sum by (done || lia).
  destruct (Nat.eqb_spec (Z.to_nat (multipartPartCount (mu_Size upload) (mu_PartSize upload))) 0); lia.
Qed.

Definition sample_upload_plan : MultipartUpload :=
  {| mu_ID := "upload_1"; mu_SessionID := "sess_1"; mu_Key := "k"; mu_StorageKey := "s";
     mu_StorageUploadID := "u"; mu_SHA256 := ""; mu_Size := 40000000; mu_MediaType := "video/mp4";
     mu_PartSize := multipartPartSize; mu_State := "active"; mu_ExpiresAt := 9 |}.
Definition sample_part (n size : Z) : MultipartUploadPart :=
  {| mp_Number := n; mp_ETag := "e"; mp_Size := size |}.

Lemma upload_complete_exact_witness :
  let parts := [sample_part 1 16777216; sample_part 2 16777216; sample_part 3 6445568] in
  upload_complete sample_upload_plan parts = true ∧
  foldr Z.add 0 (map mp_Size parts) = mu_Size sample_upload_plan.
Proof.
  intros parts. destruct (upload_complete_exact sample_upload_plan parts) as [_ H].
  { split_and!; vm_compute; first [reflexivity|discriminate]. }
  assert (Hc : upload_complete sample_upload_plan parts = true) by (vm_compute; reflexivity).
  split; [exact Hc|apply H, Hc].
Defined.

(** ** Part numbers *)

Lemma decimal_value_Sprint n : 1 ≤ n ≤ 10000 → decimal_value (Sprint n) 0 = Some n.
Proof.
  intros Hn.
  assert (Hall : forallb (λ i, bool_decide (decimal_value (Sprint (Z.of_nat i)) 0 = Some (Z.of_nat i)))
                   (seq 1 10000) = true) by (vm_compute; reflexivity).
  rewrite forallb_forall in Hall. specialize (Hall (Z.to_nat n)).
  rewrite Z2Nat.id in Hall by lia. apply bool_decide_eq_true in Hall; [exact Hall|].
  apply in_seq. change 10000%nat with (Z.to_nat 10000). lia.
Qed.

(** A part number in a request path is accepted exactly when it is the decimal
    text of a number from 1 to 10000 without sign, leading zero or other
    characters. *)
Theorem parse_part_number value n :
  parsePositiveInt32 value = Some n ↔ 1 ≤ n ≤ 10000 ∧ value = Sprint n.
Proof.
  unfold parsePositiveInt32. split.
  - destruct (decimal_value value 0) as [k|]; [|done].
    destruct (_ || _) eqn:E; [done|]. intros [= ->].
    rewrite !orb_false_iff, !Z.ltb_ge, negb_false_iff, seqb_true in E.
    destruct E as [[H1 H2] H3]. by split; [lia|].
  - intros [Hn ->]. rewrite decimal_value_Sprint by done.
    rewrite !(proj2 (Z.ltb_ge _ _)) by lia. by rewrite (proj2 (seqb_true _ _)).
Qed.
