(* ===== verification/Identity.v ===== *)
(** * Identities, invitations and the first administrator
      ([database/identity.go], [database/invitation.go], [database/bootstrap.go])

    An OIDC identity resolves to an active account and its active memberships;
    an invitation links an identity to an account and grants a role. *)

From S2P Require Import Prelude Domain Schema Frame Sha256.

(** ** Access *)

Record OrganizationMembership := { om_OrganizationID : string; om_Role : string }.

Record IdentityAccess := {
  ia_AccountID : string; ia_DisplayName : string; ia_Email : string;
  ia_ContributorID : option string; ia_Memberships : list OrganizationMembership
}.

Definition HasRole (access : IdentityAccess) (role : string) : bool :=
  existsb (λ m, seqb (om_Role m) role) (ia_Memberships access).

Definition HasOrganizationRole (access : IdentityAccess) (organizationID : string)
    (roles : list string) : bool :=
  existsb (λ m, seqb (om_OrganizationID m) organizationID && oneof (om_Role m) roles)
    (ia_Memberships access).

(** The organizations of the memberships with one of [roles], each once, in the
    order of the memberships. *)
Fixpoint organization_ids (roles : list string) (seen : list string)
    (memberships : list OrganizationMembership) : list string :=
  match memberships with
  | [] => []
  | m :: rest =>
    if oneof (om_Role m) roles && negb (oneof (om_OrganizationID m) seen)
    then om_OrganizationID m :: organization_ids roles (om_OrganizationID m :: seen) rest
    else organization_ids roles seen rest
  end.
Definition OrganizationIDsForRoles (access : IdentityAccess) (roles : list string) : list string :=
  organization_ids roles [] (ia_Memberships access).

Definition has_identity (issuer subject : string) (_ : string) (i : oidc_identity_row) : bool :=
  seqb (idn_issuer i) issuer && seqb (idn_subject i) subject.

Definition contributor_of (d : db) (accountID : string) : option string :=
  fst <$> find_where (λ _ c, bool_decide (ctb_account_id c = Some accountID)) (contributors d).

Definition membership_le (x y : (string * string * string) * membership_row) : Prop :=
  (if string_leb x.1.1.1 y.1.1.1 then
     if string_leb y.1.1.1 x.1.1.1 then string_leb x.1.2 y.1.2 else true
   else false) = true.
#[export] Instance membership_le_dec : RelDecision membership_le.
Proof. intros x y. unfold membership_le. apply _. Defined.

(** [ORDER BY organization_id, role] *)
Definition active_memberships (d : db) (accountID : string) : list OrganizationMembership :=
  map (λ kr, {| om_OrganizationID := kr.1.1.1; om_Role := kr.1.2 |})
    (merge_sort membership_le
      (select (λ k m, seqb k.1.2 accountID && seqb (mem_status m) "active")
              (organization_memberships d))).

Definition touch_identity (at_ : time) (i : oidc_identity_row) : oidc_identity_row :=
  {| idn_account_id := idn_account_id i; idn_issuer := idn_issuer i; idn_subject := idn_subject i;
     idn_email_at_link_time := idn_email_at_link_time i;
     idn_email_verified_at_link_time := idn_email_verified_at_link_time i;
     idn_created_at := idn_created_at i; idn_last_authenticated_at := Some at_ |}.

Definition ResolveOIDCIdentity (issuer subject : string) (authenticatedAt : time)
    : tx IdentityAccess :=
  d <- get ;;
  '(_, i) <- some_or (find_where (has_identity issuer subject) (oidc_identities d)) ErrNotFound ;;
  a <- some_or (accounts d !! idn_account_id i) ErrNotFound ;;
  fail_if (negb (seqb (acc_status a) "active")) ErrNotFound ;;
  modify (set_oidc_identities (update_where
    (λ k i, has_identity issuer subject k i
            && match idn_last_authenticated_at i with
               | None => true
               | Some t => t <? authenticatedAt - 5 * minute
               end) (touch_identity authenticatedAt))) ;;
  ret {| ia_AccountID := idn_account_id i; ia_DisplayName := acc_display_name a;
         ia_Email := coalesce "" (acc_email a); ia_ContributorID := contributor_of d (idn_account_id i);
         ia_Memberships := active_memberships d (idn_account_id i) |}.

(** ** Rows *)

Definition insert_account (id : string) (r : account_row) : tx () :=
  fresh_key accounts id "accounts_pkey" ;;
  no_row accounts
    (λ _ a, match acc_email r, acc_email a with
            | Some x, Some y => seqb (ToLower x) (ToLower y)
            | _, _ => false
            end) "accounts_email_unique" ;;
  modify (set_accounts <[id:=r]>).

Definition insert_identity (id : string) (r : oidc_identity_row) : tx () :=
  fresh_key oidc_identities id "oidc_identities_pkey" ;;
  no_row oidc_identities (has_identity (idn_issuer r) (idn_subject r))
    "oidc_identities_issuer_subject_key" ;;
  references accounts (idn_account_id r) "oidc_identities_account_id_fkey" ;;
  modify (set_oidc_identities <[id:=r]>).

Definition insert_invitation (id : string) (r : invitation_row) : tx () :=
  check (oneof (inv_role r) ["admin"; "reviewer"; "contributor"]) "invitations_role_check" ;;
  check (inv_created_at r <? inv_expires_at r) "invitations_check" ;;
  fresh_key invitations id "invitations_pkey" ;;
  no_row invitations (λ _ i, seqb (inv_token_hash i) (inv_token_hash r))
    "invitations_token_hash_key" ;;
  references organizations (inv_organization_id r) "invitations_organization_id_fkey" ;;
  references accounts (inv_invited_by r) "invitations_invited_by_fkey" ;;
  modify (set_invitations <[id:=r]>).

(** [INSERT ... ON CONFLICT (organization_id, account_id, role) DO UPDATE SET status='active'] *)
Definition upsert_membership (organizationID accountID role : string) (now : time) : tx () :=
  check (oneof role ["admin"; "reviewer"; "contributor"]) "organization_memberships_role_check" ;;
  references organizations organizationID "organization_memberships_organization_id_fkey" ;;
  references accounts accountID "organization_memberships_account_id_fkey" ;;
  d <- get ;;
  let created := match organization_memberships d !! (organizationID, accountID, role) with
                 | Some m => mem_created_at m
                 | None => now
                 end in
  modify (set_organization_memberships
    <[(organizationID, accountID, role) := {| mem_status := "active"; mem_created_at := created |}]>).

(** ** Invitations *)

Record Invitation := {
  in_ID : string; in_OrganizationID : string; in_Email : string; in_Role : string;
  in_ExpiresAt : time
}.
Record InvitationAcceptance := {
  ic_AccountID : string; ic_OrganizationID : string; ic_Role : string;
  ic_ContributorID : option string
}.

(** [base64.RawURLEncoding.EncodeToString] *)
Definition base64_digit (n : N) : ascii :=
  if (n <? 26)%N then ascii_of_N (65 + n) else if (n <? 52)%N then ascii_of_N (71 + n)
  else if (n <? 62)%N then ascii_of_N (n - 4) else if (n =? 62)%N then "-"%char else "_"%char.
Fixpoint RawURLEncoding (bs : list byte) : string :=
  match bs with
  | a :: b :: c :: rest =>
    let n := (Byte.to_N a * 65536 + Byte.to_N b * 256 + Byte.to_N c)%N in
    String (base64_digit (n / 262144)) (String (base64_digit (n / 4096 mod 64))
      (String (base64_digit (n / 64 mod 64)) (String (base64_digit (n mod 64))
        (RawURLEncoding rest))))
  | [a; b] =>
    let n := (Byte.to_N a * 1024 + Byte.to_N b * 4)%N in
    String (base64_digit (n / 4096)) (String (base64_digit (n / 64 mod 64))
      (String (base64_digit (n mod 64)) ""))
  | [a] =>
    let n := (Byte.to_N a * 16)%N in
    String (base64_digit (n / 64)) (String (base64_digit (n mod 64)) "")
  | [] => ""
  end.

Definition CreateInvitation (organizationID email role actor requestID : string)
    (expiresAt now : time) (r rToken : random) : tx (Invitation * string) :=
  identifier <- newID "invite" r ;;
  tokenBytes <- some_or rToken (ErrText "generate token") ;;
  let token := RawURLEncoding tokenBytes in
  let invitation := {| in_ID := identifier; in_OrganizationID := organizationID;
                       in_Email := ToLower (TrimSpace email); in_Role := role;
                       in_ExpiresAt := expiresAt |} in
  withAudit (audit actor "invitation.created" ("invitation/" +:+ identifier) requestID now
               {["organization_id" := organizationID; "role" := role]})
    (insert_invitation identifier
       {| inv_organization_id := organizationID; inv_role := role;
          inv_email := in_Email invitation; inv_token_hash := sha256_hex token;
          inv_status := "pending"; inv_invited_by := actor; inv_expires_at := expiresAt;
          inv_accepted_by := None; inv_accepted_at := None; inv_created_at := now |}) ;;
  ret (invitation, token).

Definition accept_row (accountID : string) (now : time) (i : invitation_row) : invitation_row :=
  {| inv_organization_id := inv_organization_id i; inv_role := inv_role i;
     inv_email := inv_email i; inv_token_hash := inv_token_hash i; inv_status := "accepted";
     inv_invited_by := inv_invited_by i; inv_expires_at := inv_expires_at i;
     inv_accepted_by := Some accountID; inv_accepted_at := Some now;
     inv_created_at := inv_created_at i |}.

(** [strings.EqualFold] on the ASCII range. *)
Definition EqualFold (a b : string) : bool := seqb (ToLower a) (ToLower b).

(** The account of the address, created when there is none; with the display name
    that the rest of the transaction uses. *)
Definition invited_account (email displayName : string) (now : time) (r : random)
    : tx (string * string) :=
  d <- get ;;
  match find_where (λ _ a, match acc_email a with
                           | Some e => seqb (ToLower e) (ToLower email)
                           | None => false
                           end) (accounts d) with
  | Some (id, _) => ret (id, displayName)
  | None =>
    id <- newID "acct" r ;;
    let displayName := if is_empty (TrimSpace displayName) then email else displayName in
    insert_account id {| acc_display_name := displayName; acc_email := Some email;
                         acc_status := "active"; acc_created_at := now |} ;;
    ret (id, displayName)
  end.

Definition invited_contributor (accountID displayName : string) (now : time) (r : random)
    : tx string :=
  d <- get ;;
  match contributor_of d accountID with
  | Some id => ret id
  | None =>
    id <- newID "contrib" r ;;
    insert_contributor id {| ctb_display_name := displayName; ctb_status := "active";
                             ctb_account_id := Some accountID; ctb_created_at := now |} ;;
    ret id
  end.

Definition AcceptInvitation (token issuer subject email displayName requestID : string)
    (emailVerified : bool) (now : time) (rAccount rIdentity rContributor : random)
    : tx InvitationAcceptance :=
  fail_if (is_empty token || is_empty issuer || is_empty subject || negb emailVerified)
    ErrInvitationInvalid ;;
  d <- get ;;
  '(invitationID, i) <- some_or (find_where
      (λ _ i, seqb (inv_token_hash i) (sha256_hex token) && seqb (inv_status i) "pending"
              && (now <? inv_expires_at i)) (invitations d)) ErrInvitationInvalid ;;
  fail_if (negb (EqualFold (TrimSpace email) (inv_email i))) ErrInvitationInvalid ;;
  '(accountID, displayName) <- invited_account (inv_email i) displayName now rAccount ;;
  identityID <- newID "ident" rIdentity ;;
  any_error ErrInvitationInvalid
    (insert_identity identityID
       {| idn_account_id := accountID; idn_issuer := issuer; idn_subject := subject;
          idn_email_at_link_time := Some (inv_email i); idn_email_verified_at_link_time := true;
          idn_created_at := now; idn_last_authenticated_at := Some now |}) ;;
  upsert_membership (inv_organization_id i) accountID (inv_role i) now ;;
  contributorID <- (if seqb (inv_role i) "contributor" then
                      id <- invited_contributor accountID displayName now rContributor ;;
                      ret (Some id)
                    else ret None) ;;
  modify (set_invitations (alter (accept_row accountID now) invitationID)) ;;
  insertAudit (audit accountID "invitation.accepted" ("invitation/" +:+ invitationID) requestID now
    {["organization_id" := inv_organization_id i; "role" := inv_role i]}) ;;
  ret {| ic_AccountID := accountID; ic_OrganizationID := inv_organization_id i;
         ic_Role := inv_role i; ic_ContributorID := contributorID |}.

(** ** The first administrator *)

Record AdministratorBootstrap := {
  ab_Issuer : string; ab_Subject : string; ab_Email : string; ab_DisplayName : string;
  ab_OrganizationName : string
}.

(** The account of the identity, created with it when there is none. *)
Definition bootstrap_account (input : AdministratorBootstrap) (now : time) (r1 r2 : random)
    : tx string :=
  d <- get ;;
  match find_where (has_identity (ab_Issuer input) (ab_Subject input)) (oidc_identities d) with
  | Some (_, i) => ret (idn_account_id i)
  | None =>
    accountID <- newID "acct" r1 ;;
    identityID <- newID "ident" r2 ;;
    insert_account accountID {| acc_display_name := ab_DisplayName input;
                                acc_email := Some (ab_Email input); acc_status := "active";
                                acc_created_at := now |} ;;
    insert_identity identityID
      {| idn_account_id := accountID; idn_issuer := ab_Issuer input; idn_subject := ab_Subject input;
         idn_email_at_link_time := Some (ab_Email input); idn_email_verified_at_link_time := false;
         idn_created_at := now; idn_last_authenticated_at := None |} ;;
    ret accountID
  end.

(** The oldest organization of the name, created when there is none. *)
Definition bootstrap_organization (name : string) (now : time) (r : random) : tx string :=
  d <- get ;;
  match first_by (λ x y, time_id_leb (org_created_at x.2, x.1) (org_created_at y.2, y.1))
          (select (λ _ o, seqb (org_name o) name) (organizations d)) with
  | Some (id, _) => ret id
  | None =>
    id <- newID "org" r ;;
    insert_organization id {| org_name := name; org_created_at := now |} ;;
    ret id
  end.

Definition BootstrapAdministrator (input : AdministratorBootstrap) (requestID : string) (now : time)
    (r1 r2 r3 : random) : tx (string * string) :=
  accountID <- bootstrap_account input now r1 r2 ;;
  organizationID <- bootstrap_organization (ab_OrganizationName input) now r3 ;;
  upsert_membership organizationID accountID "admin" now ;;
  insertAudit (audit "system/bootstrap-admin" "administrator.bootstrapped"
    ("account/" +:+ accountID) requestID now
    {["organization_id" := organizationID; "issuer" := ab_Issuer input]}) ;;
  ret (accountID, organizationID).

(** ** Scopes *)

Lemma HasOrganizationRole_spec access organizationID roles :
  HasOrganizationRole access organizationID roles = true ↔
  ∃ m, m ∈ ia_Memberships access ∧ om_OrganizationID m = organizationID ∧ om_Role m ∈ roles.
Proof.
  unfold HasOrganizationRole. rewrite existsb_exists.
  setoid_rewrite <-list_elem_of_In. setoid_rewrite andb_true_iff. setoid_rewrite seqb_true.
  setoid_rewrite oneof_true. done.
Qed.

Lemma organization_ids_spec roles seen l organizationID :
  organizationID ∈ organization_ids roles seen l ↔
  organizationID ∉ seen ∧ ∃ m, m ∈ l ∧ om_OrganizationID m = organizationID ∧ om_Role m ∈ roles.
Proof.
  revert seen. induction l as [|m l IH]; intros seen; cbn.
  - split; [by intros ?%elem_of_nil|]. by intros (_ & m & ?%elem_of_nil & _).
  - destruct (oneof (om_Role m) roles && negb (oneof (om_OrganizationID m) seen)) eqn:E.
    + rewrite andb_true_iff, negb_true_iff, oneof_true in E. destruct E as [Hr Hs].
      apply bool_decide_eq_false in Hs. rewrite elem_of_cons, IH. split.
      * intros [->|[Hn (m' & Hm & Ho & Hr')]]; [split; [done|]; exists m; by split; [left|]|].
        apply not_elem_of_cons in Hn as [_ Hn]. split; [done|]. exists m'. by split; [right|].
      * intros (Hn & m' & [->|Hm]%elem_of_cons & Ho & Hr'); [by left|].
        destruct (decide (organizationID = om_OrganizationID m)) as [->|Hne]; [by left|right].
        split; [by apply not_elem_of_cons|]. by exists m'.
    + rewrite IH. split.
      { intros (Hn & m' & Hm & Ho & Hr). split; [done|]. exists m'. by split; [right|]. }
      intros (Hs & m' & [->|Hm]%elem_of_cons & Ho & Hr); [|split; [done|]; by exists m'].
      rewrite (proj2 (oneof_true _ _) Hr) in E. cbn in E. apply negb_false_iff, oneof_true in E.
      by subst.
Qed.

Lemma organization_ids_NoDup roles seen l : NoDup (organization_ids roles seen l).
Proof.
  revert seen. induction l as [|m l IH]; intros seen; cbn; [constructor|].
  destruct (_ && _); [|apply IH]. constructor; [|apply IH].
  rewrite organization_ids_spec. set_solver.
Qed.

(** The two ways the API scopes a request agree.  The organizations listed for a
    set of roles are pairwise different and are exactly those for which the
    per-organization check with the same roles succeeds; a role is held somewhere
    if and only if the list for it is not empty. *)
Theorem organization_scope_agrees access roles :
  NoDup (OrganizationIDsForRoles access roles) ∧
  (∀ organizationID, organizationID ∈ OrganizationIDsForRoles access roles ↔
     HasOrganizationRole access organizationID roles = true) ∧
  (∀ role, HasRole access role = true ↔ OrganizationIDsForRoles access [role] ≠ []).
Proof.
  split; [apply organization_ids_NoDup|]. split.
  - intros o. unfold OrganizationIDsForRoles. rewrite organization_ids_spec, HasOrganizationRole_spec.
    set_solver.
  - intros role. unfold HasRole. rewrite existsb_exists. split.
    + intros (m & Hm & Hr%seqb_true) Hn.
      assert (H : om_OrganizationID m ∈ OrganizationIDsForRoles access [role]).
      { apply organization_ids_spec. split; [by apply not_elem_of_nil|]. exists m.
        rewrite list_elem_of_In. by rewrite Hr, list_elem_of_singleton. }
      rewrite Hn in H. by apply elem_of_nil in H.
    + destruct (OrganizationIDsForRoles access [role]) as [|o l] eqn:E; [done|]. intros _.
      assert (H : o ∈ OrganizationIDsForRoles access [role]) by (rewrite E; left).
      apply organization_ids_spec in H as (_ & m & Hm & _ & Hr%list_elem_of_singleton).
      exists m. by rewrite <-list_elem_of_In, seqb_true.
Qed.

(** Resolving an identity.  Only an identity linked to an active account resolves;
    the access it gets carries exactly the active memberships of that account.
    Resolving writes nothing but the time of the last authentication, and that only
    when the stored one is more than five minutes old. *)
Theorem resolve_identity issuer subject at_ d :
  match find_where (has_identity issuer subject) (oidc_identities d) with
  | None => ResolveOIDCIdentity issuer subject at_ d = Err ErrNotFound
  | Some (_, i) =>
    match accounts d !! idn_account_id i with
    | Some a =>
      if seqb (acc_status a) "active" then
        ∃ access d', ResolveOIDCIdentity issuer subject at_ d = Ok (access, d') ∧
          ia_AccountID access = idn_account_id i ∧
          (∀ organizationID role,
             {| om_OrganizationID := organizationID; om_Role := role |} ∈ ia_Memberships access ↔
             ∃ m, organization_memberships d !! (organizationID, idn_account_id i, role) = Some m ∧
                  mem_status m = "active") ∧
          organization_memberships d' = organization_memberships d ∧ accounts d' = accounts d ∧
          (∀ k j, oidc_identities d !! k = Some j → oidc_identities d' !! k ≠ Some j →
             has_identity issuer subject k j = true ∧
             (∀ t, idn_last_authenticated_at j = Some t → t < at_ - 5 * minute) ∧
             oidc_identities d' !! k = Some (touch_identity at_ j))
      else ResolveOIDCIdentity issuer subject at_ d = Err ErrNotFound
    | None => ResolveOIDCIdentity issuer subject at_ d = Err ErrNotFound
    end
  end.
Proof.
  unfold ResolveOIDCIdentity. destruct (find_where _ _) as [[k i]|] eqn:Hf; [|by op_run; rewrite Hf].
  destruct (accounts d !! idn_account_id i) as [a|] eqn:Ha; [|by op_run; rewrite Hf; op_run; rewrite Ha].
  destruct (seqb (acc_status a) "active") eqn:Hs;
    [|by op_run; rewrite Hf; op_run; rewrite Ha; op_run; rewrite Hs].
  op_run. rewrite Hf. op_run. rewrite Ha. op_run. rewrite Hs. cbn [negb]. op_run.
  eexists _, _. split; [reflexivity|]. split; [done|]. split; [|split; [done|]; split; [done|]].
  - intros o role. cbn. unfold active_memberships. rewrite list_elem_of_fmap. split.
    + intros ([[[o' acc] role'] m] & [= -> ->] & Hin).
      rewrite merge_sort_Permutation in Hin. apply select_spec in Hin as [Hm Hp].
      cbn in Hp. rewrite andb_true_iff, !seqb_true in Hp. destruct Hp as [-> Hact]. by exists m.
    + intros (m & Hm & Hact). exists ((o, idn_account_id i, role), m). split; [done|].
      rewrite merge_sort_Permutation. apply select_spec. split; [done|].
      cbn. by rewrite andb_true_iff, !seqb_true.
  - intros k' j Hj Hne. db_simpl. rewrite lookup_update_where, Hj in *. cbn in *.
    destruct (_ && _) eqn:E; [|done]. apply andb_true_iff in E as [E1 E2]. split_and!; [done| |done].
    intros t Ht. rewrite Ht in E2. by apply Z.ltb_lt in E2.
Qed.

(** ** Invitations *)

Definition open_invitation (token : string) (now : time) (_ : string) (i : invitation_row) : bool :=
  seqb (inv_token_hash i) (sha256_hex token) && seqb (inv_status i) "pending"
  && (now <? inv_expires_at i).

(** The token hashes are distinct, as the unique index requires. *)
Definition token_hashes_unique (d : db) : Prop :=
  ∀ k i k' i', invitations d !! k = Some i → invitations d !! k' = Some i' →
    inv_token_hash i = inv_token_hash i' → k = k'.

Lemma find_invitation_none d token now :
  find_where (open_invitation token now) (invitations d) = None →
  ∀ issuer subject email displayName requestID verified r1 r2 r3,
    AcceptInvitation token issuer subject email displayName requestID verified now r1 r2 r3 d =
      Err ErrInvitationInvalid.
Proof.
  intros Hn issuer subject email displayName requestID verified r1 r2 r3.
  unfold AcceptInvitation. rewrite bind_fail_if. destruct (_ || _); [done|].
  op_run. unfold open_invitation in Hn. by rewrite Hn.
Qed.

(** What an accepted invitation went through. *)
Lemma AcceptInvitation_ok token issuer subject email displayName requestID verified now r1 r2 r3 d x d' :
  AcceptInvitation token issuer subject email displayName requestID verified now r1 r2 r3 d = Ok (x, d') →
  ∃ invitationID i, find_where (open_invitation token now) (invitations d) = Some (invitationID, i) ∧
    verified = true ∧ EqualFold (TrimSpace email) (inv_email i) = true ∧
    ic_OrganizationID x = inv_organization_id i ∧ ic_Role x = inv_role i ∧
    (∀ k j, oidc_identities d !! k = Some j → has_identity issuer subject k j = false) ∧
    (∃ m, organization_memberships d' !! (inv_organization_id i, ic_AccountID x, inv_role i) = Some m ∧
          mem_status m = "active") ∧
    invitations d' = <[invitationID := accept_row (ic_AccountID x) now i]> (invitations d).
Proof.
  unfold AcceptInvitation. intros H.
  apply bind_ok in H as ([] & ? & [Hg ->]%fail_if_ok & H). rewrite bind_get in H.
  apply bind_ok in H as ([invitationID i] & ? & [Hf ->]%some_or_ok & H).
  apply bind_ok in H as ([] & ? & [He ->]%fail_if_ok & H).
  apply bind_ok in H as ([accountID name] & d1 & Hacc & H).
  apply bind_ok in H as (identityID & ? & [_ ->]%newID_ok & H).
  apply bind_ok in H as ([] & d2 & Hid & H). apply bind_ok in H as ([] & d3 & Hm & H).
  apply bind_ok in H as (contributorID & d4 & Hc & H). stmt_inv. cbn.
  exists invitationID, i. split; [exact Hf|]. apply find_where_some in Hf as [Hi _].
  assert (Kinv : invitations d4 = invitations d ∧ oidc_identities d1 = oidc_identities d ∧
                 organization_memberships d4 = organization_memberships d3).
  { kept invitations Hacc. kept oidc_identities Hacc. kept invitations Hid. kept invitations Hm.
    kept invitations Hc. kept organization_memberships Hc. split_and!; congruence. }
  destruct Kinv as (Kinv & Kid & Kmem).
  split_and!; try done.
  - by rewrite !orb_false_iff, negb_false_iff in Hg; destruct Hg as [_ ?].
  - by apply negb_false_iff in He.
  - intros k j Hj. unfold insert_identity in Hid. insert_inv. cbn in *.
    match goal with H : exists_row _ _ = false |- _ => rewrite exists_row_false in H; eapply H end.
    by rewrite Kid.
  - unfold upsert_membership in Hm. insert_inv. rewrite Kmem. db_simpl.
    rewrite lookup_insert_eq. eexists. split; reflexivity.
  - rewrite Kinv. by apply alter_as_insert.
Qed.


(** An identity that is already linked cannot accept any further invitation: the
    unconditional insert of the identity makes every such call fail, so a member of
    one organization cannot join a second one or take on a second role by
    invitation, although the membership insert allows for an existing row. *)
Theorem linked_identity_refused issuer subject k j d :
  oidc_identities d !! k = Some j → idn_issuer j = issuer → idn_subject j = subject →
  ∀ token email displayName requestID verified now r1 r2 r3,
    is_ok (AcceptInvitation token issuer subject email displayName requestID verified now r1 r2 r3 d) = false.
Proof.
  intros Hk Hi Hs token email displayName requestID verified now r1 r2 r3.
  destruct (AcceptInvitation _ _ _ _ _ _ _ _ _ _ _ _) as [[x d']|e] eqn:H; [|done].
  apply AcceptInvitation_ok in H as (_ & _ & _ & _ & _ & _ & _ & Hn & _).
  specialize (Hn k j Hk). unfold has_identity in Hn.
  by rewrite !(proj2 (seqb_true _ _)) in Hn by done.
Qed.

Definition sample_invitation (token organizationID : string) : invitation_row :=
  {| inv_organization_id := organizationID; inv_role := "reviewer"; inv_email := "a@b.c";
     inv_token_hash := sha256_hex token; inv_status := "pending"; inv_invited_by := "admin";
     inv_expires_at := 100; inv_accepted_by := None; inv_accepted_at := None; inv_created_at := 1 |}.
Definition invited_db : db :=
  set_organizations <["org_1" := {| org_name := "one"; org_created_at := 1 |}]>
  (set_organizations <["org_2" := {| org_name := "two"; org_created_at := 1 |}]>
  (set_invitations <["invite_1" := sample_invitation "t1" "org_1"]> empty_db)).
Definition accept_sample (token : string) : tx InvitationAcceptance :=
  AcceptInvitation token "iss" "sub" " A@b.c" "Ann" "req" true 5 (Some [x01]) (Some [x02]) (Some [x03]).


(** The second organization invites the same person: refused although the
    invitation is pending, unexpired and for the right address. *)
Lemma linked_identity_refused_witness :
  ∃ x d', accept_sample "t1" invited_db = Ok (x, d') ∧
    is_ok (accept_sample "t2" (set_invitations <["invite_2" := sample_invitation "t2" "org_2"]> d')) = false.
Proof.
  destruct (accept_sample "t1" invited_db) as [[x d']|e] eqn:H; [|vm_compute in H; discriminate H].
  exists x, d'. split; [reflexivity|].
  destruct (oidc_identities d' !! "ident_02") as [j|] eqn:Hj.
  - eapply linked_identity_refused with (k := "ident_02") (j := j); [exact Hj|..];
      clear -H Hj; vm_compute in H; injection H as _ <-; vm_compute in Hj; injection Hj as <-; reflexivity.
  - exfalso. clear -H Hj. vm_compute in H. injection H as _ <-. vm_compute in Hj. discriminate Hj.
Defined.
