(* ===== verification/Campaign.v ===== *)
(** * Campaign administration and the queue snapshot
      ([database/admin.go], [database/operations.go])

    A campaign is created in one transaction: project, template, task, assignment
    and the first session.  The listings aggregate over the same tables. *)

From S2P Require Import Prelude Domain Schema Store.

(** ** Listings *)

Record ProjectSummary := {
  ps_ID : string; ps_OrganizationID : string; ps_Name : string; ps_TargetTrajectories : Z;
  ps_TaskCount : nat; ps_SessionCount : nat; ps_Assigned : nat; ps_Recording : nat;
  ps_Processing : nat; ps_ReadyForReview : nat; ps_Accepted : nat; ps_Rejected : nat;
  ps_Released : nat; ps_Deleted : nat
}.

Definition task_project (d : db) (taskID : string) : option string :=
  t ← tasks d !! taskID;
  tt ← task_templates d !! tsk_template_id t;
  Some (tpl_project_id tt).
Definition project_sessions (d : db) (projectID : string) : list (string * session_row) :=
  select (λ _ s, match assignments d !! ses_assignment_id s with
                 | Some a => bool_decide (task_project d (asg_task_id a) = Some projectID)
                 | None => false
                 end) (sessions d).
(** [count(DISTINCT s.id) FILTER (WHERE s.state IN states)] *)
Definition count_states (states : list SessionState) (l : list (string * session_row)) : nat :=
  length (List.filter (λ ks, bool_decide (ses_state ks.2 ∈ states)) l).

Definition project_summary (d : db) (id : string) (p : project_row) : ProjectSummary :=
  let l := project_sessions d id in
  {| ps_ID := id; ps_OrganizationID := prj_organization_id p; ps_Name := prj_name p;
     ps_TargetTrajectories := prj_target_trajectories p;
     ps_TaskCount := length (select (λ t _, bool_decide (task_project d t = Some id)) (tasks d));
     ps_SessionCount := length l;
     ps_Assigned := count_states [SessionCreated; SessionAssigned; SessionReady] l;
     ps_Recording := count_states [SessionRecording; SessionFinalizing; SessionUploading] l;
     ps_Processing := count_states [SessionSubmitted; SessionProcessing] l;
     ps_ReadyForReview := count_states [SessionReadyForReview] l;
     ps_Accepted := count_states [SessionAccepted] l;
     ps_Rejected := count_states
       [SessionRejected; SessionReworkRequired; SessionFailed; SessionCancelled] l;
     ps_Released := count_states [SessionReleased] l;
     ps_Deleted := count_states [SessionDeleted] l |}.

(** [ORDER BY t DESC, id] *)
Definition newer {R} (t : R → time) (x y : string * R) : Prop :=
  (if t y.2 <? t x.2 then true else if t x.2 <? t y.2 then false else string_leb x.1 y.1) = true.
#[export] Instance newer_dec {R} (t : R → time) : RelDecision (newer t).
Proof. intros x y. unfold newer. apply _. Defined.

Definition listProjects (d : db) (organizationIDs : option (list string)) : list ProjectSummary :=
  map (λ kp, project_summary d kp.1 kp.2)
    (merge_sort (newer prj_created_at)
      (select (λ _ p, match organizationIDs with
                      | None => true
                      | Some l => oneof (prj_organization_id p) l
                      end) (projects d))).
Definition ListProjects (d : db) : list ProjectSummary := listProjects d None.
Definition ListProjectsForOrganizations (d : db) (organizationIDs : list string) : list ProjectSummary :=
  if Nat.eqb (length organizationIDs) 0 then [] else listProjects d (Some organizationIDs).

Record ProjectSession := {
  pss_SessionID : string; pss_TaskID : string; pss_Goal : string; pss_ContributorID : string;
  pss_ContributorName : string; pss_State : SessionState; pss_UpdatedAt : time
}.

Definition project_session (d : db) (id : string) (s : session_row) : option ProjectSession :=
  a ← assignments d !! ses_assignment_id s;
  c ← contributors d !! asg_contributor_id a;
  t ← tasks d !! asg_task_id a;
  Some {| pss_SessionID := id; pss_TaskID := asg_task_id a; pss_Goal := tsk_goal t;
          pss_ContributorID := asg_contributor_id a; pss_ContributorName := ctb_display_name c;
          pss_State := ses_state s; pss_UpdatedAt := ses_updated_at s |}.

Definition ListProjectSessions (d : db) (projectID : string) : res (list ProjectSession) :=
  if negb (has_row (projects d) projectID) then Err ErrNotFound
  else Ok (omap (λ ks, project_session d ks.1 ks.2)
             (merge_sort (newer ses_updated_at) (project_sessions d projectID))).

Definition GetProject (d : db) (projectID : string) : res Project :=
  match projects d !! projectID with
  | None => Err ErrNotFound
  | Some p => Ok {| p_ID := projectID; p_OrganizationID := prj_organization_id p;
                    p_Name := prj_name p; p_TargetTrajectories := prj_target_trajectories p |}
  end.

Record OrganizationContributor := { oc_ID : string; oc_DisplayName : string; oc_Email : string }.

Definition lower_name_le (x y : OrganizationContributor) : Prop :=
  (if string_leb (ToLower (oc_DisplayName x)) (ToLower (oc_DisplayName y)) then
     if string_leb (ToLower (oc_DisplayName y)) (ToLower (oc_DisplayName x))
     then string_leb (oc_ID x) (oc_ID y) else true
   else false) = true.
#[export] Instance lower_name_le_dec : RelDecision lower_name_le.
Proof. intros x y. unfold lower_name_le. apply _. Defined.

Definition ListOrganizationContributors (d : db) (organizationID : string)
    : list OrganizationContributor :=
  merge_sort lower_name_le (omap (λ kc : string * contributor_row,
    accountID ← ctb_account_id kc.2;
    a ← accounts d !! accountID;
    if active_member d organizationID "contributor" accountID
       && seqb (acc_status a) "active" && seqb (ctb_status kc.2) "active"
    then Some {| oc_ID := kc.1; oc_DisplayName := ctb_display_name kc.2;
                 oc_Email := coalesce "" (acc_email a) |}
    else None) (map_to_list (contributors d))).

(** ** Campaigns *)

Record CampaignSpec := {
  cs_OrganizationName : string; cs_ProjectName : string; cs_TargetTrajectories : Z;
  cs_TemplateName : string; cs_Goal : string; cs_Category : string; cs_Difficulty : string;
  cs_TemplateSpecification : string; cs_InputAssets : string; cs_ExpectedOutputs : string;
  cs_ContributorName : string
}.

Record BootstrappedCampaign := {
  bc_OrganizationID : string; bc_ProjectID : string; bc_TemplateID : string; bc_TaskID : string;
  bc_ContributorID : string; bc_AssignmentID : string; bc_SessionID : string
}.

Record ProductionCampaignSpec := {
  pc_OrganizationID : string; pc_ContributorID : string; pc_ProjectName : string;
  pc_TargetTrajectories : Z; pc_TemplateName : string; pc_Goal : string; pc_Category : string;
  pc_Difficulty : string; pc_TemplateSpecification : string; pc_InputAssets : string;
  pc_ExpectedOutputs : string
}.

Definition event_without_metadata (actor action resource requestID : string) (now : time)
    : AuditEvent := audit actor action resource requestID now ∅.

Definition CreateProductionCampaign (spec : ProductionCampaignSpec) (actor requestID : string)
    (now : time) (r1 r2 r3 r4 r5 : random) : tx BootstrappedCampaign :=
  projectID <- newID "proj" r1 ;;
  templateID <- newID "tmpl" r2 ;;
  taskID <- newID "task" r3 ;;
  assignmentID <- newID "assign" r4 ;;
  sessionID <- newID "sess" r5 ;;
  session <- lift (Transition
    {| s_ID := sessionID; s_AssignmentID := assignmentID; s_State := SessionCreated;
       s_UpdatedAt := 0; s_AuditEvents := [] |}
    (transition_command SessionAssigned actor requestID now)) ;;
  d <- get ;;
  fail_if (negb (ContributorHasOrganization d (pc_ContributorID spec) (pc_OrganizationID spec)))
    ErrNotFound ;;
  insert_project projectID
    {| prj_organization_id := pc_OrganizationID spec; prj_name := pc_ProjectName spec;
       prj_target_trajectories := pc_TargetTrajectories spec; prj_created_at := now |} ;;
  insert_task_template templateID
    {| tpl_project_id := projectID; tpl_name := pc_TemplateName spec; tpl_goal := pc_Goal spec;
       tpl_category := pc_Category spec; tpl_difficulty := pc_Difficulty spec;
       tpl_specification := pc_TemplateSpecification spec; tpl_created_at := now |} ;;
  insert_task taskID
    {| tsk_template_id := templateID; tsk_goal := pc_Goal spec;
       tsk_input_assets := pc_InputAssets spec; tsk_expected_outputs := pc_ExpectedOutputs spec;
       tsk_created_at := now |} ;;
  insert_assignment assignmentID
    {| asg_task_id := taskID; asg_contributor_id := pc_ContributorID spec; asg_created_at := now |} ;;
  insert_session sessionID (new_session assignmentID (s_State session) None now) ;;
  insertAudit (event_without_metadata actor "project.created" ("project/" +:+ projectID) requestID now) ;;
  insertAudit (event_without_metadata actor "task_template.created"
                 ("task-template/" +:+ templateID) requestID now) ;;
  insertAudit (event_without_metadata actor "task.created" ("task/" +:+ taskID) requestID now) ;;
  insertAudit (audit actor "task.assigned" ("assignment/" +:+ assignmentID) requestID now
    {["task_id" := taskID; "contributor_id" := pc_ContributorID spec]}) ;;
  insert_last_audit session ;;
  ret {| bc_OrganizationID := pc_OrganizationID spec; bc_ProjectID := projectID;
         bc_TemplateID := templateID; bc_TaskID := taskID; bc_ContributorID := pc_ContributorID spec;
         bc_AssignmentID := assignmentID; bc_SessionID := sessionID |}.

Definition BootstrapCampaign (spec : CampaignSpec) (actor requestID : string) (now : time)
    (r1 r2 r3 r4 r5 r6 r7 : random) : tx BootstrappedCampaign :=
  organizationID <- newID "org" r1 ;;
  projectID <- newID "proj" r2 ;;
  templateID <- newID "tmpl" r3 ;;
  taskID <- newID "task" r4 ;;
  contributorID <- newID "contrib" r5 ;;
  assignmentID <- newID "assign" r6 ;;
  sessionID <- newID "sess" r7 ;;
  session <- lift (Transition
    {| s_ID := sessionID; s_AssignmentID := assignmentID; s_State := SessionCreated;
       s_UpdatedAt := 0; s_AuditEvents := [] |}
    (transition_command SessionAssigned actor requestID now)) ;;
  insert_organization organizationID {| org_name := cs_OrganizationName spec; org_created_at := now |} ;;
  insert_project projectID
    {| prj_organization_id := organizationID; prj_name := cs_ProjectName spec;
       prj_target_trajectories := cs_TargetTrajectories spec; prj_created_at := now |} ;;
  insert_task_template templateID
    {| tpl_project_id := projectID; tpl_name := cs_TemplateName spec; tpl_goal := cs_Goal spec;
       tpl_category := cs_Category spec; tpl_difficulty := cs_Difficulty spec;
       tpl_specification := cs_TemplateSpecification spec; tpl_created_at := now |} ;;
  insert_task taskID
    {| tsk_template_id := templateID; tsk_goal := cs_Goal spec;
       tsk_input_assets := cs_InputAssets spec; tsk_expected_outputs := cs_ExpectedOutputs spec;
       tsk_created_at := now |} ;;
  insert_contributor contributorID
    {| ctb_display_name := cs_ContributorName spec; ctb_status := "active"; ctb_account_id := None;
       ctb_created_at := now |} ;;
  insert_assignment assignmentID
    {| asg_task_id := taskID; asg_contributor_id := contributorID; asg_created_at := now |} ;;
  insert_session sessionID (new_session assignmentID (s_State session) None now) ;;
  insertAudit (event_without_metadata actor "organization.created"
                 ("organization/" +:+ organizationID) requestID now) ;;
  insertAudit (event_without_metadata actor "project.created" ("project/" +:+ projectID) requestID now) ;;
  insertAudit (event_without_metadata actor "task_template.created"
                 ("task-template/" +:+ templateID) requestID now) ;;
  insertAudit (event_without_metadata actor "task.created" ("task/" +:+ taskID) requestID now) ;;
  insertAudit (event_without_metadata actor "contributor.created"
                 ("contributor/" +:+ contributorID) requestID now) ;;
  insertAudit (audit actor "task.assigned" ("assignment/" +:+ assignmentID) requestID now
    {["task_id" := taskID; "contributor_id" := contributorID]}) ;;
  insert_last_audit session ;;
  ret {| bc_OrganizationID := organizationID; bc_ProjectID := projectID; bc_TemplateID := templateID;
         bc_TaskID := taskID; bc_ContributorID := contributorID; bc_AssignmentID := assignmentID;
         bc_SessionID := sessionID |}.

(** ** The queue snapshot *)

Record QueueSnapshot := {
  qs_Processing : nat * nat * nat; qs_Redaction : nat * nat * nat;
  qs_Deletion : nat * nat * nat * nat; qs_Retention : nat * nat * nat * nat;
  qs_OldestReadyAgeSeconds : Z
}.

Definition count_state {R} (state : R → string) (name : string) (m : gmap string R) : nat :=
  length (select (λ _ r, seqb (state r) name) m).

(** [min(available_at) ... WHERE state='queued' AND available_at <= now] *)
Definition oldest_ready {R} (state : R → string) (available : R → time) (now : time)
    (m : gmap string R) : option time :=
  match map (λ kr, available kr.2)
          (select (λ _ r, seqb (state r) "queued" && (available r <=? now)) m) with
  | [] => None
  | t :: l => Some (foldr Z.min t l)
  end.

(** [LEAST] ignores nulls. *)
Definition least (a b : option time) : option time :=
  match a, b with
  | Some x, Some y => Some (Z.min x y)
  | Some x, None => Some x
  | None, o => o
  end.

(** [EXTRACT(EPOCH FROM interval)::bigint]: the nearest second, halves away from
    zero; the result is only used where it is positive. *)
Definition round_seconds (ns : Z) : Z := (2 * ns + second) / (2 * second).

Definition GetQueueSnapshot (d : db) (now : time) : QueueSnapshot :=
  let oldest :=
    least (least (oldest_ready job_state job_available_at now (processing_jobs d))
                 (oldest_ready rjb_state rjb_available_at now (redaction_jobs d)))
          (least (oldest_ready del_state del_available_at now (deletion_requests d))
                 (oldest_ready prg_state prg_available_at now (retention_purge_requests d))) in
  let jobs := count_state job_state in
  let redactions := count_state rjb_state in
  let deletions := count_state del_state in
  let purges := count_state prg_state in
  {| qs_Processing := (jobs "queued" (processing_jobs d), jobs "leased" (processing_jobs d),
                       jobs "dead_letter" (processing_jobs d));
     qs_Redaction := (redactions "queued" (redaction_jobs d), redactions "leased" (redaction_jobs d),
                      redactions "dead_letter" (redaction_jobs d));
     qs_Deletion := (deletions "queued" (deletion_requests d), deletions "leased" (deletion_requests d),
                     deletions "blocked" (deletion_requests d),
                     deletions "dead_letter" (deletion_requests d));
     qs_Retention := (purges "queued" (retention_purge_requests d),
                      purges "leased" (retention_purge_requests d),
                      purges "blocked" (retention_purge_requests d),
                      purges "dead_letter" (retention_purge_requests d));
     qs_OldestReadyAgeSeconds :=
       Z.max 0 (match oldest with Some t => round_seconds (now - t) | None => 0 end) |}.
