(* ===== verification/System.v ===== *)
(** * The store as a transition system

    Every writing operation of the store is a request; a step is a request that
    commits, a failed request leaves the database as it was.  The properties here
    hold of every state reachable from the migrated database by any sequence of
    requests of any callers. *)

From S2P Require Import Prelude Domain Schema Encoding Sha256 Store Pipeline Redaction.
From S2P Require Import Review Erasure Retention Release Multipart Identity Campaign Frame.

(** ** Requests *)

Inductive request : Type :=
| RCreateOrganization (name actor requestID : string) (now : time) (r : random)
| RCreateProject (organizationID name : string) (target : Z) (actor requestID : string) (now : time)
    (r : random)
| RCreateTaskTemplate (template : TaskTemplate) (specification actor requestID : string) (now : time)
    (r : random)
| RCreateTask (templateID goal inputAssets expectedOutputs actor requestID : string) (now : time)
    (r : random)
| RCreateContributor (displayName actor requestID : string) (now : time) (r : random)
| RAssignTask (taskID contributorID actor requestID : string) (now : time) (r1 r2 : random)
| RCreateConsentDocument (version body actor requestID : string) (effectiveAt now : time) (r : random)
| RAcceptConsent (sessionID contributorID documentID clientVersion actor requestID : string)
    (now : time) (r : random)
| RTransitionSession (sessionID : string) (to : SessionState) (actor requestID : string) (now : time)
| RRegisterArtifact (artifact : Artifact) (actor requestID : string) (now : time) (r : random)
| RSubmitSession (sessionID actor requestID : string) (now : time) (r : random)
| RClaimValidationJob (workerID : string) (leaseDuration : Z) (now : time) (locked : gset string)
| RCompleteValidationJob (jobID workerID : string) (result : ValidationResult) (now : time) (r : random)
| RRequeueValidationJob (jobID workerID message : string) (maxAttempts : Z) (now : time)
| RRetryDeadLetterJob (jobID actor requestID : string) (now : time)
| RClaimReview (sessionID reviewerID actor requestID : string) (lease : Z) (now : time)
| RReleaseReview (sessionID reviewerID actor requestID : string) (now : time)
| RSubmitReview (review : Review) (actor requestID : string) (now : time)
    (rPlan rJob rReview rRework : random)
| RCreateRedactionPlan (plan : RedactionPlan) (actor requestID : string) (now : time) (r1 r2 : random)
| RClaimRedactionJob (workerID : string) (leaseDuration : Z) (now : time) (locked : gset string)
| RCompleteRedactionJob (jobID workerID outputManifestKey : string) (now : time)
| RRequeueRedactionJob (jobID workerID message : string) (maxAttempts : Z) (now : time)
| RRetryDeadLetterRedactionJob (jobID actor requestID : string) (now : time)
| RPlaceLegalHold (sessionID reason actor requestID : string) (now : time) (r : random)
| RReleaseLegalHold (sessionID holdID actor requestID : string) (now : time)
| RRequestSessionDeletion (sessionID reason actor requestID : string) (now : time) (r : random)
| RClaimDeletionRequest (workerID : string) (leaseDuration : Z) (now : time) (locked : gset string)
| RRequeueDeletionRequest (deletionID workerID message : string) (maxAttempts : Z) (now : time)
| RCompleteDeletionRequest (deletionID workerID : string) (now : time)
| RRetryDeadLetterDeletionRequest (deletionID actor requestID : string) (now : time)
| RUpsertRetentionPolicy (policy : RetentionPolicy) (actor requestID : string) (now : time)
| RQueueExpiredRetention (actor : string) (now : time) (limit : Z) (randoms : nat → random)
| RClaimRetentionPurge (workerID : string) (leaseDuration : Z) (now : time) (locked : gset string)
| RCompleteRetentionPurge (requestID workerID : string) (now : time)
| RRequeueRetentionPurge (requestID workerID message : string) (maxAttempts : Z) (now : time)
| RRetryDeadLetterRetentionPurge (requestID actor auditRequestID : string) (now : time)
| RCommitRelease (release : DatasetRelease) (actor requestID : string) (now : time)
| RCreateMultipartUpload (upload : MultipartUpload) (actor requestID : string) (now : time) (r : random)
| RRestartMultipartUpload (upload : MultipartUpload) (actor requestID : string) (now : time)
| RRecordMultipartUploadPart (uploadID : string) (part : MultipartUploadPart) (now : time)
| RSetMultipartUploadState (uploadID from to : string) (now : time)
| RResolveOIDCIdentity (issuer subject : string) (authenticatedAt : time)
| RCreateInvitation (organizationID email role actor requestID : string) (expiresAt now : time)
    (r rToken : random)
| RAcceptInvitation (token issuer subject email displayName requestID : string)
    (emailVerified : bool) (now : time) (rAccount rIdentity rContributor : random)
| RBootstrapAdministrator (input : AdministratorBootstrap) (requestID : string) (now : time)
    (r1 r2 r3 : random)
| RCreateProductionCampaign (spec : ProductionCampaignSpec) (actor requestID : string) (now : time)
    (r1 r2 r3 r4 r5 : random)
| RBootstrapCampaign (spec : CampaignSpec) (actor requestID : string) (now : time)
    (r1 r2 r3 r4 r5 r6 r7 : random).

Definition discard {A} (m : tx A) : tx () := m ;; ret ().

Definition exec (req : request) : tx () :=
  match req with
  | RCreateOrganization a b c d e => discard (CreateOrganization a b c d e)
  | RCreateProject a b c d e f g => discard (CreateProject a b c d e f g)
  | RCreateTaskTemplate a b c d e f => discard (CreateTaskTemplate a b c d e f)
  | RCreateTask a b c d e f g h => discard (CreateTask a b c d e f g h)
  | RCreateContributor a b c d e => discard (CreateContributor a b c d e)
  | RAssignTask a b c d e f g => discard (AssignTask a b c d e f g)
  | RCreateConsentDocument a b c d e f g => discard (CreateConsentDocument a b c d e f g)
  | RAcceptConsent a b c d e f g h => discard (AcceptConsent a b c d e f g h)
  | RTransitionSession a b c d e => discard (TransitionSession a b c d e)
  | RRegisterArtifact a b c d e => discard (RegisterArtifact a b c d e)
  | RSubmitSession a b c d e => discard (SubmitSession a b c d e)
  | RClaimValidationJob a b c d => discard (ClaimValidationJob a b c d)
  | RCompleteValidationJob a b c d e => discard (CompleteValidationJob a b c d e)
  | RRequeueValidationJob a b c d e => RequeueValidationJob a b c d e
  | RRetryDeadLetterJob a b c d => discard (RetryDeadLetterJob a b c d)
  | RClaimReview a b c d e f => discard (ClaimReview a b c d e f)
  | RReleaseReview a b c d e => ReleaseReview a b c d e
  | RSubmitReview a b c d e f g h => discard (SubmitReview a b c d e f g h)
  | RCreateRedactionPlan a b c d e f => discard (CreateRedactionPlan a b c d e f)
  | RClaimRedactionJob a b c d => discard (ClaimRedactionJob a b c d)
  | RCompleteRedactionJob a b c d => CompleteRedactionJob a b c d
  | RRequeueRedactionJob a b c d e => RequeueRedactionJob a b c d e
  | RRetryDeadLetterRedactionJob a b c d => discard (RetryDeadLetterRedactionJob a b c d)
  | RPlaceLegalHold a b c d e f => discard (PlaceLegalHold a b c d e f)
  | RReleaseLegalHold a b c d e => ReleaseLegalHold a b c d e
  | RRequestSessionDeletion a b c d e f => discard (RequestSessionDeletion a b c d e f)
  | RClaimDeletionRequest a b c d => discard (ClaimDeletionRequest a b c d)
  | RRequeueDeletionRequest a b c d e => RequeueDeletionRequest a b c d e
  | RCompleteDeletionRequest a b c => CompleteDeletionRequest a b c
  | RRetryDeadLetterDeletionRequest a b c d => discard (RetryDeadLetterDeletionRequest a b c d)
  | RUpsertRetentionPolicy a b c d => discard (UpsertRetentionPolicy a b c d)
  | RQueueExpiredRetention a b c d => discard (QueueExpiredRetention a b c d)
  | RClaimRetentionPurge a b c d => discard (ClaimRetentionPurge a b c d)
  | RCompleteRetentionPurge a b c => CompleteRetentionPurge a b c
  | RRequeueRetentionPurge a b c d e => RequeueRetentionPurge a b c d e
  | RRetryDeadLetterRetentionPurge a b c d => discard (RetryDeadLetterRetentionPurge a b c d)
  | RCommitRelease a b c d => discard (CommitRelease a b c d)
  | RCreateMultipartUpload a b c d e => discard (CreateMultipartUpload a b c d e)
  | RRestartMultipartUpload a b c d => discard (RestartMultipartUpload a b c d)
  | RRecordMultipartUploadPart a b c => RecordMultipartUploadPart a b c
  | RSetMultipartUploadState a b c d => SetMultipartUploadState a b c d
  | RResolveOIDCIdentity a b c => discard (ResolveOIDCIdentity a b c)
  | RCreateInvitation a b c d e f g h i => discard (CreateInvitation a b c d e f g h i)
  | RAcceptInvitation a b c d e f g h i j k => discard (AcceptInvitation a b c d e f g h i j k)
  | RBootstrapAdministrator a b c d e f => discard (BootstrapAdministrator a b c d e f)
  | RCreateProductionCampaign a b c d e f g h i => discard (CreateProductionCampaign a b c d e f g h i)
  | RBootstrapCampaign a b c d e f g h i j k => discard (BootstrapCampaign a b c d e f g h i j k)
  end.

Definition step (d d' : db) : Prop := ∃ req, exec req d = Ok ((), d').

(** The requests in turn; the ones that fail are rolled back. *)
Definition run (reqs : list request) (d : db) : db :=
  fold_left (λ d req, (run_tx (exec req) d).2) reqs d.

(** ** The migrated database: the consent document of [005_default_consent.sql] *)

Definition default_consent : consent_document_row :=
  {| cdo_version := "platform-consent-v1";
     cdo_text_hash := "fe19c4dc7a26238861619383454939e926d4defef0bd303b9f4eee30b13ccde4";
     cdo_body := "By continuing, I consent to explicit, task-scoped screen and permitted input recording for the assigned task. I understand that a visible recording indicator remains on screen, I can pause or stop at any time, clipboard content is not captured, and leaving the allowed application pauses recording.";
     cdo_effective_date := epoch + 1767225600 * second |}.

Definition initial_db : db :=
  set_consent_documents <["consent_platform_v1" := default_consent]> empty_db.

Definition reachable (d : db) : Prop := rtc step initial_db d.

Lemma run_steps reqs d : rtc step d (run reqs d).
Proof.
  revert d. induction reqs as [|req reqs IH]; intros d; [reflexivity|]. cbn.
  unfold run_tx. destruct (exec req d) as [[[] d']|e] eqn:He; [|apply IH].
  eapply rtc_l; [by exists req|apply IH].
Qed.

(** The loops. *)
(** A preorder that every operation respects holds between any two states. *)
Ltac respects_requests :=
  intros req; destruct req; cbn [exec]; unfold discard; respects_all;
  repeat first [apply respects_release_loop; [apply _|..]; intros
               |apply respects_queue_candidates; [apply _|]; intros];
  respects_all.

Lemma rtc_respects (R : relation db) `{!PreOrder R} :
  (∀ req, respects R (exec req)) → ∀ d d', rtc step d d' → R d d'.
Proof.
  intros HR d d' H. induction H as [d|d d1 d2 [req Hs] _ IH]; [reflexivity|].
  etrans; [by eapply HR|done].
Qed.

(** ** How a request may change a session *)

(** The acceptance [a] was given by the contributor of the session's assignment. *)
Definition acceptance_of_contributor (d : db) (a : string) (r : session_row) : Prop :=
  ∃ c g, consent_acceptances d !! a = Some c ∧
         assignments d !! ses_assignment_id r = Some g ∧
         cac_contributor_id c = asg_contributor_id g.

Inductive session_change (accepted : string → session_row → Prop)
    : option session_row → option session_row → Prop :=
| sc_same o : session_change accepted o o
| sc_created r :
    ses_state r = SessionAssigned → ses_consent_acceptance_id r = None →
    session_change accepted None (Some r)
| sc_transition r to t :
    allowed (ses_state r) to = true →
    (to = SessionReady → is_Some (ses_consent_acceptance_id r)) →
    session_change accepted (Some r) (Some (with_state to t r))
| sc_consent r a t :
    ses_state r = SessionAssigned → accepted a r →
    session_change accepted (Some r) (Some (with_consent (Some a) t r))
| sc_recovered r t :
    ses_state r = SessionFailed →
    session_change accepted (Some r) (Some (with_state SessionProcessing t r))
| sc_erased r t : session_change accepted (Some r) (Some (erase_session t r)).

Definition sessions_change (d d' : db) : Prop :=
  ∀ id, session_change (acceptance_of_contributor d') (sessions d !! id) (sessions d' !! id).

Lemma change_alter f id r d d' :
  sessions d' = alter f id (sessions d) → sessions d !! id = Some r →
  session_change (acceptance_of_contributor d') (Some r) (Some (f r)) → sessions_change d d'.
Proof.
  intros Hd Hr Hc k. rewrite Hd. destruct (decide (k = id)) as [->|Hk].
  - by rewrite lookup_alter_eq, Hr.
  - rewrite lookup_alter_ne by done. constructor.
Qed.

Lemma change_insert id r d d' :
  sessions d' = <[id := r]> (sessions d) → sessions d !! id = None →
  session_change (acceptance_of_contributor d') None (Some r) → sessions_change d d'.
Proof.
  intros Hd Hr Hc k. rewrite Hd. destruct (decide (k = id)) as [->|Hk].
  - by rewrite lookup_insert_eq, Hr.
  - rewrite lookup_insert_ne by done. constructor.
Qed.

Lemma change_same d d' : sessions d' = sessions d → sessions_change d d'.
Proof. intros Hd k. rewrite Hd. constructor. Qed.

Ltac invert_sessions :=
  repeat match goal with
  | H : row_of _ _ _ _ = Ok (_, _) |- _ => apply row_of_ok in H as [H ->]
  | H : update_session_state _ _ _ _ = Ok (_, _) |- _ =>
    apply update_session_state_ok in H as [_ ->]
  | H : insert_session _ _ _ = Ok (_, _) |- _ => apply insert_session_ok in H as [H ->]
  | H : Transition _ _ = Ok _ |- _ =>
    apply Transition_result in H as (?Hid & ?Has & ?Hst & ?Hup & ?Hal);
    cbn [session_of transition_command s_ID s_AssignmentID s_State s_UpdatedAt tc_To
         tc_Timestamp] in Hid, Has, Hst, Hup, Hal;
    rewrite ?Hid, ?Has, ?Hst, ?Hup in *
  | H : (if ?b then _ else _) _ = Ok (_, _) |- _ => destruct b eqn:?
  | H : (match ?o with Some _ => _ | None => _ end) _ = Ok (_, _) |- _ => destruct o eqn:?
  | _ => tx_inv_step
  end;
  keep sessions; db_simpl;
  repeat match goal with
  | K : sessions ?x = _ |- _ => is_var x; progress rewrite K in *; clear K
  end.

Lemma AssignTask_sessions a b c d0 e f g d x d' :
  AssignTask a b c d0 e f g d = Ok (x, d') → sessions_change d d'.
Proof.
  unfold AssignTask. intros H. invert_sessions.
  eapply change_insert; [eassumption..|by constructor].
Qed.

Lemma CreateProductionCampaign_sessions a b c d0 e f g h i d x d' :
  CreateProductionCampaign a b c d0 e f g h i d = Ok (x, d') → sessions_change d d'.
Proof.
  unfold CreateProductionCampaign. intros H. invert_sessions.
  eapply change_insert; [eassumption..|by constructor].
Qed.

Lemma BootstrapCampaign_sessions a b c d0 e f g h i j k d x d' :
  BootstrapCampaign a b c d0 e f g h i j k d = Ok (x, d') → sessions_change d d'.
Proof.
  unfold BootstrapCampaign. intros H. invert_sessions.
  eapply change_insert; [eassumption..|by constructor].
Qed.

Lemma TransitionSession_sessions a b c e t d x d' :
  TransitionSession a b c e t d = Ok (x, d') → sessions_change d d'.
Proof.
  unfold TransitionSession. intros H. invert_sessions.
  eapply change_alter; [eassumption..|]. constructor; [done|].
  intros ->. rewrite bool_decide_true in H1 by done. cbn in H1.
  apply bool_decide_eq_false in H1. by apply not_eq_None_Some.
Qed.

(** The guard of an operation on the state of the session it read. *)
Ltac guard_state :=
  match goal with
  | H : negb (bool_decide (ses_state _ = _)) = false |- _ =>
    apply negb_false_iff, bool_decide_eq_true in H
  end.

(** An operation that moves one session along an edge of the table. *)
Ltac change_by_transition :=
  intros H; invert_sessions; eapply change_alter; [eassumption..|];
  constructor; [done|by intros [=]].

Lemma SubmitSession_sessions a b c e t d x d' :
  SubmitSession a b c e t d = Ok (x, d') → sessions_change d d'.
Proof. unfold SubmitSession. change_by_transition. Qed.

Lemma AcceptConsent_sessions a b c e f g h i d x d' :
  AcceptConsent a b c e f g h i d = Ok (x, d') → sessions_change d d'.
Proof.
  intros (s & ac & doc & Hs & Hst & Hg & Hc & _ & _ & Hca & _ & Hl & _ & Hd & Ha & _)%AcceptConsent_ok.
  eapply change_alter; [eassumption..|]. constructor; [done|].
  exists (acceptance_row x), ac. rewrite Ha. cbn. by rewrite Hca.
Qed.

Lemma ClaimValidationJob_sessions a b c e d x d' :
  ClaimValidationJob a b c e d = Ok (x, d') → sessions_change d d'.
Proof.
  unfold ClaimValidationJob. intros H. invert_sessions.
  - eapply change_alter; [eassumption..|]. constructor; [done|by intros [=]].
  - by apply change_same.
Qed.

Lemma CompleteValidationJob_sessions a b c e f d x d' :
  CompleteValidationJob a b c e f d = Ok (x, d') → sessions_change d d'.
Proof.
  unfold CompleteValidationJob. intros H. invert_sessions.
  eapply change_alter; [eassumption..|]. constructor; [done|by destruct (vr_Valid c)].
Qed.

Lemma RequeueValidationJob_sessions a b c e f d x d' :
  RequeueValidationJob a b c e f d = Ok (x, d') → sessions_change d d'.
Proof.
  unfold RequeueValidationJob. intros H. invert_sessions; [by apply change_same|].
  eapply change_alter; [eassumption..|]. constructor; [done|by intros [=]].
Qed.

Lemma RetryDeadLetterJob_sessions a b c e d x d' :
  RetryDeadLetterJob a b c e d = Ok (x, d') → sessions_change d d'.
Proof.
  unfold RetryDeadLetterJob. intros H. invert_sessions.
  guard_state. eapply change_alter; [eassumption..|by apply sc_recovered].
Qed.

Lemma CompleteDeletionRequest_sessions a b c d x d' :
  CompleteDeletionRequest a b c d = Ok (x, d') → sessions_change d d'.
Proof.
  unfold CompleteDeletionRequest. intros H. invert_sessions.
  destruct (sessions d !! del_session_id a0) eqn:Hs.
  - eapply change_alter; [eassumption..|constructor].
  - apply change_same. rewrite K. apply map_eq. intros k.
    destruct (decide (k = del_session_id a0)) as [->|];
      [by rewrite lookup_alter_eq, Hs|by rewrite lookup_alter_ne].
Qed.

Lemma review_target_not_ready decision : review_target decision ≠ SessionReady.
Proof. unfold review_target. by repeat case_match. Qed.

Lemma change_alter_insert f id r k r' d d' :
  k = "" ∧ sessions d' = alter f id (sessions d) ∨
  k ≠ "" ∧ alter f id (sessions d) !! k = None ∧ sessions d' = <[k := r']> (alter f id (sessions d)) →
  sessions d !! id = Some r →
  session_change (acceptance_of_contributor d') (Some r) (Some (f r)) →
  session_change (acceptance_of_contributor d') None (Some r') → sessions_change d d'.
Proof.
  intros [[_ Hd]|(_ & Hk & Hd)] Hr Hc Hn; [by eapply change_alter|]. intros j. rewrite Hd.
  destruct (decide (j = k)) as [->|Hj].
  - rewrite lookup_insert_eq. destruct (decide (k = id)) as [->|Hki].
    + by rewrite lookup_alter_eq, Hr in Hk.
    + by rewrite lookup_alter_ne in Hk by done; rewrite Hk.
  - rewrite lookup_insert_ne by done. destruct (decide (j = id)) as [->|Hji].
    + by rewrite lookup_alter_eq, Hr.
    + rewrite lookup_alter_ne by done. constructor.
Qed.

Lemma SubmitReview_sessions a b c e f g h i d x d' :
  SubmitReview a b c e f g h i d = Ok (x, d') → sessions_change d d'.
Proof.
  unfold SubmitReview. intros H.
  repeat match goal with
  | H : open_rework _ _ _ _ _ _ _ = Ok _ |- _ => apply open_rework_ok in H as (_ & _ & H)
  | _ => progress invert_sessions
  end.
  all: match goal with K : sessions ?z = _, H : _ ∨ _ |- sessions_change _ ?z => rewrite <-K in H end.
  all: eapply change_alter_insert; [eassumption..| |by constructor].
  all: constructor; [done|intros E; by apply review_target_not_ready in E].
Qed.

(** ** Releases: each source session is moved once *)

Lemma CommitRelease_sessions release actor requestID now d x d' :
  CommitRelease release actor requestID now d = Ok (x, d') → sessions_change d d'.
Proof.
  intros [_ [(id & row & _ & _ & _ & ->)|H]]%CommitRelease_ok; [by apply change_same|].
  cbv zeta in H.
  destruct H as (_ & _ & _ & Hst & _ & _ & _ & d1 & d2 & Hl & Hs1 & _ & Hs2 & _).
  destruct (source_sessions_spec d (rl_SourceSessionIDs release)) as [Hnd Hin].
  apply release_loop_ok in Hl as (_ & Hs & _ & _); [|done|].
  2:{ intros k r Hk. rewrite Hs1. by apply Hin in Hk as [? _]. }
  intros k. rewrite Hs2, Hs, Hs1. case_decide as Hk; [|constructor].
  apply list_elem_of_fmap in Hk as ([k' r] & -> & Hk). pose proof (Hst _ _ Hk) as Hacc.
  apply Hin in Hk as [Hk _]. cbn [fst]. rewrite Hk. constructor; [by rewrite Hacc|by intros [=]].
Qed.

(** ** Every committed request *)

Lemma exec_sessions req d d' : exec req d = Ok ((), d') → sessions_change d d'.
Proof.
  intros H.
  assert (Hk : ∀ {A} (m : tx A) a d1 d1', keeps sessions m → m d1 = Ok (a, d1') → sessions_change d1 d1')
    by (intros; by eapply change_same, keeps_ok).
  destruct req; cbn [exec] in H; unfold discard in H;
    try (apply bind_ok in H as (? & ? & H & Hr); injection Hr as <-);
    first
    [ refine (Hk _ _ _ _ _ _ H); unfold keeps; respects_all;
      solve [apply respects_queue_candidates; [apply _|]; intros; respects_all]
    | refine (Hk _ _ _ _ _ _ H); unfold keeps; solve [respects_all]
    | eapply AssignTask_sessions, H
    | eapply CreateProductionCampaign_sessions, H
    | eapply BootstrapCampaign_sessions, H
    | eapply TransitionSession_sessions, H
    | eapply SubmitSession_sessions, H
    | eapply AcceptConsent_sessions, H
    | eapply ClaimValidationJob_sessions, H
    | eapply CompleteValidationJob_sessions, H
    | eapply RequeueValidationJob_sessions, H
    | eapply RetryDeadLetterJob_sessions, H
    | eapply CompleteDeletionRequest_sessions, H
    | eapply SubmitReview_sessions, H
    | eapply CommitRelease_sessions, H ].
Qed.

(** ** Tables that only grow *)

Definition grows {R} (table : db → gmap string R) : relation db := onto table (⊆).

Ltac grow_by_insert :=
  intros d u d' H; apply bind_ok in H as ([] & d1 & [-> Hn]%fresh_key_ok & H);
  unfold references, no_row, check in H; tx_inv; by apply insert_subseteq.

Lemma insert_assignment_grows id r : respects (grows assignments) (insert_assignment id r).
Proof. unfold insert_assignment. grow_by_insert. Qed.
Lemma insert_consent_document_grows id r :
  respects (grows consent_documents) (insert_consent_document id r).
Proof. unfold insert_consent_document. grow_by_insert. Qed.
Lemma insert_consent_acceptance_grows id r :
  respects (grows consent_acceptances) (insert_consent_acceptance id r).
Proof. unfold insert_consent_acceptance. grow_by_insert. Qed.
#[export] Hint Resolve insert_assignment_grows insert_consent_document_grows
  insert_consent_acceptance_grows : respects.

Lemma exec_grows_assignments req : respects (grows assignments) (exec req).
Proof. unfold grows in *. revert req. respects_requests. Qed.
Lemma exec_grows_documents req : respects (grows consent_documents) (exec req).
Proof. unfold grows. revert req. respects_requests. Qed.
Lemma exec_grows_acceptances req : respects (grows consent_acceptances) (exec req).
Proof. unfold grows. revert req. respects_requests. Qed.

(** ** Consent *)

Definition without_consent : list SessionState := [SessionAssigned; SessionCancelled; SessionDeleted].

Record consent_inv (d : db) : Prop := {
  ci_given : ∀ id r, sessions d !! id = Some r →
    ses_state r ∉ without_consent → is_Some (ses_consent_acceptance_id r);
  ci_contributor : ∀ id r a, sessions d !! id = Some r →
    ses_consent_acceptance_id r = Some a → acceptance_of_contributor d a r;
  ci_effective : ∀ a c, consent_acceptances d !! a = Some c →
    ∃ document, consent_documents d !! cac_document_id c = Some document ∧
                cdo_effective_date document ≤ cac_accepted_at c;
  ci_hash : ∀ i document, consent_documents d !! i = Some document →
    cdo_text_hash document = sha256_hex (cdo_body document)
}.

Lemma acceptance_of_contributor_grows d d' a r :
  grows consent_acceptances d d' → grows assignments d d' →
  acceptance_of_contributor d a r → acceptance_of_contributor d' a r.
Proof.
  intros H1 H2 (c & g & Hc & Hg & E). exists c, g.
  split; [by eapply lookup_weaken|]. split; [by eapply lookup_weaken|done].
Qed.

Lemma allowed_keeps_consent from to :
  allowed from to = true → to ≠ SessionReady → to ∉ without_consent → from ∉ without_consent.
Proof.
  apply (allowed_cases from to (λ from to, to ≠ SessionReady → to ∉ without_consent →
                                           from ∉ without_consent)).
  repeat constructor; intros Hr Ht;
    try (by intros Hin; repeat (apply elem_of_cons in Hin as [[=]|Hin]); apply elem_of_nil in Hin);
    try done; try (exfalso; apply Ht; by repeat (left || right)).
Qed.

Lemma session_change_consent ev o r' :
  session_change ev o (Some r') →
  (∀ r, o = Some r → ses_state r ∉ without_consent → is_Some (ses_consent_acceptance_id r)) →
  ses_state r' ∉ without_consent → is_Some (ses_consent_acceptance_id r').
Proof.
  intros Hc Ho. inversion Hc as [|? Hst|? ? ? Hal Hr|? ? ? Hst Hev|? ? Hst|]; subst; cbn; intros Ht.
  - by eapply Ho.
  - rewrite Hst in Ht. exfalso. apply Ht. left.
  - destruct (decide (to = SessionReady)) as [->|Hn]; [by apply Hr|].
    eapply Ho; [done|by eapply allowed_keeps_consent].
  - done.
  - eapply Ho; [done|]. rewrite Hst.
    intros Hin. repeat (apply elem_of_cons in Hin as [[=]|Hin]). by apply elem_of_nil in Hin.
  - exfalso. apply Ht. do 2 right. left.
Qed.

Lemma exec_keeps_acceptances req :
  (∃ a b c e f g h i, req = RAcceptConsent a b c e f g h i) ∨ keeps consent_acceptances (exec req).
Proof.
  destruct req; try (left; by eexists _, _, _, _, _, _, _, _); right; unfold keeps;
    match goal with |- respects _ (exec ?q) => cbn [exec]; unfold discard end.
  all: respects_all; repeat first [apply respects_release_loop; [apply _|..]; intros
               |apply respects_queue_candidates; [apply _|]; intros]; respects_all.
Qed.

Lemma exec_keeps_documents req :
  (∃ a b c e f g h, req = RCreateConsentDocument a b c e f g h) ∨ keeps consent_documents (exec req).
Proof.
  destruct req; try (left; by eexists _, _, _, _, _, _, _); right; unfold keeps;
    match goal with |- respects _ (exec ?q) => cbn [exec]; unfold discard end.
  all: respects_all; repeat first [apply respects_release_loop; [apply _|..]; intros
               |apply respects_queue_candidates; [apply _|]; intros]; respects_all.
Qed.

Lemma insert_consent_document_ok id r d u d' :
  insert_consent_document id r d = Ok (u, d') →
  d' = set_consent_documents <[id := r]> d.
Proof.
  unfold insert_consent_document. intros H.
  apply bind_ok in H as ([] & d1 & [-> Hn]%fresh_key_ok & H).
  apply bind_ok in H as ([] & d2 & [-> _]%no_row_ok & H). by injection H as <- <-.
Qed.

Lemma CreateConsentDocument_ok a b c e f g h d x d' :
  CreateConsentDocument a b c e f g h d = Ok (x, d') →
  ∃ id, consent_documents d' =
    <[id := {| cdo_version := a; cdo_text_hash := sha256_hex b; cdo_body := b;
               cdo_effective_date := f |}]> (consent_documents d).
Proof.
  unfold CreateConsentDocument, withAudit, newID, insertAudit. intros H. tx_inv.
  match goal with H : insert_consent_document _ _ _ = _ |- _ =>
    apply insert_consent_document_ok in H as -> end.
  by eexists.
Qed.

Lemma consent_inv_step d d' : step d d' → consent_inv d → consent_inv d'.
Proof.
  intros [req H] [Hg Hc He Hh].
  pose proof (exec_sessions _ _ _ H) as Hs.
  pose proof (exec_grows_assignments _ _ _ _ H) as Ga.
  pose proof (exec_grows_documents _ _ _ _ H) as Gd.
  pose proof (exec_grows_acceptances _ _ _ _ H) as Gc.
  split.
  - intros id r Hr Ht. specialize (Hs id). rewrite Hr in Hs.
    eapply session_change_consent; [exact Hs| |done]. intros; by eapply Hg.
  - intros id r a Hr Ha. specialize (Hs id). rewrite Hr in Hs.
    inversion Hs; subst; cbn in *; try congruence.
    + eapply acceptance_of_contributor_grows; [done..|by eapply Hc].
    + by eapply (acceptance_of_contributor_grows d d' a r0), Hc.
    + by injection Ha as ->.
    + by eapply (acceptance_of_contributor_grows d d' a r0), Hc.
  - intros a c Ha.
    assert (Hold : consent_acceptances d !! a = Some c →
      ∃ document, consent_documents d' !! cac_document_id c = Some document ∧
                  cdo_effective_date document ≤ cac_accepted_at c).
    { intros Hd. destruct (He _ _ Hd) as (doc & H1 & H2). exists doc.
      split; [by eapply lookup_weaken|done]. }
    destruct (exec_keeps_acceptances req) as [(a1&a2&a3&a4&a5&a6&a7&a8&->)|Hk];
      [|by rewrite (keeps_ok _ _ _ _ _ Hk H) in Ha; auto].
    cbn in H. unfold discard in H. apply bind_ok in H as (acc & d1 & H & Hr). injection Hr as <-.
    apply AcceptConsent_ok in H as (s & g & doc & _ & _ & _ & _ & Hdoc & Heff & _ & Hdid & _ & Hcase & _ & _ & Hds).
    destruct Hcase as [Hcase|(Hat & _ & _ & Hcase)]; rewrite Hcase in Ha; [auto|].
    apply lookup_insert_Some in Ha as [[<- <-]|[_ Ha]]; [|auto].
    exists doc. cbn. rewrite Hdid, Hds, Hat. done.
  - intros i doc Hi.
    destruct (exec_keeps_documents req) as [(a1&a2&a3&a4&a5&a6&a7&->)|Hk];
      [|rewrite (keeps_ok _ _ _ _ _ Hk H) in Hi; eauto].
    cbn in H. unfold discard in H. apply bind_ok in H as (x & d1 & H & Hr). injection Hr as <-.
    apply CreateConsentDocument_ok in H as [id Hd]. rewrite Hd in Hi.
    apply lookup_insert_Some in Hi as [[_ <-]|[_ Hi]]; eauto.
Qed.

Lemma consent_inv_initial : consent_inv initial_db.
Proof.
  split; cbn.
  - intros id r Hr. by rewrite lookup_empty in Hr.
  - intros id r a Hr. by rewrite lookup_empty in Hr.
  - intros a c Ha. by rewrite lookup_empty in Ha.
  - intros i doc [[_ <-]|[_ Hi]]%lookup_insert_Some; [by vm_compute|by rewrite lookup_empty in Hi].
Qed.

Lemma reachable_ind (P : db → Prop) :
  P initial_db → (∀ d d', step d d' → P d → P d') → ∀ d, reachable d → P d.
Proof.
  intros H0 Hs d Hr. unfold reachable in Hr.
  revert H0. induction Hr as [|d1 d2 d3 H12 _ IH]; intros H0; [done|]. by apply IH, (Hs d1).
Qed.

Lemma reachable_consent d : reachable d → consent_inv d.
Proof. apply reachable_ind; [apply consent_inv_initial|apply consent_inv_step]. Qed.

(** ** Scenarios run from the migrated database *)

Definition campaign : CampaignSpec :=
  {| cs_OrganizationName := "Org"; cs_ProjectName := "Project"; cs_TargetTrajectories := 1;
     cs_TemplateName := "Task"; cs_Goal := "Goal"; cs_Category := "c"; cs_Difficulty := "beginner";
     cs_TemplateSpecification := "{}"; cs_InputAssets := "[]"; cs_ExpectedOutputs := "[]";
     cs_ContributorName := "Ann" |}.

(** The day the default consent document takes effect. *)
Definition start : time := cdo_effective_date default_consent.

Definition begin_session : list request :=
  [RBootstrapCampaign campaign "operator" "req" start (Some [x01]) (Some [x02]) (Some [x03])
     (Some [x04]) (Some [x05]) (Some [x06]) (Some [x07]);
   RAcceptConsent "sess_07" "contrib_05" "consent_platform_v1" "1.0" "contrib_05" "req" start
     (Some [x08])].

(** [POST /v1/sessions/{id}/transitions] with each of the states in turn. *)
Definition ask_transitions (states : list SessionState) : list request :=
  map (λ st, RTransitionSession "sess_07" st "contrib_05" "req" (start + 1)) states.

(** The session recorded and submitted: its validation job is queued. *)
Definition raw_artifact (name media : string) : Artifact :=
  {| art_ID := ""; art_SessionID := "sess_07"; art_Key := "raw/sessions/sess_07/" +:+ name;
     art_SHA256 := cdo_text_hash default_consent; art_MediaType := media; art_Size := 10 |}.
Definition submit_validation : list request :=
  let register name media r :=
    RRegisterArtifact (raw_artifact name media) "contrib_05" "req" (start + 2) (Some [r]) in
  begin_session ++ ask_transitions [SessionReady; SessionRecording; SessionFinalizing; SessionUploading] ++
  [register "trajectory.json" "application/json" x10; register "screen.mp4" "video/mp4" x11;
   register "events.ndjson" "application/x-ndjson" x12;
   RSubmitSession "sess_07" "contrib_05" "req" (start + 3) (Some [x13])].

Definition erased_db : db :=
  run (begin_session ++
    [RRequestSessionDeletion "sess_07" "asked to" "admin" "req" start (Some [x09]);
     RClaimDeletionRequest "worker" minute (start + 1) ∅;
     RCompleteDeletionRequest "delete_09" "worker" (start + 2)]) initial_db.

(** ** The lifecycle as an abstract specification *)

(** C2: the store implements the session lifecycle.  Whatever request commits, each
    session is left alone, or created in ASSIGNED without a consent, or moved along
    an edge of the transition table (to READY only with a consent), or given, while
    ASSIGNED, a consent of its own contributor, or put back from FAILED to
    PROCESSING by a dead-letter retry, or erased.  Nothing else happens to it. *)
Theorem lifecycle_refinement d d' id :
  step d d' → session_change (acceptance_of_contributor d') (sessions d !! id) (sessions d' !! id).
Proof. intros [req H]. by eapply exec_sessions. Qed.

Lemma lifecycle_refinement_witness :
  let d := run begin_session initial_db in
  let req := RTransitionSession "sess_07" SessionReady "contrib_05" "req" (start + 1) in
  ∃ d', exec req d = Ok ((), d') ∧
    session_change (acceptance_of_contributor d') (sessions d !! "sess_07") (sessions d' !! "sess_07") ∧
    ses_state <$> sessions d' !! "sess_07" = Some SessionReady.
Proof.
  intros d req. destruct (exec req d) as [[[] d']|e] eqn:H; [|vm_compute in H; discriminate H].
  exists d'. split; [reflexivity|]. split.
  - apply lifecycle_refinement. exists req. exact H.
  - clear -H. vm_compute in H. injection H as <-. vm_compute. reflexivity.
Defined.

(** ** Evidence of consent *)

(** C24: the evidence of consent is permanent.  Whatever requests follow, and even after a
    session is erased, every consent document, every acceptance and every
    assignment stays as it was written. *)
Theorem consent_evidence_permanent d d' :
  rtc step d d' →
  consent_documents d ⊆ consent_documents d' ∧ consent_acceptances d ⊆ consent_acceptances d' ∧
  assignments d ⊆ assignments d'.
Proof.
  intros H. split; [|split].
  - apply (rtc_respects (grows consent_documents) exec_grows_documents d d' H).
  - apply (rtc_respects (grows consent_acceptances) exec_grows_acceptances d d' H).
  - apply (rtc_respects (grows assignments) exec_grows_assignments d d' H).
Qed.

Lemma consent_evidence_permanent_witness :
  let d := run begin_session initial_db in
  is_Some (consent_acceptances d !! "accept_08") ∧
  consent_acceptances d !! "accept_08" = consent_acceptances erased_db !! "accept_08".
Proof.
  intros d.
  destruct (consent_acceptances d !! "accept_08") as [c|] eqn:Hc; [|vm_compute in Hc; discriminate Hc].
  split; [by eexists|].
  destruct (consent_evidence_permanent d erased_db) as (_ & Hs & _).
  - unfold d, erased_db, run. rewrite fold_left_app. apply run_steps.
  - symmetry. by eapply lookup_weaken.
Defined.
