(* ===== verification/Trail.v ===== *)
(** * The audit log

    The log only grows, and no session row changes without an event of the same
    transaction that names the session. *)

From S2P Require Import Prelude Domain Schema Encoding Sha256 Store Pipeline Redaction.
From S2P Require Import Review Erasure Retention Release Multipart Identity Campaign Frame.
From S2P Require Import System.

(** ** Extension of the log *)

Notation audited := (onto audit_events prefix).

Lemma audited_same d d' : audit_events d' = audit_events d → audited d d'.
Proof. unfold onto. by intros ->. Qed.

Lemma insertAudit_audited e : respects audited (insertAudit e).
Proof. apply respects_modify. intros d. by exists [e]. Qed.
#[export] Hint Resolve insertAudit_audited : respects.

(** An event of the transaction names the session. *)
Definition names_session (id : string) (e : AuditEvent) : Prop := ae_Resource e = "session/" +:+ id.
Definition mentions (id : string) (d d' : db) : Prop :=
  ∃ l, audit_events d' = audit_events d ++ l ∧ Exists (names_session id) l.

Lemma mentions_extend id d0 d1 d2 d3 :
  audited d0 d1 → mentions id d1 d2 → audited d2 d3 → mentions id d0 d3.
Proof.
  intros [l1 H1] (l2 & H2 & He) [l3 H3]. exists (l1 ++ l2 ++ l3). split.
  - by rewrite H3, H2, H1, !(assoc_L (++)).
  - apply Exists_app. right. apply Exists_app. by left.
Qed.

Definition logs {A} (id : string) (m : tx A) : Prop :=
  ∀ d a d', m d = Ok (a, d') → mentions id d d'.

Lemma logs_here {A B} id (m : tx A) (k : A → tx B) :
  logs id m → (∀ a, respects audited (k a)) → logs id (bind m k).
Proof.
  intros Hm Hk d b d' (a & d1 & H1 & H2)%bind_ok.
  eapply mentions_extend; [reflexivity|by eapply Hm|by eapply Hk].
Qed.
Lemma logs_later {A B} id (m : tx A) (k : A → tx B) :
  respects audited m → (∀ a, logs id (k a)) → logs id (bind m k).
Proof.
  intros Hm Hk d b d' (a & d1 & H1 & H2)%bind_ok.
  eapply mentions_extend; [by eapply Hm|by eapply Hk|reflexivity].
Qed.
Lemma logs_insertAudit id e : ae_Resource e = "session/" +:+ id → logs id (insertAudit e).
Proof. intros He d a d' [= <- <-]. exists [e]. split; [done|by left]. Qed.

Lemma logs_insert_last_audit s command s' :
  Transition s command = Ok s' → logs (s_ID s') (insert_last_audit s').
Proof.
  intros (_ & _ & _ & _ & _ & ->)%Transition_ok. unfold insert_last_audit. cbn.
  rewrite last_snoc. by apply logs_insertAudit.
Qed.

Lemma logs_created s command s' id :
  Transition s command = Ok s' → s_ID s = id → logs id (insert_last_audit s').
Proof.
  intros H <-. pose proof (Transition_result _ _ _ H) as [<- _].
  by eapply logs_insert_last_audit.
Qed.

(** ** No silent change of a session *)

Definition session_audited (d d' : db) : Prop :=
  audited d d' ∧ ∀ id, sessions d !! id = sessions d' !! id ∨ mentions id d d'.

#[export] Instance session_audited_preorder : PreOrder session_audited.
Proof.
  split.
  - intros d. split; [reflexivity|by left].
  - intros d1 d2 d3 [H1 Hs1] [H2 Hs2]. split; [by etrans|]. intros id.
    destruct (Hs1 id) as [E1|M1].
    + destruct (Hs2 id) as [E2|M2]; [left; congruence|right].
      eapply mentions_extend; [done..|reflexivity].
    + right. eapply mentions_extend; [reflexivity|done|done].
Qed.

(** A statement that writes one session, followed by the event that names it. *)
Definition writes {A} (id : string) (m : tx A) : Prop :=
  ∀ d a d', m d = Ok (a, d') →
    audited d d' ∧ ∀ k, k ≠ id → sessions d' !! k = sessions d !! k.

Lemma respects_write {A B} id (m : tx A) (k : A → tx B) :
  writes id m → (∀ a, logs id (k a)) → (∀ a, respects session_audited (k a)) →
  respects session_audited (bind m k).
Proof.
  intros Hm Hl Hk d b d' (a & d1 & H1 & H2)%bind_ok.
  destruct (Hm _ _ _ H1) as [Ha Hs]. destruct (Hk _ _ _ _ H2) as [Ha2 Hs2].
  split; [by etrans|]. intros j. destruct (decide (j = id)) as [->|Hj].
  - right. eapply mentions_extend; [exact Ha|by eapply Hl|reflexivity].
  - destruct (Hs2 j) as [E|M]; [left; by rewrite <-E, Hs|right].
    eapply mentions_extend; [exact Ha|exact M|reflexivity].
Qed.

Lemma writes_update id st t : writes id (update_session_state id st t).
Proof.
  intros d a d' [_ ->]%update_session_state_ok. split; [by apply audited_same|].
  intros k Hk. db_simpl. by rewrite lookup_alter_ne.
Qed.
Lemma writes_alter f id : writes id (modify (set_sessions (alter f id))).
Proof.
  intros d a d' [= <- <-]. split; [by apply audited_same|].
  intros k Hk. db_simpl. by rewrite lookup_alter_ne.
Qed.
Lemma writes_insert id r : writes id (insert_session id r).
Proof.
  intros d a d' [_ ->]%insert_session_ok. split; [by apply audited_same|].
  intros k Hk. db_simpl. by rewrite lookup_insert_ne.
Qed.
#[export] Hint Resolve writes_update writes_alter writes_insert : respects.

Ltac logs_step :=
  match goal with
  | |- logs _ (let _ := _ in _) => cbv zeta
  | H : Transition _ _ = Ok ?s |- logs (s_ID ?s) (bind (insert_last_audit ?s) _) =>
    eapply logs_here; [eapply logs_insert_last_audit, H|intros; respects_all]
  | H : Transition _ _ = Ok ?s |- logs _ (bind (insert_last_audit ?s) _) =>
    eapply logs_here; [eapply logs_created; [exact H|reflexivity]|intros; respects_all]
  | |- logs _ (bind (insertAudit _) _) =>
    apply logs_here; [apply logs_insertAudit; reflexivity|intros; solve [respects_all]]
  | |- logs _ (bind _ _) => apply logs_later; [respects_all|intros]
  | |- logs _ (match ?x with _ => _ end) => destruct x
  | H : Transition _ _ = Ok ?s |- logs (s_ID ?s) (insert_last_audit ?s) =>
    eapply logs_insert_last_audit, H
  | |- logs _ (insertAudit _) => apply logs_insertAudit; reflexivity
  end.

Ltac audited_step :=
  match goal with
  | |- respects session_audited (bind (lift (Transition _ _)) _) =>
    apply respects_lift_eq; [apply _|intros ? ?]
  | |- respects session_audited (bind _ _) =>
    eapply respects_write; [solve [auto with respects]|intros; solve [repeat logs_step]|intros]
  | |- respects session_audited (modify _) =>
    apply respects_modify; intros ?; split; [by apply audited_same|intros ?; left; reflexivity]
  | |- _ => respects_step
  end.

Lemma insertAudit_session_audited e : respects session_audited (insertAudit e).
Proof. intros d a d' [= <- <-]. split; [by exists [e]|by left]. Qed.
#[export] Hint Resolve insertAudit_session_audited : respects.

Ltac audited_all := cbv zeta; repeat (audited_step; cbv beta zeta).

Lemma release_loop_audited id actor requestID now index sources :
  respects session_audited (release_loop id actor requestID now index sources).
Proof.
  assert (H0 : ∀ i l, respects audited (release_loop id actor requestID now i l)).
  { intros. apply respects_release_loop; [apply _|..]; intros; respects_all. }
  revert index. induction sources as [|[k row] l IH]; intros index; cbn [release_loop]; audited_all.
Qed.

Lemma queue_candidates_audited actor now rs n l :
  respects session_audited (queue_candidates actor now rs n l).
Proof. apply respects_queue_candidates; [apply _|]. intros. audited_all. Qed.
#[export] Hint Resolve release_loop_audited queue_candidates_audited : respects.

Lemma exec_audited req : respects session_audited (exec req).
Proof. destruct req; cbn [exec]; unfold discard; audited_all. Qed.

(** C8: no silent change.  Over any sequence of requests the audit log is only extended,
    and every session whose row differs at the end is named by an event that was
    appended meanwhile: the change and its event commit together. *)
Theorem session_changes_audited d d' :
  rtc step d d' →
  ∃ events, audit_events d' = audit_events d ++ events ∧
    ∀ id, sessions d !! id ≠ sessions d' !! id →
      ∃ e, e ∈ events ∧ names_session id e.
Proof.
  intros H. destruct (rtc_respects session_audited exec_audited d d' H) as [[l Hl] Hs].
  exists l. split; [done|]. intros id Hne. destruct (Hs id) as [E|(l' & Hl' & He)]; [done|].
  rewrite Hl in Hl'. apply app_inv_head in Hl' as ->.
  by apply Exists_exists in He as (e & He & Hn); exists e.
Qed.

Lemma session_changes_audited_witness :
  let req := RBootstrapCampaign
    {| cs_OrganizationName := "Org"; cs_ProjectName := "Project"; cs_TargetTrajectories := 1;
       cs_TemplateName := "Task"; cs_Goal := "Goal"; cs_Category := "c"; cs_Difficulty := "beginner";
       cs_TemplateSpecification := "{}"; cs_InputAssets := "[]"; cs_ExpectedOutputs := "[]";
       cs_ContributorName := "Ann" |} "operator" "req" 5 (Some [x01]) (Some [x02]) (Some [x03])
      (Some [x04]) (Some [x05]) (Some [x06]) (Some [x07]) in
  let d := run [req] initial_db in
  is_Some (sessions d !! "sess_07") ∧
  ∃ e, e ∈ audit_events d ∧ ae_Resource e = "session/sess_07".
Proof.
  intros req d. destruct (sessions d !! "sess_07") as [r|] eqn:Hr; [|vm_compute in Hr; discriminate Hr].
  split; [by eexists|].
  destruct (session_changes_audited initial_db d) as (l & Hl & He); [apply run_steps|].
  destruct (He "sess_07") as (e & Hin & Hn).
  - rewrite Hr. cbn. rewrite lookup_empty. discriminate.
  - exists e. split; [rewrite Hl; cbn; exact Hin|exact Hn].
Defined.
