(* ===== verification/Constraints.v ===== *)
(** * The CHECK constraints of the migrations

    The statements of the store write rows without testing most of the CHECK
    constraints of their table: the guards of the operations make sure that a
    write never violates one.  Here the constraints are predicates on rows, each
    operation is shown to keep them, and every reachable database satisfies all of
    them: no commit of the store is ever refused by a CHECK that its model leaves
    out. *)

From S2P Require Import Prelude Domain Schema Encoding Sha256 Store Pipeline Redaction.
From S2P Require Import Review Erasure Retention Release Multipart Identity Campaign Frame.
From S2P Require Import System.

(** ** The constraints *)

(** [(state=name AND column IS NOT NULL) OR (state<>name AND column IS NULL)] *)
Definition set_exactly_when {A} (name state : string) (column : option A) : Prop :=
  (state = name ∧ is_Some column) ∨ (state ≠ name ∧ column = None).

(** [(state='leased' AND leased_by IS NOT NULL AND lease_expires_at IS NOT NULL)
     OR (state<>'leased' AND leased_by IS NULL AND lease_expires_at IS NULL)] *)
Definition lease_check (state : string) (leased_by : option string) (expires : option time) : Prop :=
  (state = "leased" ∧ is_Some leased_by ∧ is_Some expires) ∨
  (state ≠ "leased" ∧ leased_by = None ∧ expires = None).

Definition reason_check (reason : string) : Prop := 3 ≤ char_length reason ≤ 2000.
Definition days_check (n : Z) : Prop := 1 ≤ n ≤ 3650.

(** [001_initial.sql], [002_processing_pipeline.sql], [003_review_claims.sql] *)
Definition project_checks (_ : string) (r : project_row) : Prop := 0 < prj_target_trajectories r.
Definition template_checks (_ : string) (r : task_template_row) : Prop :=
  tpl_difficulty r ∈ ["beginner"; "intermediate"; "advanced"].
Definition session_checks (_ : string) (r : session_row) : Prop := ses_state r ∈ session_states.
Definition artifact_checks (_ : string) (r : artifact_row) : Prop := 0 < arf_size_bytes r.
Definition result_checks (_ : string) (r : validation_result_row) : Prop :=
  (val_valid r = true ∧ is_Some (val_normalized_key r)) ∨
  (val_valid r = false ∧ val_normalized_key r = None).
Definition review_checks (_ : string) (r : review_row) : Prop :=
  rev_decision r ∈ ["accepted"; "rejected"; "rework_required"] ∧
  rev_pii_review r ∈ ["pending"; "passed"; "failed"].
Definition claim_checks (_ : string) (r : review_claim_row) : Prop := clm_claimed_at r < clm_expires_at r.

(** [012_processing_dead_letter.sql] *)
Definition job_checks (_ : string) (r : processing_job_row) : Prop :=
  job_state r ∈ ["queued"; "leased"; "completed"; "dead_letter"] ∧
  0 ≤ job_manual_requeues r ∧
  set_exactly_when "dead_letter" (job_state r) (job_dead_lettered_at r).

(** [017_video_redaction.sql] *)
Definition plan_checks (_ : string) (r : redaction_plan_row) : Prop :=
  0 < rpl_version r ∧ rpl_schema_version r = "redaction/v1".
Definition redaction_checks (_ : string) (r : redaction_job_row) : Prop :=
  rjb_state r ∈ ["queued"; "leased"; "completed"; "dead_letter"] ∧
  0 ≤ rjb_attempt r ∧ 0 ≤ rjb_manual_requeues r ∧
  ((rjb_state r = "completed" ∧ is_Some (rjb_output_manifest_key r) ∧ is_Some (rjb_finished_at r)) ∨
   rjb_state r ≠ "completed") ∧
  set_exactly_when "dead_letter" (rjb_state r) (rjb_dead_lettered_at r).

(** [013_retention_and_erasure.sql], [014_erasure_operations.sql] *)
Definition policy_checks (_ : string) (r : retention_policy_row) : Prop :=
  days_check (pol_raw_days r) ∧ days_check (pol_derived_days r) ∧ days_check (pol_release_days r).
Definition hold_checks (_ : string) (r : legal_hold_row) : Prop :=
  reason_check (hld_reason r) ∧
  ((hld_released_by r = None ∧ hld_released_at r = None) ∨
   (is_Some (hld_released_by r) ∧ is_Some (hld_released_at r))).
Definition deletion_checks (_ : string) (r : deletion_request_row) : Prop :=
  reason_check (del_reason r) ∧
  del_state r ∈ ["queued"; "leased"; "completed"; "blocked"; "dead_letter"] ∧
  0 ≤ del_attempt r ∧ 0 ≤ del_manual_requeues r ∧
  lease_check (del_state r) (del_leased_by r) (del_lease_expires_at r) ∧
  set_exactly_when "completed" (del_state r) (del_completed_at r).

(** [016_governed_retention_expiry.sql] *)
Definition purge_checks (_ : string) (r : retention_purge_row) : Prop :=
  prg_resource_type r ∈ ["session_raw"; "session_derived"; "release"] ∧
  prg_state r ∈ ["queued"; "leased"; "completed"; "blocked"; "cancelled"; "dead_letter"] ∧
  0 ≤ prg_attempt r ∧
  lease_check (prg_state r) (prg_leased_by r) (prg_lease_expires_at r) ∧
  set_exactly_when "completed" (prg_state r) (prg_completed_at r).

(** [004_release_membership.sql], [015_release_bundle.sql], [018_release_profiles.sql],
    [019_release_object_inventory.sql]; a CHECK on a NULL passes. *)
Definition release_checks (_ : string) (r : dataset_release_row) : Prop :=
  (∀ n, drl_bundle_size r = Some n → 0 < n) ∧
  ((drl_bundle_hash r = None ∧ drl_bundle_size r = None) ∨
   (is_Some (drl_bundle_hash r) ∧ is_Some (drl_bundle_size r))) ∧
  drl_release_profile r ∈ ["trajectory_only"; "redacted_video"] ∧
  (7 ≤ length (drl_object_keys r))%nat.
Definition member_checks (_ : string) (r : release_session_row) : Prop := 0 ≤ rls_ordinal r.

(** [010_multipart_artifact_uploads.sql] *)
Definition upload_checks (_ : string) (r : multipart_upload_row) : Prop :=
  0 < mpu_size_bytes r ∧ 5242880 ≤ mpu_part_size_bytes r ∧
  mpu_state r ∈ ["active"; "completed"; "aborted"].
Definition part_checks (k : string * Z) (r : multipart_part_row) : Prop :=
  1 ≤ k.2 ≤ 10000 ∧ 0 < mpp_size_bytes r.

(** [007_identity_and_memberships.sql], [009_invitations.sql] *)
Definition account_checks (_ : string) (r : account_row) : Prop :=
  acc_status r ∈ ["active"; "suspended"; "disabled"].
Definition membership_checks (k : string * string * string) (r : membership_row) : Prop :=
  k.2 ∈ ["admin"; "reviewer"; "contributor"] ∧ mem_status r ∈ ["active"; "suspended"; "revoked"].
Definition invitation_checks (_ : string) (r : invitation_row) : Prop :=
  inv_role r ∈ ["admin"; "reviewer"; "contributor"] ∧
  inv_status r ∈ ["pending"; "accepted"; "revoked"; "expired"] ∧
  inv_created_at r < inv_expires_at r ∧
  ((inv_status r = "accepted" ∧ is_Some (inv_accepted_by r) ∧ is_Some (inv_accepted_at r)) ∨
   (inv_status r ≠ "accepted" ∧ inv_accepted_by r = None ∧ inv_accepted_at r = None)).

(** ** Writes that keep a constraint *)

(** If the rows of the table satisfied the constraint they still do. *)
Definition checked {K R} `{Countable K} (φ : K → R → Prop) : relation (gmap K R) := λ m m',
  map_Forall φ m → map_Forall φ m'.

#[export] Instance checked_preorder {K R} `{Countable K} (φ : K → R → Prop) : PreOrder (checked φ).
Proof. split; unfold checked; [by intros m|by intros m1 m2 m3 H1 H2 H3; apply H2, H1]. Qed.

Section writes.
Context {K R : Type} `{Countable K} (φ : K → R → Prop).
Implicit Types (m : gmap K R).

Lemma checked_insert m k r : φ k r → checked φ m (<[k := r]> m).
Proof using Type. intros Hr Hm. by apply map_Forall_insert_2. Qed.

Lemma checked_alter m k f :
  (∀ r, m !! k = Some r → φ k r → φ k (f r)) → checked φ m (alter f k m).
Proof using Type.
  intros Hf Hm j r Hj. destruct (decide (j = k)) as [->|Hne].
  - rewrite lookup_alter_eq in Hj. destruct (m !! k) as [q|] eqn:Hk; [|done].
    injection Hj as <-. by apply Hf, Hm.
  - rewrite lookup_alter_ne in Hj by done. by apply Hm.
Qed.

Lemma checked_update_where m p f :
  (∀ k r, p k r = true → φ k r → φ k (f r)) → checked φ m (update_where p f m).
Proof using Type.
  intros Hf Hm k r Hk. rewrite lookup_update_where in Hk. destruct (m !! k) as [q|] eqn:Hq; [|done].
  injection Hk as <-. destruct (p k q) eqn:Hp; [apply Hf; [done|]|]; by apply Hm.
Qed.

Lemma checked_delete m k : checked φ m (delete k m).
Proof using Type. intros Hm. by apply map_Forall_delete. Qed.

Lemma checked_delete_where m p : checked φ m (delete_where p m).
Proof using Type.
  intros Hm k r Hk. rewrite lookup_delete_where in Hk. destruct (m !! k) as [q|] eqn:Hq; [|done].
  destruct (p k q); [done|]. injection Hk as <-. by apply Hm.
Qed.
End writes.

(** The statements of a table keep its constraint. *)
Notation keeps_checks table φ := (respects (onto table (checked φ))).

Ltac checked_write :=
  repeat first
    [ apply checked_delete | apply checked_delete_where
    | apply checked_update_where; intros | apply checked_insert | apply checked_alter; intros ].

Ltac row_unfold :=
  unfold project_checks, template_checks, artifact_checks, result_checks, review_checks,
    claim_checks, job_checks, plan_checks, redaction_checks, policy_checks, hold_checks,
    deletion_checks, purge_checks, release_checks, member_checks, upload_checks, part_checks,
    account_checks, membership_checks, invitation_checks, set_exactly_when, lease_check,
    days_check in *.

Lemma reason_check_true reason :
  (3 <=? char_length reason) && (char_length reason <=? 2000) = true → reason_check reason.
Proof. unfold reason_check. lia. Qed.

(** Reads the boolean guards of an operation. *)
Ltac guards :=
  repeat match goal with
  | H : (3 <=? char_length _) && _ = true |- _ => apply reason_check_true in H
  | H : negb _ = false |- _ => apply negb_false_iff in H
  | H : negb _ = true |- _ => apply negb_true_iff in H
  | H : _ && _ = true |- _ => apply andb_true_iff in H as [? ?]
  | H : _ || _ = false |- _ => apply orb_false_iff in H as [? ?]
  | H : seqb _ _ = true |- _ => apply seqb_true in H
  | H : oneof _ _ = true |- _ => apply oneof_true in H
  | H : (_ <? _) = true |- _ => apply Z.ltb_lt in H
  | H : (_ <=? _) = true |- _ => apply Z.leb_le in H
  | H : (_ <? _) = false |- _ => apply Z.ltb_ge in H
  | H : (_ <=? _) = false |- _ => apply Z.leb_gt in H
  end.

(** A written row satisfies the constraint by its fields and those of the old row. *)
Ltac row_goal :=
  match goal with
  | |- _ ∧ _ => split; row_goal
  | |- _ ∨ _ => first [solve [left; row_goal]|right; row_goal]
  | |- is_Some _ => first [assumption|eexists; reflexivity]
  | |- _ ∈ _ => first [assumption|compute_done]
  | |- _ => first [assumption|lia|done]
  end.
Ltac row_ok :=
  row_unfold;
  repeat match goal with
  | r : processing_job_row |- _ => destruct r
  | r : redaction_job_row |- _ => destruct r
  | r : deletion_request_row |- _ => destruct r
  | r : retention_purge_row |- _ => destruct r
  end;
  unfold fmap, option_fmap, option_map in *; cbn in *; guards;
  repeat match goal with
  | H : _ ∧ _ |- _ => destruct H
  | H : _ ∨ _ |- _ => destruct H
  end; subst; try congruence; row_goal.

(** The insert of a table, its own guards read. *)
Ltac insert_checked :=
  intros ? ? ? H; insert_inv; unfold onto; db_simpl; checked_write; row_ok.

Lemma insert_project_checked id r : keeps_checks projects project_checks (insert_project id r).
Proof. unfold insert_project. insert_checked. Qed.
Lemma insert_template_checked id r :
  keeps_checks task_templates template_checks (insert_task_template id r).
Proof. unfold insert_task_template. insert_checked. Qed.
Lemma insert_artifact_checked id r : keeps_checks artifacts artifact_checks (insert_artifact id r).
Proof. unfold insert_artifact. insert_checked. Qed.
Lemma insert_result_checked id r :
  keeps_checks validation_results result_checks (insert_validation_result id r).
Proof.
  unfold insert_validation_result. intros ? ? ? H; insert_inv; unfold onto; db_simpl; checked_write.
  match goal with H : Bool.eqb _ _ = true |- _ => apply Bool.eqb_prop in H; rename H into Hv end.
  unfold result_checks. destruct (val_valid r); symmetry in Hv; [left|right]; split; try done.
  - by apply bool_decide_eq_true in Hv.
  - by apply bool_decide_eq_false, eq_None_not_Some in Hv.
Qed.
Lemma insert_review_checked id r : keeps_checks reviews review_checks (insert_review id r).
Proof. unfold insert_review. insert_checked. Qed.
Lemma insert_plan_checked id r : keeps_checks redaction_plans plan_checks (insert_redaction_plan id r).
Proof. unfold insert_redaction_plan. insert_checked. Qed.

#[export] Hint Resolve insert_project_checked insert_template_checked insert_artifact_checked
  insert_result_checked insert_review_checked insert_plan_checked : respects.

(** Every request keeps the constraint of a table; what is left are the writes no
    lemma covers. *)
Ltac checked_requests := respects_requests; checked_write; try row_ok.

Lemma exec_projects req : keeps_checks projects project_checks (exec req).
Proof. revert req. checked_requests. Qed.
Lemma exec_templates req : keeps_checks task_templates template_checks (exec req).
Proof. revert req. checked_requests. Qed.
(** The changes of a session lead to declared states. *)
Lemma exec_sessions_checked req : keeps_checks sessions session_checks (exec req).
Proof.
  intros d [] d' H Hd id r Hr. pose proof (exec_sessions req d d' H id) as Hc. rewrite Hr in Hc.
  unfold session_checks. inversion Hc as [o E1 E2|r0 Hst _ E1 E2|r0 to t Hal _ E1 E2|r0 a t _ _ E1 E2
    |r0 t _ E1 E2|r0 t E1 E2]; subst; cbn; try (by eapply Hd); try compute_done.
  - rewrite Hst. compute_done.
  - destruct (ses_state r0), to; try discriminate Hal; compute_done.
Qed.
Lemma exec_artifacts req : keeps_checks artifacts artifact_checks (exec req).
Proof. revert req. checked_requests. Qed.
Lemma exec_results req : keeps_checks validation_results result_checks (exec req).
Proof. revert req. checked_requests. Qed.
Lemma exec_reviews req : keeps_checks reviews review_checks (exec req).
Proof. revert req. checked_requests. Qed.
Lemma exec_plans req : keeps_checks redaction_plans plan_checks (exec req).
Proof. revert req. checked_requests. Qed.

(** *** Review claims *)
Lemma ClaimReview_checked a b c e f g :
  keeps_checks review_claims claim_checks (ClaimReview a b c e f g).
Proof.
  intros d x d' H. unfold ClaimReview in H. insert_inv. unfold onto. db_simpl. checked_write.
  assert (0 < minute) by done. row_ok.
Qed.
#[export] Hint Resolve ClaimReview_checked : respects.

Lemma exec_claims req : keeps_checks review_claims claim_checks (exec req).
Proof. revert req. checked_requests. Qed.

(** *** Validation jobs *)
Lemma queue_due_state state available lease now :
  queue_due state available lease now = true → state = "queued" ∨ state = "leased".
Proof. unfold queue_due. rewrite orb_true_iff, !andb_true_iff, !seqb_true. naive_solver. Qed.

Lemma holds_lease_state state by_ worker : holds_lease state by_ worker = true → state = "leased".
Proof. unfold holds_lease. by intros [H%seqb_true _]%andb_true_iff. Qed.

(** Inverts an operation, and shows that what it writes to [table] keeps the checks. *)
Ltac operation_checked table :=
  intros ? ? ? H; insert_inv;
  repeat match goal with
  | H : (if ?b then _ else _) _ = Ok (_, _) |- _ => destruct b eqn:?; insert_inv
  | H : match ?o with Some _ => _ | None => _ end _ = Ok (_, _) |- _ => destruct o as [[]|] eqn:?; insert_inv
  end;
  keep table; unfold onto; db_simpl;
  repeat match goal with K : table ?x = _ |- _ => rewrite K in *; clear K end;
  repeat match goal with
  | H : first_due _ _ _ _ = Some _ |- _ => apply first_due_some in H as (? & ? & _)
  end;
  checked_write;
  repeat match goal with
  | H1 : ?m !! ?k = Some ?p, H2 : ?m !! ?k = Some ?r |- _ =>
    let E := fresh in assert (E : p = r) by congruence; subst p; clear H2
  end;
  unfold validation_due, redaction_due, deletion_due, purge_due in *; guards;
  repeat match goal with
  | H : holds_lease _ _ _ = true |- _ => apply holds_lease_state in H
  | H : queue_due _ _ _ _ = true |- _ => apply queue_due_state in H
  end.

Lemma SubmitSession_jobs a b c e f :
  keeps_checks processing_jobs job_checks (SubmitSession a b c e f).
Proof. unfold SubmitSession, job_to_row, insert_processing_job. operation_checked processing_jobs. row_ok. Qed.

Lemma ClaimValidationJob_jobs a b c e :
  keeps_checks processing_jobs job_checks (ClaimValidationJob a b c e).
Proof. unfold ClaimValidationJob. operation_checked processing_jobs; row_ok. Qed.

Lemma CompleteValidationJob_jobs a b c e f :
  keeps_checks processing_jobs job_checks (CompleteValidationJob a b c e f).
Proof. unfold CompleteValidationJob. operation_checked processing_jobs. row_ok. Qed.

Lemma RequeueValidationJob_jobs a b c e f :
  keeps_checks processing_jobs job_checks (RequeueValidationJob a b c e f).
Proof. unfold RequeueValidationJob. operation_checked processing_jobs; row_ok. Qed.

#[export] Hint Resolve SubmitSession_jobs ClaimValidationJob_jobs CompleteValidationJob_jobs
  RequeueValidationJob_jobs : respects.

Lemma exec_jobs req : keeps_checks processing_jobs job_checks (exec req).
Proof. revert req. checked_requests. Qed.

(** *** Redaction jobs *)
Lemma ClaimRedactionJob_jobs a b c e :
  keeps_checks redaction_jobs redaction_checks (ClaimRedactionJob a b c e).
Proof. unfold ClaimRedactionJob. operation_checked redaction_jobs; row_ok. Qed.

Lemma CompleteRedactionJob_jobs a b c e :
  keeps_checks redaction_jobs redaction_checks (CompleteRedactionJob a b c e).
Proof. unfold CompleteRedactionJob. operation_checked redaction_jobs; row_ok. Qed.

Lemma RequeueRedactionJob_jobs a b c e f :
  keeps_checks redaction_jobs redaction_checks (RequeueRedactionJob a b c e f).
Proof.
  unfold RequeueRedactionJob. operation_checked redaction_jobs. destruct (_ <? _); row_ok.
Qed.

Lemma RetryDeadLetterRedactionJob_jobs a b c e :
  keeps_checks redaction_jobs redaction_checks (RetryDeadLetterRedactionJob a b c e).
Proof. unfold RetryDeadLetterRedactionJob. operation_checked redaction_jobs; row_ok. Qed.

#[export] Hint Resolve ClaimRedactionJob_jobs CompleteRedactionJob_jobs RequeueRedactionJob_jobs
  RetryDeadLetterRedactionJob_jobs : respects.

Lemma exec_redactions req : keeps_checks redaction_jobs redaction_checks (exec req).
Proof. revert req. checked_requests. Qed.

(** *** Legal holds *)
Lemma insert_legal_hold_checked id r :
  hld_released_by r = None → hld_released_at r = None →
  keeps_checks legal_holds hold_checks (insert_legal_hold id r).
Proof. intros Hb Ht. unfold insert_legal_hold. insert_checked. Qed.
#[export] Hint Resolve insert_legal_hold_checked : respects.

Lemma exec_holds req : keeps_checks legal_holds hold_checks (exec req).
Proof. revert req. checked_requests. Qed.

(** *** Erasure requests *)
Lemma RequestSessionDeletion_requests a b c e f g :
  keeps_checks deletion_requests deletion_checks (RequestSessionDeletion a b c e f g).
Proof.
  unfold RequestSessionDeletion, session_and_organization, insert_deletion_request.
  operation_checked deletion_requests; row_ok.
Qed.
Lemma ClaimDeletionRequest_requests a b c e :
  keeps_checks deletion_requests deletion_checks (ClaimDeletionRequest a b c e).
Proof. unfold ClaimDeletionRequest. operation_checked deletion_requests; row_ok. Qed.
Lemma RequeueDeletionRequest_requests a b c e f :
  keeps_checks deletion_requests deletion_checks (RequeueDeletionRequest a b c e f).
Proof.
  unfold RequeueDeletionRequest, holds_deletion_lease. operation_checked deletion_requests.
  destruct (_ <=? _); row_ok.
Qed.
Lemma CompleteDeletionRequest_requests a b c :
  keeps_checks deletion_requests deletion_checks (CompleteDeletionRequest a b c).
Proof. unfold CompleteDeletionRequest. operation_checked deletion_requests; row_ok. Qed.
Lemma RetryDeadLetterDeletionRequest_requests a b c e :
  keeps_checks deletion_requests deletion_checks (RetryDeadLetterDeletionRequest a b c e).
Proof. unfold RetryDeadLetterDeletionRequest. operation_checked deletion_requests; row_ok. Qed.
#[export] Hint Resolve RequestSessionDeletion_requests ClaimDeletionRequest_requests
  RequeueDeletionRequest_requests CompleteDeletionRequest_requests
  RetryDeadLetterDeletionRequest_requests : respects.

Lemma exec_deletions req : keeps_checks deletion_requests deletion_checks (exec req).
Proof. revert req. checked_requests. Qed.

(** *** Retention policies *)
Lemma policy_days_days n : policy_days_ok n = true → days_check n.
Proof. unfold policy_days_ok, days_check. lia. Qed.

Lemma UpsertRetentionPolicy_checked a b c e :
  keeps_checks retention_policies policy_checks (UpsertRetentionPolicy a b c e).
Proof.
  intros d x d' H. unfold UpsertRetentionPolicy, exists_in in H. insert_inv. unfold onto. db_simpl.
  checked_write. guards. unfold policy_checks. split_and!; by apply policy_days_days.
Qed.
#[export] Hint Resolve UpsertRetentionPolicy_checked : respects.

Lemma exec_policies req : keeps_checks retention_policies policy_checks (exec req).
Proof. revert req. checked_requests. Qed.

(** *** Retention purges *)
Definition candidate_checks (c : retentionCandidate) : Prop :=
  cand_resourceType c ∈ ["session_raw"; "session_derived"; "release"].

Lemma append_candidates_checked {R} (row : string → R → option retentionCandidate) limit m l :
  (∀ k r c, row k r = Some c → candidate_checks c) → Forall candidate_checks l →
  Forall candidate_checks (append_candidates row limit m l).
Proof.
  intros Hr Hl. unfold append_candidates. apply Forall_app. split; [done|]. apply Forall_take.
  rewrite merge_sort_Permutation. apply Forall_concat, Forall_map, Forall_forall.
  intros [k r] _. cbn. destruct (row k r) eqn:E; constructor; [by eapply Hr|constructor].
Qed.

Lemma session_candidate_type t derived d now k s c :
  session_candidate t derived d now k s = Some c → cand_resourceType c = t.
Proof.
  unfold session_candidate. intros (a & _ & H)%bind_Some. apply bind_Some in H as (p & _ & H).
  cbv zeta in H. destruct (_ && _ && _ && _); [|done]. by injection H as <-.
Qed.
Lemma release_candidate_type d now k r c :
  release_candidate d now k r = Some c → cand_resourceType c = "release".
Proof.
  unfold release_candidate. intros (o & _ & H)%bind_Some. apply bind_Some in H as (p & _ & H).
  destruct (_ && _ && _ && _); [|done]. by injection H as <-.
Qed.

Lemma expired_candidates_checked d now limit : Forall candidate_checks (expired_candidates d now limit).
Proof.
  unfold expired_candidates.
  apply append_candidates_checked; [|apply append_candidates_checked;
    [|apply append_candidates_checked; [|constructor]]];
    intros k r c Hc; unfold candidate_checks;
    [apply release_candidate_type in Hc|apply session_candidate_type in Hc..];
    rewrite Hc; compute_done.
Qed.

Lemma queue_candidate_checked actor now r c :
  candidate_checks c →
  keeps_checks retention_purge_requests purge_checks (queue_candidate actor now r c).
Proof.
  unfold candidate_checks. intros Hc. unfold queue_candidate. operation_checked retention_purge_requests; row_ok.
Qed.

Lemma queue_candidates_checked actor now rs n l :
  Forall candidate_checks l →
  keeps_checks retention_purge_requests purge_checks (queue_candidates actor now rs n l).
Proof.
  intros Hl. revert n. induction Hl as [|c l Hc _ IH]; intros n; cbn [queue_candidates];
    [by respects_all|].
  apply respects_bind; [apply _|by apply queue_candidate_checked|intros k].
  apply respects_bind; [apply _|apply IH|intros total; respects_all].
Qed.

Lemma QueueExpiredRetention_checked a b c e :
  keeps_checks retention_purge_requests purge_checks (QueueExpiredRetention a b c e).
Proof.
  intros d x d' H. unfold QueueExpiredRetention in H. insert_inv.
  by eapply queue_candidates_checked; [apply expired_candidates_checked|].
Qed.
Lemma ClaimRetentionPurge_checked a b c e :
  keeps_checks retention_purge_requests purge_checks (ClaimRetentionPurge a b c e).
Proof.
  unfold ClaimRetentionPurge, finishRetentionWithoutPurge.
  operation_checked retention_purge_requests; row_ok.
Qed.
Lemma CompleteRetentionPurge_checked a b c :
  keeps_checks retention_purge_requests purge_checks (CompleteRetentionPurge a b c).
Proof.
  unfold CompleteRetentionPurge, holds_purge_lease. operation_checked retention_purge_requests; row_ok.
Qed.
Lemma RequeueRetentionPurge_checked a b c e f :
  keeps_checks retention_purge_requests purge_checks (RequeueRetentionPurge a b c e f).
Proof.
  unfold RequeueRetentionPurge, holds_purge_lease. operation_checked retention_purge_requests.
  destruct (_ <=? _); row_ok.
Qed.
Lemma RetryDeadLetterRetentionPurge_checked a b c e :
  keeps_checks retention_purge_requests purge_checks (RetryDeadLetterRetentionPurge a b c e).
Proof.
  unfold RetryDeadLetterRetentionPurge. operation_checked retention_purge_requests; row_ok.
Qed.
#[export] Hint Resolve QueueExpiredRetention_checked ClaimRetentionPurge_checked
  CompleteRetentionPurge_checked RequeueRetentionPurge_checked
  RetryDeadLetterRetentionPurge_checked : respects.

Lemma exec_purges req : keeps_checks retention_purge_requests purge_checks (exec req).
Proof. revert req. checked_requests. Qed.

(** *** Releases *)
Lemma release_row_checks id release now :
  check_release release = Ok () → release_checks id (release_to_row release now).
Proof.
  unfold check_release, validReleaseObjectKeys. intros H.
  repeat match goal with
  | H : (if ?b then _ else _) = Ok _ |- _ => destruct b eqn:?; [discriminate H|]
  end.
  guards. unfold release_checks. cbn. split_and!; [intros n [= <-]; lia|right; eauto|done|].
  match goal with H : (7 <=? _)%nat = true |- _ => by apply Nat.leb_le in H end.
Qed.

Lemma insert_release_checked id r :
  release_checks id r → keeps_checks dataset_releases release_checks (insert_dataset_release id r).
Proof.
  intros Hr d u d' H. unfold insert_dataset_release in H. insert_inv. unfold onto. db_simpl.
  by checked_write.
Qed.

Lemma CommitRelease_releases a b c e :
  keeps_checks dataset_releases release_checks (CommitRelease a b c e).
Proof.
  unfold CommitRelease. apply respects_lift_eq; [apply _|intros [] Hok].
  pose proof (insert_release_checked (rl_ID a) _ (release_row_checks (rl_ID a) a e Hok)) as Hi.
  respects_all; apply respects_release_loop; [apply _|..]; intros; respects_all.
Qed.
#[export] Hint Resolve CommitRelease_releases : respects.

Lemma exec_releases req : keeps_checks dataset_releases release_checks (exec req).
Proof. revert req. checked_requests. Qed.

Lemma insert_member_checked id r :
  member_checks id r → keeps_checks release_sessions member_checks (insert_release_session id r).
Proof.
  intros Hr d u d' H. unfold insert_release_session in H. insert_inv. unfold onto. db_simpl.
  by checked_write.
Qed.

Lemma release_loop_members id actor requestID now index sources :
  0 ≤ index →
  keeps_checks release_sessions member_checks (release_loop id actor requestID now index sources).
Proof.
  revert index. induction sources as [|[k row] l IH]; intros index Hi; cbn [release_loop];
    [by respects_all|].
  apply respects_bind; [apply _|by apply insert_member_checked|intros []].
  repeat (apply respects_bind; [apply _|by respects_all|intros ?]). apply IH. lia.
Qed.

Lemma CommitRelease_members a b c e :
  keeps_checks release_sessions member_checks (CommitRelease a b c e).
Proof.
  unfold CommitRelease. assert (H := release_loop_members (rl_ID a) b c e 0).
  respects_all. by apply H.
Qed.
#[export] Hint Resolve CommitRelease_members : respects.

Lemma exec_members req : keeps_checks release_sessions member_checks (exec req).
Proof. revert req. checked_requests. Qed.

(** *** Uploads *)
Lemma CreateMultipartUpload_checked a b c e f :
  keeps_checks artifact_multipart_uploads upload_checks (CreateMultipartUpload a b c e f).
Proof.
  unfold CreateMultipartUpload, check_upload. operation_checked artifact_multipart_uploads; row_ok.
Qed.
Lemma RestartMultipartUpload_checked a b c e :
  keeps_checks artifact_multipart_uploads upload_checks (RestartMultipartUpload a b c e).
Proof.
  unfold RestartMultipartUpload, check_upload, upload_in_state.
  operation_checked artifact_multipart_uploads; row_ok.
Qed.
Lemma SetMultipartUploadState_checked a b c e :
  keeps_checks artifact_multipart_uploads upload_checks (SetMultipartUploadState a b c e).
Proof.
  unfold SetMultipartUploadState, upload_in_state.
  operation_checked artifact_multipart_uploads; row_ok.
Qed.
Lemma RecordMultipartUploadPart_checked a b c :
  keeps_checks artifact_multipart_parts part_checks (RecordMultipartUploadPart a b c).
Proof. unfold RecordMultipartUploadPart. operation_checked artifact_multipart_parts; row_ok. Qed.
#[export] Hint Resolve CreateMultipartUpload_checked RestartMultipartUpload_checked
  SetMultipartUploadState_checked RecordMultipartUploadPart_checked : respects.

Lemma exec_uploads req : keeps_checks artifact_multipart_uploads upload_checks (exec req).
Proof. revert req. checked_requests. Qed.
Lemma exec_parts req : keeps_checks artifact_multipart_parts part_checks (exec req).
Proof. revert req. checked_requests. Qed.

(** *** Identities *)
Lemma insert_account_checked id r :
  acc_status r = "active" → keeps_checks accounts account_checks (insert_account id r).
Proof.
  intros Hs d u d' H. unfold insert_account in H. insert_inv. unfold onto. db_simpl. checked_write.
  unfold account_checks. rewrite Hs. compute_done.
Qed.
Lemma upsert_membership_checked a b c e :
  keeps_checks organization_memberships membership_checks (upsert_membership a b c e).
Proof. unfold upsert_membership. operation_checked organization_memberships; row_ok. Qed.
Lemma insert_invitation_checked id r :
  inv_status r = "pending" → inv_accepted_by r = None → inv_accepted_at r = None →
  keeps_checks invitations invitation_checks (insert_invitation id r).
Proof.
  intros Hs Hb Ha d u d' H. unfold insert_invitation in H. insert_inv. unfold onto. db_simpl.
  checked_write. guards. unfold invitation_checks. rewrite Hs, Hb, Ha.
  split_and!; [done|compute_done|done|by right].
Qed.
#[export] Hint Resolve insert_account_checked upsert_membership_checked
  insert_invitation_checked : respects.

Lemma exec_accounts req : keeps_checks accounts account_checks (exec req).
Proof. revert req. checked_requests. Qed.
Lemma exec_memberships req : keeps_checks organization_memberships membership_checks (exec req).
Proof. revert req. checked_requests. Qed.
Lemma exec_invitations req : keeps_checks invitations invitation_checks (exec req).
Proof. revert req. checked_requests. Qed.

(** ** No work is lost

    The queues hand a job out when it is queued and available, or leased and its
    lease expired.  A validation or redaction job that is leased always has a
    worker and a deadline, so that whatever happened to the worker the job becomes
    due again. *)
Definition job_leases (_ : string) (r : processing_job_row) : Prop :=
  job_type r = "validate_trajectory" ∧
  (job_state r = "leased" → is_Some (job_leased_by r) ∧ is_Some (job_lease_expires_at r)).
Definition redaction_leases (_ : string) (r : redaction_job_row) : Prop :=
  rjb_state r = "leased" → is_Some (rjb_leased_by r) ∧ is_Some (rjb_lease_expires_at r).

Ltac lease_ok :=
  unfold job_leases, redaction_leases in *; cbn; intuition (try discriminate; eauto).

Lemma SubmitSession_leases a b c e f :
  keeps_checks processing_jobs job_leases (SubmitSession a b c e f).
Proof. unfold SubmitSession, job_to_row, insert_processing_job. operation_checked processing_jobs. lease_ok. Qed.
#[export] Hint Resolve SubmitSession_leases : respects.

Lemma exec_job_leases req : keeps_checks processing_jobs job_leases (exec req).
Proof. revert req. respects_requests; checked_write; lease_ok. Qed.

Lemma RequeueRedactionJob_leases a b c e f :
  keeps_checks redaction_jobs redaction_leases (RequeueRedactionJob a b c e f).
Proof. unfold RequeueRedactionJob. operation_checked redaction_jobs. destruct (_ <? _); lease_ok. Qed.
#[export] Hint Resolve RequeueRedactionJob_leases : respects.

Lemma exec_redaction_leases req : keeps_checks redaction_jobs redaction_leases (exec req).
Proof. revert req. respects_requests; checked_write; lease_ok. Qed.

(** The session of an erasure request exists, as its foreign key says: requests keep
    their session, a new one is checked, and no session row disappears. *)
Definition requests_refer (d : db) : Prop :=
  ∀ k q, deletion_requests d !! k = Some q → is_Some (sessions d !! del_session_id q).

(** Every request of the second table is one of the first, for the same session. *)
Definition same_session_requests (m m' : gmap string deletion_request_row) : Prop :=
  ∀ k q', m' !! k = Some q' → ∃ q, m !! k = Some q ∧ del_session_id q' = del_session_id q.

#[export] Instance same_session_requests_preorder : PreOrder same_session_requests.
Proof.
  split.
  - intros m k q Hq. by exists q.
  - intros m1 m2 m3 H1 H2 k q (q2 & Hq2 & E2)%H2. destruct (H1 k q2 Hq2) as (q1 & Hq1 & E1).
    exists q1. by rewrite E2, E1.
Qed.

Lemma same_session_alter f k (m : gmap string deletion_request_row) :
  (∀ q, del_session_id (f q) = del_session_id q) → same_session_requests m (alter f k m).
Proof.
  intros Hf j q' Hj. destruct (decide (j = k)) as [->|Hne].
  - rewrite lookup_alter_eq in Hj. destruct (m !! k) as [q|]; [|done]. injection Hj as <-. eauto.
  - rewrite lookup_alter_ne in Hj by done. eauto.
Qed.
Lemma same_session_update p f (m : gmap string deletion_request_row) :
  (∀ q, del_session_id (f q) = del_session_id q) → same_session_requests m (update_where p f m).
Proof.
  intros Hf j q' Hj. rewrite lookup_update_where in Hj. destruct (m !! j) as [q|]; [|done].
  injection Hj as <-. exists q. split; [done|]. by destruct (p j q).
Qed.

Definition requests_deletion (req : request) : bool :=
  match req with RRequestSessionDeletion _ _ _ _ _ _ => true | _ => false end.

Lemma exec_same_session req :
  requests_deletion req = false → respects (onto deletion_requests same_session_requests) (exec req).
Proof.
  intros Hr. destruct req; try discriminate Hr; cbn [exec]; unfold discard; clear Hr;
    respects_all; repeat first [apply respects_release_loop; [apply _|..]; intros
               |apply respects_queue_candidates; [apply _|]; intros];
    respects_all; first [by apply same_session_alter|by apply same_session_update].
Qed.

Lemma requests_refer_step d d' : step d d' → requests_refer d → requests_refer d'.
Proof.
  intros [req H] I.
  assert (Hs : ∀ id, is_Some (sessions d !! id) → is_Some (sessions d' !! id)).
  { intros id [r Hr]. pose proof (exec_sessions _ _ _ H id) as Hc. rewrite Hr in Hc.
    inversion Hc; eauto. }
  destruct (requests_deletion req) eqn:E.
  - destruct req; try discriminate E. cbn [exec] in H. unfold discard, RequestSessionDeletion,
      session_and_organization, insert_deletion_request in H. insert_inv.
    intros k q. db_simpl. intros [[<- <-]|[_ Hq]]%lookup_insert_Some; [eassumption|by eapply I].
  - intros k q' Hq'. destruct (exec_same_session req E d () d' H k q' Hq') as (q & Hq & ->).
    by eapply Hs, I.
Qed.

Lemma reachable_refer d : reachable d → requests_refer d.
Proof.
  apply reachable_ind; [|apply requests_refer_step]. intros k q Hq. cbn in Hq. by rewrite lookup_empty in Hq.
Qed.

(** ** Reachable databases *)

(** Every row of every table satisfies the constraints of its table. *)
Record constraints_hold (d : db) : Prop := {
  ch_projects : map_Forall project_checks (projects d);
  ch_task_templates : map_Forall template_checks (task_templates d);
  ch_sessions : map_Forall session_checks (sessions d);
  ch_artifacts : map_Forall artifact_checks (artifacts d);
  ch_processing_jobs : map_Forall job_checks (processing_jobs d);
  ch_validation_results : map_Forall result_checks (validation_results d);
  ch_reviews : map_Forall review_checks (reviews d);
  ch_review_claims : map_Forall claim_checks (review_claims d);
  ch_redaction_plans : map_Forall plan_checks (redaction_plans d);
  ch_redaction_jobs : map_Forall redaction_checks (redaction_jobs d);
  ch_retention_policies : map_Forall policy_checks (retention_policies d);
  ch_legal_holds : map_Forall hold_checks (legal_holds d);
  ch_deletion_requests : map_Forall deletion_checks (deletion_requests d);
  ch_retention_purge_requests : map_Forall purge_checks (retention_purge_requests d);
  ch_dataset_releases : map_Forall release_checks (dataset_releases d);
  ch_release_sessions : map_Forall member_checks (release_sessions d);
  ch_uploads : map_Forall upload_checks (artifact_multipart_uploads d);
  ch_parts : map_Forall part_checks (artifact_multipart_parts d);
  ch_accounts : map_Forall account_checks (accounts d);
  ch_memberships : map_Forall membership_checks (organization_memberships d);
  ch_invitations : map_Forall invitation_checks (invitations d)
}.

(** A constraint that every request keeps and the empty table satisfies. *)
Lemma reachable_checked {K R} `{Countable K} (table : db → gmap K R) (φ : K → R → Prop) d :
  table initial_db = ∅ → (∀ req, keeps_checks table φ (exec req)) →
  reachable d → map_Forall φ (table d).
Proof.
  intros H0 Hk. revert d. apply reachable_ind.
  - rewrite H0. apply map_Forall_empty.
  - intros d d' [req Hs]. exact (Hk req d () d' Hs).
Qed.

Lemma reachable_constraints_of d : reachable d → constraints_hold d.
Proof.
  intros Hd. split; (eapply reachable_checked; [reflexivity| |exact Hd]).
  - apply exec_projects.
  - apply exec_templates.
  - apply exec_sessions_checked.
  - apply exec_artifacts.
  - apply exec_jobs.
  - apply exec_results.
  - apply exec_reviews.
  - apply exec_claims.
  - apply exec_plans.
  - apply exec_redactions.
  - apply exec_policies.
  - apply exec_holds.
  - apply exec_deletions.
  - apply exec_purges.
  - apply exec_releases.
  - apply exec_members.
  - apply exec_uploads.
  - apply exec_parts.
  - apply exec_accounts.
  - apply exec_memberships.
  - apply exec_invitations.
Qed.

(** C9: the store never violates a CHECK constraint of the migrations.  Whatever
    requests commit, in whatever order, every row of every reachable database
    satisfies the constraints that the scripts declare for its table: states and
    roles are declared ones, counters are not negative, a lease has its worker and
    its deadline and nothing else has, and the times of completion, release,
    acceptance and dead-lettering are set exactly in the states they belong to. *)
Theorem reachable_constraints d : reachable d → constraints_hold d.
Proof. apply reachable_constraints_of. Qed.

(** A session whose validation was dead-lettered and then retried. *)
Definition failing_validation : list request :=
  submit_validation ++
  [RClaimValidationJob "worker" minute (start + 4) ∅;
   RRequeueValidationJob "job_13" "worker" "broken file" 1 (start + 5)].
Definition dead_lettered_db : db := run failing_validation initial_db.
Definition retried_db : db :=
  run (failing_validation ++ [RRetryDeadLetterJob "job_13" "admin" "req" (start + 6)]) initial_db.

Lemma reachable_constraints_witness :
  (∃ j, processing_jobs dead_lettered_db !! "job_13" = Some j ∧ job_state j = "dead_letter" ∧
        job_checks "job_13" j) ∧
  (∃ j, processing_jobs retried_db !! "job_13" = Some j ∧ job_state j = "queued" ∧
        job_checks "job_13" j).
Proof.
  split.
  - destruct (processing_jobs dead_lettered_db !! "job_13") as [j|] eqn:Hj;
      [|vm_compute in Hj; discriminate Hj].
    exists j. split; [reflexivity|]. split; [vm_compute in Hj; injection Hj as <-; reflexivity|].
    apply (ch_processing_jobs _ (reachable_constraints dead_lettered_db (run_steps _ _)) _ _ Hj).
  - destruct (processing_jobs retried_db !! "job_13") as [j|] eqn:Hj;
      [|vm_compute in Hj; discriminate Hj].
    exists j. split; [reflexivity|]. split; [vm_compute in Hj; injection Hj as <-; reflexivity|].
    apply (ch_processing_jobs _ (reachable_constraints retried_db (run_steps _ _)) _ _ Hj).
Defined.

(** ** Every unfinished job comes due *)

(** From [t] on the queue hands the row out, unless another transaction has it. *)
Definition due_from {R} (due : time → string → R → bool) (k : string) (r : R) : Prop :=
  ∃ t, ∀ now, t ≤ now → due now k r = true.

Lemma queue_due_from state available lease :
  state = "queued" ∨ state = "leased" → (state = "leased" → is_Some lease) →
  ∃ t, ∀ now, t ≤ now → queue_due state available lease now = true.
Proof.
  unfold queue_due. intros [->| ->] Hl.
  - exists available. intros now Ht. cbn. by rewrite (proj2 (Z.leb_le _ _) Ht).
  - destruct (Hl eq_refl) as [t ->]. exists t. intros now Ht. cbn.
    by rewrite (proj2 (Z.leb_le _ _) Ht).
Qed.


