(* ===== verification/Invariants.v ===== *)
(** * What holds in every reachable state

    Invariants of the store that no single operation states: at most one active
    legal hold and one active erasure request per session, no erasure leased while
    a hold is active, session identities that never change, and the finality of
    erasure. *)

From S2P Require Import Prelude Domain Schema Encoding Sha256 Store Pipeline Redaction.
From S2P Require Import Review Erasure Retention Release Multipart Identity Campaign Frame.
From S2P Require Import System.

(** ** Holds and erasure requests *)

(** A hold that was not released, and a request that is not finished. *)
Definition unreleased (h : legal_hold_row) : Prop := hld_released_at h = None.
Definition unfinished (q : deletion_request_row) : Prop := del_state q ∈ ["queued"; "leased"; "blocked"].

Record hold_inv (d : db) : Prop := {
  hi_one_hold : ∀ k h k' h', legal_holds d !! k = Some h → legal_holds d !! k' = Some h' →
    active_hold h = true → active_hold h' = true → hld_session_id h = hld_session_id h' → k = k';
  hi_one_deletion : ∀ k q k' q', deletion_requests d !! k = Some q →
    deletion_requests d !! k' = Some q' → active_deletion q = true → active_deletion q' = true →
    del_session_id q = del_session_id q' → k = k';
  hi_no_lease : ∀ k q, deletion_requests d !! k = Some q → del_state q = "leased" →
    under_hold d (del_session_id q) = false
}.

Lemma hold_inv_same d d' :
  legal_holds d' = legal_holds d → deletion_requests d' = deletion_requests d →
  hold_inv d → hold_inv d'.
Proof.
  intros H1 H2 [A B C]. split; rewrite ?H1, ?H2; [exact A|exact B|].
  unfold under_hold. rewrite H1. exact C.
Qed.

(** Either the request touches neither table or it is one of these. *)
Definition hold_request (req : request) : bool :=
  match req with
  | RPlaceLegalHold _ _ _ _ _ _ | RReleaseLegalHold _ _ _ _ _ | RRequestSessionDeletion _ _ _ _ _ _
  | RClaimDeletionRequest _ _ _ _ | RRequeueDeletionRequest _ _ _ _ _
  | RCompleteDeletionRequest _ _ _ | RRetryDeadLetterDeletionRequest _ _ _ _ => true
  | _ => false
  end.

Definition holds_and_deletions (d : db) := (legal_holds d, deletion_requests d).

Lemma exec_keeps_holds req :
  hold_request req = false → keeps holds_and_deletions (exec req).
Proof.
  unfold keeps. destruct req; try discriminate; intros _; cbn [exec]; unfold discard, holds_and_deletions;
    respects_all; repeat first [apply respects_release_loop; [apply _|..]; intros
               |apply respects_queue_candidates; [apply _|]; intros]; respects_all.
Qed.

Lemma under_hold_false d sessionID :
  under_hold d sessionID = false ↔
  ∀ k h, legal_holds d !! k = Some h → hld_session_id h = sessionID → active_hold h = false.
Proof.
  unfold under_hold. rewrite exists_row_false. split.
  - intros H k h Hk Hs. specialize (H k h Hk). by rewrite (proj2 (seqb_true _ _)) in H.
  - intros H k h Hk. destruct (seqb (hld_session_id h) sessionID) eqn:E; [|done].
    apply seqb_true in E. by rewrite (H k h).
Qed.

Lemma insert_legal_hold_ok id r d u d' :
  insert_legal_hold id r d = Ok (u, d') →
  d' = set_legal_holds <[id := r]> d ∧
  ∀ k h, legal_holds d !! k = Some h → active_hold r = true → active_hold h = true →
         hld_session_id h ≠ hld_session_id r.
Proof.
  unfold insert_legal_hold. intros H. insert_inv. split; [done|].
  intros k h Hk Hr Hh Hs.
  repeat match goal with H : exists_row _ _ = false |- _ => rewrite exists_row_false in H; specialize (H k h Hk) end.
  by rewrite Hr, Hh, (proj2 (seqb_true _ _)) in *.
Qed.

Lemma insert_deletion_request_ok id r d u d' :
  insert_deletion_request id r d = Ok (u, d') →
  d' = set_deletion_requests <[id := r]> d ∧
  ∀ k q, deletion_requests d !! k = Some q → active_deletion r = true → active_deletion q = true →
         del_session_id q ≠ del_session_id r.
Proof.
  unfold insert_deletion_request. intros H. insert_inv. split; [done|].
  intros k q Hk Hr Hh Hs.
  repeat match goal with H : exists_row _ _ = false |- _ => rewrite exists_row_false in H; specialize (H k q Hk) end.
  by rewrite Hr, Hh, (proj2 (seqb_true _ _)) in *.
Qed.

(** A new hold: no other is active for the session and no erasure is leased. *)
Lemma hold_inv_insert_hold d id r :
  hold_inv d →
  (∀ k h, legal_holds d !! k = Some h → active_hold h = true → hld_session_id h ≠ hld_session_id r) →
  deletion_leased d (hld_session_id r) = false →
  hold_inv (set_legal_holds <[id := r]> d).
Proof.
  intros [A B C] Hn Hl. split; db_simpl.
  - intros k h k' h' [[<- <-]|[Hk Hh]]%lookup_insert_Some [[<- <-]|[Hk' Hh']]%lookup_insert_Some H1 H2 Hs;
      [done| | |by eapply A].
    + by destruct (Hn k' h' Hh' H2).
    + by destruct (Hn k h Hh H1).
  - exact B.
  - intros k q Hq Hst. apply under_hold_false. db_simpl.
    intros j h [[<- <-]|[Hj Hh]]%lookup_insert_Some Hs.
    + unfold deletion_leased in Hl. rewrite exists_row_false in Hl. specialize (Hl k q Hq).
      by rewrite Hst, !(proj2 (seqb_true _ _)) in Hl.
    + specialize (C k q Hq Hst). rewrite under_hold_false in C. by eapply C.
Qed.

(** A rewritten request: it is not active for another's session, and leased only
    without a hold. *)
Lemma hold_inv_update_deletion d id q q' :
  hold_inv d → deletion_requests d !! id = Some q → del_session_id q' = del_session_id q →
  (active_deletion q' = true → active_deletion q = true ∨
     ∀ k p, k ≠ id → deletion_requests d !! k = Some p → active_deletion p = true →
            del_session_id p ≠ del_session_id q) →
  (del_state q' = "leased" → under_hold d (del_session_id q) = false) →
  hold_inv (set_deletion_requests <[id := q']> d).
Proof.
  intros [A B C] Hq Hs Ha Hl. split; db_simpl; [exact A| |].
  - assert (Hx : ∀ k p, k ≠ id → deletion_requests d !! k = Some p → active_deletion q' = true →
                        active_deletion p = true → del_session_id q' ≠ del_session_id p).
    { intros k p Hk Hp H1 H2 E. rewrite Hs in E. destruct (Ha H1) as [H3|H3].
      - by eapply Hk, eq_sym, B.
      - by eapply H3. }
    intros k p k' p' [[<- <-]|[Hk Hp]]%lookup_insert_Some [[<- <-]|[Hk' Hp']]%lookup_insert_Some H1 H2 E;
      [done| | |by eapply B].
    + by eapply Hx in E.
    + by eapply Hx in H1; [|by apply not_eq_sym|..].
  - intros k p [[<- <-]|[Hk Hp]]%lookup_insert_Some Hst; unfold under_hold in *; db_simpl.
    + rewrite Hs. by apply Hl.
    + by eapply C.
Qed.

Lemma hold_inv_alter d d0 id q f g :
  hold_inv d → legal_holds d0 = legal_holds d → deletion_requests d0 = deletion_requests d →
  deletion_requests d !! id = Some q → del_session_id (f q) = del_session_id q →
  (active_deletion (f q) = true → active_deletion q = true ∨
     ∀ k p, k ≠ id → deletion_requests d !! k = Some p → active_deletion p = true →
            del_session_id p ≠ del_session_id q) →
  (del_state (f q) = "leased" → under_hold d (del_session_id q) = false) →
  hold_inv (set_audit_events g (set_deletion_requests (alter f id) d0)).
Proof.
  intros I H1 H2 Hq Hs Ha Hl. apply (hold_inv_same (set_deletion_requests <[id := f q]> d)).
  - exact H1.
  - db_simpl. rewrite H2. by apply alter_as_insert.
  - by apply (hold_inv_update_deletion d id q).
Qed.

Lemma active_deletion_true q :
  active_deletion q = true ↔ del_state q = "queued" ∨ del_state q = "leased" ∨ del_state q = "blocked".
Proof. unfold active_deletion. rewrite oneof_true. set_solver. Qed.

Lemma under_hold_same d d' sid : legal_holds d' = legal_holds d → under_hold d' sid = under_hold d sid.
Proof. unfold under_hold. by intros ->. Qed.

Lemma PlaceLegalHold_inv a b c e f g d x d' :
  PlaceLegalHold a b c e f g d = Ok (x, d') → hold_inv d → hold_inv d'.
Proof.
  unfold PlaceLegalHold, session_and_organization. intros H I. insert_inv.
  match goal with H : insert_legal_hold _ _ _ = _ |- _ => apply insert_legal_hold_ok in H as [-> Hn] end.
  match goal with |- hold_inv (set_audit_events _ ?d1) => apply (hold_inv_same d1); [reflexivity..|] end.
  apply hold_inv_insert_hold; [done| |done]. intros k h Hk Hh. by eapply Hn.
Qed.

Lemma release_hold_inactive actor now h : active_hold (release_hold actor now h) = false.
Proof. done. Qed.

Lemma ReleaseLegalHold_inv a b c e f d x d' :
  ReleaseLegalHold a b c e f d = Ok (x, d') → hold_inv d → hold_inv d'.
Proof.
  unfold ReleaseLegalHold. intros H [A B C]. insert_inv. db_simpl.
  assert (Hold : ∀ k h, alter (release_hold c f) b (legal_holds d) !! k = Some h →
    active_hold h = true → legal_holds d !! k = Some h).
  { intros k h Hk Hh. destruct (decide (k = b)) as [->|Hne].
    - rewrite lookup_alter_eq in Hk. destruct (legal_holds d !! b); [|done]. by injection Hk as <-.
    - by rewrite lookup_alter_ne in Hk. }
  assert (Hdel : ∀ k q, update_where (λ _ q, seqb (del_session_id q) a && seqb (del_state q) "blocked")
      (unblock_deletion f) (deletion_requests d) !! k = Some q →
    ∃ q0, deletion_requests d !! k = Some q0 ∧ del_session_id q = del_session_id q0 ∧
          (active_deletion q = true → active_deletion q0 = true) ∧
          (del_state q = "leased" → del_state q0 = "leased")).
  { intros k q Hk. rewrite lookup_update_where in Hk.
    destruct (deletion_requests d !! k) as [q0|]; [|done]. exists q0. split; [done|].
    cbn in Hk. destruct (seqb (del_session_id q0) a && seqb (del_state q0) "blocked") eqn:E;
      injection Hk as <-; [|done]. split; [done|].
    apply andb_true_iff in E as [_ E%seqb_true]. split; [|done].
    intros _. apply active_deletion_true. auto. }
  split; db_simpl.
  - intros k h k' h' Hk Hk' N1 N2. apply (A k h k' h'); auto.
  - intros k q k' q' (q0 & Hq & Hs & Ha & _)%Hdel (q0' & Hq' & Hs' & Ha' & _)%Hdel N1 N2 E.
    apply (B k q0 k' q0'); auto; congruence.
  - intros k q (q0 & Hq & Hs & _ & Hl)%Hdel Hst. apply under_hold_false. db_simpl.
    intros j h Hj Hhs. destruct (active_hold h) eqn:E; [|done].
    rewrite <-E. specialize (C k q0 Hq (Hl Hst)). rewrite under_hold_false in C.
    apply (C j); [by apply Hold|congruence].
Qed.

Lemma RequestSessionDeletion_inv a b c e f g d x d' :
  RequestSessionDeletion a b c e f g d = Ok (x, d') → hold_inv d → hold_inv d'.
Proof.
  unfold RequestSessionDeletion, session_and_organization. intros H [A B C]. insert_inv.
  match goal with H : insert_deletion_request _ _ _ = _ |- _ =>
    apply insert_deletion_request_ok in H as [-> Hn] end. cbn in Hn.
  split; db_simpl; [exact A| |].
  - intros k q k' q' [[<- <-]|[Hk Hq]]%lookup_insert_Some [[<- <-]|[Hk' Hq']]%lookup_insert_Some N1 N2 E;
      [done| | |by eapply B].
    + cbn in E. by destruct (Hn k' q' Hq' eq_refl N2).
    + cbn in E. by destruct (Hn k q Hq eq_refl N1).
  - intros k q [[<- <-]|[Hk Hq]]%lookup_insert_Some Hst; [done|].
    unfold under_hold in *. db_simpl. by eapply C.
Qed.

Lemma queue_due_active state available lease now q :
  queue_due state available lease now = true → del_state q = state → active_deletion q = true.
Proof.
  unfold queue_due. rewrite orb_true_iff, !andb_true_iff, !seqb_true, active_deletion_true.
  intros [[-> _]|[-> _]] ->; auto.
Qed.

Lemma ClaimDeletionRequest_inv a b c e d x d' :
  ClaimDeletionRequest a b c e d = Ok (x, d') → hold_inv d → hold_inv d'.
Proof.
  unfold ClaimDeletionRequest. intros H I. insert_inv. rename s into id, d0 into q.
  match goal with H : first_due _ _ _ _ = Some _ |- _ => apply first_due_some in H as (Hq & Hdue & _) end.
  apply andb_true_iff in Hdue as [Hdue _]. unfold deletion_due in Hdue.
  pose proof (queue_due_active _ _ _ _ q Hdue eq_refl) as Hact.
  destruct (negb _); [|destruct (under_hold d (del_session_id q)) eqn:Hh]; insert_inv.
  3: apply (hold_inv_same (set_audit_events (λ l, l) (set_deletion_requests
       (alter (lease_deletion a (c + b) c) id) d))); [reflexivity..|].
  all: eapply (hold_inv_alter d d id q); [exact I|reflexivity|reflexivity|exact Hq|reflexivity|by left|]; done.
Qed.

Lemma lease_active q w : holds_deletion_lease q w = true → active_deletion q = true.
Proof. intros [H _]%deletion_lease_true. apply active_deletion_true. auto. Qed.

Lemma RequeueDeletionRequest_inv a b c e f d x d' :
  RequeueDeletionRequest a b c e f d = Ok (x, d') → hold_inv d → hold_inv d'.
Proof.
  unfold RequeueDeletionRequest. intros H I. insert_inv.
  match goal with H : negb _ = false |- _ => apply negb_false_iff, lease_active in H as Hact end.
  match goal with Hq : deletion_requests d !! a = Some ?q |- _ =>
    eapply (hold_inv_alter d d a q); [exact I|reflexivity|reflexivity|exact Hq|reflexivity|by left|] end.
  cbn. by destruct (_ <=? _).
Qed.

Lemma CompleteDeletionRequest_inv a b c d x d' :
  CompleteDeletionRequest a b c d = Ok (x, d') → hold_inv d → hold_inv d'.
Proof.
  unfold CompleteDeletionRequest. intros H I. insert_inv.
  match goal with H : delete_session_rows _ ?d1 = Ok (_, ?d2) |- _ =>
    assert (Kh : legal_holds d2 = legal_holds d)
      by (transitivity (legal_holds d1); [refine (keeps_ok _ _ _ _ _ _ H); unfold keeps; respects_all|done]);
    apply delete_session_rows_ok in H as (_ & _ & Kd & _) end.
  match goal with Hq : deletion_requests d !! a = Some ?q |- _ =>
    eapply (hold_inv_alter d _ a q); [exact I|exact Kh|exact Kd|exact Hq|reflexivity|..]; done end.
Qed.

Lemma RetryDeadLetterDeletionRequest_inv a b c e d x d' :
  RetryDeadLetterDeletionRequest a b c e d = Ok (x, d') → hold_inv d → hold_inv d'.
Proof.
  unfold RetryDeadLetterDeletionRequest. intros H I. insert_inv.
  match goal with H : exists_row _ _ = false |- _ => rewrite exists_row_false in H; rename H into Hn end.
  match goal with Hq : deletion_requests d !! a = Some ?q |- _ =>
    eapply (hold_inv_alter d d a q); [exact I|reflexivity|reflexivity|exact Hq|reflexivity| |done] end.
  intros _. right. intros k p Hk Hp Hact Hs. specialize (Hn k p Hp). cbn in Hn.
  rewrite (proj2 (seqb_false _ _) Hk), Hact, Hs in Hn. by rewrite (proj2 (seqb_true _ _)) in Hn.
Qed.

Lemma hold_inv_step d d' : step d d' → hold_inv d → hold_inv d'.
Proof.
  intros [req H] I. destruct (hold_request req) eqn:E.
  - destruct req; try discriminate E; cbn [exec] in H; unfold discard in H;
      try (apply bind_ok in H as (? & ? & H & Hr); injection Hr as <-);
      first [by eapply PlaceLegalHold_inv|by eapply ReleaseLegalHold_inv
            |by eapply RequestSessionDeletion_inv|by eapply ClaimDeletionRequest_inv
            |by eapply RequeueDeletionRequest_inv|by eapply CompleteDeletionRequest_inv
            |by eapply RetryDeadLetterDeletionRequest_inv].
  - pose proof (keeps_ok _ _ _ _ _ (exec_keeps_holds req E) H) as K. injection K as K1 K2.
    by eapply hold_inv_same.
Qed.

Lemma reachable_holds d : reachable d → hold_inv d.
Proof.
  apply reachable_ind; [|apply hold_inv_step].
  split; cbn; intros k q; intros; by rewrite lookup_empty in *.
Qed.


(** ** The transition request *)

Definition self_accepted : db :=
  run (begin_session ++ ask_transitions
    [SessionReady; SessionRecording; SessionFinalizing; SessionUploading; SessionSubmitted;
     SessionProcessing; SessionReadyForReview; SessionAccepted; SessionReleased]) initial_db.

(** The transition request alone bypasses the pipeline.  [TransitionSession] asks only
    for an edge of the table and for a consent on the way to READY, so the
    contributor's own transition requests take a session from READY to RELEASED
    although nothing was uploaded, validated, reviewed or put in a release. *)
Theorem transitions_bypass_pipeline :
  reachable self_accepted ∧
  ses_state <$> sessions self_accepted !! "sess_07" = Some SessionReleased ∧
  artifacts self_accepted = ∅ ∧ processing_jobs self_accepted = ∅ ∧
  validation_results self_accepted = ∅ ∧ reviews self_accepted = ∅ ∧
  release_sessions self_accepted = ∅.
Proof.
  split; [apply run_steps|]. split_and!; vm_compute; reflexivity.
Qed.

(** A held session of the scenario. *)
Definition held_db : db :=
  run (begin_session ++
    [RRequestSessionDeletion "sess_07" "asked to" "admin" "req" start (Some [x09]);
     RPlaceLegalHold "sess_07" "litigation" "admin" "req" start (Some [x0a]);
     RClaimDeletionRequest "worker" minute (start + 1) ∅]) initial_db.


(** ** Sessions keep their identity; erasure is final *)

Definition session_kept (r r' : session_row) : Prop :=
  ses_assignment_id r' = ses_assignment_id r ∧
  ses_rework_of_session_id r' = ses_rework_of_session_id r ∧
  ses_created_at r' = ses_created_at r ∧
  (ses_state r = SessionDeleted →
     ses_state r' = SessionDeleted ∧
     (ses_consent_acceptance_id r = None → ses_consent_acceptance_id r' = None)).

Lemma session_change_kept ev r o :
  session_change ev (Some r) o → ∃ r', o = Some r' ∧ session_kept r r'.
Proof.
  unfold session_kept. intros H. inversion H as [|?|? to t Hal|? ? ? Hst|? ? Hst|]; subst;
    eexists; (split; [reflexivity|]); split_and!; try done; intros Hd; try (by rewrite Hst in Hd).
  by rewrite Hd in Hal.
Qed.

Definition sessions_kept : relation db := λ d d',
  ∀ id r, sessions d !! id = Some r → ∃ r', sessions d' !! id = Some r' ∧ session_kept r r'.

#[export] Instance sessions_kept_preorder : PreOrder sessions_kept.
Proof.
  split.
  - intros d id r Hr. exists r. unfold session_kept. split_and!; done.
  - intros d1 d2 d3 H1 H2 id r Hr. destruct (H1 id r Hr) as (r2 & Hr2 & A1 & A2 & A3 & A4).
    destruct (H2 id r2 Hr2) as (r3 & Hr3 & B1 & B2 & B3 & B4). exists r3. split; [done|].
    split_and!; [congruence..|]. intros Hd. destruct (A4 Hd) as [Hd2 Hc2].
    destruct (B4 Hd2) as [Hd3 Hc3]. by split; [|auto].
Qed.

(** C22: whatever requests follow, a session never disappears, keeps its assignment, its
    creation time and the session it reworks, and once it is DELETED it stays
    DELETED and no consent is attached to it again. *)
Theorem erasure_is_final d d' id r :
  rtc step d d' → sessions d !! id = Some r →
  ∃ r', sessions d' !! id = Some r' ∧ session_kept r r'.
Proof.
  intros H. apply (rtc_respects sessions_kept); [|exact H].
  intros req d0 [] d1 He. intros k s Hs. pose proof (exec_sessions _ _ _ He k) as Hc.
  rewrite Hs in Hc. by apply session_change_kept in Hc.
Qed.

Lemma erasure_is_final_witness :
  let later := run (ask_transitions [SessionReady; SessionRecording]) erased_db in
  ses_state <$> sessions later !! "sess_07" = Some SessionDeleted.
Proof.
  intros later.
  destruct (sessions erased_db !! "sess_07") as [r|] eqn:Hr; [|vm_compute in Hr; discriminate Hr].
  assert (Hd : ses_state r = SessionDeleted) by (vm_compute in Hr; injection Hr as <-; reflexivity).
  destruct (erasure_is_final erased_db later "sess_07" r) as (r' & Hr' & _ & _ & _ & Hf);
    [apply run_steps|exact Hr|].
  rewrite Hr'. cbn. f_equal. apply Hf, Hd.
Defined.

(** ** Consent *)

(** The session carries an acceptance given by the contributor of its assignment, for a
    stored document in effect at the time, whose hash is the hash of its text. *)
Definition covered_by_consent (d : db) (r : session_row) : Prop :=
  ∃ a acceptance assignment document,
    ses_consent_acceptance_id r = Some a ∧ consent_acceptances d !! a = Some acceptance ∧
    assignments d !! ses_assignment_id r = Some assignment ∧
    cac_contributor_id acceptance = asg_contributor_id assignment ∧
    consent_documents d !! cac_document_id acceptance = Some document ∧
    cdo_effective_date document ≤ cac_accepted_at acceptance ∧
    cdo_text_hash document = sha256_hex (cdo_body document).

(** C1: no recording without consent.  In every reachable state, a session that is not
    ASSIGNED, CANCELLED or DELETED carries an acceptance given by the contributor of
    its own assignment, for a stored consent document that was in effect when it
    was accepted and whose recorded hash is the SHA-256 of its text. *)
Theorem recording_needs_consent d id r :
  reachable d → sessions d !! id = Some r →
  ses_state r ∉ [SessionAssigned; SessionCancelled; SessionDeleted] → covered_by_consent d r.
Proof.
  intros [Hg Hc He Hh]%reachable_consent Hr Hst.
  destruct (Hg id r Hr Hst) as [a Ha]. destruct (Hc id r a Hr Ha) as (c & g & H1 & H2 & H3).
  destruct (He a c H1) as (doc & H4 & H5). exists a, c, g, doc. split_and!; try done. by eapply Hh.
Qed.

Definition recording_db : db :=
  run (begin_session ++ ask_transitions [SessionReady; SessionRecording]) initial_db.

Lemma recording_needs_consent_witness :
  ∃ r, sessions recording_db !! "sess_07" = Some r ∧ ses_state r = SessionRecording ∧
       covered_by_consent recording_db r.
Proof.
  destruct (sessions recording_db !! "sess_07") as [r|] eqn:Hr; [|vm_compute in Hr; discriminate Hr].
  assert (Hst : ses_state r = SessionRecording) by (vm_compute in Hr; injection Hr as <-; reflexivity).
  exists r. split; [reflexivity|]. split; [exact Hst|].
  apply (recording_needs_consent recording_db "sess_07" r);
    [apply run_steps|exact Hr|rewrite Hst; apply (bool_decide_eq_false_1 _); reflexivity].
Defined.
