(* ===== verification/Tracing.v ===== *)
(** * Trace correlation of requests ([httpapi/api.go])

    The W3C [traceparent] header and the header of Google Cloud, as
    [parseTraceparent] and [parseCloudTrace] read them, and the header the response
    carries.  Every correlation the server adopts or makes is announced in a form
    that [parseTraceparent] reads back. *)

From S2P Require Import Prelude Domain Text Encoding Schema Redaction.

Record traceCorrelation := { tr_TraceID : string; tr_SpanID : string; tr_Sampled : bool }.

Definition traceparent (trace : traceCorrelation) : string :=
  "00-" +:+ tr_TraceID trace +:+ "-" +:+ tr_SpanID trace +:+ "-" +:+ (if tr_Sampled trace then "01" else "00").

Definition validHex (value : string) : bool := bool_decide (is_Some (DecodeString value)).
Definition allZero (value : string) : bool := is_empty (Trim value "0"%char).

Definition parseTraceparent (value : string) : option traceCorrelation :=
  match split_on "-"%char (TrimSpace value) with
  | [version; traceID; spanID; flags] =>
    if negb (seqb version "00") || negb (slen traceID =? 32) || negb (slen spanID =? 16)
       || negb (slen flags =? 2) || negb (validHex traceID) || negb (validHex spanID)
       || negb (validHex flags) || allZero traceID || allZero spanID
    then None
    else match ParseUint flags 16 8 with
         | None => None
         | Some n => Some {| tr_TraceID := ToLower traceID; tr_SpanID := ToLower spanID;
                             tr_Sampled := Z.odd n |}
         end
  | _ => None
  end.

(** [fmt.Sprintf("%016x", n)] for 64 bits. *)
Fixpoint hex_digits (width : nat) (n : Z) (acc : string) : string :=
  match width with
  | O => acc
  | S width' => hex_digits width' (n / 16) (String (hex_digit (Z.to_N (n mod 16))) acc)
  end.

Definition parseCloudTrace (value0 : string) : option traceCorrelation :=
  let value := TrimSpace value0 in
  match IndexByte value "/"%char with
  | Some 32%nat =>
    let traceID := stake 32 value in
    if negb (validHex traceID) || allZero traceID then None
    else
      let remainder := sdrop 33 value in
      let '(remainder, options) :=
        match IndexByte remainder ";"%char with
        | Some semicolon => (stake semicolon remainder, sdrop (S semicolon) remainder)
        | None => (remainder, "")
        end in
      match ParseUint remainder 10 64 with
      | Some span =>
        if span =? 0 then None
        else Some {| tr_TraceID := ToLower traceID; tr_SpanID := hex_digits 16 span "";
                     tr_Sampled := Contains options "o=1" |}
      | None => None
      end
  | _ => None
  end.

(** The buffers of sixteen and of eight random bytes. *)
Definition newTraceCorrelation (randoms : nat → random) : option traceCorrelation :=
  traceID ← randoms 0%nat;
  spanID ← randoms 1%nat;
  Some {| tr_TraceID := EncodeToString traceID; tr_SpanID := EncodeToString spanID; tr_Sampled := false |}.

(** ** Lemmas *)

Lemma rev_onto_acc s acc : rev_string_onto s acc = rev_string s +:+ acc.
Proof.
  unfold rev_string. revert acc. induction s as [|c s IH]; intros acc; [done|]. cbn.
  rewrite IH, (IH (String c "")), string_app_assoc. done.
Qed.
Lemma rev_string_cons c s : rev_string (String c s) = rev_string s +:+ String c "".
Proof. apply (rev_onto_acc s (String c "")). Qed.
Lemma rev_string_app a b : rev_string (a +:+ b) = rev_string b +:+ rev_string a.
Proof.
  induction a as [|c a IH]; [symmetry; apply string_app_nil_r|].
  by rewrite string_app_cons, !rev_string_cons, IH, string_app_assoc.
Qed.
Lemma rev_string_involutive s : rev_string (rev_string s) = s.
Proof.
  induction s as [|c s IH]; [done|]. rewrite rev_string_cons, rev_string_app, IH. done.
Qed.
Lemma all_chars_rev p s : all_chars p (rev_string s) = all_chars p s.
Proof.
  induction s as [|c s IH]; [done|]. rewrite rev_string_cons, all_chars_app, IH.
  cbn [all_chars]. by rewrite andb_true_r, andb_comm.
Qed.
Lemma trim_left_byte_all c s : is_empty (trim_left_byte c s) = all_chars (λ a, Ascii.eqb a c) s.
Proof. induction s as [|a s IH]; [done|]. cbn. by destruct (Ascii.eqb a c). Qed.
Lemma trim_left_byte_stop c s : all_chars (λ a, Ascii.eqb a c) (trim_left_byte c s) = is_empty (trim_left_byte c s).
Proof. induction s as [|a s IH]; [done|]. cbn. destruct (Ascii.eqb a c) eqn:E; [done|]. cbn. by rewrite E. Qed.
Lemma is_empty_rev s : is_empty (rev_string s) = is_empty s.
Proof.
  apply bool_decide_ext. split; [|by intros ->].
  intros H. apply (f_equal rev_string) in H. by rewrite rev_string_involutive in H.
Qed.
(** [allZero] looks at every character. *)
Lemma allZero_all s : allZero s = all_chars (λ a, Ascii.eqb a "0"%char) s.
Proof.
  unfold allZero, Trim.
  by rewrite is_empty_rev, trim_left_byte_all, all_chars_rev, trim_left_byte_stop, trim_left_byte_all.
Qed.

Definition is_hex (a : ascii) : bool := bool_decide (is_Some (hex_value a)).

Lemma hex_value_lt a v : hex_value a = Some v → (v < 16)%N.
Proof.
  unfold hex_value. repeat case_match; intros [= <-];
    repeat match goal with H : (_ && _)%bool = true |- _ => apply andb_true_iff in H as [?%N.leb_le ?%N.leb_le] end;
    lia.
Qed.

(** [validHex]: pairs of hexadecimal digits. *)
Lemma validHex_pair a b s : validHex (String a (String b s)) = is_hex a && is_hex b && validHex s.
Proof.
  unfold validHex, is_hex. cbn [DecodeString].
  destruct (hex_value a) as [h|] eqn:Ha, (hex_value b) as [l|] eqn:Hb; cbn; try done.
  destruct (DecodeString s) as [bs|]; [|done].
  apply hex_value_lt in Ha, Hb. destruct (Byte.of_N (16 * h + l)) as [x|] eqn:E; [done|].
  apply Byte.of_N_None_iff in E. lia.
Qed.
Lemma validHex_all s : validHex s = Nat.even (String.length s) && all_chars is_hex s.
Proof.
  assert (H : ∀ n s, (String.length s < n)%nat → validHex s = Nat.even (String.length s) && all_chars is_hex s).
  { intros n. induction n as [|n IH]; intros [|a [|b t]] Hn; cbn in Hn; try lia; try done.
    rewrite validHex_pair, IH by lia. cbn [String.length Nat.even all_chars].
    destruct (is_hex a), (is_hex b), (Nat.even (String.length t)), (all_chars is_hex t); done. }
  apply (H (S (String.length s))). lia.
Qed.

Lemma byte_cases (p : ascii → bool) : forallb p (map ascii_of_nat (seq 0 256)) = true → ∀ a, p a = true.
Proof.
  intros H a. rewrite forallb_forall in H. apply H, in_map_iff. exists (nat_of_ascii a).
  split; [apply ascii_nat_embedding|]. apply in_seq. pose proof (nat_ascii_bounded a). lia.
Qed.

Lemma is_hex_lower a : is_hex a = true → is_hex (lower_ascii a) = true ∧ lower_ascii (lower_ascii a) = lower_ascii a
  ∧ Ascii.eqb (lower_ascii a) "0" = Ascii.eqb a "0" ∧ Ascii.eqb a "-" = false.
Proof.
  intros Ha. pose (p := λ a, implb (is_hex a)
    (is_hex (lower_ascii a) && Ascii.eqb (lower_ascii (lower_ascii a)) (lower_ascii a)
     && Bool.eqb (Ascii.eqb (lower_ascii a) "0") (Ascii.eqb a "0") && negb (Ascii.eqb a "-"))).
  assert (H : p a = true) by (apply byte_cases; vm_compute; reflexivity).
  unfold p in H. rewrite Ha in H. cbn [implb] in H.
  rewrite !andb_true_iff, Ascii.eqb_eq, eqb_true_iff, negb_true_iff in H. tauto.
Qed.

(** A correlation as the server holds it: the identifiers are lower-case hexadecimal
    numbers of 16 and 8 bytes, and none is zero. *)
Definition lower_hex (s : string) : Prop := all_chars is_hex s = true ∧ ToLower s = s.
Definition well_formed (t : traceCorrelation) : Prop :=
  String.length (tr_TraceID t) = 32%nat ∧ lower_hex (tr_TraceID t) ∧ allZero (tr_TraceID t) = false ∧
  String.length (tr_SpanID t) = 16%nat ∧ lower_hex (tr_SpanID t) ∧ allZero (tr_SpanID t) = false.

Lemma ToLower_length s : String.length (ToLower s) = String.length s.
Proof. induction s as [|c s IH]; [done|]. cbn. by rewrite IH. Qed.
Lemma ToLower_hex s :
  all_chars is_hex s = true → lower_hex (ToLower s) ∧ allZero (ToLower s) = allZero s.
Proof.
  unfold lower_hex. rewrite !allZero_all. induction s as [|a s IH]; [done|].
  cbn [all_chars ToLower]. intros [Ha Hs]%andb_true_iff.
  destruct (is_hex_lower a Ha) as (H1 & H2 & H3 & _), (IH Hs) as [[H4 H5] H6].
  by rewrite H1, H2, H3, H4, H5, H6.
Qed.
Lemma hex_no_dash s : all_chars is_hex s = true → IndexByte s "-"%char = None.
Proof.
  induction s as [|a s IH]; [done|]. cbn [all_chars IndexByte]. intros [Ha Hs]%andb_true_iff.
  destruct (is_hex_lower a Ha) as (_ & _ & _ & ->). by rewrite IH.
Qed.
Lemma split_on_app c a b : IndexByte a c = None → split_on c (a +:+ String c b) = a :: split_on c b.
Proof.
  induction a as [|x a IH]; [intros _; rewrite string_app_nil_l; cbn [split_on]; by rewrite Ascii.eqb_refl|].
  rewrite string_app_cons. cbn [IndexByte split_on]. destruct (Ascii.eqb x c); [done|].
  destruct (IndexByte a c); [done|]. intros _. by rewrite IH.
Qed.
Lemma split_on_one c a : IndexByte a c = None → split_on c a = [a].
Proof.
  induction a as [|x a IH]; [done|]. cbn. destruct (Ascii.eqb x c); [done|].
  destruct (IndexByte a c); [done|]. intros _. by rewrite IH.
Qed.

(** Neither end of an announced correlation is white space. *)
Lemma TrimSpace_ends a b m :
  is_hex a = true → is_hex b = true → TrimSpace (String a (m +:+ String b "")) = String a (m +:+ String b "").
Proof.
  intros Ha Hb.
  assert (H : ∀ c s, is_hex c = true →
    list_find (λ e, String.prefix e (String c s) = true) space_encodings = None ∧
    list_find (λ e, String.prefix e (String c s) = true) (map rev_string space_encodings) = None).
  { intros c s Hc. pose (p := λ c, implb (is_hex c)
      (forallb (λ e, match e with String x _ => negb (Ascii.eqb x c) | _ => false end)
         (space_encodings ++ map rev_string space_encodings))).
    assert (Hp : p c = true) by (apply byte_cases; vm_compute; reflexivity).
    unfold p in Hp. rewrite Hc in Hp. cbn [implb] in Hp. rewrite forallb_forall in Hp.
    split; apply list_find_None, Forall_forall; intros e He Hpre;
      (specialize (Hp e); rewrite in_app_iff, <-!list_elem_of_In in Hp; specialize (Hp ltac:(tauto)));
      destruct e as [|x e]; try done; cbn in Hpre; destruct (ascii_dec x c) as [->|]; try done;
      by rewrite Ascii.eqb_refl in Hp. }
  assert (Hr : rev_string (String a (m +:+ String b "")) = String b (rev_string (String a m))).
  { rewrite <-string_app_cons, rev_string_app. reflexivity. }
  unfold TrimSpace. cbn [String.length trim_left]. rewrite (proj1 (H a _ Ha)), Hr.
  cbn [String.length trim_left]. rewrite (proj2 (H b _ Hb)), <-Hr. apply rev_string_involutive.
Qed.

Lemma parse_of_parts t flags sampled :
  well_formed t → all_chars is_hex flags = true → String.length flags = 2%nat →
  (n ← ParseUint flags 16 8; Some (Z.odd n)) = Some sampled →
  parseTraceparent ("00-" +:+ tr_TraceID t +:+ "-" +:+ tr_SpanID t +:+ "-" +:+ flags)
  = Some {| tr_TraceID := tr_TraceID t; tr_SpanID := tr_SpanID t; tr_Sampled := sampled |}.
Proof.
  intros (L1 & [H1 T1] & Z1 & L2 & [H2 T2] & Z2) Hf Lf Hs. unfold parseTraceparent.
  destruct flags as [|f0 [|f1 [|]]]; cbn in Lf; try lia.
  pose proof Hf as Hf'. cbn [all_chars] in Hf'. rewrite !andb_true_iff in Hf'. destruct Hf' as (_ & Hf1 & _).
  assert (Hx : "00-" +:+ tr_TraceID t +:+ "-" +:+ tr_SpanID t +:+ "-" +:+ String f0 (String f1 "")
    = String "0" (("0-" +:+ tr_TraceID t +:+ "-" +:+ tr_SpanID t +:+ "-" +:+ String f0 "") +:+ String f1 "")).
  { rewrite !string_app_assoc. reflexivity. }
  rewrite Hx, TrimSpace_ends, <-Hx by done. clear Hx.
  change ("00-" +:+ tr_TraceID t +:+ "-" +:+ tr_SpanID t +:+ "-" +:+ String f0 (String f1 ""))
    with ("00" +:+ String "-" (tr_TraceID t +:+ String "-" (tr_SpanID t +:+ String "-"
    (String f0 (String f1 ""))))).
  rewrite !split_on_app by (try apply hex_no_dash; done).
  rewrite split_on_one by (by apply hex_no_dash).
  assert (Hv1 : validHex (tr_TraceID t) = true) by (by rewrite validHex_all, L1, H1).
  assert (Hv2 : validHex (tr_SpanID t) = true) by (by rewrite validHex_all, L2, H2).
  assert (Hv3 : validHex (String f0 (String f1 "")) = true) by (by rewrite validHex_all, Hf).
  unfold slen. rewrite L1, L2, Hv1, Hv2, Hv3, Z1, Z2, T1, T2. cbn [String.length].
  cbn [orb negb]. destruct (ParseUint _ 16 8) as [n|]; [|discriminate Hs].
  by injection Hs as <-.
Qed.

Lemma traceparent_parses t : well_formed t → parseTraceparent (traceparent t) = Some t.
Proof.
  intros H. unfold traceparent.
  rewrite (parse_of_parts t _ (tr_Sampled t)); [by destruct t|done|..]; by destruct (tr_Sampled t).
Qed.

Lemma lower_parts s n :
  validHex s = true → String.length s = n → allZero s = false →
  String.length (ToLower s) = n ∧ lower_hex (ToLower s) ∧ allZero (ToLower s) = false.
Proof.
  rewrite validHex_all. intros [_ Hs]%andb_true_iff Hl Hz.
  destruct (ToLower_hex s Hs) as [H1 H2]. by rewrite ToLower_length, H2.
Qed.

Lemma parseTraceparent_well_formed v t : parseTraceparent v = Some t → well_formed t.
Proof.
  unfold parseTraceparent, slen.
  destruct (split_on _ _) as [|ver [|tid [|sid [|fl [|]]]]]; try done.
  destruct (_ || _) eqn:E; [done|]. destruct (ParseUint fl 16 8); [|done]. intros [= <-].
  rewrite !orb_false_iff, !negb_false_iff, !Z.eqb_eq in E.
  destruct E as ((((((((_ & L1) & L2) & _) & V1) & V2) & _) & Z1) & Z2).
  destruct (lower_parts tid 32 V1 ltac:(lia) Z1) as (A1 & A2 & A3).
  destruct (lower_parts sid 16 V2 ltac:(lia) Z2) as (B1 & B2 & B3).
  by repeat split; cbn; try apply A2; try apply B2.
Qed.

Lemma hex_digit_lower n : (n < 16)%N →
  is_hex (hex_digit n) = true ∧ lower_ascii (hex_digit n) = hex_digit n ∧
  Ascii.eqb (hex_digit n) "0" = (n =? 0)%N.
Proof.
  intros Hn.
  assert (H : forallb (λ k, is_hex (hex_digit k) && Ascii.eqb (lower_ascii (hex_digit k)) (hex_digit k)
     && Bool.eqb (Ascii.eqb (hex_digit k) "0") (k =? 0)%N) (map N.of_nat (seq 0 16)) = true)
    by (vm_compute; reflexivity).
  rewrite forallb_forall in H. specialize (H n).
  rewrite !andb_true_iff, Ascii.eqb_eq, eqb_true_iff in H. destruct H as [[H1 H2] H3]; [|done].
  apply in_map_iff. exists (N.to_nat n). split; [lia|]. apply in_seq. lia.
Qed.

Lemma lower_hex_cons n s : (n < 16)%N → lower_hex s → lower_hex (String (hex_digit n) s).
Proof.
  intros Hn [H1 H2]. destruct (hex_digit_lower n Hn) as (H3 & H4 & _). unfold lower_hex.
  cbn [all_chars ToLower]. by rewrite H1, H2, H3, H4.
Qed.

Lemma hex_digits_spec w n acc :
  0 ≤ n → String.length (hex_digits w n acc) = (w + String.length acc)%nat ∧
  (lower_hex acc → lower_hex (hex_digits w n acc)) ∧
  allZero (hex_digits w n acc) = (n mod 16 ^ Z.of_nat w =? 0) && allZero acc.
Proof.
  rewrite !allZero_all. revert n acc. induction w as [|w IH]; intros n acc Hn.
  { cbn. by rewrite Z.mod_1_r. }
  cbn [hex_digits]. pose proof (Z.mod_pos_bound n 16 ltac:(lia)) as Hb.
  destruct (IH (n / 16) (String (hex_digit (Z.to_N (n mod 16))) acc)) as (H1 & H2 & H3);
    [by apply Z.div_pos|].
  split; [rewrite H1; cbn; lia|].
  split; [intros Ha; apply H2, lower_hex_cons; [lia|done]|].
  rewrite H3. cbn [all_chars]. destruct (hex_digit_lower (Z.to_N (n mod 16))) as (_ & _ & ->); [lia|].
  rewrite andb_assoc. f_equal. rewrite Nat2Z.inj_succ, Z.pow_succ_r by lia.
  rewrite Z.rem_mul_r by lia.
  pose proof (Z.mod_pos_bound (n / 16) (16 ^ Z.of_nat w) ltac:(lia)) as Hc.
  destruct (Z.eqb_spec ((n / 16) mod 16 ^ Z.of_nat w) 0), (N.eqb_spec (Z.to_N (n mod 16)) 0),
    (Z.eqb_spec (n mod 16 + 16 * ((n / 16) mod 16 ^ Z.of_nat w)) 0); cbn; lia.
Qed.

Lemma ParseUint_range s base bits v : 0 ≤ base → ParseUint s base bits = Some v → 0 ≤ v < 2 ^ bits.
Proof.
  unfold ParseUint. intros Hb. destruct (bool_decide _); [done|].
  destruct (digits_value base s 0) as [x|] eqn:E; [|done]. destruct (Z.ltb_spec x (2 ^ bits)); [|done].
  intros [= <-]. split; [|done]. by eapply digits_value_nonneg in E.
Qed.

Lemma stake_length n s k c : IndexByte s c = Some k → n = k → String.length (stake n s) = n.
Proof.
  intros H <-. revert s H. induction n as [|n IH]; intros [|a s]; cbn; try done.
  destruct (Ascii.eqb a c); [done|]. destruct (IndexByte s c) eqn:E; [|done].
  cbn. intros [= ->]. by rewrite IH.
Qed.

Lemma parseCloudTrace_well_formed v t : parseCloudTrace v = Some t → well_formed t.
Proof.
  unfold parseCloudTrace. destruct (IndexByte (TrimSpace v) "/"%char) as [k|] eqn:Hi; [|done].
  destruct (decide (k = 32%nat)) as [->|Hk].
  2: { do 33 (destruct k as [|k]; [done|]). done. }
  destruct (_ || _) eqn:E; [done|]. rewrite orb_false_iff, negb_false_iff in E. destruct E as [V1 Z1].
  destruct (match IndexByte _ ";"%char with Some _ => _ | None => _ end) as [rem opts].
  destruct (ParseUint rem 10 64) as [span|] eqn:Hp; [|done]. apply ParseUint_range in Hp; [|done].
  destruct (Z.eqb_spec span 0) as [|Hs]; [done|]. intros [= <-].
  destruct (lower_parts _ 32 V1 (stake_length _ _ _ _ Hi eq_refl) Z1) as (A1 & A2 & A3).
  destruct (hex_digits_spec 16 span "" ltac:(lia)) as (B1 & B2 & B3).
  assert (B4 : allZero (hex_digits 16 span "") = false).
  { rewrite B3, Z.mod_small by lia. destruct (Z.eqb_spec span 0); [lia|done]. }
  exact (conj A1 (conj A2 (conj A3 (conj B1 (conj (B2 (conj eq_refl eq_refl)) B4))))).
Qed.

Lemma EncodeToString_lower bs :
  lower_hex (EncodeToString bs) ∧
  allZero (EncodeToString bs) = forallb (Byte.eqb x00) bs.
Proof.
  rewrite allZero_all. induction bs as [|b bs [IH1 IH2]]; [done|].
  cbn [EncodeToString forallb all_chars]. pose proof (Byte.to_N_bounded b) as Hb.
  assert (Hd : (Byte.to_N b / 16 < 16)%N) by (apply N.Div0.div_lt_upper_bound; lia).
  assert (Hm : (Byte.to_N b mod 16 < 16)%N) by (by apply N.mod_lt).
  split; [by repeat apply lower_hex_cons|].
  destruct (hex_digit_lower _ Hd) as (_ & _ & ->), (hex_digit_lower _ Hm) as (_ & _ & ->).
  rewrite IH2, andb_assoc. f_equal. by destruct b.
Qed.

(** How a correlation comes to be adopted: from one of the two headers, or from
    random identifiers, which the code takes to be nonzero. *)
Inductive adopted : traceCorrelation → Prop :=
| adopted_traceparent v t : parseTraceparent v = Some t → adopted t
| adopted_cloud v t : parseCloudTrace v = Some t → adopted t
| adopted_new traceID spanID randoms t :
    randoms 0%nat = Some traceID → length traceID = 16%nat → ¬ Forall (eq x00) traceID →
    randoms 1%nat = Some spanID → length spanID = 8%nat → ¬ Forall (eq x00) spanID →
    newTraceCorrelation randoms = Some t → adopted t.

Lemma adopted_well_formed t : adopted t → well_formed t.
Proof.
  intros [v t' H|v t' H|a b randoms t' H1 L1 Z1 H2 L2 Z2 H];
    [by eapply parseTraceparent_well_formed|by eapply parseCloudTrace_well_formed|].
  unfold newTraceCorrelation in H. rewrite H1, H2 in H. injection H as <-.
  assert (Hz : ∀ bs, ¬ Forall (eq x00) bs → allZero (EncodeToString bs) = false).
  { intros bs Hn. rewrite (proj2 (EncodeToString_lower bs)). apply not_true_iff_false.
    rewrite forallb_forall. intros Hall. apply Hn, Forall_forall. intros x Hx.
    by apply Byte.byte_dec_bl, Hall, list_elem_of_In. }
  repeat split; cbn; rewrite ?EncodeToString_length, ?L1, ?L2; try done;
    try apply EncodeToString_lower; by apply Hz.
Qed.

(** The correlation the server announces in the [Traceparent] response header is
    one its own parser accepts and reads back unchanged, whether it was adopted from
    the [Traceparent] header, from the header of Google Cloud (whose span is a
    decimal number and whose identifiers may be upper case) or made from random
    bytes. *)
Theorem announced_trace_parses t : adopted t → parseTraceparent (traceparent t) = Some t.
Proof. intros H. by apply traceparent_parses, adopted_well_formed. Qed.

Lemma announced_trace_parses_witness :
  ∃ t, parseCloudTrace "105445AA7843bc8bf206b12000100000/255;o=1" = Some t ∧
    traceparent t = "00-105445aa7843bc8bf206b12000100000-00000000000000ff-01" ∧
    parseTraceparent (traceparent t) = Some t.
Proof.
  eexists. split; [vm_compute; reflexivity|]. split; [vm_compute; reflexivity|].
  apply announced_trace_parses.
  apply (adopted_cloud "105445AA7843bc8bf206b12000100000/255;o=1"). vm_compute. reflexivity.
Defined.
