(* ===== verification/Http.v ===== *)
(** * Requests, tracing, authentication and authorization
      ([httpapi/api.go], [authn/authn.go])

    A handler is a function from what the middlewares put into the context and the
    request to a step of the world that yields the response.  The middlewares
    [requestHeaders], [cors] and [authenticate] and the wrappers [authorize...] are
    functions on handlers, as in the code.  The verification of an OpenID token is a
    parameter.  [accessLog] only writes a log line and is not modelled. *)

From S2P Require Import Prelude Domain Text Encoding Json Schema Blob Store Redaction Erasure Identity Steps Tracing.

(** ** Requests and responses *)

(** Headers are keyed by the names the code uses, path values by the names of the
    pattern's wildcards. *)
Record http_request := {
  hr_method : string; hr_path : string; hr_headers : gmap string string;
  hr_values : gmap string string; hr_query : gmap string string;
  hr_body : reader; hr_length : Z
}.
Definition Header (r : http_request) (name : string) : string := default "" (hr_headers r !! name).
Definition PathValue (r : http_request) (name : string) : string := default "" (hr_values r !! name).
Definition Query (r : http_request) (name : string) : string := default "" (hr_query r !! name).
Definition set_header (name value : string) (r : http_request) : http_request :=
  {| hr_method := hr_method r; hr_path := hr_path r; hr_headers := <[name := value]> (hr_headers r);
     hr_values := hr_values r; hr_query := hr_query r; hr_body := hr_body r; hr_length := hr_length r |}.

Record response := { rs_status : Z; rs_headers : gmap string string; rs_body : string }.

(** A Go map marshals with sorted keys. *)
Definition field_le (x y : string * json) : Prop := String.le x.1 y.1.
#[export] Instance field_le_dec : RelDecision field_le.
Proof. intros x y. unfold field_le. apply _. Defined.
Definition map_json (l : list (string * json)) : json := JObject (merge_sort field_le l).
Definition json_time (t : time) : json := JString (RFC3339Nano t).
Definition json_int (n : Z) : json := JNumber (Sprint n).

Definition writeJSON (status : Z) (value : json) : response :=
  {| rs_status := status; rs_headers := ∅; rs_body := Marshal value +:+ newline |}.
Definition writeError (status : Z) (code message : string) : response :=
  writeJSON status (map_json [("error", map_json [("code", JString code); ("message", JString message)])]).
(** [w.WriteHeader] without a body. *)
Definition no_content : response := {| rs_status := 204; rs_headers := ∅; rs_body := "" |}.

(** ** Trace correlation *)

Definition requestTrace (r : http_request) (randoms : nat → random) : option traceCorrelation :=
  match parseTraceparent (Header r "Traceparent") with
  | Some trace => Some trace
  | None =>
    match parseCloudTrace (Header r "X-Cloud-Trace-Context") with
    | Some trace => Some trace
    | None => newTraceCorrelation randoms
    end
  end.

Definition request_id_char (c : ascii) : bool :=
  let n := N_of_ascii c in
  ((97 <=? n) && (n <=? 122) || (65 <=? n) && (n <=? 90) || (48 <=? n) && (n <=? 57))%N
  || bool_decide (c ∈ ["."; "_"; ":"; "-"]%char).
Definition validRequestID (value : string) : bool :=
  (1 <=? slen value) && (slen value <=? 128) && all_chars request_id_char value.

(** ** Identities ([authn]) *)

Record OIDCIdentity := {
  id_Issuer : string; id_Subject : string; id_Email : string; id_Name : string;
  id_EmailVerified : bool
}.
Definition ModeLocal : string := "local".

Definition AuditActor (identity : OIDCIdentity) : string :=
  if seqb (id_Issuer identity) ModeLocal then id_Subject identity
  else id_Issuer identity +:+ "#" +:+ id_Subject identity.

(** [HeaderAuthenticator.Authenticate] *)
Definition header_authenticate (r : http_request) : option OIDCIdentity :=
  let actor := TrimSpace (Header r "X-Actor-ID") in
  if is_empty actor then None
  else Some {| id_Issuer := ModeLocal; id_Subject := actor; id_Email := ""; id_Name := "";
               id_EmailVerified := false |}.

Definition bearerToken (header : string) : option string :=
  match Fields header with
  | [scheme; token] =>
    if negb (EqualFold scheme "Bearer") || is_empty (TrimSpace token) then None else Some token
  | _ => None
  end.

(** [OIDCAuthenticator.Authenticate]: [verify] checks a token and gives its issuer,
    subject and claims; [userinfo] asks the provider for subject, email, its
    verification and the name. *)
Definition oidc_authenticate (verify : string → option OIDCIdentity)
    (userinfo : string → option OIDCIdentity) (r : http_request) : option OIDCIdentity :=
  rawToken ← bearerToken (Header r "Authorization");
  token ← verify rawToken;
  if is_empty (TrimSpace (id_Subject token)) then None
  else if seqb (hr_path r) "/v1/invitations/accept"
          && (negb (id_EmailVerified token) || is_empty (TrimSpace (id_Email token))) then
    info ← userinfo rawToken;
    if negb (seqb (id_Subject info) (id_Subject token)) then None
    else Some {| id_Issuer := id_Issuer token; id_Subject := id_Subject token;
                 id_Email := id_Email info;
                 id_Name := if is_empty (id_Name token) then id_Name info else id_Name token;
                 id_EmailVerified := id_EmailVerified info |}
  else Some token.

(** ** Handlers *)

Record requestPrincipal := {
  pr_Identity : OIDCIdentity; pr_Access : IdentityAccess; pr_Local : bool
}.
Record context := { cx_principal : option requestPrincipal; cx_trace : option traceCorrelation }.

Definition handler (B : Type) : Type := context → http_request → W B response.
Definition wildcard_access (subject : string) : IdentityAccess :=
  {| ia_AccountID := subject; ia_DisplayName := ""; ia_Email := ""; ia_ContributorID := None;
     ia_Memberships := [{| om_OrganizationID := "*"; om_Role := "admin" |};
                        {| om_OrganizationID := "*"; om_Role := "reviewer" |};
                        {| om_OrganizationID := "*"; om_Role := "contributor" |}] |}.

Definition unauthenticated : response :=
  writeError 401 "unauthenticated" "valid authentication is required".
Definition forbidden (message : string) : response := writeError 403 "forbidden" message.

(** The error a store call is answered with. *)
Definition respondStoreError (store_text : error → string) (e : error) : response :=
  match e with
  | ErrNotFound => writeError 404 "not_found" "resource was not found"
  | ErrInvalidTransition _ | ErrConsentMissing => writeError 409 "invalid_transition" (store_text e)
  | _ => writeError 409 "persistence_error" "request conflicts with current state"
  end.

Record requestMetadata := { md_actor : string; md_requestID : string }.

(** The fields of a decoded input, by their JSON name. *)
Record inputs := {
  in_texts : gmap string string; in_numbers : gmap string Z; in_values : gmap string json
}.
Definition no_inputs : inputs := {| in_texts := ∅; in_numbers := ∅; in_values := ∅ |}.
Definition text (i : inputs) (name : string) : string := default "" (in_texts i !! name).
Definition number (i : inputs) (name : string) : Z := default 0 (in_numbers i !! name).
Definition raw_value (i : inputs) (name : string) : option json := in_values i !! name.

Definition text_field (name : string) : string * decoder inputs :=
  (name, on_field (λ i, text i name)
           (λ v i, {| in_texts := <[name := v]> (in_texts i); in_numbers := in_numbers i;
                      in_values := in_values i |}) decode_string).
Definition int_field (name : string) : string * decoder inputs :=
  (name, on_field (λ i, number i name)
           (λ v i, {| in_texts := in_texts i; in_numbers := <[name := v]> (in_numbers i);
                      in_values := in_values i |}) decode_int64).
(** A [json.RawMessage] field. *)
Definition raw_field (name : string) : string * decoder inputs :=
  (name, λ v i, ({| in_texts := in_texts i; in_numbers := in_numbers i;
                    in_values := <[name := v]> (in_values i) |}, false)).

Definition body_limit : Z := Z.shiftl 1 20.
Definition composite (v : json) : bool := match v with JArray _ | JObject _ => true | _ => false end.

(** What the decoder reads of a body: at most one MiB, then an error.  A value that ends
    with the last byte read is taken at the end of the body, or when its end shows. *)
Definition read_value (r : reader) : option json :=
  let complete := (slen (rd_data r) <=? body_limit) && bool_decide (rd_err r = None) in
  let seen := stake (Z.to_nat body_limit) (rd_data r) in
  match Decode seen with
  | Some (v, rest) => if complete || composite v || negb (is_empty rest) then Some v else None
  | None => None
  end.

(** [strings.TrimSpace] on the value of a map of Go strings, and so on. *)
Definition blank_text (s : string) : bool := is_empty (TrimSpace s).

Section middleware.
Context {B : Type} (env : environment).
Variables (store_text : error → string) (decode_text : reader → string).

Implicit Types (next : handler B) (roles : list string).

(** *** Headers *)

Definition with_headers (headers : gmap string string) (r : response) : response :=
  {| rs_status := rs_status r; rs_headers := rs_headers r ∪ headers; rs_body := rs_body r |}.

Definition requestHeaders next : handler B := λ cx r,
  let requestID := TrimSpace (Header r "X-Request-ID") in
  let* randoms := read_random env in
  match (if is_empty requestID
         then match New "req" (randoms 0%nat) with
              | Ok generated => Ok (generated, set_header "X-Request-ID" generated r)
              | Err _ => Err (writeError 500 "request_id_failed" "request could not be initialized")
              end
         else if validRequestID requestID then Ok (requestID, r)
         else Err (writeError 400 "invalid_request_id" "X-Request-ID contains unsupported characters")) with
  | Err answer => wret answer
  | Ok (requestID, r) =>
    let base : gmap string string :=
      {["Content-Type" := "application/json"; "X-Content-Type-Options" := "nosniff";
        "X-Request-ID" := requestID]} in
    let* traces := read_random env in
    match requestTrace r traces with
    | None =>
      wret (with_headers base
        (writeError 500 "trace_id_failed" "request tracing could not be initialized"))
    | Some trace =>
      let* answer := next {| cx_principal := cx_principal cx; cx_trace := Some trace |} r in
      wret (with_headers (<["Traceparent" := traceparent trace]> base) answer)
    end
  end.

Definition defaultAllowedOrigins : list string :=
  ["http://localhost:1420"; "http://127.0.0.1:1420"; "tauri://localhost"; "https://tauri.localhost"].

Definition cors (allowedOrigins : list string) next : handler B := λ cx r,
  let origin := Header r "Origin" in
  let allowed := oneof origin allowedOrigins in
  let headers : gmap string string :=
    if allowed then
      {["Access-Control-Allow-Origin" := origin; "Vary" := "Origin";
        "Access-Control-Allow-Methods" := "GET, HEAD, POST, PUT, DELETE, OPTIONS";
        "Access-Control-Allow-Headers" :=
          "Authorization, Content-Type, X-Actor-ID, X-Request-ID, X-Artifact-SHA256"]}
    else ∅ in
  if seqb (hr_method r) "OPTIONS" then
    wret (with_headers headers
      (if allowed then no_content
       else writeError 403 "origin_not_allowed" "collector origin is not allowed"))
  else (let* answer := next cx r in wret (with_headers headers answer)).

(** *** Authentication *)

Definition with_principal (p : requestPrincipal) (cx : context) : context :=
  {| cx_principal := Some p; cx_trace := cx_trace cx |}.

Definition authenticate (authenticator : http_request → option OIDCIdentity) next : handler B := λ cx r,
  if negb (HasPrefix (hr_path r) "/v1/") then next cx r
  else
    match authenticator r with
    | None => wret unauthenticated
    | Some identity =>
      if seqb (id_Issuer identity) ModeLocal then
        next (with_principal {| pr_Identity := identity; pr_Access := wildcard_access (id_Subject identity);
                                pr_Local := true |} cx) r
      else
        let* now := clock env in
        let* access := store_call env (λ _, ResolveOIDCIdentity (id_Issuer identity) (id_Subject identity) now) in
        match access with
        | Ok access =>
          next (with_principal {| pr_Identity := identity; pr_Access := access; pr_Local := false |} cx) r
        | Err ErrNotFound =>
          if negb (seqb (hr_path r) "/v1/invitations/accept")
          then wret (writeError 403 "identity_not_provisioned"
                       "this account has not been invited to DataTrains")
          else next (with_principal
                 {| pr_Identity := identity; pr_Local := false;
                    pr_Access := {| ia_AccountID := ""; ia_DisplayName := ""; ia_Email := "";
                                    ia_ContributorID := None; ia_Memberships := [] |} |} cx) r
        | Err _ =>
          wret (writeError 503 "identity_lookup_failed" "account access could not be verified")
        end
    end.

(** *** Authorization *)

Definition authorize next roles : handler B := λ cx r,
  match cx_principal cx with
  | None => wret unauthenticated
  | Some current =>
    if existsb (HasRole (pr_Access current)) roles then next cx r
    else wret (forbidden "your account does not have permission for this action")
  end.

(** The principal of an authorized request. *)
Definition current (cx : context) : requestPrincipal :=
  match cx_principal cx with
  | Some p => p
  | None => {| pr_Identity := {| id_Issuer := ""; id_Subject := ""; id_Email := ""; id_Name := "";
                                 id_EmailVerified := false |};
               pr_Access := {| ia_AccountID := ""; ia_DisplayName := ""; ia_Email := "";
                               ia_ContributorID := None; ia_Memberships := [] |};
               pr_Local := false |}
  end.

(** The roles that open a resource of a session's owner. *)
Definition role_opens (who : IdentityAccess) (access : SessionAccess) (role : string) : bool :=
  if seqb role "contributor"
  then bool_decide (ia_ContributorID who = Some (sa_ContributorID access))
       && HasOrganizationRole who (sa_OrganizationID access) ["contributor"]
  else HasOrganizationRole who (sa_OrganizationID access) [role].

Definition authorize_access (lookup : db → http_request → res SessionAccess) (message : string)
    next roles : handler B :=
  authorize (λ cx r,
    if pr_Local (current cx) then next cx r
    else
      try access := store_read env (λ d, lookup d r) else e => wret (respondStoreError store_text e) in
      if existsb (role_opens (pr_Access (current cx)) access) roles then next cx r
      else wret (forbidden message)) roles.

Definition authorizeSession := authorize_access
  (λ d r, GetSessionAccess d (PathValue r "session_id"))
  "this session belongs to another account or organization".
Definition authorizeJob := authorize_access
  (λ d r, GetProcessingJobAccess d (PathValue r "job_id"))
  "this processing job belongs to another account or organization".

Definition authorize_organization (lookup : db → http_request → res string) (message : string)
    next roles : handler B :=
  authorize (λ cx r,
    if pr_Local (current cx) then next cx r
    else
      try organizationID := store_read env (λ d, lookup d r)
        else e => wret (respondStoreError store_text e) in
      if HasOrganizationRole (pr_Access (current cx)) organizationID roles then next cx r
      else wret (forbidden message)) roles.

Definition authorizeProject := authorize_organization
  (λ d r, GetProjectOrganization d (PathValue r "project_id"))
  "this project belongs to another organization".
Definition authorizeRelease := authorize_organization
  (λ d r, GetReleaseOrganization d (PathValue r "release_id"))
  "this release belongs to another organization".
Definition authorizeRedactionJob := authorize_organization
  (λ d r, GetRedactionJobOrganization d (PathValue r "job_id"))
  "this redaction job belongs to another organization".
Definition authorizeDeletion := authorize_organization
  (λ d r, GetDeletionRequestOrganization d (PathValue r "deletion_id"))
  "this deletion request belongs to another organization".

Definition authorizeContributor next roles : handler B :=
  authorize (λ cx r,
    if pr_Local (current cx)
       || bool_decide (ia_ContributorID (pr_Access (current cx)) = Some (PathValue r "contributor_id"))
    then next cx r
    else wret (forbidden "contributors may open only their own assignments")) roles.

(** *** What handlers begin with *)

Definition metadata (cx : context) (r : http_request) : W B (result string requestMetadata) :=
  match cx_principal cx with
  | None => wret (Err "authenticated identity is required")
  | Some p =>
    if is_empty (ia_AccountID (pr_Access p)) then wret (Err "authenticated identity is required")
    else
      let requestID := TrimSpace (Header r "X-Request-ID") in
      if is_empty requestID then
        let* randoms := read_random env in
        match New "req" (randoms 0%nat) with
        | Ok generated => wret (Ok {| md_actor := ia_AccountID (pr_Access p); md_requestID := generated |})
        | Err e => wret (Err (store_text e))
        end
      else wret (Ok {| md_actor := ia_AccountID (pr_Access p); md_requestID := requestID |})
  end.

(** [requestMetaOrError] and the handlers that answer 401 instead of 400. *)
Definition requestMetaOrError (cx : context) (r : http_request)
    (k : requestMetadata → W B response) : W B response :=
  try meta := metadata cx r else e => wret (writeError 400 "invalid_request" e) in k meta.
Definition metadata_or_401 (cx : context) (r : http_request)
    (k : requestMetadata → W B response) : W B response :=
  try meta := metadata cx r else e => wret (writeError 401 "unauthenticated" e) in k meta.

Definition decodeRequest {A} (fields : list (string * decoder A)) (zero : A) (r : http_request)
    (k : A → W B response) : W B response :=
  match (v ← read_value (hr_body r);
         match decode_struct true fields v zero with (a, false) => Some a | (_, true) => None end) with
  | Some a => k a
  | None => wret (writeError 400 "invalid_json" (decode_text (hr_body r)))
  end.

(** A store call whose error is answered by [respondStoreError]. *)
Definition store_or_error {A} (m : W B (res A)) (k : A → W B response) : W B response :=
  try a := m else e => wret (respondStoreError store_text e) in k a.
End middleware.
