(* ===== verification/AccessLog.v ===== *)
(** * The access log ([responseStatusWriter] and [accessLog] of [httpapi/api.go])

    The writer that notes the status of a response as it passes, and the record of a
    request.  The handlers of this development return their response whole; here
    are the calls by which one is written. *)

From S2P Require Import Prelude Domain Schema Encoding Text Blob Tracing Http.

(** ** The writer *)

(** What the wrapped writer was given: its status lines in order, and the body. *)
Record status_writer := { sw_status : Z; sw_headers : list Z; sw_body : string }.
Definition new_writer : status_writer := {| sw_status := 0; sw_headers := []; sw_body := "" |}.

Definition WriteHeader (status : Z) (w : status_writer) : status_writer :=
  if negb (sw_status w =? 0) then w
  else {| sw_status := status; sw_headers := sw_headers w ++ [status]; sw_body := sw_body w |}.
Definition WriteBody (body : string) (w : status_writer) : status_writer :=
  let w := if sw_status w =? 0 then WriteHeader 200 w else w in
  {| sw_status := sw_status w; sw_headers := sw_headers w; sw_body := sw_body w +:+ body |}.

(** The calls a handler may make. *)
Inductive write_call := CallHeader (status : Z) | CallBody (body : string).
Definition write_call_run (w : status_writer) (c : write_call) : status_writer :=
  match c with CallHeader status => WriteHeader status w | CallBody body => WriteBody body w end.

(** ** The record *)

Inductive log_value := LogText (s : string) | LogInt (n : Z) | LogBool (b : bool).

Definition logged_status (w : status_writer) : Z := if sw_status w =? 0 then 200 else sw_status w.

(** [traceProject] is trimmed when it is set; [duration] is in milliseconds. *)
Definition accessLog (traceProject : string) (trace : option traceCorrelation) (duration : Z)
    (r : http_request) (w : status_writer) : list (string * log_value) :=
  [("request_id", LogText (Header r "X-Request-ID")); ("method", LogText (hr_method r));
   ("path", LogText (hr_path r)); ("status", LogInt (logged_status w)); ("duration_ms", LogInt duration)]
  ++ match trace with
     | Some t =>
       [("trace_id", LogText (tr_TraceID t)); ("span_id", LogText (tr_SpanID t));
        ("trace_sampled", LogBool (tr_Sampled t))]
       ++ (if negb (is_empty (TrimSpace traceProject)) then
             [("logging.googleapis.com/trace",
               LogText ("projects/" +:+ TrimSpace traceProject +:+ "/traces/" +:+ tr_TraceID t))]
           else [])
     | None => []
     end.

(** ** What is logged is what was sent *)

(** The writer after calls whose statuses are real ones. *)
Lemma calls_written calls w :
  (∀ status, CallHeader status ∈ calls → status ≠ 0) → sw_status w ≠ 0 →
  let w' := foldl write_call_run w calls in
  sw_status w' = sw_status w ∧ sw_headers w' = sw_headers w.
Proof.
  revert w. induction calls as [|c calls IH]; intros w Hc Hw; [done|]. cbn.
  assert (H : sw_status (write_call_run w c) = sw_status w ∧ sw_headers (write_call_run w c) = sw_headers w).
  { destruct c; cbn; unfold WriteHeader, WriteBody; by rewrite (proj2 (Z.eqb_neq _ _) Hw). }
  destruct H as [<- <-] in Hw |- *. apply IH; [|congruence]. intros s Hs. apply Hc. by right.
Qed.

(** Whatever calls a handler makes, the wrapped writer gets at most one status line;
    the logged status is that line's, and 200, which the server then sends, when the
    handler wrote nothing. *)
Theorem logged_status_sent calls :
  (∀ status, CallHeader status ∈ calls → status ≠ 0) →
  let w := foldl write_call_run new_writer calls in
  (calls = [] ∧ sw_headers w = [] ∧ logged_status w = 200) ∨
  (calls ≠ [] ∧ sw_headers w = [logged_status w]).
Proof.
  intros Hc. destruct calls as [|c calls]; [by left|]. right. split; [done|]. cbn [foldl].
  set (w := write_call_run new_writer c).
  assert (Hw : sw_status w ≠ 0 ∧ sw_headers w = [sw_status w]).
  { subst w. destruct c as [status|body]; cbn; [|done]. split; [|done]. apply Hc. by left. }
  destruct Hw as [Hn Hh].
  destruct (calls_written calls w) as [Hs1 Hs2]; [intros s Hs; apply Hc; by right|done|].
  rewrite Hs2, Hh. unfold logged_status. rewrite Hs1. by rewrite (proj2 (Z.eqb_neq _ _) Hn).
Qed.

(** The record of a request has nothing of its query, its body or its other headers. *)
Theorem access_log_private traceProject trace duration (r r' : http_request) w :
  hr_method r' = hr_method r → hr_path r' = hr_path r →
  Header r' "X-Request-ID" = Header r "X-Request-ID" →
  accessLog traceProject trace duration r' w = accessLog traceProject trace duration r w.
Proof. unfold accessLog. by intros -> -> ->. Qed.
