(* ===== verification/Catalog.v ===== *)
(** * Handlers of the catalogue, sessions and administration
      ([httpapi/api.go], [httpapi/admin.go], [httpapi/invitations.go])

    Each handler decodes its input, takes the actor and the request identifier,
    checks the fields, checks that the principal acts in its own organization, and
    calls one operation of the store. *)

From S2P Require Import Prelude Domain Text Encoding Json Schema Blob Store Redaction Erasure Identity Campaign Steps Http.

(** ** Answers *)

Definition sessionResponse (session : Session) : json :=
  map_json [("id", JString (s_ID session)); ("assignment_id", JString (s_AssignmentID session));
            ("state", JString (state_string (s_State session)));
            ("updated_at", json_time (s_UpdatedAt session))].

Definition optional_string (o : option string) : json :=
  match o with Some s => JString s | None => JNull end.

Definition membership_json (m : OrganizationMembership) : json :=
  JObject [("organization_id", JString (om_OrganizationID m)); ("role", JString (om_Role m))].

(** The text of a raw value, with the default of the handler for an absent one. *)
Definition raw_text (fallback : string) (v : option json) : string :=
  match v with Some j => Marshal j | None => fallback end.
(** [json.Unmarshal] into a slice takes an array or null. *)
Definition array_or_null (v : option json) : bool :=
  match v with None | Some JNull | Some (JArray _) => true | Some _ => false end.

Section catalog.
Context {B : Type} (env : environment).
Variables (store_text : error → string) (decode_text : reader → string)
  (* [mail.ParseAddress], which gives the address *)
  (parse_address : string → option string).

Notation store m := (store_or_error store_text (store_call env m)).
Notation read q := (store_or_error store_text (store_read env q)).
Notation with_meta cx r k := (requestMetaOrError env store_text cx r k).
Notation decode fields r k := (decodeRequest decode_text fields no_inputs r k).
Notation bad message := (wret (writeError 400 "invalid_request" message)).

Definition own_organization (cx : context) (organizationID : string) : bool :=
  pr_Local (current cx) || HasOrganizationRole (pr_Access (current cx)) organizationID ["admin"].

Definition live : handler B := λ _ _,
  wret (writeJSON 200 (map_json [("service", JString "trajectory-api"); ("status", JString "ok")])).

(** [health]: the outcome of the ping is given. *)
Definition health (ping : bool) : handler B := λ _ _,
  wret (if ping
        then writeJSON 200 (map_json [("service", JString "trajectory-api"); ("status", JString "ok");
                                      ("database", JString "ok")])
        else writeError 503 "database_unavailable" "database is unavailable").

Definition me : handler B := λ cx _,
  wret (match cx_principal cx with
        | None => unauthenticated
        | Some p =>
          let access := pr_Access p in
          writeJSON 200 (map_json
            [("account_id", JString (ia_AccountID access));
             ("display_name", JString (ia_DisplayName access)); ("email", JString (ia_Email access));
             ("contributor_id", optional_string (ia_ContributorID access));
             ("memberships", JArray (map membership_json (ia_Memberships access)))])
        end).

Definition createOrganization : handler B := λ cx r,
  if negb (pr_Local (current cx))
  then wret (writeError 403 "bootstrap_only"
         "new organizations are created through the controlled administrator bootstrap process")
  else
    decode [text_field "name"] r (λ input,
    with_meta cx r (λ meta,
    if blank_text (text input "name") then bad "name is required"
    else
      let* now := clock env in
      store (λ n, CreateOrganization (text input "name") (md_actor meta) (md_requestID meta) now
                    (env_random env n)) (λ organization,
      wret (writeJSON 201 (map_json [("id", JString (o_ID organization));
                                     ("name", JString (o_Name organization))]))))).

Definition createProject : handler B := λ cx r,
  decode [text_field "organization_id"; text_field "name"; int_field "target_trajectories"] r (λ input,
  with_meta cx r (λ meta,
  let organizationID := text input "organization_id" in
  if is_empty organizationID || blank_text (text input "name") || (number input "target_trajectories" <? 1)
  then bad "organization_id, name, and positive target_trajectories are required"
  else if negb (own_organization cx organizationID)
  then wret (forbidden "administrators may create projects only in their own organization")
  else
    let* now := clock env in
    store (λ n, CreateProject organizationID (text input "name") (number input "target_trajectories")
                  (md_actor meta) (md_requestID meta) now (env_random env n)) (λ project,
    wret (writeJSON 201 (map_json
      [("id", JString (p_ID project)); ("organization_id", JString (p_OrganizationID project));
       ("name", JString (p_Name project));
       ("target_trajectories", json_int (p_TargetTrajectories project))]))))).

(** The check that what a request names belongs to the administrator. *)
Definition owned_by_admin (cx : context) (lookup : db → res string) (message : string)
    (k : W B response) : W B response :=
  if pr_Local (current cx) then k
  else read lookup (λ organizationID,
    if HasOrganizationRole (pr_Access (current cx)) organizationID ["admin"] then k
    else wret (forbidden message)).

Definition difficulties : list string := ["beginner"; "intermediate"; "advanced"].

Definition createTaskTemplate : handler B := λ cx r,
  decode [text_field "project_id"; text_field "name"; text_field "goal"; text_field "category";
          text_field "difficulty"; raw_field "specification"] r (λ input,
  with_meta cx r (λ meta,
  let field := text input in
  if is_empty (field "project_id") || is_empty (field "name") || is_empty (field "goal")
     || is_empty (field "category") || negb (oneof (field "difficulty") difficulties)
     || bool_decide (raw_value input "specification" = None)
  then bad "project_id, name, goal, category, supported difficulty, and specification are required"
  else
    owned_by_admin cx (λ d, GetProjectOrganization d (field "project_id"))
      "this project belongs to another organization"
      (let* now := clock env in
       store (λ n, CreateTaskTemplate
                {| tt_ID := ""; tt_ProjectID := field "project_id"; tt_Name := field "name";
                   tt_Goal := field "goal"; tt_Category := field "category";
                   tt_Difficulty := field "difficulty" |}
                (raw_text "" (raw_value input "specification"))
                (md_actor meta) (md_requestID meta) now (env_random env n)) (λ template,
       wret (writeJSON 201 (map_json
         [("id", JString (tt_ID template)); ("project_id", JString (tt_ProjectID template));
          ("name", JString (tt_Name template)); ("goal", JString (tt_Goal template));
          ("category", JString (tt_Category template));
          ("difficulty", JString (tt_Difficulty template))])))))).

Definition createTask : handler B := λ cx r,
  decode [text_field "template_id"; text_field "goal"; raw_field "input_assets";
          raw_field "expected_outputs"] r (λ input,
  with_meta cx r (λ meta,
  if is_empty (text input "template_id") || is_empty (text input "goal")
  then bad "template_id and goal are required"
  else
    owned_by_admin cx (λ d, GetTaskTemplateOrganization d (text input "template_id"))
      "this task template belongs to another organization"
      (let* now := clock env in
       store (λ n, CreateTask (text input "template_id") (text input "goal")
                (raw_text "[]" (raw_value input "input_assets"))
                (raw_text "[]" (raw_value input "expected_outputs"))
                (md_actor meta) (md_requestID meta) now (env_random env n)) (λ task,
       wret (writeJSON 201 (map_json
         [("id", JString (t_ID task)); ("template_id", JString (t_TemplateID task));
          ("goal", JString (t_Goal task))])))))).

Definition createContributor : handler B := λ cx r,
  if negb (pr_Local (current cx))
  then wret (writeError 403 "invitation_required"
         "production contributors must be created through a verified invitation")
  else
    decode [text_field "display_name"] r (λ input,
    with_meta cx r (λ meta,
    if blank_text (text input "display_name") then bad "display_name is required"
    else
      let* now := clock env in
      store (λ n, CreateContributor (text input "display_name") (md_actor meta) (md_requestID meta) now
                    (env_random env n)) (λ contributor,
      wret (writeJSON 201 (map_json [("id", JString (c_ID contributor));
                                     ("display_name", JString (c_DisplayName contributor))]))))).

Definition createAssignment : handler B := λ cx r,
  decode [text_field "task_id"; text_field "contributor_id"] r (λ input,
  with_meta cx r (λ meta,
  let taskID := text input "task_id" in
  let contributorID := text input "contributor_id" in
  let assign : W B response :=
    let* now := clock env in
    store (λ n, AssignTask taskID contributorID (md_actor meta) (md_requestID meta) now
                  (env_randoms env n 0%nat) (env_randoms env n 1%nat)) (λ result,
    wret (writeJSON 201 (map_json
      [("assignment_id", JString (a_ID (as_Assignment result)));
       ("session_id", JString (s_ID (as_Session result)));
       ("session_state", JString (state_string (s_State (as_Session result))))]))) in
  if is_empty taskID || is_empty contributorID then bad "task_id and contributor_id are required"
  else if pr_Local (current cx) then assign
  else
    read (λ d, GetTaskOrganization d taskID) (λ organizationID,
    if negb (HasOrganizationRole (pr_Access (current cx)) organizationID ["admin"])
    then wret (forbidden "this task belongs to another organization")
    else
      let* allowed := store_read env (λ d, ContributorHasOrganization d contributorID organizationID) in
      if negb allowed
      then wret (writeError 403 "contributor_membership_required"
             "the contributor is not active in this organization")
      else assign))).

Definition currentConsentDocument : handler B := λ _ _,
  let* now := clock env in
  read (λ d, CurrentConsentDocument d now) (λ document,
  wret (writeJSON 200 (map_json
    [("id", JString (cdt_ID document)); ("version", JString (cdt_Version document));
     ("text_hash", JString (cdt_TextHash document)); ("body", JString (cdt_Body document));
     ("effective_date", json_time (cdt_EffectiveDate document))]))).

Definition acceptConsent : handler B := λ cx r,
  decode [text_field "session_id"; text_field "contributor_id"; text_field "document_id";
          text_field "client_version"] r (λ input,
  with_meta cx r (λ meta,
  let field := text input in
  if is_empty (field "session_id") || is_empty (field "contributor_id")
     || is_empty (field "document_id") || is_empty (field "client_version")
  then bad "session_id, contributor_id, document_id, and client_version are required"
  else if negb (pr_Local (current cx))
          && negb (bool_decide (ia_ContributorID (pr_Access (current cx)) = Some (field "contributor_id")))
  then wret (forbidden "contributors may accept consent only for their own profile")
  else
    let* now := clock env in
    store (λ n, AcceptConsent (field "session_id") (field "contributor_id") (field "document_id")
                  (field "client_version") (md_actor meta) (md_requestID meta) now (env_random env n))
      (λ acceptance,
    wret (writeJSON 201 (map_json [("id", JString (ca_ID acceptance));
                                   ("accepted_at", json_time (ca_AcceptedAt acceptance))]))))).

Definition move_session (cx : context) (r : http_request) (state : SessionState) : W B response :=
  with_meta cx r (λ meta,
  let* now := clock env in
  store (λ _, TransitionSession (PathValue r "session_id") state (md_actor meta) (md_requestID meta) now)
    (λ session, wret (writeJSON 200 (sessionResponse session)))).
Definition completePreflight : handler B := λ cx r, move_session cx r SessionReady.
Definition transitionSession : handler B := λ cx r,
  decode [text_field "state"] r (λ input, move_session cx r (parse_state (text input "state"))).

Definition getSession : handler B := λ _ r,
  read (λ d, GetSession d (PathValue r "session_id")) (λ session,
  wret (writeJSON 200 (sessionResponse session))).

(** *** [admin.go] *)

Definition campaign_specification (required finish : string) : string :=
  Marshal (map_json
    [("required_application", JString required);
     ("capture_signals", JArray [JString "screen"; JString "pointer"; JString "keys"]);
     ("finish_criteria", JString (TrimSpace finish))]).

Definition campaign_response (c : BootstrappedCampaign) : response :=
  writeJSON 201 (map_json
    [("organization_id", JString (bc_OrganizationID c)); ("project_id", JString (bc_ProjectID c));
     ("template_id", JString (bc_TemplateID c)); ("task_id", JString (bc_TaskID c));
     ("contributor_id", JString (bc_ContributorID c)); ("assignment_id", JString (bc_AssignmentID c));
     ("session_id", JString (bc_SessionID c)); ("session_state", JString "ASSIGNED")]).

Definition bootstrapCampaign : handler B := λ cx r,
  let local := pr_Local (current cx) in
  decode [text_field "organization_id"; text_field "organization_name"; text_field "project_name";
          int_field "target_trajectories"; text_field "template_name"; text_field "goal";
          text_field "category"; text_field "difficulty"; text_field "required_application";
          text_field "finish_criteria"; raw_field "input_assets"; raw_field "expected_outputs";
          text_field "contributor_id"; text_field "contributor_name"] r (λ input,
  with_meta cx r (λ meta,
  let field := text input in
  let target := number input "target_trajectories" in
  let inputAssets := raw_value input "input_assets" in
  let expectedOutputs := raw_value input "expected_outputs" in
  if blank_text (field "project_name") || (target <? 1) || blank_text (field "template_name")
     || blank_text (field "goal") || blank_text (field "category")
     || negb (oneof (field "difficulty") difficulties) || blank_text (field "required_application")
  then bad "complete campaign, task, application, and contributor fields are required"
  else if local && (blank_text (field "organization_name") || blank_text (field "contributor_name"))
  then bad "organization_name and contributor_name are required in local mode"
  else if negb local && (is_empty (field "organization_id") || is_empty (field "contributor_id"))
  then bad "organization_id and contributor_id are required in production"
  else if negb (array_or_null inputAssets && array_or_null expectedOutputs)
  then bad "asset fields must contain JSON arrays"
  else
    let specification := campaign_specification (field "required_application") (field "finish_criteria") in
    if local then
      let* now := clock env in
      store (λ n, BootstrapCampaign
        {| cs_OrganizationName := field "organization_name"; cs_ProjectName := field "project_name";
           cs_TargetTrajectories := target; cs_TemplateName := field "template_name";
           cs_Goal := field "goal"; cs_Category := field "category";
           cs_Difficulty := field "difficulty"; cs_TemplateSpecification := specification;
           cs_InputAssets := raw_text "[]" inputAssets;
           cs_ExpectedOutputs := raw_text "[]" expectedOutputs;
           cs_ContributorName := field "contributor_name" |}
        (md_actor meta) (md_requestID meta) now (env_randoms env n 0%nat) (env_randoms env n 1%nat)
        (env_randoms env n 2%nat) (env_randoms env n 3%nat) (env_randoms env n 4%nat)
        (env_randoms env n 5%nat) (env_randoms env n 6%nat)) (λ c, wret (campaign_response c))
    else if negb (HasOrganizationRole (pr_Access (current cx)) (field "organization_id") ["admin"])
    then wret (forbidden "administrators may create campaigns only in their own organization")
    else
      let* now := clock env in
      store (λ n, CreateProductionCampaign
        {| pc_OrganizationID := field "organization_id"; pc_ContributorID := field "contributor_id";
           pc_ProjectName := field "project_name"; pc_TargetTrajectories := target;
           pc_TemplateName := field "template_name"; pc_Goal := field "goal";
           pc_Category := field "category"; pc_Difficulty := field "difficulty";
           pc_TemplateSpecification := specification;
           pc_InputAssets := raw_text "[]" inputAssets;
           pc_ExpectedOutputs := raw_text "[]" expectedOutputs |}
        (md_actor meta) (md_requestID meta) now (env_randoms env n 0%nat) (env_randoms env n 1%nat)
        (env_randoms env n 2%nat) (env_randoms env n 3%nat) (env_randoms env n 4%nat))
        (λ c, wret (campaign_response c)))).

Definition json_count (n : nat) : json := json_int (Z.of_nat n).
Definition project_json (p : ProjectSummary) : json :=
  map_json
    [("id", JString (ps_ID p)); ("organization_id", JString (ps_OrganizationID p));
     ("name", JString (ps_Name p)); ("target_trajectories", json_int (ps_TargetTrajectories p));
     ("task_count", json_count (ps_TaskCount p)); ("session_count", json_count (ps_SessionCount p));
     ("stage_counts", map_json
       [("assigned", json_count (ps_Assigned p)); ("recording", json_count (ps_Recording p));
        ("processing", json_count (ps_Processing p));
        ("ready_for_review", json_count (ps_ReadyForReview p));
        ("accepted", json_count (ps_Accepted p)); ("rejected", json_count (ps_Rejected p));
        ("released", json_count (ps_Released p)); ("deleted", json_count (ps_Deleted p))])].

(** The organizations a list is restricted to; [None] in local mode. *)
Definition scope (cx : context) (roles : list string) : option (list string) :=
  if pr_Local (current cx) then None
  else Some (OrganizationIDsForRoles (pr_Access (current cx)) roles).

Definition listProjects : handler B := λ cx _,
  let* projects := store_read env (λ d,
    match scope cx ["admin"; "reviewer"] with
    | None => ListProjects d
    | Some l => ListProjectsForOrganizations d l
    end) in
  wret (writeJSON 200 (map_json [("projects", JArray (map project_json projects))])).

Definition listOrganizationContributors : handler B := λ cx r,
  let organizationID := PathValue r "organization_id" in
  if negb (own_organization cx organizationID)
  then wret (forbidden "administrators may view contributors only in their own organization")
  else
    let* contributors := store_read env (λ d, ListOrganizationContributors d organizationID) in
    wret (writeJSON 200 (map_json [("contributors", JArray (map (λ c,
      map_json [("id", JString (oc_ID c)); ("display_name", JString (oc_DisplayName c));
                ("email", JString (oc_Email c))]) contributors))])).

Definition listProjectSessions : handler B := λ _ r,
  read (λ d, ListProjectSessions d (PathValue r "project_id")) (λ sessions,
  wret (writeJSON 200 (map_json [("sessions", JArray (map (λ s,
    map_json [("session_id", JString (pss_SessionID s)); ("task_id", JString (pss_TaskID s));
              ("goal", JString (pss_Goal s)); ("contributor_id", JString (pss_ContributorID s));
              ("contributor_name", JString (pss_ContributorName s));
              ("state", JString (state_string (pss_State s)));
              ("updated_at", json_time (pss_UpdatedAt s))]) sessions))]))).

(** *** [invitations.go] *)

Definition createInvitation : handler B := λ cx r,
  decode [text_field "organization_id"; text_field "email"; text_field "role";
          int_field "expires_in_hours"] r (λ input,
  let organizationID := text input "organization_id" in
  let email := TrimSpace (text input "email") in
  if negb (bool_decide (parse_address email = Some email)) || is_empty organizationID
     || negb (oneof (text input "role") ["admin"; "reviewer"; "contributor"])
  then wret (writeError 400 "invalid_invitation"
         "organization_id, a plain email address, and a supported role are required")
  else
    let supplied := number input "expires_in_hours" in
    let hours := if supplied =? 0 then 72 else supplied in
    if (hours <? 1) || (168 <? hours)
    then wret (writeError 400 "invalid_invitation_expiry"
           "invitation lifetime must be between 1 and 168 hours")
    else if negb (own_organization cx organizationID)
    then wret (forbidden "administrators may invite people only to their own organization")
    else
      with_meta cx r (λ meta,
      let* issued := clock env in
      let* now := clock env in
      store (λ n, CreateInvitation organizationID email (text input "role") (md_actor meta)
                    (md_requestID meta) (issued + hours * hour) now
                    (env_randoms env n 0%nat) (env_randoms env n 1%nat)) (λ created,
      let (invitation, token) := (created : Invitation * string) in
      wret (writeJSON 201 (map_json
        [("id", JString (in_ID invitation)); ("organization_id", JString (in_OrganizationID invitation));
         ("email", JString (in_Email invitation)); ("role", JString (in_Role invitation));
         ("expires_at", json_time (in_ExpiresAt invitation)); ("token", JString token)]))))).

Definition acceptInvitation : handler B := λ cx r,
  decode [text_field "token"] r (λ input,
  let identity := pr_Identity (current cx) in
  if is_empty (id_Issuer identity) || is_empty (id_Subject identity)
  then wret (writeError 401 "unauthenticated" "valid OpenID authentication is required")
  else
    let supplied := TrimSpace (Header r "X-Request-ID") in
    let* randoms := read_random env in
    let requestID :=
      if is_empty supplied
      then match New "req" (randoms 0%nat) with Ok id => id | Err _ => "" end
      else supplied in
    let* now := clock env in
    try result := store_call env (λ n, AcceptInvitation (text input "token") (id_Issuer identity)
        (id_Subject identity) (id_Email identity) (id_Name identity) requestID
        (id_EmailVerified identity) now (env_randoms env n 0%nat) (env_randoms env n 1%nat)
        (env_randoms env n 2%nat))
      else e => wret (match e with
        | ErrInvitationInvalid => writeError 403 "invitation_invalid"
            "the invitation is invalid, expired, already used, or does not match a verified email"
        | _ => respondStoreError store_text e
        end) in
    wret (writeJSON 201 (map_json
      [("account_id", JString (ic_AccountID result));
       ("organization_id", JString (ic_OrganizationID result)); ("role", JString (ic_Role result));
       ("contributor_id", optional_string (ic_ContributorID result))]))).
End catalog.
