(* ===== verification/Files.v ===== *)
(** * Files over HTTP ([httpapi/artifacts.go], [httpapi/releases.go] without the creation
      of releases)

    Uploads are staged in a temporary file, whose operations do not fail here, hashed,
    written to the object store under the session's raw prefix and registered.
    Downloads serve one byte range of an object. *)

From S2P Require Import Prelude Domain Text Encoding Json Schema Frame Sha256 Blob Store Pipeline Release Redaction Erasure Identity Campaign System Steps Http Catalog.

(** ** Media types ([mime.ParseMediaType]) *)

Definition isTSpecial (c : ascii) : bool :=
  bool_decide (N_of_ascii c ∈ [40; 41; 60; 62; 64; 44; 59; 58; 92; 34; 47; 91; 93; 63; 61]%N).
Definition isTokenChar (c : ascii) : bool :=
  (32 <? N_of_ascii c)%N && (N_of_ascii c <? 127)%N && negb (isTSpecial c).
Fixpoint consumeToken (v : string) : string * string :=
  match v with
  | String c v' =>
    if isTokenChar c then let (token, rest) := consumeToken v' in (String c token, rest) else ("", v)
  | EmptyString => ("", "")
  end.
Definition TrimLeftSpace (s : string) : string := trim_left (String.length s) space_encodings s.

(** The text of a quoted string and what follows it. *)
Fixpoint quoted_text (v acc : string) : option (string * string) :=
  match v with
  | EmptyString => None
  | String c v' =>
    if (N_of_ascii c =? 34)%N then Some (rev_string acc, v')
    else
      match v' with
      | String next v'' =>
        if Ascii.eqb c backslash && isTSpecial next then quoted_text v'' (String next acc)
        else if (N_of_ascii c =? 13)%N || (N_of_ascii c =? 10)%N then None
        else quoted_text v' (String c acc)
      | EmptyString => None
      end
  end.
Definition consumeValue (v : string) : string * string :=
  match v with
  | EmptyString => ("", "")
  | String c v' =>
    if (N_of_ascii c =? 34)%N then default ("", v) (quoted_text v' "") else consumeToken v
  end.

Definition consumeMediaParam (v : string) : option (string * string * string) :=
  match TrimLeftSpace v with
  | String c rest =>
    if negb (Ascii.eqb c ";") then None
    else
      let (param, rest) := consumeToken (TrimLeftSpace rest) in
      if is_empty param then None
      else match TrimLeftSpace rest with
           | String e rest =>
             if negb (Ascii.eqb e "=") then None
             else
               let rest := TrimLeftSpace rest in
               let (value, rest2) := consumeValue rest in
               if is_empty value && seqb rest2 rest then None
               else Some (ToLower param, value, rest2)
           | EmptyString => None
           end
  | EmptyString => None
  end.

(** Whether the parameters parse; a parameter may be repeated with the same value.
    Each one takes a byte at least. *)
Fixpoint parameters_ok (fuel : nat) (v : string) (seen : gmap string string) : bool :=
  match fuel with
  | O => true
  | S fuel' =>
    let v := TrimLeftSpace v in
    if is_empty v then true
    else match consumeMediaParam v with
         | None => seqb (TrimSpace v) ";"
         | Some (key, value, rest) =>
           match seen !! key with
           | Some old => seqb old value && parameters_ok fuel' rest seen
           | None => parameters_ok fuel' rest (<[key := value]> seen)
           end
         end
  end.

Definition type_ok (s : string) : bool :=
  let (typ, rest) := consumeToken s in
  negb (is_empty typ)
  && match rest with
     | EmptyString => true
     | String c rest =>
       Ascii.eqb c "/" && (let (subtype, rest) := consumeToken rest in
                           negb (is_empty subtype) && is_empty rest)
     end.

Definition ParseMediaType (v : string) : option string :=
  let base := match IndexByte v ";"%char with Some n => stake n v | None => v end in
  let mediatype := TrimSpace (ToLower base) in
  if type_ok mediatype && parameters_ok (S (String.length v)) (sdrop (String.length base) v) ∅
  then Some mediatype else None.

(** ** Paths, hashes, sizes *)

Definition maxArtifactBytes : Z := Z.shiftl 20 30.

Definition safeArtifactPath (value : string) : bool :=
  negb (is_empty value) && negb (HasPrefix value "/") && negb (Contains value backslash_text)
  && seqb (Clean value) value && negb (seqb value ".") && negb (HasPrefix value "../").

(** A hexadecimal text of [sha256.Size] bytes. *)
Definition digest_text (s : string) : bool :=
  match DecodeString s with Some decoded => Nat.eqb (length decoded) 32 | None => false end.

Record artifactUploadRequest := {
  up_Path : string; up_SHA256 : string; up_SizeBytes : Z; up_MediaType : string
}.

(** [None] when the request is accepted. *)
Definition validateArtifactUploadRequest (input : artifactUploadRequest) : option response :=
  if negb (safeArtifactPath (up_Path input))
  then Some (writeError 400 "invalid_artifact_path" "artifact path must be a clean relative path")
  else if (up_SizeBytes input <? 1) || (maxArtifactBytes <? up_SizeBytes input)
  then Some (writeError 400 "invalid_artifact_size" "artifact must be non-empty and no larger than 20 GiB")
  else if negb (digest_text (up_SHA256 input))
          || negb (seqb (up_SHA256 input) (ToLower (up_SHA256 input)))
  then Some (writeError 400 "invalid_artifact_hash" "sha256 must contain a lowercase SHA-256 hex digest")
  else if negb (bool_decide (ParseMediaType (up_MediaType input) = Some (up_MediaType input)))
  then Some (writeError 400 "invalid_media_type" "media_type must be a normalized MIME type")
  else None.

(** ** Byte ranges *)

(** First and last byte, and whether the answer is partial. *)
Definition parseByteRange (value : string) (size : Z) : result string (Z * Z * bool) :=
  if size <? 1 then Err "artifact is empty"
  else if is_empty value then Ok (0, size - 1, false)
  else if negb (HasPrefix value "bytes=") || Contains value ","
  then Err "only one bytes range is supported"
  else
    match split_on "-"%char (TrimPrefix value "bytes=") with
    | [first; last] =>
      if is_empty first then
        match ParseInt last with
        | Some suffix =>
          if suffix <? 1 then Err "invalid bytes suffix range"
          else Ok (size - Z.min suffix size, size - 1, true)
        | None => Err "invalid bytes suffix range"
        end
      else
        match ParseInt first with
        | Some start =>
          if (start <? 0) || (size <=? start) then Err "range start is outside the artifact"
          else if is_empty last then Ok (start, size - 1, true)
          else match ParseInt last with
               | Some fin =>
                 if fin <? start then Err "invalid range end"
                 else Ok (start, Z.min fin (size - 1), true)
               | None => Err "invalid range end"
               end
        | None => Err "range start is outside the artifact"
        end
    | _ => Err "invalid bytes range"
    end.

(** ** Answers *)

(** [!t.IsZero() && t.Unix() > 0] *)
Definition shown_time (t : time) : bool := negb (IsZero t) && (0 <? (t - epoch) / second).
Definition when_shown (name : string) (t : time) : list (string * json) :=
  if shown_time t then [(name, json_time t)] else [].

Definition artifactResponse (artifact : Artifact) : json :=
  map_json [("id", JString (art_ID artifact)); ("session_id", JString (art_SessionID artifact));
            ("logical_key", JString (art_Key artifact)); ("sha256", JString (art_SHA256 artifact));
            ("size_bytes", json_int (art_Size artifact));
            ("media_type", JString (art_MediaType artifact))].

Definition processingJobResponse (job : ProcessingJob) : json :=
  map_json
    ([("id", JString (pj_ID job)); ("session_id", JString (pj_SessionID job));
      ("job_type", JString (pj_JobType job)); ("state", JString (pj_State job));
      ("attempt", json_int (pj_Attempt job)); ("available_at", json_time (pj_AvailableAt job))]
     ++ (if is_empty (pj_LeasedBy job) then []
         else [("leased_by", JString (pj_LeasedBy job));
               ("lease_expires_at", json_time (pj_LeaseExpiresAt job))])
     ++ (if is_empty (pj_LastError job) then [] else [("last_error", JString (pj_LastError job))])
     ++ (if 0 <? pj_ManualRequeues job then [("manual_requeues", json_int (pj_ManualRequeues job))] else [])
     ++ when_shown "finished_at" (pj_FinishedAt job)
     ++ when_shown "dead_lettered_at" (pj_DeadLetteredAt job))%list.

(** [time.Time.Year] in UTC *)
Definition Year (t : time) : Z := (civil_date (t / day)).1.1.
Definition nullableTime (t : time) : json := if Year t <=? 1970 then JNull else json_time t.

Definition releaseResponse (release : DatasetRelease) : json :=
  map_json
    [("id", JString (rl_ID release)); ("project_id", JString (rl_ProjectID release));
     ("name", JString (rl_Name release)); ("profile", JString (rl_Profile release));
     ("schema_version", JString (rl_SchemaVersion release));
     ("exporter_version", JString (rl_ExporterVersion release));
     ("pipeline_version", JString (rl_PipelineVersion release));
     ("source_session_ids", JArray (map JString (rl_SourceSessionIDs release)));
     ("configuration_hash", JString (rl_ConfigurationHash release));
     ("manifest_hash", JString (rl_ManifestHash release));
     ("bundle_hash", JString (rl_BundleHash release)); ("bundle_size", json_int (rl_BundleSize release));
     ("purged_at", nullableTime (rl_PurgedAt release)); ("created_at", json_time (rl_CreatedAt release));
     ("manifest_url", JString ("/v1/releases/" +:+ rl_ID release +:+ "/files/manifest.json"));
     ("bundle_url", JString ("/v1/releases/" +:+ rl_ID release +:+ "/bundle"))].

(** [filepath.Ext]: from the last dot of the last element. *)
Fixpoint last_dot (s : string) : option string :=
  match s with
  | EmptyString => None
  | String c s' =>
    match last_dot s' with
    | Some e => Some e
    | None => if Ascii.eqb c "." then Some s else None
    end
  end.
Definition Ext (path : string) : string := default "" (last_dot (List.last (parts path) "")).

(** ** Handlers *)

Section files.
Context {B : Type} `{BlobStore B} (env : environment) (configured : bool).
Variables (store_text : error → string).

Notation store m := (store_or_error store_text (store_call env m)).
Notation read q := (store_or_error store_text (store_read env q)).

Definition blob_store_unavailable (what : string) : response :=
  writeError 503 "blob_store_unavailable" (what +:+ " storage is not configured").

Definition serveBlob (r : http_request) (key mediaType : string) (size : Z) (sha256 : string)
    : W B response :=
  match parseByteRange (Header r "Range") size with
  | Err e =>
    wret (with_headers {["Content-Range" := "bytes */" +:+ Sprint size]} (writeError 416 "invalid_range" e))
  | Ok (start, fin, partial) =>
    let* got := blob_call env (λ _, Get key) in
    match got with
    | Err _ => wret (writeError 404 "artifact_not_found" "artifact bytes are unavailable")
    | Ok reader =>
      let length := fin - start + 1 in
      let headers : gmap string string :=
        {["Content-Type" := mediaType; "Content-Disposition" := "inline"; "Accept-Ranges" := "bytes";
          "ETag" := quote +:+ sha256 +:+ quote;
          "Cache-Control" := "private, immutable, max-age=31536000";
          "Content-Length" := Sprint length]} in
      wret {| rs_status := if partial then 206 else 200;
              rs_headers := if partial
                then <["Content-Range" := "bytes " +:+ Sprint start +:+ "-" +:+ Sprint fin +:+ "/" +:+ Sprint size]> headers
                else headers;
              rs_body := if seqb (hr_method r) "HEAD" then ""
                         else stake (Z.to_nat length) (sdrop (Z.to_nat start) (rd_data reader)) |}
    end
  end.

(** [io.Copy] from [http.MaxBytesReader(w, r.Body, maxArtifactBytes)] *)
Definition read_upload (body : reader) : result string string :=
  if maxArtifactBytes <? slen (rd_data body) then Err "http: request body too large"
  else match rd_err body with
       | Some e => Err e
       | None => Ok (rd_data body)
       end.

(** The media type of an upload: that of the header, when there is one. *)
Definition upload_type (supplied : string) : option string :=
  if is_empty supplied then Some "application/octet-stream" else ParseMediaType supplied.

Definition artifact_key (r : http_request) : string :=
  "raw/sessions/" +:+ PathValue r "session_id" +:+ "/" +:+ PathValue r "artifact_path".

(** The registration of a stored object, and the answer for it. *)
Definition register_blob (meta : requestMetadata) (sessionID key mediaType : string) (info : BlobInfo)
    (k : Artifact → W B response) : W B response :=
  let* now := clock env in
  store (λ n, RegisterArtifact
           {| art_ID := ""; art_SessionID := sessionID; art_Key := key; art_SHA256 := bi_SHA256 info;
              art_MediaType := mediaType; art_Size := bi_Size info |}
           (md_actor meta) (md_requestID meta) now (env_random env n)) k.

(** From the staged bytes on: the object is written once; a second upload of the same
    bytes is accepted. *)
Definition commit_artifact (meta : requestMetadata) (sessionID key mediaType data : string)
    (expectedHash : string) : W B response :=
  let register (info : BlobInfo) : W B response :=
    register_blob meta sessionID key mediaType info (λ artifact,
    wret (writeJSON 201 (artifactResponse artifact))) in
  let failed := writeError 500 "artifact_store_failed" "artifact could not be committed" in
  let* put := blob_call env (Put key (NewReader data)) in
  match put with
  | Ok info => register info
  | Err ErrImmutableRaw =>
    let* stat := blob_call env (λ _, Stat key) in
    match stat with
    | Ok info =>
      if negb (seqb (bi_SHA256 info) expectedHash) || negb (bi_Size info =? slen data)
      then wret (writeError 409 "artifact_conflict" (store_text ErrArtifactConflict))
      else register info
    | Err _ => wret failed
    end
  | Err _ => wret failed
  end.

Definition uploadArtifact : handler B := λ cx r,
  if negb configured then wret (blob_store_unavailable "artifact")
  else
    requestMetaOrError env store_text cx r (λ meta,
    let sessionID := PathValue r "session_id" in
    if negb (safeArtifactPath (PathValue r "artifact_path"))
    then wret (writeError 400 "invalid_artifact_path" "artifact path must be a clean relative path")
    else
      read (λ d, EnsureArtifactUploadAllowed d sessionID) (λ _,
      let expectedHash := ToLower (TrimSpace (Header r "X-Artifact-SHA256")) in
      if negb (digest_text expectedHash)
      then wret (writeError 400 "invalid_artifact_hash" "X-Artifact-SHA256 must contain a SHA-256 hex digest")
      else if (hr_length r =? 0) || (maxArtifactBytes <? hr_length r)
      then wret (writeError 413 "invalid_artifact_size" "artifact must be non-empty and no larger than 20 GiB")
      else
        match upload_type (Header r "Content-Type") with
        | None => wret (writeError 400 "invalid_media_type" "Content-Type is invalid")
        | Some mediaType =>
          match read_upload (hr_body r) with
          | Err e => wret (writeError 400 "artifact_read_failed" e)
          | Ok data =>
            if slen data <? 1
            then wret (writeError 400 "invalid_artifact_size" "artifact must be non-empty")
            else if negb (seqb (sha256_hex data) expectedHash)
            then wret (writeError 422 "artifact_hash_mismatch" "uploaded bytes do not match X-Artifact-SHA256")
            else commit_artifact meta sessionID (artifact_key r) mediaType data expectedHash
          end
        end)).

Definition downloadArtifact : handler B := λ _ r,
  if negb configured then wret (blob_store_unavailable "artifact")
  else if negb (safeArtifactPath (PathValue r "artifact_path"))
  then wret (writeError 400 "invalid_artifact_path" "artifact path must be a clean relative path")
  else
    read (λ d, GetArtifact d (PathValue r "session_id") (artifact_key r)) (λ artifact,
    serveBlob r (art_Key artifact) (art_MediaType artifact) (art_Size artifact) (art_SHA256 artifact)).

Definition downloadNormalizedTrajectory : handler B := λ _ r,
  if negb configured then wret (blob_store_unavailable "artifact")
  else
    read (λ d, GetNormalizedTrajectoryKey d (PathValue r "session_id")) (λ key,
    let* stat := blob_call env (λ _, Stat key) in
    match stat with
    | Err _ => wret (writeError 404 "artifact_not_found" "normalized trajectory is unavailable")
    | Ok info => serveBlob r key "application/json" (bi_Size info) (bi_SHA256 info)
    end).

(** Every registered artifact is compared with its object. *)
Fixpoint verify_artifacts (l : list Artifact) (k : W B response) : W B response :=
  match l with
  | [] => k
  | artifact :: rest =>
    let* stat := blob_call env (λ _, Stat (art_Key artifact)) in
    let mismatch := writeError 409 "artifact_verification_failed"
      ("stored artifact " +:+ art_Key artifact +:+ " is missing or does not match registered metadata") in
    match stat with
    | Err _ => wret mismatch
    | Ok info =>
      if negb (seqb (bi_SHA256 info) (art_SHA256 artifact)) || negb (bi_Size info =? art_Size artifact)
      then wret mismatch else verify_artifacts rest k
    end
  end.

Definition submitSession : handler B := λ cx r,
  if negb configured then wret (blob_store_unavailable "artifact")
  else
    requestMetaOrError env store_text cx r (λ meta,
    let sessionID := PathValue r "session_id" in
    let* artifacts := store_read env (λ d, ListArtifacts d sessionID) in
    verify_artifacts artifacts
      (let* now := clock env in
       store (λ n, SubmitSession sessionID (md_actor meta) (md_requestID meta) now (env_random env n))
         (λ result,
       wret (writeJSON 202 (map_json [("session", sessionResponse result.1);
                                      ("job", processingJobResponse result.2)]))))).

Definition getProcessingJob : handler B := λ _ r,
  read (λ d, GetProcessingJob d (PathValue r "job_id")) (λ job,
  wret (writeJSON 200 (processingJobResponse job))).

(** The organizations an administrator's listing covers: [None] for all. *)
Definition listing_scope (cx : context) (roles : list string) : option (list string) :=
  if pr_Local (current cx) then None else Some (OrganizationIDsForRoles (pr_Access (current cx)) roles).

Definition listDeadLetterJobs : handler B := λ cx _,
  let* jobs := store_read env (λ d, ListDeadLetterJobs d (listing_scope cx ["admin"])) in
  wret (writeJSON 200 (map_json [("jobs", JArray (map processingJobResponse jobs))])).

Definition retryDeadLetterJob : handler B := λ cx r,
  metadata_or_401 env store_text cx r (λ meta,
  let* now := clock env in
  try job := store_call env (λ _, RetryDeadLetterJob (PathValue r "job_id") (md_actor meta)
                                    (md_requestID meta) now)
    else e => wret (match e with
                    | ErrJobNotDeadLetter => writeError 409 "job_not_dead_lettered" (store_text e)
                    | _ => respondStoreError store_text e
                    end) in
  wret (writeJSON 200 (processingJobResponse job))).

(** *** Releases *)

Definition getRelease : handler B := λ _ r,
  read (λ d, GetRelease d (PathValue r "release_id")) (λ release,
  wret (writeJSON 200 (releaseResponse release))).

Definition release_media_type (path : string) : string :=
  let ext := ToLower (Ext path) in
  if seqb ext ".json" then "application/json"
  else if seqb ext ".jsonl" then "application/x-ndjson" else "application/octet-stream".

Definition downloadReleaseFile : handler B := λ _ r,
  if negb configured then wret (blob_store_unavailable "release")
  else
    let releaseID := PathValue r "release_id" in
    read (λ d, GetRelease d releaseID) (λ release,
    if 1970 <? Year (rl_PurgedAt release)
    then wret (writeError 410 "release_expired" "release files were removed by the retention policy")
    else
      let filePath := PathValue r "file_path" in
      if negb (safeArtifactPath filePath)
      then wret (writeError 400 "invalid_release_path" "release file path must be a clean relative path")
      else
        let key := "releases/" +:+ releaseID +:+ "/" +:+ filePath in
        let* stat := blob_call env (λ _, Stat key) in
        match stat with
        | Err _ => wret (writeError 404 "release_file_not_found" "release file is unavailable")
        | Ok info => serveBlob r key (release_media_type filePath) (bi_Size info) (bi_SHA256 info)
        end).

Definition downloadReleaseBundle : handler B := λ _ r,
  if negb configured then wret (blob_store_unavailable "release")
  else
    read (λ d, GetRelease d (PathValue r "release_id")) (λ release,
    if 1970 <? Year (rl_PurgedAt release)
    then wret (writeError 410 "release_expired" "release bundle was removed by the retention policy")
    else if is_empty (rl_BundleHash release) || (rl_BundleSize release <? 1)
    then wret (writeError 404 "release_bundle_not_found" "release bundle is unavailable")
    else serveBlob r (release_bundle (rl_ID release)) "application/zip"
           (rl_BundleSize release) (rl_BundleHash release)).
End files.

(** ** Accepted paths *)

Lemma no_backslash_app a b :
  Contains a backslash_text = false → Contains b backslash_text = false →
  Contains (a +:+ b) backslash_text = false.
Proof.
  intros Ha Hb. induction a as [|x a IH]; [done|]. rewrite string_app_cons.
  cbn [Contains] in *. apply orb_false_iff in Ha as [H1 H2]. apply orb_false_iff.
  split; [|by apply IH]. revert H1. unfold backslash_text. cbn [String.prefix].
  case_match; [|done]. by destruct a, b.
Qed.

Lemma dots_slash_free n : Forall slash_free (repeat ".." n).
Proof. induction n as [|n IH]; constructor; [done|exact IH]. Qed.

(** A path passes [safeArtifactPath] exactly when it has no backslash and all its
    elements are plain (none is empty, "." or ".."), with one exception the
    message of the error does not mention: the path "..".  The object store refuses
    the key that path would give. *)
Theorem safeArtifactPath_spec value :
  (safeArtifactPath value = true ↔
     value = ".." ∨ (Contains value backslash_text = false ∧ Forall plain (parts value))) ∧
  (∀ prefix, Forall plain (parts prefix) → Contains prefix backslash_text = false →
     safeArtifactPath value = true → value ≠ ".." →
     validateKey (prefix +:+ "/" +:+ value) = Ok ()) ∧
  (∀ prefix, validateKey (prefix +:+ "/" +:+ "..") = Err ErrInvalidKey).
Proof.
  assert (Hiff : safeArtifactPath value = true ↔
     value = ".." ∨ (Contains value backslash_text = false ∧ Forall plain (parts value))).
  { unfold safeArtifactPath. rewrite !andb_true_iff, !negb_true_iff, seqb_true. unfold seqb.
    rewrite bool_decide_eq_false. split.
    - intros (((((He & Hr) & Hb) & Hc) & Hd) & Hp).
      unfold Clean in Hc. rewrite bool_decide_eq_false_2 in Hc by (by apply bool_decide_eq_false in He).
      rewrite Hr in Hc.
      destruct (clean_parts_shape (parts value) [] 0 []) as (n & ps & Hs & Hps & Hfree);
        [apply Forall_forall, parts_slash_free|done|done|done|].
      rewrite Hs in Hc. case_bool_decide as Hbody; [by rewrite <-Hc in Hd|].
      assert (Hv : parts value = (repeat ".." n ++ ps)%list).
      { rewrite <-Hc at 1. apply parts_join_parts.
        - intros E. by rewrite E in Hbody.
        - apply Forall_app. split; [apply dots_slash_free|done]. }
      destruct n as [|n]; [right; by rewrite Hv|left].
      destruct (repeat ".." n ++ ps)%list as [|p l] eqn:E.
      + cbn [repeat app] in Hc. rewrite E in Hc. by rewrite <-Hc.
      + cbn [repeat app] in Hc. rewrite E, join_parts_cons in Hc.
        assert (HasPrefix value "../" = true); [|congruence].
        apply prefix_exists. exists (join_parts (p :: l)). exact (eq_sym Hc).
    - intros [->|[Hb Hp]]; [by vm_compute|].
      destruct (Clean_plain value Hp) as (H1 & H2 & H3).
      repeat split; try done.
      + by apply bool_decide_eq_false_2.
      + intros ->. by apply Forall_inv in Hp as (_ & ? & _).
      + destruct (HasPrefix value "../") eqn:E; [|done]. apply prefix_exists in E as [r ->].
        change ("../" +:+ r) with (".." +:+ "/" +:+ r) in Hp. rewrite parts_app_slash in Hp.
        by apply Forall_inv in Hp as (_ & _ & ?). }
  split; [done|]. split.
  - intros prefix Hpre Hbp [->|[Hb Hp]]%Hiff Hne; [done|].
    apply validateKey_ok. split; [by repeat apply no_backslash_app|]. rewrite parts_app_slash. by apply Forall_app.
  - intros prefix. destruct (validateKey (prefix +:+ "/" +:+ "..")) as [[]|e] eqn:E.
    + apply validateKey_ok in E as [_ E]. rewrite parts_app_slash in E.
      apply Forall_app in E as [_ E]. by apply Forall_inv in E as (_ & _ & ?).
    + unfold validateKey in E. repeat case_match; congruence.
Qed.

(** ** Ranges *)

Lemma parseByteRange_ok value size start fin partial :
  parseByteRange value size = Ok (start, fin, partial) →
  0 ≤ start ≤ fin ∧ fin < size ∧ (partial = false → start = 0 ∧ fin = size - 1).
Proof.
  unfold parseByteRange. destruct (Z.ltb_spec size 1); [done|].
  destruct (is_empty value). { intros [= <- <- <-]. lia. }
  destruct (_ || _); [done|]. destruct (split_on _ _) as [|a [|b [|]]]; try done.
  destruct (is_empty a).
  { destruct (ParseInt b) as [n|]; [|done]. destruct (Z.ltb_spec n 1); [done|].
    intros [= <- <- <-]. lia. }
  destruct (ParseInt a) as [s|]; [|done].
  destruct (Z.ltb_spec s 0); [done|]. destruct (Z.leb_spec size s); [done|]. cbn [orb].
  destruct (is_empty b). { intros [= <- <- <-]. lia. }
  destruct (ParseInt b) as [f|]; [|done]. destruct (Z.ltb_spec f s); [done|].
  intros [= <- <- <-]. lia.
Qed.

Lemma stake_spec n s : String.length (stake n s) = Nat.min n (String.length s).
Proof. revert s. induction n as [|n IH]; intros [|c s]; cbn; [done..|]. by rewrite IH. Qed.
Lemma stake_all s : stake (String.length s) s = s.
Proof. induction s as [|c s IH]; [done|]. cbn. by rewrite IH. Qed.


Definition quiet : environment :=
  {| env_now _ := 7; env_meanwhile _ d := d; env_locked _ := ∅;
     env_random _ := Some (repeat x00 16); env_randoms _ _ := Some (repeat x00 16) |}.
Definition ranged_request : http_request :=
  {| hr_method := "GET"; hr_path := "/v1/x"; hr_headers := {["Range" := "bytes=6-"]}; hr_values := ∅;
     hr_query := ∅; hr_body := NewReader ""; hr_length := 0 |}.
Definition served_store : local_store :=
  {| ls_root := "/blobs"; ls_files := {["/blobs/raw/s/a" := ("hello world", 5)]};
     ls_dirs := {["/blobs"; "/blobs/raw"; "/blobs/raw/s"]} |}.


(** ** Uploads *)

Lemma same_artifact_true a b :
  same_artifact a b = true →
  art_SessionID a = art_SessionID b ∧ art_SHA256 a = art_SHA256 b ∧ art_Size a = art_Size b ∧
  art_MediaType a = art_MediaType b.
Proof. unfold same_artifact. rewrite !andb_true_iff, !seqb_true, Z.eqb_eq. tauto. Qed.

(** The row that stands for a registered artifact. *)
Definition registered (d : db) (sessionID key sha : string) (size : Z) : Prop :=
  ∃ id row, artifacts d !! id = Some row ∧ arf_session_id row = sessionID ∧ arf_logical_key row = key ∧
    arf_sha256 row = sha ∧ arf_size_bytes row = size.

Lemma RegisterArtifact_registers artifact actor requestID now r d a d' :
  RegisterArtifact artifact actor requestID now r d = Ok (a, d') →
  registered d' (art_SessionID artifact) (art_Key artifact) (art_SHA256 artifact) (art_Size artifact).
Proof.
  unfold RegisterArtifact, newID, insertAudit, row_of. intros H. tx_inv.
  destruct (find_where _ _) as [[id row]|] eqn:Hf; tx_inv.
  - apply find_where_some in Hf as [Hl Hk]. apply seqb_true in Hk.
    match goal with H : negb (same_artifact _ _) = false |- _ =>
      apply negb_false_iff, same_artifact_true in H as (? & ? & ? & _) end.
    by exists id, row.
  - match goal with H : insert_artifact _ _ _ = _ |- _ => apply insert_artifact_ok in H as -> end.
    eexists _, _. split; [cbn; by rewrite lookup_insert_eq|]. by destruct artifact.
Qed.

Lemma RegisterArtifact_raw artifact actor requestID now r d a d' :
  RegisterArtifact artifact actor requestID now r d = Ok (a, d') → isRaw (art_Key artifact) = true.
Proof.
  unfold RegisterArtifact. intros ([] & d1 & [Hv ->]%lift_ok & _)%bind_ok.
  unfold validateArtifact in Hv. destruct (_ || _) eqn:E; [done|].
  rewrite !orb_false_iff, negb_false_iff in E. destruct E as [[_ [rest ->]%prefix_exists] _].
  apply prefix_exists. eexists. unfold raw_prefix. rewrite !string_app_assoc.
  change ("raw/sessions/" +:+ ?x) with ("raw/" +:+ ("sessions/" +:+ x)). reflexivity.
Qed.

Lemma respondStoreError_status store_text e :
  rs_status (respondStoreError store_text e) = 404 ∨ rs_status (respondStoreError store_text e) = 409.
Proof. destruct e; cbn; auto. Qed.

Section uploads.
Context {B : Type} `{HL : BlobLaws B} (env : environment) (store_text : error → string).

Lemma store_or_error_run {A} (m : W B (res A)) (k : A → W B response) w resp w' :
  store_or_error store_text m k w = (resp, w') →
  (∃ a w1, m w = (Ok a, w1) ∧ k a w1 = (resp, w')) ∨
  (rs_status resp = 404 ∨ rs_status resp = 409) ∧ ∃ e, m w = (Err e, w').
Proof using Type.
  unfold store_or_error, wbind. destruct (m w) as [[a|e] w1]; [intros Hk; left; eauto|].
  intros [= <- <-]. right. split; [apply respondStoreError_status|eauto].
Qed.

(** A registration either answers an error or leaves the row and goes on. *)
Lemma register_blob_run meta sessionID key mediaType info k (w w' : world B) resp :
  register_blob env store_text meta sessionID key mediaType info k w = (resp, w') →
  (rs_status resp = 404 ∨ rs_status resp = 409) ∨
  ∃ a w1, k a w1 = (resp, w') ∧ w_blobs w1 = w_blobs w ∧
    registered (w_db w1) sessionID key (bi_SHA256 info) (bi_Size info) ∧ isRaw key = true.
Proof using Type.
  unfold register_blob, wbind. cbn. intros Hrun.
  apply store_or_error_run in Hrun as [(a & w2 & Hc & Hk)|[Hx _]]; [right|by left].
  exists a, w2. split; [done|]. unfold store_call, run_tx in Hc. cbn in Hc.
  destruct (RegisterArtifact _ _ _ _ _ _) as [[a' d']|e] eqn:E; [|done].
  injection Hc as <- <-. split; [done|]. split; [by apply RegisterArtifact_registers in E|].
  by apply RegisterArtifact_raw in E.
Qed.

(** What [commit_artifact] reaches when it answers 201. *)
Lemma commit_artifact_ok meta sessionID key mediaType data (w w' : world B) resp :
  store_ok (w_blobs w) →
  commit_artifact env store_text meta sessionID key mediaType data (sha256_hex data) w = (resp, w') →
  rs_status resp = 201 →
  (∃ c, object (w_blobs w') key = Some c ∧ sha256_hex c = sha256_hex data ∧ slen c = slen data) ∧
  registered (w_db w') sessionID key (sha256_hex data) (slen data).
Proof using HL.
  intros Hok. unfold commit_artifact.
  assert (Hreg : ∀ info (w1 : world B), bi_SHA256 info = sha256_hex data → bi_Size info = slen data →
    register_blob env store_text meta sessionID key mediaType info
      (λ artifact, wret (writeJSON 201 (artifactResponse artifact))) w1 = (resp, w') →
    rs_status resp = 201 →
    w_blobs w' = w_blobs w1 ∧ registered (w_db w') sessionID key (sha256_hex data) (slen data)).
  { intros info w1 H1 H2 Hrun Hs.
    apply register_blob_run in Hrun as [[Hx|Hx]|(a & w2 & Hk & Hb & Hr & _)]; [congruence..|].
    injection Hk as _ <-. split; [done|]. by rewrite <-H1, <-H2. }
  unfold wbind at 1, blob_call at 1.
  destruct (Put key (NewReader data) (env_now env (w_tick w)) (w_blobs w)) as [[info|e] b1] eqn:Hp;
    destruct (put_law _ _ _ _ _ _ Hok Hp) as ([Hok1 _] & _ & Hput).
  - destruct (Hput info eq_refl) as (_ & Ho & _ & Hsz & Hsh). cbn in Hsz, Hsh.
    intros Hrun Hs. destruct (Hreg _ _ Hsh Hsz Hrun Hs) as [Hb Hr]. split; [|done].
    exists data. by rewrite Hb.
  - destruct e; try (intros [= <- <-]; done).
    unfold wbind, blob_call. cbn [w_tick w_blobs].
    destruct (Stat key b1) as [[info|e] b2] eqn:Hst; [|intros [= <- <-]; done].
    destruct (stat_law _ _ _ _ Hok1 Hst) as [[_ Hsame] Hi].
    destruct (Hi info eq_refl) as (c & Hc & _ & Hsz & Hsh).
    destruct (_ || _) eqn:Hm; [intros [= <- <-]; done|].
    apply orb_false_iff in Hm as [Hm1%negb_false_iff%seqb_true Hm2%negb_false_iff%Z.eqb_eq].
    intros Hrun Hs. destruct (Hreg _ _ Hm1 Hm2 Hrun Hs) as [Hb Hr]. split; [|done].
    exists c. rewrite Hb. cbn [w_blobs]. rewrite Hsame. split; [done|]. split; congruence.
Qed.
End uploads.

Lemma metadata_world {B} env store_text cx r (w w' : world B) x :
  metadata env store_text cx r w = (x, w') → w_blobs w' = w_blobs w ∧ w_db w' = w_db w.
Proof.
  unfold metadata, wbind, read_random, wret. destruct (cx_principal cx) as [p|]; [|by intros [= _ <-]].
  destruct (is_empty _); [by intros [= _ <-]|]. destruct (is_empty _); [|by intros [= _ <-]].
  destruct (New _ _); by intros [= _ <-].
Qed.
Lemma with_meta_run {B} env store_text cx r k (w w' : world B) resp :
  requestMetaOrError env store_text cx r k w = (resp, w') →
  rs_status resp = 400 ∨
  ∃ meta w1, k meta w1 = (resp, w') ∧ w_blobs w1 = w_blobs w ∧ w_db w1 = w_db w.
Proof.
  unfold requestMetaOrError, wbind. destruct (metadata env store_text cx r w) as [[meta|e] w1] eqn:E.
  - intros Hk. right. exists meta, w1. split; [done|]. by eapply metadata_world.
  - intros [= <- _]. by left.
Qed.
(** A read of the database leaves the object store alone. *)
Lemma read_run {B A} env store_text (q : db → res A) k (w w' : world B) resp :
  store_or_error store_text (store_read env q) k w = (resp, w') →
  (rs_status resp = 404 ∨ rs_status resp = 409) ∨
  ∃ a w1, k a w1 = (resp, w') ∧ q (env_meanwhile env (w_tick w) (w_db w)) = Ok a ∧
    w_blobs w1 = w_blobs w ∧ w_db w1 = env_meanwhile env (w_tick w) (w_db w).
Proof.
  intros [(a & w1 & Hq & Hk)|[Hs _]]%store_or_error_run; [right|by left].
  unfold store_read in Hq. injection Hq as Hq <-. by eexists a, _.
Qed.

(** C19: an upload answered 201 is kept.  Its bytes have the announced digest; under the
    session's raw key the store holds an object of this digest and length (these
    bytes, or the equal object of an earlier attempt); and the database has a row
    that registers exactly that. *)
Theorem uploaded_artifact_registered {B} `{HL : BlobLaws B} (env : environment) configured store_text
    cx r (w w' : world B) resp :
  store_ok (w_blobs w) →
  uploadArtifact env configured store_text cx r w = (resp, w') → rs_status resp = 201 →
  let data := rd_data (hr_body r) in
  sha256_hex data = ToLower (TrimSpace (Header r "X-Artifact-SHA256")) ∧
  1 ≤ slen data ≤ maxArtifactBytes ∧
  (∃ c, object (w_blobs w') (artifact_key r) = Some c ∧ sha256_hex c = sha256_hex data ∧
        slen c = slen data) ∧
  registered (w_db w') (PathValue r "session_id") (artifact_key r) (sha256_hex data) (slen data).
Proof.
  intros Hok. unfold uploadArtifact. destruct configured; [|by intros [= <- <-]]. cbn [negb].
  intros Hrun Hs. apply with_meta_run in Hrun as [Hx|(meta & w1 & Hrun & Hb1 & _)]; [congruence|].
  destruct (negb _); [by injection Hrun as <- <-|].
  apply read_run in Hrun as [[Hx|Hx]|(u & w2 & Hrun & _ & Hb2 & _)]; [congruence..|].
  destruct (negb _); [by injection Hrun as <- <-|]. destruct (_ || _); [by injection Hrun as <- <-|].
  destruct (upload_type _) as [mediaType|]; [|by injection Hrun as <- <-].
  destruct (read_upload (hr_body r)) as [data|e] eqn:Hread; [|by injection Hrun as <- <-].
  destruct (Z.ltb_spec (slen data) 1) as [|Hlen]; [by injection Hrun as <- <-|].
  destruct (negb _) eqn:Hh; [by injection Hrun as <- <-|].
  apply negb_false_iff, seqb_true in Hh. rewrite <-Hh in Hrun.
  unfold read_upload in Hread.
  destruct (Z.ltb_spec maxArtifactBytes (slen (rd_data (hr_body r)))) as [|Hmax]; [done|].
  destruct (rd_err (hr_body r)); [done|]. injection Hread as Hread. subst data.
  apply commit_artifact_ok in Hrun; [|by rewrite Hb2, Hb1|done]. done.
Qed.

(** The objects agree with the registered artifacts. *)
Definition artifact_stored {B} `{BlobView B} (b : B) (a : Artifact) : Prop :=
  ∃ c, object b (art_Key a) = Some c ∧ sha256_hex c = art_SHA256 a ∧ slen c = art_Size a.

Lemma verify_artifacts_ok {B} `{HL : BlobLaws B} env l k (w w' : world B) resp :
  store_ok (w_blobs w) → verify_artifacts env l k w = (resp, w') →
  rs_status resp = 409 ∨
  ∃ w1, k w1 = (resp, w') ∧ store_ok (w_blobs w1) ∧ w_db w1 = w_db w ∧
    (∀ key, object (w_blobs w1) key = object (w_blobs w) key) ∧
    Forall (artifact_stored (w_blobs w1)) l.
Proof.
  revert w. induction l as [|a l IH]; intros w Hok; cbn [verify_artifacts].
  { intros Hk. right. by exists w. }
  unfold wbind at 1, blob_call at 1. destruct (Stat (art_Key a) (w_blobs w)) as [[info|e] b] eqn:Hst.
  2: { intros [= <- <-]. by left. }
  destruct (stat_law _ _ _ _ Hok Hst) as [[Hok1 Hsame] Hi].
  destruct (Hi info eq_refl) as (c & Hc & _ & Hsz & Hsh).
  destruct (_ || _) eqn:Hm; [intros [= <- <-]; by left|].
  apply orb_false_iff in Hm as [Hm1%negb_false_iff%seqb_true Hm2%negb_false_iff%Z.eqb_eq].
  intros [Hx|(w1 & Hk & Hok2 & Hdb & Hs2 & Hall)]%IH; [by left| |done].
  right. exists w1. cbn in *. split; [done|]. split; [done|]. split; [done|].
  assert (Hkeep : ∀ key, object (w_blobs w1) key = object (w_blobs w) key) by (intros; by rewrite Hs2).
  split; [done|]. constructor; [|done]. exists c. rewrite Hkeep. split; [done|]. split; congruence.
Qed.

Lemma SubmitSession_submits sessionID actor requestID now r d x d' :
  SubmitSession sessionID actor requestID now r d = Ok (x, d') →
  ∃ row, sessions d' !! sessionID = Some row ∧ ses_state row = SessionSubmitted.
Proof.
  unfold SubmitSession. intros H. invert_sessions.
  eexists. split; [rewrite lookup_alter_eq; by simplify_option_eq|done].
Qed.


(** ** Examples *)

Definition local_principal : context :=
  {| cx_principal := Some
       {| pr_Identity := {| id_Issuer := ModeLocal; id_Subject := "ada"; id_Email := ""; id_Name := "";
                            id_EmailVerified := false |};
          pr_Access := wildcard_access "ada"; pr_Local := true |};
     cx_trace := None |}.
Definition session_request (method : string) (values : list (string * string)) (headers : gmap string string)
    (body : string) : http_request :=
  {| hr_method := method; hr_path := "/v1/sessions/sess_1"; hr_headers := headers;
     hr_values := list_to_map (("session_id", "sess_1") :: values); hr_query := ∅;
     hr_body := NewReader body; hr_length := slen body |}.
Definition empty_store : local_store := {| ls_root := "/blobs"; ls_files := ∅; ls_dirs := {["/blobs"]} |}.
Definition local_world (d : db) (b : local_store) : world local_store :=
  {| w_db := d; w_blobs := b; w_next_sweep := 0; w_tick := 0 |}.
Definition upload_request : http_request :=
  session_request "PUT" [("artifact_path", "notes/a.txt")]
    {["X-Request-ID" := "req_1"; "Content-Type" := "text/plain; charset=utf-8";
      "X-Artifact-SHA256" := sha256_hex "hello"]} "hello".

Lemma uploaded_artifact_registered_witness :
  ∃ resp w', uploadArtifact quiet true error_text local_principal upload_request
      (local_world (set_sessions <["sess_1" := uploading_session]> empty_db) empty_store) = (resp, w') ∧
    rs_status resp = 201 ∧
    registered (w_db w') "sess_1" "raw/sessions/sess_1/notes/a.txt" (sha256_hex "hello") 5.
Proof.
  set (w := local_world _ _).
  destruct (uploadArtifact quiet true error_text local_principal upload_request w) as [resp w'] eqn:H.
  assert (Hs : rs_status resp = 201).
  { pose proof (f_equal (λ x, rs_status x.1) H) as E. cbn [fst] in E. rewrite <-E. vm_compute. reflexivity. }
  exists resp, w'. split; [reflexivity|]. split; [exact Hs|].
  destruct (uploaded_artifact_registered quiet true error_text local_principal upload_request w w' resp)
    as (_ & _ & _ & Hr); [vm_compute; reflexivity|exact H|exact Hs|exact Hr].
Defined.

Definition submission_store : local_store :=
  {| ls_root := "/blobs";
     ls_files := {["/blobs/raw/sessions/sess_1/trajectory.json" := ("{}", 5);
                   "/blobs/raw/sessions/sess_1/v.mp4" := ("video", 5);
                   "/blobs/raw/sessions/sess_1/e.ndjson" := ("events", 5)]};
     ls_dirs := {["/blobs"; "/blobs/raw"; "/blobs/raw/sessions"; "/blobs/raw/sessions/sess_1"]} |}.
Definition stored_artifact (name media content : string) : artifact_row :=
  {| arf_session_id := "sess_1"; arf_logical_key := "raw/sessions/sess_1/" +:+ name;
     arf_sha256 := sha256_hex content; arf_size_bytes := slen content; arf_media_type := media;
     arf_created_at := 5; arf_purged_at := None |}.
Definition submission_db : db :=
  set_artifacts (λ m, <["a1" := stored_artifact "trajectory.json" "application/json" "{}"]>
    (<["a2" := stored_artifact "v.mp4" "video/mp4" "video"]>
    (<["a3" := stored_artifact "e.ndjson" "application/x-ndjson" "events"]> m)))
  (set_sessions <["sess_1" := uploading_session]> empty_db).
Definition submission_request : http_request :=
  session_request "POST" [] {["X-Request-ID" := "req_1"]} "".

