(* ===== verification/Uploads.v ===== *)
(** * Resumable uploads over HTTP ([httpapi/multipart_uploads.go])

    An upload goes to a staging object in parts the client writes directly; the API
    records the parts, completes the staging object, checks its digest, promotes it to
    the session's raw key and registers it.  The store offers this only when it is a
    [MultipartUploadAuthorizer]: the R2 store is one, the local store is not. *)

From S2P Require Import Prelude Domain Text Encoding Json Schema Frame Sha256 Blob R2 Store Pipeline Redaction Multipart Identity Steps Http Files.

(** ** The interface of the store *)

Record DirectUploadAuthorization := {
  du_URL : string; du_Method : string; du_Headers : list (string * string); du_ExpiresAt : time
}.

(** The part authorization does not call the service; it takes the instant. *)
Record MultipartUploadAuthorizer (B : Type) := {
  au_Create : string → string → string → blob_op B string;
  au_Authorize : string → string → Z → Z → Z → time → result blob_error DirectUploadAuthorization;
  au_Complete : string → string → list MultipartPart → blob_op B ();
  au_Abort : string → string → blob_op B ();
  au_Promote : string → string → blob_op B ()
}.
Arguments au_Create {B}.
Arguments au_Authorize {B}.
Arguments au_Complete {B}.
Arguments au_Abort {B}.
Arguments au_Promote {B}.

(** The R2 store; [presign] is the vendor's presigner. *)
Definition R2Authorizer {S : Type} (client : r2Client S) (bucket : string)
    (presign : time → string → string → Z → Z → Z → result blob_error DirectUploadAuthorization)
    : MultipartUploadAuthorizer S := {|
  au_Create := R2.CreateMultipartUpload client bucket;
  au_Authorize key uploadID partNumber size ttl now :=
    R2.AuthorizeMultipartPart (presign now) key uploadID partNumber size ttl;
  au_Complete := R2.CompleteMultipartUpload client bucket;
  au_Abort := R2.AbortMultipartUpload client bucket;
  au_Promote := R2.PromoteMultipartUpload client bucket
|}.

(** The operations keep the invariant of the store. *)
Record authorizer_keeps {B} `{BlobView B} (au : MultipartUploadAuthorizer B) : Prop := {
  keeps_create key media sha b x b' : store_ok b → au_Create au key media sha b = (x, b') → store_ok b';
  keeps_complete key id parts b x b' : store_ok b → au_Complete au key id parts b = (x, b') → store_ok b';
  keeps_abort key id b x b' : store_ok b → au_Abort au key id b = (x, b') → store_ok b';
  keeps_promote source key b x b' : store_ok b → au_Promote au source key b = (x, b') → store_ok b'
}.

(** ** Constants and answers *)

Definition multipartStateTTL : Z := 7 * 24 * hour.

Definition etag_char (c : ascii) : bool :=
  let n := N_of_ascii c in
  ((97 <=? n) && (n <=? 122) || (65 <=? n) && (n <=? 90) || (48 <=? n) && (n <=? 57))%N
  || Ascii.eqb c "_" || Ascii.eqb c "-".
(** [multipartETagPattern]: one to 128 such characters in double quotes. *)
Fixpoint etag_rest (count : nat) (s : string) : bool :=
  match s with
  | EmptyString => false
  | String c s' =>
    if (N_of_ascii c =? 34)%N then Nat.leb 1 count && Nat.leb count 128 && is_empty s'
    else etag_char c && etag_rest (S count) s'
  end.
Definition multipartETagPattern (s : string) : bool :=
  match s with
  | String c s' => (N_of_ascii c =? 34)%N && etag_rest 0 s'
  | EmptyString => false
  end.

Definition part_json (p : MultipartUploadPart) : json :=
  JObject [("part_number", json_int (mp_Number p)); ("etag", JString (mp_ETag p));
           ("size_bytes", json_int (mp_Size p))].

Definition completed_answer (status : Z) (artifact : Artifact) : response :=
  writeJSON status (map_json [("state", JString "completed"); ("artifact", artifactResponse artifact)]).

Section uploads.
Context {B : Type} `{BlobStore B} (env : environment) (authorizer : option (MultipartUploadAuthorizer B)).
Variables (store_text : error → string) (decode_text : reader → string) (uploadTTL : Z).

Notation store m := (store_or_error store_text (store_call env m)).
Notation read q := (store_or_error store_text (store_read env q)).
Notation decode fields r k := (decodeRequest decode_text fields no_inputs r k).

Definition multipart_unavailable : response :=
  writeError 501 "multipart_upload_unavailable" "resumable direct upload is not configured for this environment".

Definition writeMultipartUpload (status : Z) (upload : MultipartUpload) : W B response :=
  let* parts := store_read env (λ d, ListMultipartUploadParts d (mu_ID upload)) in
  wret (writeJSON status (map_json
    [("upload_id", JString (mu_ID upload)); ("state", JString (mu_State upload));
     ("part_size_bytes", json_int (mu_PartSize upload));
     ("total_parts", json_int (multipartPartCount (mu_Size upload) (mu_PartSize upload)));
     ("expires_at", json_time (mu_ExpiresAt upload)); ("uploaded_parts", JArray (map part_json parts))])).

(** *** Starting *)

Definition upload_matches (input : artifactUploadRequest) (upload : MultipartUpload) : bool :=
  seqb (mu_SHA256 upload) (up_SHA256 input) && (mu_Size upload =? up_SizeBytes input)
  && seqb (mu_MediaType upload) (up_MediaType input).

(** What a new or restarted upload is stored as. *)
Definition planned_upload (id state sessionID key storageKey storageUploadID : string)
    (input : artifactUploadRequest) (now : time) : MultipartUpload :=
  {| mu_ID := id; mu_SessionID := sessionID; mu_Key := key; mu_StorageKey := storageKey;
     mu_StorageUploadID := storageUploadID; mu_SHA256 := up_SHA256 input; mu_Size := up_SizeBytes input;
     mu_MediaType := up_MediaType input; mu_PartSize := multipartPartSize; mu_State := state;
     mu_ExpiresAt := now + multipartStateTTL |}.

(** A fresh staging object: its key and the identifier the service gives. *)
Definition stage_upload (au : MultipartUploadAuthorizer B) (input : artifactUploadRequest)
    (k : string → string → W B response) : W B response :=
  let* randoms := read_random env in
  match New "stage" (randoms 0%nat) with
  | Err _ => wret (writeError 500 "upload_start_failed" "staging identity could not be generated")
  | Ok stageID =>
    let storageKey := "staging/multipart/" +:+ stageID in
    try storageUploadID := blob_call env (λ _, au_Create au storageKey (up_MediaType input) (up_SHA256 input))
      else e => wret (writeError 500 "upload_start_failed" "resumable upload could not be created") in
    k storageKey storageUploadID
  end.

Definition restart_existing (au : MultipartUploadAuthorizer B) (meta : requestMetadata)
    (input : artifactUploadRequest) (existing : MultipartUpload) (now : time) : W B response :=
  stage_upload au input (λ storageKey storageUploadID,
  let upload := planned_upload (mu_ID existing) (mu_State existing) (mu_SessionID existing)
                  (mu_Key existing) storageKey storageUploadID input now in
  let* restarted := store_call env (λ _, RestartMultipartUpload upload (md_actor meta) (md_requestID meta) now) in
  match restarted with
  | Ok upload => writeMultipartUpload 201 upload
  | Err _ =>
    let* _ := blob_call env (λ _, au_Abort au storageKey storageUploadID) in
    wret (writeError 409 "upload_restart_failed" "resumable upload state changed while it was restarting")
  end).

Definition resume_existing (au : MultipartUploadAuthorizer B) (meta : requestMetadata)
    (input : artifactUploadRequest) (existing : MultipartUpload) (now : time) : W B response :=
  if seqb (mu_State existing) "active" && After (mu_ExpiresAt existing) now then
    if negb (upload_matches input existing)
    then wret (writeError 409 "upload_conflict"
           "an active upload already exists at this path with different metadata")
    else writeMultipartUpload 200 existing
  else if seqb (mu_State existing) "completed"
  then wret (writeError 409 "upload_already_completed"
         "this upload completed but its artifact registration is unavailable")
  else if seqb (mu_State existing) "active" then
    let* _ := blob_call env (λ _, au_Abort au (mu_StorageKey existing) (mu_StorageUploadID existing)) in
    try _ := store_call env (λ _, SetMultipartUploadState (mu_ID existing) "active" "aborted" now)
      else e => wret (writeError 409 "upload_restart_failed" "the expired upload could not be restarted") in
    restart_existing au meta input (with_upload_id existing (mu_ID existing) "aborted") now
  else restart_existing au meta input existing now.

Definition begin_upload (au : MultipartUploadAuthorizer B) (meta : requestMetadata)
    (input : artifactUploadRequest) (sessionID key : string) (now : time) : W B response :=
  stage_upload au input (λ storageKey storageUploadID,
  let upload := planned_upload "" "" sessionID key storageKey storageUploadID input now in
  let* stored := store_call env (λ n, Multipart.CreateMultipartUpload upload (md_actor meta)
                                        (md_requestID meta) now (env_random env n)) in
  match stored with
  | Err _ =>
    let* _ := blob_call env (λ _, au_Abort au storageKey storageUploadID) in
    wret (writeError 500 "upload_start_failed" "resumable upload state could not be saved")
  | Ok (upload, true) => writeMultipartUpload 201 upload
  | Ok (upload, false) =>
    let* _ := blob_call env (λ _, au_Abort au storageKey storageUploadID) in
    if negb (upload_matches input upload) || negb (seqb (mu_State upload) "active")
    then wret (writeError 409 "upload_conflict" "upload state changed while the upload was starting")
    else writeMultipartUpload 200 upload
  end).

Definition upload_input (i : inputs) : artifactUploadRequest :=
  {| up_Path := text i "path"; up_SHA256 := text i "sha256"; up_SizeBytes := number i "size_bytes";
     up_MediaType := text i "media_type" |}.

Definition lookup_failed : response :=
  writeError 500 "upload_lookup_failed" "artifact upload state could not be read".

Definition startMultipartArtifactUpload : handler B := λ cx r,
  match authorizer with
  | None => wret multipart_unavailable
  | Some au =>
    decode [text_field "path"; text_field "sha256"; int_field "size_bytes"; text_field "media_type"] r (λ i,
    let input := upload_input i in
    match validateArtifactUploadRequest input with
    | Some answer => wret answer
    | None =>
      requestMetaOrError env store_text cx r (λ meta,
      let sessionID := PathValue r "session_id" in
      read (λ d, EnsureArtifactUploadAllowed d sessionID) (λ _,
      let key := "raw/sessions/" +:+ sessionID +:+ "/" +:+ up_Path input in
      let* found := store_read env (λ d, GetArtifact d sessionID key) in
      match found with
      | Ok artifact =>
        if negb (seqb (art_SHA256 artifact) (up_SHA256 input)) || negb (art_Size artifact =? up_SizeBytes input)
           || negb (seqb (art_MediaType artifact) (up_MediaType input))
        then wret (writeError 409 "artifact_conflict"
               "an artifact already exists at this path with different metadata")
        else wret (completed_answer 200 artifact)
      | Err ErrNotFound =>
        let* now := clock env in
        let* existing := store_read env (λ d, FindMultipartUpload d sessionID key) in
        match existing with
        | Ok existing => resume_existing au meta input existing now
        | Err ErrNotFound => begin_upload au meta input sessionID key now
        | Err _ => wret lookup_failed
        end
      | Err _ => wret lookup_failed
      end))
    end)
  end.

(** *** Parts *)

Definition validMultipartPart (r : http_request) (suppliedSize : Z)
    (k : MultipartUpload → Z → Z → W B response) : W B response :=
  let sessionID := PathValue r "session_id" in
  read (λ d, EnsureArtifactUploadAllowed d sessionID) (λ _,
  read (λ d, GetMultipartUpload d sessionID (PathValue r "upload_id")) (λ upload,
  let* now := clock env in
  if negb (seqb (mu_State upload) "active") || negb (After (mu_ExpiresAt upload) now)
  then wret (writeError 409 "upload_not_active" "multipart upload is not active")
  else match parsePositiveInt32 (PathValue r "part_number") with
       | None => wret (writeError 400 "invalid_part_number" "part number must be a positive integer")
       | Some partNumber =>
         let expected := multipartExpectedPartSize (mu_Size upload) (mu_PartSize upload) partNumber in
         if (expected <? 1) || negb (suppliedSize =? expected)
         then wret (writeError 400 "invalid_part_size" "part size does not match this upload's part plan")
         else k upload partNumber expected
       end)).

Notation decode_part r k := (decode [int_field "size_bytes"; text_field "etag"] r k).

Definition authorizeMultipartArtifactPart : handler B := λ _ r,
  match authorizer with
  | None => wret multipart_unavailable
  | Some au =>
    decode_part r (λ i,
    validMultipartPart r (number i "size_bytes") (λ upload partNumber expected,
    let* now := clock env in
    wret (match au_Authorize au (mu_StorageKey upload) (mu_StorageUploadID upload) partNumber expected
                  uploadTTL now with
          | Err _ => writeError 500 "part_authorization_failed" "multipart part could not be authorized"
          | Ok authorization =>
            writeJSON 201 (map_json
              [("part_number", json_int partNumber); ("size_bytes", json_int expected);
               ("url", JString (du_URL authorization)); ("method", JString (du_Method authorization));
               ("headers", map_json (map (λ kv, (kv.1, JString kv.2)) (du_Headers authorization)));
               ("expires_at", json_time (du_ExpiresAt authorization))])
          end)))
  end.

Definition completeMultipartArtifactPart : handler B := λ _ r,
  decode_part r (λ i,
  validMultipartPart r (number i "size_bytes") (λ upload partNumber expected,
  if negb (multipartETagPattern (text i "etag"))
  then wret (writeError 400 "invalid_part_etag" "etag must be a quoted storage entity tag")
  else
    let part := {| mp_Number := partNumber; mp_ETag := text i "etag"; mp_Size := expected |} in
    let* now := clock env in
    store (λ _, RecordMultipartUploadPart (mu_ID upload) part now) (λ _,
    wret (writeJSON 200 (part_json part))))).

(** *** Completion *)

Definition info_is (info : BlobInfo) (upload : MultipartUpload) : bool :=
  (bi_Size info =? mu_Size upload) && seqb (bi_SHA256 info) (mu_SHA256 upload).
Definition stat_is (stat : result blob_error BlobInfo) (upload : MultipartUpload) : bool :=
  match stat with Ok info => info_is info upload | Err _ => false end.

Definition mismatch (message : string) : response := writeError 422 "uploaded_artifact_mismatch" message.
Definition declared_mismatch : response :=
  mismatch "uploaded bytes do not match the declared size and SHA-256".

(** The staged bytes are wrong: they and the upload are given up. *)
Definition discard_staged (upload : MultipartUpload) : W B response :=
  let* _ := blob_call env (λ _, Delete (mu_StorageKey upload)) in
  let* now := clock env in
  let* _ := store_call env (λ _, SetMultipartUploadState (mu_ID upload) "active" "aborted" now) in
  wret declared_mismatch.

(** The committed object is checked, registered, and the upload closed. *)
Definition register_upload (meta : requestMetadata) (sessionID : string) (upload : MultipartUpload)
    : W B response :=
  let* stat := blob_call env (λ _, Stat (mu_Key upload)) in
  match stat with
  | Ok info =>
    if negb (info_is info upload)
    then wret (mismatch "committed artifact does not match the declared size and SHA-256")
    else
      let* _ := blob_call env (λ _, Delete (mu_StorageKey upload)) in
      register_blob env store_text meta sessionID (mu_Key upload) (mu_MediaType upload) info (λ artifact,
      let* now := clock env in
      try _ := store_call env (λ _, SetMultipartUploadState (mu_ID upload) "active" "completed" now)
        else e => wret (writeError 500 "upload_state_failed"
               "artifact was committed but upload state could not be finalized") in
      wret (completed_answer 201 artifact))
  | Err _ => wret (mismatch "committed artifact does not match the declared size and SHA-256")
  end.

Definition promote_staged (au : MultipartUploadAuthorizer B) (upload : MultipartUpload)
    (k : W B response) : W B response :=
  let* promoted := blob_call env (λ _, au_Promote au (mu_StorageKey upload) (mu_Key upload)) in
  match promoted with
  | Ok _ | Err ErrImmutableRaw => k
  | Err _ =>
    wret (writeError 500 "upload_promotion_failed"
      "verified artifact could not be committed to immutable storage")
  end.

(** A staged object that is already complete is used again. *)
Definition complete_staged (au : MultipartUploadAuthorizer B) (upload : MultipartUpload)
    (parts : list MultipartUploadPart) (k : W B response) : W B response :=
  let* staged := blob_call env (λ _, Stat (mu_StorageKey upload)) in
  if stat_is staged upload then promote_staged au upload k
  else if is_ok staged then discard_staged upload
  else
    let completed := map (λ p, {| mp_PartNumber := mp_Number p; mp_PartETag := mp_ETag p |}) parts in
    try _ := blob_call env (λ _, au_Complete au (mu_StorageKey upload) (mu_StorageUploadID upload) completed)
      else e => wret (writeError 422 "upload_completion_failed" "storage rejected the multipart completion") in
    let* staged := blob_call env (λ _, Stat (mu_StorageKey upload)) in
    if stat_is staged upload then promote_staged au upload k else discard_staged upload.

Definition completeMultipartArtifactUpload : handler B := λ cx r,
  match authorizer with
  | None => wret multipart_unavailable
  | Some au =>
    requestMetaOrError env store_text cx r (λ meta,
    let sessionID := PathValue r "session_id" in
    read (λ d, EnsureArtifactUploadAllowed d sessionID) (λ _,
    read (λ d, GetMultipartUpload d sessionID (PathValue r "upload_id")) (λ upload,
    let* now := clock env in
    if negb (seqb (mu_State upload) "active") || negb (After (mu_ExpiresAt upload) now)
    then wret (writeError 409 "upload_not_active" "multipart upload is not active")
    else
      let* parts := store_read env (λ d, ListMultipartUploadParts d (mu_ID upload)) in
      let totalParts := multipartPartCount (mu_Size upload) (mu_PartSize upload) in
      if negb (Z.of_nat (length parts) =? totalParts)
      then wret (writeError 409 "upload_incomplete"
             ("multipart upload has " +:+ Sprint (Z.of_nat (length parts)) +:+ " of "
              +:+ Sprint totalParts +:+ " required parts"))
      else if negb (parts_match (mu_Size upload) (mu_PartSize upload) 0 parts)
      then wret (writeError 409 "upload_incomplete" "multipart upload parts are incomplete or inconsistent")
      else
        let* raw := blob_call env (λ _, Stat (mu_Key upload)) in
        if stat_is raw upload then register_upload meta sessionID upload
        else if is_ok raw
        then wret (writeError 409 "artifact_conflict"
               "immutable storage already contains different bytes at this artifact path")
        else complete_staged au upload parts (register_upload meta sessionID upload))))
  end.

Definition abortMultipartArtifactUpload : handler B := λ _ r,
  match authorizer with
  | None => wret multipart_unavailable
  | Some au =>
    let sessionID := PathValue r "session_id" in
    read (λ d, EnsureArtifactUploadAllowed d sessionID) (λ _,
    read (λ d, GetMultipartUpload d sessionID (PathValue r "upload_id")) (λ upload,
    if negb (seqb (mu_State upload) "active") then wret no_content
    else
      try _ := blob_call env (λ _, au_Abort au (mu_StorageKey upload) (mu_StorageUploadID upload))
        else e => wret (writeError 500 "upload_abort_failed" "multipart upload could not be aborted") in
      let* now := clock env in
      store (λ _, SetMultipartUploadState (mu_ID upload) "active" "aborted" now) (λ _,
      wret no_content)))
  end.
End uploads.

(** ** A completed upload is kept *)

(** Results of the two checks of the object under a key. *)
Lemma stat_is_ok stat upload :
  stat_is stat upload = true →
  ∃ info, stat = Ok info ∧ bi_Size info = mu_Size upload ∧ bi_SHA256 info = mu_SHA256 upload.
Proof.
  destruct stat as [info|]; [|done]. cbn. unfold info_is.
  rewrite andb_true_iff, Z.eqb_eq, seqb_true. intros [H1 H2]. by exists info.
Qed.

Section completion.
Context {B : Type} `{HL : BlobLaws B} (env : environment) (store_text : error → string).
Context (au : MultipartUploadAuthorizer B) (Hau : authorizer_keeps au).

(** Registrations stay while other clients work. *)
Definition others_keep_artifacts : Prop :=
  ∀ n d sessionID key sha size, registered d sessionID key sha size →
    registered (env_meanwhile env n d) sessionID key sha size.
(** What a step of the handler that answers 201 has reached. *)
Definition completes (upload : MultipartUpload) (sessionID : string) (w : world B) : Prop :=
  (∃ c, object (w_blobs w) (mu_Key upload) = Some c ∧ sha256_hex c = mu_SHA256 upload ∧
        slen c = mu_Size upload) ∧
  registered (w_db w) sessionID (mu_Key upload) (mu_SHA256 upload) (mu_Size upload) ∧
  (∃ row, artifact_multipart_uploads (w_db w) !! mu_ID upload = Some row ∧ mpu_state row = "completed").

Lemma SetMultipartUploadState_ok id from to now d u d' :
  SetMultipartUploadState id from to now d = Ok (u, d') →
  artifacts d' = artifacts d ∧
  ∃ row, artifact_multipart_uploads d' !! id = Some row ∧ mpu_state row = to.
Proof using Type.
  unfold SetMultipartUploadState, upload_in_state. intros Hrun. stmt_inv. insert_inv. db_simpl.
  split; [done|]. eexists. split; [rewrite lookup_alter_eq; by simplify_option_eq|done].
Qed.

Lemma register_upload_completes meta sessionID upload (w w' : world B) resp :
  others_keep_artifacts → store_ok (w_blobs w) →
  register_upload env store_text meta sessionID upload w = (resp, w') → rs_status resp = 201 →
  completes upload sessionID w'.
Proof using HL.
  intros Hothers Hok. unfold register_upload. unfold wbind at 1, blob_call at 1.
  destruct (Stat (mu_Key upload) (w_blobs w)) as [[info|e] b1] eqn:Hst; [|by intros [= <- <-]].
  destruct (stat_law _ _ _ _ Hok Hst) as [[Hok1 Hsame] Hi].
  destruct (Hi info eq_refl) as (c & Hc & _ & Hsz & Hsh).
  destruct (negb (info_is info upload)) eqn:Hinfo; [by intros [= <- <-]|].
  apply negb_false_iff in Hinfo. unfold info_is in Hinfo.
  rewrite andb_true_iff, Z.eqb_eq, seqb_true in Hinfo. destruct Hinfo as [Hz Hs].
  unfold wbind at 1, blob_call at 1. cbn [w_blobs w_tick w_db w_next_sweep].
  destruct (Delete (mu_StorageKey upload) b1) as [x2 b2] eqn:Hdel.
  destruct (delete_law _ _ _ _ Hok1 Hdel) as ([Hok2 Hkeep] & Hdraw & _).
  intros Hrun Hstatus.
  apply register_blob_run in Hrun as [[Hx|Hx]|(a & w2 & Hk & Hb & Hr & Hraw)]; [congruence..|].
  assert (Hobj : object b2 (mu_Key upload) = Some c).
  { rewrite <-Hc, <-(Hsame (mu_Key upload)).
    destruct (decide (mu_Key upload = mu_StorageKey upload)) as [Heq|Hne]; [|by apply Hkeep].
    rewrite Heq in Hraw |- *. by apply Hdraw. }
  unfold wbind in Hk. cbn [clock] in Hk. unfold store_call in Hk. cbn [w_tick w_db] in Hk.
  destruct (run_tx _ _) as [[u|e] d3] eqn:Hset; [|by injection Hk as <- <-].
  injection Hk as <- <-. unfold run_tx in Hset.
  destruct (SetMultipartUploadState _ _ _ _ _) as [[u' d4]|e] eqn:E; [|done].
  injection Hset as _ <-. apply SetMultipartUploadState_ok in E as [E Hrow].
  split; [|split; [|exact Hrow]]; cbn [w_blobs w_db].
  - exists c. rewrite Hb. cbn [w_blobs]. split; [done|]. split; congruence.
  - unfold registered. rewrite E. rewrite <-Hs, <-Hz. by apply Hothers.
Qed.

Lemma promote_completes meta sessionID upload (w w' : world B) resp :
  others_keep_artifacts → store_ok (w_blobs w) →
  promote_staged env au upload (register_upload env store_text meta sessionID upload) w = (resp, w') →
  rs_status resp = 201 → completes upload sessionID w'.
Proof using HL Hau.
  intros Hothers Hok. unfold promote_staged, wbind, blob_call.
  destruct (au_Promote au _ _ _) as [p b1] eqn:Hp. pose proof (keeps_promote _ Hau _ _ _ _ _ Hok Hp).
  destruct p as [u|e]; [|destruct e; try by intros [= <- <-]]; by apply register_upload_completes.
Qed.

Lemma discard_staged_status upload (w w' : world B) resp :
  discard_staged env upload w = (resp, w') → rs_status resp = 422.
Proof using Type.
  unfold discard_staged, wbind, blob_call, clock. destruct (Delete _ _) as [u b].
  destruct (store_call _ _ _) as [v w1]. by intros [= <- <-].
Qed.

Lemma complete_staged_completes meta sessionID upload parts (w w' : world B) resp :
  others_keep_artifacts → store_ok (w_blobs w) →
  complete_staged env au upload parts (register_upload env store_text meta sessionID upload) w
    = (resp, w') →
  rs_status resp = 201 → completes upload sessionID w'.
Proof using HL Hau.
  intros Hothers Hok. unfold complete_staged. unfold wbind at 1, blob_call at 1.
  destruct (Stat _ _) as [staged b1] eqn:Hst. destruct (stat_law _ _ _ _ Hok Hst) as [[Hok1 _] _].
  destruct (stat_is staged upload); [by apply promote_completes|].
  destruct (is_ok staged).
  { intros Hd Hs. apply discard_staged_status in Hd. congruence. }
  unfold wbind at 1, blob_call at 1. cbn [w_blobs w_tick w_db w_next_sweep].
  destruct (au_Complete au _ _ _ _) as [done b2] eqn:Hc. pose proof (keeps_complete _ Hau _ _ _ _ _ _ Hok1 Hc) as Hok2.
  destruct done as [u|e]; [|by intros [= <- <-]].
  unfold wbind at 1, blob_call at 1. cbn [w_blobs w_tick w_db w_next_sweep].
  destruct (Stat _ b2) as [staged2 b3] eqn:Hst2. destruct (stat_law _ _ _ _ Hok2 Hst2) as [[Hok3 _] _].
  destruct (stat_is staged2 upload); [by apply promote_completes|].
  intros Hd Hs. apply discard_staged_status in Hd. congruence.
Qed.
End completion.


(** An upload whose service completed the staging object before the API could record
    it. *)
Definition staged_upload : multipart_upload_row :=
  {| mpu_session_id := "sess_1"; mpu_logical_key := "raw/sessions/sess_1/v.mp4";
     mpu_storage_key := "staging/multipart/stage_1"; mpu_storage_upload_id := "service-1";
     mpu_sha256 := sha256_hex "video"; mpu_size_bytes := 5; mpu_media_type := "video/mp4";
     mpu_part_size_bytes := multipartPartSize; mpu_state := "active"; mpu_expires_at := 1000;
     mpu_created_at := 1; mpu_updated_at := 1 |}.
Definition staged_db : db :=
  set_artifact_multipart_parts <[("upload_1", 1) :=
    {| mpp_etag := "e1"; mpp_size_bytes := 5; mpp_created_at := 2 |}]>
  (set_artifact_multipart_uploads <["upload_1" := staged_upload]>
  (set_sessions <["sess_1" := uploading_session]> empty_db)).
Definition staged_world : world memory :=
  {| w_db := staged_db; w_blobs := {[("artifacts", "staging/multipart/stage_1") := "video"]};
     w_next_sweep := 0; w_tick := 0 |}.
Definition memory_authorizer : MultipartUploadAuthorizer memory :=
  R2Authorizer memory_client "artifacts" (λ _ _ _ _ _ _, Err (ErrRemote "not signed")).
Definition completion_request : http_request :=
  session_request "POST" [("upload_id", "upload_1")] {["X-Request-ID" := "req_1"]} "".

