(* ===== verification/Governance.v ===== *)
(** * Handlers of reviews, redactions, erasure and retention
      ([httpapi/reviews.go], [httpapi/redaction.go], [httpapi/erasure.go],
      [httpapi/retention.go]) *)

From S2P Require Import Prelude Domain Text Encoding Json Schema Blob Store Redaction Review Erasure Retention Identity Steps Http Catalog Files.

(** ** Inputs *)

Definition zero_region : RedactionRegion :=
  {| rg_StartNS := 0; rg_EndNS := 0; rg_X := zero64; rg_Y := zero64; rg_Width := zero64;
     rg_Height := zero64; rg_Kind := "" |}.
Definition region_fields : list (string * decoder RedactionRegion) :=
  [("start_ns", on_field rg_StartNS (λ v r,
      {| rg_StartNS := v; rg_EndNS := rg_EndNS r; rg_X := rg_X r; rg_Y := rg_Y r;
         rg_Width := rg_Width r; rg_Height := rg_Height r; rg_Kind := rg_Kind r |}) decode_int64);
   ("end_ns", on_field rg_EndNS (λ v r,
      {| rg_StartNS := rg_StartNS r; rg_EndNS := v; rg_X := rg_X r; rg_Y := rg_Y r;
         rg_Width := rg_Width r; rg_Height := rg_Height r; rg_Kind := rg_Kind r |}) decode_int64);
   ("x", on_field rg_X (λ v r,
      {| rg_StartNS := rg_StartNS r; rg_EndNS := rg_EndNS r; rg_X := v; rg_Y := rg_Y r;
         rg_Width := rg_Width r; rg_Height := rg_Height r; rg_Kind := rg_Kind r |}) decode_float64);
   ("y", on_field rg_Y (λ v r,
      {| rg_StartNS := rg_StartNS r; rg_EndNS := rg_EndNS r; rg_X := rg_X r; rg_Y := v;
         rg_Width := rg_Width r; rg_Height := rg_Height r; rg_Kind := rg_Kind r |}) decode_float64);
   ("width", on_field rg_Width (λ v r,
      {| rg_StartNS := rg_StartNS r; rg_EndNS := rg_EndNS r; rg_X := rg_X r; rg_Y := rg_Y r;
         rg_Width := v; rg_Height := rg_Height r; rg_Kind := rg_Kind r |}) decode_float64);
   ("height", on_field rg_Height (λ v r,
      {| rg_StartNS := rg_StartNS r; rg_EndNS := rg_EndNS r; rg_X := rg_X r; rg_Y := rg_Y r;
         rg_Width := rg_Width r; rg_Height := v; rg_Kind := rg_Kind r |}) decode_float64);
   ("kind", on_field rg_Kind (λ v r,
      {| rg_StartNS := rg_StartNS r; rg_EndNS := rg_EndNS r; rg_X := rg_X r; rg_Y := rg_Y r;
         rg_Width := rg_Width r; rg_Height := rg_Height r; rg_Kind := v |}) decode_string)].

Definition zero_redaction_segment : RedactionSegment :=
  {| sg_SegmentID := ""; sg_SourceKey := ""; sg_Decision := ""; sg_Regions := [] |}.
Definition redaction_segment_fields : list (string * decoder RedactionSegment) :=
  [("segment_id", on_field sg_SegmentID (λ v s,
      {| sg_SegmentID := v; sg_SourceKey := sg_SourceKey s; sg_Decision := sg_Decision s;
         sg_Regions := sg_Regions s |}) decode_string);
   ("source_key", on_field sg_SourceKey (λ v s,
      {| sg_SegmentID := sg_SegmentID s; sg_SourceKey := v; sg_Decision := sg_Decision s;
         sg_Regions := sg_Regions s |}) decode_string);
   ("decision", on_field sg_Decision (λ v s,
      {| sg_SegmentID := sg_SegmentID s; sg_SourceKey := sg_SourceKey s; sg_Decision := v;
         sg_Regions := sg_Regions s |}) decode_string);
   ("regions", on_field sg_Regions (λ v s,
      {| sg_SegmentID := sg_SegmentID s; sg_SourceKey := sg_SourceKey s;
         sg_Decision := sg_Decision s; sg_Regions := v |})
      (decode_slice zero_region (decode_struct true region_fields)))].

(** The body of a plan; the copy into [domain.RedactionDocument] keeps the fields. *)
Definition zero_plan : RedactionDocument := {| rd_SchemaVersion := ""; rd_Segments := [] |}.
Definition plan_fields : list (string * decoder RedactionDocument) :=
  [("schema_version", on_field rd_SchemaVersion
      (λ v d, {| rd_SchemaVersion := v; rd_Segments := rd_Segments d |}) decode_string);
   ("segments", on_field rd_Segments
      (λ v d, {| rd_SchemaVersion := rd_SchemaVersion d; rd_Segments := v |})
      (decode_slice zero_redaction_segment (decode_struct true redaction_segment_fields)))].

(** A pointer to a struct: [null] makes it nil. *)
Definition decode_pointer {A} (zero : A) (dec : decoder A) : decoder (option A) := λ v old,
  match v with
  | JNull => (None, false)
  | _ => let '(x, e) := dec v (default zero old) in (Some x, e)
  end.

Record review_input := { vi_inputs : inputs; vi_RedactionPlan : option RedactionDocument }.
Definition of_inputs (f : string * decoder inputs) : string * decoder review_input :=
  (f.1, on_field vi_inputs (λ v i, {| vi_inputs := v; vi_RedactionPlan := vi_RedactionPlan i |}) f.2).
Definition review_fields : list (string * decoder review_input) :=
  (map of_inputs [text_field "reviewer_id"; text_field "rubric_version"; raw_field "scores";
                  text_field "comments"; text_field "decision"; text_field "pii_review"]
   ++ [("redaction_plan", on_field vi_RedactionPlan
          (λ v i, {| vi_inputs := vi_inputs i; vi_RedactionPlan := v |})
          (decode_pointer zero_plan (decode_struct true plan_fields)))])%list.

(** ** Answers *)

(** A value decoded into [any] and written again: numbers pass through [float64]; a
    number out of range stays nil. *)
Fixpoint through_float (v : json) : json :=
  match v with
  | JNumber t =>
    match ParseFloat t with Some f => JNumber (default "" (format_float f)) | None => JNull end
  | JArray l => JArray (map through_float l)
  | JObject l => JObject (map (λ kv, (kv.1, through_float kv.2)) l)
  | _ => v
  end.

Definition reviewResponse (review : Review) : json :=
  map_json
    [("id", JString (rv_ID review)); ("session_id", JString (rv_SessionID review));
     ("reviewer_id", JString (rv_ReviewerID review));
     ("rubric_version", JString (rv_RubricVersion review));
     ("scores", match rv_Scores review with Some v => through_float (generic v) | None => JNull end);
     ("comments", JString (rv_Comments review)); ("decision", JString (rv_Decision review));
     ("pii_review", JString (rv_PIIReview review)); ("created_at", json_time (rv_CreatedAt review))].

Definition queue_item_json (i : ReviewQueueItem) : json :=
  JObject
    [("session_id", JString (ri_SessionID i)); ("task_id", JString (ri_TaskID i));
     ("goal", JString (ri_Goal i)); ("category", JString (ri_Category i));
     ("difficulty", JString (ri_Difficulty i)); ("contributor_id", JString (ri_ContributorID i));
     ("normalized_key", JString (ri_NormalizedKey i)); ("ready_since", json_time (ri_ReadySince i))].

Definition region_answer (r : RedactionRegion) : json :=
  map_json [("start_ns", json_int (rg_StartNS r)); ("end_ns", json_int (rg_EndNS r));
            ("x", float_json (rg_X r)); ("y", float_json (rg_Y r)); ("width", float_json (rg_Width r));
            ("height", float_json (rg_Height r)); ("kind", JString (rg_Kind r))].
Definition segment_answer (s : RedactionSegment) : json :=
  map_json [("segment_id", JString (sg_SegmentID s)); ("source_key", JString (sg_SourceKey s));
            ("decision", JString (sg_Decision s));
            ("regions", JArray (map region_answer (sg_Regions s)))].
Definition redactionPlanResponse (plan : RedactionPlan) : json :=
  map_json
    [("id", JString (pl_ID plan)); ("session_id", JString (pl_SessionID plan));
     ("reviewer_id", JString (pl_ReviewerID plan)); ("version", json_int (pl_Version plan));
     ("schema_version", JString (pl_SchemaVersion plan));
     ("document_hash", JString (pl_DocumentHash plan));
     ("segments", JArray (map segment_answer (rd_Segments (pl_Document plan))));
     ("created_at", json_time (pl_CreatedAt plan))].
Definition redactionJobResponse (job : RedactionJob) : json :=
  map_json
    ([("id", JString (rj_ID job)); ("plan_id", JString (rj_PlanID job));
      ("session_id", JString (rj_SessionID job)); ("state", JString (rj_State job));
      ("attempt", json_int (rj_Attempt job)); ("available_at", json_time (rj_AvailableAt job));
      ("output_manifest_key", JString (rj_OutputManifestKey job))]
     ++ (if 0 <? rj_ManualRequeues job then [("manual_requeues", json_int (rj_ManualRequeues job))] else [])
     ++ (if is_empty (rj_LastError job) then [] else [("last_error", JString (rj_LastError job))])
     ++ when_shown "dead_lettered_at" (rj_DeadLetteredAt job))%list.

Definition legalHoldResponse (hold : LegalHold) : json :=
  map_json [("id", JString (lh_ID hold)); ("organization_id", JString (lh_OrganizationID hold));
            ("session_id", JString (lh_SessionID hold)); ("reason", JString (lh_Reason hold));
            ("placed_by", JString (lh_PlacedBy hold)); ("placed_at", json_time (lh_PlacedAt hold))].
Definition deletionRequestResponse (q : DeletionRequest) : json :=
  map_json
    ([("id", JString (dr_ID q)); ("organization_id", JString (dr_OrganizationID q));
      ("session_id", JString (dr_SessionID q)); ("reason", JString (dr_Reason q));
      ("state", JString (dr_State q));
      ("object_count", json_int (Z.of_nat (length (dr_ObjectKeys q))));
      ("attempt", json_int (dr_Attempt q)); ("manual_requeues", json_int (dr_ManualRequeues q));
      ("requested_by", JString (dr_RequestedBy q)); ("requested_at", json_time (dr_RequestedAt q))]
     ++ (if is_empty (dr_LastError q) then [] else [("last_error", JString (dr_LastError q))]))%list.
Definition retentionPolicyResponse (p : RetentionPolicy) : json :=
  map_json [("organization_id", JString (rp_OrganizationID p)); ("raw_days", json_int (rp_RawDays p));
            ("derived_days", json_int (rp_DerivedDays p)); ("release_days", json_int (rp_ReleaseDays p));
            ("updated_by", JString (rp_UpdatedBy p)); ("created_at", json_time (rp_CreatedAt p));
            ("updated_at", json_time (rp_UpdatedAt p))].
Definition retentionPurgeResponse (q : RetentionPurgeRequest) : json :=
  map_json
    [("id", JString (rq_ID q)); ("organization_id", JString (rq_OrganizationID q));
     ("resource_type", JString (rq_ResourceType q)); ("resource_id", JString (rq_ResourceID q));
     ("state", JString (rq_State q)); ("attempt", json_int (rq_Attempt q));
     ("object_count", json_int (Z.of_nat (length (rq_ObjectKeys q))));
     ("policy_updated_at", json_time (rq_PolicyUpdatedAt q));
     ("available_at", json_time (rq_AvailableAt q)); ("requested_at", json_time (rq_RequestedAt q));
     ("last_error", JString (rq_LastError q))].

(** ** Handlers *)

Section governance.
Context {B : Type} (env : environment).
Variables (store_text : error → string) (decode_text : reader → string).

Notation with_meta cx r k := (requestMetaOrError env store_text cx r k).
Notation with_meta_401 cx r k := (metadata_or_401 env store_text cx r k).
Notation decode fields r k := (decodeRequest decode_text fields no_inputs r k).
Notation read q := (store_or_error store_text (store_read env q)).

(** A store call some of whose errors have answers of their own. *)
Definition store_answering {A} (m : W B (res A)) (answers : error → option response)
    (k : A → W B response) : W B response :=
  try a := m else e => wret (default (respondStoreError store_text e) (answers e)) in k a.
Definition answer (status : Z) (code : string) (e : error) : option response :=
  Some (writeError status code (store_text e)).

(** *** Reviews *)

(** [None] for the default of 50. *)
Definition queue_limit (supplied : string) : option Z :=
  if is_empty supplied then Some 50
  else match ParseInt supplied with
       | Some n => if (n <? 1) || (200 <? n) then None else Some n
       | None => None
       end.

Definition listReviewQueue : handler B := λ cx r,
  match queue_limit (Query r "limit") with
  | None => wret (writeError 400 "invalid_limit" "limit must be between 1 and 200")
  | Some limit =>
    let* now := clock env in
    read (λ d, if pr_Local (current cx) then ListReviewQueue d now limit
               else ListReviewQueueForOrganizations d now limit
                      (OrganizationIDsForRoles (pr_Access (current cx)) ["admin"; "reviewer"])) (λ items,
    wret (writeJSON 200 (map_json [("sessions", JArray (map queue_item_json items))])))
  end.

Definition reviewer_mismatch (what : string) : response :=
  writeError 403 "reviewer_mismatch" ("reviewers may only " +:+ what).

(** [time.Duration(input.LeaseSeconds) * time.Second], in 64 bits. *)
Definition lease_duration (leaseSeconds : Z) : Z :=
  wrap_int64 ((if leaseSeconds =? 0 then 30 * 60 else leaseSeconds) * second).

Definition claimReview : handler B := λ cx r,
  decode [text_field "reviewer_id"; int_field "lease_seconds"] r (λ i,
  with_meta cx r (λ meta,
  let reviewerID := text i "reviewer_id" in
  if is_empty reviewerID || negb (seqb reviewerID (md_actor meta))
  then wret (reviewer_mismatch "claim work for their own actor identity")
  else
    let* now := clock env in
    store_answering
      (store_call env (λ _, ClaimReview (PathValue r "session_id") reviewerID (md_actor meta)
         (md_requestID meta) (lease_duration (number i "lease_seconds")) now))
      (λ e, match e with ErrReviewClaimed => answer 409 "review_already_claimed" e | _ => None end)
      (λ claim, wret (writeJSON 200 (map_json
         [("session_id", JString (rc_SessionID claim)); ("reviewer_id", JString (rc_ReviewerID claim));
          ("claimed_at", json_time (rc_ClaimedAt claim)); ("expires_at", json_time (rc_ExpiresAt claim))]))))).

Definition releaseReview : handler B := λ cx r,
  with_meta cx r (λ meta,
  let reviewerID := Query r "reviewer_id" in
  if is_empty reviewerID || negb (seqb reviewerID (md_actor meta))
  then wret (reviewer_mismatch "release their own claim")
  else
    let* now := clock env in
    store_answering
      (store_call env (λ _, ReleaseReview (PathValue r "session_id") reviewerID (md_actor meta)
         (md_requestID meta) now))
      (λ e, match e with ErrReviewLease => answer 409 "review_lease_invalid" e | _ => None end)
      (λ _, wret no_content)).

Definition submitted_review (r : http_request) (i : review_input) : Review :=
  let input := vi_inputs i in
  {| rv_ID := ""; rv_SessionID := PathValue r "session_id"; rv_ReviewerID := text input "reviewer_id";
     rv_RubricVersion := text input "rubric_version"; rv_Decision := text input "decision";
     rv_Comments := text input "comments"; rv_PIIReview := text input "pii_review";
     rv_Scores := raw_value input "scores"; rv_RedactionDocument := vi_RedactionPlan i;
     rv_CreatedAt := 0 |}.

Definition review_answers (e : error) : option response :=
  match e with
  | ErrReviewLease => answer 409 "review_lease_invalid" e
  | ErrPIIGate => answer 422 "pii_gate_failed" e
  | ErrInvalidRedactionPlan _ | ErrRedactionEligibility => answer 422 "redaction_plan_rejected" e
  | ErrDeletionPending => answer 409 "deletion_pending" e
  | _ => None
  end.

Definition submitReview : handler B := λ cx r,
  decodeRequest decode_text review_fields {| vi_inputs := no_inputs; vi_RedactionPlan := None |} r (λ i,
  with_meta cx r (λ meta,
  let reviewerID := text (vi_inputs i) "reviewer_id" in
  if is_empty reviewerID || negb (seqb reviewerID (md_actor meta))
  then wret (reviewer_mismatch "submit reviews for their own actor identity")
  else
    let* now := clock env in
    store_answering
      (store_call env (λ n, SubmitReview (submitted_review r i) (md_actor meta) (md_requestID meta) now
         (env_randoms env n 0%nat) (env_randoms env n 1%nat) (env_randoms env n 2%nat)
         (env_randoms env n 3%nat)))
      review_answers
      (λ result, wret (writeJSON 201 (map_json
         [("review", reviewResponse result.1); ("session", sessionResponse result.2);
          ("redaction_queued", JBool (bool_decide (is_Some (vi_RedactionPlan i))))]))))).

Definition listReviews : handler B := λ _ r,
  let* reviews := store_read env (λ d, ListReviews d (PathValue r "session_id")) in
  wret (writeJSON 200 (map_json [("reviews", JArray (map reviewResponse reviews))])).

(** *** Redactions *)

Definition plan_answers (e : error) : option response :=
  match e with
  | ErrRedactionEligibility => answer 422 "redaction_ineligible" e
  | ErrInvalidRedactionPlan _ => answer 400 "invalid_redaction_plan" e
  | ErrRedactionConflict => answer 409 "redaction_request_conflict" e
  | ErrDeletionPending => answer 409 "deletion_pending" e
  | _ => None
  end.

Definition createRedactionPlan : handler B := λ cx r,
  decodeRequest decode_text plan_fields zero_plan r (λ document,
  with_meta cx r (λ meta,
  let* now := clock env in
  store_answering
    (store_call env (λ n, CreateRedactionPlan
       {| pl_ID := ""; pl_SessionID := PathValue r "session_id"; pl_ReviewerID := md_actor meta;
          pl_SchemaVersion := ""; pl_DocumentHash := ""; pl_Version := 0; pl_Document := document;
          pl_CreatedAt := 0 |} (md_actor meta) (md_requestID meta) now
       (env_randoms env n 0%nat) (env_randoms env n 1%nat)))
    plan_answers
    (λ result, wret (writeJSON 201 (map_json [("plan", redactionPlanResponse result.1);
                                              ("job", redactionJobResponse result.2)]))))).

Definition listRedactionPlans : handler B := λ _ r,
  let* plans := store_read env (λ d, ListRedactionPlans d (PathValue r "session_id")) in
  wret (writeJSON 200 (map_json [("plans", JArray (map redactionPlanResponse plans))])).

Definition listDeadLetterRedactionJobs : handler B := λ cx _,
  let* jobs := store_read env (λ d, ListDeadLetterRedactionJobs d (listing_scope cx ["admin"])) in
  wret (writeJSON 200 (map_json [("jobs", JArray (map redactionJobResponse jobs))])).

Definition retryDeadLetterRedactionJob : handler B := λ cx r,
  with_meta cx r (λ meta,
  let* now := clock env in
  store_answering
    (store_call env (λ _, RetryDeadLetterRedactionJob (PathValue r "job_id") (md_actor meta)
       (md_requestID meta) now))
    (λ e, match e with
          | ErrRedactionNotDead => answer 409 "redaction_job_not_dead_lettered" e
          | ErrDeletionPending => answer 409 "deletion_pending" e
          | _ => None
          end)
    (λ job, wret (writeJSON 200 (redactionJobResponse job)))).

(** *** Erasure *)

Definition hold_answers (e : error) : option response :=
  match e with
  | ErrDeletionNotAllowed | ErrLegalHoldExists | ErrRetentionPurgeInProgress =>
    answer 409 "legal_hold_conflict" e
  | _ => if Contains (store_text e) "already erasing" then answer 409 "legal_hold_conflict" e else None
  end.

Definition placeLegalHold : handler B := λ cx r,
  decode [text_field "reason"] r (λ i,
  with_meta_401 cx r (λ meta,
  let* now := clock env in
  store_answering
    (store_call env (λ n, PlaceLegalHold (PathValue r "session_id") (text i "reason") (md_actor meta)
       (md_requestID meta) now (env_random env n)))
    hold_answers
    (λ hold, wret (writeJSON 201 (legalHoldResponse hold))))).

Definition releaseLegalHold : handler B := λ cx r,
  with_meta_401 cx r (λ meta,
  let* now := clock env in
  store_or_error store_text
    (store_call env (λ _, ReleaseLegalHold (PathValue r "session_id") (PathValue r "hold_id")
       (md_actor meta) (md_requestID meta) now))
    (λ _, wret no_content)).

Definition deletion_answers (e : error) : option response :=
  match e with
  | ErrLegalHoldActive => answer 409 "legal_hold_active" e
  | ErrDeletionNotAllowed => answer 409 "session_not_deletable" e
  | ErrDeletionPending => answer 409 "deletion_already_pending" e
  | ErrRedactionInProgress => answer 409 "redaction_in_progress" e
  | _ => None
  end.

Definition requestSessionDeletion : handler B := λ cx r,
  decode [text_field "reason"] r (λ i,
  with_meta_401 cx r (λ meta,
  let* now := clock env in
  store_answering
    (store_call env (λ n, RequestSessionDeletion (PathValue r "session_id") (text i "reason")
       (md_actor meta) (md_requestID meta) now (env_random env n)))
    deletion_answers
    (λ request, wret (writeJSON 202 (deletionRequestResponse request))))).

Definition retryDeadLetterDeletionRequest : handler B := λ cx r,
  with_meta_401 cx r (λ meta,
  let* now := clock env in
  store_answering
    (store_call env (λ _, RetryDeadLetterDeletionRequest (PathValue r "deletion_id") (md_actor meta)
       (md_requestID meta) now))
    (λ e, match e with
          | ErrDeletionNotDead => answer 409 "deletion_not_dead_lettered" e
          | ErrLegalHoldActive => answer 409 "legal_hold_active" e
          | ErrDeletionNotAllowed => answer 409 "session_not_deletable" e
          | _ => None
          end)
    (λ request, wret (writeJSON 200 (deletionRequestResponse request)))).

Definition listDeletionRequests : handler B := λ cx _,
  let* requests := store_read env (λ d, ListDeletionRequests d (listing_scope cx ["admin"])) in
  wret (writeJSON 200 (map_json [("deletion_requests", JArray (map deletionRequestResponse requests))])).

Definition listActiveLegalHolds : handler B := λ cx _,
  let* holds := store_read env (λ d, ListActiveLegalHolds d (listing_scope cx ["admin"])) in
  wret (writeJSON 200 (map_json [("legal_holds", JArray (map legalHoldResponse holds))])).

(** *** Retention *)

Definition getRetentionPolicy : handler B := λ cx r,
  let organizationID := PathValue r "organization_id" in
  if negb (own_organization cx organizationID)
  then wret (forbidden "administrators may view retention only for their own organization")
  else read (λ d, GetRetentionPolicy d organizationID) (λ policy,
       wret (writeJSON 200 (retentionPolicyResponse policy))).

Definition updateRetentionPolicy : handler B := λ cx r,
  let organizationID := PathValue r "organization_id" in
  if negb (own_organization cx organizationID)
  then wret (forbidden "administrators may update retention only for their own organization")
  else
    decode [int_field "raw_days"; int_field "derived_days"; int_field "release_days"] r (λ i,
    with_meta cx r (λ meta,
    let* now := clock env in
    store_answering
      (store_call env (λ _, UpsertRetentionPolicy
         {| rp_OrganizationID := organizationID; rp_RawDays := number i "raw_days";
            rp_DerivedDays := number i "derived_days"; rp_ReleaseDays := number i "release_days";
            rp_UpdatedBy := ""; rp_CreatedAt := 0; rp_UpdatedAt := 0 |}
         (md_actor meta) (md_requestID meta) now))
      (λ e, match e with
            | ErrInvalidRetentionPolicy => answer 400 "invalid_retention_policy" e
            | ErrRetentionPurgeInProgress => answer 409 "retention_purge_in_progress" e
            | _ => None
            end)
      (λ policy, wret (writeJSON 200 (retentionPolicyResponse policy))))).

Definition listRetentionPurgeRequests : handler B := λ cx _,
  let* requests := store_read env (λ d, ListRetentionPurgeRequests d (listing_scope cx ["admin"])) in
  wret (writeJSON 200
    (map_json [("retention_purge_requests", JArray (map retentionPurgeResponse requests))])).

Definition retryDeadLetterRetentionPurge : handler B := λ cx r,
  let requestID := PathValue r "request_id" in
  read (λ d, GetRetentionPurgeOrganization d requestID) (λ organizationID,
  if negb (own_organization cx organizationID)
  then wret (forbidden "this retention purge belongs to another organization")
  else
    with_meta cx r (λ meta,
    let* now := clock env in
    store_answering
      (store_call env (λ _, RetryDeadLetterRetentionPurge requestID (md_actor meta) (md_requestID meta) now))
      (λ e, match e with
            | ErrRetentionNotDead => answer 409 "retention_purge_not_dead_lettered" e
            | _ => None
            end)
      (λ request, wret (writeJSON 200 (retentionPurgeResponse request))))).
End governance.

(** ** Overflow of a lease *)

(** A lease of a review is computed in 64 bits.  Within the bounds the store accepts
    (one minute to eight hours) the number of seconds is taken as it is; but the
    product wraps, so 2^55 seconds more give the same lease: a request for more than a
    thousand million years is answered with one minute. *)
Theorem lease_duration_wraps n :
  (60 ≤ n ≤ 8 * 3600 → lease_duration n = n * second ∧ minute ≤ lease_duration n ≤ 8 * hour) ∧
  (in_int64 (n + 2 ^ 55) → n ≠ 0 → n + 2 ^ 55 ≠ 0 → lease_duration (n + 2 ^ 55) = lease_duration n).
Proof.
  unfold lease_duration, hour, minute. split.
  - intros Hn. destruct (Z.eqb_spec n 0); [lia|].
    rewrite wrap_int64_id by (unfold in_int64, second; change (2 ^ 63) with 9223372036854775808; lia).
    split; [done|]. unfold second. lia.
  - intros _ H1 H2. destruct (Z.eqb_spec (n + 2 ^ 55) 0); [done|]. destruct (Z.eqb_spec n 0); [done|].
    unfold wrap_int64. f_equal.
    replace ((n + 2 ^ 55) * second + 2 ^ 63) with (n * second + 2 ^ 63 + 1953125 * 2 ^ 64)
      by (unfold second; change (2 ^ 55) with 36028797018963968;
          change (2 ^ 64) with 18446744073709551616; lia).
    by rewrite Z.mod_add.
Qed.
