(* ===== verification/Exporter.v ===== *)
(** * The release exporter ([releases/exporter.go])

    A release is a set of files under [releases/<id>/], a manifest that lists them, a
    bundle of all of them, and a committed row.  The exporter checks the profile and
    the sessions, verifies every redaction it publishes, writes the files, and
    commits.  The zip encoding ([archive/zip]) of named contents is a parameter.  The
    bundle is built while it is stored; here its files are read first, which the store
    cannot tell, because the bundle has a key of its own. *)

From S2P Require Import Prelude Domain Text Encoding Json Schema Frame Sha256 Blob R2 Store Validator Redaction Review Erasure Steps Worker Turns Release Http Files.

(** ** Types *)

Definition ExporterVersion : string := "trajectory-exporter/0.3.0".
Definition PipelineVersion : string := "trajectory-pipeline/0.1.0".
Definition ProfileTrajectoryOnly : string := "trajectory_only".
Definition ProfileRedactedVideo : string := "redacted_video".
Definition maxRedactionManifest : Z := Z.shiftl 4 20.

Record FileEntry := { fe_Path : string; fe_Size : Z; fe_SHA256 : string; fe_MediaType : string }.
Record RedactionReference := {
  rr_SessionID : string; rr_PlanID : string; rr_Version : Z; rr_PlanHash : string
}.
Record Manifest := {
  mf_SchemaVersion : string; mf_ReleaseID : string; mf_ProjectID : string; mf_Name : string;
  mf_ReleaseProfile : string; mf_TrajectorySchema : string; mf_ExporterVersion : string;
  mf_PipelineVersion : string; mf_ConfigurationHash : string; mf_SourceSessionIDs : list string;
  mf_RedactionPlans : list RedactionReference; mf_Files : list FileEntry
}.
Record releaseRedaction := { lr_Reference : RedactionReference; lr_Outputs : list redactionOutput }.

(** [ExStore] is an error of the store, [ExText] any other error of the text, [ExPanic]
    the assignment to a nil map. *)
Inductive export_error : Type :=
| ExStore (e : error)
| ExProfile
| ExVideo (detail : string)
| ExText (text : string)
| ExPanic.

(** *** JSON *)

Definition file_json (f : FileEntry) : json :=
  JObject [("path", JString (fe_Path f)); ("size", json_int (fe_Size f));
           ("sha256", JString (fe_SHA256 f)); ("media_type", JString (fe_MediaType f))].
Definition reference_json (r : RedactionReference) : json :=
  JObject [("session_id", JString (rr_SessionID r)); ("plan_id", JString (rr_PlanID r));
           ("version", json_int (rr_Version r)); ("plan_hash", JString (rr_PlanHash r))].
Definition release_manifest_json (m : Manifest) : json :=
  JObject
    [("schema_version", JString (mf_SchemaVersion m)); ("release_id", JString (mf_ReleaseID m));
     ("project_id", JString (mf_ProjectID m)); ("name", JString (mf_Name m));
     ("release_profile", JString (mf_ReleaseProfile m));
     ("trajectory_schema", JString (mf_TrajectorySchema m));
     ("exporter_version", JString (mf_ExporterVersion m));
     ("pipeline_version", JString (mf_PipelineVersion m));
     ("configuration_hash", JString (mf_ConfigurationHash m));
     ("source_session_ids", JArray (map JString (mf_SourceSessionIDs m)));
     ("redaction_plans", JArray (map reference_json (mf_RedactionPlans m)));
     ("files", JArray (map file_json (mf_Files m)))].
Definition configuration_json (projectID name profile : string) (sessionIDs : list string)
    (references : list RedactionReference) : json :=
  JObject
    [("project_id", JString projectID); ("name", JString name); ("release_profile", JString profile);
     ("trajectory_schema", JString "trajectory/v1"); ("exporter_version", JString ExporterVersion);
     ("pipeline_version", JString PipelineVersion);
     ("source_session_ids", JArray (map JString sessionIDs));
     ("redaction_plans", JArray (map reference_json references))].

(** The fields of an output of a redaction, as the worker wrote them. *)
Definition zero_redaction_output : redactionOutput :=
  {| ro_SegmentID := ""; ro_SourceKey := ""; ro_Decision := ""; ro_OutputKey := ""; ro_SHA256 := "";
     ro_Size := 0; ro_Width := 0; ro_Height := 0; ro_DurationSecond := zero64 |}.
Definition output_texts (o : redactionOutput) : list string :=
  [ro_SegmentID o; ro_SourceKey o; ro_Decision o; ro_OutputKey o; ro_SHA256 o].
Definition output_with (texts : list string) (size width height : Z) (seconds : float64) : redactionOutput :=
  {| ro_SegmentID := List.nth 0 texts ""; ro_SourceKey := List.nth 1 texts ""; ro_Decision := List.nth 2 texts "";
     ro_OutputKey := List.nth 3 texts ""; ro_SHA256 := List.nth 4 texts ""; ro_Size := size; ro_Width := width;
     ro_Height := height; ro_DurationSecond := seconds |}.
Definition output_text_field (name : string) (n : nat) : string * decoder redactionOutput :=
  (name, on_field (λ o, List.nth n (output_texts o) "")
     (λ v o, output_with (<[n := v]> (output_texts o)) (ro_Size o) (ro_Width o) (ro_Height o)
               (ro_DurationSecond o)) decode_string).
Definition redaction_output_fields : list (string * decoder redactionOutput) :=
  [output_text_field "segment_id" 0; output_text_field "source_key" 1; output_text_field "decision" 2;
   output_text_field "output_key" 3; output_text_field "sha256" 4;
   ("size", on_field ro_Size (λ v o, output_with (output_texts o) v (ro_Width o) (ro_Height o)
      (ro_DurationSecond o)) decode_int64);
   ("width", on_field ro_Width (λ v o, output_with (output_texts o) (ro_Size o) v (ro_Height o)
      (ro_DurationSecond o)) decode_int64);
   ("height", on_field ro_Height (λ v o, output_with (output_texts o) (ro_Size o) (ro_Width o) v
      (ro_DurationSecond o)) decode_int64);
   ("duration_seconds", on_field ro_DurationSecond (λ v o, output_with (output_texts o) (ro_Size o)
      (ro_Width o) (ro_Height o) v) decode_float64)].

(** The schema version and the manifest of a redaction. *)
Definition zero_output_manifest : string * redactionOutputManifest :=
  ("", {| rm_SessionID := ""; rm_PlanID := ""; rm_PlanVersion := 0; rm_PlanHash := ""; rm_Outputs := [] |}).
Definition output_manifest_fields : list (string * decoder (string * redactionOutputManifest)) :=
  [("schema_version", on_field fst (λ v m, (v, m.2)) decode_string);
   ("session_id", on_field (λ m, rm_SessionID m.2) (λ v m, (m.1,
      {| rm_SessionID := v; rm_PlanID := rm_PlanID m.2; rm_PlanVersion := rm_PlanVersion m.2;
         rm_PlanHash := rm_PlanHash m.2; rm_Outputs := rm_Outputs m.2 |})) decode_string);
   ("plan_id", on_field (λ m, rm_PlanID m.2) (λ v m, (m.1,
      {| rm_SessionID := rm_SessionID m.2; rm_PlanID := v; rm_PlanVersion := rm_PlanVersion m.2;
         rm_PlanHash := rm_PlanHash m.2; rm_Outputs := rm_Outputs m.2 |})) decode_string);
   ("plan_version", on_field (λ m, rm_PlanVersion m.2) (λ v m, (m.1,
      {| rm_SessionID := rm_SessionID m.2; rm_PlanID := rm_PlanID m.2; rm_PlanVersion := v;
         rm_PlanHash := rm_PlanHash m.2; rm_Outputs := rm_Outputs m.2 |})) decode_int64);
   ("plan_hash", on_field (λ m, rm_PlanHash m.2) (λ v m, (m.1,
      {| rm_SessionID := rm_SessionID m.2; rm_PlanID := rm_PlanID m.2;
         rm_PlanVersion := rm_PlanVersion m.2; rm_PlanHash := v; rm_Outputs := rm_Outputs m.2 |}))
      decode_string);
   ("outputs", on_field (λ m, rm_Outputs m.2) (λ v m, (m.1,
      {| rm_SessionID := rm_SessionID m.2; rm_PlanID := rm_PlanID m.2;
         rm_PlanVersion := rm_PlanVersion m.2; rm_PlanHash := rm_PlanHash m.2; rm_Outputs := v |}))
      (decode_slice zero_redaction_output (decode_struct true redaction_output_fields)))].

(** A stored manifest, read back. *)
Definition zero_file : FileEntry := {| fe_Path := ""; fe_Size := 0; fe_SHA256 := ""; fe_MediaType := "" |}.
Definition file_fields : list (string * decoder FileEntry) :=
  [("path", on_field fe_Path (λ v f, {| fe_Path := v; fe_Size := fe_Size f; fe_SHA256 := fe_SHA256 f;
      fe_MediaType := fe_MediaType f |}) decode_string);
   ("size", on_field fe_Size (λ v f, {| fe_Path := fe_Path f; fe_Size := v; fe_SHA256 := fe_SHA256 f;
      fe_MediaType := fe_MediaType f |}) decode_int64);
   ("sha256", on_field fe_SHA256 (λ v f, {| fe_Path := fe_Path f; fe_Size := fe_Size f; fe_SHA256 := v;
      fe_MediaType := fe_MediaType f |}) decode_string);
   ("media_type", on_field fe_MediaType (λ v f, {| fe_Path := fe_Path f; fe_Size := fe_Size f;
      fe_SHA256 := fe_SHA256 f; fe_MediaType := v |}) decode_string)].
Definition zero_reference : RedactionReference :=
  {| rr_SessionID := ""; rr_PlanID := ""; rr_Version := 0; rr_PlanHash := "" |}.
Definition reference_fields : list (string * decoder RedactionReference) :=
  [("session_id", on_field rr_SessionID (λ v r, {| rr_SessionID := v; rr_PlanID := rr_PlanID r;
      rr_Version := rr_Version r; rr_PlanHash := rr_PlanHash r |}) decode_string);
   ("plan_id", on_field rr_PlanID (λ v r, {| rr_SessionID := rr_SessionID r; rr_PlanID := v;
      rr_Version := rr_Version r; rr_PlanHash := rr_PlanHash r |}) decode_string);
   ("version", on_field rr_Version (λ v r, {| rr_SessionID := rr_SessionID r; rr_PlanID := rr_PlanID r;
      rr_Version := v; rr_PlanHash := rr_PlanHash r |}) decode_int64);
   ("plan_hash", on_field rr_PlanHash (λ v r, {| rr_SessionID := rr_SessionID r; rr_PlanID := rr_PlanID r;
      rr_Version := rr_Version r; rr_PlanHash := v |}) decode_string)].

Definition manifest_texts (m : Manifest) : list string :=
  [mf_SchemaVersion m; mf_ReleaseID m; mf_ProjectID m; mf_Name m; mf_ReleaseProfile m;
   mf_TrajectorySchema m; mf_ExporterVersion m; mf_PipelineVersion m; mf_ConfigurationHash m].
Definition manifest_with (texts sessions : list string) (plans : list RedactionReference)
    (files : list FileEntry) : Manifest :=
  {| mf_SchemaVersion := List.nth 0 texts ""; mf_ReleaseID := List.nth 1 texts "";
     mf_ProjectID := List.nth 2 texts ""; mf_Name := List.nth 3 texts "";
     mf_ReleaseProfile := List.nth 4 texts ""; mf_TrajectorySchema := List.nth 5 texts "";
     mf_ExporterVersion := List.nth 6 texts ""; mf_PipelineVersion := List.nth 7 texts "";
     mf_ConfigurationHash := List.nth 8 texts ""; mf_SourceSessionIDs := sessions;
     mf_RedactionPlans := plans; mf_Files := files |}.
Definition manifest_text_field (n : nat) (name : string) : string * decoder Manifest :=
  (name, on_field (λ m, List.nth n (manifest_texts m) "")
     (λ v m, manifest_with (<[n := v]> (manifest_texts m)) (mf_SourceSessionIDs m) (mf_RedactionPlans m)
               (mf_Files m)) decode_string).
Definition manifest_fields : list (string * decoder Manifest) :=
  (imap manifest_text_field
     ["schema_version"; "release_id"; "project_id"; "name"; "release_profile"; "trajectory_schema";
      "exporter_version"; "pipeline_version"; "configuration_hash"]
   ++ [("source_session_ids", on_field mf_SourceSessionIDs (λ v m,
          manifest_with (manifest_texts m) v (mf_RedactionPlans m) (mf_Files m))
          (decode_slice "" decode_string));
       ("redaction_plans", on_field mf_RedactionPlans (λ v m,
          manifest_with (manifest_texts m) (mf_SourceSessionIDs m) v (mf_Files m))
          (decode_slice zero_reference (decode_struct false reference_fields)));
       ("files", on_field mf_Files (λ v m,
          manifest_with (manifest_texts m) (mf_SourceSessionIDs m) (mf_RedactionPlans m) v)
          (decode_slice zero_file (decode_struct false file_fields)))])%list.
Definition zero_manifest : Manifest := manifest_with [] [] [] [].

(** The first value of a stream. *)
Definition stream_value (r : reader) : option json :=
  match Decode (rd_data r) with
  | Some (v, rest) =>
    if bool_decide (rd_err r = None) || composite v || negb (is_empty rest) then Some v else None
  | None => None
  end.
Definition decode_manifest (r : reader) : option Manifest :=
  v ← stream_value r;
  match decode_struct false manifest_fields v zero_manifest with (m, false) => Some m | (_, true) => None end.

(** ** Pure parts *)

(** [normalizedIDs]: sorted, none empty, none twice. *)
Fixpoint ids_problem (previous : option string) (l : list string) : option string :=
  match l with
  | [] => None
  | value :: rest =>
    if is_empty value then Some "session IDs cannot be empty"
    else if bool_decide (previous = Some value) then Some "session IDs must be unique"
    else ids_problem (Some value) rest
  end.
Definition normalizedIDs (values : list string) : result string (list string) :=
  let result := sort_strings values in
  match ids_problem None result with Some e => Err e | None => Ok result end.

Definition readme_text (name releaseID profile : string) (count : Z) : string :=
  "# " +:+ name +:+ newline +:+ newline +:+ "Release ID: `" +:+ releaseID +:+ "`" +:+ newline +:+ newline
  +:+ "Release profile: `" +:+ profile +:+ "`" +:+ newline +:+ newline
  +:+ "Trajectory schema: `trajectory/v1`" +:+ newline +:+ newline
  +:+ "Trajectories: " +:+ Sprint count +:+ newline
  +:+ (if seqb profile ProfileTrajectoryOnly
       then newline +:+ "Raw recordings and output binaries are private review evidence and are not included in this release." +:+ newline
       else newline +:+ "Only reviewer-approved derived video is included; raw recordings remain private review evidence." +:+ newline).

(** A final newline, added when it is missing. *)
Definition with_newline (s : string) : string :=
  if HasPrefix (rev_string s) newline then s else s +:+ newline.

Definition entry_le (x y : FileEntry) : Prop := String.le (fe_Path x) (fe_Path y).
#[export] Instance entry_le_dec : RelDecision entry_le.
Proof. intros x y. unfold entry_le. apply _. Defined.
Definition sort_entries (l : list FileEntry) : list FileEntry := merge_sort entry_le l.

Definition checksum_text (files : list FileEntry) : string :=
  foldr (λ f s, fe_SHA256 f +:+ "  " +:+ fe_Path f +:+ newline +:+ s) "" files.

(** The review that is written into a trajectory. *)
Definition qa_json (review : Review) (scores : json) : json :=
  map_json
    [("state", JString "accepted"); ("rubric_version", JString (rv_RubricVersion review));
     ("reviews", JArray [map_json
        [("review_id", JString (rv_ID review)); ("reviewer_id", JString (rv_ReviewerID review));
         ("scores", scores); ("comments", JString (rv_Comments review));
         ("decision", JString (rv_Decision review)); ("pii_review", JString (rv_PIIReview review));
         ("created_at", json_time (rv_CreatedAt review))]])].

(** [json.Unmarshal] into a [map[string]any]: numbers become [float64]. *)
Fixpoint floats_finite (v : json) : bool :=
  match v with
  | JNumber t => bool_decide (is_Some (ParseFloat t))
  | JArray l => forallb floats_finite l
  | JObject l => forallb (λ kv, floats_finite kv.2) l
  | _ => true
  end.
Fixpoint as_floats (v : json) : json :=
  match v with
  | JNumber t => JNumber (default "" (f ← ParseFloat t; format_float f))
  | JArray l => JArray (map as_floats l)
  | JObject l => JObject (map (λ kv, (kv.1, as_floats kv.2)) l)
  | _ => v
  end.
Definition scores_value (scores : option json) : option json :=
  match scores with
  | Some JNull => Some JNull
  | Some (JObject l) => if floats_finite (JObject l) then Some (as_floats (generic (JObject l))) else None
  | _ => None
  end.

(** The document with the review; its numbers keep their text. *)
Definition reviewed_document (sessionID : string) (review : Review) (v : json)
    : result export_error json :=
  match v with
  | JObject _ | JNull =>
    match scores_value (rv_Scores review) with
    | None => Err (ExText "decode review scores")
    | Some scores =>
      match generic v with
      | JObject document =>
        let document := put_field "qa" (qa_json review scores) document in
        match field "privacy" document with
        | Some (JObject privacy) =>
          Ok (JObject (put_field "privacy"
                (JObject (put_field "pii_review" (JString (rv_PIIReview review)) privacy)) document))
        | _ => Err (ExText ("trajectory " +:+ sessionID +:+ " privacy object is missing"))
        end
      | _ => Err ExPanic
      end
    end
  | _ => Err (ExText ("decode normalized trajectory " +:+ sessionID))
  end.

(** ** The exporter *)

#[local] Notation "'need' x := m 'in' k" :=
  (wbind m (λ r, match r with Ok x => k | Err e => wret (Err e) end))
  (at level 200, x name, m at level 100, k at level 200).

Section exporter.
Context {B : Type} `{BlobStore B} (env : environment).
Variables (trajectorySchema : string) (zip : list (string * string) → string)
  (store_text : error → string) (blob_text : blob_error → string) (json_error : string → string).

Notation X A := (W B (result export_error A)).

(** A call of the object store whose error is wrapped in a text. *)
Definition blob_or {A} (context : string) (op : time → blob_op B A) : X A :=
  let* x := blob_call env op in
  wret (match x with Ok a => Ok a | Err e => Err (ExText (context +:+ blob_text e)) end).
Definition require (b : bool) (e : export_error) : X () := wret (if b then Ok () else Err e).
Definition from_store {A} (query : db → res A) : X A :=
  let* x := store_read env query in
  wret (match x with Ok a => Ok a | Err e => Err (ExStore e) end).

Definition entry_of (path mediaType : string) (info : BlobInfo) : FileEntry :=
  {| fe_Path := path; fe_Size := bi_Size info; fe_SHA256 := bi_SHA256 info; fe_MediaType := mediaType |}.

(** [putReleaseFile] and the other writes of a release. *)
Definition put_file (what prefix path : string) (contents : reader) (mediaType : string) : X FileEntry :=
  need info := blob_or ("write release " +:+ what +:+ " " +:+ path +:+ ": ") (Put (prefix +:+ path) contents) in
  wret (Ok (entry_of path mediaType info)).

(** *** Redactions *)

Definition positive_float (x : float64) : bool := SFltb zero64 x.

(** The segment a plan approved under a name: the last one. *)
Definition approved_segment (plan : RedactionPlan) (segmentID : string) : option RedactionSegment :=
  List.find (λ s, seqb (sg_SegmentID s) segmentID) (reverse (rd_Segments (pl_Document plan))).

Definition output_approved (sessionID : string) (plan : RedactionPlan) (seen : list string)
    (o : redactionOutput) : bool :=
  negb (is_empty (ro_SegmentID o)) && negb (oneof (ro_SegmentID o) seen)
  && match approved_segment plan (ro_SegmentID o) with
     | Some s => seqb (ro_SourceKey o) (sg_SourceKey s) && seqb (ro_Decision o) (sg_Decision s)
     | None => false
     end
  && (1 <=? ro_Size o) && (1 <=? ro_Width o) && (1 <=? ro_Height o) && positive_float (ro_DurationSecond o)
  && match DecodeString (ro_SHA256 o) with
     | Some decoded => Nat.eqb (length decoded) 32 && seqb (EncodeToString decoded) (ro_SHA256 o)
     | None => false
     end
  && seqb (ro_OutputKey o)
       ("derived/sessions/" +:+ sessionID +:+ "/redactions/" +:+ pl_ID plan +:+ "/" +:+ ro_SegmentID o +:+ ".mp4").

Fixpoint check_outputs (sessionID : string) (plan : RedactionPlan) (seen : list string)
    (outputs : list redactionOutput) : W B (option string) :=
  match outputs with
  | [] => wret None
  | o :: rest =>
    if negb (output_approved sessionID plan seen o)
    then wret (Some "redaction manifest contains an invalid or duplicate output")
    else
      let* stat := blob_call env (λ _, Stat (ro_OutputKey o)) in
      match stat with
      | Ok info =>
        if negb (seqb (bi_SHA256 info) (ro_SHA256 o)) || negb (bi_Size info =? ro_Size o)
        then wret (Some ("redaction output integrity mismatch: " +:+ ro_OutputKey o))
        else check_outputs sessionID plan (ro_SegmentID o :: seen) rest
      | Err _ => wret (Some ("redaction output integrity mismatch: " +:+ ro_OutputKey o))
      end
  end.

(** The manifest of the worker, strictly decoded, with nothing after it. *)
Definition decode_output_manifest (raw : string) : result string (string * redactionOutputManifest) :=
  match Decode raw with
  | Some (v, rest) =>
    match decode_struct true output_manifest_fields v zero_output_manifest with
    | (m, false) =>
      if is_empty (skip_ws rest) then Ok m else Err "redaction manifest contains trailing content"
    | (_, true) => Err ("decode redaction manifest: " +:+ json_error raw)
    end
  | None => Err ("decode redaction manifest: " +:+ json_error raw)
  end.

Definition manifest_of_plan (sessionID : string) (plan : RedactionPlan)
    (m : string * redactionOutputManifest) : bool :=
  seqb m.1 "redaction-output/v1" && seqb (rm_SessionID m.2) sessionID && seqb (rm_PlanID m.2) (pl_ID plan)
  && (rm_PlanVersion m.2 =? pl_Version plan) && seqb (rm_PlanHash m.2) (pl_DocumentHash plan)
  && Nat.eqb (length (rm_Outputs m.2)) (length (rd_Segments (pl_Document plan))).

(** The manifest that was read, checked against the plan. *)
Definition verify_redaction (sessionID : string) (plan : RedactionPlan) (manifest_reader : reader)
    : W B (result string releaseRedaction) :=
  match read_limited (maxRedactionManifest + 1) manifest_reader with
  | Err e => wret (Err e)
  | Ok raw =>
    if maxRedactionManifest <? slen raw then wret (Err "redaction manifest exceeds 4 MiB")
    else
      match decode_output_manifest raw with
      | Err e => wret (Err e)
      | Ok m =>
        if negb (manifest_of_plan sessionID plan m)
        then wret (Err "redaction manifest does not match its approved plan")
        else
          let* problem := check_outputs sessionID plan [] (rm_Outputs m.2) in
          wret (match problem with
                | Some e => Err e
                | None => Ok {| lr_Reference :=
                    {| rr_SessionID := sessionID; rr_PlanID := pl_ID plan; rr_Version := pl_Version plan;
                       rr_PlanHash := pl_DocumentHash plan |};
                    lr_Outputs := merge_sort output_le (rm_Outputs m.2) |}
                end)
      end
  end.

(** The error of [loadRedaction] is used by its text. *)
Definition loadRedaction (sessionID : string) : W B (result string releaseRedaction) :=
  try found := store_read env (λ d, LatestCompletedRedaction d sessionID) else e => wret (Err (store_text e)) in
  try manifest_reader := blob_call env (λ _, Get (rj_OutputManifestKey found.2))
    else e => wret (Err (blob_text e)) in
  verify_redaction sessionID (found : RedactionPlan * RedactionJob).1 manifest_reader.

Fixpoint load_redactions (candidates : list ReleaseCandidate) : X (list (string * releaseRedaction)) :=
  match candidates with
  | [] => wret (Ok [])
  | c :: rest =>
    let sessionID := rcd_SessionID c in
    let* loaded := loadRedaction sessionID in
    match loaded with
    | Err e => wret (Err (ExVideo ("session " +:+ sessionID +:+ ": " +:+ e)))
    | Ok redaction =>
      need others := load_redactions rest in wret (Ok ((sessionID, redaction) :: others))
    end
  end.

(** *** Files *)

Definition reviewedTrajectory (c : ReleaseCandidate) : X string :=
  need body := blob_or ("read normalized trajectory " +:+ rcd_SessionID c +:+ ": ")
                 (λ _, Get (rcd_NormalizedKey c)) in
  wret (match read_limited (maxTrajectory + 1) body with
        | Err e => Err (ExText e)
        | Ok raw =>
          if maxTrajectory <? slen raw
          then Err (ExText ("normalized trajectory " +:+ rcd_SessionID c +:+ " exceeds 32 MiB"))
          else
            match Decode raw with
            | None => Err (ExText ("decode normalized trajectory " +:+ rcd_SessionID c +:+ ": " +:+ json_error raw))
            | Some (v, _) =>
              match reviewed_document (rcd_SessionID c) (rcd_Review c) v with
              | Ok document => Ok (Marshal document +:+ newline)
              | Err e => Err e
              end
            end
        end).

(** The videos of a session: each is copied and compared with what was checked. *)
Fixpoint publish_videos (prefix sessionID : string) (outputs : list redactionOutput) : X (list FileEntry) :=
  match outputs with
  | [] => wret (Ok [])
  | video :: rest =>
    need body := blob_or ("read redacted video " +:+ ro_OutputKey video +:+ ": ") (λ _, Get (ro_OutputKey video)) in
    let path := "videos/" +:+ sessionID +:+ "/" +:+ ro_SegmentID video +:+ ".mp4" in
    need entry := put_file "video" prefix path body "video/mp4" in
    need _ := require (seqb (fe_SHA256 entry) (ro_SHA256 video) && (fe_Size entry =? ro_Size video))
                (ExText ("redacted video " +:+ ro_OutputKey video +:+ " changed while publishing")) in
    need others := publish_videos prefix sessionID rest in
    wret (Ok (entry :: others))
  end.

(** Without redactions nothing is published but the trajectory. *)
Definition outputs_of (redactions : list (string * releaseRedaction)) (sessionID : string) : list redactionOutput :=
  match list_find (λ kr, kr.1 = sessionID) (reverse redactions) with
  | Some (_, (_, redaction)) => lr_Outputs redaction
  | None => []
  end.

(** The files of the sessions and the lines of the common file. *)
Fixpoint publish_sessions (prefix : string) (redactions : list (string * releaseRedaction))
    (candidates : list ReleaseCandidate) : X (list FileEntry * string) :=
  match candidates with
  | [] => wret (Ok ([], ""))
  | c :: rest =>
    need trajectory := reviewedTrajectory c in
    need entry := put_file "trajectory" prefix ("trajectories/" +:+ rcd_SessionID c +:+ ".json")
                    (NewReader trajectory) "application/json" in
    need videos := publish_videos prefix (rcd_SessionID c) (outputs_of redactions (rcd_SessionID c)) in
    need others := publish_sessions prefix redactions rest in
    wret (Ok ((entry :: videos ++ (others : list FileEntry * string).1)%list,
              TrimSpace trajectory +:+ newline +:+ others.2))
  end.

(** *** The bundle *)

Fixpoint bundle_contents (prefix : string) (entries : list FileEntry)
    : W B (list (string * string) * option string) :=
  match entries with
  | [] => wret ([], None)
  | e :: rest =>
    let* got := blob_call env (λ _, Get (prefix +:+ fe_Path e)) in
    match got with
    | Err x => wret ([(fe_Path e, "")], Some (blob_text x))
    | Ok input =>
      match rd_err input with
      | Some x => wret ([(fe_Path e, rd_data input)], Some x)
      | None =>
        let* others := bundle_contents prefix rest in
        wret ((fe_Path e, rd_data input) :: (others : list (string * string) * option string).1, others.2)
      end
    end
  end.

Definition streamReleaseBundle (prefix bundleKey : string) (entries : list FileEntry) : X BlobInfo :=
  let* contents := bundle_contents prefix (sort_entries entries) in
  need info := blob_or "write release bundle: "
                 (Put bundleKey {| rd_data := zip (contents : list (string * string) * option string).1;
                                   rd_err := contents.2 |}) in
  wret (match contents.2 with
        | Some e => Err (ExText ("build release bundle: " +:+ e))
        | None => Ok info
        end).

(** *** Releases *)

(** The release of that name exists: its manifest and bundle must be those committed. *)
Definition existing_release (existing : DatasetRelease) (profile : string) (sessionIDs : list string)
    : X (DatasetRelease * Manifest) :=
  let manifestKey := "releases/" +:+ rl_ID existing +:+ "/manifest.json" in
  need _ := require (seqb (rl_Profile existing) profile
                     && (Nat.eqb (length sessionIDs) 0
                         || bool_decide (sessionIDs = rl_SourceSessionIDs existing)))
              (ExStore ErrReleaseConflict) in
  need body := blob_or "" (λ _, Get manifestKey) in
  match decode_manifest body with
  | None => wret (Err (ExText (json_error (rd_data body))))
  | Some manifest =>
    let* stat := blob_call env (λ _, Stat manifestKey) in
    if negb (match stat with Ok info => seqb (bi_SHA256 info) (rl_ManifestHash existing) | Err _ => false end)
    then wret (Err (ExText "existing release manifest does not match committed metadata"))
    else
      let* bundle := blob_call env (λ _, Stat (release_bundle (rl_ID existing))) in
      if negb (match bundle with
               | Ok info => seqb (bi_SHA256 info) (rl_BundleHash existing)
                            && (bi_Size info =? rl_BundleSize existing)
               | Err _ => false
               end)
      then wret (Err (ExText "existing release bundle does not match committed metadata"))
      else wret (Ok (existing, manifest))
  end.

(** Everything the release consists of, before the commit. *)
Record prepared := { pp_Files : list FileEntry; pp_Manifest : Manifest; pp_ManifestInfo : BlobInfo;
                     pp_Bundle : BlobInfo }.

Definition manifest_text (m : Manifest) : string := MarshalIndent (release_manifest_json m) +:+ newline.

Definition write_release (releaseID projectID name profile configurationHash : string)
    (candidates : list ReleaseCandidate) (redactions : list (string * releaseRedaction))
    (references : list RedactionReference) : X prepared :=
  let prefix := release_prefix releaseID in
  let text s := NewReader s in
  need readme := put_file "file" prefix "README.md"
    (text (readme_text name releaseID profile (Z.of_nat (length candidates)))) "text/markdown" in
  need schema := put_file "file" prefix "schema.json" (text (with_newline trajectorySchema)) "application/schema+json" in
  need published := publish_sessions prefix redactions candidates in
  need lines := put_file "JSONL" prefix "trajectories.jsonl"
    (text (published : list FileEntry * string).2) "application/x-ndjson" in
  let files := sort_entries (readme :: schema :: published.1 ++ [lines])%list in
  need checksums := put_file "file" prefix "checksums.sha256" (text (checksum_text files)) "text/plain" in
  let files := sort_entries (files ++ [checksums])%list in
  let manifest :=
    {| mf_SchemaVersion := "release/v1"; mf_ReleaseID := releaseID; mf_ProjectID := projectID; mf_Name := name;
       mf_ReleaseProfile := profile; mf_TrajectorySchema := "trajectory/v1";
       mf_ExporterVersion := ExporterVersion; mf_PipelineVersion := PipelineVersion;
       mf_ConfigurationHash := configurationHash; mf_SourceSessionIDs := map rcd_SessionID candidates;
       mf_RedactionPlans := references; mf_Files := files |} in
  need manifestInfo := blob_or "write release manifest: "
    (Put (prefix +:+ "manifest.json") (text (manifest_text manifest))) in
  need bundle := streamReleaseBundle prefix (release_bundle releaseID)
    (files ++ [entry_of "manifest.json" "application/json" manifestInfo])%list in
  wret (Ok {| pp_Files := files; pp_Manifest := manifest; pp_ManifestInfo := manifestInfo; pp_Bundle := bundle |}).

Definition prepared_release (p : prepared) : DatasetRelease :=
  let m := pp_Manifest p in
  let prefix := release_prefix (mf_ReleaseID m) in
  {| rl_ID := mf_ReleaseID m; rl_ProjectID := mf_ProjectID m; rl_Name := mf_Name m;
     rl_Profile := mf_ReleaseProfile m; rl_SchemaVersion := "trajectory/v1";
     rl_ExporterVersion := ExporterVersion; rl_PipelineVersion := PipelineVersion;
     rl_ConfigurationHash := mf_ConfigurationHash m; rl_ManifestHash := bi_SHA256 (pp_ManifestInfo p);
     rl_BundleHash := bi_SHA256 (pp_Bundle p); rl_BundleSize := bi_Size (pp_Bundle p);
     rl_SourceSessionIDs := mf_SourceSessionIDs m;
     rl_ObjectKeys := sort_strings (map (λ f, prefix +:+ fe_Path f) (pp_Files p)
       ++ [prefix +:+ "manifest.json"; release_bundle (mf_ReleaseID m)]);
     rl_CreatedAt := 0; rl_PurgedAt := 0 |}.

(** The files of a new release. *)
Definition prepare_release (projectID name profile : string) (sessionIDs : list string) : X prepared :=
  need candidates := from_store (λ d, ListReleaseCandidates d projectID sessionIDs) in
  need redactions := (if seqb profile ProfileRedactedVideo then load_redactions candidates else wret (Ok [])) in
  let references := map (λ kr : string * releaseRedaction, lr_Reference kr.2) redactions in
  let configurationHash :=
    sha256_hex (Marshal (configuration_json projectID name profile (map rcd_SessionID candidates) references)) in
  let releaseID := "rel_" +:+ stake 32 configurationHash in
  write_release releaseID projectID name profile configurationHash candidates redactions references.

Definition new_release (projectID name profile : string) (sessionIDs : list string)
    (actor requestID : string) (now : time) : X (DatasetRelease * Manifest) :=
  need p := prepare_release projectID name profile sessionIDs in
  let* committed := store_call env (λ _, CommitRelease (prepared_release p) actor requestID now) in
  wret (match committed with
        | Ok release => Ok (release, pp_Manifest p)
        | Err e => Err (ExStore e)
        end).

Definition CreateWithProfile (projectID name0 profile0 : string) (requestedSessionIDs : list string)
    (actor requestID : string) (now : time) : X (DatasetRelease * Manifest) :=
  if is_empty projectID || is_empty (TrimSpace name0) || is_empty actor || is_empty requestID
  then wret (Err (ExText "project, release name, actor, and request ID are required"))
  else
    let profile := if is_empty profile0 then ProfileTrajectoryOnly else profile0 in
    if negb (seqb profile ProfileTrajectoryOnly) && negb (seqb profile ProfileRedactedVideo)
    then wret (Err ExProfile)
    else
      let name := TrimSpace name0 in
      match normalizedIDs requestedSessionIDs with
      | Err e => wret (Err (ExText e))
      | Ok sessionIDs =>
        let* found := store_read env (λ d, GetReleaseByName d projectID name) in
        match found with
        | Ok existing => existing_release existing profile sessionIDs
        | Err ErrNotFound => new_release projectID name profile sessionIDs actor requestID now
        | Err e => wret (Err (ExStore e))
        end
      end.

Definition Create (projectID name : string) (requestedSessionIDs : list string)
    (actor requestID : string) (now : time) : X (DatasetRelease * Manifest) :=
  CreateWithProfile projectID name ProfileTrajectoryOnly requestedSessionIDs actor requestID now.
End exporter.

(** [NewExporter]: the schema must be JSON; without an exporter releases are unavailable. *)
Definition NewExporter (schema : string) : result string string :=
  if negb (Valid schema) then Err "database, blob store, and valid trajectory schema are required"
  else Ok schema.

(** *** [POST /v1/projects/{project_id}/releases] *)

Record release_input := { ri_inputs : inputs; ri_SessionIDs : list string }.
Definition release_text (name : string) : string * decoder release_input :=
  (name, on_field ri_inputs (λ v i, {| ri_inputs := v; ri_SessionIDs := ri_SessionIDs i |}) (text_field name).2).
Definition release_fields : list (string * decoder release_input) :=
  [release_text "name"; release_text "profile";
   ("session_ids", on_field ri_SessionIDs (λ v i, {| ri_inputs := ri_inputs i; ri_SessionIDs := v |})
      (decode_slice "" decode_string))].

(** The answer to a panic: none, the connection is closed. *)
Definition aborted : response := {| rs_status := 0; rs_headers := ∅; rs_body := "" |}.

Definition release_answer (store_text : error → string) (e : export_error) : response :=
  match e with
  | ExStore (ErrReleaseEligibility detail) =>
    writeError 422 "release_ineligible" (store_text (ErrReleaseEligibility detail))
  | ExProfile =>
    writeError 400 "invalid_release_profile" "release profile must be trajectory_only or redacted_video"
  | ExVideo detail =>
    writeError 422 "redacted_video_unavailable"
      ("redacted-video release requires a completed, integrity-checked redaction for every session: "
       +:+ detail)
  | ExStore ErrReleaseConflict => writeError 409 "release_conflict" (store_text ErrReleaseConflict)
  | ExStore e => respondStoreError store_text e
  | ExText _ => writeError 409 "persistence_error" "request conflicts with current state"
  | ExPanic => aborted
  end.

Section release_handler.
Context {B : Type} `{BlobStore B} (env : environment).
Variables (schema : result string string) (zip : list (string * string) → string)
  (store_text : error → string) (blob_text : blob_error → string) (json_error : string → string)
  (decode_text : reader → string).

Definition createRelease : handler B := λ cx r,
  match schema with
  | Err _ => wret (writeError 503 "release_exporter_unavailable" "release storage is not configured")
  | Ok schema =>
    decodeRequest decode_text release_fields {| ri_inputs := no_inputs; ri_SessionIDs := [] |} r (λ input,
    requestMetaOrError env store_text cx r (λ meta,
    let* now := clock env in
    try created := CreateWithProfile env schema zip store_text blob_text json_error (PathValue r "project_id")
        (text (ri_inputs input) "name") (text (ri_inputs input) "profile") (ri_SessionIDs input)
        (md_actor meta) (md_requestID meta) now
      else e => wret (release_answer store_text e) in
    let (release, manifest) := (created : DatasetRelease * Manifest) in
    wret (writeJSON 201 (map_json [("release", releaseResponse release);
                                   ("manifest", release_manifest_json manifest)]))))
  end.
End release_handler.

(** ** What the exporter writes

    [writes m Q]: a successful run of [m] adds to the objects those of a list, the
    newest first, and changes nothing else; [Q] relates the objects before, the result
    and the list. *)

Definition overlay (new : list (string * string)) (f : string → option string) (k : string) : option string :=
  match list_find (λ kc, kc.1 = k) new with Some (_, (_, c)) => Some c | None => f k end.

Lemma overlay_nil f k : overlay [] f k = f k.
Proof. done. Qed.
Lemma overlay_cons k c new f : overlay ((k, c) :: new) f k = Some c.
Proof. unfold overlay. cbn. by rewrite decide_True. Qed.
Lemma overlay_cons_ne k c new f k' : k' ≠ k → overlay ((k, c) :: new) f k' = overlay new f k'.
Proof.
  intros Hne. unfold overlay. cbn. rewrite decide_False by done.
  by destruct (list_find _ new) as [[i [x y]]|].
Qed.
Lemma overlay_app a b f k : overlay (a ++ b) f k = overlay a (overlay b f) k.
Proof.
  induction a as [|[x c] a IH]; [done|]. cbn [app].
  destruct (decide (k = x)) as [->|Hne]; [by rewrite !overlay_cons|].
  by rewrite !overlay_cons_ne.
Qed.
Lemma overlay_ext new f g k : (∀ k, f k = g k) → overlay new f k = overlay new g k.
Proof. intros H. unfold overlay. by rewrite H. Qed.
(** Keys written once. *)
Lemma overlay_in new f k c : NoDup (map fst new) → (k, c) ∈ new → overlay new f k = Some c.
Proof.
  induction new as [|[x y] new IH]; cbn; [by intros _ ?%elem_of_nil|].
  intros [Hx Hn]%NoDup_cons [[= -> ->]|Hin]%elem_of_cons; [by rewrite overlay_cons|].
  rewrite overlay_cons_ne; [by apply IH|]. intros ->. apply Hx.
  by apply (list_elem_of_fmap_2 fst _ (x, c)).
Qed.
Lemma overlay_out new f k : k ∉ map fst new → overlay new f k = f k.
Proof.
  induction new as [|[x y] new IH]; [done|]. cbn. intros [Hx Hn]%not_elem_of_cons.
  rewrite overlay_cons_ne by done. by apply IH.
Qed.

Section written.
Context {B : Type} `{HL : BlobLaws B} (env : environment) (Hidle : undisturbed env).

Notation X A := (W B (result export_error A)).
Notation objects w := (object (w_blobs w)).

Definition writes {A} (m : X A) (Q : (string → option string) → A → list (string * string) → Prop) : Prop :=
  ∀ w a w', store_ok (w_blobs w) → m w = (Ok a, w') →
  w_db w' = w_db w ∧ store_ok (w_blobs w') ∧
  ∃ new, (∀ k, objects w' k = overlay new (objects w) k) ∧ Q (objects w) a new.

Lemma writes_ret {A} (r : result export_error A) (Q : _ → A → _ → Prop) :
  (∀ f a, r = Ok a → Q f a []) → writes (wret r) Q.
Proof using Type. intros H1 w a w' Hok [= -> <-]. split; [done|]. split; [done|]. exists []. by auto. Qed.

Lemma writes_need {A C} (m : X A) (k : A → X C) (Q1 : _ → A → _ → Prop) (Q : _ → C → _ → Prop) :
  writes m Q1 →
  (∀ f a n1, Q1 f a n1 → writes (k a) (λ g c n2, (∀ key, g key = overlay n1 f key) → Q f c (n2 ++ n1))) →
  writes (need x := m in k x) Q.
Proof using Type.
  intros Hm Hk w c w' Hok. unfold wbind. destruct (m w) as [[a|e] w1] eqn:E; [|done].
  destruct (Hm _ _ _ Hok E) as (Hd1 & Hok1 & n1 & Hn1 & HQ1). intros Hrun.
  destruct (Hk _ _ _ HQ1 _ _ _ Hok1 Hrun) as (Hd2 & Hok2 & n2 & Hn2 & HQ2).
  split; [congruence|]. split; [done|]. exists (n2 ++ n1). split; [|by apply HQ2].
  intros key. rewrite Hn2, overlay_app. by apply overlay_ext.
Qed.

Lemma writes_weaken {A} (m : X A) (P Q : _ → A → _ → Prop) :
  writes m P → (∀ f a n, P f a n → Q f a n) → writes m Q.
Proof using Type.
  intros Hm HPQ w a w' Hok Hrun. destruct (Hm _ _ _ Hok Hrun) as (H1 & H2 & n & H3 & H4). eauto 6.
Qed.

(** A reading step of the world before the rest. *)
Definition reads {A} (m : W B A) (P : (string → option string) → A → Prop) : Prop :=
  ∀ w a w', store_ok (w_blobs w) → m w = (a, w') →
  w_db w' = w_db w ∧ store_ok (w_blobs w') ∧ (∀ k, objects w' k = objects w k) ∧ P (objects w) a.

Lemma writes_after {A C} (m : W B A) (k : A → X C) (P : _ → A → Prop) (Q : _ → C → _ → Prop) :
  reads m P →
  (∀ f a, P f a → writes (k a) (λ g c n, (∀ key, g key = f key) → Q f c n)) →
  writes (wbind m k) Q.
Proof using Type.
  intros Hm Hk w c w' Hok. unfold wbind. destruct (m w) as [a w1] eqn:E.
  destruct (Hm _ _ _ Hok E) as (Hd1 & Hok1 & Hs & HP). intros Hrun.
  destruct (Hk _ _ HP _ _ _ Hok1 Hrun) as (Hd2 & Hok2 & n & Hn & HQ).
  split; [congruence|]. split; [done|]. exists n. split; [|by apply HQ].
  intros key. rewrite Hn. by apply overlay_ext.
Qed.

Lemma reads_store {A} (q : db → A) : reads (store_read env q) (λ _ _, True).
Proof using Hidle. intros w a w' Hok [= <- <-]. cbn. by rewrite Hidle. Qed.
Lemma reads_get key :
  reads (blob_call env (λ _, Get key))
    (λ f x, ∀ r, x = Ok r → rd_err r = None → f key = Some (rd_data r)).
Proof using HL.
  intros w x w' Hok. unfold blob_call. destruct (Get key (w_blobs w)) as [y b] eqn:E. intros [= <- <-].
  destruct (get_law _ _ _ _ Hok E) as [[H1 H2] H3]. by repeat split.
Qed.
Lemma reads_stat key :
  reads (blob_call env (λ _, Stat key))
    (λ f x, ∀ i, x = Ok i → ∃ c, f key = Some c ∧ describes i key c).
Proof using HL.
  intros w x w' Hok. unfold blob_call. destruct (Stat key (w_blobs w)) as [y b] eqn:E. intros [= <- <-].
  destruct (stat_law _ _ _ _ Hok E) as [[H1 H2] H3]. by repeat split.
Qed.
Lemma reads_bind {A C} (m : W B A) (k : A → W B C) (P1 : _ → A → Prop) (P : _ → C → Prop) :
  reads m P1 → (∀ f a, P1 f a → reads (k a) (λ g c, (∀ key, g key = f key) → P f c)) →
  reads (wbind m k) P.
Proof using Type.
  intros Hm Hk w c w' Hok. unfold wbind. destruct (m w) as [a w1] eqn:E.
  destruct (Hm _ _ _ Hok E) as (Hd1 & Hok1 & Hs & HP). intros Hrun.
  destruct (Hk _ _ HP _ _ _ Hok1 Hrun) as (Hd2 & Hok2 & Hs2 & HQ).
  split; [congruence|]. split; [done|]. split; [|by apply HQ].
  intros key. by rewrite Hs2.
Qed.
Lemma reads_ret {A} (a : A) (P : _ → A → Prop) : (∀ f, P f a) → reads (wret a) P.
Proof using Type. intros HP w x w' Hok [= <- <-]. by repeat split. Qed.
Lemma reads_weaken {A} (m : W B A) (P Q : _ → A → Prop) :
  reads m P → (∀ f a, P f a → Q f a) → reads m Q.
Proof using Type. intros Hm HPQ w a w' Hok Hrun. destruct (Hm _ _ _ Hok Hrun) as (?&?&?&?). auto. Qed.
(** A read does not write. *)
Lemma writes_reads {A} (m : X A) (P : _ → _ → Prop) (Q : _ → A → _ → Prop) :
  reads m P → (∀ f a, P f (Ok a) → Q f a []) → writes m Q.
Proof using Type.
  intros Hm HPQ w a w' Hok Hrun. destruct (Hm _ _ _ Hok Hrun) as (H1 & H2 & H3 & H4).
  split; [done|]. split; [done|]. exists []. split; [done|]. by apply HPQ.
Qed.

Lemma writes_put (text : blob_error → string) context key r :
  writes (blob_or env text context (Put key r))
    (λ _ i new, rd_err r = None ∧ new = [(key, rd_data r)] ∧ describes i key (rd_data r)).
Proof using HL.
  intros w a w' Hok. unfold blob_or, wbind, blob_call.
  destruct (Put key r _ (w_blobs w)) as [[i|e] b] eqn:E; [|done]. intros [= <- <-].
  destruct (put_law _ _ _ _ _ _ Hok E) as ([H1 H2] & _ & H3). destruct (H3 i eq_refl) as (He & Ho & Hi).
  split; [done|]. split; [done|]. exists [(key, rd_data r)]. split; [|done].
  intros k. destruct (decide (k = key)) as [->|Hne]; [by rewrite overlay_cons|].
  rewrite overlay_cons_ne by done. by apply H2.
Qed.
End written.

(** *** The files of a release *)

(** The entries and the objects agree: key, length and digest. *)
Definition entry_summary (prefix : string) (e : FileEntry) : string * (Z * string) :=
  (prefix +:+ fe_Path e, (fe_Size e, fe_SHA256 e)).
Definition object_summary (kc : string * string) : string * (Z * string) :=
  (kc.1, (slen kc.2, sha256_hex kc.2)).
Definition written (prefix : string) (files : list FileEntry) (new : list (string * string)) : Prop :=
  map (entry_summary prefix) files ≡ₚ map object_summary new.

Lemma written_nil prefix : written prefix [] [].
Proof. constructor. Qed.
Lemma written_app prefix f1 f2 n1 n2 :
  written prefix f1 n1 → written prefix f2 n2 → written prefix (f1 ++ f2) (n2 ++ n1).
Proof.
  unfold written. intros H1 H2. rewrite !map_app, H1, H2. apply Permutation_app_comm.
Qed.
Lemma written_cons prefix e f n1 n2 :
  written prefix [e] n1 → written prefix f n2 → written prefix (e :: f) (n2 ++ n1).
Proof. apply (written_app prefix [e]). Qed.
Lemma written_perm prefix f f' new : f' ≡ₚ f → written prefix f new → written prefix f' new.
Proof. unfold written. by intros ->. Qed.
Lemma written_keys prefix files new :
  written prefix files new → map fst new ≡ₚ map (λ e, prefix +:+ fe_Path e) files.
Proof.
  intros H. apply (Permutation_map fst) in H. rewrite !map_map in H. cbn in H. by rewrite <-H.
Qed.
Lemma written_entry prefix files new e :
  written prefix files new → e ∈ files →
  ∃ c, (prefix +:+ fe_Path e, c) ∈ new ∧ fe_Size e = slen c ∧ fe_SHA256 e = sha256_hex c.
Proof.
  intros H He. apply (list_elem_of_fmap_2 (entry_summary prefix)) in He.
  change (entry_summary prefix <$> files) with (map (entry_summary prefix) files) in He.
  rewrite H in He. apply list_elem_of_fmap in He as ([k c] & Heq & Hin).
  injection Heq as -> -> ->. by exists c.
Qed.
Lemma sort_entries_perm files : sort_entries files ≡ₚ files.
Proof. apply merge_sort_Permutation. Qed.

Section releases.
Context {B : Type} `{HL : BlobLaws B} (env : environment) (Hidle : undisturbed env).
Variables (trajectorySchema : string) (zip : list (string * string) → string)
  (store_text : error → string) (blob_text : blob_error → string) (json_error : string → string).

Notation X A := (W B (result export_error A)).

Lemma writes_file what prefix path contents media :
  writes (put_file env blob_text what prefix path contents media)
    (λ _ e new, rd_err contents = None ∧ new = [(prefix +:+ path, rd_data contents)] ∧
                fe_Path e = path ∧ written prefix [e] new).
Proof using HL.
  unfold put_file. eapply writes_need; [apply writes_put|].
  intros f i n1 (He & -> & _ & Hs & Hh). apply writes_ret. intros g e [= <-] _.
  split; [done|]. split; [done|]. split; [done|].
  unfold written, entry_summary, object_summary. cbn. by rewrite Hs, Hh.
Qed.

Lemma reads_blob_get context key :
  reads (blob_or env blob_text context (λ _, Get key))
    (λ f x, ∀ r, x = Ok r → rd_err r = None → f key = Some (rd_data r)).
Proof using HL.
  unfold blob_or. eapply reads_bind; [apply reads_get|]. intros f x Hx. apply reads_ret.
  intros g Hg r. destruct x as [r'|]; [|done]. intros [= <-]. by apply Hx.
Qed.

Lemma writes_require b e : writes (require (B := B) b e) (λ _ _ new, new = [] ∧ b = true).
Proof using HL. unfold require. apply writes_ret. intros f [] . by destruct b. Qed.

Lemma writes_trajectory c : writes (reviewedTrajectory env blob_text json_error c) (λ _ _ new, new = []).
Proof using HL.
  unfold reviewedTrajectory. eapply writes_need.
  - eapply writes_reads; [apply reads_blob_get|]. intros f a _. instantiate (1 := λ _ _ new, new = []). done.
  - intros f a n1 ->. apply writes_ret. done.
Qed.

Lemma writes_videos prefix sessionID outputs :
  writes (publish_videos env blob_text prefix sessionID outputs) (λ _ files new, written prefix files new).
Proof using HL.
  induction outputs as [|video outputs IH]; cbn [publish_videos].
  { apply writes_ret. intros f a [= <-]. apply written_nil. }
  eapply writes_need; [eapply writes_reads; [apply reads_blob_get|]|].
  { intros f r _. instantiate (1 := λ _ _ new, new = []). done. }
  intros f r n1 ->. eapply writes_need; [apply writes_file|].
  intros g e n2 (_ & _ & _ & He). eapply writes_need; [apply writes_require|].
  intros h u n3 [-> _]. eapply writes_need; [apply IH|].
  intros i files n4 Hf. apply writes_ret. intros j x [= <-] _ _ _ _. cbn. rewrite !app_nil_r.
  by apply written_cons.
Qed.

Lemma writes_sessions prefix redactions candidates :
  writes (publish_sessions env blob_text json_error prefix redactions candidates)
    (λ _ x new, written prefix x.1 new).
Proof using HL.
  induction candidates as [|c candidates IH]; cbn [publish_sessions].
  { apply writes_ret. intros f a [= <-]. apply written_nil. }
  eapply writes_need; [apply writes_trajectory|]. intros f t n1 ->.
  eapply writes_need; [apply writes_file|]. intros g e n2 (_ & _ & _ & He).
  eapply writes_need; [apply writes_videos|]. intros h videos n3 Hv.
  eapply writes_need; [apply IH|]. intros i others n4 Ho.
  apply writes_ret. intros j x [= <-] _ _ _ _. cbn. rewrite app_nil_r.
  apply written_cons; [done|]. by apply written_app.
Qed.

(** The contents of the bundle are the objects at that moment. *)
Lemma reads_contents prefix entries :
  reads (bundle_contents env blob_text prefix entries)
    (λ f x, x.2 = None → Forall2 (λ e pc, pc.1 = fe_Path e ∧ f (prefix +:+ fe_Path e) = Some pc.2) entries x.1).
Proof using HL.
  induction entries as [|e entries IH]; cbn [bundle_contents].
  { apply reads_ret. intros f _. constructor. }
  eapply reads_bind; [apply reads_get|]. intros f [r|x] Hx; [|apply reads_ret; done].
  destruct (rd_err r) eqn:Hr; [apply reads_ret; done|].
  eapply reads_bind; [apply IH|]. intros g others Ho. apply reads_ret. intros h Hg Hf Hn. cbn in *.
  constructor; [split; [done|]; by apply Hx|].
  eapply Forall2_impl; [by apply Ho|]. intros e' pc [H1 H2]. split; [done|]. by rewrite <-Hf.
Qed.

Lemma writes_bundle prefix bundleKey entries :
  writes (streamReleaseBundle env zip blob_text prefix bundleKey entries)
    (λ f i new, ∃ contents, new = [(bundleKey, zip contents)] ∧ describes i bundleKey (zip contents) ∧
       Forall2 (λ e pc, pc.1 = fe_Path e ∧ f (prefix +:+ fe_Path e) = Some pc.2) (sort_entries entries) contents).
Proof using HL.
  unfold streamReleaseBundle. eapply writes_after; [apply reads_contents|].
  intros f [contents err] Hc. eapply writes_need; [apply writes_put|].
  intros g i n1 (He & -> & Hi). cbn in He. subst err. apply writes_ret.
  intros h x [= <-] _ Hg. exists contents. split; [done|]. split; [done|]. by apply Hc.
Qed.
End releases.

(** *** The whole release *)

(** The contents of a bundle: the named files, as stored. *)
Definition bundled (prefix : string) (objects : string → option string) (entries : list FileEntry)
    (contents : list (string * string)) : Prop :=
  Forall2 (λ e pc, pc.1 = fe_Path e ∧ objects (prefix +:+ fe_Path e) = Some pc.2)
    (sort_entries entries) contents.

(** What was written for a prepared release, the newest first. *)
Definition prepared_with (zip : list (string * string) → string) (releaseID : string)
    (f : string → option string) (p : prepared) (new : list (string * string)) : Prop :=
  let prefix := release_prefix releaseID in
  let m := pp_Manifest p in
  ∃ files contents,
    new = (release_bundle releaseID, zip contents) :: (prefix +:+ "manifest.json", manifest_text m) :: files ∧
    written prefix (pp_Files p) files ∧
    mf_Files m = pp_Files p ∧ mf_ReleaseID m = releaseID ∧
    describes (pp_ManifestInfo p) (prefix +:+ "manifest.json") (manifest_text m) ∧
    describes (pp_Bundle p) (release_bundle releaseID) (zip contents) ∧
    bundled prefix (overlay ((prefix +:+ "manifest.json", manifest_text m) :: files) f)
      (pp_Files p ++ [entry_of "manifest.json" "application/json" (pp_ManifestInfo p)]) contents.

Lemma writes_release {B} `{HL : BlobLaws B} env schema zip blob_text json_error
    releaseID projectID name profile configurationHash candidates redactions references :
  writes (B := B)
    (write_release env schema zip blob_text json_error releaseID projectID name profile
       configurationHash candidates redactions references)
    (λ f p new, prepared_with zip releaseID f p new ∧ mf_ProjectID (pp_Manifest p) = projectID ∧
       mf_Name (pp_Manifest p) = name ∧ mf_ReleaseProfile (pp_Manifest p) = profile ∧
       mf_SourceSessionIDs (pp_Manifest p) = map rcd_SessionID candidates ∧
       mf_RedactionPlans (pp_Manifest p) = references).
Proof.
  unfold write_release. cbv zeta.
  eapply writes_need; [apply writes_file|]. intros f1 readme n1 (_ & _ & _ & H1).
  eapply writes_need; [apply writes_file|]. intros f2 schema_entry n2 (_ & _ & _ & H2).
  eapply writes_need; [apply writes_sessions|]. intros f3 published n3 H3.
  eapply writes_need; [apply writes_file|]. intros f4 lines n4 (_ & _ & _ & H4).
  eapply writes_need; [apply writes_file|]. intros f5 checksums n5 (_ & _ & _ & H5).
  eapply writes_need; [apply writes_put|]. intros f6 info n6 (_ & -> & Hinfo).
  eapply writes_need; [apply writes_bundle|]. intros f7 bundle n7 (contents & -> & Hbundle & Hcontents).
  apply writes_ret. intros f8 p [= <-] G7 G6 G5 G4 G3 G2 G1.
  split; [|done]. cbn [pp_Files pp_Manifest pp_ManifestInfo pp_Bundle mf_Files mf_ReleaseID].
  eexists _, contents. cbn [app]. rewrite <-!app_assoc.
  split; [reflexivity|]. split.
  { pose proof (written_app _ [readme] _ _ _ H1 (written_app _ [schema_entry] _ _ _ H2
      (written_app _ _ [lines] _ _ H3 H4))) as W4.
    eapply (written_perm _ _ _ _ (sort_entries_perm _)) in W4.
    pose proof (written_app _ _ [checksums] _ _ W4 H5) as W5.
    eapply (written_perm _ _ _ _ (sort_entries_perm _)) in W5.
    cbn [app] in W5. rewrite <-!app_assoc in W5. exact W5. }
  split; [done|]. split; [done|]. split; [done|]. split; [done|].
  eapply Forall2_impl; [exact Hcontents|]. intros e pc [Hp Ho]. split; [done|]. rewrite <-Ho.
  symmetry. generalize (release_prefix releaseID +:+ fe_Path e). intros k.
  rewrite G6. match goal with |- _ = overlay (?x :: ?l) ?g k => change (x :: l) with ([x] ++ l)%list end.
  rewrite overlay_app. apply overlay_ext. clear k. intros k.
  rewrite G5, overlay_app. apply overlay_ext. clear k. intros k.
  rewrite G4, overlay_app. apply overlay_ext. clear k. intros k.
  rewrite G3, overlay_app. apply overlay_ext. clear k. intros k.
  rewrite G2, overlay_app. apply overlay_ext. clear k. intros k.
  apply G1.
Qed.

(** *** Redactions that are published *)

Section redactions.
Context {B : Type} `{HL : BlobLaws B} (env : environment) (Hidle : undisturbed env).
Variables (store_text : error → string) (blob_text : blob_error → string) (json_error : string → string).

(** An output agrees with its object. *)
Definition output_stored (f : string → option string) (o : redactionOutput) : Prop :=
  ∃ c, f (ro_OutputKey o) = Some c ∧ sha256_hex c = ro_SHA256 o ∧ slen c = ro_Size o.
(** An output is of a segment of the plan, as decided there. *)
Definition output_of_plan (plan : RedactionPlan) (o : redactionOutput) : Prop :=
  ∃ s, s ∈ rd_Segments (pl_Document plan) ∧ sg_SegmentID s = ro_SegmentID o ∧
       sg_SourceKey s = ro_SourceKey o ∧ sg_Decision s = ro_Decision o.

Lemma output_approved_sound sessionID plan seen o :
  output_approved sessionID plan seen o = true → ro_SegmentID o ∉ seen ∧ output_of_plan plan o.
Proof using Type.
  unfold output_approved, approved_segment. rewrite !andb_true_iff, !negb_true_iff.
  intros ((((((((_ & Hseen) & Hs) & _) & _) & _) & _) & _) & _).
  split; [by apply bool_decide_eq_false in Hseen|].
  destruct (List.find _ _) as [s|] eqn:E; [|done]. apply List.find_some in E as [Hin Hid].
  rewrite <-list_elem_of_In, elem_of_reverse in Hin. apply seqb_true in Hid.
  apply andb_true_iff in Hs as [H1%seqb_true H2%seqb_true]. by exists s.
Qed.

Lemma reads_outputs sessionID plan seen outputs :
  reads (check_outputs env sessionID plan seen outputs)
    (λ f x, x = None → Forall (output_stored f) outputs ∧ Forall (output_of_plan plan) outputs ∧
       NoDup (map ro_SegmentID outputs) ∧ (∀ k, k ∈ map ro_SegmentID outputs → k ∉ seen)).
Proof using HL.
  revert seen. induction outputs as [|o outputs IH]; intros seen; cbn [check_outputs].
  { apply reads_ret. intros f _. split; [constructor|]. split; [constructor|]. split; [constructor|].
    by intros k ?%elem_of_nil. }
  destruct (output_approved sessionID plan seen o) eqn:Ho; [|apply reads_ret; done]. cbn [negb].
  apply output_approved_sound in Ho as [Hseen Hplan].
  eapply reads_bind; [apply reads_stat|]. intros f [info|e] Hi; [|apply reads_ret; done].
  destruct (_ || _) eqn:Hm; [apply reads_ret; done|].
  apply orb_false_iff in Hm as [H1%negb_false_iff%seqb_true H2%negb_false_iff%Z.eqb_eq].
  eapply reads_weaken; [apply IH|]. intros g x Hx Hg Hn. destruct (Hx Hn) as (Ha & Hb & Hc & Hd).
  destruct (Hi info eq_refl) as (c & Hc1 & _ & Hsz & Hsh).
  split; [|split; [by constructor|split]].
  - constructor; [exists c; split; [done|]; split; congruence|].
    eapply Forall_impl; [exact Ha|]. intros o' (c' & H3 & H4). exists c'. by rewrite <-Hg.
  - cbn. constructor; [|done]. intros Hin. apply (Hd _ Hin). left.
  - cbn. intros k [->|Hk]%elem_of_cons; [done|]. intros Hks. apply (Hd _ Hk). by right.
Qed.

(** What [loadRedaction] vouches for. *)
Definition redaction_sound (sessionID : string) (plan : RedactionPlan) (f : string → option string)
    (r : releaseRedaction) : Prop :=
  lr_Reference r = {| rr_SessionID := sessionID; rr_PlanID := pl_ID plan; rr_Version := pl_Version plan;
                      rr_PlanHash := pl_DocumentHash plan |} ∧
  map ro_SegmentID (lr_Outputs r) ≡ₚ map sg_SegmentID (rd_Segments (pl_Document plan)) ∧
  NoDup (map ro_SegmentID (lr_Outputs r)) ∧
  Forall (output_of_plan plan) (lr_Outputs r) ∧ Forall (output_stored f) (lr_Outputs r).

Lemma reads_verify sessionID plan body :
  reads (verify_redaction env json_error sessionID plan body)
    (λ f x, ∀ r, x = Ok r → redaction_sound sessionID plan f r).
Proof using HL.
  unfold verify_redaction.
  destruct (read_limited _ body) as [raw|e]; [|apply reads_ret; done].
  destruct (_ <? _); [apply reads_ret; done|].
  destruct (decode_output_manifest json_error raw) as [m|e]; [|apply reads_ret; done].
  destruct (manifest_of_plan sessionID plan m) eqn:Hm; [|apply reads_ret; done]. cbn [negb].
  eapply reads_bind; [apply reads_outputs|]. intros f [e|] Hx; apply reads_ret; [done|].
  intros g Hg r [= <-]. destruct (Hx eq_refl) as (Ha & Hb & Hc & _).
  assert (Hp : merge_sort output_le (rm_Outputs m.2) ≡ₚ rm_Outputs m.2) by apply merge_sort_Permutation.
  unfold redaction_sound. cbn [lr_Reference lr_Outputs]. split; [done|].
  split; [|split; [|split]]; rewrite Hp; try done.
  apply submseteq_length_Permutation.
  - apply NoDup_submseteq; [done|]. intros k Hk. apply list_elem_of_fmap in Hk as (o & -> & Ho).
    rewrite Forall_forall in Hb. destruct (Hb o Ho) as (s & Hs & <- & _). by apply list_elem_of_fmap_2.
  - rewrite !length_map. unfold manifest_of_plan in Hm. rewrite !andb_true_iff, Nat.eqb_eq in Hm. lia.
Qed.

Lemma reads_redaction sessionID : reads (loadRedaction env store_text blob_text json_error sessionID) (λ _ _, True).
Proof using HL Hidle.
  unfold loadRedaction. eapply reads_bind; [by apply reads_store|]. intros f0 [found|e] _; [|by apply reads_ret].
  eapply reads_bind; [apply reads_get|]. intros f1 [body|e] _; [|by apply reads_ret].
  eapply reads_weaken; [apply reads_verify|done].
Qed.

Lemma reads_redactions candidates :
  reads (load_redactions env store_text blob_text json_error candidates) (λ _ _, True).
Proof using HL Hidle.
  induction candidates as [|c candidates IH]; cbn [load_redactions]; [by apply reads_ret|].
  eapply reads_bind; [apply reads_redaction|]. intros f [r|e] _; [|by apply reads_ret].
  eapply reads_bind; [apply IH|]. intros g [l|e] _; by apply reads_ret.
Qed.
End redactions.

(** *** Sealed releases *)

(** Everything but the bundle is under the prefix of the release. *)
Definition release_keys (releaseID : string) (m : Manifest) : list string :=
  map (λ e, release_prefix releaseID +:+ fe_Path e) (mf_Files m)
    ++ [release_prefix releaseID +:+ "manifest.json"; release_bundle releaseID].

(** The objects and the metadata of a release agree. *)
Definition sealed (zip : list (string * string) → string) (objects : string → option string)
    (release : DatasetRelease) (m : Manifest) : Prop :=
  let prefix := release_prefix (rl_ID release) in
  (∀ e, e ∈ mf_Files m → ∃ c, objects (prefix +:+ fe_Path e) = Some c ∧
        fe_Size e = slen c ∧ fe_SHA256 e = sha256_hex c) ∧
  objects (prefix +:+ "manifest.json") = Some (manifest_text m) ∧
  rl_ManifestHash release = sha256_hex (manifest_text m) ∧
  (∃ contents, objects (release_bundle (rl_ID release)) = Some (zip contents) ∧
     rl_BundleHash release = sha256_hex (zip contents) ∧ rl_BundleSize release = slen (zip contents) ∧
     map (λ pc, prefix +:+ pc.1) contents ++ [release_bundle (rl_ID release)]
       ≡ₚ release_keys (rl_ID release) m ∧
     ∀ p c, (p, c) ∈ contents → objects (prefix +:+ p) = Some c) ∧
  NoDup (rl_ObjectKeys release) ∧ rl_ObjectKeys release ≡ₚ release_keys (rl_ID release) m.

Lemma StronglySorted_lt_NoDup l : StronglySorted string_lt l → NoDup l.
Proof.
  induction 1 as [|x l _ IH Hx]; constructor; [|done]. intros Hin.
  rewrite Forall_forall in Hx. by destruct (Hx x Hin).
Qed.

Lemma check_release_keys release :
  check_release release = Ok () → NoDup (rl_ObjectKeys release).
Proof.
  unfold check_release. destruct (_ || _); [done|]. destruct (negb _); [done|].
  destruct (_ || _) eqn:E; [done|]. intros _. apply orb_false_iff in E as [_ E%negb_false_iff].
  unfold validReleaseObjectKeys in E. rewrite !andb_true_iff, release_keys_ok_spec in E.
  apply StronglySorted_lt_NoDup. tauto.
Qed.

Lemma bundled_keys prefix f entries contents :
  bundled prefix f entries contents →
  map (λ pc, prefix +:+ pc.1) contents ≡ₚ map (λ e, prefix +:+ fe_Path e) entries ∧
  ∀ p c, (p, c) ∈ contents → f (prefix +:+ p) = Some c.
Proof.
  unfold bundled. intros H. split.
  - trans (map (λ e, prefix +:+ fe_Path e) (sort_entries entries));
      [apply reflexive_eq|by rewrite sort_entries_perm].
    induction H as [|e pc l k [Hp _] _ IH]; [done|]. cbn. by rewrite IH, Hp.
  - intros p c Hin. apply list_elem_of_lookup in Hin as [i Hi].
    destruct (Forall2_lookup_r _ _ _ _ _ H Hi) as (e & _ & Hp & Ho). cbn in *. by rewrite Hp.
Qed.

Lemma prepared_sealed zip releaseID f g p new release :
  prepared_with zip releaseID f p new → (∀ k, g k = overlay new f k) →
  check_release (prepared_release p) = Ok () →
  rl_ID release = releaseID → rl_ManifestHash release = bi_SHA256 (pp_ManifestInfo p) →
  rl_BundleHash release = bi_SHA256 (pp_Bundle p) → rl_BundleSize release = bi_Size (pp_Bundle p) →
  rl_ObjectKeys release = rl_ObjectKeys (prepared_release p) →
  sealed zip g release (pp_Manifest p) ∧ (∀ k, k ∉ rl_ObjectKeys release → g k = f k).
Proof.
  intros (files & contents & -> & Hw & Hf & Hid & (_ & _ & Hmh) & (_ & Hbz & Hbh) & Hb) Hg Hc Hr Hm Hbu Hbs Hk.
  assert (Hkeys : rl_ObjectKeys release ≡ₚ release_keys releaseID (pp_Manifest p)).
  { rewrite Hk. unfold prepared_release. cbn [rl_ObjectKeys]. rewrite Hid, sort_strings_Permutation.
    unfold release_keys. by rewrite Hf. }
  pose proof (check_release_keys _ Hc) as Hnd. rewrite <-Hk in Hnd.
  assert (Hlog : map fst ((release_bundle releaseID, zip contents)
      :: (release_prefix releaseID +:+ "manifest.json", manifest_text (pp_Manifest p)) :: files)
      ≡ₚ release_keys releaseID (pp_Manifest p)).
  { cbn [map fst]. unfold release_keys. rewrite (written_keys _ _ _ Hw), Hf. solve_Permutation. }
  assert (Hnd2 := Hnd). rewrite Hkeys, <-Hlog in Hnd2.
  destruct (bundled_keys _ _ _ _ Hb) as [Hbk Hbc].
  split.
  2: { intros k Hnk. rewrite Hg. apply overlay_out. by rewrite Hlog, <-Hkeys. }
  unfold sealed. rewrite Hr. split; [|split; [|split; [|split; [|split]]]].
  - intros e He. rewrite Hf in He. destruct (written_entry _ _ _ _ Hw He) as (c & Hin & H1 & H2).
    exists c. split; [|done]. rewrite Hg. apply overlay_in; [done|]. by do 2 right.
  - rewrite Hg. apply overlay_in; [done|]. right. left.
  - by rewrite Hm, Hmh.
  - exists contents. split; [rewrite Hg; apply overlay_in; [done|left]|].
    split; [by rewrite Hbu, Hbh|]. split; [by rewrite Hbs, Hbz|]. split.
    + rewrite Hbk, map_app. unfold release_keys. rewrite Hf. cbn. by rewrite <-app_assoc.
    + intros q c Hin. rewrite Hg, overlay_cons_ne; [by apply Hbc|].
      intros Heq. cbn [map fst] in Hnd2. apply NoDup_cons in Hnd2 as [Hn _]. apply Hn. rewrite <-Heq.
      assert (Hq : release_prefix releaseID +:+ q ∈ map (λ pc, release_prefix releaseID +:+ pc.1) contents)
        by (by apply (list_elem_of_fmap_2 (λ pc, release_prefix releaseID +:+ pc.1) _ (q, c))).
      rewrite Hbk, map_app, elem_of_app in Hq. destruct Hq as [Hq|Hq].
      * right. by rewrite (written_keys _ _ _ Hw).
      * cbn in Hq. apply list_elem_of_singleton in Hq as ->. left.
  - done.
  - done.
Qed.

Lemma writes_prepare {B} `{HL : BlobLaws B} env schema zip store_text blob_text json_error
    projectID name profile sessionIDs :
  undisturbed env →
  writes (B := B)
    (prepare_release env schema zip store_text blob_text json_error projectID name profile sessionIDs)
    (λ f p new, ∃ releaseID, prepared_with zip releaseID f p new ∧
       mf_ProjectID (pp_Manifest p) = projectID ∧ mf_Name (pp_Manifest p) = name ∧
       mf_ReleaseProfile (pp_Manifest p) = profile).
Proof.
  intros Hidle. unfold prepare_release. eapply writes_need.
  { unfold from_store. eapply writes_after; [by apply reads_store|]. intros f x _. apply writes_ret.
    intros g a _ _. instantiate (1 := λ _ _ new, new = []). done. }
  intros f candidates n1 ->. eapply (writes_need _ _ (λ f0 _ new, new = [])).
  { destruct (seqb profile ProfileRedactedVideo); [|by apply writes_ret].
    eapply writes_reads; [by apply reads_redactions|done]. }
  intros g redactions n2 ->. eapply writes_weaken; [apply writes_release|].
  intros h p new (Hp & H1 & H2 & H3 & _) Hg Hf. rewrite !app_nil_r.
  eexists. split; [|done].
  destruct Hp as (files & contents & -> & Hw & H4 & H5 & H6 & H7 & Hb).
  exists files, contents. do 6 (split; [done|]).
  eapply Forall2_impl; [exact Hb|]. intros e pc [Hp Ho]. split; [done|]. rewrite <-Ho.
  apply overlay_ext. intros k. rewrite Hg. apply eq_sym. rewrite Hf. done.
Qed.


(** C17: only redactions that were carried out as approved are published.  When
    [loadRedaction] accepts the redaction of a session, its outputs correspond one to one
    to the segments of the latest completed plan, with the same source and decision,
    and every output is in the store with the digest and length the worker recorded. *)
Theorem redaction_accepted_only_if_sound {B} `{HL : BlobLaws B} (env : environment) store_text blob_text
    json_error sessionID (w w' : world B) r :
  undisturbed env → store_ok (w_blobs w) →
  loadRedaction env store_text blob_text json_error sessionID w = (Ok r, w') →
  w_db w' = w_db w ∧ (∀ k, object (w_blobs w') k = object (w_blobs w) k) ∧
  ∃ plan job, LatestCompletedRedaction (w_db w) sessionID = Ok (plan, job) ∧
    redaction_sound sessionID plan (object (w_blobs w)) r.
Proof.
  intros Hidle Hok. unfold loadRedaction. unfold wbind at 1, store_read. rewrite Hidle.
  destruct (LatestCompletedRedaction (w_db w) sessionID) as [[plan job]|e]; [|done]. cbn [fst snd].
  match goal with |- ?run ?w0 = _ → _ =>
    set (w1 := w0); assert (Hok1 : store_ok (w_blobs w1)) by exact Hok;
    assert (Hreads : reads run (λ f x, ∀ r, x = Ok r → redaction_sound sessionID plan f r)) end.
  { eapply reads_bind; [apply reads_get|]. intros f [body|e] _; [|by apply reads_ret].
    eapply reads_weaken; [apply reads_verify|]. intros g x Hx Hg r' Hr.
    destruct (Hx r' Hr) as (H1 & H2 & H3 & H4 & H5). do 4 (split; [done|]).
    eapply Forall_impl; [exact H5|]. intros o (c & Hc & Ho). exists c. by rewrite <-Hg. }
  intros Hrun. destruct (Hreads _ _ _ Hok1 Hrun) as (H1 & _ & H2 & H3).
  split; [exact H1|]. split; [exact H2|]. exists plan, job. split; [done|]. by apply H3.
Qed.

(** ** Releases and redactions that are accepted *)

Definition released_db : db :=
  set_validation_results <["val_1" :=
      {| val_job_id := "job_1"; val_session_id := "sess_1"; val_valid := true; val_errors := [];
         val_normalized_key := Some "derived/sessions/sess_1/trajectory.json";
         val_schema_version := "trajectory/v1"; val_validator_version := "v"; val_created_at := 3;
         val_purged_at := None |}]> (with_task redactable_db).
Definition released_objects : memory :=
  {[("artifacts", "derived/sessions/sess_1/trajectory.json") := Marshal (JObject [("privacy", JObject [])])]}.
Definition joined (contents : list (string * string)) : string :=
  foldr (λ pc s, pc.1 +:+ ":" +:+ pc.2 +:+ s) "" contents.


(** The redaction is the one the worker carries out. *)
Definition redacted_world : world memory :=
  let plan := plan_with [named_segment "x" "a"; named_segment "y" "b"] in
  (processRedaction (at_instant 7) (λ _, "") (λ _, "") "worker" inspect_fixed blacken
    (sample_world (set_redaction_plans <["plan_1" :=
        {| rpl_session_id := "sess_1"; rpl_reviewer_id := "reviewer"; rpl_request_id := "r";
           rpl_schema_version := "redaction/v1"; rpl_document_hash := "hash"; rpl_version := 1;
           rpl_document := pl_Document plan; rpl_created_at := 1 |}]>
      (set_redaction_jobs <["job_1" := redaction_job_to_row "plan_1" "sess_1" 2]> redactable_db))
      two_videos)).2.

Lemma redaction_accepted_only_if_sound_witness :
  ∃ r w', loadRedaction (at_instant 7) (λ _, "") (λ _, "") (λ _, "") "sess_1" redacted_world = (Ok r, w') ∧
    length (lr_Outputs r) = 2%nat ∧
    Forall (output_stored (object (w_blobs redacted_world))) (lr_Outputs r).
Proof.
  destruct (loadRedaction (at_instant 7) (λ _, "") (λ _, "") (λ _, "") "sess_1" redacted_world)
    as [[r|e] w'] eqn:H.
  - exists r, w'. split; [reflexivity|]. split.
    + pose proof (f_equal (λ x, match x.1 with Ok r => length (lr_Outputs r) | Err _ => 0%nat end) H) as E.
      cbn [fst] in E. rewrite <-E. vm_compute. reflexivity.
    + destruct (redaction_accepted_only_if_sound (at_instant 7) (λ _, "") (λ _, "") (λ _, "") "sess_1"
        redacted_world w' r) as (_ & _ & plan & job & _ & _ & _ & _ & _ & Hs);
        [intros n d; reflexivity|exact I|exact H|exact Hs].
  - pose proof (f_equal (λ x, is_ok x.1) H) as E. vm_compute in E. discriminate E.
Defined.
