(* ===== verification/Handoff.v ===== *)
(** * From the worker to the exporter

    The worker ends a redaction with a manifest in the object store; the exporter of a
    release reads it back, strictly, and checks every entry against the approved plan
    and the store.  The two sides share no code but the bytes.  Here they are composed:
    the encoder with the decoder ([RoundTrip], [Floats]), the inspector ([Probe]), the
    turn of the worker ([Turns]) and [Exporter.loadRedaction]. *)

From S2P Require Import Prelude Domain Text Encoding Json RoundTrip Floats Schema Frame Sha256 Blob R2 Store Validator Redaction Media Probe Erasure Steps Worker Turns Release Http Exporter.

(** ** The manifest as the exporter decodes it *)

Lemma decode_float64_canonical f old : canonical_positive f = true → decode_float64 (float_json f) old = (f, false).
Proof.
  destruct f as [| | |[] m e]; try done. intros Hf.
  destruct (format_float_reads m e Hf) as (t & Ht & _ & Hp). unfold float_json. rewrite Ht.
  unfold decode_float64, default, id. by rewrite Hp.
Qed.
Lemma float_number f : canonical_positive f = true → ∃ t, float_json f = JNumber t ∧ is_number t = true.
Proof.
  destruct f as [| | |[] m e]; try done. intros Hf.
  destruct (format_float_reads m e Hf) as (t & Ht & Hn & _). exists t. unfold float_json. by rewrite Ht.
Qed.

(** One member of an object that the struct has a field for. *)
Lemma decode_member {A C} strict (fields : list (string * decoder A)) k v l old (get : A → C) set dec x new :
  find_field fields k = Some (on_field get set dec) → dec v (get old) = (x, false) → set x old = new →
  decode_members strict fields ((k, v) :: l) old = decode_members strict fields l new.
Proof.
  intros H1 H2 <-. cbn [decode_members]. rewrite H1. unfold on_field. rewrite H2.
  by destruct (decode_members _ _ l _).
Qed.
Ltac member tac := eapply eq_trans; [eapply decode_member; [reflexivity|cbn; tac|cbn; reflexivity]|].

Definition writable_output (o : redactionOutput) : bool :=
  ValidString (ro_SegmentID o) && ValidString (ro_SourceKey o) && ValidString (ro_Decision o)
  && ValidString (ro_OutputKey o) && ValidString (ro_SHA256 o) && int64 (ro_Size o)
  && int64 (ro_Width o) && int64 (ro_Height o) && canonical_positive (ro_DurationSecond o).

Lemma decode_output o :
  writable_output o = true →
  decode_struct true redaction_output_fields (output_json o) zero_redaction_output = (o, false).
Proof.
  unfold writable_output. rewrite !andb_true_iff. intros [[[[_ H1] H2] H3] H4].
  unfold output_json, decode_struct.
  do 5 (member ltac:(reflexivity)). do 3 (member ltac:(by apply decode_int64_Sprint)).
  member ltac:(by apply decode_float64_canonical). by destruct o.
Qed.

Lemma decode_items_map {A} (zero : A) dec (f : A → json) l :
  Forall (λ x, dec (f x) zero = (x, false)) l → decode_items zero dec (map f l) [] = (l, false).
Proof. induction 1 as [|x l Hx _ IH]; [done|]. cbn. by rewrite Hx, IH. Qed.

Definition writable_manifest (m : redactionOutputManifest) : bool :=
  ValidString (rm_SessionID m) && ValidString (rm_PlanID m) && ValidString (rm_PlanHash m)
  && int64 (rm_PlanVersion m) && forallb writable_output (rm_Outputs m).

Lemma decode_manifest_members m :
  writable_manifest m = true →
  decode_struct true output_manifest_fields (manifest_json m) zero_output_manifest
    = (("redaction-output/v1", m), false).
Proof.
  unfold writable_manifest. rewrite !andb_true_iff. intros [[_ H1] H2].
  assert (Hl : decode_items zero_redaction_output (decode_struct true redaction_output_fields)
                 (map output_json (rm_Outputs m)) [] = (rm_Outputs m, false)).
  { apply decode_items_map. rewrite forallb_forall in H2. rewrite Forall_forall. intros o Ho.
    by apply decode_output, H2, list_elem_of_In. }
  unfold manifest_json, decode_struct. do 3 (member ltac:(reflexivity)).
  member ltac:(by apply decode_int64_Sprint). member ltac:(reflexivity).
  member ltac:(exact Hl). by destruct m.
Qed.

Lemma writable_output_json d o : writable_output o = true → writable (S d) (output_json o) = true.
Proof.
  unfold writable_output. rewrite !andb_true_iff. intros [[[[[[[[H1 H2] H3] H4] H5] H6] H7] H8] H9].
  destruct (float_number _ H9) as (t & Hf & Hn). unfold output_json. rewrite Hf.
  cbn [writable forallb fst snd]. by rewrite !int64_number, H1, H2, H3, H4, H5, Hn by done.
Qed.
Lemma writable_manifest_json d m : writable_manifest m = true → writable (S (S (S d))) (manifest_json m) = true.
Proof.
  unfold writable_manifest. rewrite !andb_true_iff. intros [[[[H1 H2] H3] H4] H5].
  assert (Hl : forallb (λ v, writable (S d) v) (map output_json (rm_Outputs m)) = true).
  { rewrite forallb_forall in *. intros v (o & <- & Ho)%in_map_iff. by apply writable_output_json, H5. }
  unfold manifest_json. cbn [writable forallb fst snd]. rewrite int64_number, Hl, H1, H2, H3 by done. reflexivity.
Qed.

(** What the worker writes, the exporter decodes. *)
Lemma decode_written json_error m :
  writable_manifest m = true →
  decode_output_manifest json_error (Marshal (manifest_json m) +:+ newline) = Ok ("redaction-output/v1", m).
Proof.
  intros Hm. unfold decode_output_manifest.
  destruct (decode_encoded (manifest_json m) "" newline) as [Hd _].
  - by apply (writable_manifest_json 9997).
  - reflexivity.
  - reflexivity.
  - rewrite string_app_nil_l in Hd. rewrite Hd, decode_manifest_members by done. reflexivity.
Qed.

(** ** The outputs pass the exporter's checks *)

Lemma find_unique {A} (p : A → bool) l x :
  x ∈ l → p x = true → (∀ y, y ∈ l → p y = true → y = x) → List.find p l = Some x.
Proof.
  intros Hx Hp Hu. destruct (List.find p l) as [y|] eqn:E.
  - apply find_some in E as [Hy%list_elem_of_In Hpy]. by rewrite (Hu y).
  - apply list_elem_of_In in Hx. assert (p x = false) by exact (find_none _ _ E x Hx). congruence.
Qed.

Lemma NoDup_map_inj {A C} (f : A → C) l x y :
  NoDup (map f l) → x ∈ l → y ∈ l → f x = f y → x = y.
Proof.
  intros Hnd [i Hi]%list_elem_of_lookup [j Hj]%list_elem_of_lookup Hf.
  assert (i = j) as ->; [|congruence].
  eapply NoDup_lookup; [exact Hnd| |]; rewrite list_lookup_fmap; [by rewrite Hi|].
  by rewrite Hj, Hf.
Qed.

Lemma approved_segment_unique plan s :
  NoDup (map sg_SegmentID (rd_Segments (pl_Document plan))) → s ∈ rd_Segments (pl_Document plan) →
  approved_segment plan (sg_SegmentID s) = Some s.
Proof.
  intros Hnd Hs. apply find_unique; [by apply elem_of_reverse|by apply seqb_true|].
  intros y Hy Heq%seqb_true. rewrite elem_of_reverse in Hy. exact (NoDup_map_inj sg_SegmentID _ _ _ Hnd Hy Hs Heq).
Qed.

(** The output is what a stored, non-empty object and inspected media make of a segment. *)
Definition rendered (plan : RedactionPlan) (objects : string → option string) (s : RedactionSegment)
    (o : redactionOutput) : Prop :=
  ro_SegmentID o = sg_SegmentID s ∧ ro_SourceKey o = sg_SourceKey s ∧
  ro_Decision o = sg_Decision s ∧ ro_OutputKey o = output_key plan s ∧
  (∃ media, media_fits media = true ∧ ro_Width o = mi_Width media ∧ ro_Height o = mi_Height media ∧
    ro_DurationSecond o = mi_DurationSeconds media) ∧
  ∃ content, content ≠ "" ∧ objects (ro_OutputKey o) = Some content ∧ slen content < 2 ^ 63 ∧
    ro_Size o = slen content ∧ ro_SHA256 o = sha256_hex content.

Lemma ValidString_ascii s : all_chars (λ c, (N_of_ascii c <? 128)%N) s = true → ValidString s = true.
Proof.
  unfold ValidString. intros H. induction s as [|c s IH]; [done|]. cbn in H |- *.
  apply andb_true_iff in H as [Hc H]. rewrite Hc. by apply IH.
Qed.
Lemma ValidString_sha256 s : ValidString (sha256_hex s) = true.
Proof.
  destruct (sha256_hex_bytes s) as (bytes & _ & -> & _). apply ValidString_ascii.
  assert (Hd : ∀ n, (n < 16)%N → (N_of_ascii (hex_digit n) <? 128)%N = true).
  { apply (all_below (λ n, (N_of_ascii (hex_digit n) <? 128)%N = true) 16). vm_compute. reflexivity. }
  induction bytes as [|b bytes IH]; [done|]. cbn [EncodeToString all_chars]. rewrite !Hd, IH; [done| |].
  - by apply N.mod_lt.
  - pose proof (Byte.to_N_bounded b). apply N.Div0.div_lt_upper_bound. lia.
Qed.
Lemma slen_positive s : s ≠ "" → 1 ≤ slen s.
Proof. destruct s as [|c s]; [done|]. unfold slen. cbn. lia. Qed.

Lemma rendered_approved plan objects s o seen :
  NoDup (map sg_SegmentID (rd_Segments (pl_Document plan))) → s ∈ rd_Segments (pl_Document plan) →
  segment_ok (pl_SessionID plan) s → rendered plan objects s o → ro_SegmentID o ∉ seen →
  output_approved (pl_SessionID plan) plan seen o = true.
Proof.
  intros Hnd Hs (_ & Hid & _) (H1 & H2 & H3 & H4 & (media & Hm & Hw & Hh & Hd) & c & Hc & _ & _ & Hsz & Hsha) Hseen.
  unfold media_fits in Hm. rewrite !andb_true_iff in Hm. destruct Hm as [[[[Hm1 _] Hm2] _] Hm3].
  unfold output_approved. rewrite Hsz, Hw, Hh, Hd, Hsha, H4, H2, H3, H1 in *.
  rewrite approved_segment_unique by done.
  destruct (sha256_hex_bytes c) as (bytes & Hl & He & ->).
  rewrite Hl, <-He, Hm1, Hm2, (proj2 (Z.leb_le 1 (slen c))) by by apply slen_positive.
  assert (Hne : is_empty (sg_SegmentID s) = false).
  { unfold redactionSegmentID in Hid. by destruct (is_empty _). }
  rewrite Hne. assert (Ho : oneof (sg_SegmentID s) seen = false).
  { destruct (oneof _ _) eqn:E; [|done]. by apply oneof_true in E. }
  rewrite Ho. assert (Hp : positive_float (mi_DurationSeconds media) = true).
  { destruct (mi_DurationSeconds media) as [| | |[] m e]; done. }
  rewrite Hp. cbn [negb andb Nat.eqb].
  rewrite !(proj2 (seqb_true _ _)); [done| |done..].
  unfold output_key, redaction_prefix, derived_prefix. by rewrite !string_app_assoc.
Qed.

Section handoff.
Context {B : Type} {HS : BlobStore B} {HV : BlobView B} {HL : BlobLaws B} {HB : BlobServing B}.
Context (env : environment).

Lemma check_outputs_ok sessionID plan seen outputs (w : world B) :
  serving (w_blobs w) →
  Forall (λ o, ∃ c, object (w_blobs w) (ro_OutputKey o) = Some c ∧ ro_Size o = slen c ∧
                    ro_SHA256 o = sha256_hex c) outputs →
  (∀ o seen', o ∈ outputs → ro_SegmentID o ∉ seen' → output_approved sessionID plan seen' o = true) →
  NoDup (map ro_SegmentID outputs) → (∀ o, o ∈ outputs → ro_SegmentID o ∉ seen) →
  ∃ w', check_outputs env sessionID plan seen outputs w = (None, w').
Proof using HL HB.
  revert seen w. induction outputs as [|o l IH]; intros seen w Hs Hobj Happ Hnd Hseen; [by eexists|].
  cbn [check_outputs]. rewrite Happ by (set_solver). cbn [negb].
  apply Forall_cons in Hobj as [(c & Hc & Hsz & Hsha) Hobj]. apply NoDup_cons in Hnd as [Hn Hnd].
  destruct (serving_stat _ _ _ Hs Hc) as (i & b' & Hstat & Hs').
  destruct (stat_law _ _ _ _ (serving_ok _ Hs) Hstat) as [[_ Hr] Hi].
  destruct (Hi i eq_refl) as (c' & Hc' & _ & Hsz' & Hsha'). assert (c' = c) as -> by congruence.
  unfold wbind, blob_call. rewrite Hstat. rewrite Hsz', Hsha', Hsz, Hsha, Z.eqb_refl, (proj2 (seqb_true _ _)) by done.
  cbn [negb orb]. apply IH; [done| |set_solver|done|].
  - eapply Forall_impl; [exact Hobj|]. intros o' (c' & Ho' & ?). exists c'. cbn. by rewrite Hr.
  - intros o' Ho' [Heq|Hin]%elem_of_cons; [|set_solver]. apply Hn. rewrite <-Heq. by apply list_elem_of_fmap_2.
Qed.

(** The texts and numbers of a plan as the database holds them. *)
Definition writable_plan (plan : RedactionPlan) : bool :=
  ValidString (pl_SessionID plan) && ValidString (pl_ID plan) && ValidString (pl_DocumentHash plan)
  && int64 (pl_Version plan)
  && forallb (λ s, ValidString (sg_SegmentID s) && ValidString (sg_SourceKey s)
                   && ValidString (sg_Decision s) && ValidString (output_key plan s))
       (rd_Segments (pl_Document plan)).

Lemma rendered_writable plan objects s o :
  writable_plan plan = true → s ∈ rd_Segments (pl_Document plan) → rendered plan objects s o →
  writable_output o = true.
Proof using Type.
  unfold writable_plan. rewrite !andb_true_iff, forallb_forall. intros [_ Hall] Hs%list_elem_of_In.
  specialize (Hall s Hs). rewrite !andb_true_iff in Hall. destruct Hall as [[[V1 V2] V3] V4].
  intros (H1 & H2 & H3 & H4 & (media & Hm & Hw & Hh & Hd) & c & _ & _ & Hlt & Hsz & Hsha).
  unfold media_fits in Hm. rewrite !andb_true_iff in Hm. destruct Hm as [[[[_ M1] _] M2] M3].
  assert (Hi : int64 (slen c) = true).
  { unfold int64. assert (0 ≤ slen c) by (unfold slen; lia).
    by rewrite (proj2 (Z.leb_le _ _)), (proj2 (Z.ltb_lt _ _)) by lia. }
  unfold writable_output. by rewrite H1, H2, H3, H4, Hw, Hh, Hd, Hsz, Hsha, V1, V2, V3, V4,
    ValidString_sha256, Hi, M1, M2, M3.
Qed.

Lemma rendered_all plan objects outputs :
  Forall2 (rendered plan objects) (rd_Segments (pl_Document plan)) outputs →
  map ro_SegmentID outputs = map sg_SegmentID (rd_Segments (pl_Document plan)) ∧
  ∀ o, o ∈ outputs → ∃ s, s ∈ rd_Segments (pl_Document plan) ∧ rendered plan objects s o.
Proof using Type.
  intros H. split.
  - induction H as [|s o segments outputs Ho _ IH]; [done|]. cbn. rewrite IH. f_equal. apply Ho.
  - intros o [i Hi]%list_elem_of_lookup. destruct (Forall2_lookup_r _ _ _ _ _ H Hi) as (s & Hs & Ho).
    exists s. split; [by eapply list_elem_of_lookup_2|done].
Qed.

Context (Hidle : undisturbed env).
Variables (store_text : error → string) (blob_text : blob_error → string) (json_error : string → string).

(** The exporter accepts the manifest of rendered outputs. *)
Lemma rendered_accepted plan outputs found (w : world B) :
  serving (w_blobs w) → writable_plan plan = true →
  Forall (segment_ok (pl_SessionID plan)) (rd_Segments (pl_Document plan)) →
  NoDup (map sg_SegmentID (rd_Segments (pl_Document plan))) →
  Forall2 (rendered plan (object (w_blobs w))) (rd_Segments (pl_Document plan)) outputs →
  let raw := Marshal (manifest_json (redaction_manifest plan outputs)) +:+ newline in
  object (w_blobs w) (rj_OutputManifestKey found) = Some raw → slen raw ≤ maxRedactionManifest →
  LatestCompletedRedaction (w_db w) (pl_SessionID plan) = Ok (plan, found) →
  ∃ r w', loadRedaction env store_text blob_text json_error (pl_SessionID plan) w = (Ok r, w') ∧
    lr_Reference r = {| rr_SessionID := pl_SessionID plan; rr_PlanID := pl_ID plan;
                        rr_Version := pl_Version plan; rr_PlanHash := pl_DocumentHash plan |} ∧
    lr_Outputs r ≡ₚ outputs.
Proof using HL HB Hidle.
  intros Hs Hp Hseg Hnd Hall raw Hobj Hlen Hlatest. set (m := redaction_manifest plan outputs) in *.
  destruct (rendered_all _ _ _ Hall) as [Hnames Hren].
  assert (Hperm : rm_Outputs m ≡ₚ outputs) by apply merge_sort_Permutation.
  unfold loadRedaction, store_read, wbind at 1. rewrite Hidle, Hlatest. cbn [w_db w_blobs snd fst].
  unfold wbind at 1, blob_call. cbn [w_blobs].
  destruct (serving_get _ _ _ Hs Hobj) as (body & b1 & Hget & Herr & Hs1). rewrite Hget.
  destruct (get_law _ _ _ _ (serving_ok _ Hs) Hget) as [[_ Hr1] Hbody].
  assert (rd_data body = raw) as Hraw by (specialize (Hbody body eq_refl Herr); congruence).
  unfold verify_redaction, read_limited. rewrite Hraw, Herr.
  rewrite (proj2 (Z.leb_gt _ _)), (proj2 (Z.ltb_ge _ _)) by lia.
  assert (Hwm : writable_manifest m = true).
  { unfold writable_manifest. unfold writable_plan in Hp. rewrite !andb_true_iff in *.
    destruct Hp as [[[[V1 V2] V3] V4] V5]. repeat split; [done..|].
    rewrite forallb_forall. intros o Ho%list_elem_of_In. rewrite Hperm in Ho.
    destruct (Hren o Ho) as (s & Hin & Ho'). eapply rendered_writable; [|done..].
    unfold writable_plan. by rewrite V1, V2, V3, V4, V5. }
  unfold raw. rewrite decode_written by done.
  assert (Hm : manifest_of_plan (pl_SessionID plan) plan ("redaction-output/v1", m) = true).
  { unfold manifest_of_plan. cbn [fst snd rm_SessionID rm_PlanID rm_PlanVersion rm_PlanHash m redaction_manifest].
    rewrite !(proj2 (seqb_true _ _)), Z.eqb_refl by done. cbn [andb]. apply Nat.eqb_eq.
    change (length (rm_Outputs m) = length (rd_Segments (pl_Document plan))).
    rewrite Hperm, <-(length_map ro_SegmentID), Hnames. apply length_map. }
  rewrite Hm. cbn [negb snd]. unfold wbind.
  match goal with |- context [check_outputs _ _ _ _ _ ?w1] =>
    destruct (check_outputs_ok (pl_SessionID plan) plan [] (rm_Outputs m) w1) as [w' Hw'] end.
  - exact Hs1.
  - rewrite Hperm. apply Forall_forall. intros o Ho. destruct (Hren o Ho) as (s & _ & Ho').
    destruct Ho' as (_ & _ & _ & _ & _ & c & _ & Hc & _ & Hsz & Hsha). exists c. cbn [w_blobs]. by rewrite Hr1.
  - intros o seen Ho Hseen. rewrite Hperm in Ho. destruct (Hren o Ho) as (s & Hin & Ho').
    rewrite Forall_forall in Hseg. eapply rendered_approved; eauto.
  - by rewrite Hperm, Hnames.
  - intros o _. apply not_elem_of_nil.
  - rewrite Hw'. eexists _, _. split; [reflexivity|]. split; [done|]. cbn [lr_Outputs].
    by rewrite merge_sort_Permutation.
Qed.
End handoff.


(** ** A concrete hand-off *)

Definition probe_480p : string :=
  "{'streams':[{'codec_name':'h264','width':640,'height':480,'duration':'10.1'}],'format':{'format_name':'mov,mp4'}}".

