(* ===== verification/Contributors.v ===== *)
(** * What contributors see, and the consent documents they accept
      ([database/store.go], [httpapi/api.go])

    The list of a contributor's assignments joins eight tables; the theorem says that
    it is complete, has nothing twice and shows nobody else's sessions.  The text of a
    [jsonb] column and the operator [->>] on it are PostgreSQL's, so they are
    parameters.  A consent document may carry an effective date, which [time] parses. *)

From S2P Require Import Prelude Domain Text Encoding Json Schema Sha256 Frame Blob Store Redaction Review Release Steps Http Catalog Governance.

(** ** Assignments *)

Record ContributorAssignment := {
  cas_AssignmentID : string; cas_SessionID : string; cas_SessionState : SessionState;
  cas_TaskID : string; cas_TemplateID : string; cas_Goal : string; cas_Category : string;
  cas_Difficulty : string; cas_RequiredApplication : string; cas_InputAssets : json;
  cas_ExpectedOutputs : json; cas_Specification : json; cas_ReworkOfSessionID : option string;
  cas_ReworkComments : option string; cas_ReviewDecision : option string;
  cas_ReviewComments : option string; cas_ReviewedAt : option time;
  cas_ConsentDocumentID : option string; cas_ConsentVersion : option string;
  cas_ConsentTextHash : option string; cas_ConsentAcceptedAt : option time
}.

(** [ORDER BY a.created_at, s.created_at, s.id], on the keys of the rows. *)
Definition assignment_key_le (x y : (time * (time * string)) * ContributorAssignment) : Prop :=
  (if x.1.1 <? y.1.1 then true else if y.1.1 <? x.1.1 then false else time_id_leb x.1.2 y.1.2) = true.
#[export] Instance assignment_key_le_dec : RelDecision assignment_key_le.
Proof. intros x y. unfold assignment_key_le. apply _. Defined.

(** The review that asked for the rework of a session. *)
Definition rework_review (d : db) (sessionID : option string) : option review_row :=
  id ← sessionID;
  snd <$> first_by (λ x y, time_id_leb (rev_created_at y.2, y.1) (rev_created_at x.2, x.1))
    (select (λ _ r, seqb (rev_session_id r) id && seqb (rev_decision r) "rework_required") (reviews d)).

Section assignments.
Variables (jsonb : string → json) (arrow_text : json → string → option string).

(** The row of a session, when it is of an assignment of the contributor. *)
Definition contributor_assignment (d : db) (contributorID : string) (id : string) (s : session_row)
    : option ((time * (time * string)) * ContributorAssignment) :=
  a ← assignments d !! ses_assignment_id s;
  t ← tasks d !! asg_task_id a;
  tt ← task_templates d !! tsk_template_id t;
  if negb (seqb (asg_contributor_id a) contributorID) then None
  else
    let ca := ses_consent_acceptance_id s ≫= λ k, consent_acceptances d !! k in
    let documentID := cac_document_id <$> ca in
    let cd := documentID ≫= λ k, (pair k) <$> consent_documents d !! k in
    let rework := rework_review d (ses_rework_of_session_id s) in
    let latest := snd <$> latest_review d id in
    let specification := jsonb (tpl_specification tt) in
    Some ((asg_created_at a, (ses_created_at s, id)),
      {| cas_AssignmentID := ses_assignment_id s; cas_SessionID := id; cas_SessionState := ses_state s;
         cas_TaskID := asg_task_id a; cas_TemplateID := tsk_template_id t; cas_Goal := tsk_goal t;
         cas_Category := tpl_category tt; cas_Difficulty := tpl_difficulty tt;
         cas_RequiredApplication := coalesce "" (arrow_text specification "required_application");
         cas_InputAssets := jsonb (tsk_input_assets t); cas_ExpectedOutputs := jsonb (tsk_expected_outputs t);
         cas_Specification := specification; cas_ReworkOfSessionID := ses_rework_of_session_id s;
         cas_ReworkComments := rev_comments <$> rework; cas_ReviewDecision := rev_decision <$> latest;
         cas_ReviewComments := rev_comments <$> latest; cas_ReviewedAt := rev_created_at <$> latest;
         cas_ConsentDocumentID := fst <$> cd; cas_ConsentVersion := (λ c, cdo_version c.2) <$> cd;
         cas_ConsentTextHash := (λ c, cdo_text_hash c.2) <$> cd;
         cas_ConsentAcceptedAt := cac_accepted_at <$> ca |}).

Definition ListContributorAssignments (d : db) (contributorID : string) : list ContributorAssignment :=
  map snd (merge_sort assignment_key_le
    (omap (λ ks, contributor_assignment d contributorID ks.1 ks.2) (map_to_list (sessions d)))).

Definition when_some {A} (name : string) (shown : A → json) (o : option A) : list (string * json) :=
  match o with Some a => [(name, shown a)] | None => [] end.
Definition assignment_json (c : ContributorAssignment) : json :=
  JObject ([("assignment_id", JString (cas_AssignmentID c)); ("session_id", JString (cas_SessionID c));
     ("session_state", JString (state_string (cas_SessionState c))); ("task_id", JString (cas_TaskID c));
     ("template_id", JString (cas_TemplateID c)); ("goal", JString (cas_Goal c));
     ("category", JString (cas_Category c)); ("difficulty", JString (cas_Difficulty c));
     ("required_application", JString (cas_RequiredApplication c)); ("input_assets", cas_InputAssets c);
     ("expected_outputs", cas_ExpectedOutputs c); ("specification", cas_Specification c)]
    ++ when_some "rework_of_session_id" JString (cas_ReworkOfSessionID c)
    ++ when_some "rework_comments" JString (cas_ReworkComments c)
    ++ when_some "review_decision" JString (cas_ReviewDecision c)
    ++ when_some "review_comments" JString (cas_ReviewComments c)
    ++ when_some "reviewed_at" json_time (cas_ReviewedAt c)
    ++ when_some "consent_document_id" JString (cas_ConsentDocumentID c)
    ++ when_some "consent_version" JString (cas_ConsentVersion c)
    ++ when_some "consent_text_hash" JString (cas_ConsentTextHash c)
    ++ when_some "consent_accepted_at" json_time (cas_ConsentAcceptedAt c))%list.

Definition listContributorAssignments {B} (env : environment) : handler B := λ _ r,
  let* assignments := store_read env (λ d, ListContributorAssignments d (PathValue r "contributor_id")) in
  wret (writeJSON 200 (map_json [("assignments", JArray (map assignment_json assignments))])).
End assignments.

(** ** Dates *)

(** [daysIn] *)
Definition leap (year : Z) : bool :=
  (year mod 4 =? 0) && (negb (year mod 100 =? 0) || (year mod 400 =? 0)).
Definition days_in (month year : Z) : Z :=
  if month =? 2 then (if leap year then 29 else 28)
  else if bool_decide (month ∈ [4; 6; 9; 11]) then 30 else 31.

(** The days from 0001-01-01 to a date. *)
Definition date_days (year month day : Z) : Z :=
  let y := if month <=? 2 then year - 1 else year in
  let doy := (153 * (if month <=? 2 then month + 9 else month - 3) + 2) / 5 + day - 1 in
  let yoe := y mod 400 in
  y / 400 * 146097 + (yoe * 365 + yoe / 4 - yoe / 100 + doy) - 306.

(** The decimal in [s[start:start+len]], between bounds. *)
Definition digits_between (s : string) (start len : nat) (low high : Z) : option Z :=
  let t := stake len (sdrop start s) in
  n ← (if all_chars is_digit t && (slen t =? Z.of_nat len) then digits_value 10 t 0 else None);
  if (low <=? n) && (n <=? high) then Some n else None.
Definition char_at (s : string) (i : nat) (c : string) : bool := seqb (stake 1 (sdrop i s)) c.

(** The nanoseconds of a fraction, nine digits of it, and the rest of the text. *)
Definition parse_fraction (s : string) : Z * string :=
  match s with
  | String "." rest =>
    match take_digits rest with
    | (EmptyString, _) => (0, s)
    | (digits, rest) =>
      let kept := stake 9 digits in
      (default 0 (digits_value 10 kept 0) * 10 ^ (9 - slen kept), rest)
    end
  | _ => (0, s)
  end.
Definition parse_zone (s : string) : option Z :=
  if seqb s "Z" then Some 0
  else if negb (slen s =? 6) || negb (char_at s 3 ":") then None
  else
    hours ← digits_between s 1 2 0 23;
    minutes ← digits_between s 4 2 0 59;
    let offset := hours * hour + minutes * minute in
    if char_at s 0 "-" then Some (- offset) else if char_at s 0 "+" then Some offset else None.

(** [parseStrictRFC3339] *)
Definition parseRFC3339 (s : string) : option time :=
  if slen s <? 19 then None
  else
    year ← digits_between s 0 4 0 9999;
    month ← digits_between s 5 2 1 12;
    dd ← digits_between s 8 2 1 (days_in month year);
    hh ← digits_between s 11 2 0 23;
    mm ← digits_between s 14 2 0 59;
    ss ← digits_between s 17 2 0 59;
    if negb (char_at s 4 "-" && char_at s 7 "-" && char_at s 10 "T" && char_at s 13 ":" && char_at s 16 ":")
    then None
    else
      let (nanoseconds, rest) := parse_fraction (sdrop 19 s) in
      offset ← parse_zone rest;
      Some (date_days year month dd * day + hh * hour + mm * minute + ss * second + nanoseconds - offset).

(** [Time.UnmarshalJSON]; it reads the string as written, so that it refuses one with an
    escape, where this decoder sees what the escape stands for. *)
Definition decode_time : decoder time := λ v old,
  match v with
  | JString s => match parseRFC3339 s with Some t => (t, false) | None => (old, true) end
  | JNull => (old, false)
  | _ => (old, true)
  end.

(** ** [POST /v1/consent-documents] *)

Record consent_input := { ci_inputs : inputs; ci_EffectiveDate : option time }.
Definition consent_text (name : string) : string * decoder consent_input :=
  (name, on_field ci_inputs (λ v i, {| ci_inputs := v; ci_EffectiveDate := ci_EffectiveDate i |})
           (text_field name).2).
Definition consent_fields : list (string * decoder consent_input) :=
  [consent_text "version"; consent_text "body";
   ("effective_date", on_field ci_EffectiveDate (λ v i, {| ci_inputs := ci_inputs i; ci_EffectiveDate := v |})
      (decode_pointer 0 decode_time))].

Definition createConsentDocument {B} (env : environment) (store_text : error → string)
    (decode_text : reader → string) : handler B := λ cx r,
  decodeRequest decode_text consent_fields {| ci_inputs := no_inputs; ci_EffectiveDate := None |} r (λ input,
  requestMetaOrError env store_text cx r (λ meta,
  let field := text (ci_inputs input) in
  if is_empty (field "version") || is_empty (field "body")
  then wret (writeError 400 "invalid_request" "version and body are required")
  else
    let* present := clock env in
    let effective := default present (ci_EffectiveDate input) in
    let* now := clock env in
    store_or_error store_text
      (store_call env (λ n, CreateConsentDocument (field "version") (field "body") (md_actor meta)
         (md_requestID meta) effective now (env_random env n))) (λ document,
    wret (writeJSON 201 (map_json
      [("id", JString (cd_ID document)); ("version", JString (cd_Version document));
       ("text_hash", JString (cd_TextHash document));
       ("effective_date", json_time (cd_EffectiveDate document))]))))).

(** ** Examples *)

Example parses_back : parseRFC3339 (RFC3339Nano 63871234567123456789) = Some 63871234567123456789.
Proof. vm_compute. reflexivity. Qed.
Example parses_offset :
  parseRFC3339 "2024-02-29T01:30:00.5+02:00" = parseRFC3339 "2024-02-28T23:30:00.500Z".
Proof. vm_compute. reflexivity. Qed.
Example no_such_day : parseRFC3339 "2023-02-29T00:00:00Z" = None.
Proof. vm_compute. reflexivity. Qed.

(** ** The list is exactly what the contributor may open *)

Lemma list_elem_of_omap_snd {A B C} (f : A → option (B * C)) (l : list A) c :
  c ∈ map snd (omap f l) ↔ ∃ a b, a ∈ l ∧ f a = Some (b, c).
Proof.
  rewrite list_elem_of_In, in_map_iff. split.
  - intros ([b c'] & <- & Hin). apply list_elem_of_In, list_elem_of_omap in Hin as (a & ? & ?). eauto.
  - intros (a & b & Ha & Hf). exists (b, c). split; [done|].
    apply list_elem_of_In, list_elem_of_omap. eauto.
Qed.

(** Values taken from the first components of pairs without repetition. *)
Lemma NoDup_omap_fst {K R C} (f : K → R → option C) (key : C → K) (l : list (K * R)) :
  (∀ k r c, f k r = Some c → key c = k) → NoDup (map fst l) →
  NoDup (map key (omap (λ kr, f kr.1 kr.2) l)).
Proof.
  intros Hkey. induction l as [|[k r] l IH]; cbn; [constructor|].
  intros [Hk Hl]%NoDup_cons. destruct (f k r) as [c|] eqn:E; [|by apply IH]. cbn.
  constructor; [|by apply IH]. rewrite (Hkey _ _ _ E), list_elem_of_In, in_map_iff.
  intros (c' & <- & Hin). apply list_elem_of_In, list_elem_of_omap in Hin as ([k' r'] & Hin & Hf).
  apply Hkey in Hf. apply Hk. rewrite Hf. by apply (list_elem_of_fmap_2 fst _ (k', r')).
Qed.

Lemma contributor_assignment_spec jsonb arrow_text d c id s x :
  contributor_assignment jsonb arrow_text d c id s = Some x →
  cas_SessionID x.2 = id ∧ cas_SessionState x.2 = ses_state s ∧
  ∃ a, assignments d !! ses_assignment_id s = Some a ∧ asg_contributor_id a = c.
Proof.
  unfold contributor_assignment. destruct (assignments d !! _) as [a|]; [|done]. cbn.
  destruct (tasks d !! _) as [t|]; [|done]. cbn. destruct (task_templates d !! _) as [tt|]; [|done]. cbn.
  destruct (seqb _ c) eqn:E; [|done]. cbn. intros [= <-]. apply seqb_true in E. eauto.
Qed.

(** C40: a contributor's list is what the contributor may open.  No session is listed
    twice; a listed session exists, is shown in its state and is of an assignment of
    this contributor; and a session whose owner is known ([GetSessionAccess], which the
    authorization of its routes uses) is listed exactly for that owner. *)
Theorem assignments_listed_for_owner jsonb arrow_text d contributorID :
  let listed := ListContributorAssignments jsonb arrow_text d contributorID in
  NoDup (map cas_SessionID listed) ∧
  (∀ x, x ∈ listed → ∃ s a, sessions d !! cas_SessionID x = Some s ∧ cas_SessionState x = ses_state s ∧
     assignments d !! ses_assignment_id s = Some a ∧ asg_contributor_id a = contributorID) ∧
  (∀ id access, GetSessionAccess d id = Ok access →
     (id ∈ map cas_SessionID listed ↔ sa_ContributorID access = contributorID)).
Proof.
  intros listed. unfold listed, ListContributorAssignments.
  set (row := λ ks : string * session_row, contributor_assignment jsonb arrow_text d contributorID ks.1 ks.2).
  assert (Hin : ∀ x, x ∈ map snd (merge_sort assignment_key_le (omap row (map_to_list (sessions d)))) ↔
    ∃ s k, sessions d !! cas_SessionID x = Some s ∧ row (cas_SessionID x, s) = Some (k, x)).
  { intros x. rewrite merge_sort_Permutation, list_elem_of_omap_snd. split.
    - intros ([id s] & k & Hs & Hr). apply elem_of_map_to_list in Hs.
      pose proof (contributor_assignment_spec _ _ _ _ _ _ _ Hr) as [Hid _]. cbn in Hid. subst id. eauto.
    - intros (s & k & Hs & Hr). eexists (_, s), k. split; [by apply elem_of_map_to_list|done]. }
  split; [|split].
  - rewrite map_map, merge_sort_Permutation. apply NoDup_omap_fst.
    + intros k r c Hc. by apply contributor_assignment_spec in Hc as [? _].
    + apply NoDup_fst_map_to_list.
  - intros x (s & k & Hs & Hr)%Hin. apply contributor_assignment_spec in Hr as (_ & H1 & a & H2 & H3).
    by exists s, a.
  - intros id access Ha.
    assert (Hs : ∃ s a t tt, sessions d !! id = Some s ∧ assignments d !! ses_assignment_id s = Some a ∧
      tasks d !! asg_task_id a = Some t ∧ task_templates d !! tsk_template_id t = Some tt ∧
      asg_contributor_id a = sa_ContributorID access).
    { unfold GetSessionAccess, session_access, or_not_found in Ha.
      destruct (sessions d !! id) as [s|]; [|done]. cbn in Ha.
      destruct (assignments d !! ses_assignment_id s) as [a|] eqn:Ea; [|done]. cbn in Ha.
      unfold task_organization, template_organization in Ha.
      destruct (tasks d !! asg_task_id a) as [t|] eqn:Et; [|done]. cbn in Ha.
      destruct (task_templates d !! tsk_template_id t) as [tt|] eqn:Ett; [|done]. cbn in Ha.
      destruct (project_organization d _); [|done]. cbn in Ha. injection Ha as <-. by eexists s, a, t, tt. }
    destruct Hs as (s & a & t & tt & Hs & Ea & Et & Ett & <-). rewrite list_elem_of_In, in_map_iff. split.
    + intros (x & Hid & Hx). apply list_elem_of_In, Hin in Hx as (s' & k & Hs' & Hr).
      apply contributor_assignment_spec in Hr as (_ & _ & a' & Ha' & <-).
      rewrite Hid, Hs in Hs'. injection Hs' as <-. cbn in Ha'. rewrite Ea in Ha'. by injection Ha' as <-.
    + intros Hc. destruct (row (id, s)) as [[k x]|] eqn:Hr.
      * pose proof (contributor_assignment_spec _ _ _ _ _ _ _ Hr) as [Hid _]. cbn in Hid.
        exists x. split; [done|]. apply list_elem_of_In, Hin. rewrite Hid. eauto.
      * unfold row, contributor_assignment in Hr. cbn in Hr.
        rewrite Ea in Hr. cbn in Hr. rewrite Et in Hr. cbn in Hr. rewrite Ett in Hr. cbn in Hr.
        by rewrite (proj2 (seqb_true _ _) Hc) in Hr.
Qed.
