(* ===== verification/Router.v ===== *)
(** * Routes and who may use them ([httpapi/api.go])

    [API.Handler] registers every handler with an [http.ServeMux] and wraps the mux in
    headers, access log, CORS and authentication.  The table below has the registrations
    in the order of the code, the guard of each as data, so that the theorems can speak
    of it.  The access log only writes a line and keeps the response, so that it has no
    counterpart here.  The mux is [net/http]'s: it unescapes the segments of the path,
    prefers a literal segment to a wildcard and a wildcard to a remainder, lets [GET]
    routes serve [HEAD], redirects paths that are not clean, and otherwise answers 404
    or 405.  The answer of a redirect is given; it runs no handler. *)

From S2P Require Import Prelude Domain Text Encoding Json Schema Frame Blob Store Redaction Identity Erasure Steps Http Catalog Files Uploads Governance Exporter Contributors.

(** ** Patterns *)

Inductive segment : Type :=
| Literal (text : string)
| Wildcard (name : string)
| Remainder (name : string).

Definition parse_segment (s : string) : segment :=
  if negb (HasPrefix s "{") then Literal s
  else
    let name := TrimSuffix (TrimPrefix s "{") "}" in
    if seqb (TrimSuffix name "...") name then Wildcard name else Remainder (TrimSuffix name "...").
(** The segments of a path with a leading slash. *)
Definition path_segments (path : string) : list string := tail (parts path).
(** [METHOD /path] *)
Definition parse_pattern (pattern : string) : string * list segment :=
  match Fields pattern with
  | [method; path] => (method, map parse_segment (path_segments path))
  | _ => ("", [])
  end.

(** [url.PathUnescape] *)
Fixpoint PathUnescape (s : string) : option string :=
  match s with
  | EmptyString => Some ""
  | String c r =>
    if Ascii.eqb c "%" then
      match r with
      | String a (String b r) =>
        x ← hex_value a; y ← hex_value b; t ← PathUnescape r;
        Some (String (ascii_of_N (16 * x + y)) t)
      | _ => None
      end
    else t ← PathUnescape r; Some (String c t)
  end.
(** The mux keeps a segment that it cannot unescape. *)
Definition unescaped (s : string) : string := default s (PathUnescape s).

(** The values of the wildcards, when the path matches. *)
Fixpoint match_segments (ps : list segment) (xs : list string) : option (list (string * string)) :=
  match ps, xs with
  | [], [] => Some []
  | Literal s :: ps, x :: xs => if seqb (unescaped x) s then match_segments ps xs else None
  | Wildcard name :: ps, x :: xs =>
    if is_empty x || seqb (unescaped x) "/" then None
    else cons (name, unescaped x) <$> match_segments ps xs
  | Remainder name :: _, x :: xs => Some [(name, unescaped (join_parts (x :: xs)))]
  | _, _ => None
  end.

Definition rank (p : segment) : Z :=
  match p with Literal _ => 0 | Wildcard _ => 1 | Remainder _ => 2 end.
(** The more specific pattern of two that match. *)
Fixpoint precedes (ps qs : list segment) : bool :=
  match ps, qs with
  | p :: ps, q :: qs => if rank p <? rank q then true else if rank q <? rank p then false else precedes ps qs
  | _, _ => true
  end.

(** [cleanPath] *)
Definition clean_path (path : string) : string :=
  if is_empty path then "/"
  else
    let rooted := if HasPrefix path "/" then path else "/" +:+ path in
    let np := Clean rooted in
    if HasPrefix (rev_string rooted) "/" && negb (seqb np "/") then np +:+ "/" else np.

(** ** Guards *)

Inductive guard : Type :=
| Open
| Roles (roles : list string)
| OnSession (roles : list string)
| OnJob (roles : list string)
| OnProject (roles : list string)
| OnRelease (roles : list string)
| OnRedactionJob (roles : list string)
| OnDeletion (roles : list string)
| OnContributor (roles : list string).

Definition guarded {B} (env : environment) (store_text : error → string) (g : guard) (h : handler B)
    : handler B :=
  match g with
  | Open => h
  | Roles roles => authorize h roles
  | OnSession roles => authorizeSession env store_text h roles
  | OnJob roles => authorizeJob env store_text h roles
  | OnProject roles => authorizeProject env store_text h roles
  | OnRelease roles => authorizeRelease env store_text h roles
  | OnRedactionJob roles => authorizeRedactionJob env store_text h roles
  | OnDeletion roles => authorizeDeletion env store_text h roles
  | OnContributor roles => authorizeContributor h roles
  end.

Record route (B : Type) := {
  rt_method : string; rt_segments : list segment; rt_guard : guard; rt_handler : handler B
}.
Arguments rt_method {B}. Arguments rt_segments {B}. Arguments rt_guard {B}. Arguments rt_handler {B}.
Definition HandleFunc {B} (pattern : string) (g : guard) (h : handler B) : route B :=
  let p := parse_pattern pattern in
  {| rt_method := p.1; rt_segments := p.2; rt_guard := g; rt_handler := h |}.

(** ** The mux *)

Section mux.
Context {B : Type} (redirect : response).
Implicit Types (routes : list (route B)).

Definition matches_of routes (method : string) (xs : list string) : list (route B * list (string * string)) :=
  omap (λ rt, if seqb (rt_method rt) method then pair rt <$> match_segments (rt_segments rt) xs else None) routes.
Definition best routes (method : string) (xs : list string) : option (route B * list (string * string)) :=
  first_by (λ x y, precedes (rt_segments x.1) (rt_segments y.1)) (matches_of routes method xs).
Definition dispatch routes (method path : string) : option (route B * list (string * string)) :=
  match best routes method (path_segments path) with
  | Some found => Some found
  | None => if seqb method "HEAD" then best routes "GET" (path_segments path) else None
  end.

(** [matchingMethods], for the [Allow] header. *)
Definition allowed_methods routes (path : string) : list string :=
  let methods xs := map rt_method (List.filter (λ rt, bool_decide (is_Some (match_segments (rt_segments rt) xs))) routes) in
  let found := (methods (path_segments path) ++ methods (path_segments (path +:+ "/")))%list in
  sort_strings (remove_dups (found ++ (if oneof "GET" found then ["HEAD"] else []))%list).

Definition plain_error (status : Z) (text : string) (headers : gmap string string) : response :=
  {| rs_status := status;
     rs_headers := headers ∪ {["Content-Type" := "text/plain; charset=utf-8"; "X-Content-Type-Options" := "nosniff"]};
     rs_body := text +:+ newline |}.
Definition not_served routes (path : string) : response :=
  match allowed_methods routes path with
  | [] => plain_error 404 "404 page not found" ∅
  | methods => plain_error 405 "Method Not Allowed" {["Allow" := String.concat ", " methods]}
  end.

(** A path without a match that matches with a slash at its end. *)
Definition slash_redirect routes (method path : string) : bool :=
  negb (HasPrefix (rev_string path) "/")
  && match dispatch routes method (path +:+ "/") with
     | Some (rt, _) => Nat.eqb (length (rt_segments rt)) (length (path_segments (path +:+ "/")))
     | None => false
     end.

Definition with_values (values : list (string * string)) (r : http_request) : http_request :=
  {| hr_method := hr_method r; hr_path := hr_path r; hr_headers := hr_headers r;
     hr_values := list_to_map values; hr_query := hr_query r; hr_body := hr_body r; hr_length := hr_length r |}.

(** [ServeMux.ServeHTTP]: [escaped] is the escaped path of the request. *)
Definition ServeHTTP (run : route B → handler B) routes (escaped : string) : handler B := λ cx r,
  let path := if seqb (hr_method r) "CONNECT" then escaped else clean_path escaped in
  match dispatch routes (hr_method r) path with
  | Some (rt, values) =>
    if negb (seqb path escaped) then wret redirect else run rt cx (with_values values r)
  | None =>
    if slash_redirect routes (hr_method r) path || negb (seqb path escaped) then wret redirect
    else wret (not_served routes path)
  end.
End mux.

(** ** The registrations *)

Section api.
Context {B : Type} `{BlobStore B} (env : environment).
Variables (configured : bool) (authorizer : option (MultipartUploadAuthorizer B)) (ttl : Z)
  (exporter : result string string) (ping : bool) (redirect : response).
Variables (store_text : error → string) (blob_text : blob_error → string) (json_error : string → string)
  (decode_text : reader → string) (parse_address : string → option string)
  (zip : list (string * string) → string) (jsonb : string → json)
  (arrow_text : json → string → option string).

Definition routes : list (route B) := [
  HandleFunc "GET /livez" Open live;
  HandleFunc "GET /readyz" Open (health ping);
  HandleFunc "GET /healthz" Open (health ping);
  HandleFunc "GET /v1/me" Open me;
  HandleFunc "POST /v1/invitations" (Roles ["admin"])
    (createInvitation env store_text decode_text parse_address);
  HandleFunc "POST /v1/invitations/accept" Open (acceptInvitation env store_text decode_text);
  HandleFunc "GET /v1/organizations/{organization_id}/contributors" (Roles ["admin"])
    (listOrganizationContributors env);
  HandleFunc "GET /v1/organizations/{organization_id}/retention-policy" (Roles ["admin"])
    (getRetentionPolicy env store_text);
  HandleFunc "PUT /v1/organizations/{organization_id}/retention-policy" (Roles ["admin"])
    (updateRetentionPolicy env store_text decode_text);
  HandleFunc "POST /v1/organizations" (Roles ["admin"]) (createOrganization env store_text decode_text);
  HandleFunc "POST /v1/campaigns" (Roles ["admin"]) (bootstrapCampaign env store_text decode_text);
  HandleFunc "POST /v1/projects" (Roles ["admin"]) (createProject env store_text decode_text);
  HandleFunc "GET /v1/projects" (Roles ["admin"; "reviewer"]) (listProjects env);
  HandleFunc "GET /v1/projects/{project_id}/sessions" (OnProject ["admin"; "reviewer"])
    (listProjectSessions env store_text);
  HandleFunc "POST /v1/task-templates" (Roles ["admin"]) (createTaskTemplate env store_text decode_text);
  HandleFunc "POST /v1/tasks" (Roles ["admin"]) (createTask env store_text decode_text);
  HandleFunc "POST /v1/contributors" (Roles ["admin"]) (createContributor env store_text decode_text);
  HandleFunc "POST /v1/assignments" (Roles ["admin"]) (createAssignment env store_text decode_text);
  HandleFunc "POST /v1/consent-documents" (Roles ["admin"]) (createConsentDocument env store_text decode_text);
  HandleFunc "GET /v1/consent-documents/current" (Roles ["contributor"]) (currentConsentDocument env store_text);
  HandleFunc "POST /v1/consent-acceptances" (Roles ["contributor"]) (acceptConsent env store_text decode_text);
  HandleFunc "POST /v1/sessions/{session_id}/preflight" (OnSession ["contributor"])
    (completePreflight env store_text);
  HandleFunc "POST /v1/sessions/{session_id}/transitions" (OnSession ["contributor"])
    (transitionSession env store_text decode_text);
  HandleFunc "PUT /v1/sessions/{session_id}/artifacts/{artifact_path...}" (OnSession ["contributor"])
    (uploadArtifact env configured store_text);
  HandleFunc "POST /v1/sessions/{session_id}/multipart-uploads" (OnSession ["contributor"])
    (startMultipartArtifactUpload env authorizer store_text decode_text);
  HandleFunc "POST /v1/sessions/{session_id}/multipart-uploads/{upload_id}/parts/{part_number}/authorize"
    (OnSession ["contributor"]) (authorizeMultipartArtifactPart env authorizer store_text decode_text ttl);
  HandleFunc "POST /v1/sessions/{session_id}/multipart-uploads/{upload_id}/parts/{part_number}/complete"
    (OnSession ["contributor"]) (completeMultipartArtifactPart env store_text decode_text);
  HandleFunc "POST /v1/sessions/{session_id}/multipart-uploads/{upload_id}/complete" (OnSession ["contributor"])
    (completeMultipartArtifactUpload env authorizer store_text);
  HandleFunc "DELETE /v1/sessions/{session_id}/multipart-uploads/{upload_id}" (OnSession ["contributor"])
    (abortMultipartArtifactUpload env authorizer store_text);
  HandleFunc "GET /v1/sessions/{session_id}/artifacts/{artifact_path...}"
    (OnSession ["admin"; "reviewer"; "contributor"]) (downloadArtifact env configured store_text);
  HandleFunc "HEAD /v1/sessions/{session_id}/artifacts/{artifact_path...}"
    (OnSession ["admin"; "reviewer"; "contributor"]) (downloadArtifact env configured store_text);
  HandleFunc "POST /v1/sessions/{session_id}/submission" (OnSession ["contributor"])
    (submitSession env configured store_text);
  HandleFunc "GET /v1/sessions/{session_id}/trajectory" (OnSession ["admin"; "reviewer"; "contributor"])
    (downloadNormalizedTrajectory env configured store_text);
  HandleFunc "GET /v1/sessions/{session_id}" (OnSession ["admin"; "reviewer"; "contributor"])
    (getSession env store_text);
  HandleFunc "GET /v1/processing-jobs/{job_id}" (OnJob ["admin"; "reviewer"; "contributor"])
    (getProcessingJob env store_text);
  HandleFunc "GET /v1/processing-jobs/dead-letter" (Roles ["admin"]) (listDeadLetterJobs env);
  HandleFunc "POST /v1/processing-jobs/{job_id}/retry" (OnJob ["admin"]) (retryDeadLetterJob env store_text);
  HandleFunc "POST /v1/sessions/{session_id}/legal-holds" (OnSession ["admin"])
    (placeLegalHold env store_text decode_text);
  HandleFunc "DELETE /v1/sessions/{session_id}/legal-holds/{hold_id}" (OnSession ["admin"])
    (releaseLegalHold env store_text);
  HandleFunc "POST /v1/sessions/{session_id}/deletion-requests" (OnSession ["admin"])
    (requestSessionDeletion env store_text decode_text);
  HandleFunc "GET /v1/deletion-requests" (Roles ["admin"]) (listDeletionRequests env);
  HandleFunc "POST /v1/deletion-requests/{deletion_id}/retry" (OnDeletion ["admin"])
    (retryDeadLetterDeletionRequest env store_text);
  HandleFunc "GET /v1/retention-purge-requests" (Roles ["admin"]) (listRetentionPurgeRequests env);
  HandleFunc "POST /v1/retention-purge-requests/{request_id}/retry" (Roles ["admin"])
    (retryDeadLetterRetentionPurge env store_text);
  HandleFunc "GET /v1/legal-holds" (Roles ["admin"]) (listActiveLegalHolds env);
  HandleFunc "GET /v1/review-queue" (Roles ["admin"; "reviewer"]) (listReviewQueue env store_text);
  HandleFunc "POST /v1/sessions/{session_id}/review-claim" (OnSession ["reviewer"])
    (claimReview env store_text decode_text);
  HandleFunc "DELETE /v1/sessions/{session_id}/review-claim" (OnSession ["reviewer"])
    (releaseReview env store_text);
  HandleFunc "POST /v1/sessions/{session_id}/reviews" (OnSession ["reviewer"])
    (submitReview env store_text decode_text);
  HandleFunc "GET /v1/sessions/{session_id}/reviews" (OnSession ["admin"; "reviewer"; "contributor"])
    (listReviews env);
  HandleFunc "POST /v1/sessions/{session_id}/redaction-plans" (OnSession ["reviewer"])
    (createRedactionPlan env store_text decode_text);
  HandleFunc "GET /v1/sessions/{session_id}/redaction-plans" (OnSession ["admin"; "reviewer"])
    (listRedactionPlans env);
  HandleFunc "GET /v1/redaction-jobs/dead-letter" (Roles ["admin"]) (listDeadLetterRedactionJobs env);
  HandleFunc "POST /v1/redaction-jobs/{job_id}/retry" (OnRedactionJob ["admin"])
    (retryDeadLetterRedactionJob env store_text);
  HandleFunc "POST /v1/projects/{project_id}/releases" (OnProject ["admin"])
    (createRelease env exporter zip store_text blob_text json_error decode_text);
  HandleFunc "GET /v1/releases/{release_id}" (OnRelease ["admin"; "reviewer"]) (getRelease env store_text);
  HandleFunc "GET /v1/releases/{release_id}/files/{file_path...}" (OnRelease ["admin"; "reviewer"])
    (downloadReleaseFile env configured store_text);
  HandleFunc "HEAD /v1/releases/{release_id}/files/{file_path...}" (OnRelease ["admin"; "reviewer"])
    (downloadReleaseFile env configured store_text);
  HandleFunc "GET /v1/releases/{release_id}/bundle" (OnRelease ["admin"; "reviewer"])
    (downloadReleaseBundle env configured store_text);
  HandleFunc "HEAD /v1/releases/{release_id}/bundle" (OnRelease ["admin"; "reviewer"])
    (downloadReleaseBundle env configured store_text);
  HandleFunc "GET /v1/contributors/{contributor_id}/assignments" (OnContributor ["contributor"])
    (listContributorAssignments jsonb arrow_text env)].

Definition run_route (rt : route B) : handler B := guarded env store_text (rt_guard rt) (rt_handler rt).
Definition mux (escaped : string) : handler B := ServeHTTP redirect run_route routes escaped.

(** [API.Handler]; [allowedOrigins] is nil for an API made without a blob store. *)
Definition Handler (allowedOrigins : option (list string)) (authenticator : http_request → option OIDCIdentity)
    (escaped : string) : handler B :=
  requestHeaders env
    (cors (default defaultAllowedOrigins allowedOrigins) (authenticate env authenticator (mux escaped))).
End api.

(** The request of an escaped path, unless the path is malformed. *)
Definition incoming (method escaped : string) (headers : gmap string string) (query : gmap string string)
    (body : reader) (length : Z) : option http_request :=
  path ← PathUnescape escaped;
  Some {| hr_method := method; hr_path := path; hr_headers := headers; hr_values := ∅; hr_query := query;
          hr_body := body; hr_length := length |}.

(** ** What a guard decides *)

(** The principal may use a route of that guard for that request. *)
Definition permits (d : db) (p : requestPrincipal) (g : guard) (r : http_request) : bool :=
  let has := existsb (HasRole (pr_Access p)) in
  let session (access : res SessionAccess) roles :=
    has roles && (pr_Local p || match access with
                                | Ok a => existsb (role_opens (pr_Access p) a) roles
                                | Err _ => false
                                end) in
  let organization (owner : res string) roles :=
    has roles && (pr_Local p || match owner with
                                | Ok o => HasOrganizationRole (pr_Access p) o roles
                                | Err _ => false
                                end) in
  match g with
  | Open => true
  | Roles roles => has roles
  | OnSession roles => session (GetSessionAccess d (PathValue r "session_id")) roles
  | OnJob roles => session (GetProcessingJobAccess d (PathValue r "job_id")) roles
  | OnProject roles => organization (GetProjectOrganization d (PathValue r "project_id")) roles
  | OnRelease roles => organization (GetReleaseOrganization d (PathValue r "release_id")) roles
  | OnRedactionJob roles => organization (GetRedactionJobOrganization d (PathValue r "job_id")) roles
  | OnDeletion roles => organization (GetDeletionRequestOrganization d (PathValue r "deletion_id")) roles
  | OnContributor roles =>
    has roles && (pr_Local p || bool_decide (ia_ContributorID (pr_Access p) = Some (PathValue r "contributor_id")))
  end.

(** The same in terms of memberships: who belongs to which organization in which role;
    a contributor opens only what is his own. *)
Definition belongs (who : IdentityAccess) (organizationID role : string) : Prop :=
  ∃ m, m ∈ ia_Memberships who ∧ om_OrganizationID m = organizationID ∧ om_Role m = role.
Definition permitted (d : db) (p : requestPrincipal) (g : guard) (r : http_request) : Prop :=
  let who := pr_Access p in
  let somewhere roles := ∃ role organizationID, role ∈ roles ∧ belongs who organizationID role in
  let session (access : res SessionAccess) roles :=
    somewhere roles ∧ (pr_Local p = true ∨ ∃ a role, access = Ok a ∧ role ∈ roles ∧
      belongs who (sa_OrganizationID a) role ∧
      (role = "contributor" → ia_ContributorID who = Some (sa_ContributorID a))) in
  let organization (owner : res string) roles :=
    somewhere roles ∧ (pr_Local p = true ∨ ∃ o role, owner = Ok o ∧ role ∈ roles ∧ belongs who o role) in
  match g with
  | Open => True
  | Roles roles => somewhere roles
  | OnSession roles => session (GetSessionAccess d (PathValue r "session_id")) roles
  | OnJob roles => session (GetProcessingJobAccess d (PathValue r "job_id")) roles
  | OnProject roles => organization (GetProjectOrganization d (PathValue r "project_id")) roles
  | OnRelease roles => organization (GetReleaseOrganization d (PathValue r "release_id")) roles
  | OnRedactionJob roles => organization (GetRedactionJobOrganization d (PathValue r "job_id")) roles
  | OnDeletion roles => organization (GetDeletionRequestOrganization d (PathValue r "deletion_id")) roles
  | OnContributor roles =>
    somewhere roles ∧ (pr_Local p = true ∨ ia_ContributorID who = Some (PathValue r "contributor_id"))
  end.

Lemma existsb_elem {A} (f : A → bool) l : existsb f l = true ↔ ∃ x, x ∈ l ∧ f x = true.
Proof. rewrite existsb_exists. by setoid_rewrite list_elem_of_In. Qed.
Lemma HasOrganizationRole_belongs who o roles :
  HasOrganizationRole who o roles = true ↔ ∃ role, role ∈ roles ∧ belongs who o role.
Proof. rewrite HasOrganizationRole_spec. unfold belongs. naive_solver. Qed.
Lemma has_belongs who roles :
  existsb (HasRole who) roles = true ↔ ∃ role o, role ∈ roles ∧ belongs who o role.
Proof.
  unfold HasRole, belongs. rewrite existsb_elem. setoid_rewrite existsb_elem. setoid_rewrite seqb_true.
  naive_solver.
Qed.
Lemma role_opens_belongs who a role :
  role_opens who a role = true ↔
  belongs who (sa_OrganizationID a) role ∧
  (role = "contributor" → ia_ContributorID who = Some (sa_ContributorID a)).
Proof.
  unfold role_opens. destruct (seqb role "contributor") eqn:E.
  - apply seqb_true in E as ->. rewrite andb_true_iff, bool_decide_eq_true, HasOrganizationRole_belongs.
    setoid_rewrite list_elem_of_singleton. naive_solver.
  - apply seqb_false in E. rewrite HasOrganizationRole_belongs. setoid_rewrite list_elem_of_singleton. naive_solver.
Qed.

Lemma permits_permitted d p g r : permits d p g r = true ↔ permitted d p g r.
Proof.
  assert (Ha : ∀ (access : res SessionAccess) roles,
    match access with Ok a => existsb (role_opens (pr_Access p) a) roles | Err _ => false end = true ↔
    ∃ a role, access = Ok a ∧ role ∈ roles ∧ belongs (pr_Access p) (sa_OrganizationID a) role ∧
      (role = "contributor" → ia_ContributorID (pr_Access p) = Some (sa_ContributorID a))).
  { intros [a|e] roles; [|naive_solver]. rewrite existsb_elem. setoid_rewrite role_opens_belongs. naive_solver. }
  assert (Ho : ∀ (owner : res string) roles,
    match owner with Ok o => HasOrganizationRole (pr_Access p) o roles | Err _ => false end = true ↔
    ∃ o role, owner = Ok o ∧ role ∈ roles ∧ belongs (pr_Access p) o role).
  { intros [o|e] roles; [|naive_solver]. rewrite HasOrganizationRole_belongs. naive_solver. }
  destruct g; unfold permits, permitted; cbv zeta;
    rewrite ?andb_true_iff, ?orb_true_iff, ?has_belongs, ?Ha, ?Ho, ?bool_decide_eq_true; try done.
Qed.

(** A step that neither writes to the database nor to the object store. *)
Definition untouched {B} (w w' : world B) : Prop := w_db w' = w_db w ∧ w_blobs w' = w_blobs w.
#[export] Instance untouched_refl {B} : Reflexive (untouched (B := B)).
Proof. intros w. by split. Qed.

(** The outcome of a guarded handler: a refusal, or what the handler does. *)
Definition decided {B} (h : handler B) (cx : context) (r : http_request) (w : world B) (allowed : bool)
    (outcome : response * world B) : Prop :=
  ∃ w0, untouched w w0 ∧
  if allowed then outcome = h cx r w0
  else outcome.2 = w0 ∧ rs_status outcome.1 ∈ [401; 403; 404].

Lemma refused {B} (h : handler B) cx r w resp :
  rs_status resp ∈ [401; 403; 404] → decided h cx r w false (resp, w).
Proof. intros Hs. exists w. split; [reflexivity|]. by split. Qed.

Section decisions.
Context {B : Type} (env : environment) (store_text : error → string) (Hidle : undisturbed env).
Implicit Types (h : handler B) (cx : context) (r : http_request) (w : world B).

(** Asking the database ticks the clock only. *)
Definition ticked w : world B :=
  {| w_db := w_db w; w_blobs := w_blobs w; w_next_sweep := w_next_sweep w; w_tick := S (w_tick w) |}.
Lemma ask_run {A} (q : db → A) (k : A → W B response) w :
  wbind (store_read env q) k w =
    k (q (w_db w)) (ticked w).
Proof using Hidle. unfold wbind, store_read. by rewrite Hidle. Qed.

Lemma authorize_decides h k roles cx r w p (allowed : bool) :
  cx_principal cx = Some p → decided h cx r w allowed (k cx r w) →
  decided h cx r w (existsb (HasRole (pr_Access p)) roles && allowed) (authorize k roles cx r w).
Proof using Type.
  intros Hp Hk. unfold authorize. rewrite Hp. destruct (existsb _ roles); [exact Hk|].
  apply refused. right. left.
Qed.

Lemma authorize_access_decides lookup message h roles cx r w p :
  cx_principal cx = Some p → (∀ e, lookup (w_db w) r = Err e → e = ErrNotFound) →
  decided h cx r w
    (existsb (HasRole (pr_Access p)) roles
     && (pr_Local p || match lookup (w_db w) r with
                       | Ok a => existsb (role_opens (pr_Access p) a) roles
                       | Err _ => false
                       end))
    (authorize_access env store_text lookup message h roles cx r w).
Proof using Hidle.
  intros Hp He. unfold authorize_access. apply authorize_decides; [done|].
  unfold current. rewrite Hp. destruct (pr_Local p); [by exists w|]. cbn [orb]. rewrite ask_run.
  destruct (lookup _ r) as [a|e]; [destruct (existsb _ _)|]; exists (ticked w); (split; [by split|]); cbn; split_and?; try done.
  - right. left.
  - rewrite (He e eq_refl). do 2 right. left.
Qed.

Lemma authorize_organization_decides lookup message h roles cx r w p :
  cx_principal cx = Some p → (∀ e, lookup (w_db w) r = Err e → e = ErrNotFound) →
  decided h cx r w
    (existsb (HasRole (pr_Access p)) roles
     && (pr_Local p || match lookup (w_db w) r with
                       | Ok o => HasOrganizationRole (pr_Access p) o roles
                       | Err _ => false
                       end))
    (authorize_organization env store_text lookup message h roles cx r w).
Proof using Hidle.
  intros Hp He. unfold authorize_organization. apply authorize_decides; [done|].
  unfold current. rewrite Hp. destruct (pr_Local p); [by exists w|]. cbn [orb]. rewrite ask_run.
  destruct (lookup _ r) as [a|e]; [destruct (HasOrganizationRole _ _ _)|]; exists (ticked w); (split; [by split|]); cbn; split_and?; try done.
  - right. left.
  - rewrite (He e eq_refl). do 2 right. left.
Qed.

Lemma or_not_found_error {A} (o : option A) e : or_not_found o = Err e → e = ErrNotFound.
Proof using Type. destruct o; [done|]. by intros [= <-]. Qed.

(** Without a principal only an open route runs. *)
Definition may_run cx (d : db) (g : guard) (r : http_request) : bool :=
  match cx_principal cx with
  | Some p => permits d p g r
  | None => match g with Open => true | _ => false end
  end.

Lemma guarded_decides g h cx r w :
  decided h cx r w (may_run cx (w_db w) g r) (guarded env store_text g h cx r w).
Proof using Hidle.
  unfold may_run. destruct (cx_principal cx) as [p|] eqn:Hp.
  - destruct g; cbn [guarded permits]; try by exists w.
    + rewrite <-(andb_true_r (existsb _ _)). apply authorize_decides; [done|]. by exists w.
    + apply (authorize_access_decides (λ d r, GetSessionAccess d (PathValue r "session_id"))); [done|]. intros e. apply or_not_found_error.
    + apply (authorize_access_decides (λ d r, GetProcessingJobAccess d (PathValue r "job_id"))); [done|]. intros e. unfold GetProcessingJobAccess.
      destruct (processing_jobs _ !! _); [apply or_not_found_error|by intros [= <-]].
    + apply (authorize_organization_decides (λ d r, GetProjectOrganization d (PathValue r "project_id"))); [done|]. intros e. apply or_not_found_error.
    + apply (authorize_organization_decides (λ d r, GetReleaseOrganization d (PathValue r "release_id"))); [done|]. intros e. apply or_not_found_error.
    + apply (authorize_organization_decides (λ d r, GetRedactionJobOrganization d (PathValue r "job_id"))); [done|]. intros e. unfold GetRedactionJobOrganization.
      destruct (redaction_jobs _ !! _) as [j|]; [|by intros [= <-]]. unfold GetSessionAccess.
      destruct (or_not_found _) as [a|e'] eqn:Ho; [done|]. cbn. intros [= <-]. by eapply or_not_found_error.
    + apply (authorize_organization_decides (λ d r, GetDeletionRequestOrganization d (PathValue r "deletion_id"))); [done|]. intros e. apply or_not_found_error.
    + unfold authorizeContributor. apply authorize_decides; [done|]. unfold current. rewrite Hp.
      destruct (_ || _); [by exists w|]. apply refused. right. left.
  - destruct g; cbn [guarded]; [by exists w|..]; 
      unfold authorizeSession, authorizeJob, authorizeProject, authorizeRelease, authorizeRedactionJob,
        authorizeDeletion, authorizeContributor, authorize_access, authorize_organization, authorize;
      rewrite Hp; apply refused; left.
Qed.
End decisions.

(** ** Paths *)

#[export] Instance segment_eq_dec : EqDecision segment.
Proof. solve_decision. Defined.

Lemma PathUnescape_slash a b t :
  PathUnescape (a +:+ "/" +:+ b) = Some t →
  ∃ x y, PathUnescape a = Some x ∧ PathUnescape b = Some y ∧ t = x +:+ "/" +:+ y.
Proof.
  remember (String.length a) as n eqn:Hn. revert a t Hn.
  induction (lt_wf n) as [n _ IH]. intros a t ->. destruct a as [|c a].
  { change (PathUnescape (String "/" b) = Some t → ∃ x y, PathUnescape "" = Some x ∧ PathUnescape b = Some y ∧ t = x +:+ "/" +:+ y).
    cbn. destruct (PathUnescape b) as [y|] eqn:Hb; cbn; [|done]. intros [= <-]. exists "", y. by split_and!. }
  rewrite string_app_cons. cbn [PathUnescape].
  destruct (Ascii.eqb c "%").
  - destruct a as [|d [|e a]].
    + change ("" +:+ "/" +:+ b) with (String "/" b). by destruct b.
    + change (String d "" +:+ "/" +:+ b) with (String d (String "/" b)). cbn. by destruct (hex_value d).
    + change (String d (String e a) +:+ "/" +:+ b) with (String d (String e (a +:+ "/" +:+ b))).
      cbn. destruct (hex_value d) as [x|]; [|done]. destruct (hex_value e) as [y|]; [|done]. cbn.
      destruct (PathUnescape (a +:+ "/" +:+ b)) as [u|] eqn:E; [|done]. cbn. intros [= <-].
      destruct (IH (String.length a) ltac:(cbn; lia) a u eq_refl E) as (x' & y' & -> & Hb & ->).
      eexists _, y'. by split_and!.
  - destruct (PathUnescape (a +:+ "/" +:+ b)) as [u|] eqn:E; [|done]. cbn. intros [= <-].
    destruct (IH (String.length a) ltac:(cbn; lia) a u eq_refl E) as (x' & y' & -> & Hb & ->).
    eexists _, y'. by split_and!.
Qed.

Lemma parts_first s p q l : parts s = p :: q :: l → ∃ s', s = p +:+ "/" +:+ s'.
Proof.
  revert p. induction s as [|c s IH]; intros p; [done|].
  destruct (decide (c = slash)) as [->|Hc].
  - rewrite parts_slash. intros [= <- _]. by exists s.
  - destruct (parts_char c s Hc) as (p' & ps & Hp & ->). intros [= <- ->].
    destruct (IH _ Hp) as [s' ->]. by exists s'.
Qed.

Lemma clean_path_rooted s : HasPrefix (clean_path s) "/" = true.
Proof.
  unfold clean_path. destruct (is_empty s); [done|]. cbv zeta.
  assert (Hr : HasPrefix (if HasPrefix s "/" then s else "/" +:+ s) "/" = true).
  { destruct (HasPrefix s "/") eqn:E; [done|apply prefix_app]. }
  set (t := if HasPrefix s "/" then s else "/" +:+ s) in *.
  assert (HC : HasPrefix (Clean t) "/" = true).
  { unfold Clean. rewrite Hr. destruct (bool_decide (t = "")) eqn:E; [|cbn].
    - apply bool_decide_eq_true in E. by rewrite E in Hr.
    - repeat case_match; try done; apply prefix_app. }
  destruct (_ && _); [|done]. apply prefix_exists in HC as [u ->]. cbn. by destruct u.
Qed.

(** A path that is served under [v1] is under [/v1/] when it is unescaped. *)
Lemma served_under_v1 escaped decoded q ps values :
  HasPrefix escaped "/" = true → PathUnescape escaped = Some decoded →
  match_segments (Literal "v1" :: q :: ps) (path_segments escaped) = Some values →
  HasPrefix decoded "/v1/" = true.
Proof.
  intros (r & -> & Hparts)%parts_rooted Hd. unfold path_segments. rewrite Hparts. cbn [tail].
  destruct (parts r) as [|x [|y l]] eqn:Hr; [done|by cbn; destruct (seqb _ _), q|].
  apply parts_first in Hr as [r' ->]. cbn [match_segments].
  destruct (seqb (unescaped x) "v1") eqn:Hx; [|done]. intros _.
  cbn [PathUnescape] in Hd. rewrite (proj2 (Ascii.eqb_neq _ _)) in Hd by done.
  destruct (PathUnescape (x +:+ "/" +:+ r')) as [t|] eqn:E; [|done]. injection Hd as <-.
  apply PathUnescape_slash in E as (x' & y' & Hx' & _ & ->).
  apply seqb_true in Hx. unfold unescaped in Hx. rewrite Hx' in Hx. cbn in Hx. subst x'.
  apply (prefix_app "/v1/").
Qed.

Lemma dispatch_some {B} (routes : list (route B)) method path rt values :
  dispatch routes method path = Some (rt, values) →
  rt ∈ routes ∧ match_segments (rt_segments rt) (path_segments path) = Some values ∧
  (rt_method rt = method ∨ (method = "HEAD" ∧ rt_method rt = "GET")).
Proof.
  intros H. assert (Hb : ∃ m, best routes m (path_segments path) = Some (rt, values) ∧
    (m = method ∨ (method = "HEAD" ∧ m = "GET"))).
  { unfold dispatch in H. destruct (best routes method _) as [x|] eqn:E; [injection H as ->; eauto|].
    destruct (seqb method "HEAD") eqn:Hm; [|done]. apply seqb_true in Hm. eauto. }
  destruct Hb as (m & Hb & Hm). apply first_by_elem, list_elem_of_omap in Hb as (rt' & Hin & Hr).
  destruct (seqb _ m) eqn:E; [|done]. apply seqb_true in E. destruct (match_segments _ _) as [v|] eqn:F; [|done].
  cbn in Hr. injection Hr as <- <-. by rewrite E.
Qed.

(** ** Access to the whole interface *)

Section access.
Context {B : Type} `{BlobStore B} (env : environment) (Hidle : undisturbed env).
Variables (configured : bool) (authorizer : option (MultipartUploadAuthorizer B)) (ttl : Z)
  (exporter : result string string) (ping : bool) (redirect : response).
Variables (store_text : error → string) (blob_text : blob_error → string) (json_error : string → string)
  (decode_text : reader → string) (parse_address : string → option string)
  (zip : list (string * string) → string) (jsonb : string → json)
  (arrow_text : json → string → option string).

Notation table := (routes env configured authorizer ttl exporter ping store_text blob_text json_error
  decode_text parse_address zip jsonb arrow_text).
Notation serve := (mux env configured authorizer ttl exporter ping redirect store_text blob_text json_error
  decode_text parse_address zip jsonb arrow_text).

(** What the mux runs: nothing, or the handler of a route, guarded. *)
Lemma mux_runs escaped cx r w outcome :
  serve escaped cx r w = outcome →
  (outcome.2 = w ∧ (outcome.1 = redirect ∨ ∃ path, outcome.1 = not_served table path)) ∨
  ∃ rt values, dispatch table (hr_method r) escaped = Some (rt, values) ∧
    (hr_method r = "CONNECT" ∨ clean_path escaped = escaped) ∧
    outcome = guarded env store_text (rt_guard rt) (rt_handler rt) cx (with_values values r) w.
Proof using Type.
  intros <-. unfold mux, ServeHTTP. set (path := if seqb _ "CONNECT" then _ else _).
  destruct (dispatch _ _ path) as [[rt values]|] eqn:Hd.
  - destruct (seqb path escaped) eqn:Hp; cbn; [|by left; split; [|left]].
    apply seqb_true in Hp. right. exists rt, values. rewrite Hp in Hd. split; [done|]. split; [|done].
    subst path. destruct (seqb (hr_method r) "CONNECT") eqn:Hm; [left; by apply seqb_true in Hm|by right].
  - destruct (_ || _); cbn; (left; split; [done|]); [by left|right; eauto].
Qed.

(** The open routes. *)
Definition open_routes : list (list segment) :=
  map (λ p, (parse_pattern p).2)
    ["GET /livez"; "GET /readyz"; "GET /healthz"; "GET /v1/me"; "POST /v1/invitations/accept"].


Definition under_v1 (ps : list segment) : bool :=
  match ps with Literal t :: _ :: _ => seqb t "v1" | _ => false end.

(** C30: a request without a valid identity gets nothing.  When the authenticator refuses
    a request, nothing is changed, and the answer is 401 for every path under [/v1/];
    any other path, however it is escaped, reaches only the liveness and readiness
    routes. *)
Theorem unidentified_request escaped authenticator cx r w resp w' :
  PathUnescape escaped = Some (hr_path r) → cx_principal cx = None → authenticator r = None →
  authenticate env authenticator (serve escaped) cx r w = (resp, w') →
  w' = w ∧
  (if HasPrefix (hr_path r) "/v1/" then resp = unauthenticated
   else resp = redirect ∨ (∃ path, resp = not_served table path) ∨
        (resp, w) = live cx r w ∨ (resp, w) = health ping cx r w).
Proof using Type.
  intros Hpath Hnone Hauth. unfold authenticate. rewrite Hauth.
  destruct (HasPrefix (hr_path r) "/v1/") eqn:Hv1; cbn [negb]; [by intros [= <- <-]|].
  intros Hrun. apply mux_runs in Hrun as [[Hw Hr]|(rt & values & Hd & Hclean & Hrun)].
  { cbn in *. subst w'. split; [done|]. tauto. }
  apply dispatch_some in Hd as (Hin & Hmatch & Hmethod).
  assert (Hcases : rt = HandleFunc "GET /livez" Open live ∨ rt = HandleFunc "GET /readyz" Open (health ping) ∨
    rt = HandleFunc "GET /healthz" Open (health ping) ∨ rt ∈ drop 3 table).
  { change table with (HandleFunc "GET /livez" Open live :: HandleFunc "GET /readyz" Open (health ping)
      :: HandleFunc "GET /healthz" Open (health ping) :: drop 3 table) in Hin.
    apply elem_of_cons in Hin as [?|[?|[?|?]%elem_of_cons]%elem_of_cons]; tauto. }
  destruct Hcases as [->|[->|[->|Hrest]]];
    [injection Hrun as -> ->; split; [done|]; tauto..|].
  exfalso. assert (Hv : forallb (λ rt : route B, negb (seqb (rt_method rt) "CONNECT")
      && under_v1 (rt_segments rt)) (drop 3 table) = true)
    by (vm_compute; reflexivity).
  rewrite forallb_forall in Hv. specialize (Hv rt (proj1 (list_elem_of_In _ _) Hrest)).
  apply andb_true_iff in Hv as [Hc Hv]. apply negb_true_iff, seqb_false in Hc.
  destruct Hclean as [Hcon|Hclean].
  { destruct Hmethod as [Hm|[Hm _]]; congruence. }
  destruct (rt_segments rt) as [|[t|n|n] [|q ps]]; try discriminate Hv. apply seqb_true in Hv. subst t.
  apply (served_under_v1 escaped (hr_path r)) in Hmatch; [congruence| |done].
  rewrite <-Hclean. apply clean_path_rooted.
Qed.
End access.

(** ** Requests that are refused *)

(** A reviewer of another organization asks for a session of [org_1]. *)
Definition outsider : context :=
  {| cx_principal := Some
       {| pr_Identity := {| id_Issuer := "https://issuer"; id_Subject := "eve"; id_Email := ""; id_Name := "";
                            id_EmailVerified := true |};
          pr_Access := {| ia_AccountID := "acct_2"; ia_DisplayName := "Eve"; ia_Email := "";
                          ia_ContributorID := None;
                          ia_Memberships := [{| om_OrganizationID := "org_2"; om_Role := "reviewer" |}] |};
          pr_Local := false |};
     cx_trace := None |}.
Definition bare_request (method path : string) : http_request :=
  {| hr_method := method; hr_path := path; hr_headers := ∅; hr_values := ∅; hr_query := ∅;
     hr_body := NewReader "{}"; hr_length := 2 |}.
Definition moved : response := {| rs_status := 307; rs_headers := ∅; rs_body := "" |}.
#[local] Notation sample_routes :=
  (routes (B := local_store) quiet true None 0 (Ok "{}") true error_text (λ _, "") (λ _, "") (λ _, "") Some
    (λ _, "") (λ _, JNull) (λ _ _, None)).
#[local] Notation sample_mux :=
  (mux (B := local_store) quiet true None 0 (Ok "{}") true moved error_text (λ _, "") (λ _, "") (λ _, "") Some
    (λ _, "") (λ _, JNull) (λ _ _, None)).


(** The escaped path names [/v1/projects]. *)
Lemma unidentified_request_witness :
  let w := local_world empty_db empty_store in
  let r := bare_request "GET" "/v1/projects" in
  ∃ resp, authenticate quiet header_authenticate (sample_mux "/%76%31/projects")
      {| cx_principal := None; cx_trace := None |} r w = (resp, w) ∧ resp = unauthenticated.
Proof.
  intros w r.
  destruct (authenticate quiet header_authenticate (sample_mux "/%76%31/projects")
    {| cx_principal := None; cx_trace := None |} r w) as [resp w'] eqn:Hrun.
  destruct (unidentified_request quiet true None 0 (Ok "{}") true moved error_text (λ _, "")
    (λ _, "") (λ _, "") Some (λ _, "") (λ _, JNull) (λ _ _, None) "/%76%31/projects" header_authenticate
    {| cx_principal := None; cx_trace := None |} r w resp w' eq_refl eq_refl eq_refl Hrun) as [-> Hresp].
  exists resp. split; [reflexivity|]. exact Hresp.
Defined.

Example served_without_escapes :
  (λ x : route local_store * list (string * string), (rt_guard x.1, x.2)) <$>
    dispatch sample_routes "HEAD" "/v1/projects/p%2F1/sessions" = Some (OnProject ["admin"; "reviewer"], [("project_id", "p/1")]).
Proof. vm_compute. reflexivity. Qed.
Example literal_before_wildcard :
  (λ x : route local_store * list (string * string), (rt_guard x.1, x.2)) <$>
    dispatch sample_routes "GET" "/v1/processing-jobs/dead-letter" = Some (Roles ["admin"], []).
Proof. vm_compute. reflexivity. Qed.
Example method_not_allowed : allowed_methods sample_routes "/v1/sessions/s/review-claim" = ["DELETE"; "POST"].
Proof. vm_compute. reflexivity. Qed.
