(* ===== verification/Config.v ===== *)
(** * Configuration ([appconfig/config.go]) and the authenticator it selects ([authn/authn.go])

    The environment variables are a function from names to texts.  [url.Parse], whose
    rules change with the version of Go, is a parameter: it gives the scheme, the host,
    whether there is user information and the first [sslmode] of the query.  Durations
    are parsed as [time] does, in 64 bits, with the fraction in floating point. *)

From S2P Require Import Prelude Domain Text Encoding Json Sha256 Schema Frame Blob Redaction Validator Store Identity Steps Http.
From Stdlib Require Import SpecFloat.

(** ** Parsing *)

(** [bits.Len]-free truncation of a non-negative [float64] to [uint64]; the values here
    are below 2^63. *)
Definition float_floor (x : float64) : Z :=
  match x with
  | S754_finite false m e => if 0 <=? e then Zpos m * 2 ^ e else Zpos m / 2 ^ (- e)
  | _ => 0
  end.

Definition nanosecond_units : list (string * Z) :=
  [("ns", 1); ("us", 1000); (bytes_string [194; 181; 115]%N, 1000); (bytes_string [206; 188; 115]%N, 1000);
   ("ms", 1000000); ("s", second); ("m", minute); ("h", hour)].

(** [leadingInt]: the digits at the start, below 2^63 or exactly that. *)
Definition leadingInt (s : string) : option (Z * string) :=
  let (digits, rest) := take_digits s in
  let v := default 0 (digits_value 10 digits 0) in
  if v <=? 2 ^ 63 then Some (v, rest) else None.

(** [leadingFraction]: digits that no longer fit are dropped; the fraction and its
    scale. *)
Fixpoint fraction_value (digits : string) (x : Z) (scale : float64) : Z * float64 :=
  match digits with
  | EmptyString => (x, scale)
  | String c rest =>
    let y := x * 10 + default 0 (digit_value 10 c) in
    if ((2 ^ 63 - 1) / 10 <? x) || (2 ^ 63 <? y) then (x, scale)
    else fraction_value rest y (SFmul 53 1024 scale (float_of 10))
  end.

(** The unit: up to the next digit or dot. *)
Fixpoint take_unit (s : string) : string * string :=
  match s with
  | String c rest =>
    if Ascii.eqb c "." || is_digit c then ("", s) else let (u, r) := take_unit rest in (String c u, r)
  | EmptyString => ("", "")
  end.

(** One term of a duration: a number and its unit. *)
Definition duration_term (s : string) : option (Z * string) :=
  '(v, s1) ← leadingInt s;
  let pre := negb (slen s1 =? slen s) in
  let '(f, scale, post, s2) :=
    match s1 with
    | String "." r =>
      let (digits, r') := take_digits r in
      let (f, scale) := fraction_value digits 0 (float_of 1) in
      (f, scale, negb (is_empty digits), r')
    | _ => (0, float_of 1, false, s1)
    end in
  if negb pre && negb post then None
  else
    let (u, s3) := take_unit s2 in
    if is_empty u then None
    else
      unit ← snd <$> List.find (λ nu, seqb nu.1 u) nanosecond_units;
      if 2 ^ 63 / unit <? v then None
      else
        let v := v * unit
                 + (if 0 <? f
                    then float_floor (SFmul 53 1024 (float_of f) (SFdiv 53 1024 (float_of unit) scale))
                    else 0) in
        if 2 ^ 63 <? v then None else Some (v, s3).

(** Every term consumes a character, so that the length is fuel enough. *)
Fixpoint duration_terms (fuel : nat) (s : string) (d : Z) : option Z :=
  match fuel, s with
  | _, EmptyString => Some d
  | O, _ => None
  | S fuel, String c _ =>
    if negb (Ascii.eqb c "." || is_digit c) then None
    else
      '(v, rest) ← duration_term s;
      if 2 ^ 63 <? d + v then None else duration_terms fuel rest (d + v)
  end.

(** [time.ParseDuration] *)
Definition ParseDuration (s : string) : option Z :=
  let '(negative, s) :=
    match s with String "-" r => (true, r) | String "+" r => (false, r) | _ => (false, s) end in
  if seqb s "0" then Some 0
  else if is_empty s then None
  else
    d ← duration_terms (String.length s) s 0;
    if (negative : bool) then Some (- d) else if 2 ^ 63 - 1 <? d then None else Some d.

(** [Duration.String] of a duration of a second or more, or of whole milliseconds. *)
Definition Duration_String (d : Z) : string :=
  let tail digits := let f := drop_trailing_zeros digits in if is_empty f then "" else "." +:+ f in
  if d <? second then Sprint (d / 1000000) +:+ tail (Encoding.pad 6 (d mod 1000000)) +:+ "ms"
  else
    let seconds := d / second in
    let text := Sprint (seconds mod 60) +:+ tail (Encoding.pad 9 (d mod second)) +:+ "s" in
    if seconds <? 60 then text
    else
      let minutes := seconds / 60 in
      let text := Sprint (minutes mod 60) +:+ "m" +:+ text in
      if minutes <? 60 then text else Sprint (minutes / 60) +:+ "h" +:+ text.

(** [strconv.ParseBool] *)
Definition ParseBool (s : string) : option bool :=
  if oneof s ["1"; "t"; "T"; "TRUE"; "true"; "True"] then Some true
  else if oneof s ["0"; "f"; "F"; "FALSE"; "false"; "False"] then Some false
  else None.

(** [net.SplitHostPort]: the reason it refuses, or host and port. *)
Definition address_error (address reason : string) : string := "address " +:+ address +:+ ": " +:+ reason.
Definition SplitHostPort (hostport : string) : result string (string * string) :=
  let refuse reason := Err (address_error hostport reason) in
  match IndexByte (rev_string hostport) ":" with
  | None => refuse "missing port in address"
  | Some back =>
    let i := (String.length hostport - 1 - back)%nat in
    let port := sdrop (S i) hostport in
    let finish (host : string) (j k : nat) :=
      if Contains (sdrop j hostport) "[" then refuse "unexpected '[' in address"
      else if Contains (sdrop k hostport) "]" then refuse "unexpected ']' in address"
      else Ok (host, port) in
    if HasPrefix hostport "[" then
      match IndexByte hostport "]" with
      | None => refuse "missing ']' in address"
      | Some stop =>
        if Nat.eqb (S stop) i then finish (stake (stop - 1) (sdrop 1 hostport)) 1%nat (S stop)
        else if HasPrefix (sdrop (S stop) hostport) ":" then refuse "too many colons in address"
        else refuse "missing port in address"
      end
    else
      let host := stake i hostport in
      if Contains host ":" then refuse "too many colons in address" else finish host 0%nat 0%nat
  end.

Example durations :
  map ParseDuration ["1h15m30.5s"; "100ms"; "-1.5h"; ".5s"; "1s1"; "9223372036854775807ns"; "2562048h"; "0"; ""]
  = [Some (hour + 15 * minute + 30 * second + 500000000); Some 100000000; Some (- (90 * minute));
     Some 500000000; None; Some (2 ^ 63 - 1); None; Some 0; None].
Proof. vm_compute. reflexivity. Qed.
Example shown_durations : map Duration_String [100000000; second; 2 * minute; hour; 15 * minute + 500000000]
  = ["100ms"; "1s"; "2m0s"; "1h0m0s"; "15m0.5s"].
Proof. vm_compute. reflexivity. Qed.
Example addresses : map (λ a, is_ok (SplitHostPort a)) ["127.0.0.1:8080"; "[::1]:80"; ":80"; "::1:80"; "localhost"; "[::1]"]
  = [true; true; true; false; false; false].
Proof. vm_compute. reflexivity. Qed.

(** ** Configurations *)

Definition EnvironmentLocal : string := "local".
Definition EnvironmentTest : string := "test".
Definition EnvironmentStaging : string := "staging".
Definition EnvironmentProduction : string := "production".

Record Common := {
  cm_Environment : string; cm_DatabaseURL : string; cm_DatabaseMaxConns : Z; cm_MigrationsDir : string;
  cm_RunMigrations : bool; cm_BlobBackend : string; cm_BlobRoot : string; cm_R2Endpoint : string;
  cm_R2Bucket : string; cm_R2AccessKeyID : string; cm_R2SecretAccessKey : string; cm_AuthMode : string;
  cm_OIDCIssuer : string; cm_OIDCAudience : string; cm_SchemaPath : string; cm_ShutdownTimeout : Z;
  cm_GCPProject : string
}.
Record Migration := {
  mg_Environment : string; mg_DatabaseURL : string; mg_DatabaseMaxConns : Z; mg_MigrationsDir : string
}.
Record IdentityBootstrap := {
  ib_Migration : Migration; ib_Issuer : string; ib_Subject : string; ib_Email : string;
  ib_DisplayName : string; ib_OrganizationName : string
}.
Record APIConfig := {
  ac_Common : Common; ac_Address : string; ac_AllowedOrigins : list string; ac_UploadAuthorizationTTL : Z
}.
Record WorkerConfig := {
  wc_Common : Common; wc_PollInterval : Z; wc_Drain : bool; wc_FFprobePath : string; wc_FFmpegPath : string
}.

(** What [url.Parse] finds in a database URL. *)
Record database_url := {
  du_Scheme : string; du_Host : string; du_User : bool; du_SSLMode : string
}.

#[local] Notation "'check' x := m 'in' k" := (result_bind (λ x, k) m)
  (at level 200, x name, m at level 100, k at level 200).
Definition ensure (b : bool) (message : string) : result string () := if b then Ok () else Err message.

Section load.
Variables (parse_url : string → option database_url) (getenv : string → string).

Definition variable (name : string) : string := TrimSpace (getenv name).
Definition valueOr (name fallback : string) : string :=
  let value := variable name in if is_empty value then fallback else value.
Definition lowered (name fallback : string) : string := ToLower (TrimSpace (valueOr name fallback)).

Definition boolValue (name : string) (fallback : bool) : result string bool :=
  let raw := variable name in
  if is_empty raw then Ok fallback
  else match ParseBool raw with
       | Some b => Ok b
       | None => Err (name +:+ " must be true or false")
       end.
Definition int32Value (name : string) (fallback minimum maximum : Z) : result string Z :=
  let raw := variable name in
  if is_empty raw then Ok fallback
  else
    let refused := Err (name +:+ " must be between " +:+ Sprint minimum +:+ " and " +:+ Sprint maximum) in
    match ParseInt raw with
    | Some v => if (v <? minimum) || (maximum <? v) then refused else Ok v
    | None => refused
    end.
Definition durationValue (name : string) (fallback minimum maximum : Z) : result string Z :=
  let raw := variable name in
  if is_empty raw then Ok fallback
  else
    let refused := Err (name +:+ " must be a duration between " +:+ Duration_String minimum +:+ " and "
                        +:+ Duration_String maximum) in
    match ParseDuration raw with
    | Some v => if (v <? minimum) || (maximum <? v) then refused else Ok v
    | None => refused
    end.

Definition near (environment : string) : bool :=
  seqb environment EnvironmentLocal || seqb environment EnvironmentTest.

Definition validateDatabaseURL (value environment : string) : result string () :=
  if near environment then Ok ()
  else
    match parse_url value with
    | None => Err "TRAJECTORY_DATABASE_URL must be a PostgreSQL URL outside local and test environments"
    | Some u =>
      check _ := ensure (oneof (du_Scheme u) ["postgres"; "postgresql"] && negb (is_empty (du_Host u)) && du_User u)
        "TRAJECTORY_DATABASE_URL must be a PostgreSQL URL outside local and test environments" in
      ensure (oneof (ToLower (TrimSpace (du_SSLMode u))) ["require"; "verify-ca"; "verify-full"])
        "TRAJECTORY_DATABASE_URL must explicitly require TLS outside local and test environments"
    end.

(** The environment and the database, with which every configuration begins. *)
Definition load_environment : result string (string * string) :=
  let environment := lowered "TRAJECTORY_ENVIRONMENT" EnvironmentLocal in
  check _ := ensure (oneof environment [EnvironmentLocal; EnvironmentTest; EnvironmentStaging; EnvironmentProduction])
    "TRAJECTORY_ENVIRONMENT must be local, test, staging, or production" in
  let supplied := variable "TRAJECTORY_DATABASE_URL" in
  check _ := ensure (negb (is_empty supplied) || near environment)
    "TRAJECTORY_DATABASE_URL is required outside local and test environments" in
  let databaseURL :=
    if is_empty supplied then "postgres://trajectory@127.0.0.1:55432/trajectory?sslmode=disable" else supplied in
  check _ := validateDatabaseURL databaseURL environment in
  Ok (environment, databaseURL).

(** The settings of the object store: endpoint, bucket, key and secret. *)
Definition load_storage (environment : string) : result string (string * (string * string * string * string)) :=
  let backend := lowered "TRAJECTORY_BLOB_BACKEND" "local" in
  check _ := ensure (oneof backend ["local"; "r2"]) "TRAJECTORY_BLOB_BACKEND must be local or r2" in
  check _ := ensure (negb (seqb environment EnvironmentProduction && seqb backend "local"))
    "production cannot use the ephemeral local blob backend; configure R2" in
  let endpoint := variable "TRAJECTORY_R2_ENDPOINT" in
  let bucket := variable "TRAJECTORY_R2_BUCKET" in
  let access := variable "TRAJECTORY_R2_ACCESS_KEY_ID" in
  let secret := variable "TRAJECTORY_R2_SECRET_ACCESS_KEY" in
  check _ := ensure (negb (seqb backend "r2")
      || negb (is_empty endpoint || is_empty bucket || is_empty access || is_empty secret))
    "R2 backend requires TRAJECTORY_R2_ENDPOINT, TRAJECTORY_R2_BUCKET, TRAJECTORY_R2_ACCESS_KEY_ID, and TRAJECTORY_R2_SECRET_ACCESS_KEY" in
  check _ := ensure (negb (seqb backend "r2") || HasPrefix endpoint "https://")
    "TRAJECTORY_R2_ENDPOINT must use HTTPS" in
  Ok (backend, (endpoint, bucket, access, secret)).

(** The mode of authentication, the issuer and the audience. *)
Definition load_authentication (environment : string) : result string (string * (string * string)) :=
  let production := seqb environment EnvironmentProduction in
  let mode := lowered "TRAJECTORY_AUTH_MODE" (if production then "oidc" else "local") in
  check _ := ensure (oneof mode ["local"; "oidc"]) "TRAJECTORY_AUTH_MODE must be local or oidc" in
  check _ := ensure (negb production || seqb mode "oidc") "production requires OpenID authentication" in
  let issuer := variable "TRAJECTORY_OIDC_ISSUER" in
  let audience := variable "TRAJECTORY_OIDC_AUDIENCE" in
  check _ := ensure (negb (seqb mode "oidc") || negb (is_empty issuer || is_empty audience))
    "OpenID authentication requires TRAJECTORY_OIDC_ISSUER and TRAJECTORY_OIDC_AUDIENCE" in
  check _ := ensure (negb (seqb mode "oidc") || HasPrefix issuer "https://") "TRAJECTORY_OIDC_ISSUER must use HTTPS" in
  Ok (mode, (issuer, audience)).

Definition loadCommon : result string Common :=
  check base := load_environment in
  let (environment, databaseURL) := (base : string * string) in
  check maxConns := int32Value "TRAJECTORY_DATABASE_MAX_CONNS" 4 1 100 in
  check runMigrations := boolValue "TRAJECTORY_RUN_MIGRATIONS" (near environment) in
  check shutdownTimeout := durationValue "TRAJECTORY_SHUTDOWN_TIMEOUT" (20 * second) second (2 * minute) in
  check storage := load_storage environment in
  let '(backend, (endpoint, bucket, access, secret)) := storage in
  check authentication := load_authentication environment in
  let '(mode, (issuer, audience)) := authentication in
  Ok {| cm_Environment := environment; cm_DatabaseURL := databaseURL; cm_DatabaseMaxConns := maxConns;
        cm_MigrationsDir := valueOr "TRAJECTORY_MIGRATIONS_DIR" "migrations";
        cm_RunMigrations := runMigrations; cm_BlobBackend := backend;
        cm_BlobRoot := valueOr "TRAJECTORY_BLOB_ROOT" "../../data/blobstore"; cm_R2Endpoint := endpoint;
        cm_R2Bucket := bucket; cm_R2AccessKeyID := access; cm_R2SecretAccessKey := secret;
        cm_AuthMode := mode; cm_OIDCIssuer := issuer; cm_OIDCAudience := audience;
        cm_SchemaPath := valueOr "TRAJECTORY_SCHEMA_PATH" "../../packages/trajectory-schema/schemas/trajectory-v1.json";
        cm_ShutdownTimeout := shutdownTimeout; cm_GCPProject := variable "TRAJECTORY_GCP_PROJECT" |}.

Definition loadMigration : result string Migration :=
  check base := load_environment in
  let (environment, databaseURL) := (base : string * string) in
  check maxConns := int32Value "TRAJECTORY_DATABASE_MAX_CONNS" 1 1 4 in
  Ok {| mg_Environment := environment; mg_DatabaseURL := databaseURL; mg_DatabaseMaxConns := maxConns;
        mg_MigrationsDir := valueOr "TRAJECTORY_MIGRATIONS_DIR" "migrations" |}.

Definition loadIdentityBootstrap : result string IdentityBootstrap :=
  check migration := loadMigration in
  let issuer := variable "TRAJECTORY_BOOTSTRAP_ADMIN_ISSUER" in
  let subject := variable "TRAJECTORY_BOOTSTRAP_ADMIN_SUBJECT" in
  let email := variable "TRAJECTORY_BOOTSTRAP_ADMIN_EMAIL" in
  let displayName := variable "TRAJECTORY_BOOTSTRAP_ADMIN_DISPLAY_NAME" in
  let organization := variable "TRAJECTORY_BOOTSTRAP_ORGANIZATION_NAME" in
  check _ := ensure (negb (existsb is_empty [issuer; subject; email; displayName; organization]))
    "bootstrap admin issuer, subject, email, display name, and organization name are required" in
  check _ := ensure (HasPrefix issuer "https://") "bootstrap admin issuer must use HTTPS" in
  Ok {| ib_Migration := migration; ib_Issuer := issuer; ib_Subject := subject; ib_Email := email;
        ib_DisplayName := displayName; ib_OrganizationName := organization |}.

Definition apiAddress : result string string :=
  let address := variable "TRAJECTORY_API_ADDRESS" in
  let rawPort := variable "PORT" in
  if negb (is_empty address) then
    match SplitHostPort address with
    | Ok _ => Ok address
    | Err e => Err ("invalid TRAJECTORY_API_ADDRESS: " +:+ e)
    end
  else if negb (is_empty rawPort) then
    let refused := Err "PORT must be an integer between 1 and 65535" in
    match ParseInt rawPort with
    | Some port => if (port <? 1) || (65535 <? port) then refused else Ok ("0.0.0.0:" +:+ rawPort)
    | None => refused
    end
  else Ok "127.0.0.1:8080".

(** The origins of a list, each once, in the order of their first occurrence. *)
Fixpoint explicit_origins (seen : list string) (candidates : list string) : option (list string) :=
  match candidates with
  | [] => Some []
  | candidate :: rest =>
    let origin := TrimSpace candidate in
    if is_empty origin || seqb origin "*" then None
    else if oneof origin seen then explicit_origins seen rest
    else cons origin <$> explicit_origins (origin :: seen) rest
  end.
Definition allowedOrigins (environment : string) : result string (list string) :=
  let raw := variable "TRAJECTORY_ALLOWED_ORIGINS" in
  if is_empty raw then
    if near environment then Ok defaultAllowedOrigins
    else Err "TRAJECTORY_ALLOWED_ORIGINS is required outside local and test environments"
  else
    match explicit_origins [] (split_on "," raw) with
    | None => Err "allowed origins must be explicit and cannot contain a wildcard"
    | Some [] => Err "at least one allowed origin is required"
    | Some origins => Ok origins
    end.

Definition loadAPI : result string APIConfig :=
  check common := loadCommon in
  check address := apiAddress in
  check origins := allowedOrigins (cm_Environment common) in
  check uploadTTL := durationValue "TRAJECTORY_UPLOAD_AUTHORIZATION_TTL" (15 * minute) minute hour in
  Ok {| ac_Common := common; ac_Address := address; ac_AllowedOrigins := origins;
        ac_UploadAuthorizationTTL := uploadTTL |}.

Definition loadWorker : result string WorkerConfig :=
  check common := loadCommon in
  check pollInterval := durationValue "TRAJECTORY_WORKER_POLL_INTERVAL" second 100000000 minute in
  check drain := boolValue "TRAJECTORY_WORKER_DRAIN" false in
  Ok {| wc_Common := common; wc_PollInterval := pollInterval; wc_Drain := drain;
        wc_FFprobePath := valueOr "TRAJECTORY_FFPROBE_PATH" "ffprobe";
        wc_FFmpegPath := valueOr "TRAJECTORY_FFMPEG_PATH" "ffmpeg" |}.
End load.

(** ** The authenticator *)

(** [authn.New]: OpenID discovery gives, for an issuer and an audience, the functions
    that verify a token and ask for the profile of its subject. *)
Definition NewOIDC
    (discover : string → string → option ((string → option OIDCIdentity) * (string → option OIDCIdentity)))
    (issuer audience : string) : option (http_request → option OIDCIdentity) :=
  if is_empty (TrimSpace issuer) || is_empty (TrimSpace audience) then None
  else '(verify, userinfo) ← discover issuer audience; Some (oidc_authenticate verify userinfo).
Definition NewAuthenticator
    (discover : string → string → option ((string → option OIDCIdentity) * (string → option OIDCIdentity)))
    (mode issuer audience : string) : option (http_request → option OIDCIdentity) :=
  if seqb mode "local" then Some header_authenticate
  else if seqb mode "oidc" then NewOIDC discover issuer audience
  else None.

(** ** What a loaded configuration guarantees *)

Lemma ensure_ok b m u : ensure b m = Ok u → b = true.
Proof. by destruct b. Qed.

(** Takes a chain of checks apart. *)
Ltac checks :=
  repeat match goal with
  | H : result_bind _ _ = Ok _ |- _ => apply result_bind_ok in H as (? & ? & H); cbv beta zeta in H
  | H : ensure _ _ = Ok _ |- _ => apply ensure_ok in H
  | p : (_ * _)%type |- _ => destruct p
  end.

Lemma oneof_in s l : oneof s l = true → s ∈ l.
Proof. by rewrite oneof_true. Qed.

Section guarantees.
Context (parse_url : string → option database_url) (getenv : string → string).

(** The database of a remote environment is reached over TLS. *)
Definition remote_database (url : string) : Prop :=
  ∃ u, parse_url url = Some u ∧ du_Scheme u ∈ ["postgres"; "postgresql"] ∧ du_Host u ≠ "" ∧ du_User u = true ∧
    ToLower (TrimSpace (du_SSLMode u)) ∈ ["require"; "verify-ca"; "verify-full"].

Lemma validateDatabaseURL_ok url environment u :
  validateDatabaseURL parse_url url environment = Ok u → near environment = false → remote_database url.
Proof using Type.
  unfold validateDatabaseURL. intros H Hn. rewrite Hn in H. destruct (parse_url url) as [d|] eqn:E; [|done].
  checks. repeat match goal with H : (_ && _) = true |- _ => apply andb_true_iff in H as [? ?] end.
  exists d. split; [done|]. repeat split; try by apply oneof_in.
  - intros Hh. rewrite Hh in *. discriminate.
  - done.
Qed.

Lemma load_environment_ok environment url :
  load_environment parse_url getenv = Ok (environment, url) →
  environment ∈ [EnvironmentLocal; EnvironmentTest; EnvironmentStaging; EnvironmentProduction] ∧
  (near environment = false → remote_database url).
Proof using Type.
  unfold load_environment. intros H. checks. injection H as <- <-. split; [by apply oneof_in|].
  intros Hn. by eapply validateDatabaseURL_ok.
Qed.

Lemma int32Value_ok name fallback minimum maximum v :
  int32Value getenv name fallback minimum maximum = Ok v → minimum ≤ fallback ≤ maximum →
  minimum ≤ v ≤ maximum.
Proof using Type.
  unfold int32Value. destruct (is_empty _); [by intros [= <-]|].
  destruct (ParseInt _) as [n|]; [|done]. destruct (_ || _) eqn:E; [done|]. intros [= <-] _.
  apply orb_false_iff in E as [?%Z.ltb_ge ?%Z.ltb_ge]. lia.
Qed.
Lemma durationValue_ok name fallback minimum maximum v :
  durationValue getenv name fallback minimum maximum = Ok v → minimum ≤ fallback ≤ maximum →
  minimum ≤ v ≤ maximum.
Proof using Type.
  unfold durationValue. destruct (is_empty _); [by intros [= <-]|].
  destruct (ParseDuration _) as [n|]; [|done]. destruct (_ || _) eqn:E; [done|]. intros [= <-] _.
  apply orb_false_iff in E as [?%Z.ltb_ge ?%Z.ltb_ge]. lia.
Qed.

(** Objects of a backend other than the local one go to R2 over HTTPS. *)
Lemma load_storage_ok environment backend endpoint bucket access secret :
  load_storage getenv environment = Ok (backend, (endpoint, bucket, access, secret)) →
  backend ∈ ["local"; "r2"] ∧ (environment = EnvironmentProduction → backend = "r2") ∧
  (backend = "r2" → HasPrefix endpoint "https://" = true ∧ bucket ≠ "" ∧ access ≠ "" ∧ secret ≠ "").
Proof using Type.
  unfold load_storage. intros H. checks. injection H as <- <- <- <- <-.
  assert (Hb := oneof_in _ _ H0). split; [done|].
  rewrite !elem_of_cons in Hb. destruct Hb as [Hb|[Hb|[]%elem_of_nil]]; rewrite Hb in *; cbn in *; split.
  - intros ->. done.
  - done.
  - done.
  - intros _. apply negb_true_iff in H2. rewrite !orb_false_iff in H2. split; [done|].
    destruct H2 as [[[_ H2] H4] H5]. repeat split; intros E; by rewrite E in *.
Qed.

Lemma load_authentication_ok environment mode issuer audience :
  load_authentication getenv environment = Ok (mode, (issuer, audience)) →
  mode ∈ ["local"; "oidc"] ∧ (environment = EnvironmentProduction → mode = "oidc") ∧
  (mode = "oidc" → HasPrefix issuer "https://" = true ∧ audience ≠ "").
Proof using Type.
  unfold load_authentication. intros H. checks. injection H as <- <- <-.
  assert (Hb := oneof_in _ _ H0). split; [done|]. split.
  - intros ->. cbn in *. by apply seqb_true in H1.
  - intros E. rewrite E in *. cbn in *. apply negb_true_iff, orb_false_iff in H2 as [_ H2].
    split; [done|]. intros F. by rewrite F in *.
Qed.

Lemma explicit_origins_ok seen l origins :
  explicit_origins seen l = Some origins →
  NoDup origins ∧ (∀ o, o ∈ origins → o ∉ seen ∧ o ≠ "" ∧ o ≠ "*" ∧ ∃ c, c ∈ l ∧ o = TrimSpace c).
Proof using Type.
  revert seen origins. induction l as [|c l IH]; intros seen origins; cbn.
  { intros [= <-]. split; [constructor|]. by intros o ?%elem_of_nil. }
  destruct (is_empty (TrimSpace c)) eqn:E1; [done|]. destruct (seqb (TrimSpace c) "*") eqn:E2; [done|]. cbn.
  destruct (oneof (TrimSpace c) seen) eqn:E3.
  - intros (Hn & Ho)%IH. split; [done|]. intros o (H1 & H2 & H3 & c' & H4 & ->)%Ho.
    repeat split; try done. exists c'. split; [by right|done].
  - destruct (explicit_origins _ l) as [rest|] eqn:E; [|done]. cbn. intros [= <-].
    destruct (IH _ _ E) as [Hn Ho]. split.
    + constructor; [|done]. intros Hin. destruct (Ho _ Hin) as [Hs _]. apply Hs. left.
    + intros o [->|Hin]%elem_of_cons.
      * split; [intros Hs; by rewrite (proj2 (oneof_true _ _) Hs) in E3|].
        split; [intros Hs; by rewrite Hs in E1|]. split; [by apply seqb_false|].
        exists c. split; [left|done].
      * destruct (Ho _ Hin) as (H1 & H2 & H3 & c' & H4 & ->). apply not_elem_of_cons in H1 as [_ H1].
        repeat split; try done. exists c'. split; [by right|done].
Qed.

Lemma allowedOrigins_ok environment origins :
  allowedOrigins getenv environment = Ok origins →
  origins ≠ [] ∧ NoDup origins ∧ "*" ∉ origins ∧ "" ∉ origins.
Proof using Type.
  unfold allowedOrigins. destruct (is_empty _).
  - destruct (near environment); [|done]. intros [= <-]. split; [done|].
    assert (Hn : bool_decide (NoDup defaultAllowedOrigins) = true) by (vm_compute; reflexivity).
    assert (Hw : bool_decide ("*" ∉ defaultAllowedOrigins ∧ "" ∉ defaultAllowedOrigins) = true)
      by (vm_compute; reflexivity).
    apply bool_decide_eq_true in Hn, Hw. destruct Hw. by repeat split.
  - destruct (explicit_origins [] _) as [[|o l]|] eqn:E; [done| |done]. intros [= <-].
    apply explicit_origins_ok in E as [Hn Ho]. split; [done|]. split; [done|].
    by split; intros Hin; destruct (Ho _ Hin) as (_ & H1 & H2 & _).
Qed.

(** The common part, in production and elsewhere. *)
Lemma loadCommon_ok common :
  loadCommon parse_url getenv = Ok common →
  (cm_Environment common = EnvironmentProduction →
     cm_BlobBackend common = "r2" ∧ HasPrefix (cm_R2Endpoint common) "https://" = true ∧
     cm_R2Bucket common ≠ "" ∧ cm_R2AccessKeyID common ≠ "" ∧ cm_R2SecretAccessKey common ≠ "" ∧
     cm_AuthMode common = "oidc" ∧ HasPrefix (cm_OIDCIssuer common) "https://" = true ∧
     cm_OIDCAudience common ≠ "") ∧
  (near (cm_Environment common) = false → remote_database (cm_DatabaseURL common)) ∧
  1 ≤ cm_DatabaseMaxConns common ≤ 100 ∧ second ≤ cm_ShutdownTimeout common ≤ 2 * minute.
Proof using Type.
  unfold loadCommon. intros H. checks. injection H as <-. cbn.
  match goal with H : load_environment _ _ = _ |- _ => apply load_environment_ok in H as [_ Hdb] end.
  match goal with H : load_storage _ _ = _ |- _ => apply load_storage_ok in H as (_ & Hr2 & Hstore) end.
  match goal with H : load_authentication _ _ = _ |- _ => apply load_authentication_ok in H as (_ & Hoidc & Hauth) end.
  match goal with H : int32Value _ _ _ _ _ = _ |- _ => apply int32Value_ok in H; [|lia] end.
  match goal with H : durationValue _ _ _ _ _ = _ |- _ => apply durationValue_ok in H; [|unfold minute, second; lia] end.
  split; [|split; [done|split; lia]]. intros Hp. destruct (Hstore (Hr2 Hp)) as (? & ? & ? & ?).
  destruct (Hauth (Hoidc Hp)) as [? ?]. repeat split; auto.
Qed.

(** C32: a production API is what operations expect of it.  When [loadAPI] succeeds in
    production, the objects are in an R2 bucket reached over HTTPS with credentials,
    callers authenticate with OpenID against an HTTPS issuer, the database is PostgreSQL
    over TLS; and in every environment the origins are explicit, without repetition or
    wildcard, and the numbers are within their bounds. *)
Theorem loaded_configuration config :
  loadAPI parse_url getenv = Ok config →
  let common := ac_Common config in
  (cm_Environment common = EnvironmentProduction →
     cm_BlobBackend common = "r2" ∧ HasPrefix (cm_R2Endpoint common) "https://" = true ∧
     cm_R2Bucket common ≠ "" ∧ cm_R2AccessKeyID common ≠ "" ∧ cm_R2SecretAccessKey common ≠ "" ∧
     cm_AuthMode common = "oidc" ∧ HasPrefix (cm_OIDCIssuer common) "https://" = true ∧
     cm_OIDCAudience common ≠ "" ∧ remote_database (cm_DatabaseURL common)) ∧
  (cm_Environment common = EnvironmentStaging → remote_database (cm_DatabaseURL common)) ∧
  ac_AllowedOrigins config ≠ [] ∧ NoDup (ac_AllowedOrigins config) ∧
  "*" ∉ ac_AllowedOrigins config ∧ "" ∉ ac_AllowedOrigins config ∧
  1 ≤ cm_DatabaseMaxConns common ≤ 100 ∧ second ≤ cm_ShutdownTimeout common ≤ 2 * minute ∧
  minute ≤ ac_UploadAuthorizationTTL config ≤ hour.
Proof using Type.
  unfold loadAPI. intros H. checks. injection H as <-. cbn [ac_Common ac_AllowedOrigins ac_UploadAuthorizationTTL].
  match goal with H : loadCommon _ _ = _ |- _ => apply loadCommon_ok in H as (Hp & Hdb & Hc & Hs) end.
  match goal with H : allowedOrigins _ _ = _ |- _ => apply allowedOrigins_ok in H as (? & ? & ? & ?) end.
  match goal with H : durationValue _ _ _ _ _ = _ |- _ =>
    apply durationValue_ok in H; [|unfold hour, minute, second; lia] end.
  split; [|split; [|by do 4 (split; [done|]); do 2 (split; [done|])]].
  - intros He. destruct (Hp He) as (? & ? & ? & ? & ? & ? & ? & ?). repeat split; try done.
    apply Hdb. by rewrite He.
  - intros He. apply Hdb. by rewrite He.
Qed.

(** C33: nobody is a local administrator of a production API.  With the authenticator a
    production configuration selects, and an OpenID verifier that accepts tokens of the
    configured issuer only, a caller's identity is of that issuer, and whatever the API
    runs for a request runs without a principal or with one that is not local: the
    wildcard memberships of the header authenticator cannot be had. *)
Theorem production_never_local config {B} (env : environment) discover authenticator :
  loadAPI parse_url getenv = Ok config →
  cm_Environment (ac_Common config) = EnvironmentProduction →
  (∀ issuer audience verify userinfo, discover issuer audience = Some (verify, userinfo) →
     ∀ token i, verify token = Some i → id_Issuer i = issuer) →
  NewAuthenticator discover (cm_AuthMode (ac_Common config)) (cm_OIDCIssuer (ac_Common config))
    (cm_OIDCAudience (ac_Common config)) = Some authenticator →
  (∀ r i, authenticator r = Some i → id_Issuer i = cm_OIDCIssuer (ac_Common config)) ∧
  ∀ (next next' : handler B) cx r w, cx_principal cx = None →
    (∀ cx' w, (∀ p, cx_principal cx' = Some p → pr_Local p = false) → next cx' r w = next' cx' r w) →
    authenticate env authenticator next cx r w = authenticate env authenticator next' cx r w.
Proof using Type.
  unfold loadAPI. intros H Hprod Hdisc Hauth. checks. injection H as <-. cbn [ac_Common] in *.
  match goal with H : loadCommon _ _ = _ |- _ => apply loadCommon_ok in H as (Hp & _) end.
  destruct (Hp Hprod) as (_ & _ & _ & _ & _ & Hmode & Hissuer & _).
  unfold NewAuthenticator in Hauth. rewrite Hmode in Hauth. cbn [seqb] in Hauth.
  change (seqb "oidc" "local") with false in Hauth. change (seqb "oidc" "oidc") with true in Hauth. cbv iota in Hauth.
  unfold NewOIDC in Hauth. destruct (_ || _); [done|].
  destruct (discover _ _) as [[verify userinfo]|] eqn:Hd; [|done]. cbn in Hauth. injection Hauth as <-.
  assert (Hi : ∀ r i, oidc_authenticate verify userinfo r = Some i → id_Issuer i = cm_OIDCIssuer x).
  { intros r i. unfold oidc_authenticate. destruct (bearerToken _) as [t|]; [|done]. cbn.
    destruct (verify t) as [token|] eqn:Hv; [|done]. cbn. pose proof (Hdisc _ _ _ _ Hd _ _ Hv) as Ht.
    destruct (is_empty _); [done|]. destruct (_ && _); [|by intros [= <-]].
    destruct (userinfo t) as [info|]; [|done]. cbn. destruct (negb _); [done|]. by intros [= <-]. }
  split; [exact Hi|]. intros next next' cx r w Hnone Hsame. unfold authenticate.
  destruct (negb _); [apply Hsame; by rewrite Hnone|].
  destruct (oidc_authenticate verify userinfo r) as [i|] eqn:E; [|done].
  assert (Hl : seqb (id_Issuer i) ModeLocal = false).
  { rewrite (Hi _ _ E). apply seqb_false. intros F. rewrite F in Hissuer. discriminate Hissuer. }
  rewrite Hl. unfold wbind, clock, store_call, run_tx.
  destruct (ResolveOIDCIdentity _ _ _ _) as [[access d]|[]]; try done;
    try (destruct (negb _); [done|]); apply Hsame; by intros p [= <-].
Qed.
End guarantees.

(** ** A production environment *)

Definition environment_of (values : list (string * string)) (name : string) : string :=
  match List.find (λ nv, seqb nv.1 name) values with Some (_, v) => v | None => "" end.
Definition production_environment : string → string := environment_of
  [("PORT", "8080"); ("TRAJECTORY_ENVIRONMENT", "production");
   ("TRAJECTORY_DATABASE_URL", "postgres://runtime@example.invalid/trajectory?sslmode=require");
   ("TRAJECTORY_ALLOWED_ORIGINS", "https://admin.example.com, tauri://localhost,https://admin.example.com");
   ("TRAJECTORY_BLOB_BACKEND", "r2"); ("TRAJECTORY_R2_ENDPOINT", "https://account.r2.cloudflarestorage.com");
   ("TRAJECTORY_R2_BUCKET", "datatrains-production"); ("TRAJECTORY_R2_ACCESS_KEY_ID", "access-key");
   ("TRAJECTORY_R2_SECRET_ACCESS_KEY", "secret-key"); ("TRAJECTORY_OIDC_ISSUER", "https://identity.example.com/");
   ("TRAJECTORY_OIDC_AUDIENCE", "datatrains-api"); ("TRAJECTORY_UPLOAD_AUTHORIZATION_TTL", "20m30s")].
Definition sample_url (url : string) : option database_url :=
  Some {| du_Scheme := "postgres"; du_Host := "example.invalid"; du_User := true; du_SSLMode := "require" |}.

Example production_loads :
  (λ c, (ac_Address c, ac_AllowedOrigins c, ac_UploadAuthorizationTTL c, cm_OIDCIssuer (ac_Common c)))
    <$> match loadAPI sample_url production_environment with Ok c => Some c | Err _ => None end =
  Some ("0.0.0.0:8080", ["https://admin.example.com"; "tauri://localhost"], 1230 * second,
        "https://identity.example.com/").
Proof. vm_compute. reflexivity. Qed.

Lemma loaded_configuration_witness :
  ∃ config, loadAPI sample_url production_environment = Ok config ∧
    cm_BlobBackend (ac_Common config) = "r2" ∧ cm_AuthMode (ac_Common config) = "oidc".
Proof.
  destruct (loadAPI sample_url production_environment) as [config|e] eqn:H; [|vm_compute in H; discriminate H].
  exists config. split; [reflexivity|].
  destruct (loaded_configuration sample_url production_environment config H) as [Hp _].
  destruct Hp as (Hb & _ & _ & _ & _ & Ho & _); [|split; [exact Hb|exact Ho]].
  vm_compute in H. injection H as <-. reflexivity.
Defined.

(** A provider that verifies one token. *)
Definition sample_discover (issuer audience : string)
    : option ((string → option OIDCIdentity) * (string → option OIDCIdentity)) :=
  Some (λ token, if seqb token "good"
                 then Some {| id_Issuer := issuer; id_Subject := "ada"; id_Email := "ada@example.com";
                              id_Name := "Ada"; id_EmailVerified := true |}
                 else None, λ _, None).

Lemma production_never_local_witness :
  ∃ config authenticator,
    loadAPI sample_url production_environment = Ok config ∧
    NewAuthenticator sample_discover (cm_AuthMode (ac_Common config)) (cm_OIDCIssuer (ac_Common config))
      (cm_OIDCAudience (ac_Common config)) = Some authenticator ∧
    ∀ r i, authenticator r = Some i → id_Issuer i = "https://identity.example.com/".
Proof.
  destruct (loadAPI sample_url production_environment) as [config|e] eqn:H; [|vm_compute in H; discriminate H].
  assert (Hc : cm_Environment (ac_Common config) = EnvironmentProduction ∧
    cm_AuthMode (ac_Common config) = "oidc" ∧
    cm_OIDCIssuer (ac_Common config) = "https://identity.example.com/" ∧
    is_empty (TrimSpace (cm_OIDCAudience (ac_Common config))) = false)
    by (pose proof H as H'; vm_compute in H'; injection H' as <-; repeat split; reflexivity).
  destruct Hc as (Hprod & Hmode & Hissuer & Haudience).
  destruct (NewAuthenticator sample_discover (cm_AuthMode (ac_Common config)) (cm_OIDCIssuer (ac_Common config))
    (cm_OIDCAudience (ac_Common config))) as [authenticator|] eqn:Ha.
  - exists config, authenticator. split; [reflexivity|]. split; [exact Ha|]. rewrite <-Hissuer.
    destruct (production_never_local sample_url production_environment config (B := ())
      {| env_now _ := 7; env_meanwhile _ d := d; env_locked _ := ∅; env_random _ := None;
         env_randoms _ _ := None |} sample_discover authenticator H Hprod) as [Hi _]; [|exact Ha|exact Hi].
    intros issuer audience verify userinfo Hd token i Hv. injection Hd as <- <-.
    destruct (seqb token "good"); [injection Hv as <-; reflexivity|discriminate Hv].
  - rewrite Hmode, Hissuer in Ha. unfold NewAuthenticator, NewOIDC in Ha. rewrite Haudience in Ha.
    discriminate Ha.
Defined.
