(* ===== verification/Migrate.v ===== *)
(** * The migrations runner ([database/migrate.go])

    The scripts of a directory are executed in the order of their names, each in a
    transaction of its own that also records the script's checksum; a recorded script is
    never executed again and must not change.  What a script does to the database is
    PostgreSQL's, so that its execution on the rest of the state is a parameter; scripts
    do not write [schema_migrations].  The advisory lock makes the transactions of
    several runners follow each other, which the sequential steps here are. *)

From S2P Require Import Prelude Domain Schema Sha256 Files.

(** A checksum is not the empty text, which stands for a missing one. *)
Lemma sha256_hex_nonempty script : is_empty (sha256_hex script) = false.
Proof. destruct (sha256_hex_bytes script) as ([|b l] & Hl & -> & _); done. Qed.

Section migrate.
Context {S : Type} (exec : string → S → result string S).

(** [schema_migrations] (name to checksum, which old rows lack) and the rest. *)
Record migrated := { ms_applied : gmap string (option string); ms_state : S }.

Definition record_migration (name checksum : string) (state : S) (s : migrated) : migrated :=
  {| ms_applied := <[name := Some checksum]> (ms_applied s); ms_state := state |}.

(** The transaction of one script; a failure rolls it back. *)
Definition apply_migration (name script : string) (s : migrated) : result string migrated :=
  let checksum := sha256_hex script in
  match ms_applied s !! name with
  | Some stored =>
    if is_empty (default "" stored) then Ok (record_migration name checksum (ms_state s) s)
    else if negb (seqb (default "" stored) checksum)
    then Err ("migration " +:+ name +:+ " checksum mismatch: applied history is immutable")
    else Ok s
  | None =>
    match exec script (ms_state s) with
    | Ok state => Ok (record_migration name checksum state s)
    | Err e => Err ("apply migration " +:+ name +:+ ": " +:+ e)
    end
  end.

Fixpoint apply_all (read : string → result string string) (names : list string) (s : migrated)
    : option string * migrated :=
  match names with
  | [] => (None, s)
  | name :: rest =>
    match read name with
    | Err e => (Some ("read migration " +:+ name +:+ ": " +:+ e), s)
    | Ok script =>
      match apply_migration name script s with
      | Err e => (Some e, s)
      | Ok s => apply_all read rest s
      end
    end
  end.

(** An entry is a name and whether it is a directory. *)
Definition migration_names (entries : list (string * bool)) : list string :=
  sort_strings (map fst (List.filter (λ e, negb e.2 && seqb (Ext e.1) ".sql") entries)).

Definition Migrate (entries : result string (list (string * bool))) (read : string → result string string)
    (s : migrated) : option string * migrated :=
  match entries with
  | Err e => (Some ("read migrations directory: " +:+ e), s)
  | Ok entries => apply_all read (migration_names entries) s
  end.

(** ** What a run does *)

(** The scripts that are still to be executed, one after the other. *)
Fixpoint exec_all (read : string → result string string) (names : list string) (state : S) : result string S :=
  match names with
  | [] => Ok state
  | name :: rest =>
    result_bind (λ script, result_bind (exec_all read rest) (exec script state)) (read name)
  end.
Definition pending (s : migrated) (names : list string) : list string :=
  filter (λ name, ms_applied s !! name = None) names.

(** The record has the checksum of the script that is there now. *)
Definition recorded (read : string → result string string) (s : migrated) (name : string) : Prop :=
  ∃ script, read name = Ok script ∧ ms_applied s !! name = Some (Some (sha256_hex script)).

Lemma apply_migration_ok name script s s' :
  apply_migration name script s = Ok s' →
  ms_applied s' !! name = Some (Some (sha256_hex script)) ∧
  (∀ k, k ≠ name → ms_applied s' !! k = ms_applied s !! k) ∧
  (if bool_decide (ms_applied s !! name = None) then exec script (ms_state s) = Ok (ms_state s')
   else ms_state s' = ms_state s).
Proof using Type.
  unfold apply_migration, record_migration. destruct (ms_applied s !! name) as [stored|] eqn:E.
  - rewrite bool_decide_eq_false_2 by done. destruct (is_empty _).
    + intros [= <-]. cbn. rewrite lookup_insert_eq. split; [done|]. split; [|done].
      intros k Hk. by rewrite lookup_insert_ne.
    + destruct (seqb _ _) eqn:F; cbn; [|done]. intros [= <-]. split; [|done].
      apply seqb_true in F. destruct stored as [c|]; cbn in F; [by subst|].
      pose proof (sha256_hex_nonempty script) as Hn. by rewrite <-F in Hn.
  - rewrite bool_decide_eq_true_2 by done. destruct (exec _ _) as [x|]; [|done]. intros [= <-]. cbn.
    rewrite lookup_insert_eq. split; [done|]. split; [|done]. intros k Hk. by rewrite lookup_insert_ne.
Qed.

Lemma pending_ext s1 s names :
  (∀ k, k ∈ names → ms_applied s1 !! k = ms_applied s !! k) → pending s1 names = pending s names.
Proof using Type.
  induction names as [|k names IH]; intros H; [done|]. unfold pending in *.
  assert (Hk : ms_applied s1 !! k = ms_applied s !! k) by (apply H; left).
  rewrite !filter_cons, IH by (intros j Hj; apply H; by right). by repeat case_decide; congruence.
Qed.

Lemma apply_all_ok read names s s' :
  NoDup names → apply_all read names s = (None, s') →
  (∀ name, name ∈ names → recorded read s' name) ∧
  (∀ k, k ∉ names → ms_applied s' !! k = ms_applied s !! k) ∧
  exec_all read (pending s names) (ms_state s) = Ok (ms_state s').
Proof using Type.
  intros Hnd. revert s. induction Hnd as [|name names Hn Hnd IH]; intros s; cbn [apply_all].
  { intros [= <-]. split; [by intros k ?%elem_of_nil|]. by split. }
  destruct (read name) as [script|] eqn:Hr; [|done].
  destruct (apply_migration name script s) as [s1|] eqn:Ha; [|done]. intros Hrun.
  apply apply_migration_ok in Ha as (H1 & H2 & H3). destruct (IH _ Hrun) as (I1 & I2 & I3).
  assert (Hp : pending s1 names = pending s names).
  { apply pending_ext. intros k Hk. apply H2. by intros ->. }
  split; [|split].
  - intros k [->|Hk]%elem_of_cons; [|by apply I1]. exists script. split; [done|]. by rewrite I2.
  - intros k [Hk Hks]%not_elem_of_cons. by rewrite I2, H2.
  - unfold pending at 1. rewrite filter_cons. rewrite Hp in I3.
    destruct (bool_decide (ms_applied s !! name = None)) eqn:E.
    + apply bool_decide_eq_true in E. rewrite decide_True by done. cbn. rewrite Hr. cbn. rewrite H3. exact I3.
    + apply bool_decide_eq_false in E. rewrite decide_False by done. rewrite <-H3. exact I3.
Qed.

Lemma apply_all_recorded read names s :
  (∀ name, name ∈ names → recorded read s name) → apply_all read names s = (None, s).
Proof using Type.
  induction names as [|name names IH]; intros H; [done|]. cbn.
  destruct (H name) as (script & -> & Hc); [left|]. unfold apply_migration. rewrite Hc. cbn.
  rewrite sha256_hex_nonempty, (proj2 (seqb_true _ _) eq_refl). cbn. apply IH.
  intros k Hk. apply H. by right.
Qed.
End migrate.

(** C34: every migration is applied once, in the order of the names.  After a run that
    succeeds every script of the directory is recorded with its checksum, nothing else
    is recorded, and the database is what the scripts that were not recorded before make
    of it, executed one after the other; running again changes nothing. *)
Theorem migrations_applied_once {S} (exec : string → S → result string S) entries read (s s' : migrated) :
  NoDup (migration_names entries) → Migrate exec (Ok entries) read s = (None, s') →
  (∀ name, name ∈ migration_names entries → recorded read s' name) ∧
  (∀ k, k ∉ migration_names entries → ms_applied s' !! k = ms_applied s !! k) ∧
  exec_all exec read (pending s (migration_names entries)) (ms_state s) = Ok (ms_state s') ∧
  StronglySorted String.le (migration_names entries) ∧
  Migrate exec (Ok entries) read s' = (None, s').
Proof.
  intros Hnd Hrun. cbn [Migrate] in *. destruct (apply_all_ok _ _ _ _ _ Hnd Hrun) as (H1 & H2 & H3).
  split; [done|]. split; [done|]. split; [done|]. split; [apply sort_strings_sorted|].
  by apply apply_all_recorded.
Qed.

Lemma apply_all_keeps {S} (exec : string → S → result string S) read names s x s' name c :
  apply_all exec read names s = (x, s') → ms_applied s !! name = Some (Some c) → c ≠ "" →
  ms_applied s' !! name = Some (Some c) ∧
  (x = None → name ∈ names → ∃ script, read name = Ok script ∧ sha256_hex script = c).
Proof.
  revert s. induction names as [|n names IH]; intros s; cbn [apply_all].
  { intros [= <- <-] H _. split; [done|]. by intros _ ?%elem_of_nil. }
  intros Hrun Hs Hc. destruct (read n) as [script|] eqn:Hr; [|by injection Hrun as <- <-].
  destruct (apply_migration exec n script s) as [s1|e] eqn:Ha; [|by injection Hrun as <- <-].
  assert (Hs1 : ms_applied s1 !! name = Some (Some c) ∧ (n = name → sha256_hex script = c)).
  { pose proof (apply_migration_ok _ _ _ _ _ Ha) as (H1 & H2 & _).
    destruct (decide (name = n)) as [->|Hne]; [|split; [by rewrite H2|by intros ->]].
    unfold apply_migration in Ha. rewrite Hs in Ha. cbn in Ha. destruct (is_empty c) eqn:E.
    { by apply is_empty_true in E. }
    destruct (seqb c _) eqn:F; [|done]. cbn in Ha. apply seqb_true in F. rewrite H1, <-F. done. }
  destruct Hs1 as [Hs1 Hn]. destruct (IH _ Hrun Hs1 Hc) as [I1 I2]. split; [done|].
  intros Hx [->|Hin]%elem_of_cons; [|by apply I2]. exists script. split; [done|by apply Hn].
Qed.

(** Applied history is immutable.  The checksum of a recorded migration is never
    replaced, and a run over a directory in which the script of that migration was
    changed fails. *)
Theorem migration_history_immutable {S} (exec : string → S → result string S) entries read (s s' : migrated) x name c :
  Migrate exec entries read s = (x, s') → ms_applied s !! name = Some (Some c) → c ≠ "" →
  ms_applied s' !! name = Some (Some c) ∧
  (∀ l script, entries = Ok l → name ∈ migration_names l → read name = Ok script → sha256_hex script ≠ c →
   x ≠ None).
Proof.
  intros Hrun Hs Hc. destruct entries as [l|e]; cbn in Hrun; [|by injection Hrun as <- <-].
  destruct (apply_all_keeps _ _ _ _ _ _ _ _ Hrun Hs Hc) as [H1 H2]. split; [done|].
  intros l' script [= <-] Hin Hr Hne ->. destruct (H2 eq_refl Hin) as (script' & Hr' & Hc'). congruence.
Qed.

(** ** A directory of two scripts *)

Definition sample_entries : list (string * bool) :=
  [("README.md", false); ("002_b.sql", false); ("001_a.sql", false); ("old.sql", true)].
Definition sample_read (name : string) : result string string := Ok ("-- " +:+ name).
Definition sample_exec (script : string) (log : list string) : result string (list string) := Ok (log ++ [script])%list.
Definition fresh : migrated (S := list string) := {| ms_applied := ∅; ms_state := [] |}.

Lemma migrations_applied_once_witness :
  ∃ s', Migrate sample_exec (Ok sample_entries) sample_read fresh = (None, s') ∧
    ms_state s' = ["-- 001_a.sql"; "-- 002_b.sql"] ∧
    Migrate sample_exec (Ok sample_entries) sample_read s' = (None, s').
Proof.
  destruct (Migrate sample_exec (Ok sample_entries) sample_read fresh) as [x s'] eqn:H.
  assert (x = None) as ->
    by (pose proof (f_equal fst H) as E; vm_compute in E; symmetry; exact E).
  exists s'. split; [reflexivity|].
  destruct (migrations_applied_once sample_exec sample_entries sample_read fresh s') as (_ & _ & He & _ & Hagain);
    [apply (bool_decide_eq_true_1 _); vm_compute; reflexivity|exact H|].
  split; [|exact Hagain]. pose proof (f_equal (λ r, match r with Ok l => l | Err _ => [] end) He) as E.
  cbv beta iota in E. rewrite <-E. vm_compute. reflexivity.
Defined.

Lemma migration_history_immutable_witness :
  ∃ x s', Migrate sample_exec (Ok sample_entries) sample_read
      {| ms_applied := {["001_a.sql" := Some "other"]}; ms_state := [] |} = (x, s') ∧
    x ≠ None ∧ ms_applied s' !! "001_a.sql" = Some (Some "other").
Proof.
  set (s := {| ms_applied := _; ms_state := _ |}).
  destruct (Migrate sample_exec (Ok sample_entries) sample_read s) as [x s'] eqn:H.
  exists x, s'. split; [reflexivity|].
  destruct (migration_history_immutable sample_exec (Ok sample_entries) sample_read s s' x "001_a.sql" "other")
    as [H1 H2]; [exact H|reflexivity|discriminate|]. split; [|exact H1].
  apply (H2 sample_entries "-- 001_a.sql"); [reflexivity| |reflexivity|vm_compute; discriminate].
  apply (bool_decide_eq_true_1 _). vm_compute. reflexivity.
Defined.
