(* ===== verification/Commands.v ===== *)
(** * The programs ([cmd/])

    How the commands put the components together: opening the stores and building
    the worker, the loop of [cmd/worker] over [Processor.ProcessNext] with its drain
    mode, the start and the shutdown of [cmd/api], and the two one-shot commands.
    Signals, the subprocess search path, the connection pool and the HTTP listener
    are parameters. *)

From S2P Require Import Prelude Domain Schema Frame Text Blob R2 Store Validator Pipeline Redaction Media Erasure Retention Steps Worker Turns Identity Campaign System Config Migrate Encoding Json Http.

(** ** The loop of the worker *)

Inductive log_entry :=
| LogStarted (workerID environment : string)
| LogSnapshot (snapshot : QueueSnapshot)
| LogFailed (cause : string)
| LogStopped (reason : string).

(** Whether a signal had arrived by the n-th interaction, and whether one ends the
    sleep that follows it. *)
Record signals := { sg_done : nat → bool; sg_wakes : nat → bool }.

Section loop.
Context {B : Type} (env : environment) (sig : signals).
(** The turn of the processor, and which errors are those of a cancelled context. *)
Variables (turn : string → W B (bool * option string)) (cancelled : string → bool).

Definition logQueueSnapshot : W B log_entry :=
  let* now := clock env in
  let* snapshot := store_read env (λ d, GetQueueSnapshot d now) in
  wret (LogSnapshot snapshot).

(** One round of the [for]: what it logs and, when it returns, the reason. *)
Definition worker_round (workerID : string) (drain : bool) : W B (list log_entry * option string) :=
  let* outcome := turn workerID in
  let failed := match (outcome : bool * option string).2 with
                | Some e => if cancelled e then [] else [LogFailed e]
                | None => []
                end in
  let* n := (λ w, (w_tick w, w)) in
  if sg_done sig n then wret (failed ++ [LogStopped "signal"], Some "signal")
  else if outcome.1 then wret (failed, None)
  else if drain then
    let* snapshot := logQueueSnapshot in
    wret (failed ++ [snapshot; LogStopped "drained"], Some "drained")
  else if sg_wakes sig n then wret (failed ++ [LogStopped "signal"], Some "signal")
  else wret (failed, None).

(** The rounds until one returns; [None] when the fuel ends before. *)
Fixpoint worker_rounds (workerID : string) (drain : bool) (fuel : nat)
    : W B (list log_entry * option string) :=
  match fuel with
  | O => wret ([], None)
  | S fuel =>
    let* round := worker_round workerID drain in
    match (round : list log_entry * option string).2 with
    | Some reason => wret round
    | None =>
      let* rest := worker_rounds workerID drain fuel in
      wret (round.1 ++ (rest : list log_entry * option string).1, rest.2)
    end
  end.
End loop.

(** ** An empty turn means empty queues *)

(** The computation never fails with [e]. *)
Definition never {A} (e : error) (m : tx A) : Prop := ∀ d, m d ≠ Err e.

Section never.
Context (e : error).
Lemma never_bind {A C} (m : tx A) (k : A → tx C) :
  never e m → (∀ a, never e (k a)) → never e (bind m k).
Proof using Type.
  intros Hm Hk d H. unfold bind in H. destruct (m d) as [[a d1]|e'] eqn:E; [by apply Hk in H|].
  injection H as ->. by apply Hm in E.
Qed.
Lemma never_ret {A} (a : A) : never e (ret a).
Proof using Type. by intros d. Qed.
Lemma never_get : never e get.
Proof using Type. by intros d. Qed.
Lemma never_modify f : never e (modify f).
Proof using Type. by intros d. Qed.
Lemma never_fail_if c e' : e' ≠ e → never e (fail_if c e').
Proof using Type. intros Hn d. unfold fail_if. destruct c; [|done]. by intros [=]. Qed.
Lemma never_some_or {A} (o : option A) e' : e' ≠ e → never e (some_or o e').
Proof using Type. intros Hn d. unfold some_or. destruct o; [done|]. by intros [=]. Qed.
Lemma never_lift {A} (r : res A) : r ≠ Err e → never e (lift r).
Proof using Type. intros Hn d. unfold lift. destruct r; [done|]. by intros [= ->]. Qed.
End never.

Ltac never_step :=
  match goal with
  | |- never _ (bind _ _) => apply never_bind; [|intros ?]
  | |- never _ (ret _) => apply never_ret
  | |- never _ get => apply never_get
  | |- never _ (modify _) => apply never_modify
  | |- never _ (fail_if _ _) => apply never_fail_if; discriminate
  | |- never _ (some_or _ _) => apply never_some_or; discriminate
  | |- never _ (lift (Transition _ _)) =>
    apply never_lift; unfold Transition; repeat case_match; discriminate
  | |- never _ (let _ := _ in _) => cbv zeta
  | |- never _ (match ?x with _ => _ end) => destruct x
  | |- never _ ?m => let h := head_of m in unfold h
  end.
Ltac never_all := repeat (never_step; cbv beta zeta).

(** What the query of a claim found when the claim says that there is nothing. *)
Lemma some_or_never {A C} (o : option A) e (k : A → tx C) d :
  (∀ a, never e (k a)) → bind (some_or o e) k d = Err e → o = None.
Proof. intros Hk. rewrite bind_some_or. destruct o; [|done]. by intros ?%Hk. Qed.

Lemma claim_validation_idle workerID leaseDuration now locked d :
  ClaimValidationJob workerID leaseDuration now locked d = Err ErrNoJobAvailable →
  ∀ k j, processing_jobs d !! k = Some j → k ∉ locked → validation_due now k j = false.
Proof.
  unfold ClaimValidationJob. rewrite bind_fail_if, bind_get. destruct (_ || _); [by intros [=]|].
  intros H%some_or_never; [by eapply first_due_none|]. intros [id j]. never_all.
Qed.

Lemma claim_redaction_idle workerID leaseDuration now locked d :
  ClaimRedactionJob workerID leaseDuration now locked d = Err ErrNoRedactionJob →
  ∀ k j, redaction_jobs d !! k = Some j → k ∉ locked → redaction_due now k j = false.
Proof.
  unfold ClaimRedactionJob. rewrite bind_fail_if, bind_get. destruct (_ || _); [by intros [=]|].
  intros H%some_or_never; [by eapply first_due_none|]. intros [id j]. never_all.
Qed.

Lemma claim_deletion_idle workerID leaseDuration now locked d :
  ClaimDeletionRequest workerID leaseDuration now locked d = Err ErrNoDeletionRequest →
  ∀ k q, deletion_requests d !! k = Some q → has_row (sessions d) (del_session_id q) = true →
    k ∉ locked → deletion_due now k q = false.
Proof.
  unfold ClaimDeletionRequest. rewrite bind_get. rewrite bind_some_or.
  destruct (first_due _ _ _ _) as [[id q]|] eqn:E.
  - apply first_due_some in E as (_ & H & _). apply andb_true_iff in H as [_ H].
    unfold has_row in H. apply bool_decide_eq_true in H as [s Hs].
    cbv beta iota. rewrite bind_row_of, Hs. by repeat case_match.
  - intros _ k q Hk Hs Hl. rewrite first_due_none in E. specialize (E k q Hk Hl). cbv beta in E.
    by rewrite Hs, andb_true_r in E.
Qed.

Lemma claim_retention_idle workerID leaseDuration now locked d :
  ClaimRetentionPurge workerID leaseDuration now locked d = Err ErrNoRetentionPurge →
  ∀ k q, retention_purge_requests d !! k = Some q → k ∉ locked → purge_due now k q = false.
Proof.
  unfold ClaimRetentionPurge. rewrite bind_get.
  intros H%some_or_never; [by eapply first_due_none|]. intros [id q]. cbv zeta.
  never_step; [never_all|]. never_step; [|never_all].
  apply never_lift. unfold retentionStillEligible. cbv zeta. by repeat case_match.
Qed.

(** ** Turns that report nothing *)

Definition takes_up {B} (m : W B (bool * option string)) : Prop := ∀ w x w', m w = (x, w') → x.1 = true.

Lemma takes_up_ret {B} o : takes_up (B:=B) (wret (true, o)).
Proof. by intros w x w' [= <- _]. Qed.
Lemma takes_up_bind {B A} (m : W B A) k : (∀ a, takes_up (k a)) → takes_up (wbind m k).
Proof. intros Hk w x w'. unfold wbind. destruct (m w) as [a w1]. apply Hk. Qed.

Ltac takes_up_all :=
  repeat match goal with
  | |- takes_up (wret (true, _)) => apply takes_up_ret
  | |- takes_up (wbind _ _) => apply takes_up_bind; intros ?
  | |- takes_up (match ?x with _ => _ end) => destruct x
  | |- takes_up (let _ := _ in _) => cbv zeta
  end.

Section idle.
Context {B : Type} {HS : BlobStore B} (env : environment).
Context (Hidle : undisturbed env) (Hfree : ∀ n, env_locked env n = ∅).
Variables (validate : string → list Artifact → B → result string (string * list string) * B)
  (video : option ((reader → result string MediaInfo) *
                   (reader → list RedactionRegion → string * option string)))
  (store_text : error → string) (blob_text : blob_error → string) (json_error : string → string).

Lemma processValidation_takes_up job workerID :
  takes_up (processValidation env validate store_text blob_text json_error job workerID).
Proof using Type. unfold processValidation. takes_up_all. Qed.
Lemma run_deletion_takes_up request workerID :
  takes_up (run_deletion env store_text blob_text request workerID).
Proof using Type. unfold run_deletion. takes_up_all. Qed.
Lemma run_purge_takes_up request workerID :
  takes_up (run_purge env store_text blob_text request workerID).
Proof using Type. unfold run_purge. takes_up_all. Qed.

(** A part of a turn that reports nothing read one instant and found nothing due. *)
Definition found_nothing (nothing : time → db → Prop) (w w' : world B) : Prop :=
  (w_tick w < w_tick w')%nat ∧ nothing (env_now env (w_tick w)) (w_db w').

Definition no_validation_due (now : time) (d : db) : Prop :=
  ∀ k j, processing_jobs d !! k = Some j → validation_due now k j = false.
Definition no_redaction_due (now : time) (d : db) : Prop :=
  ∀ k j, redaction_jobs d !! k = Some j → redaction_due now k j = false.
Definition no_deletion_due (now : time) (d : db) : Prop :=
  ∀ k q, deletion_requests d !! k = Some q → has_row (sessions d) (del_session_id q) = true →
    deletion_due now k q = false.
Definition no_purge_due (now : time) (d : db) : Prop :=
  ∀ k q, retention_purge_requests d !! k = Some q → purge_due now k q = false.

Ltac first_claim :=
  unfold wbind at 1, clock at 1; unfold wbind at 1;
  rewrite (store_call_idle env Hidle); cbn [w_db w_tick w_blobs w_next_sweep]; unfold run_tx.

(** The rest of a turn takes up what was claimed. *)
Ltac claimed :=
  match goal with
  | |- ?m ?w0 = ((false, None), _) → _ =>
    let H := fresh in
    assert (H : takes_up m) by takes_up_all; intros ?%H; done
  end.

Lemma processRedaction_idle workerID inspect redact (w : world B) w' :
  processRedaction env store_text blob_text workerID inspect redact w = ((false, None), w') →
  w_db w' = w_db w ∧ found_nothing no_redaction_due w w'.
Proof using Hidle Hfree.
  unfold processRedaction. first_claim. rewrite Hfree.
  destruct (ClaimRedactionJob _ _ _ _ _) as [[job d1]|e] eqn:E; [claimed|].
  destruct e; unfold wret; try (by intros [=]). intros [= <-]. cbn.
  split; [done|]. split; [cbn; lia|]. intros k j Hj.
  by eapply claim_redaction_idle in E.
Qed.

Lemma processDeletion_idle workerID (w : world B) w' :
  processDeletion env store_text blob_text workerID w = ((false, None), w') →
  w_db w' = w_db w ∧ found_nothing no_deletion_due w w'.
Proof using Hidle Hfree.
  unfold processDeletion. first_claim. rewrite Hfree.
  destruct (ClaimDeletionRequest _ _ _ _ _) as [[request d1]|e] eqn:E.
  { by intros ?%run_deletion_takes_up. }
  destruct e; unfold wret; try (by intros [=]). intros [= <-]. cbn.
  split; [done|]. split; [cbn; lia|]. intros k q Hq Hs.
  by eapply claim_deletion_idle in E.
Qed.

Definition other_queues (d : db) := (sessions d, processing_jobs d, redaction_jobs d, deletion_requests d).

Lemma sweep_keeps workerID now (w : world B) x w' :
  sweep env store_text workerID now w = (x, w') →
  other_queues (w_db w') = other_queues (w_db w) ∧ (w_tick w ≤ w_tick w')%nat.
Proof using Hidle.
  unfold sweep. unfold wbind at 1, next_sweep at 1. destruct (_ || _).
  - unfold wbind at 1. rewrite (store_call_idle env Hidle). unfold run_tx.
    destruct (QueueExpiredRetention _ _ _ _ _) as [[n d1]|e] eqn:E.
    + intros [= _ <-]. cbn. split; [|lia]. refine (keeps_ok _ _ _ _ _ _ E).
      unfold keeps, other_queues. respects_all. apply respects_queue_candidates; [apply _|].
      intros. respects_all.
    + intros [= _ <-]. cbn. split; [done|lia].
  - intros [= _ <-]. done.
Qed.

Lemma processRetention_idle workerID (w : world B) w' :
  processRetention env store_text blob_text workerID w = ((false, None), w') →
  other_queues (w_db w') = other_queues (w_db w) ∧ found_nothing no_purge_due w w'.
Proof using Hidle Hfree.
  unfold processRetention. unfold wbind at 1, clock at 1. unfold wbind at 1.
  destruct (sweep _ _ _ _ _) as [failed w1] eqn:Es. apply sweep_keeps in Es as [Hk Ht].
  cbn in Hk, Ht. destruct failed; [by intros [=]|]. unfold wbind at 1.
  rewrite (store_call_idle env Hidle), Hfree. unfold run_tx.
  destruct (ClaimRetentionPurge _ _ _ _ _) as [[request d1]|e] eqn:E.
  { by intros ?%run_purge_takes_up. }
  destruct e; unfold wret; try (by intros [=]). intros [= <-]. cbn.
  split; [done|]. split; [cbn; lia|]. intros k q Hq. by eapply claim_retention_idle in E.
Qed.

(** Nothing is due in any queue the worker serves. *)
Definition nothing_due (redacts : bool) (now : time) (d : db) : Prop :=
  no_validation_due now d ∧ (redacts = true → no_redaction_due now d) ∧
  no_deletion_due now d ∧ no_purge_due now d.

Lemma queue_due_earlier state available expires now now' :
  now ≤ now' → queue_due state available expires now' = false → queue_due state available expires now = false.
Proof using Type.
  intros Hn. unfold queue_due. rewrite !orb_false_iff, !andb_false_iff.
  intros [[H1|H1] [H2|H2]]; split; auto; right; destruct expires; try done; lia.
Qed.

Context (Hclock : ∀ m n, (m ≤ n)%nat → env_now env m ≤ env_now env n).

Lemma found_validation (w w' : world B) now d :
  now ≤ env_now env (w_tick w) → processing_jobs (w_db w') = processing_jobs d →
  found_nothing no_validation_due w w' → no_validation_due now d.
Proof using Type.
  intros Hn Hd [_ H] k j Hj. rewrite <-Hd in Hj. specialize (H k j Hj). unfold validation_due in *.
  apply andb_false_iff in H as [->|H]; [done|]. by rewrite (queue_due_earlier _ _ _ _ _ Hn H), andb_false_r.
Qed.
Lemma found_redaction (w w' : world B) now d :
  now ≤ env_now env (w_tick w) → redaction_jobs (w_db w') = redaction_jobs d →
  found_nothing no_redaction_due w w' → no_redaction_due now d.
Proof using Type.
  intros Hn Hd [_ H] k j Hj. rewrite <-Hd in Hj. by eapply queue_due_earlier, H.
Qed.
Lemma found_deletion (w w' : world B) now d :
  now ≤ env_now env (w_tick w) → sessions (w_db w') = sessions d →
  deletion_requests (w_db w') = deletion_requests d →
  found_nothing no_deletion_due w w' → no_deletion_due now d.
Proof using Type.
  intros Hn Hs Hd [_ H] k q Hq Hr. rewrite <-Hd in Hq. rewrite <-Hs in Hr.
  exact (queue_due_earlier _ _ _ _ _ Hn (H k q Hq Hr)).
Qed.

(** [if err != nil || processed { return processed, err }] *)
Lemma not_handled (m k : W B (bool * option string)) w w' :
  wbind m (λ o, if handled o then wret o else k) w = ((false, None), w') →
  ∃ w1, m w = ((false, None), w1) ∧ k w1 = ((false, None), w').
Proof using Type.
  unfold wbind. destruct (m w) as [[p e] w1]. destruct p; [by intros [=]|].
  destruct e; [by intros [=]|]. eauto.
Qed.

Lemma idle_turn_empty workerID (w w' : world B) now :
  now ≤ env_now env (w_tick w) →
  idle_turn env video store_text blob_text workerID w = ((false, None), w') →
  other_queues (w_db w') = other_queues (w_db w) ∧
  (bool_decide (is_Some video) = true → no_redaction_due now (w_db w')) ∧
  no_deletion_due now (w_db w') ∧ no_purge_due now (w_db w').
Proof using Hidle Hfree Hclock.
  intros Hn (w1 & E1 & (w2 & E2 & E3)%not_handled)%not_handled.
  apply processDeletion_idle in E2 as [Hd2 Hf2]. apply processRetention_idle in E3 as [Hk Hf3].
  assert (H1 : w_db w1 = w_db w ∧ (w_tick w ≤ w_tick w1)%nat ∧
    (bool_decide (is_Some video) = true → found_nothing no_redaction_due w w1)).
  { destruct video as [[inspect redact]|].
    - apply processRedaction_idle in E1 as [Hd Hf]. split; [done|]. split; [destruct Hf; lia|done].
    - injection E1 as <-. split; [done|]. by split; [lia|]. }
  destruct H1 as (Hd1 & Ht1 & Hf1). assert (Hk' := Hk). injection Hk' as Ks Kj Kr Kd.
  pose proof (Hclock _ _ Ht1). pose proof (proj1 Hf2) as Ht2.
  pose proof (Hclock (w_tick w) (w_tick w2) ltac:(lia)).
  split; [by rewrite Hk, Hd2, Hd1|]. split; [|split].
  - intros Hv. refine (found_redaction w w1 now _ Hn _ (Hf1 Hv)). by rewrite Kr, Hd2.
  - refine (found_deletion w1 w2 now _ _ _ _ Hf2); [lia|by rewrite Ks|by rewrite Kd].
  - intros k q Hq. refine (queue_due_earlier _ _ _ _ _ _ (proj2 Hf3 k q Hq)). lia.
Qed.

(** A turn that reports neither work nor an error found all queues empty. *)
Lemma idle_ProcessNext workerID (w w' : world B) :
  ProcessNext env validate video store_text blob_text json_error workerID w = ((false, None), w') →
  nothing_due (bool_decide (is_Some video)) (env_now env (w_tick w)) (w_db w').
Proof using Hidle Hfree Hclock.
  unfold ProcessNext. first_claim. rewrite Hfree.
  destruct (ClaimValidationJob _ _ _ _ _) as [[job d1]|e] eqn:E.
  { by intros ?%processValidation_takes_up. }
  destruct e; try (by intros [=]). intros H.
  apply (idle_turn_empty _ _ _ (env_now env (w_tick w))) in H as (Hk & Hr & Hd & Hp);
    [|cbn; apply Hclock; lia].
  injection Hk as _ Kj _ _. split; [|by split_and!]. intros k j Hj. rewrite Kj in Hj.
  by eapply claim_validation_idle in E.
Qed.
End idle.

(** ** The interactions of a turn are counted *)

Definition later {B} : relation (world B) := λ w w', (w_tick w ≤ w_tick w')%nat.
#[export] Instance later_preorder {B} : PreOrder (@later B).
Proof. split; unfold later; [intros w; lia|intros w1 w2 w3; lia]. Qed.

Create HintDb later discriminated.

Section later.
Context {B : Type} {HS : BlobStore B} (env : environment).
Lemma later_clock : does later (clock (B:=B) env).
Proof using Type. intros w x w' [= _ <-]. unfold later. cbn. lia. Qed.
Lemma later_store {A} (op : nat → tx A) : does later (store_call (B:=B) env op).
Proof using Type.
  intros w x w'. unfold store_call. destruct (run_tx _ _) as [r d]. intros [= _ <-].
  unfold later. cbn. lia.
Qed.
Lemma later_read {A} (query : db → A) : does later (store_read (B:=B) env query).
Proof using Type. intros w x w' [= _ <-]. unfold later. cbn. lia. Qed.
Lemma later_blob {A} (op : time → B → A * B) : does later (blob_call env op).
Proof using Type.
  intros w x w'. unfold blob_call. destruct (op _ _) as [a b]. intros [= _ <-].
  unfold later. cbn. lia.
Qed.
Lemma later_set_sweep t : does later (set_next_sweep (B:=B) t).
Proof using Type. intros w x w' [= _ <-]. unfold later. cbn. lia. Qed.
Lemma later_next_sweep : does later (next_sweep (B:=B)).
Proof using Type. intros w x w' [= _ <-]. unfold later. lia. Qed.
Lemma later_tick : does later (λ w : world B, (w_tick w, w)).
Proof using Type. intros w x w' [= _ <-]. unfold later. lia. Qed.
End later.
#[export] Hint Resolve later_clock later_store later_read later_blob later_set_sweep
  later_next_sweep later_tick : later.

Ltac later_step :=
  match goal with
  | |- does _ _ => solve [auto with later]
  | |- does _ (wbind _ _) => apply does_bind; [apply _| |intros ?]
  | |- does _ (wret _) => apply does_ret; apply _
  | |- does _ (match ?x with _ => _ end) => destruct x
  | |- does _ (let _ := _ in _) => cbv zeta
  | |- does _ ?m => let h := head_of m in unfold h
  end.

Section turn_later.
Context {B : Type} {HS : BlobStore B} (env : environment).
Variables (validate : string → list Artifact → B → result string (string * list string) * B)
  (video : option ((reader → result string MediaInfo) *
                   (reader → list RedactionRegion → string * option string)))
  (store_text : error → string) (blob_text : blob_error → string) (json_error : string → string).

Lemma later_purge_keys keys : does later (purge_keys env blob_text keys).
Proof using Type. induction keys as [|key keys IH]; cbn [purge_keys]; repeat later_step; exact IH. Qed.
Lemma later_render_segments inspect redact plan segments :
  does later (render_segments env blob_text inspect redact plan segments).
Proof using Type.
  induction segments as [|s segments IH]; cbn [render_segments]; repeat later_step; exact IH.
Qed.
Hint Resolve later_purge_keys later_render_segments : later.

Lemma later_ProcessNext workerID :
  does later (ProcessNext env validate video store_text blob_text json_error workerID).
Proof using Type. repeat later_step. Qed.
End turn_later.

(** ** A drained worker *)

Section drained.
Context {B : Type} {HS : BlobStore B} (env : environment) (sig : signals).
Context (Hidle : undisturbed env) (Hfree : ∀ n, env_locked env n = ∅).
Context (Hclock : ∀ m n, (m ≤ n)%nat → env_now env m ≤ env_now env n).
Variables (validate : string → list Artifact → B → result string (string * list string) * B)
  (video : option ((reader → result string MediaInfo) *
                   (reader → list RedactionRegion → string * option string)))
  (store_text : error → string) (blob_text : blob_error → string) (json_error : string → string).
Variables (cancelled : string → bool) (Hcancel : ∀ e, cancelled e = false).

Notation turn := (ProcessNext env validate video store_text blob_text json_error).

(** What the end of the log says of a worker that stopped as drained. *)
Definition failed_last (logs : list log_entry) : Prop :=
  ∃ before e snapshot, logs = before ++ [LogFailed e; snapshot; LogStopped "drained"].
Definition finished (now : time) (w : world B) : Prop :=
  ∃ later, now ≤ later ∧ nothing_due (bool_decide (is_Some video)) later (w_db w).

Lemma round_drained workerID (w : world B) logs w' :
  worker_round env sig turn cancelled workerID true w = ((logs, Some "drained"), w') →
  failed_last logs ∨ finished (env_now env (w_tick w)) w'.
Proof using All.
  unfold worker_round. unfold wbind at 1. destruct (turn workerID w) as [[took failed] w1] eqn:E.
  unfold wbind at 1. cbn [fst snd]. destruct (sg_done sig (w_tick w1)); [by intros [=]|].
  destruct took; [by intros [=]|]. unfold logQueueSnapshot, wbind, clock, store_read, wret.
  rewrite Hidle. intros [= <- <-]. destruct failed as [e|].
  - left. rewrite Hcancel. exists [], e. eexists. reflexivity.
  - right. eexists. split; [reflexivity|]. cbn. by eapply idle_ProcessNext.
Qed.

Lemma later_round workerID drain :
  does later (worker_round env sig turn cancelled workerID drain).
Proof using Type.
  unfold worker_round. apply does_bind; [apply _|apply later_ProcessNext|intros outcome].
  repeat later_step.
Qed.

Lemma failed_last_app l l' : failed_last l' → failed_last (l ++ l').
Proof using Type. intros (b & e & s & ->). exists (l ++ b), e, s. by rewrite (assoc_L (++)). Qed.

Lemma rounds_drained workerID fuel (w : world B) logs w' :
  worker_rounds env sig turn cancelled workerID true fuel w = ((logs, Some "drained"), w') →
  failed_last logs ∨ finished (env_now env (w_tick w)) w'.
Proof using All.
  revert w logs. induction fuel as [|fuel IH]; intros w logs; [by intros [=]|]. cbn [worker_rounds].
  unfold wbind at 1. destruct (worker_round _ _ _ _ _ _ w) as [[l [reason|]] w1] eqn:E; cbn [fst snd].
  - intros [= -> -> ->]. by eapply round_drained.
  - unfold wbind. destruct (worker_rounds _ _ _ _ _ _ fuel w1) as [[l' reason] w2] eqn:Er.
    intros [= <- -> ->]. apply later_round in E. destruct (IH _ _ Er) as [Hf|(t & Ht & Hn)].
    + left. by apply failed_last_app.
    + right. exists t. split; [|done]. etrans; [by apply Hclock, E|done].
Qed.
End drained.


(** ** Opening the stores *)

(** What [url.Parse] finds in the endpoint of an R2 account. *)
Record endpoint_url := {
  eu_Scheme : string; eu_Host : string; eu_User : bool; eu_Path : string; eu_RawQuery : string;
  eu_Fragment : string
}.

(** What the programs ask of their platform: the environment, the parsers of URLs,
    the connection pool (its default number of connections, its creation, a ping),
    the S3 client, the executables, the files and the schema compiler. *)
Record platform := {
  pf_getenv : string → string;
  pf_parse_url : string → option database_url;
  pf_parse_endpoint : string → option endpoint_url;
  pf_ParseConfig : string → result string Z;
  pf_NewWithConfig : string → Z → result string ();
  pf_Ping : string → Z → result string ();
  pf_LoadDefaultConfig : string → string → result string ();
  pf_LookPath : string → result string string;
  pf_ReadFile : string → result string string;
  pf_AddResource : json → result string ();
  pf_Compile : json → result string (json → option string);
  pf_json_error : string → string
}.

Record opened_pool := { op_URL : string; op_MaxConns : Z }.

#[local] Notation "'check' x := m 'in' k" := (result_bind (λ x, k) m)
  (at level 200, x name, m at level 100, k at level 200).
(** [fmt.Errorf(text + ": %w", err)] *)
Definition wrapped {A} (text : string) (r : result string A) : result string A :=
  match r with Ok a => Ok a | Err e => Err (text +:+ ": " +:+ e) end.

Section opening.
Context (pf : platform).

Definition OpenWithMaxConnections (databaseURL : string) (maximum : Z) : result string opened_pool :=
  check default_maximum := wrapped "configure database" (pf_ParseConfig pf databaseURL) in
  let maxConns := if 0 <? maximum then maximum else default_maximum in
  check _ := wrapped "configure database" (pf_NewWithConfig pf databaseURL maxConns) in
  check _ := wrapped "connect database" (pf_Ping pf databaseURL maxConns) in
  Ok {| op_URL := databaseURL; op_MaxConns := maxConns |}.

Record R2Config := { rk_Endpoint : string; rk_Bucket : string; rk_AccessKeyID : string; rk_SecretKey : string }.

Definition validateR2Config (config : R2Config) : result string string :=
  if is_empty (TrimSpace (rk_Endpoint config)) || is_empty (TrimSpace (rk_Bucket config))
     || is_empty (TrimSpace (rk_AccessKeyID config)) || is_empty (TrimSpace (rk_SecretKey config))
  then Err "R2 endpoint, bucket, access key ID, and secret key are required"
  else
    match pf_parse_endpoint pf (rk_Endpoint config) with
    | Some u =>
      if negb (seqb (eu_Scheme u) "https") || is_empty (eu_Host u) || eu_User u
         || (negb (is_empty (eu_Path u)) && negb (seqb (eu_Path u) "/"))
         || negb (is_empty (eu_RawQuery u)) || negb (is_empty (eu_Fragment u))
      then Err "R2 endpoint must be an HTTPS origin without credentials, a path, query, or fragment"
      else Ok (TrimSuffix (rk_Endpoint config) "/")
    | None => Err "R2 endpoint must be an HTTPS origin without credentials, a path, query, or fragment"
    end.

(** A store that was opened: a directory, or a bucket at an endpoint. *)
Inductive opened_store :=
| OpenedLocal (root : string)
| OpenedR2 (endpoint bucket : string).

Definition NewR2 (config : R2Config) : result string opened_store :=
  check endpoint := validateR2Config config in
  check _ := wrapped "load R2 client configuration"
               (pf_LoadDefaultConfig pf (rk_AccessKeyID config) (rk_SecretKey config)) in
  Ok (OpenedR2 endpoint (rk_Bucket config)).

(** [NewLocal] of [Blob] with the directory it makes; here its result. *)
Definition Open (newLocal : string → result string ()) (common : Common) : result string opened_store :=
  if seqb (cm_BlobBackend common) "local" then
    check _ := newLocal (cm_BlobRoot common) in Ok (OpenedLocal (cm_BlobRoot common))
  else if seqb (cm_BlobBackend common) "r2" then
    NewR2 {| rk_Endpoint := cm_R2Endpoint common; rk_Bucket := cm_R2Bucket common;
             rk_AccessKeyID := cm_R2AccessKeyID common; rk_SecretKey := cm_R2SecretAccessKey common |}
  else Err ("unsupported blob backend " +:+ quote +:+ cm_BlobBackend common +:+ quote).

(** ** Building the worker *)

Definition find_executable (fallback purpose executable : string) : result string string :=
  let executable := TrimSpace executable in
  let executable := if is_empty executable then fallback else executable in
  wrapped purpose (pf_LookPath pf executable).
Definition NewFFprobeInspector (executable : string) : result string string :=
  find_executable "ffprobe" "ffprobe is required for media inspection" executable.
Definition NewFFmpegRedactor (executable : string) : result string string :=
  find_executable "ffmpeg" "ffmpeg is required for video redaction" executable.

Definition NewValidator (schemaDocument : string) : result string (json → option string) :=
  match Parse schemaDocument with
  | None => Err ("decode trajectory schema: " +:+ pf_json_error pf schemaDocument)
  | Some document =>
    check _ := wrapped "load trajectory schema" (pf_AddResource pf (generic document)) in
    wrapped "compile trajectory schema" (pf_Compile pf (generic document))
  end.

(** What [run] of [cmd/worker] has built when it enters its loop. *)
Record built_worker := {
  bw_pool : opened_pool; bw_store : opened_store; bw_schema : json → option string;
  bw_ffprobe : string; bw_ffmpeg : string; bw_config : WorkerConfig
}.

(** The migrations of a program that runs them at its start. *)
Definition start_migrations {S} (migrate : string → migrated (S := S) → option string * migrated (S := S))
    (common : Common) (s : migrated (S := S)) : result string () * migrated (S := S) :=
  if cm_RunMigrations common then
    match migrate (cm_MigrationsDir common) s with
    | (None, s) => (Ok (), s)
    | (Some e, s) => (Err e, s)
    end
  else (Ok (), s).

(** [run] up to the loop: the configuration, the database, its migrations, then the
    rest; the database is as the migrations left it. *)
Definition start_worker {S} (newLocal : string → result string ())
    (migrate : string → migrated (S := S) → option string * migrated (S := S)) (s : migrated (S := S))
    : result string built_worker * migrated (S := S) :=
  match (check config := wrapped "load configuration" (loadWorker (pf_parse_url pf) (pf_getenv pf)) in
         let common := wc_Common config in
         check pool := OpenWithMaxConnections (cm_DatabaseURL common) (cm_DatabaseMaxConns common) in
         Ok (config, pool)) with
  | Err e => (Err e, s)
  | Ok (config, pool) =>
    let common := wc_Common config in
    let (migrations, s) := start_migrations migrate common s in
    (check _ := migrations in
     check blobs := Open newLocal common in
     check schemaDocument := pf_ReadFile pf (cm_SchemaPath common) in
     check ffprobe := NewFFprobeInspector (wc_FFprobePath config) in
     check ffmpeg := NewFFmpegRedactor (wc_FFmpegPath config) in
     check schema := NewValidator schemaDocument in
     Ok {| bw_pool := pool; bw_store := blobs; bw_schema := schema; bw_ffprobe := ffprobe;
           bw_ffmpeg := ffmpeg; bw_config := config |}, s)
  end.

(** ** The other programs *)

(** What [run] of [cmd/api] has built when it listens. *)
Record built_api := {
  ba_pool : opened_pool; ba_store : opened_store; ba_schema : string;
  ba_authenticator : http_request → option OIDCIdentity; ba_config : APIConfig
}.

Definition start_api {S} (newLocal : string → result string ())
    (migrate : string → migrated (S := S) → option string * migrated (S := S))
    (discover : string → string → option ((string → option OIDCIdentity) * (string → option OIDCIdentity)))
    (auth_error : string) (s : migrated (S := S)) : result string built_api * migrated (S := S) :=
  match (check config := wrapped "load configuration" (loadAPI (pf_parse_url pf) (pf_getenv pf)) in
         let common := ac_Common config in
         check pool := OpenWithMaxConnections (cm_DatabaseURL common) (cm_DatabaseMaxConns common) in
         Ok (config, pool)) with
  | Err e => (Err e, s)
  | Ok (config, pool) =>
    let common := ac_Common config in
    let (migrations, s) := start_migrations migrate common s in
    (check _ := migrations in
     check blobs := Open newLocal common in
     check authenticator := match NewAuthenticator discover (cm_AuthMode common) (cm_OIDCIssuer common)
                                    (cm_OIDCAudience common) with
                            | Some authenticator => Ok authenticator
                            | None => Err auth_error
                            end in
     check schemaDocument := pf_ReadFile pf (cm_SchemaPath common) in
     Ok {| ba_pool := pool; ba_store := blobs; ba_schema := schemaDocument;
           ba_authenticator := authenticator; ba_config := config |}, s)
  end.

(** How serving ends: the listener returns, or a signal asks for a shutdown, which
    may not finish in its time and is then forced, and the listener returns after it.
    [None] is [http.ErrServerClosed] or no error. *)
Inductive serving :=
| ListenerReturned (error : option string)
| ShutDown (unfinished : option string) (error : option string).

(** The log of the end and what [run] returns. *)
Definition stop_api (how : serving) : list string * option string :=
  match how with
  | ListenerReturned (Some e) => ([], Some e)
  | ListenerReturned None => (["api_stopped"], None)
  | ShutDown unfinished error =>
    let logged := match unfinished with Some _ => ["api_shutdown_failed"] | None => [] end in
    match error with
    | Some e => (logged, Some e)
    | None => (logged ++ ["api_stopped"], None)
    end
  end.

(** [cmd/migrate] *)
Definition run_migrate {S} (migrate : string → migrated (S := S) → option string * migrated (S := S))
    (s : migrated (S := S)) : option string * migrated (S := S) :=
  match (check config := wrapped "load configuration" (loadMigration (pf_parse_url pf) (pf_getenv pf)) in
         check _ := OpenWithMaxConnections (mg_DatabaseURL config) (mg_DatabaseMaxConns config) in
         Ok config) with
  | Err e => (Some e, s)
  | Ok config => migrate (mg_MigrationsDir config) s
  end.

(** [cmd/bootstrap-admin] *)
Definition run_bootstrap (store_text : error → string) (rRequest r1 r2 r3 : random) (now : time) (d : db)
    : result string (string * string) * db :=
  match (check config := wrapped "load configuration" (loadIdentityBootstrap (pf_parse_url pf) (pf_getenv pf)) in
         let migration := ib_Migration config in
         check _ := OpenWithMaxConnections (mg_DatabaseURL migration) (mg_DatabaseMaxConns migration) in
         check requestID := match New "req" rRequest with Ok i => Ok i | Err e => Err (store_text e) end in
         Ok (config, requestID)) with
  | Err e => (Err e, d)
  | Ok (config, requestID) =>
    match run_tx (BootstrapAdministrator
        {| ab_Issuer := ib_Issuer config; ab_Subject := ib_Subject config; ab_Email := ib_Email config;
           ab_DisplayName := ib_DisplayName config; ab_OrganizationName := ib_OrganizationName config |}
        requestID now r1 r2 r3) d with
    | (Ok result, d) => (Ok result, d)
    | (Err e, d) => (Err (store_text e), d)
    end
  end.

(** [main]: the exit status. *)
Definition exit_status {A} (r : result string A) : Z := match r with Ok _ => 0 | Err _ => 1 end.
End opening.

(** ** The worker program *)

Section program.
Context (pf : platform) {B : Type} {HS : BlobStore B} (env : environment) (sig : signals).
(** The store behind what was opened, the inspector and the redactor of executables,
    the errors of a cancelled context and the texts of errors. *)
Variables (connect : opened_store → B) (inspect : string → reader → result string MediaInfo)
  (redact : string → reader → list RedactionRegion → string * option string)
  (cancelled : string → bool) (store_text : error → string) (blob_text : blob_error → string).
Variables (newLocal : string → result string ())
  (migrate : string → migrated (S := db) → option string * migrated (S := db)).

(** The processor that was built. *)
Definition built_turn (b : built_worker) : string → W B (bool * option string) :=
  let inspector := inspect (bw_ffprobe b) in
  ProcessNext env (Validate (bw_schema b) (Some inspector) (pf_json_error pf) blob_text)
    (Some (inspector, redact (bw_ffmpeg b))) store_text blob_text (pf_json_error pf).

Definition built_world (b : built_worker) (s : migrated (S := db)) : world B :=
  {| w_db := ms_state s; w_blobs := connect (bw_store b); w_next_sweep := 0; w_tick := 0 |}.

(** [run] of [cmd/worker]: the log and the reason of the end, and the world it leaves;
    a program that does not start leaves the database alone, its migrations apart. *)
Definition run_worker (workerID : string) (fuel : nat) (s : migrated (S := db))
    : result string (list log_entry * option string * world B) * migrated (S := db) :=
  match start_worker pf newLocal migrate s with
  | (Err e, s) => (Err e, s)
  | (Ok b, s) =>
    let (snapshot, w) := logQueueSnapshot env (built_world b s) in
    let '(logs, reason, w) :=
      worker_rounds env sig (built_turn b) cancelled workerID (wc_Drain (bw_config b)) fuel w in
    (Ok (LogStarted workerID (cm_Environment (wc_Common (bw_config b))) :: snapshot :: logs, reason, w), s)
  end.

Lemma undrained_round turn workerID (w : world B) logs w' :
  worker_round env sig turn cancelled workerID false w = ((logs, Some "drained"), w') → False.
Proof using Type.
  unfold worker_round, wbind, wret. destruct (turn workerID w) as [[took failed] w1]. cbn.
  destruct (sg_done sig (w_tick w1)), took, (sg_wakes sig (w_tick w1)); by intros [=].
Qed.
Lemma undrained_rounds turn workerID fuel (w : world B) logs w' :
  worker_rounds env sig turn cancelled workerID false fuel w = ((logs, Some "drained"), w') → False.
Proof using Type.
  revert w logs. induction fuel as [|fuel IH]; intros w logs; [by intros [=]|]. cbn [worker_rounds].
  unfold wbind at 1. destruct (worker_round _ _ _ _ _ _ w) as [[l [reason|]] w1] eqn:E; cbn [fst snd].
  - intros [= -> -> ->]. by eapply undrained_round.
  - unfold wbind. destruct (worker_rounds _ _ _ _ _ _ fuel w1) as [[l' reason] w2] eqn:Er.
    intros [= <- -> ->]. by eapply IH.
Qed.

(** What a built worker has: the configuration that was loaded, the database migrated
    when it says so, the store of its backend, at least one connection. *)
Lemma start_worker_ok {S} migrate' (s s' : migrated (S := S)) b :
  start_worker pf newLocal migrate' s = (Ok b, s') →
  loadWorker (pf_parse_url pf) (pf_getenv pf) = Ok (bw_config b) ∧
  let common := wc_Common (bw_config b) in
  (if cm_RunMigrations common then migrate' (cm_MigrationsDir common) s = (None, s') else s' = s) ∧
  Open pf newLocal common = Ok (bw_store b).
Proof using Type.
  unfold start_worker, wrapped at 1. destruct (loadWorker _ _) as [config|] eqn:El; [|done]. cbn [result_bind].
  destruct (OpenWithMaxConnections _ _ _) as [pool|]; [|done]. cbn [result_bind].
  destruct (start_migrations _ _ _) as [m s1] eqn:Em. intros H. injection H as H ->.
  apply result_bind_ok in H as ([] & Hm & H). subst m. apply result_bind_ok in H as (blobs & Hb & H).
  apply result_bind_ok in H as (document & _ & H). apply result_bind_ok in H as (probe & _ & H).
  apply result_bind_ok in H as (mpeg & _ & H). apply result_bind_ok in H as (schema & _ & H).
  injection H as <-. cbn. split; [done|]. split; [|done]. unfold start_migrations in Em.
  destruct (cm_RunMigrations _); [|by injection Em as <-].
  destruct (migrate' _ _) as [[e|] s2]; [done|]. by injection Em as <-.
Qed.
End program.

(** C13: drained means drained.  A worker program in drain mode that other clients do not
    disturb and that stops saying that it drained the queues either reported the
    failure of its last turn just before, or left nothing behind: at an instant not
    before its start no validation job, redaction job, erasure or retention purge is
    due in the database it leaves.  Only a program configured to drain says so. *)
Theorem drained_worker_finished pf {B} `{BlobStore B} env sig connect inspect redact cancelled store_text
    blob_text newLocal migrate workerID fuel s logs (w' : world B) s' :
  undisturbed env → (∀ n, env_locked env n = ∅) →
  (∀ m n, (m ≤ n)%nat → env_now env m ≤ env_now env n) → (∀ e, cancelled e = false) →
  run_worker pf env sig connect inspect redact cancelled store_text blob_text newLocal migrate
    workerID fuel s = (Ok (logs, Some "drained", w'), s') →
  (∃ config, loadWorker (pf_parse_url pf) (pf_getenv pf) = Ok config ∧ wc_Drain config = true) ∧
  (failed_last logs ∨ ∃ now, env_now env 0 ≤ now ∧ nothing_due true now (w_db w')).
Proof.
  intros Hidle Hfree Hclock Hcancel. unfold run_worker.
  destruct (start_worker _ _ _ _) as [[b|] s1] eqn:Es; [|done]. apply start_worker_ok in Es as [Hl _].
  destruct (logQueueSnapshot _ _) as [snapshot w] eqn:Ew.
  destruct (worker_rounds _ _ _ _ _ _ _ _) as [[l reason] w1] eqn:Er. intros H1. injection H1 as <- -> -> _.
  destruct (wc_Drain (bw_config b)) eqn:Hd; [|by apply undrained_rounds in Er].
  split; [by exists (bw_config b)|]. apply rounds_drained in Er as [Hf|(t & Ht & Hn)]; [..|done|done|done|done].
  - left. by apply (failed_last_app [_; _]).
  - right. exists t. split; [|done]. etrans; [by apply (Hclock 0%nat (w_tick w)); lia|done].
Qed.

(** An erasure that the worker carries out before it stops. *)
Definition no_signal : signals := {| sg_done := λ _, false; sg_wakes := λ _, false |}.
Definition erasure_asked : db :=
  run (begin_session ++
    [RRequestSessionDeletion "sess_07" "asked to" "admin" "req" start (Some [x09])]) initial_db.
Definition is_failed (l : log_entry) : bool := match l with LogFailed _ => true | _ => false end.


(** A program on a platform where everything is found, which drains. *)
Definition sample_platform : platform :=
  {| pf_getenv := environment_of [("TRAJECTORY_WORKER_DRAIN", "true")]; pf_parse_url := sample_url;
     pf_parse_endpoint := λ _, None; pf_ParseConfig := λ _, Ok 4; pf_NewWithConfig := λ _ _, Ok ();
     pf_Ping := λ _ _, Ok (); pf_LoadDefaultConfig := λ _ _, Ok (); pf_LookPath := λ name, Ok ("/usr/bin/" +:+ name);
     pf_ReadFile := λ _, Ok "{}"; pf_AddResource := λ _, Ok (); pf_Compile := λ _, Ok (λ _, None);
     pf_json_error := λ t, t |}.
Definition sample_worker (fuel : nat) (d : db) :=
  run_worker (B := memory) sample_platform (at_instant (start + 10)) no_signal (λ _, ∅)
    (λ _, inspect_fixed) (λ _, blacken) (λ _, false) (λ _, "refused") (λ _, "") (λ _, Ok ())
    (λ _ s, (None, s)) "worker" fuel {| ms_applied := ∅; ms_state := d |}.

Lemma drained_worker_finished_witness :
  ∃ logs w' s', sample_worker 2 erasure_asked = (Ok (logs, Some "drained", w'), s') ∧
    del_state <$> deletion_requests (w_db w') !! "delete_09" = Some "completed" ∧
    ∃ now, start + 10 ≤ now ∧ nothing_due true now (w_db w').
Proof.
  assert (Hc : match (sample_worker 2 erasure_asked).1 with
               | Ok (logs, reason, w') =>
                 (reason, existsb is_failed logs, del_state <$> deletion_requests (w_db w') !! "delete_09")
               | Err _ => (None, true, None)
               end = (Some "drained", false, Some "completed")) by (vm_compute; reflexivity).
  destruct (sample_worker 2 erasure_asked) as [[[[logs reason] w']|e] s'] eqn:E; [|discriminate Hc].
  cbn [fst] in Hc. injection Hc as -> Hl Hd. exists logs, w', s'.
  split; [reflexivity|]. split; [exact Hd|].
  unfold sample_worker in E. apply drained_worker_finished in E;
    [|intros n d; reflexivity|intros n; reflexivity|intros; apply Z.le_refl|intros; reflexivity].
  destruct E as [_ [(b & x & s & ->)|(t & Ht & Hn)]]; [|by exists t].
  rewrite existsb_app, orb_true_r in Hl. discriminate Hl.
Defined.

(** The worker stops as drained with work left: a validation job whose session the
    contributor moved on cannot be claimed, the turn fails without having taken up
    anything, and drain mode takes that for an empty queue; the erasure that is due
    waits behind it. *)
Definition poisoned_db : db :=
  run (submit_validation ++ ask_transitions [SessionProcessing; SessionReadyForReview] ++
    [RRequestSessionDeletion "sess_07" "asked to" "admin" "req" (start + 5) (Some [x09])]) initial_db.

Definition stops_failed (logs : list log_entry) : bool :=
  match logs with [_; _; LogFailed _; _; LogStopped reason] => seqb reason "drained" | _ => false end.
Definition erasure_left (d : db) : bool :=
  match deletion_requests d !! "delete_09" with
  | Some q => deletion_due (start + 10) "delete_09" q
  | None => false
  end.

Theorem drained_with_work_left :
  reachable poisoned_db ∧
  ∃ logs w' s' q, sample_worker 1 poisoned_db = (Ok (logs, Some "drained", w'), s') ∧ failed_last logs ∧
    deletion_requests (w_db w') !! "delete_09" = Some q ∧
    deletion_due (start + 10) "delete_09" q = true ∧
    exit_status (sample_worker 1 poisoned_db).1 = 0.
Proof.
  split; [apply run_steps|].
  assert (Hc : match (sample_worker 1 poisoned_db).1 with
               | Ok (logs, reason, w') => (reason, stops_failed logs, erasure_left (w_db w'))
               | Err _ => (None, false, false)
               end = (Some "drained", true, true)) by (vm_compute; reflexivity).
  destruct (sample_worker 1 poisoned_db) as [[[[logs reason] w']|e] s']; [|discriminate Hc].
  cbn [fst] in Hc. injection Hc as -> Hl Hd. unfold erasure_left in Hd.
  destruct (deletion_requests (w_db w') !! "delete_09") as [q|] eqn:Hq; [|discriminate Hd].
  exists logs, w', s', q. split_and!; [done| |done|done|done].
  destruct logs as [|a [|b [|[] [|c [|[] []]]]]]; try discriminate Hl.
  apply seqb_true in Hl as ->. by exists [a; b], cause, c.
Qed.
