(* ===== verification/Drain.v ===== *)
(** * The worker drains its queues

    How many turns the worker of [Commands] can take.  A row of one of the four
    queues is good for so many turns: one for each attempt it has left of three and
    one for each lease that can run out while the worker runs.  Every turn that
    takes up a row uses one of them, so in drain mode the loop returns. *)

From S2P Require Import Prelude Domain Schema Frame Text Blob R2 Store Validator Pipeline Redaction Media Erasure Retention Steps Worker Turns Identity Campaign System Config Migrate Encoding Json Http Constraints Commands.

(** ** Rows of queues *)

(** What the queries of a queue read of a row. *)
Record entry := { en_state : string; en_available : time; en_attempt : Z; en_expires : option time }.

Inductive queue := QValidation | QRedaction | QErasure | QPurge.
#[export] Instance queue_eq_dec : EqDecision queue.
Proof. solve_decision. Defined.

Definition job_entry (j : processing_job_row) : entry :=
  {| en_state := job_state j; en_available := job_available_at j; en_attempt := job_attempt j;
     en_expires := job_lease_expires_at j |}.
Definition redaction_entry (j : redaction_job_row) : entry :=
  {| en_state := rjb_state j; en_available := rjb_available_at j; en_attempt := rjb_attempt j;
     en_expires := rjb_lease_expires_at j |}.
Definition erasure_entry (q : deletion_request_row) : entry :=
  {| en_state := del_state q; en_available := del_available_at q; en_attempt := del_attempt q;
     en_expires := del_lease_expires_at q |}.
Definition purge_entry (q : retention_purge_row) : entry :=
  {| en_state := prg_state q; en_available := prg_available_at q; en_attempt := prg_attempt q;
     en_expires := prg_lease_expires_at q |}.

Definition entries (q : queue) (d : db) : gmap string entry :=
  match q with
  | QValidation => job_entry <$> processing_jobs d
  | QRedaction => redaction_entry <$> redaction_jobs d
  | QErasure => erasure_entry <$> deletion_requests d
  | QPurge => purge_entry <$> retention_purge_requests d
  end.

Definition entry_due (now : time) (x : entry) : bool :=
  queue_due (en_state x) (en_available x) (en_expires x) now.
(** The queue never hands the row out. *)
Definition settled (x : entry) : Prop := en_state x ≠ "queued" ∧ en_state x ≠ "leased".
(** A failed attempt that is not the last. *)
Definition put_back (x x' : entry) : Prop :=
  en_state x = "leased" ∧ en_state x' = "queued" ∧ en_attempt x' = en_attempt x ∧
  en_attempt x < maxAttempts.

(** ** The turns a row is good for *)

(** The periods of length [p] that begin after [t] and not after [T], and one more. *)
Definition periods (p T t : Z) : nat := Z.to_nat ((T - t) / p + 1).

Lemma periods_next p T t now :
  0 < p → t ≤ now → now < T → (periods p T (now + p) < periods p T t)%nat.
Proof.
  intros Hp Ht HT. unfold periods.
  replace (T - (now + p)) with (T - now + (-1) * p) by ring. rewrite Z.div_add by lia.
  pose proof (Z.div_le_mono (T - now) (T - t) p Hp ltac:(lia)).
  pose proof (Z.div_pos (T - now) p ltac:(lia) Hp). lia.
Qed.

Section work.
(** The worker runs from [t0] until before [T]. *)
Context (t0 T : time).

Notation leases := (periods lease T).
Definition entry_work (x : entry) : nat :=
  let attempts := S (Z.to_nat (maxAttempts - en_attempt x)) in
  if seqb (en_state x) "queued" then attempts * S (leases t0) + leases t0
  else if seqb (en_state x) "leased" then
    attempts * S (leases t0)
    + match en_expires x with Some t => Nat.min (leases t0) (leases t) | None => 0 end
  else 0.
Definition table_work (m : gmap string entry) : nat := map_fold (λ _ x n, entry_work x + n)%nat 0%nat m.

Lemma settled_work x : settled x → entry_work x = 0%nat.
Proof using Type.
  intros [H1 H2]. unfold entry_work.
  destruct (seqb (en_state x) "queued") eqn:E1; [by apply seqb_true in E1|].
  destruct (seqb (en_state x) "leased") eqn:E2; [by apply seqb_true in E2|]. done.
Qed.

Lemma queued_work x : en_state x = "queued" →
  entry_work x = (S (Z.to_nat (maxAttempts - en_attempt x)) * S (leases t0) + leases t0)%nat.
Proof using Type. unfold entry_work. by intros ->. Qed.
Lemma leased_work x t : en_state x = "leased" → en_expires x = Some t →
  entry_work x =
    (S (Z.to_nat (maxAttempts - en_attempt x)) * S (leases t0) + Nat.min (leases t0) (leases t))%nat.
Proof using Type. unfold entry_work. by intros -> ->. Qed.

Lemma entry_due_cases now x : entry_due now x = true →
  en_state x = "queued" ∨ (en_state x = "leased" ∧ ∃ t, en_expires x = Some t ∧ t ≤ now).
Proof using Type.
  unfold entry_due, queue_due. rewrite orb_true_iff, !andb_true_iff, !seqb_true.
  intros [[? _]|[? He]]; [by left|right]. split; [done|].
  destruct (en_expires x) as [t|]; [|done]. exists t. split; [done|]. by apply Z.leb_le.
Qed.
Lemma due_work now x : entry_due now x = true → (0 < entry_work x)%nat.
Proof using Type.
  intros [H|(H & t & Ht & _)]%entry_due_cases; 
    [rewrite queued_work by done|rewrite (leased_work x t) by done]; rewrite Nat.mul_succ_l; generalize (Z.to_nat (maxAttempts - en_attempt x) * S (leases t0))%nat; lia.
Qed.

(** Leasing a due row uses one of its turns, even if the row is put back. *)
Lemma lease_work now x x' :
  t0 ≤ now → now < T → entry_due now x = true →
  en_state x' = "leased" → en_attempt x' = en_attempt x + 1 → en_expires x' = Some (now + lease) →
  (entry_work x' < entry_work x)%nat ∧
  ∀ x'', put_back x' x'' → (entry_work x'' < entry_work x)%nat.
Proof using Type.
  intros H0 HT Hdue Hs Ha He. pose proof (periods_next lease T t0 now eq_refl H0 HT) as Hn.
  assert (Hx : (S (Z.to_nat (maxAttempts - en_attempt x)) * S (leases t0) + S (leases (now + lease))
                ≤ entry_work x)%nat).
  { destruct (entry_due_cases now x Hdue) as [E|(E & t & Ht & Hle)].
    - rewrite queued_work by done. lia.
    - rewrite (leased_work x t) by done. pose proof (periods_next lease T t now eq_refl Hle HT). lia. }
  split.
  - rewrite (leased_work _ _ Hs He), Ha.
    assert (Hk : (S (Z.to_nat (maxAttempts - (en_attempt x + 1)))
                  ≤ S (Z.to_nat (maxAttempts - en_attempt x)))%nat) by lia.
    apply (Nat.mul_le_mono_r _ _ (S (leases t0))) in Hk. lia.
  - intros x'' (_ & Hq & Ha' & Hlt). rewrite queued_work by done. rewrite Ha', Ha in *.
    assert (S (Z.to_nat (maxAttempts - (en_attempt x + 1))) = Z.to_nat (maxAttempts - en_attempt x)) by lia.
    nia.
Qed.
End work.

(** ** What the transactions do to a queue *)

(** No row is added; a row is as it was, settled or, if it is row [who], put back. *)
Definition moves (who : option string) (m m' : gmap string entry) : Prop :=
  ∀ k x', m' !! k = Some x' →
    ∃ x, m !! k = Some x ∧ (x' = x ∨ settled x' ∨ (who = Some k ∧ put_back x x')).

#[export] Instance moves_preorder who : PreOrder (moves who).
Proof.
  split; [intros m k x Hx; exists x; auto|].
  intros m1 m2 m3 H1 H2 k x3 H3. destruct (H2 k x3 H3) as (x2 & Hx2 & Hc2).
  destruct (H1 k x2 Hx2) as (x1 & Hx1 & Hc1). exists x1. split; [done|].
  destruct Hc2 as [->|[?|[Hk Hp2]]]; [done|auto|]. destruct Hp2 as (Hl & Hr).
  destruct Hc1 as [->|[[_ ?]|(_ & _ & Hq & _)]]; [|done|congruence].
  right. right. split; [done|]. by split.
Qed.

(** The row [id], which was due, is leased or settled. *)
Definition claims (now : time) (id : string) (m m' : gmap string entry) : Prop :=
  ∃ x x', m !! id = Some x ∧ entry_due now x = true ∧ m' = <[id := x']> m ∧
    (settled x' ∨ (en_state x' = "leased" ∧ en_attempt x' = en_attempt x + 1 ∧
                   en_expires x' = Some (now + lease))).

Section tables.
Context (t0 T : time).
Notation entry_work := (entry_work t0 T).
Notation table_work := (table_work t0 T).

Lemma table_work_insert m k x :
  m !! k = None → table_work (<[k := x]> m) = (entry_work x + table_work m)%nat.
Proof using Type. intros Hk. unfold table_work. rewrite map_fold_insert_L; [done|intros; lia|done]. Qed.

Lemma table_work_split m k x :
  m !! k = Some x → table_work m = (entry_work x + table_work (delete k m))%nat.
Proof using Type.
  intros Hk. rewrite <-(insert_delete_id m k x Hk) at 1. apply table_work_insert. by rewrite lookup_delete_eq.
Qed.

Lemma table_work_le m m' :
  (∀ k x', m' !! k = Some x' → ∃ x, m !! k = Some x ∧ (entry_work x' ≤ entry_work x)%nat) →
  (table_work m' ≤ table_work m)%nat.
Proof using Type.
  revert m. induction m' as [|k x' m' Hk IH] using map_ind; intros m Hm.
  { unfold table_work at 1. rewrite map_fold_empty. lia. }
  destruct (Hm k x') as (x & Hx & Hle); [by rewrite lookup_insert_eq|].
  rewrite table_work_insert by done. rewrite (table_work_split m k x Hx).
  assert (table_work m' ≤ table_work (delete k m))%nat; [|lia].
  apply IH. intros j y' Hj. assert (j ≠ k) by (intros ->; congruence).
  destruct (Hm j y') as (y & Hy & Hyle); [by rewrite lookup_insert_ne|].
  exists y. by rewrite lookup_delete_ne.
Qed.

Lemma moves_none_work m m' : moves None m m' → (table_work m' ≤ table_work m)%nat.
Proof using Type.
  intros H. apply table_work_le. intros k x' Hk. destruct (H k x' Hk) as (x & Hx & Hc).
  exists x. split; [done|]. destruct Hc as [->|[Hs|[? _]]]; [done| |done].
  rewrite (settled_work t0 T x' Hs). lia.
Qed.

(** A row that was claimed has fewer turns left when its turn is over. *)
Lemma claimed_work now id m m1 m2 :
  t0 ≤ now → now < T → claims now id m m1 → moves (Some id) m1 m2 → (table_work m2 < table_work m)%nat.
Proof using Type.
  intros H0 HT (x & x' & Hx & Hdue & -> & Hc) Hm.
  assert (Hlt : (entry_work x' < entry_work x)%nat ∧
    ∀ x'', x'' = x' ∨ settled x'' ∨ put_back x' x'' → (entry_work x'' < entry_work x)%nat).
  { pose proof (due_work t0 T now x Hdue) as Hpos.
    destruct Hc as [Hs|(Hs & Ha & He)].
    - rewrite (settled_work t0 T x' Hs). split; [done|].
      intros x'' [->|[Hs'|(Hl & _)]]; [by rewrite (settled_work t0 T x' Hs)| |].
      + by rewrite (settled_work t0 T x'' Hs').
      + by destruct Hs as [_ []].
    - destruct (lease_work t0 T now x x' H0 HT Hdue Hs Ha He) as [H1 H2]. split; [done|].
      intros x'' [->|[Hs'|Hp]]; [done|by rewrite (settled_work t0 T x'' Hs')|by apply H2]. }
  destruct Hlt as [Hlt Hfin].
  assert (Hrest : (table_work (delete id m2) ≤ table_work (delete id m))%nat).
  { apply moves_none_work. intros k y' [Hne Hy]%lookup_delete_Some.
    destruct (Hm k y' Hy) as (y & Hy1 & Hc1). rewrite lookup_insert_ne in Hy1 by done.
    exists y. split; [by rewrite lookup_delete_ne|].
    destruct Hc1 as [?|[?|[[= ?] _]]]; [by left|by right; left|done]. }
  rewrite (table_work_split m id x Hx). destruct (m2 !! id) as [x2|] eqn:H2.
  - rewrite (table_work_split m2 id x2 H2). destruct (Hm id x2 H2) as (y & Hy & Hc2).
    rewrite lookup_insert_eq in Hy. injection Hy as <-.
    assert (entry_work x2 < entry_work x)%nat; [|lia].
    apply Hfin. destruct Hc2 as [?|[?|[_ ?]]]; auto.
  - rewrite delete_id in Hrest by done. lia.
Qed.
End tables.

(** ** What the transactions do to the queues *)

(** Nothing is added to a queue; a row is put back only if it is row [who q]. *)
Definition served (who : queue → option string) : relation db := λ d d',
  ∀ q, moves (who q) (entries q d) (entries q d').
#[export] Instance served_preorder who : PreOrder (served who).
Proof.
  split; [intros d q; reflexivity|]. intros d1 d2 d3 H1 H2 q. by trans (entries q d2).
Qed.

Definition only (q : queue) (id : string) : queue → option string :=
  λ q', if decide (q' = q) then Some id else None.
Lemma only_same q id : only q id q = Some id.
Proof. unfold only. by rewrite decide_True. Qed.
Lemma only_other q id q' : q' ≠ q → only q id q' = None.
Proof. intros H. unfold only. by rewrite decide_False. Qed.

Section rows.
Context {R : Type} (ent : R → entry) (who : option string).
Implicit Types m : gmap string R.

Lemma moves_alter f id m :
  (∀ r, m !! id = Some r →
     ent (f r) = ent r ∨ settled (ent (f r)) ∨ (who = Some id ∧ put_back (ent r) (ent (f r)))) →
  moves who (ent <$> m) (ent <$> alter f id m).
Proof using Type.
  intros Hf k x' Hx. rewrite lookup_fmap in Hx. setoid_rewrite lookup_fmap.
  destruct (decide (k = id)) as [->|Hk].
  - rewrite lookup_alter_eq in Hx. destruct (m !! id) as [r|]; [|done]. injection Hx as <-.
    exists (ent r). split; [done|]. by apply Hf.
  - rewrite lookup_alter_ne in Hx by done. exists x'. auto.
Qed.
Lemma moves_delete_where p m : moves who (ent <$> m) (ent <$> delete_where p m).
Proof using Type.
  intros k x' Hx. rewrite lookup_fmap in Hx. rewrite lookup_delete_where in Hx.
  exists x'. rewrite lookup_fmap. destruct (m !! k) as [r|]; [|done]. cbn in *.
  destruct (p k r); [done|]. auto.
Qed.
Lemma moves_update_where p f m :
  (∀ r, ent (f r) = ent r) → moves who (ent <$> m) (ent <$> update_where p f m).
Proof using Type.
  intros Hf k x' Hx. rewrite lookup_fmap, lookup_update_where in Hx.
  exists x'. rewrite lookup_fmap. destruct (m !! k) as [r|]; [|done]. cbn in *.
  destruct (p k r); rewrite ?Hf in Hx; auto.
Qed.
End rows.

Ltac served_write :=
  let q := fresh "q" in
  intros q; destruct q; cbn [entries]; db_simpl; try reflexivity;
  first [ apply moves_alter; intros; first [by left|by right; left]
        | apply moves_delete_where | apply moves_update_where; by intros ].

Lemma complete_validation_served who a b c e f : respects (served who) (CompleteValidationJob a b c e f).
Proof. unfold CompleteValidationJob. respects_all; served_write. Qed.
Lemma complete_redaction_served who a b c e : respects (served who) (CompleteRedactionJob a b c e).
Proof. unfold CompleteRedactionJob. respects_all; served_write. Qed.
Lemma complete_deletion_served who a b c : respects (served who) (CompleteDeletionRequest a b c).
Proof. unfold CompleteDeletionRequest. respects_all; served_write. Qed.
Lemma complete_purge_served who a b c : respects (served who) (CompleteRetentionPurge a b c).
Proof. unfold CompleteRetentionPurge. respects_all; served_write. Qed.

(** *** Requeueing puts back the row it names, and no other *)

(** After a row was read and a first statement run on it, the rest is as usual. *)
Lemma respects_row_of {R A} (Q : relation db) `{!PreOrder Q} (table : db → gmap string R) id e (k : R → tx A) :
  (∀ d r, table d !! id = Some r → ∀ a d', k r d = Ok (a, d') → Q d d') →
  respects Q (bind (row_of table id e) k).
Proof. intros Hk d a d' (r & d1 & [Hr ->]%row_of_ok & H)%bind_ok. by eapply Hk. Qed.
Lemma served_modify {A} who f (k : () → tx A) d a d' :
  served who d (f d) → respects (served who) (k ()) → bind (modify f) k d = Ok (a, d') → served who d d'.
Proof. intros Hf Hk ([] & d1 & [= <-] & H)%bind_ok. trans (f d); [done|by eapply Hk]. Qed.

Ltac served_alter H :=
  eapply served_modify in H; [exact H| |respects_all; served_write];
  let q := fresh "q" in
  intros q; destruct q; cbn [entries]; db_simpl; try reflexivity; apply moves_alter; intros r Hr.
(** What an alter at the row that was read does to it. *)
Ltac same_row := match goal with H1 : ?m !! ?k = Some ?r, H2 : ?m !! ?k = Some ?p |- _ =>
  assert (r = p) as -> by congruence end.

Lemma requeue_validation_served who a b c now :
  who QValidation = Some a → respects (served who) (RequeueValidationJob a b c maxAttempts now).
Proof.
  intros Hw. unfold RequeueValidationJob. apply respects_bind; [apply _|apply respects_fail_if, _|intros _].
  apply respects_row_of; [apply _|]. intros d j Hj x d' H.
  apply bind_ok in H as (u & d1 & [Hl ->]%fail_if_ok & H). apply negb_false_iff, holds_lease_state in Hl.
  cbv zeta in H. destruct (Z.ltb_spec (job_attempt j) maxAttempts) as [Ha|Ha].
  - served_alter H. same_row. right; right. by split_and!.
  - served_alter H. by right; left.
Qed.

Lemma requeue_redaction_served who a b c now :
  who QRedaction = Some a → respects (served who) (RequeueRedactionJob a b c maxAttempts now).
Proof.
  intros Hw. unfold RequeueRedactionJob. apply respects_bind; [apply _|apply respects_fail_if, _|intros _].
  apply respects_row_of; [apply _|]. intros d j Hj x d' H.
  apply bind_ok in H as (u & d1 & [Hl ->]%fail_if_ok & H). apply negb_false_iff, holds_lease_state in Hl.
  cbv zeta in H. destruct (Z.ltb_spec (rjb_attempt j) maxAttempts) as [Ha|Ha].
  - served_alter H. same_row. right; right. by split_and!.
  - served_alter H. by right; left.
Qed.

Lemma requeue_deletion_served who a b c now :
  who QErasure = Some a → respects (served who) (RequeueDeletionRequest a b c maxAttempts now).
Proof.
  intros Hw. unfold RequeueDeletionRequest.
  apply respects_row_of; [apply _|]. intros d q Hq x d' H.
  apply bind_ok in H as (u & d1 & [Hl ->]%fail_if_ok & H). apply negb_false_iff, holds_lease_state in Hl.
  cbv zeta in H. destruct (Z.leb_spec maxAttempts (del_attempt q)) as [Ha|Ha].
  - served_alter H. by right; left.
  - served_alter H. same_row. right; right. by split_and!.
Qed.

Lemma requeue_purge_served who a b c now :
  who QPurge = Some a → respects (served who) (RequeueRetentionPurge a b c maxAttempts now).
Proof.
  intros Hw. unfold RequeueRetentionPurge.
  apply respects_row_of; [apply _|]. intros d q Hq x d' H.
  apply bind_ok in H as (u & d1 & [Hl ->]%fail_if_ok & H). apply negb_false_iff, holds_lease_state in Hl.
  cbv zeta in H. destruct (Z.leb_spec maxAttempts (prg_attempt q)) as [Ha|Ha].
  - served_alter H. by right; left.
  - served_alter H. same_row. right; right. by split_and!.
Qed.

(** *** Claims *)

(** One queue has handed out the row [id]; the others are as they were. *)
Definition claimed (q : queue) (now : time) (id : string) (d d' : db) : Prop :=
  claims now id (entries q d) (entries q d') ∧ ∀ q', q' ≠ q → entries q' d' = entries q' d.

Lemma claims_alter {R} (ent : R → entry) now id r f (m : gmap string R) :
  m !! id = Some r → entry_due now (ent r) = true →
  (settled (ent (f r)) ∨ (en_state (ent (f r)) = "leased" ∧ en_attempt (ent (f r)) = en_attempt (ent r) + 1 ∧
     en_expires (ent (f r)) = Some (now + lease))) →
  claims now id (ent <$> m) (ent <$> alter f id m).
Proof.
  intros Hr Hd Hf. exists (ent r), (ent (f r)). rewrite lookup_fmap, Hr. split_and!; [done..| |done].
  rewrite <-fmap_insert. f_equal. apply map_eq. intros k. destruct (decide (k = id)) as [->|Hk].
  - by rewrite lookup_alter_eq, lookup_insert_eq, Hr.
  - by rewrite lookup_alter_ne, lookup_insert_ne.
Qed.

Definition queues_kept : relation db := λ d d', ∀ q, entries q d' = entries q d.
#[export] Instance queues_kept_preorder : PreOrder queues_kept.
Proof. split; [by intros d q|]. intros d1 d2 d3 H1 H2 q. by rewrite H2, H1. Qed.

Lemma claimed_modify {A} q now id f (k : () → tx A) d a d' :
  claimed q now id d (f d) → respects queues_kept (k ()) → bind (modify f) k d = Ok (a, d') →
  claimed q now id d d'.
Proof.
  intros [H1 H2] Hk ([] & d1 & [= <-] & H)%bind_ok. apply Hk in H. split; [by rewrite H|].
  intros q' Hq. rewrite H. by apply H2.
Qed.

(** The rest of a claim writes to no queue. *)
Ltac kept_queues := respects_all; let q := fresh "q" in intros q; destruct q; cbn [entries]; by db_simpl.
Ltac claimed_alter Hr :=
  split; [cbn [entries]; db_simpl; eapply claims_alter; [exact Hr|..]
         |let q := fresh "q" in intros q ?; destruct q; cbn [entries]; db_simpl; done].

(** The row that was claimed is the one returned. *)
Ltac claimed_id H :=
  cbv zeta in H; clear -H; insert_inv;
  repeat match goal with
  | H : (if ?b then _ else _) _ = Ok (_, _) |- _ => destruct b eqn:?; insert_inv
  | H : (let (_, _) := ?p in _) _ = Ok (_, _) |- _ => destruct p; insert_inv
  end; reflexivity.

Lemma first_due_row {R} (available_at : R → time) due locked (m : gmap string R) k r :
  first_due available_at due locked m = Some (k, r) → m !! k = Some r ∧ due k r = true.
Proof. intros H. apply first_due_some in H. naive_solver. Qed.

Lemma claim_validation_claimed workerID now locked d job d' :
  ClaimValidationJob workerID lease now locked d = Ok (job, d') → claimed QValidation now (pj_ID job) d d'.
Proof.
  unfold ClaimValidationJob. intros H. apply bind_ok in H as (u & d0 & [_ ->]%fail_if_ok & H).
  rewrite bind_get in H. apply bind_ok in H as ([id j] & d0 & [Hf ->]%some_or_ok & H).
  apply first_due_row in Hf as [Hj Hd]. unfold validation_due in Hd. apply andb_true_iff in Hd as [_ Hd].
  assert (pj_ID job = id) as -> by (claimed_id H).
  cbv zeta in H. eapply claimed_modify in H; [exact H|claimed_alter Hj|kept_queues]; [done|]. right. by split_and!.
Qed.

Lemma claim_redaction_claimed workerID now locked d job d' :
  ClaimRedactionJob workerID lease now locked d = Ok (job, d') → claimed QRedaction now (rj_ID job) d d'.
Proof.
  unfold ClaimRedactionJob. intros H. apply bind_ok in H as (u & d0 & [_ ->]%fail_if_ok & H).
  rewrite bind_get in H. apply bind_ok in H as ([id j] & d0 & [Hf ->]%some_or_ok & H).
  apply first_due_row in Hf as [Hj Hd].
  assert (rj_ID job = id) as -> by (claimed_id H).
  apply bind_ok in H as (s & d0 & [_ ->]%row_of_ok & H).
  apply bind_ok in H as (u0 & d0 & [_ ->]%fail_if_ok & H).
  apply bind_ok in H as (u1 & d0 & [_ ->]%fail_if_ok & H).
  cbv zeta in H. eapply claimed_modify in H; [exact H|claimed_alter Hj|kept_queues]; [done|].
  right. by split_and!.
Qed.

Lemma claim_deletion_claimed workerID now locked d request d' :
  ClaimDeletionRequest workerID lease now locked d = Ok (request, d') →
  claimed QErasure now (dr_ID request) d d'.
Proof.
  unfold ClaimDeletionRequest. intros H.
  rewrite bind_get in H. apply bind_ok in H as ([id q] & d0 & [Hf ->]%some_or_ok & H).
  apply first_due_row in Hf as [Hq Hd]. apply andb_true_iff in Hd as [Hd _].
  assert (dr_ID request = id) as -> by (claimed_id H).
  apply bind_ok in H as (s & d0 & [_ ->]%row_of_ok & H). cbv zeta in H.
  destruct (negb _); [|destruct (under_hold _ _)];
    (eapply claimed_modify in H; [exact H|claimed_alter Hq|kept_queues]; [done|]).
  - by left.
  - by left.
  - right. by split_and!.
Qed.

Lemma claim_purge_claimed workerID now locked d request d' :
  ClaimRetentionPurge workerID lease now locked d = Ok (request, d') →
  claimed QPurge now (rq_ID request) d d'.
Proof.
  unfold ClaimRetentionPurge. intros H.
  rewrite bind_get in H. apply bind_ok in H as ([id q] & d0 & [Hf ->]%some_or_ok & H).
  apply first_due_row in Hf as [Hq Hd].
  assert (rq_ID request = id) as -> by (claimed_id H).
  cbv zeta in H. apply bind_ok in H as (p & d0 & [_ ->]%some_or_ok & H).
  apply bind_ok in H as ([eligible held] & d0 & [_ ->]%lift_ok & H).
  destruct (_ || _); [|destruct held]; rewrite ?bind_assoc in H;
    (eapply claimed_modify in H; [exact H|claimed_alter Hq|kept_queues]; [done|]).
  - by left.
  - by left.
  - right. by split_and!.
Qed.

(** ** What a turn does to the queues *)

Definition only_serves {B} (who : queue → option string) : relation (world B) := λ w w',
  served who (w_db w) (w_db w') ∧ w_next_sweep w' = w_next_sweep w.
#[export] Instance only_serves_preorder {B} who : PreOrder (@only_serves B who).
Proof.
  split; [intros w; by split|]. intros w1 w2 w3 [H1 E1] [H2 E2].
  split; [by trans (w_db w2)|by rewrite E2].
Qed.

Create HintDb serves discriminated.
#[export] Hint Resolve complete_validation_served complete_redaction_served complete_deletion_served
  complete_purge_served requeue_validation_served requeue_redaction_served requeue_deletion_served
  requeue_purge_served only_same : serves.

Section serving.
Context {B : Type} {HS : BlobStore B} (env : environment) (Hidle : undisturbed env).
Context (who : queue → option string).

Lemma serves_clock : does (only_serves who) (clock (B:=B) env).
Proof using Type. by intros w x w' [= _ <-]. Qed.
Lemma serves_store {A} (op : nat → tx A) :
  (∀ n, respects (served who) (op n)) → does (only_serves who) (store_call (B:=B) env op).
Proof using Hidle.
  intros Hop w x w'. rewrite (store_call_idle env Hidle). unfold run_tx.
  destruct (op _ _) as [[a d]|e] eqn:E; intros [= _ <-]; split; try done. by eapply Hop.
Qed.
Lemma serves_read {A} (query : db → A) : does (only_serves who) (store_read (B:=B) env query).
Proof using Hidle. intros w x w' [= _ <-]. split; cbn; [by rewrite Hidle|done]. Qed.
Lemma serves_blob {A} (op : time → B → A * B) : does (only_serves who) (blob_call env op).
Proof using Type. intros w x w'. unfold blob_call. destruct (op _ _) as [a b]. by intros [= _ <-]. Qed.
End serving.
#[export] Hint Resolve serves_clock serves_read serves_blob : serves.

Ltac serves_step :=
  match goal with
  | |- does _ _ => solve [auto with serves]
  | |- does _ (store_call _ _) => apply serves_store; [assumption|intros ?; solve [auto with serves]]
  | |- does _ (wbind _ _) => apply does_bind; [apply _| |intros ?]
  | |- does _ (wret _) => apply does_ret; apply _
  | |- does _ (match ?x with _ => _ end) => destruct x
  | |- does _ (let _ := _ in _) => cbv zeta
  | |- does _ ?m => let h := head_of m in unfold h
  end.

Section turn_serves.
Context {B : Type} {HS : BlobStore B} (env : environment) (Hidle : undisturbed env).
Variables (validate : string → list Artifact → B → result string (string * list string) * B)
  (video : option ((reader → result string MediaInfo) *
                   (reader → list RedactionRegion → string * option string)))
  (store_text : error → string) (blob_text : blob_error → string) (json_error : string → string).

Lemma serves_purge_keys who keys : does (only_serves who) (purge_keys env blob_text keys).
Proof using Type. induction keys as [|key keys IH]; cbn [purge_keys]; repeat serves_step; exact IH. Qed.
Lemma serves_render_segments who inspect redact plan segments :
  does (only_serves who) (render_segments env blob_text inspect redact plan segments).
Proof using Type.
  induction segments as [|s segments IH]; cbn [render_segments]; repeat serves_step; exact IH.
Qed.
Hint Resolve serves_purge_keys serves_render_segments : serves.

Lemma processValidation_serves job workerID :
  does (only_serves (only QValidation (pj_ID job)))
    (processValidation env validate store_text blob_text json_error job workerID).
Proof using Hidle. unfold processValidation. repeat serves_step. Qed.

Lemma run_deletion_serves request workerID :
  does (only_serves (only QErasure (dr_ID request))) (run_deletion env store_text blob_text request workerID).
Proof using Hidle. unfold run_deletion. repeat serves_step. Qed.

Lemma run_purge_serves request workerID :
  does (only_serves (only QPurge (rq_ID request))) (run_purge env store_text blob_text request workerID).
Proof using Hidle. unfold run_purge. repeat serves_step. Qed.
End turn_serves.

(** ** A turn that takes up a row uses up work *)

Section work.
Context (t0 T : time).

Definition queue_work (d : db) : nat :=
  (table_work t0 T (entries QValidation d) + table_work t0 T (entries QRedaction d)
   + table_work t0 T (entries QErasure d) + table_work t0 T (entries QPurge d))%nat.

Lemma claimed_served_work q now id d d1 d2 :
  t0 ≤ now → now < T → claimed q now id d d1 → served (only q id) d1 d2 →
  (queue_work d2 < queue_work d)%nat.
Proof using Type.
  intros H0 HT [Hc Ho] Hs.
  assert (Hown : (table_work t0 T (entries q d2) < table_work t0 T (entries q d))%nat).
  { eapply claimed_work; [exact H0|exact HT|exact Hc|]. rewrite <-(only_same q id). apply Hs. }
  assert (Hother : ∀ q', q' ≠ q → (table_work t0 T (entries q' d2) ≤ table_work t0 T (entries q' d))%nat).
  { intros q' Hq. rewrite <-(Ho q' Hq). apply moves_none_work. rewrite <-(only_other q id q' Hq). apply Hs. }
  unfold queue_work.
  destruct q; repeat match goal with
  | |- context [table_work t0 T (entries ?p d2)] =>
    lazymatch goal with
    | H : (table_work t0 T (entries p d2) ≤ _)%nat |- _ => fail
    | H : (table_work t0 T (entries p d2) < _)%nat |- _ => fail
    | _ => pose proof (Hother p ltac:(done))
    end
  end; lia.
Qed.

(** What a sweep may add: a hundred rows with all their attempts. *)
Definition new_row_work : nat := entry_work t0 T
  {| en_state := "queued"; en_available := t0; en_attempt := 0; en_expires := None |}.
Definition sweeps_left (next : time) : nat :=
  periods retentionSweepInterval T (if IsZero next then t0 else next).
Definition drain_work {B} (w : world B) : nat :=
  (queue_work (w_db w) + sweeps_left (w_next_sweep w) * (100 * new_row_work))%nat.

Lemma queue_candidate_work actor now r c d n d' :
  queue_candidate actor now r c d = Ok (n, d') → (queue_work d' ≤ queue_work d + new_row_work)%nat.
Proof using Type.
  unfold queue_candidate. intros H. apply bind_ok in H as (id & d1 & [_ ->]%newID_ok & H).
  rewrite bind_get in H. destruct (purge_conflict d id c) eqn:Hc.
  { injection H as _ <-. lia. }
  unfold purge_conflict in Hc. apply orb_false_iff in Hc as [Hc _].
  apply bool_decide_eq_false, eq_None_not_Some in Hc.
  insert_inv. unfold queue_work. cbn [entries]. db_simpl.
  rewrite fmap_insert, table_work_insert by (by rewrite lookup_fmap, Hc).
  change (entry_work t0 T (purge_entry (candidate_row c now))) with new_row_work. lia.
Qed.

Lemma queue_candidates_work actor now randoms k candidates d n d' :
  queue_candidates actor now randoms k candidates d = Ok (n, d') →
  (queue_work d' ≤ queue_work d + length candidates * new_row_work)%nat.
Proof using Type.
  revert k d n d'. induction candidates as [|c l IH]; intros k d n d'; cbn [queue_candidates length].
  - intros [= _ <-]. lia.
  - intros H. apply bind_ok in H as (a & d1 & H1%queue_candidate_work & H).
    apply bind_ok in H as (b & d2 & H2%IH & [= _ <-]). lia.
Qed.

Lemma sweep_work actor now randoms d n d' :
  QueueExpiredRetention actor now 100 randoms d = Ok (n, d') →
  (queue_work d' ≤ queue_work d + 100 * new_row_work)%nat.
Proof using Type.
  unfold QueueExpiredRetention. intros H. apply bind_ok in H as (u & d1 & [_ ->]%fail_if_ok & H).
  rewrite bind_get in H. apply queue_candidates_work in H.
  pose proof (expired_candidates_length d now 100) as Hl. change (Z.to_nat 100) with 100%nat in Hl.
  apply (Nat.mul_le_mono_r _ _ new_row_work) in Hl. lia.
Qed.

Section turns.
Context {B : Type} {HS : BlobStore B} (env : environment) (Hidle : undisturbed env).
Context (H0 : 0 ≤ t0) (Hnow : ∀ n, t0 ≤ env_now env n < T).
Variables (validate : string → list Artifact → B → result string (string * list string) * B)
  (video : option ((reader → result string MediaInfo) *
                   (reader → list RedactionRegion → string * option string)))
  (store_text : error → string) (blob_text : blob_error → string) (json_error : string → string).

(** Taken up: less work; otherwise no queue and no sweep was touched. *)
Definition used (o : bool * option string) (w w' : world B) : Prop :=
  if o.1 then (drain_work w' < drain_work w)%nat
  else handled o = false → w_db w' = w_db w ∧ w_next_sweep w' = w_next_sweep w.

(** A claim that succeeded, and the rest of its turn. *)
Lemma claimed_rest {A} q now id d d1 (m : W B A) x next blobs tick (blobs' : B) tick' w' :
  t0 ≤ now < T → claimed q now id d d1 → does (only_serves (only q id)) m →
  m {| w_db := d1; w_blobs := blobs; w_next_sweep := next; w_tick := tick |} = (x, w') →
  (drain_work w' < drain_work {| w_db := d; w_blobs := blobs'; w_next_sweep := next; w_tick := tick' |})%nat.
Proof using Type.
  intros [Hn HT] Hc Hm [Hs Hw]%Hm. cbn in Hs, Hw.
  pose proof (claimed_served_work q now id d d1 (w_db w') Hn HT Hc Hs).
  unfold drain_work. rewrite Hw. cbn. lia.
Qed.

Ltac first_claim :=
  unfold wbind at 1, clock at 1; unfold wbind at 1;
  rewrite (store_call_idle env Hidle); cbn [w_db w_tick w_blobs w_next_sweep]; unfold run_tx.

Lemma processDeletion_used workerID (w : world B) x w' :
  processDeletion env store_text blob_text workerID w = (x, w') → used x w w'.
Proof using Hidle Hnow.
  destruct w as [d blobs next tick]. unfold processDeletion. first_claim.
  destruct (ClaimDeletionRequest _ _ _ _ _) as [[request d1]|e] eqn:E.
  - apply claim_deletion_claimed in E. intros H. unfold used.
    rewrite (run_deletion_takes_up _ _ _ _ _ _ _ _ H).
    eapply claimed_rest; [apply Hnow|exact E|by apply run_deletion_serves|exact H].
  - by destruct e; intros [= <- <-].
Qed.

Lemma processRedaction_used workerID inspect redact (w : world B) x w' :
  processRedaction env store_text blob_text workerID inspect redact w = (x, w') → used x w w'.
Proof using Hidle Hnow.
  destruct w as [d blobs next tick]. unfold processRedaction. first_claim.
  destruct (ClaimRedactionJob _ _ _ _ _) as [[job d1]|e] eqn:E; [|by destruct e; intros [= <- <-]].
  apply claim_redaction_claimed in E.
  match goal with |- ?m ?w1 = _ → _ => assert (Ht : takes_up m); [|assert (Hs : does (only_serves (only QRedaction (rj_ID job))) m)] end.
  - takes_up_all.
  - repeat serves_step. apply serves_render_segments.
  - intros H. unfold used. rewrite (Ht _ _ _ H). eapply claimed_rest; [apply Hnow|exact E|exact Hs|exact H].
Qed.

(** The sweep of retention, then one purge. *)
Lemma sweep_used workerID now (w : world B) failed w' :
  t0 ≤ now < T → sweep env store_text workerID now w = (failed, w') →
  failed = None → (drain_work w' ≤ drain_work w)%nat.
Proof using Hidle H0.
  intros [Hn HT] H ->. revert H. destruct w as [d blobs next tick].
  unfold sweep. unfold wbind at 1, next_sweep at 1. cbn [w_next_sweep].
  destruct (IsZero next || negb (now <? next)) eqn:Hd; [|by intros [= <-]].
  unfold wbind at 1. rewrite (store_call_idle env Hidle). cbn [w_db w_tick w_blobs w_next_sweep]. unfold run_tx.
  destruct (QueueExpiredRetention _ _ _ _ _) as [[n d1]|e] eqn:E; [|by intros [=]].
  intros [= <-]. apply sweep_work in E. unfold drain_work. cbn [w_db w_next_sweep].
  assert (Hleft : (S (sweeps_left (now + retentionSweepInterval)%Z) ≤ sweeps_left next)%nat).
  { unfold sweeps_left. assert (IsZero (now + retentionSweepInterval) = false) as ->.
    { apply Z.eqb_neq. assert (0 < retentionSweepInterval) by done. lia. }
    apply periods_next; [done| |done]. destruct (IsZero next); [done|]. cbn in Hd.
    apply negb_true_iff, Z.ltb_ge in Hd. done. }
  apply (Nat.mul_le_mono_r _ _ (100 * new_row_work)) in Hleft. rewrite Nat.mul_succ_l in Hleft. lia.
Qed.

Lemma processRetention_used workerID (w : world B) x w' :
  processRetention env store_text blob_text workerID w = (x, w') → x.1 = true →
  (drain_work w' < drain_work w)%nat.
Proof using Hidle Hnow H0.
  destruct w as [d blobs next tick]. unfold processRetention. unfold wbind at 1, clock at 1. unfold wbind at 1.
  destruct (sweep _ _ _ _ _) as [failed w1] eqn:Es.
  destruct failed as [e|]; [by intros [= <- _]|].
  apply sweep_used in Es; [|apply Hnow|done]. destruct w1 as [d1 blobs1 next1 tick1].
  unfold wbind at 1. rewrite (store_call_idle env Hidle). cbn [w_db w_tick w_blobs w_next_sweep]. unfold run_tx.
  destruct (ClaimRetentionPurge _ _ _ _ _) as [[request d2]|e] eqn:E; [|by destruct e; intros [= <- _]].
  apply claim_purge_claimed in E. intros H _.
  eapply Nat.lt_le_trans; [|exact Es].
  eapply claimed_rest; [apply Hnow|exact E|by apply run_purge_serves|exact H].
Qed.

Lemma drain_work_same (w w' : world B) :
  w_db w' = w_db w → w_next_sweep w' = w_next_sweep w → drain_work w' = drain_work w.
Proof using Type. unfold drain_work. by intros -> ->. Qed.

(** [if err != nil || processed { return processed, err }] with progress. *)
Lemma used_then (m k : W B (bool * option string)) w x w' :
  (∀ x w', m w = (x, w') → used x w w') →
  (∀ w1 x w', k w1 = (x, w') → x.1 = true → (drain_work w' < drain_work w1)%nat) →
  wbind m (λ o, if handled o then wret o else k) w = (x, w') → x.1 = true →
  (drain_work w' < drain_work w)%nat.
Proof using Type.
  intros Hm Hk. unfold wbind. destruct (m w) as [o w1] eqn:E. specialize (Hm o w1 eq_refl).
  unfold used in Hm. destruct (handled o) eqn:Ho.
  - intros [= <- <-] Hx. by rewrite Hx in Hm.
  - intros H Hx. unfold handled in Ho. apply orb_false_iff in Ho as [H1 H2]. rewrite H1 in Hm.
    destruct Hm as [Hd Hs]; [unfold handled; by rewrite ?H1, ?H2|].
    rewrite <-(drain_work_same w w1 Hd Hs). by eapply Hk.
Qed.

Lemma ProcessNext_used workerID (w : world B) x w' :
  ProcessNext env validate video store_text blob_text json_error workerID w = (x, w') → x.1 = true →
  (drain_work w' < drain_work w)%nat.
Proof using Hidle Hnow H0.
  destruct w as [d blobs next tick]. unfold ProcessNext. first_claim.
  destruct (ClaimValidationJob _ _ _ _ _) as [[job d1]|e] eqn:E.
  - apply claim_validation_claimed in E. intros H _.
    eapply claimed_rest; [apply Hnow|exact E|by apply processValidation_serves|exact H].
  - assert (Hskip : idle_turn env video store_text blob_text workerID
      {| w_db := d; w_blobs := blobs; w_next_sweep := next; w_tick := S (S tick) |} = (x, w') → x.1 = true →
      (drain_work w' < drain_work {| w_db := d; w_blobs := blobs; w_next_sweep := next; w_tick := tick |})%nat).
    { intros H. change (drain_work {| w_db := d; w_blobs := blobs; w_next_sweep := next; w_tick := tick |})
        with (drain_work {| w_db := d; w_blobs := blobs; w_next_sweep := next; w_tick := S (S tick) |}).
      revert H. apply used_then.
      - intros x1 w1. destruct video as [[inspect redact]|]; [apply processRedaction_used|by intros [= <- <-]].
      - intros w1 x1 w2. apply used_then; [apply processDeletion_used|apply processRetention_used]. }
    destruct e; try exact Hskip; by intros [= <- _].
Qed.
End turns.
End work.

(** ** The loop in drain mode *)

Section loop.
Context (t0 T : time) {B : Type} {HS : BlobStore B} (env : environment) (sig : signals).
Context (Hidle : undisturbed env) (H0 : 0 ≤ t0) (Hnow : ∀ n, t0 ≤ env_now env n < T).
Variables (validate : string → list Artifact → B → result string (string * list string) * B)
  (video : option ((reader → result string MediaInfo) *
                   (reader → list RedactionRegion → string * option string)))
  (store_text : error → string) (blob_text : blob_error → string) (json_error : string → string)
  (cancelled : string → bool).

Notation turn := (ProcessNext env validate video store_text blob_text json_error).

Definition returned (reason : string) : Prop :=
  reason = "drained" ∨ (reason = "signal" ∧ ∃ n, sg_done sig n = true).

(** A round returns, or it used up work. *)
Lemma round_returns workerID (w : world B) :
  ∃ logs o w', worker_round env sig turn cancelled workerID true w = ((logs, o), w') ∧
    match o with
    | Some reason => returned reason
    | None => (drain_work t0 T w' < drain_work t0 T w)%nat
    end.
Proof using Hidle H0 Hnow.
  unfold worker_round. unfold wbind at 1. destruct (turn workerID w) as [[took failed] w1] eqn:E.
  pose proof (λ H, ProcessNext_used t0 T env Hidle H0 Hnow _ _ _ _ _ _ _ _ _ E H) as Hused. unfold wbind at 1. cbn [fst snd] in *.
  destruct (sg_done sig (w_tick w1)) eqn:Hd.
  { eexists _, _, _. split; [reflexivity|]. right. eauto. }
  destruct took.
  - eexists _, _, _. split; [reflexivity|]. by apply Hused.
  - eexists _, _, _. split; [reflexivity|]. by left.
Qed.

Lemma rounds_return workerID fuel (w : world B) :
  (drain_work t0 T w < fuel)%nat →
  ∃ logs reason w', worker_rounds env sig turn cancelled workerID true fuel w = ((logs, Some reason), w') ∧
    returned reason.
Proof using Hidle H0 Hnow.
  revert w. induction fuel as [|fuel IH]; intros w Hf; [lia|]. cbn [worker_rounds]. unfold wbind at 1.
  destruct (round_returns workerID w) as (l & o & w1 & -> & Ho). destruct o as [reason|]; cbn [fst snd].
  - eauto.
  - destruct (IH w1) as (l' & reason & w2 & Hr & ?); [lia|]. unfold wbind. rewrite Hr. eauto 6.
Qed.
End loop.

(** The work in a database, with the sweeps of retention until [T]. *)
Definition drain_bound (t0 T : time) (d : db) : nat :=
  (queue_work t0 T d + sweeps_left t0 T 0%Z * (100 * new_row_work t0 T))%nat.

(** C14: a draining worker returns.  A worker program that starts in drain mode, that
    other clients do not disturb and whose clock stays before [T] leaves its loop,
    as drained or because a signal came, within a number of turns that its database
    and [T] bound: whatever the object store, the validator, the media programs and
    the failures of its own writes do, a job is tried three times and once more for
    each lease that runs out, and each sweep of retention adds at most a hundred. *)
Theorem draining_worker_returns pf {B} `{BlobStore B} env sig connect inspect redact cancelled store_text
    blob_text newLocal migrate workerID fuel s b s1 t0 T :
  undisturbed env → 0 ≤ t0 → (∀ n, t0 ≤ env_now env n < T) →
  start_worker pf newLocal migrate s = (Ok b, s1) → wc_Drain (bw_config b) = true →
  (drain_bound t0 T (ms_state s1) < fuel)%nat →
  ∃ logs reason w',
    run_worker (B := B) pf env sig connect inspect redact cancelled store_text blob_text newLocal migrate
      workerID fuel s = (Ok (logs, Some reason, w'), s1) ∧
    (reason = "drained" ∨ (reason = "signal" ∧ ∃ n, sg_done sig n = true)).
Proof.
  intros Hidle H0 Hnow Hs Hd Hf. unfold run_worker. rewrite Hs.
  destruct (logQueueSnapshot env (built_world connect b s1)) as [snapshot w] eqn:Ew.
  assert (Hw : drain_work t0 T w = drain_bound t0 T (ms_state s1)).
  { revert Ew. unfold logQueueSnapshot, wbind, clock, store_read, wret, built_world. cbn.
    rewrite Hidle. by intros [= _ <-]. }
  rewrite Hd. unfold built_turn.
  destruct (rounds_return t0 T env sig Hidle H0 Hnow
    (Validate (bw_schema b) (Some (inspect (bw_ffprobe b))) (pf_json_error pf) blob_text)
    (Some (inspect (bw_ffprobe b), redact (bw_ffmpeg b))) store_text blob_text (pf_json_error pf)
    cancelled workerID fuel w) as (l & reason & w' & -> & Hr); [lia|].
  eexists _, reason, w'. by split.
Qed.

(** The sample worker, with an erasure to carry out, is done within a thousand turns. *)
Lemma draining_worker_returns_witness :
  ∃ logs w' s1, sample_worker 1000 erasure_asked = (Ok (logs, Some "drained", w'), s1).
Proof.
  set (s := {| ms_applied := ∅; ms_state := erasure_asked |} : migrated (S := db)).
  assert (Hc : match start_worker sample_platform (λ _, Ok ()) (λ _ s, (None, s)) s with
               | (Ok b, s1) => (wc_Drain (bw_config b),
                   Nat.ltb (drain_bound (start + 10) (start + 11) (ms_state s1)) 1000)
               | (Err _, _) => (false, false)
               end = (true, true)) by (vm_compute; reflexivity).
  destruct (start_worker _ _ _ s) as [[b|e] s1] eqn:Es; [|discriminate Hc]. injection Hc as Hd Hf.
  apply Nat.ltb_lt in Hf.
  destruct (draining_worker_returns (B := memory) sample_platform (at_instant (start + 10)) no_signal (λ _, ∅)
    (λ _, inspect_fixed) (λ _, blacken) (λ _, false) (λ _, "refused") (λ _, "") (λ _, Ok ())
    (λ _ s, (None, s)) "worker" 1000 s b s1 (start + 10) (start + 11)) as (logs & reason & w' & Hr & Hx).
  - intros n d. reflexivity.
  - vm_compute. discriminate.
  - intros n. split; [apply Z.le_refl|reflexivity].
  - exact Es.
  - exact Hd.
  - exact Hf.
  - exists logs, w', s1. destruct Hx as [->|[_ [n Hn]]]; [exact Hr|discriminate Hn].
Defined.
